(* ===== verification/_CoqProject ===== *)
-Q . S2P
Prelude.v
Steps.v
Mem.v
Spinlock.v
Alloc.v
Heap.v
HeapProps.v
CString.v
DList.v
Ringbuf.v
Pmm.v
Ports.v
Paging.v
Idt.v
Device.v
Chardev.v
RingIsr.v
UartIsr.v
Rtclock.v
Vgafb.v
Objects.v
Vfs.v
Devfs.v
Tarfs.v
Scancodes.v
Vtcon.v
KernMain.v
Layout.v
ListAbs.v
VfsProps.v
DevfsProps.v
TarfsProps.v
TarTree.v
TarPaths.v
MountTable.v
VtconProps.v
VtconType.v
VtconKeys.v
Session.v
Opening.v
Welcome.v
Startup.v
Boot.v
