(* ===== verification/Prelude.v ===== *)
(** * NativeOS: a verification library

    NativeOS is a kernel for the i386 in C.  This library models its C code,
    from the port instructions to the console, function by function, and proves
    what the parts promise each other.  Names of functions, fields and constants
    are those of the code; paths below are relative to src/.

    ** The program and its model

    The boot code jumps to [kernel_main] (kernel/kern/kern_main.c), which starts
    the virtual file system, the device manager and with it the drivers, mounts
    the ramdisk, prints the message of the day and then reads the console for
    ever.  From below to above:

    - Prelude.v: integers of 8, 16 and 32 bits as [Z] with their wrap-around,
      the state and error monad [M], in which a command ends with a result and
      a state or with an error ([NullDeref], [OutOfBounds], [Diverges], ...), its
      rewriting rules and tactics, and the hint databases.
    - Mem.v: the byte memory and the part of the machine that low-level code
      runs on ([kst]: memory, the heap's statics, the record of port accesses,
      the hardware that answers them).  Ports.v: kernel/i386/i386/port.c.
    - Spinlock.v: kernel/i386/i386/spinlock.c, as commands and as steps of any
      number of processors.
    - Heap.v, HeapProps.v: arch/i386/kernel/mem/heap.c and alloc.c.  Alloc.v: the
      interface behind which their callers use them.
    - CString.v, DList.v, Ringbuf.v: kernel/stdkern.  Pmm.v:
      arch/i386/kernel/mem/pmm.c.  Paging.v: kernel/i386/i386/paging.c.  Idt.v:
      arch/i386/kernel/cpu/idt.c.
    - Device.v, Chardev.v, Rtclock.v, Vgafb.v: the drivers of kernel/device,
      with their interrupt handlers.  Steps.v, RingIsr.v, UartIsr.v: the readers
      of the keyboard and of the serial port (kbd.c, uart8250.c, ringbuf.c) an
      access to memory at a time, as threads that interrupts are interleaved
      with.
    - Objects.v: the store of structures that the code above the drivers works
      on.  Vfs.v: kernel/kern/fs_vfs.c, fs_fsops.c and fs_path.c.  Devfs.v:
      fs_devfs.c.  Tarfs.v: kernel/fs/tarfs.  Vtcon.v, Scancodes.v:
      kernel/device/vtcon.  KernMain.v: kern_main.c, and the tables that say
      which function pointer is which function.  Layout.v: the C structures
      and the rules that give their fields the offsets which the other files use.
    - ListAbs.v, VfsProps.v, DevfsProps.v, TarfsProps.v, VtconProps.v,
      VtconType.v, VtconKeys.v: the theorems about these.  TarTree.v, TarPaths.v:
      the directory tree that [tarfs_mount] builds, and the archive's files by
      their paths.  MountTable.v: mounting and unmounting, as the table of names
      and drivers that they implement.  Session.v: an interrupt, the reader and
      the screen together.  Opening.v ([vtcon_open]), Welcome.v
      ([kernel_welcome]'s loops), Startup.v (the mount and all of [kernel_main])
      and Boot.v (the machine with the repository's message): the start.

    In each file of code [Module Impl] (or a module per C file) is the
    translation: a C function is a definition of the same name, a static is a
    field of the state, an early return is a branch, a loop is a [Fixpoint].  The
    parts call each other as the C code does: the console reads and writes the
    files of the framebuffer, the keyboard and the clock through [fs_read] and
    [fs_write], these go through the operations' table of the node's file
    system, devfs passes them to the device, and an interrupt goes through
    [idt_handler] to the driver.

    ** Interfaces

    - [Allocator] (Alloc.v): malloc and free with their contract; discharged by
      the heap ([Heap.Interface.heap_allocator]), used by lists, ring buffers,
      [strdup] and the drivers.
    - [DeviceManager] (Device.v): what a driver's init function calls.
    - [FsDrivers] (Vfs.v), [Devices] and [Drivers] (Devfs.v): the function
      pointers of file systems, devices and drivers; KernMain.v fills them in.
    - [source] (RingIsr.v): what the reader of a ring buffer needs of the
      interrupt that writes to it; [keyboard_source] and [uart_source] provide it.
    - [ConsoleFiles] (VtconProps.v), [KeyboardFile] (VtconKeys.v), [QuietFiles]
      (VtconType.v): what the console relies on; the instances
      [kernel_console_files], [kernel_keyboard_file] and [quiet_kernel]
      show that the kernel keeps it.

    ** What is proved

    - The heap refines a first-fit allocator on a list of blocks.  Along every
      history of its clients in which no free merges through a stale link
      ([free_safe]), live buffers are disjoint and hold what was written to
      them; free merges neighbours; malloc followed by free is the identity on
      a chain with exact links and merged neighbours.  Two theorems are about
      the other histories: every split in front of a block leaves that block's
      link stale ([split_leaves_stale_prev]), and a free that follows such a link
      into another buffer, with a header's bytes there, writes to that buffer
      ([stale_prev_merges_into_buffer]).
    - Strings, lists and ring buffers compute the functions on sequences that
      they stand for; ListAbs.v carries the lists over to the object store.
    - The page allocator hands out the frame of the bitmap's lowest clear bit,
      never one that is held; with every frame of the memory taken that is one
      behind the memory, if such a bit is clear.  The memory map's reservations
      mark the frames they cover, for an unaligned base up to the last one.  The
      bitmap is allocated too small, for every memory of 65 frames or more: a
      theorem shows the damage to the heap.
    - Interrupts are dispatched and acknowledged, the keyboard's and the serial
      port's bytes reach their ring buffers; the clock's text, the framebuffer's
      clipping, the identity mapping of the low half.
    - Mounting, unmounting and path resolution work on a table of volumes and the
      root directory that lists them.  Along every history of requests this is a
      table of names and drivers, in which devfs is never mounted a second time
      (MountTable.v).  Devices are files; the archive's headers
      are visited once each, and a read is a slice of the file.  The tree that is
      rebuilt from the headers is the tree of their paths, whatever their order
      and however they are written (TarTree.v), so a path resolves as a walk
      over the entries says ([locate], TarPaths.v): to the file that has it or to
      NULL, and to the dereference of NULL when a directory on the way is missing.
      The fresh memory of the archive's payload has to be zero for this: its
      root is not initialised ([tarfs_root_is_stale]).
    - Interrupts between any two accesses of a read of the keyboard or the serial
      port lose no byte as long as the ring has room for what is pending and what
      arrives (and, at the serial port, is kept: without [VO_FWRITE] its interrupt
      drops the bytes).  [RingIsr.Reader] shows it for every interrupt that is a [source]
      of bytes for the ring: one that brings a byte each time (RingIsr.v) and one
      that brings as many as the receiver has (UartIsr.v).  A lemma shows the
      schedule that loses all when there is no room.
    - The fields of a structure lie inside it and do not overlap, and the offsets
      in the model are those of the structures (Layout.v).
    - The console refines eight abstract screens (VtconProps.v), keeps its
      statics typed along every sequence of calls (VtconType.v), and its
      modifiers are a function of the key events (VtconKeys.v).
    - The composition: an abstract console of eight screens and eight keyboard
      states ([Session.Machine]) is what dispatcher, ring buffer, file systems,
      decoder, console and framebuffer implement together ([Session.Refine]).
      From the state that the initialisation leaves ([Before.started]),
      [kernel_main] ends in its last loop with the message of the archive typed on
      this console, or nothing if the archive has none, or it dereferences NULL if
      the archive has no directory SYSTEM ([kernel_main_shows_motd]);
      the lemma [boot_prints_motd] runs the whole kernel on a machine with the
      repository's message, and [keystrokes_drive_console] takes any scancodes, extended ones
      too, and however they are grouped by the reads, from the interrupt to the
      reader and the screen; its witness continues from the machine that has
      booted.

    ** Fuel

    A loop that is not structural takes fuel and fails with [Diverges] when it
    runs out, and each theorem about such a loop gives a fuel that is enough:
    the heap has at most 65536 blocks ([HEAP_FUEL]), as each has a header of 20
    bytes in the megabyte between the linker symbols; loops over a string take
    more than its length; a list's loops more than its nodes; [scan_blocks] the
    number of files and a few rounds for the octal fields; the walks that
    rebuild the tree as many rounds as there are files; [motd_loop] a round for
    each 64 bytes of the file, and one; [vtcon_read] needs a round for each 17
    bytes the ring can hold, and two; the serial
    interrupt one round more than the receiver has bytes. A spinlock that is taken does spin for
    ever on one processor, so a command under the heap's lock says that it is
    free. The last loop of [kernel_main] never ends: its number of rounds is an
    argument.

    ** Not modelled

    - The assembly (locore.S, multiboot.S, lidt.S) and the linker script: their
      symbols are arguments (the entry points [isr_0] to [isr_47], the heap's bounds, the tables of
      drivers and file systems).
    - The hardware is an arbitrary function of the accesses made so far, under
      the assumptions a theorem states (what a CMOS register or the port 0x60
      answers).
    - An interrupt arrives between two C functions, not inside one, except
      inside a read of the keyboard or of the serial port, whose accesses RingIsr.v
      and UartIsr.v interleave with the interrupt's handler.  The handler itself is not interrupted, as its gate
      clears the interrupt flag.
    - The structures above the drivers (nodes, volumes, lists of them) are in a
      typed store, not in the byte memory, and have no byte layout; which
      allocations succeed, and what fresh memory holds, are arguments.  Buffers,
      screens, archives and ring buffers are bytes.
    - The host tools in Python, the make rules and the ramdisk's other files.

    ** Plan

    The C code is modelled completely, except for the prototypes and constants
    that no code uses.  What is left are theorems: interrupts inside the console's
    functions, and the structures of the store at their addresses. *)
From stdpp Require Export base numbers list gmap.
#[global] Open Scope Z_scope.

(** Hint databases of the library: [mem] for facts about byte ranges that two
    memories agree on, [heap] for the block-chain lemmas, [clist] for the
    linked lists. *)
Create HintDb mem discriminated.
Create HintDb heap discriminated.
Create HintDb clist discriminated.

(** ** Machine integers

    The kernel is built for [i386-elf] ([-m32]): [int], [unsigned int],
    [size_t] and pointers have 32 bits, [char] is signed.  A w-bit value is a
    [Z]; the wrap-around functions below are applied where the C code stores
    or computes at that width. *)

Abbreviation W32 := 4294967296.

Definition u8 (x : Z) : Z := x mod 256.
Definition u16 (x : Z) : Z := x mod 65536.
Definition u32 (x : Z) : Z := x mod 4294967296.

(** Reinterpretation of an unsigned value as a two's complement one. *)
Definition s8 (x : Z) : Z := let y := u8 x in if y <? 128 then y else y - 256.
Definition s32 (x : Z) : Z :=
  let y := u32 x in if y <? 2147483648 then y else y - 4294967296.

Declare Scope cint_scope.
Delimit Scope cint_scope with cint.
Notation "x +w y" := (u32 (x + y)) (at level 50, left associativity) : cint_scope.
Notation "x -w y" := (u32 (x - y)) (at level 50, left associativity) : cint_scope.
Notation "x *w y" := (u32 (x * y)) (at level 40, left associativity) : cint_scope.
#[global] Open Scope cint_scope.

(** C truth values: the result of a comparison stored in an [int]. *)
Definition cbool (b : bool) : Z := if b then 1 else 0.

Lemma u8_range x : 0 <= u8 x < 256.
Proof. apply Z.mod_pos_bound. lia. Qed.
Lemma u16_range x : 0 <= u16 x < 65536.
Proof. apply Z.mod_pos_bound. lia. Qed.
Lemma u32_range x : 0 <= u32 x < W32.
Proof. apply Z.mod_pos_bound. lia. Qed.
Lemma u8_small x : 0 <= x < 256 -> u8 x = x.
Proof. apply Z.mod_small. Qed.
Lemma u16_small x : 0 <= x < 65536 -> u16 x = x.
Proof. apply Z.mod_small. Qed.
Lemma u32_small x : 0 <= x < W32 -> u32 x = x.
Proof. apply Z.mod_small. Qed.
Lemma u8_idem x : u8 (u8 x) = u8 x.
Proof. apply u8_small, u8_range. Qed.
Lemma u32_idem x : u32 (u32 x) = u32 x.
Proof. apply u32_small, u32_range. Qed.
Lemma u32_0 : u32 0 = 0.
Proof. done. Qed.

Lemma u8_s8 x : u8 (s8 x) = u8 x.
Proof.
  unfold s8. destruct (u8 x <? 128); [apply u8_idem|].
  unfold u8. rewrite Zminus_mod_idemp_l. rewrite <- (Z.mod_add (x - 256) 1) by lia.
  f_equal. lia.
Qed.

(** [cint] discharges goals about the wrap-around functions by turning them
    into Euclidean division equations. *)
Ltac cint :=
  unfold u8, u16, u32, cbool in *; Z.to_euclidean_division_equations; lia.

(** [u32_simp] removes the wrap-around of values [lia] can bound. *)
Ltac u32_simp :=
  repeat match goal with
    | |- context [u32 ?x] => rewrite (u32_small x) by (cbn in *; lia)
    end.

(** ** Outcomes and the state monad of the kernel code

    [Ok a] is a normal return; [Err e] is an execution that does not return:
    a dereference of NULL or of a pointer no object lives at, an access out of
    an array's bounds, a loop that does not exit, or a halted machine. *)

Inductive cerr : Set :=
  | NullDeref
  | WildPointer
  | OutOfBounds
  | Diverges
  | Halted.

#[export] Instance cerr_eq_dec : EqDecision cerr.
Proof. solve_decision. Defined.

Inductive res (A : Type) : Type :=
  | Ok (a : A)
  | Err (e : cerr).
Arguments Ok {_} _.
Arguments Err {_} _.

Definition M (S A : Type) : Type := S -> res (A * S).

#[export] Instance M_ret {S} : MRet (M S) := fun A a s => Ok (a, s).
#[export] Instance M_bind {S} : MBind (M S) := fun A B f m s =>
  match m s with
  | Ok (a, s') => f a s'
  | Err e => Err e
  end.

Definition fail {S A} (e : cerr) : M S A := fun _ => Err e.
Definition gets {S A} (f : S -> A) : M S A := fun s => Ok (f s, s).
Definition modify {S} (f : S -> S) : M S unit := fun s => Ok (tt, f s).

(** The value of a normal return. *)
Definition outcome {S A} (r : res (A * S)) : option A :=
  match r with
  | Ok (a, _) => Some a
  | Err _ => None
  end.

(** [zoom] runs a command of a part of the state on the whole state. *)
Definition zoom {S T A} (get : S -> T) (put : T -> S -> S) (m : M T A) : M S A :=
  fun s =>
    match m (get s) with
    | Ok (a, t) => Ok (a, put t s)
    | Err e => Err e
    end.

(** [mwhen b m] is [if (b) m;]. *)
Definition mwhen {S} (b : bool) (m : M S unit) : M S unit :=
  if b then m else mret tt.

Lemma bind_Ok {S A B} (m : M S A) (f : A -> M S B) s a s' :
  m s = Ok (a, s') -> (m ≫= f) s = f a s'.
Proof. unfold mbind, M_bind. by intros ->. Qed.

Lemma bind_Err {S A B} (m : M S A) (f : A -> M S B) s e :
  m s = Err e -> (m ≫= f) s = Err e.
Proof. unfold mbind, M_bind. by intros ->. Qed.

Lemma bind_Ok_inv {S A B} (m : M S A) (f : A -> M S B) s b s'' :
  (m ≫= f) s = Ok (b, s'') ->
  exists a s', m s = Ok (a, s') /\ f a s' = Ok (b, s'').
Proof. unfold mbind, M_bind. destruct (m s) as [[a s']|e]; naive_solver. Qed.

Lemma bind_assoc {S A B C} (m : M S A) (f : A -> M S B) (g : B -> M S C) s :
  ((m ≫= f) ≫= g) s = (m ≫= (fun a => f a ≫= g)) s.
Proof. unfold mbind, M_bind. by destruct (m s) as [[??]|]. Qed.

Lemma ret_bind {S A B} (a : A) (f : A -> M S B) s : (mret a ≫= f) s = f a s.
Proof. done. Qed.

Lemma gets_bind {S A B} (g : S -> A) (f : A -> M S B) s :
  (gets g ≫= f) s = f (g s) s.
Proof. done. Qed.

Lemma modify_bind {S B} (g : S -> S) (f : unit -> M S B) s :
  (modify g ≫= f) s = f tt (g s).
Proof. done. Qed.

Lemma if_app {S A} (b : bool) (f g : M S A) s :
  (if b then f else g) s = if b then f s else g s.
Proof. by destruct b. Qed.

(** Symbolic execution: [mstep H] runs the first command of the goal's
    program with the equation [H]; [mrun] reduces commands that always
    succeed. *)
Ltac mstep H := rewrite (bind_Ok _ _ _ _ _ H); cbn beta iota.
Ltac mrun :=
  cbv beta iota zeta delta [mbind M_bind mret M_ret gets modify mwhen];
  repeat (rewrite if_app; cbv beta); cbn [fst snd].

(** ** A counted loop that must leave before its fuel is used up *)

(** [loop fuel body a] runs [body] from [a] until it leaves with [inr]. *)
Fixpoint loop {S A B} (fuel : nat) (body : A -> M S (A + B)) (a : A) : M S B :=
  match fuel with
  | O => fail Diverges
  | S fuel' =>
      r ← body a;
      match r with
      | inl a' => loop fuel' body a'
      | inr b => mret b
      end
  end.

(** Total correctness rule for [loop]: an invariant and a decreasing measure. *)
Lemma loop_total {S A B} (I : A -> S -> Prop) (Q : B -> S -> Prop)
    (mu : A -> S -> nat) (body : A -> M S (A + B)) :
  (forall a s, I a s -> exists r s', body a s = Ok (r, s') /\
     match r with
     | inl a' => I a' s' /\ (mu a' s' < mu a s)%nat
     | inr b => Q b s'
     end) ->
  forall fuel a s, I a s -> (mu a s < fuel)%nat ->
  exists b s', loop fuel body a s = Ok (b, s') /\ Q b s'.
Proof.
  intros Hbody fuel. induction fuel as [|fuel IH]; intros a s HI Hmu; [lia|].
  destruct (Hbody a s HI) as (r & s' & Hr & Hpost). cbn [loop]. mstep Hr.
  destruct r as [a'|b]; [|by eauto].
  destruct Hpost as [HI' Hlt]. apply IH; [done|lia].
Qed.

(** A decidable proposition about closed terms, by evaluation. *)
Ltac decided := apply (bool_decide_unpack _); vm_compute; exact I.
