(* ===== verification/Steps.v ===== *)
(** * Commands between whose accesses an interrupt may come

    A [thread] is a command cut into its accesses to the machine.  [interleave]
    runs one while interrupts come: a schedule says how many of them are served
    before each access, each from its beginning to its end, as the interrupt
    gates of the kernel keep further interrupts out.  [wp] is the rule to reason
    about all schedules at once: between two accesses it is enough to know an
    assertion that the interrupt keeps ([stable]).  A budget bounds the number
    of interrupts that are still to come. *)
From S2P Require Import Prelude.

Section steps.
Context {S : Type}.

Inductive thread (A : Type) : Type :=
  | Done (a : A)
  | Step (m : M S Z) (k : Z -> thread A).
Arguments Done {_} _.
Arguments Step {_} _ _.

#[export] Instance thread_ret : MRet thread := fun A a => Done a.
#[export] Instance thread_bind : MBind thread :=
  fix bind A B f p :=
    match p with
    | Done a => f a
    | Step m k => Step m (fun v => @bind A B f (k v))
    end.

(** One access, with a result or without. *)
Definition act (m : M S Z) : thread Z := Step m (fun v => Done v).
Definition act_ (m : M S unit) : thread unit := Step (_ ← m; mret 0) (fun _ => Done tt).

Section isr.
Context (isr : M S unit).

Fixpoint times (n : nat) : M S unit :=
  match n with
  | O => mret tt
  | Datatypes.S n' => _ ← isr; times n'
  end.

(** An empty schedule serves no interrupt. *)
Fixpoint interleave {A} (p : thread A) (sched : list nat) : M S A :=
  match p with
  | Done a => mret a
  | Step m k =>
      _ ← times (hd O sched);
      v ← m;
      interleave (k v) (tl sched)
  end.

(** *** Without interrupts *)

Lemma interleave_bind_nil {A B} (p : thread A) (f : A -> thread B) s :
  interleave (p ≫= f) [] s = (interleave p [] ≫= fun a => interleave (f a) []) s.
Proof.
  revert s. induction p as [a|m k IH]; intros s; [done|].
  change (Step m k ≫= f) with (Step m (fun v => k v ≫= f)).
  cbn [interleave hd tl times]. rewrite bind_assoc, !ret_bind, bind_assoc.
  destruct (m s) as [[v s1]|e] eqn:E.
  - rewrite !(bind_Ok _ _ _ _ _ E). apply IH.
  - unfold mbind, M_bind. by rewrite E.
Qed.

Lemma interleave_act m s : interleave (act m) [] s = m s.
Proof. cbn. unfold mbind, M_bind, mret, M_ret. by destruct (m s) as [[]|]. Qed.

Lemma interleave_act_ m s : interleave (act_ m) [] s = m s.
Proof. cbn. unfold mbind, M_bind, mret, M_ret. by destruct (m s) as [[[]]|]. Qed.

(** *** Under every schedule *)

(** What holds of the budget and the state. *)
Definition assertion : Type := nat -> S -> Prop.

Definition stable (P : assertion) : Prop :=
  forall b s, P (Datatypes.S b) s -> exists s', isr s = Ok (tt, s') /\ P b s'.

Fixpoint wp {A} (p : thread A) (Q : A -> assertion) : assertion :=
  match p with
  | Done a => Q a
  | Step m k => fun b s => forall j b', b = (j + b')%nat ->
      exists s1 v s2, times j s = Ok (tt, s1) /\ m s1 = Ok (v, s2) /\ wp (k v) Q b' s2
  end.

Lemma stable_times P j b s :
  stable P -> P (j + b)%nat s -> exists s', times j s = Ok (tt, s') /\ P b s'.
Proof.
  intros HP. revert s. induction j as [|j IH]; intros s H; [by exists s|].
  destruct (HP _ _ H) as (s1 & R1 & H1). destruct (IH s1 H1) as (s2 & R2 & H2).
  exists s2. split; [|done]. cbn [times]. by rewrite (bind_Ok _ _ _ _ _ R1).
Qed.

Lemma wp_sound {A} (p : thread A) Q b s sched :
  wp p Q b s -> (sum_list sched <= b)%nat ->
  exists a b' s', interleave p sched s = Ok (a, s') /\ Q a b' s'.
Proof.
  revert b s sched. induction p as [a|m k IH]; intros b s sched H Hs; [by exists a, b, s|].
  assert (sum_list sched = hd O sched + sum_list (tl sched))%nat as E by (by destruct sched).
  destruct (H (hd O sched) (b - hd O sched)%nat ltac:(lia)) as (s1 & v & s2 & R1 & R2 & H').
  destruct (IH v _ s2 (tl sched) H' ltac:(lia)) as (a & b' & s' & R3 & HQ).
  exists a, b', s'. split; [|done]. cbn [interleave].
  rewrite (bind_Ok _ _ _ _ _ R1). by rewrite (bind_Ok _ _ _ _ _ R2).
Qed.

Lemma wp_bind {A B} (p : thread A) (f : A -> thread B) Q b s :
  wp p (fun a => wp (f a) Q) b s -> wp (p ≫= f) Q b s.
Proof.
  revert b s. induction p as [a|m k IH]; intros b s H; [exact H|].
  intros j b' Hb. destruct (H j b' Hb) as (s1 & v & s2 & R1 & R2 & H'). eauto 10.
Qed.

Lemma wp_mono {A} (p : thread A) (Q R : A -> assertion) b s :
  wp p Q b s -> (forall a b s, Q a b s -> R a b s) -> wp p R b s.
Proof.
  intros H HQ. revert b s H. induction p as [a|m k IH]; intros b s H; [by apply HQ|].
  intros j b' Hb. destruct (H j b' Hb) as (s1 & v & s2 & R1 & R2 & H'). eauto 10.
Qed.

(** An access, from an assertion that the interrupt keeps. *)
Lemma wp_act {A} m (k : Z -> thread A) (P : assertion) Q b s :
  stable P -> P b s ->
  (forall b s, P b s -> exists v s', m s = Ok (v, s') /\ wp (k v) Q b s') ->
  wp (act m ≫= k) Q b s.
Proof.
  intros HP H Hm j b' ->. destruct (stable_times P j b' s HP H) as (s1 & R1 & H1).
  destruct (Hm b' s1 H1) as (v & s2 & R2 & H2). by exists s1, v, s2.
Qed.

Lemma wp_act_ {A} m (k : unit -> thread A) (P : assertion) Q b s :
  stable P -> P b s ->
  (forall b s, P b s -> exists s', m s = Ok (tt, s') /\ wp (k tt) Q b s') ->
  wp (act_ m ≫= k) Q b s.
Proof.
  intros HP H Hm j b' ->. destruct (stable_times P j b' s HP H) as (s1 & R1 & H1).
  destruct (Hm b' s1 H1) as (s2 & R2 & H2). exists s1, 0, s2. split_and!; [done| |done].
  by rewrite (bind_Ok _ _ _ _ _ R2).
Qed.

(** An access that only looks, where the assertion says what it sees. *)
Lemma wp_look {A} m v (k : Z -> thread A) (P : assertion) Q b s :
  stable P -> P b s -> (forall b s, P b s -> m s = Ok (v, s)) ->
  (forall b s, P b s -> wp (k v) Q b s) -> wp (act m ≫= k) Q b s.
Proof.
  intros HP H Hm Hk. eapply wp_act; [done..|]. intros b1 s1 H1. exists v, s1.
  split; [by eapply Hm|by apply Hk].
Qed.

End isr.
End steps.
Arguments thread : clear implicits.
Arguments Done {_ _} _.
Arguments Step {_ _} _ _.
