(* ===== verification/Mem.v ===== *)
(** * The byte-addressed memory the kernel runs on

    Physical memory is one array of bytes.  Before paging is enabled, and
    after it (the page directory identity-maps the low half), a pointer is the
    physical address it points to, so every load and store below succeeds: the
    NULL pointer is the address 0, a readable byte.  The types [mem], [kst]
    and the monad [M kst] are what heap.c, list.c, ringbuf.c, pmm.c and the
    string functions of kernel/stdkern run on. *)
From S2P Require Import Prelude.

Abbreviation mem := (gmap Z Z).

Definition load8 (m : mem) (a : Z) : Z := u8 (default 0 (m !! a)).
Definition store8 (m : mem) (a v : Z) : mem := <[a := u8 v]> m.

(** i386 is little endian. *)
Definition load32 (m : mem) (a : Z) : Z :=
  load8 m a + 256 * load8 m (a + 1) + 65536 * load8 m (a + 2)
  + 16777216 * load8 m (a + 3).
Definition store32 (m : mem) (a v : Z) : mem :=
  store8 (store8 (store8 (store8 m a v) (a + 1) (v / 256))
    (a + 2) (v / 65536)) (a + 3) (v / 16777216).

Definition load_bytes (m : mem) (a : Z) (n : nat) : list Z :=
  (fun i : nat => load8 m (a + Z.of_nat i)) <$> seq 0 n.
Fixpoint store_bytes (m : mem) (a : Z) (bs : list Z) : mem :=
  match bs with
  | [] => m
  | b :: bs' => store_bytes (store8 m a b) (a + 1) bs'
  end.

(** Two memories that hold the same bytes. *)
Definition mem_eq (m m' : mem) : Prop := forall a, load8 m a = load8 m' a.

(** [m] and [m'] hold the same bytes at the addresses that satisfy [P]. *)
Definition agree (P : Z -> Prop) (m m' : mem) : Prop :=
  forall a, P a -> load8 m a = load8 m' a.

(** ** The state of the low-level kernel code

    [k_heap_root] and [k_heap_lock] are the statics [heap_root] and
    [heap_allocator_spinlock.locked] of heap.c; [k_io] is the sequence of port
    accesses made so far; [k_hw] is the hardware, which is no part of the
    program: given the accesses made so far and a port, the value an [in]
    instruction gets from it. *)

Inductive io_event : Set :=
  | PortIn (bits port value : Z)
  | PortOut (bits port value : Z).

Abbreviation In8 := (PortIn 8).
Abbreviation Out8 := (PortOut 8).

#[export] Instance io_event_eq_dec : EqDecision io_event.
Proof. solve_decision. Defined.

Record kst := KSt {
  k_mem : mem;
  k_heap_root : Z;
  k_heap_lock : Z;
  k_io : list io_event;
  k_hw : list io_event -> Z -> Z
}.

Definition set_mem (m : mem) (s : kst) : kst :=
  KSt m (k_heap_root s) (k_heap_lock s) (k_io s) (k_hw s).
Definition set_root (r : Z) (s : kst) : kst :=
  KSt (k_mem s) r (k_heap_lock s) (k_io s) (k_hw s).
Definition set_lock (l : Z) (s : kst) : kst :=
  KSt (k_mem s) (k_heap_root s) l (k_io s) (k_hw s).
Definition add_io (e : io_event) (s : kst) : kst :=
  KSt (k_mem s) (k_heap_root s) (k_heap_lock s) (k_io s ++ [e]) (k_hw s).

Definition ld8 (a : Z) : M kst Z := gets (fun s => load8 (k_mem s) a).
Definition ld32 (a : Z) : M kst Z := gets (fun s => load32 (k_mem s) a).
Definition st8 (a v : Z) : M kst unit :=
  modify (fun s => set_mem (store8 (k_mem s) a v) s).
Definition st32 (a v : Z) : M kst unit :=
  modify (fun s => set_mem (store32 (k_mem s) a v) s).

(** A machine that has just booted: memory all zero, silent hardware. *)
Definition boot_state : kst := KSt ∅ 0 0 [] (fun _ _ => 0).

(** ** Loads and stores *)

Lemma load8_range m a : 0 <= load8 m a < 256.
Proof. apply u8_range. Qed.

Lemma load8_store8_eq m a v : load8 (store8 m a v) a = u8 v.
Proof. unfold load8, store8. rewrite lookup_insert_eq. apply u8_idem. Qed.

Lemma load8_store8_ne m a b v : a <> b -> load8 (store8 m a v) b = load8 m b.
Proof. intros. unfold load8, store8. by rewrite lookup_insert_ne. Qed.

Lemma load8_store8 m a b v :
  load8 (store8 m a v) b = if decide (a = b) then u8 v else load8 m b.
Proof.
  case_decide; subst; [apply load8_store8_eq|by apply load8_store8_ne].
Qed.

Lemma load8_store32_ne m a b v :
  b < a \/ a + 4 <= b -> load8 (store32 m a v) b = load8 m b.
Proof. intros. unfold store32. rewrite !load8_store8_ne by lia. done. Qed.

Lemma load32_range m a : 0 <= load32 m a < W32.
Proof.
  unfold load32.
  pose proof (load8_range m a). pose proof (load8_range m (a + 1)).
  pose proof (load8_range m (a + 2)). pose proof (load8_range m (a + 3)). lia.
Qed.

Lemma u32_load32 m a : u32 (load32 m a) = load32 m a.
Proof. apply u32_small, load32_range. Qed.

Lemma load32_ext m m' a :
  (forall i, 0 <= i < 4 -> load8 m (a + i) = load8 m' (a + i)) ->
  load32 m a = load32 m' a.
Proof.
  intros H. unfold load32. pose proof (H 0 ltac:(lia)) as H0.
  rewrite Z.add_0_r in H0. rewrite H0, !H by lia. done.
Qed.

Lemma load32_agree P m m' a :
  agree P m m' -> (forall i, 0 <= i < 4 -> P (a + i)) -> load32 m a = load32 m' a.
Proof. intros HP H. apply load32_ext. intros i Hi. by apply HP, H. Qed.

Lemma load32_store32_eq m a v : load32 (store32 m a v) a = u32 v.
Proof.
  unfold load32, store32.
  rewrite load8_store8_eq, (load8_store8_ne _ (a + 3) (a + 2)) by lia.
  rewrite load8_store8_eq.
  rewrite (load8_store8_ne _ (a + 3) (a + 1)), (load8_store8_ne _ (a + 2) (a + 1)),
    load8_store8_eq by lia.
  rewrite !load8_store8_ne, load8_store8_eq by lia.
  unfold u8, u32. Z.to_euclidean_division_equations. lia.
Qed.

Lemma load32_store32_ne m a b v :
  a + 4 <= b \/ b + 4 <= a -> load32 (store32 m a v) b = load32 m b.
Proof.
  intros. apply load32_ext. intros i Hi. rewrite load8_store32_ne by lia. done.
Qed.

Lemma load32_store8_ne m a b v :
  a < b \/ b + 4 <= a -> load32 (store8 m a v) b = load32 m b.
Proof.
  intros. apply load32_ext. intros i Hi. rewrite load8_store8_ne by lia. done.
Qed.

(** A word stored twice holds the second value. *)
Lemma store32_store32 m a v w : store32 (store32 m a v) a w = store32 m a w.
Proof.
  apply map_eq. intros b. unfold store32, store8. rewrite !lookup_insert.
  repeat case_decide; done.
Qed.

(** Symbolic memory: [mem_simp] resolves loads after stores whose addresses
    [lia] can separate. *)
Ltac mem_simp :=
  repeat first
    [ rewrite load32_store32_eq
    | rewrite u32_load32
    | rewrite load32_store32_ne by lia
    | rewrite load32_store8_ne by lia
    | rewrite load8_store32_ne by lia
    | rewrite load8_store8_eq
    | rewrite load8_store8_ne by lia ].

Lemma length_load_bytes m a n : length (load_bytes m a n) = n.
Proof. unfold load_bytes. by rewrite length_fmap, length_seq. Qed.

Lemma load_bytes_S m a n :
  load_bytes m a (S n) = load8 m a :: load_bytes m (a + 1) n.
Proof.
  unfold load_bytes. cbn [seq fmap list_fmap]. rewrite Z.add_0_r. f_equal.
  rewrite <- (fmap_S_seq 0 n), <- list_fmap_compose. apply list_fmap_ext.
  intros i x Hx. unfold compose. f_equal. lia.
Qed.

Lemma load_bytes_lookup m a n i :
  (i < n)%nat -> load_bytes m a n !! i = Some (load8 m (a + Z.of_nat i)).
Proof.
  intros. unfold load_bytes. by rewrite list_lookup_fmap, lookup_seq_lt.
Qed.

Lemma load_bytes_agree P m m' a n :
  agree P m m' -> (forall i, 0 <= i < Z.of_nat n -> P (a + i)) ->
  load_bytes m a n = load_bytes m' a n.
Proof.
  intros HP H. unfold load_bytes. apply list_fmap_ext. intros i x Hx.
  apply lookup_seq in Hx as [-> Hlt]. apply HP, H. lia.
Qed.

Lemma load8_store_bytes_ne m a bs b :
  b < a \/ a + Z.of_nat (length bs) <= b -> load8 (store_bytes m a bs) b = load8 m b.
Proof.
  revert m a. induction bs as [|c bs IH]; intros m a H; cbn in *; [done|].
  rewrite IH by lia. apply load8_store8_ne. lia.
Qed.

Lemma load_store_bytes m a bs :
  load_bytes (store_bytes m a bs) a (length bs) = u8 <$> bs.
Proof.
  revert m a. induction bs as [|c bs IH]; intros m a; [done|].
  cbn [length store_bytes]. rewrite load_bytes_S, IH. cbn. f_equal.
  rewrite load8_store_bytes_ne by lia. apply load8_store8_eq.
Qed.

Lemma u8_load_bytes m a n : u8 <$> load_bytes m a n = load_bytes m a n.
Proof.
  unfold load_bytes. rewrite <- list_fmap_compose. apply list_fmap_ext.
  intros i x _. apply u8_small, load8_range.
Qed.

(** Copied bytes read the same. *)
Lemma load_bytes_copy m m' a b n :
  load_bytes (store_bytes m a (load_bytes m' b n)) a n = load_bytes m' b n.
Proof.
  pose proof (load_store_bytes m a (load_bytes m' b n)) as H.
  by rewrite length_load_bytes, u8_load_bytes in H.
Qed.

Lemma store_bytes_app m a bs bs' :
  store_bytes m a (bs ++ bs')
  = store_bytes (store_bytes m a bs) (a + Z.of_nat (length bs)) bs'.
Proof.
  revert m a. induction bs as [|c bs IH]; intros m a; cbn.
  - by rewrite Z.add_0_r.
  - rewrite IH. f_equal. lia.
Qed.

Lemma load8_store_bytes m a bs i b :
  bs !! i = Some b -> load8 (store_bytes m a bs) (a + Z.of_nat i) = u8 b.
Proof.
  intros H. pose proof (lookup_lt_Some _ _ _ H) as Hlt.
  pose proof (load_store_bytes m a bs) as HL.
  apply (f_equal (.!! i)) in HL.
  rewrite load_bytes_lookup in HL by done. rewrite list_lookup_fmap, H in HL.
  by injection HL.
Qed.

#[export] Instance mem_eq_equiv : Equivalence mem_eq.
Proof.
  split; [done|by intros ? ? H ?|intros ? ? ? H1 H2 a; by rewrite H1].
Qed.

#[export] Instance load8_proper : Proper (mem_eq ==> eq ==> eq) load8.
Proof. intros m m' H a ? <-. apply H. Qed.
#[export] Instance load32_proper : Proper (mem_eq ==> eq ==> eq) load32.
Proof. intros m m' H a ? <-. apply load32_ext. intros. apply H. Qed.
#[export] Instance store8_proper : Proper (mem_eq ==> eq ==> eq ==> mem_eq) store8.
Proof.
  intros m m' H a ? <- v ? <- b. rewrite !load8_store8. case_decide; auto.
Qed.

Lemma agree_refl P m : agree P m m.
Proof. done. Qed.
Lemma agree_sym P m m' : agree P m m' -> agree P m' m.
Proof. intros H a Ha. by rewrite H. Qed.
Lemma agree_trans P m1 m2 m3 : agree P m1 m2 -> agree P m2 m3 -> agree P m1 m3.
Proof. intros H1 H2 a Ha. by rewrite H1, H2. Qed.
Lemma agree_weaken (P Q : Z -> Prop) m m' :
  (forall a, P a -> Q a) -> agree Q m m' -> agree P m m'.
Proof. intros H HQ a Ha. apply HQ, H, Ha. Qed.
Lemma agree_store8 (P : Z -> Prop) m a v : ~ P a -> agree P m (store8 m a v).
Proof. intros H b Hb. rewrite load8_store8_ne; [done|]. by intros ->. Qed.
Lemma agree_store32 (P : Z -> Prop) m a v :
  (forall i, 0 <= i < 4 -> ~ P (a + i)) -> agree P m (store32 m a v).
Proof.
  intros H b Hb. rewrite load8_store32_ne; [done|].
  destruct (decide (a <= b < a + 4)); [|lia].
  exfalso. apply (H (b - a)); [lia|]. by replace (a + (b - a)) with b by lia.
Qed.

Lemma agree_store_bytes (P : Z -> Prop) m a bs :
  (forall b, P b -> b < a \/ a + Z.of_nat (length bs) <= b) ->
  agree P m (store_bytes m a bs).
Proof. intros H b Hb. by rewrite load8_store_bytes_ne by auto. Qed.

#[export] Hint Resolve agree_refl agree_sym agree_store8 agree_store32 : mem.

Lemma set_mem_id s : set_mem (k_mem s) s = s.
Proof. by destruct s. Qed.
Lemma set_mem_mem m m' s : set_mem m (set_mem m' s) = set_mem m s.
Proof. done. Qed.
Lemma set_lock_id s : set_lock (k_heap_lock s) s = s.
Proof. by destruct s. Qed.

#[global] Arguments load8 : simpl never.
#[global] Arguments load32 : simpl never.
#[global] Arguments store8 : simpl never.
#[global] Arguments store32 : simpl never.
#[global] Arguments load_bytes : simpl never.

(** [krun] symbolically runs loads and stores. *)
Ltac krun :=
  cbv beta iota zeta delta
    [mbind M_bind mret M_ret gets modify mwhen ld8 ld32 st8 st32];
  repeat (rewrite if_app; cbv beta);
  cbn [set_mem set_root set_lock k_mem k_heap_root k_heap_lock k_io k_hw fst snd].
