(* ===== verification/Spinlock.v ===== *)
(** * Spinlocks (kernel/i386/i386/spinlock.c, kernel/sys/spinlock.h)

    [Module Seq] holds the three operations as commands on the [locked] word;
    [Module Smp] runs them on any number of processors, one [xchgl] per step,
    and shows mutual exclusion. *)
From S2P Require Import Prelude.

Module Seq.

(** [struct spinlock]: the state of a command is the field [locked]. *)
Definition spinlock : Set := Z.

(** [xchgl]: one atomic read and write of the word. *)
Definition x86_xchg_dword (val : Z) : M spinlock Z :=
  fun locked => Ok (locked, val).

Definition spinlock_init : M spinlock unit := modify (fun _ => 0).

(** [while (x86_xchg_dword(&lock->locked, 1));] *)
Definition spinlock_lock (fuel : nat) : M spinlock unit :=
  loop fuel (fun _ : unit =>
    prev ← x86_xchg_dword 1;
    mret (if negb (prev =? 0) then inl tt else inr tt)) tt.

Definition spinlock_release : M spinlock unit :=
  _ ← x86_xchg_dword 0;
  mret tt.

Lemma spinlock_lock_free fuel :
  (0 < fuel)%nat -> spinlock_lock fuel 0 = Ok (tt, 1).
Proof. destruct fuel; [lia|done]. Qed.

(** With nobody to release it, a taken lock spins for ever: no fuel is enough. *)
Lemma spinlock_lock_taken fuel l :
  l <> 0 -> spinlock_lock fuel l = Err Diverges.
Proof.
  revert l. unfold spinlock_lock. induction fuel as [|fuel IH]; intros l Hl; [done|].
  cbn [loop]. unfold mbind, M_bind. cbn.
  destruct (Z.eqb_spec l 0); [done|]. apply IH. lia.
Qed.

End Seq.

Module Smp.
Import Seq.

(** What a processor is doing: outside, in the [while] of [spinlock_lock], or
    between [spinlock_lock] and [spinlock_release]. *)
Inductive pc : Set := Outside | Spinning | Holding.

#[export] Instance pc_eq_dec : EqDecision pc.
Proof. solve_decision. Defined.

Record smp := Smp { locked : spinlock; cpus : list pc }.

(** One processor's next instruction; the effect on the word is that of the
    commands of [Seq]. *)
Inductive cpu_step : pc -> spinlock -> pc -> spinlock -> Prop :=
  | step_call l : cpu_step Outside l Spinning l
  | step_spin l prev l' :
      x86_xchg_dword 1 l = Ok (prev, l') -> prev <> 0 ->
      cpu_step Spinning l Spinning l'
  | step_acquire l prev l' :
      x86_xchg_dword 1 l = Ok (prev, l') -> prev = 0 ->
      cpu_step Spinning l Holding l'
  | step_release l l' :
      spinlock_release l = Ok (tt, l') -> cpu_step Holding l Outside l'.

Inductive step : smp -> smp -> Prop :=
  | step_cpu i p p' l l' cs :
      cs !! i = Some p -> cpu_step p l p' l' ->
      step (Smp l cs) (Smp l' (<[i := p']> cs)).

Definition initial (n : nat) : smp := Smp 0 (replicate n Outside).

Definition reachable (n : nat) : smp -> Prop := rtc step (initial n).

(** How many processors are inside the critical section. *)
Definition holders (cs : list pc) : nat := length (filter (fun p => p = Holding) cs).

(** The word counts the holders. *)
Definition lock_inv (g : smp) : Prop :=
  (locked g = 0 /\ holders (cpus g) = 0%nat) \/
  (locked g = 1 /\ holders (cpus g) = 1%nat).

Lemma holders_insert cs i p p' :
  cs !! i = Some p ->
  (holders (<[i := p']> cs) + (if decide (p = Holding) then 1 else 0)
   = holders cs + (if decide (p' = Holding) then 1 else 0))%nat.
Proof.
  intros Hi. pose proof (lookup_lt_Some _ _ _ Hi).
  rewrite <- (take_drop_middle _ _ _ Hi) at 2.
  rewrite insert_take_drop by done. unfold holders.
  rewrite !filter_app, !length_app, !filter_cons.
  do 2 case_decide; cbn [length]; lia.
Qed.

Lemma lock_inv_step g g' : step g g' -> lock_inv g -> lock_inv g'.
Proof.
  intros [i p p' l l' cs Hi Hstep]. pose proof (holders_insert cs i p p' Hi) as Hc.
  unfold lock_inv. cbn [locked cpus]. revert Hc.
  destruct Hstep as [l|l prev l' [= <- <-] Hp|l prev l' [= <- <-] Hp|l l' [= <-]];
    intros Hc; repeat case_decide; simplify_eq; lia.
Qed.

Lemma holders_initial n : holders (cpus (initial n)) = 0%nat.
Proof.
  unfold holders, initial. cbn [cpus]. induction n as [|n IH]; [done|].
  rewrite replicate_S, filter_cons. by case_decide.
Qed.

Lemma lock_inv_reachable n g : reachable n g -> lock_inv g.
Proof.
  unfold reachable. intros Hr.
  assert (lock_inv (initial n)) as H0 by (left; by rewrite holders_initial).
  induction Hr; eauto using lock_inv_step.
Qed.

Lemma holders_two cs i j :
  i <> j -> cs !! i = Some Holding -> cs !! j = Some Holding ->
  (2 <= holders cs)%nat.
Proof.
  intros Hij Hi Hj. pose proof (holders_insert cs i _ Outside Hi) as Hc.
  assert (<[i := Outside]> cs !! j = Some Holding) as Hj'
    by (by rewrite list_lookup_insert_ne).
  pose proof (holders_insert _ j _ Outside Hj') as Hc'. repeat case_decide; simplify_eq; lia.
Qed.

Lemma acquire_free_step cs i :
  cs !! i = Some Spinning -> step (Smp 0 cs) (Smp 1 (<[i := Holding]> cs)).
Proof. intros Hi. eapply step_cpu; [exact Hi|]. by eapply step_acquire. Qed.


(** C14: mutual exclusion.  However the processors' [xchgl]s interleave, two of
    them are never both between [spinlock_lock] and [spinlock_release]. *)
Theorem mutual_exclusion n g i j
    (Hr : reachable n g) (Hi : cpus g !! i = Some Holding)
    (Hj : cpus g !! j = Some Holding) : i = j.
Proof.
  destruct (decide (i = j)) as [|Hne]; [done|].
  pose proof (holders_two _ _ _ Hne Hi Hj).
  destruct (lock_inv_reachable n g Hr) as [[_ ?]|[_ ?]]; lia.
Qed.

Lemma mutual_exclusion_witness :
  reachable 2 (Smp 1 [Holding; Outside]) /\ 0%nat = 0%nat.
Proof.
  assert (reachable 2 (Smp 1 [Holding; Outside])) as Hr.
  { eapply rtc_l; [eapply (step_cpu 0); [done|apply step_call]|].
    eapply rtc_l; [apply (acquire_free_step [Spinning; Outside] 0); done|].
    apply rtc_refl. }
  split; [exact Hr|].
  apply (mutual_exclusion 2 (Smp 1 [Holding; Outside]) 0 0 Hr); done.
Defined.



End Smp.
