(* ===== verification/Alloc.v ===== *)
(** * The allocator interface (malloc/free of sys/stdkern.h)

    What the kernel's allocator promises its callers, as a class: list.c,
    ringbuf.c and strdup.c are verified against it, and Heap.v shows that
    heap.c, behind the two one-line functions of alloc.c, implements it. *)
From S2P Require Import Prelude Mem.

(** The live buffers: address |-> number of bytes owned. *)
Abbreviation bufs := (gmap Z Z).

(** Address [a] belongs to a live buffer. *)
Definition in_live (L : bufs) (a : Z) : Prop :=
  exists p n, L !! p = Some n /\ p <= a < p + n.

(** Everything of the state but the memory is the same. *)
Definition same_rest (s s' : kst) : Prop := s' = set_mem (k_mem s') s.

Class Allocator := {
  malloc : Z -> M kst Z;
  free : Z -> M kst unit;
  (** the allocator's data structures are sound in this state and the
      buffers it has handed out and not got back are these *)
  ainv : kst -> bufs -> Prop;
  (** the region the allocator manages: its buffers and its own data *)
  arena : Z -> Prop;
  (** returning this buffer now is harmless (see Heap.v: heap.c can follow a
      stale link into a buffer; the caller's bytes decide what happens) *)
  free_safe : kst -> Z -> Prop;
  live_bounds s L p n : ainv s L -> L !! p = Some n -> 0 < p /\ 0 <= n /\ p + n < W32;
  live_arena s L a : ainv s L -> in_live L a -> arena a;
  live_disjoint s L p n q k :
    ainv s L -> L !! p = Some n -> L !! q = Some k -> p <> q ->
    p + n <= q \/ q + k <= p;
  malloc_spec s L n :
    ainv s L -> 0 <= n < W32 ->
    exists r s', malloc n s = Ok (r, s') /\ same_rest s s' /\
      ((r = 0 /\ s' = s) \/
       (exists sz, n <= sz /\ L !! r = None /\ ainv s' (<[r := sz]> L) /\
          agree (fun a => in_live L a \/ ~ arena a) (k_mem s) (k_mem s')));
  free_spec s L p n :
    ainv s L -> L !! p = Some n -> free_safe s p ->
    exists s', free p s = Ok (tt, s') /\ same_rest s s' /\
      ainv s' (delete p L) /\ agree (fun a => in_live L a \/ ~ arena a) (k_mem s) (k_mem s');
  (** clients may write to the buffers they own and outside the arena *)
  ainv_frame s L m' :
    ainv s L -> agree (fun a => arena a /\ ~ in_live L a) (k_mem s) m' ->
    ainv (set_mem m' s) L
}.

#[global] Arguments malloc : simpl never.
#[global] Arguments free : simpl never.

Lemma same_rest_refl s : same_rest s s.
Proof. unfold same_rest. by rewrite set_mem_id. Qed.
Lemma same_rest_set_mem s m : same_rest s (set_mem m s).
Proof. done. Qed.
Lemma same_rest_trans s1 s2 s3 : same_rest s1 s2 -> same_rest s2 s3 -> same_rest s1 s3.
Proof. unfold same_rest. intros H1 H2. rewrite H2, H1. done. Qed.
#[export] Hint Resolve same_rest_refl same_rest_set_mem : mem.

Section derived.
Context `{A : Allocator}.

Lemma in_live_intro (L : bufs) p n a : L !! p = Some n -> p <= a < p + n -> in_live L a.
Proof. unfold in_live. eauto. Qed.

Lemma in_live_insert (L : bufs) p n a :
  in_live (<[p := n]> L) a -> p <= a < p + n \/ in_live L a.
Proof.
  intros (q & k & Hq & Ha). apply lookup_insert_Some in Hq as [[<- <-]|[_ Hq]];
    [by left|right; eauto using in_live_intro].
Qed.

(** A store to an owned word keeps the allocator sound. *)
Lemma ainv_store32 s L p n a v :
  ainv s L -> L !! p = Some n -> p <= a -> a + 4 <= p + n ->
  ainv (set_mem (store32 (k_mem s) a v) s) L.
Proof.
  intros HI Hp H1 H2. apply ainv_frame; [done|]. apply agree_store32.
  intros i Hi [_ Hn]. apply Hn. eapply in_live_intro; [done|lia].
Qed.

Lemma ainv_store8 s L p n a v :
  ainv s L -> L !! p = Some n -> p <= a < p + n ->
  ainv (set_mem (store8 (k_mem s) a v) s) L.
Proof.
  intros HI Hp Ha. apply ainv_frame; [done|]. apply agree_store8.
  intros [_ Hn]. apply Hn. eapply in_live_intro; done.
Qed.

(** An address the allocator leaves alone: in a live buffer or outside the
    arena. *)
Definition stable (L : bufs) (a : Z) : Prop := in_live L a \/ ~ arena a.

Lemma stable_insert s (L : bufs) p n a :
  ainv s (<[p := n]> L) -> L !! p = None -> stable L a ->
  stable (<[p := n]> L) a /\ ~ (p <= a < p + n).
Proof.
  intros HI Hp [Ha|Ha].
  - destruct Ha as (q & k & Hq & Ha). assert (q <> p) by congruence.
    assert ((<[p := n]> L) !! q = Some k) as Hq' by by rewrite lookup_insert_ne.
    split; [left; eapply in_live_intro; eauto|].
    pose proof (live_disjoint _ _ p n q k HI (lookup_insert_eq _ _ _) Hq' ltac:(done)).
    lia.
  - split; [by right|]. intros Hin. apply Ha. eapply live_arena; [exact HI|].
    eapply in_live_intro; [apply lookup_insert_eq|done].
Qed.

Lemma stable_delete s (L : bufs) p n a :
  ainv s L -> L !! p = Some n -> stable (delete p L) a ->
  stable L a /\ ~ (p <= a < p + n).
Proof.
  intros HI Hp [Ha|Ha].
  - destruct Ha as (q & k & Hq & Ha). apply lookup_delete_Some in Hq as [Hne Hq].
    split; [left; eapply in_live_intro; eauto|].
    pose proof (live_disjoint _ _ p n q k HI Hp Hq Hne). lia.
  - split; [by right|]. intros Hin. apply Ha. eapply live_arena; [exact HI|].
    by eapply in_live_intro.
Qed.

(** A stable range does not overlap a buffer handed out later. *)
Lemma stable_apart s (L : bufs) r n p k :
  ainv s (<[r := n]> L) -> L !! r = None -> 0 < n -> 0 <= k ->
  (forall i, 0 <= i <= k -> stable L (p + i)) ->
  r + n <= p \/ p + k < r.
Proof.
  intros HI Hr Hn Hk Hst.
  destruct (decide (r + n <= p)) as [|H1]; [by left|].
  destruct (decide (p + k < r)) as [|H2]; [by right|]. exfalso.
  destruct (stable_insert s L r n (p + (r `max` p - p)) HI Hr) as [_ Ha];
    [apply Hst; lia|]. lia.
Qed.
End derived.
