(* ===== verification/Heap.v ===== *)
(** * The kernel heap (arch/i386/kernel/mem/heap.c, alloc.c)

    The heap is a chain of blocks that tile the region between the linker
    symbols [heap_bottom] and [heap_top]; each block starts with a 20-byte
    header in the kernel's byte memory.  [Module Impl] is heap.c over that
    memory; [Module Spec] is a first-fit allocator over a list of blocks;
    the rest shows that the first implements the second, and that it is an
    [Allocator] (Alloc.v). *)
From S2P Require Import Prelude Mem Spinlock Alloc.

(** ** heap.c *)
Module Impl.

Definition HEAP_MAGIC_HEAD : Z := 0x51514949.
Definition HEAP_MAGIC_FREE : Z := 0x40404040.
Definition HEAP_MAGIC_USED : Z := 0xEFEFEFEF.

(** [struct heap_block]: field offsets and size. *)
Definition o_magic : Z := 0.
Definition o_status : Z := 4.
Definition o_next : Z := 8.
Definition o_prev : Z := 12.
Definition o_size : Z := 16.
Definition sizeof_heap_block : Z := 20.

(** kernel.ld: [heap_size = 0x100000], [heap_top = heap_bottom + heap_size]. *)
Definition heap_size : Z := 0x100000.

(** A chain of at least 20 bytes per block in a heap of [heap_size] bytes has
    fewer blocks than this. *)
Definition HEAP_FUEL : nat := Z.to_nat 65536.

(** The operations of Spinlock.v on the static [heap_allocator_spinlock]; on
    the only running processor a first failed exchange is final. *)
Definition on_lock (m : M Seq.spinlock unit) : M kst unit :=
  zoom k_heap_lock set_lock m.
Definition lock_heap : M kst unit := on_lock (Seq.spinlock_lock 2).
Definition unlock_heap : M kst unit := on_lock Seq.spinlock_release.

Definition heap_merge (head tail : Z) : M kst Z :=
  hmagic ← ld32 (head + o_magic);
  tmagic ← ld32 (tail + o_magic);
  if negb (hmagic =? HEAP_MAGIC_HEAD) || negb (hmagic =? tmagic) then mret 0 else
  hstatus ← ld32 (head + o_status);
  tstatus ← ld32 (tail + o_status);
  if negb (hstatus =? HEAP_MAGIC_FREE) || negb (hstatus =? tstatus) then mret 0 else
  hnext ← ld32 (head + o_next);
  tprev ← ld32 (tail + o_prev);
  if negb (hnext =? tail) || negb (tprev =? head) then mret 0 else
  hsize ← ld32 (head + o_size);
  if negb ((head + sizeof_heap_block +w hsize) =? tail) then mret 0 else
  tnext ← ld32 (tail + o_next);
  _ ← mwhen (negb (tnext =? 0)) (st32 (tnext + o_prev) head);
  tnext' ← ld32 (tail + o_next);
  _ ← st32 (head + o_next) tnext';
  hsize' ← ld32 (head + o_size);
  tsize ← ld32 (tail + o_size);
  _ ← st32 (head + o_size) (hsize' +w (sizeof_heap_block +w tsize));
  mret head.

Definition heap_init (heap_bottom : Z) : M kst unit :=
  let top := heap_bottom + heap_size in
  let total := top -w heap_bottom in
  _ ← modify (set_root heap_bottom);
  _ ← st32 (heap_bottom + o_magic) HEAP_MAGIC_HEAD;
  _ ← st32 (heap_bottom + o_status) HEAP_MAGIC_FREE;
  _ ← st32 (heap_bottom + o_size) (total -w sizeof_heap_block);
  _ ← st32 (heap_bottom + o_prev) 0;
  _ ← st32 (heap_bottom + o_next) 0;
  on_lock Seq.spinlock_init.

(** The [for] of [heap_alloc] from [block] on; returns [buffer]. *)
Fixpoint heap_alloc_loop (fuel : nat) (block size : Z) : M kst Z :=
  match fuel with
  | O => fail Diverges
  | S fuel =>
      if block =? 0 then mret 0 else
      magic ← ld32 (block + o_magic);
      if negb (magic =? HEAP_MAGIC_HEAD) then mret 0 else
      status ← ld32 (block + o_status);
      if negb (status =? HEAP_MAGIC_FREE) then
        next ← ld32 (block + o_next);
        heap_alloc_loop fuel next size
      else
      bsize ← ld32 (block + o_size);
      if bsize <? size then
        next ← ld32 (block + o_next);
        heap_alloc_loop fuel next size
      else
      _ ← st32 (block + o_status) HEAP_MAGIC_USED;
      let buffer := block + sizeof_heap_block in
      bsize ← ld32 (block + o_size);
      if bsize <=? (size +w sizeof_heap_block +w 1) then mret buffer else
      let next_block := buffer + size in
      _ ← st32 (next_block + o_magic) HEAP_MAGIC_HEAD;
      _ ← st32 (next_block + o_status) HEAP_MAGIC_FREE;
      bsize ← ld32 (block + o_size);
      _ ← st32 (next_block + o_size) (bsize -w size -w sizeof_heap_block);
      _ ← st32 (next_block + o_prev) block;
      bnext ← ld32 (block + o_next);
      _ ← st32 (next_block + o_next) bnext;
      _ ← st32 (block + o_size) size;
      _ ← st32 (block + o_next) next_block;
      mret buffer
  end.

Definition heap_alloc (size : Z) : M kst Z :=
  root ← gets k_heap_root;
  _ ← lock_heap;
  buffer ← heap_alloc_loop HEAP_FUEL root size;
  _ ← unlock_heap;
  mret buffer.

(** [heap_free] up to the merge with the next block ... *)
Definition heap_free_front (bufheader : Z) : M kst unit :=
  _ ← st32 (bufheader + o_status) HEAP_MAGIC_FREE;
  next ← ld32 (bufheader + o_next);
  if negb (next =? 0) then
    next ← ld32 (bufheader + o_next);
    _ ← heap_merge bufheader next;
    mret tt
  else mret tt.

(** ... and the merge with the previous one. *)
Definition heap_free_back (bufheader : Z) : M kst unit :=
  prev ← ld32 (bufheader + o_prev);
  if negb (prev =? 0) then
    prev ← ld32 (bufheader + o_prev);
    _ ← heap_merge prev bufheader;
    mret tt
  else mret tt.

Definition heap_free_body (bufheader : Z) : M kst unit :=
  magic ← ld32 (bufheader + o_magic);
  if negb (magic =? HEAP_MAGIC_HEAD) then mret tt else
  status ← ld32 (bufheader + o_status);
  if negb (status =? HEAP_MAGIC_USED) then mret tt else
  _ ← heap_free_front bufheader;
  heap_free_back bufheader.

Definition heap_free (ptr : Z) : M kst unit :=
  _ ← lock_heap;
  _ ← heap_free_body (ptr -w sizeof_heap_block);
  unlock_heap.

(** alloc.c *)
Definition malloc (size : Z) : M kst Z := heap_alloc size.
Definition free (ptr : Z) : M kst unit := heap_free ptr.

(** The four tests [heap_merge] makes before it changes anything. *)
Definition merge_guard (m : mem) (head tail : Z) : bool :=
  (load32 m (head + o_magic) =? HEAP_MAGIC_HEAD)
  && (load32 m (head + o_magic) =? load32 m (tail + o_magic))
  && (load32 m (head + o_status) =? HEAP_MAGIC_FREE)
  && (load32 m (head + o_status) =? load32 m (tail + o_status))
  && (load32 m (head + o_next) =? tail)
  && (load32 m (tail + o_prev) =? head)
  && ((head + sizeof_heap_block +w load32 m (head + o_size)) =? tail).

End Impl.

(** ** A first-fit allocator over a list of blocks *)
Module Spec.

(** A block: payload size, whether it is allocated, and the address its
    header holds as the previous block.  Where a block lies is the sum of the
    blocks before it. *)
Record blk := Blk { b_size : Z; b_used : bool; b_prev : Z }.

Definition HDR : Z := 20.
Definition footprint (b : blk) : Z := HDR + b_size b.

Fixpoint span (bs : list blk) : Z :=
  match bs with
  | [] => 0
  | b :: bs' => footprint b + span bs'
  end.

(** The live buffers of the chain that starts at [a]. *)
Fixpoint live (a : Z) (bs : list blk) : bufs :=
  match bs with
  | [] => ∅
  | b :: bs' =>
      let L := live (a + footprint b) bs' in
      if b_used b then <[a + HDR := b_size b]> L else L
  end.

Definition fits (n : Z) (b : blk) : bool := negb (b_used b) && (n <=? b_size b).

(** Take the block at [a], keeping what is left as a free block if that is
    worth a header. *)
Definition take_block (a n : Z) (b : blk) : list blk :=
  if b_size b <=? n + HDR + 1 then [Blk (b_size b) true (b_prev b)]
  else [Blk n true (b_prev b); Blk (b_size b - n - HDR) false a].

(** First fit: the buffer's address and the new chain. *)
Fixpoint first_fit (a n : Z) (bs : list blk) : option (Z * list blk) :=
  match bs with
  | [] => None
  | b :: bs' =>
      if fits n b then Some (a + HDR, take_block a n b ++ bs')
      else
        match first_fit (a + footprint b) n bs' with
        | None => None
        | Some (p, bs'') => Some (p, b :: bs'')
        end
  end.

(** The block that now follows [a] points back to it. *)
Definition relink (a : Z) (bs : list blk) : list blk :=
  match bs with
  | [] => []
  | b :: bs' => Blk (b_size b) (b_used b) a :: bs'
  end.

Definition absorb (b c : blk) : blk :=
  Blk (b_size b + footprint c) (b_used b) (b_prev b).

(** The two blocks at [a] can be merged: both free, correctly linked. *)
Definition mergeable (a : Z) (b c : blk) : bool :=
  negb (b_used b) && negb (b_used c) && (b_prev c =? a).

(** Merge the block at [a] with the next one if possible. *)
Definition merge_next (a : Z) (b : blk) (r : list blk) : blk * list blk :=
  match r with
  | c :: r' => if mergeable a b c then (absorb b c, relink a r') else (b, r)
  | [] => (b, r)
  end.

Definition release (b : blk) : blk := Blk (b_size b) false (b_prev b).

(** Merge the block [b] with the last one of [l] if possible. *)
Definition merge_last (a : Z) (l : list blk) (b : blk) (r : list blk) : list blk :=
  match last l with
  | Some pb =>
      let l0 := removelast l in
      let br := merge_next (a + span l0) pb (b :: r) in
      l0 ++ fst br :: snd br
  | None => b :: r
  end.

(** Free the block [b] between the chains [l] (from [a] on) and [r]. *)
Definition free_block (a : Z) (l : list blk) (b : blk) (r : list blk) : list blk :=
  let br := merge_next (a + span l) (release b) r in
  merge_last a l (fst br) (snd br).

End Spec.

(** ** The chain in memory *)
Module Chain.
Import Impl Spec.

Definition status_of (used : bool) : Z :=
  if used then HEAP_MAGIC_USED else HEAP_MAGIC_FREE.

(** The header at [a] describes [b] and links to [nx]. *)
Definition hdr (m : mem) (a : Z) (b : blk) (nx : Z) : Prop :=
  load32 m (a + o_magic) = HEAP_MAGIC_HEAD /\
  load32 m (a + o_status) = status_of (b_used b) /\
  load32 m (a + o_next) = nx /\
  load32 m (a + o_prev) = b_prev b /\
  load32 m (a + o_size) = b_size b.

(** Consecutive blocks from [a] on, the last one linked to [nx]. *)
Fixpoint seg (m : mem) (a : Z) (bs : list blk) (nx : Z) : Prop :=
  match bs with
  | [] => True
  | b :: bs' =>
      hdr m a b (match bs' with [] => nx | _ => a + footprint b end) /\
      0 <= b_size b /\
      seg m (a + footprint b) bs' nx
  end.

(** [x] is a byte of a header. *)
Fixpoint in_hdrs (a : Z) (bs : list blk) (x : Z) : Prop :=
  match bs with
  | [] => False
  | b :: bs' => a <= x < a + HDR \/ in_hdrs (a + footprint b) bs' x
  end.

(** The heap invariant: the blocks [bs] tile [lo, hi), and nobody holds the
    lock. *)
Definition heap_inv (lo hi : Z) (s : kst) (bs : list blk) : Prop :=
  k_heap_root s = lo /\ k_heap_lock s = 0 /\
  seg (k_mem s) lo bs 0 /\ bs <> [] /\
  lo + span bs = hi /\ 0 < lo /\ hi < W32.

Ltac offs :=
  unfold absorb, footprint, HDR, o_magic, o_status, o_next, o_prev, o_size,
    sizeof_heap_block in *; cbn [b_size b_used b_prev] in *.

(** *** Lists of blocks *)

Lemma span_app l r : span (l ++ r) = span l + span r.
Proof. induction l as [|b l IH]; cbn; lia. Qed.

Lemma seg_app m a l r nx :
  seg m a (l ++ r) nx <->
  seg m a l (match r with [] => nx | _ => a + span l end) /\ seg m (a + span l) r nx.
Proof.
  revert a. induction l as [|b l IH]; intros a; cbn [app seg span].
  - rewrite Z.add_0_r. tauto.
  - rewrite IH, Z.add_assoc. destruct l; [|tauto].
    cbn [app span]. rewrite Z.add_0_r. tauto.
Qed.

Lemma seg_sizes m a bs nx : seg m a bs nx -> Forall (fun b => 0 <= b_size b) bs.
Proof.
  revert a. induction bs as [|b bs IH]; intros a; [constructor|].
  cbn. intros (_ & ? & ?). constructor; eauto.
Qed.

Lemma span_nonneg bs : Forall (fun b => 0 <= b_size b) bs -> 0 <= span bs.
Proof. induction 1; cbn; [lia|]. offs. lia. Qed.

Lemma span_length bs :
  Forall (fun b => 0 <= b_size b) bs -> 20 * Z.of_nat (length bs) <= span bs.
Proof. induction 1; cbn [span length]; [lia|]. offs. lia. Qed.

Lemma seg_nonneg m a bs nx : seg m a bs nx -> 0 <= span bs.
Proof. eauto using span_nonneg, seg_sizes. Qed.

Lemma in_hdrs_app a l r x :
  in_hdrs a (l ++ r) x <-> in_hdrs a l x \/ in_hdrs (a + span l) r x.
Proof.
  revert a. induction l as [|b l IH]; intros a; cbn [app in_hdrs span].
  - rewrite Z.add_0_r. tauto.
  - rewrite IH, Z.add_assoc. tauto.
Qed.

Lemma in_hdrs_range a bs x :
  Forall (fun b => 0 <= b_size b) bs -> in_hdrs a bs x -> a <= x < a + span bs.
Proof.
  intros HF. revert a. induction HF as [|b bs Hb HF IH]; intros a; cbn; [done|].
  pose proof (span_nonneg bs HF).
  intros [?|Hx]; [offs; lia|]. specialize (IH _ Hx). offs. lia.
Qed.

(** Blocks depend on their headers only. *)
Lemma seg_agree m m' a bs nx :
  seg m a bs nx -> agree (in_hdrs a bs) m m' -> seg m' a bs nx.
Proof.
  revert a. induction bs as [|b bs IH]; intros a; [done|].
  intros (Hh & Hb & Hs) Hag. cbn [seg]. split; [|split; [done|]].
  - assert (forall o, 0 <= o <= 16 -> load32 m' (a + o) = load32 m (a + o)) as HL.
    { intros o Ho. symmetry. eapply load32_agree; [exact Hag|].
      intros i Hi. left. offs. lia. }
    destruct Hh as (H1 & H2 & H3 & H4 & H5). unfold hdr.
    rewrite !HL by (offs; lia). done.
  - apply IH; [done|]. eapply agree_weaken; [|done]. intros x Hx. by right.
Qed.

Lemma seg_agree_from m m' a bs nx :
  seg m a bs nx -> agree (fun x => a <= x) m m' -> seg m' a bs nx.
Proof.
  intros Hs Hag. eapply seg_agree; [done|]. eapply agree_weaken; [|done].
  intros x Hx%in_hdrs_range; [cbn; lia|by eapply seg_sizes].
Qed.

Lemma seg_agree_upto m m' a bs nx :
  seg m a bs nx -> agree (fun x => x < a + span bs) m m' -> seg m' a bs nx.
Proof.
  intros Hs Hag. eapply seg_agree; [done|]. eapply agree_weaken; [|done].
  intros x Hx%in_hdrs_range; [cbn; lia|by eapply seg_sizes].
Qed.

(** The bytes of live buffers are not header bytes. *)
Lemma live_range a bs p n :
  Forall (fun b => 0 <= b_size b) bs -> live a bs !! p = Some n ->
  a + HDR <= p /\ 0 <= n /\ p + n <= a + span bs.
Proof.
  intros HF. revert a. induction HF as [|b bs Hb HF IH]; intros a; cbn; [done|].
  pose proof (span_nonneg bs HF). destruct (b_used b).
  - rewrite lookup_insert_Some. intros [[<- <-]|[_ Hp]]; [offs; lia|].
    specialize (IH _ Hp). offs. lia.
  - intros Hp. specialize (IH _ Hp). offs. lia.
Qed.

Lemma live_not_hdr a bs x :
  Forall (fun b => 0 <= b_size b) bs -> in_live (live a bs) x -> ~ in_hdrs a bs x.
Proof.
  intros HF. revert a. induction HF as [|b bs Hb HF IH]; intros a; cbn; [tauto|].
  intros Hx [Hh|Hh].
  - assert (exists p n, (live a (b :: bs)) !! p = Some n /\ p <= x < p + n)
      as (p & n & Hp & ?) by done.
    pose proof (live_range a (b :: bs) p n ltac:(by constructor) Hp). lia.
  - pose proof (in_hdrs_range _ _ _ HF Hh) as Hr.
    destruct (b_used b); [|by apply (IH _ Hx)].
    apply in_live_insert in Hx as [Hx|Hx]; [|by apply (IH _ Hx)]. offs. lia.
Qed.

Lemma live_lookup_disjoint a bs p n q k :
  Forall (fun b => 0 <= b_size b) bs ->
  live a bs !! p = Some n -> live a bs !! q = Some k -> p <> q ->
  p + n <= q \/ q + k <= p.
Proof.
  intros HF. revert a. induction HF as [|b bs Hb HF IH]; intros a; cbn; [done|].
  destruct (b_used b); [|by eauto].
  pose proof (fun p n => live_range (a + footprint b) bs p n HF) as HR.
  rewrite !lookup_insert_Some. intros [[<- <-]|[_ Hp]] [[<- <-]|[_ Hq]] ?; try done.
  - specialize (HR _ _ Hq). offs. lia.
  - specialize (HR _ _ Hp). offs. lia.
  - by eapply IH.
Qed.

Lemma live_app a l r :
  Forall (fun b => 0 <= b_size b) (l ++ r) ->
  live a (l ++ r) = live a l ∪ live (a + span l) r.
Proof.
  revert a. induction l as [|b l IH]; intros a HF; cbn [app live span].
  - by rewrite Z.add_0_r, (left_id_L ∅ (∪)).
  - inversion HF; subst. rewrite IH, Z.add_assoc by done.
    destruct (b_used b); [by rewrite insert_union_l|done].
Qed.

Lemma span_relink a bs : span (relink a bs) = span bs.
Proof. by destruct bs. Qed.
Lemma live_relink a x bs : live a (relink x bs) = live a bs.
Proof. by destruct bs. Qed.
Lemma sizes_relink x bs :
  Forall (fun b => 0 <= b_size b) bs -> Forall (fun b => 0 <= b_size b) (relink x bs).
Proof. destruct 1; constructor; done. Qed.
Lemma in_hdrs_relink a x bs y : in_hdrs a (relink x bs) y <-> in_hdrs a bs y.
Proof. by destruct bs. Qed.

(** Merging changes neither the extent of a chain nor its live buffers. *)
Lemma merge_next_span a b r :
  span (fst (merge_next a b r) :: snd (merge_next a b r)) = span (b :: r).
Proof.
  destruct r as [|c r]; [done|]. unfold merge_next.
  destruct (mergeable a b c); [|done]. cbn. rewrite span_relink. offs. lia.
Qed.

Lemma merge_next_live x a b r :
  live a (fst (merge_next x b r) :: snd (merge_next x b r)) = live a (b :: r).
Proof.
  destruct r as [|c r]; [done|]. unfold merge_next.
  destruct (mergeable x b c) eqn:Hm; [|done].
  unfold mergeable in Hm. apply andb_prop in Hm as [Hm _].
  apply andb_prop in Hm as [Hb%negb_true_iff Hc%negb_true_iff].
  cbn. rewrite Hb, Hc, live_relink. f_equal. offs. lia.
Qed.

Lemma merge_next_hdrs a b r y :
  in_hdrs a (fst (merge_next a b r) :: snd (merge_next a b r)) y -> in_hdrs a (b :: r) y.
Proof.
  destruct r as [|c r]; [done|]. unfold merge_next.
  destruct (mergeable a b c); [|done]. cbn [fst snd in_hdrs]. rewrite in_hdrs_relink.
  replace (a + footprint (absorb b c)) with (a + footprint b + footprint c) by (offs; lia).
  tauto.
Qed.

Lemma merge_last_snoc a l pb b r :
  merge_last a (l ++ [pb]) b r
  = l ++ fst (merge_next (a + span l) pb (b :: r)) :: snd (merge_next (a + span l) pb (b :: r)).
Proof. unfold merge_last. by rewrite last_snoc, removelast_last. Qed.

Lemma merge_last_span a l b r : span (merge_last a l b r) = span (l ++ b :: r).
Proof.
  destruct l as [|pb l _] using rev_ind; [done|].
  rewrite merge_last_snoc, <- app_assoc, !span_app, merge_next_span. cbn. lia.
Qed.

Lemma free_block_span a l b r : span (free_block a l b r) = span (l ++ b :: r).
Proof.
  unfold free_block. by rewrite merge_last_span, !span_app, merge_next_span.
Qed.

Lemma merge_last_nonempty a l b r : merge_last a l b r <> [].
Proof.
  destruct l as [|pb l _] using rev_ind; [done|]. rewrite merge_last_snoc. by destruct l.
Qed.

#[export] Hint Resolve seg_sizes span_nonneg seg_nonneg sizes_relink : heap.

End Chain.

(** ** heap.c implements the first-fit allocator *)
Module Refine.
Import Impl Spec Chain.

(** *** heap_merge *)

(** The memory after a merge. *)
Definition merge_mem (m : mem) (head tail : Z) : mem :=
  let tnext := load32 m (tail + o_next) in
  let m1 := if negb (tnext =? 0) then store32 m (tnext + o_prev) head else m in
  let m2 := store32 m1 (head + o_next) (load32 m1 (tail + o_next)) in
  store32 m2 (head + o_size)
    (load32 m2 (head + o_size) +w (sizeof_heap_block +w load32 m2 (tail + o_size))).

Lemma heap_merge_run head tail s :
  heap_merge head tail s =
  if merge_guard (k_mem s) head tail
  then Ok (head, set_mem (merge_mem (k_mem s) head tail) s) else Ok (0, s).
Proof.
  unfold heap_merge, merge_guard, merge_mem. krun.
  repeat match goal with
    | |- context [negb (?x =? ?y)] => destruct (x =? y); cbn [negb orb andb]; try reflexivity
    end; krun; reflexivity.
Qed.

(** The guard on two neighbours of a chain. *)
Lemma merge_guard_adj m a b c nx nx' :
  hdr m a b nx -> hdr m (a + footprint b) c nx' -> nx = a + footprint b ->
  0 <= a -> 0 <= b_size b -> a + footprint b < W32 ->
  merge_guard m a (a + footprint b) = mergeable a b c.
Proof.
  intros (H1 & H2 & H3 & H4 & H5) (G1 & G2 & G3 & G4 & G5) -> Ha Hb Hlt.
  unfold merge_guard, mergeable. rewrite H1, H2, H3, H5, G1, G2, G4.
  rewrite (u32_small (a + sizeof_heap_block + b_size b)) by (offs; lia).
  replace (a + sizeof_heap_block + b_size b) with (a + footprint b) by (offs; lia).
  rewrite !Z.eqb_refl. cbn [andb]. rewrite andb_true_r, andb_true_r.
  destruct (b_used b), (b_used c); cbn; by rewrite ?Z.eqb_refl.
Qed.

Ltac hdr_solve :=
  unfold hdr in *; offs; destruct_and?; repeat split; mem_simp;
  u32_simp; try done; try congruence; try lia.

(** The stores of the current goal hit header bytes only. *)
Ltac agree_tac :=
  repeat (eapply agree_trans; [|apply agree_store32;
    let H := fresh in intros ? ? H; cbn [in_hdrs in_live] in H; offs; lia]);
  apply agree_refl.

Lemma heap_merge_next a b r s :
  seg (k_mem s) a (b :: r) 0 -> 0 < a -> a + span (b :: r) < W32 -> r <> [] ->
  exists x m', heap_merge a (a + footprint b) s = Ok (x, set_mem m' s) /\
    seg m' a (fst (merge_next a b r) :: snd (merge_next a b r)) 0 /\
    agree (fun y => ~ in_hdrs a (b :: r) y) (k_mem s) m'.
Proof.
  intros Hseg Ha Hlt Hr. destruct r as [|c r]; [done|]. clear Hr.
  destruct Hseg as (Hb & Hb0 & Hc & Hc0 & Hs).
  pose proof (span_nonneg r ltac:(eauto with heap)) as Hr0.
  cbn [span] in Hlt. rewrite heap_merge_run.
  rewrite (merge_guard_adj _ _ _ _ _ _ Hb Hc) by (offs; lia).
  unfold merge_next. destruct (mergeable a b c) eqn:Hm; cbn [fst snd].
  2:{ exists 0, (k_mem s). rewrite set_mem_id. repeat split; try done; apply Hb || apply Hc. }
  exists a, (merge_mem (k_mem s) a (a + footprint b)). split; [done|].
  unfold merge_mem. set (m := k_mem s) in *.
  destruct Hb as (B1 & B2 & B3 & B4 & B5), Hc as (C1 & C2 & C3 & C4 & C5).
  destruct r as [|d r].
  - rewrite C3. cbn [Z.eqb negb]. offs. mem_simp. rewrite C3, B5, C5.
    u32_simp. split; [|agree_tac].
    split; [hdr_solve|split; [cbn; lia|done]].
  - destruct Hs as ((D1 & D2 & D3 & D4 & D5) & Hd0 & Hs). cbn [span] in *.
    rewrite C3, (proj2 (Z.eqb_neq _ 0)) by (offs; lia). cbn [negb].
    offs. mem_simp. rewrite C3, B5, C5.
    u32_simp. split; [|agree_tac].
    assert (0 <= span r) by eauto with heap.
    cbn [relink seg]. offs.
    replace (a + (20 + (b_size b + (20 + b_size c))))
      with (a + (20 + b_size b) + (20 + b_size c)) by lia.
    split; [hdr_solve|split; [lia|split; [hdr_solve|split; [done|]]]].
    eapply seg_agree_from; [exact Hs|agree_tac].
Qed.

(** *** heap_alloc *)

Lemma in_live_range a bs x :
  Forall (fun b => 0 <= b_size b) bs -> in_live (live a bs) x ->
  a <= x < a + span bs.
Proof.
  intros HF (p & n & Hp & Hx). pose proof (live_range _ _ _ _ HF Hp). offs. lia.
Qed.

Lemma first_fit_nonempty a n bs p bs' : first_fit a n bs = Some (p, bs') -> bs' <> [].
Proof.
  destruct bs as [|b bs]; [done|]. cbn. destruct (fits n b).
  - intros [= _ <-]. unfold take_block. by destruct (b_size b <=? _).
  - destruct (first_fit _ n bs) as [[q bs'']|]; [|done]. by intros [= _ <-].
Qed.

(** The loop at a block that does not fit goes on with the next one. *)
Lemma heap_alloc_miss fuel n a b r s :
  seg (k_mem s) a (b :: r) 0 -> 0 < a -> fits n b = false ->
  heap_alloc_loop (S fuel) a n s =
  heap_alloc_loop fuel (match r with [] => 0 | _ => a + footprint b end) n s.
Proof.
  intros ((B1 & B2 & B3 & _ & B5) & Hb0 & _) Ha Hfit.
  cbn [heap_alloc_loop]. rewrite (proj2 (Z.eqb_neq a 0)) by lia. krun.
  rewrite B1, B2, B3, B5. cbn [negb Z.eqb]. unfold fits in Hfit.
  destruct (b_used b); [done|]. cbn in Hfit. cbn. by rewrite Z.ltb_antisym, Hfit.
Qed.

(** The loop at a block that fits takes it. *)
Lemma heap_alloc_hit fuel n a b r s :
  seg (k_mem s) a (b :: r) 0 -> 0 < a -> a + span (b :: r) < W32 -> 0 <= n ->
  fits n b = true ->
  exists m', heap_alloc_loop (S fuel) a n s = Ok (a + HDR, set_mem m' s) /\
    seg m' a (take_block a n b ++ r) 0 /\
    agree (fun x => x < a \/ a + footprint b <= x) (k_mem s) m'.
Proof.
  intros ((B1 & B2 & B3 & B4 & B5) & Hb0 & Hs) Ha Hlt Hn Hfit.
  assert (0 <= span r) by eauto with heap. cbn [span] in Hlt.
  unfold fits in Hfit. apply andb_prop in Hfit as [Hu%negb_true_iff Hfit%Z.leb_le].
  cbn [heap_alloc_loop]. rewrite (proj2 (Z.eqb_neq a 0)) by lia. krun.
  rewrite B1, B2, B5, Hu. cbn [negb Z.eqb status_of].
  rewrite !Z.eqb_refl, (proj2 (Z.ltb_ge _ _)) by done. cbn [negb].
  offs. mem_simp. rewrite B5. u32_simp. unfold take_block. offs.
  destruct (Z.leb_spec (b_size b) (n + 20 + 1)) as [Hsmall|Hbig].
  - eexists. split; [reflexivity|]. split; [|agree_tac].
    cbn [app seg]. split; [hdr_solve|split; [done|]].
    eapply seg_agree_from; [exact Hs|agree_tac].
  - eexists. split; [reflexivity|]. split; [|agree_tac].
    u32_simp. cbn [app seg]. offs.
    replace (a + (20 + n)) with (a + 20 + n) by lia.
    replace (a + 20 + n + (20 + (b_size b - n - 20))) with (a + (20 + b_size b)) by lia.
    split; [hdr_solve|split; [done|split; [hdr_solve|split; [lia|]]]].
    eapply seg_agree_from; [exact Hs|agree_tac].
Qed.

Lemma heap_alloc_loop_spec fuel n a bs s :
  seg (k_mem s) a bs 0 -> 0 < a -> a + span bs < W32 -> 0 <= n ->
  (length bs < fuel)%nat ->
  let start := match bs with [] => 0 | _ => a end in
  match first_fit a n bs with
  | None => heap_alloc_loop fuel start n s = Ok (0, s)
  | Some (p, bs') =>
      exists m', heap_alloc_loop fuel start n s = Ok (p, set_mem m' s) /\
        seg m' a bs' 0 /\
        agree (fun x => x < a \/ a + span bs <= x \/ in_live (live a bs) x)
          (k_mem s) m'
  end.
Proof.
  revert fuel a. induction bs as [|b r IH]; intros fuel a Hseg Ha Hlt Hn Hfuel.
  { destruct fuel; [lia|done]. }
  destruct fuel as [|fuel]; [cbn in Hfuel; lia|]. cbn [first_fit].
  assert (0 <= span r /\ 0 <= b_size b /\ seg (k_mem s) (a + footprint b) r 0)
    as (Hr & Hb & Hs) by (destruct Hseg as (? & ? & ?); eauto with heap).
  destruct (fits n b) eqn:Hfit.
  - destruct (heap_alloc_hit fuel n a b r s) as (m' & Hrun & Hseg' & Hag); [done..|].
    exists m'. split; [done|]. split; [done|].
    eapply agree_weaken; [|exact Hag]. cbn [span live]. intros x Hx.
    unfold fits in Hfit. destruct (b_used b); [done|].
    destruct Hx as [?|[?|Hx%in_live_range]]; [by left|offs; lia| |by eapply seg_sizes].
    right. lia.
  - cbn zeta. rewrite (heap_alloc_miss _ _ _ _ _ _ Hseg) by done.
    cbn [span length] in *.
    specialize (IH fuel (a + footprint b) Hs ltac:(offs; lia) ltac:(lia) Hn ltac:(lia)).
    cbn zeta in IH.
    destruct (first_fit (a + footprint b) n r) as [[p bs']|] eqn:Hff; [|by destruct r].
    pose proof (first_fit_nonempty _ _ _ _ _ Hff).
    destruct IH as (m' & Hrun & Hseg' & Hag).
    exists m'. split; [done|]. split.
    + apply (seg_app _ _ [b]) in Hseg as [Hb' _]. apply (seg_app _ _ [b]).
      destruct r as [|c r], bs' as [|c' bs']; try done; cbn [span] in *;
        rewrite !Z.add_0_r in *; (split; [|done]).
      eapply seg_agree_upto; [exact Hb'|]. eapply agree_weaken; [|exact Hag].
      cbn [span]. intros x Hx. left. lia.
    + eapply agree_weaken; [|exact Hag]. cbn [span live]. intros x Hx.
      destruct Hx as [?|[?|Hx]]; [left; offs; lia|right; left; lia|].
      destruct (b_used b); [|by right; right].
      apply in_live_insert in Hx as [?|?]; [left; offs; lia|by right; right].
Qed.

Lemma heap_inv_length lo hi s bs :
  heap_inv lo hi s bs -> hi - lo <= heap_size -> (length bs < HEAP_FUEL)%nat.
Proof.
  intros (_ & _ & Hseg & _ & Hspan & _) Hhi.
  pose proof (span_length bs ltac:(by eapply seg_sizes)) as Hl.
  unfold HEAP_FUEL, heap_size in *. lia.
Qed.

Lemma lock_heap_free s : k_heap_lock s = 0 -> lock_heap s = Ok (tt, set_lock 1 s).
Proof. intros H. unfold lock_heap, on_lock, zoom. by rewrite H. Qed.

Lemma unlock_heap_run s : unlock_heap s = Ok (tt, set_lock 0 s).
Proof. done. Qed.

Theorem heap_alloc_first_fit lo hi n bs s :
  heap_inv lo hi s bs -> hi - lo <= heap_size -> 0 <= n ->
  match first_fit lo n bs with
  | None => heap_alloc n s = Ok (0, s)
  | Some (p, bs') =>
      exists m', heap_alloc n s = Ok (p, set_mem m' s) /\
        seg m' lo bs' 0 /\
        agree (fun x => x < lo \/ hi <= x \/ in_live (live lo bs) x) (k_mem s) m'
  end.
Proof.
  intros Hinv Hsz Hn. pose proof (heap_inv_length _ _ _ _ Hinv Hsz) as Hfuel.
  destruct Hinv as (Hroot & Hlock & Hseg & Hne & Hhi & Hlo & Hlt).
  pose proof (heap_alloc_loop_spec HEAP_FUEL n lo bs (set_lock 1 s) Hseg Hlo
    ltac:(lia) Hn Hfuel) as H. cbn zeta in H. destruct bs as [|b bs]; [done|].
  assert (forall m, set_lock 0 (set_mem m (set_lock 1 s)) = set_mem m s) as Hst
    by (intros m; unfold set_lock, set_mem; cbn; by rewrite <- Hlock).
  assert (forall x m', heap_alloc_loop HEAP_FUEL lo n (set_lock 1 s)
      = Ok (x, set_mem m' (set_lock 1 s)) -> heap_alloc n s = Ok (x, set_mem m' s)) as Hrun.
  { intros x m' Hl. unfold heap_alloc. rewrite gets_bind, Hroot.
    mstep (lock_heap_free s Hlock). mstep Hl.
    mstep (unlock_heap_run (set_mem m' (set_lock 1 s))). by rewrite Hst. }
  destruct (first_fit lo n (b :: bs)) as [[p bs']|].
  - destruct H as (m' & Hl & Hseg' & Hag). exists m'. split; [by apply Hrun|].
    split; [done|]. by rewrite Hhi in Hag.
  - rewrite (Hrun 0 (k_mem s) H). by rewrite set_mem_id.
Qed.

(** *** heap_free *)

(** Replacing the tail of a chain. *)
Lemma seg_replace m m' a l r r' :
  seg m a (l ++ r) 0 -> seg m' (a + span l) r' 0 -> r <> [] -> r' <> [] ->
  agree (fun x => x < a + span l) m m' -> seg m' a (l ++ r') 0.
Proof.
  intros [Hl _]%seg_app Hr' Hne Hne' Hag. apply seg_app. split; [|done].
  destruct r, r'; try done. by eapply seg_agree_upto.
Qed.

Lemma merge_next_prev a b r : b_prev (fst (merge_next a b r)) = b_prev b.
Proof. destruct r as [|c r]; [done|]. cbn. by destruct (mergeable a b c). Qed.

Lemma heap_free_front_spec a b r s :
  seg (k_mem s) a (b :: r) 0 -> 0 < a -> a + span (b :: r) < W32 ->
  exists m', heap_free_front a s = Ok (tt, set_mem m' s) /\
    seg m' a (fst (merge_next a (release b) r) :: snd (merge_next a (release b) r)) 0 /\
    agree (fun y => ~ in_hdrs a (b :: r) y) (k_mem s) m'.
Proof.
  intros Hseg Ha Hlt. pose proof Hseg as (Hb & Hb0 & Hs).
  set (s1 := set_mem (store32 (k_mem s) (a + o_status) HEAP_MAGIC_FREE) s).
  assert (0 <= span r) by eauto with heap.
  assert (seg (k_mem s1) a (release b :: r) 0) as Hseg1.
  { cbn [span] in Hlt. subst s1. cbn [seg k_mem set_mem release].
    change (footprint (release b)) with (footprint b).
    split; [|split; [done|]].
    - hdr_solve.
    - eapply seg_agree_from; [exact Hs|agree_tac]. }
  assert (agree (fun y => ~ in_hdrs a (b :: r) y) (k_mem s) (k_mem s1)) as Hag1
    by (subst s1; cbn [k_mem set_mem]; agree_tac).
  assert (load32 (k_mem s1) (a + o_next)
      = match r with [] => 0 | _ => a + footprint b end) as Hnext
    by (by destruct Hseg1 as ((_ & _ & ? & _) & _)).
  assert (heap_free_front a s =
    (if negb (load32 (k_mem s1) (a + o_next) =? 0)
     then (_ ← heap_merge a (load32 (k_mem s1) (a + o_next)); mret tt) s1
     else Ok (tt, s1))) as Hrun.
  { unfold heap_free_front, st32, ld32. rewrite modify_bind, !gets_bind, if_app.
    by rewrite gets_bind. }
  rewrite Hrun, Hnext. destruct r as [|c r].
  { exists (k_mem s1). by split. }
  rewrite (proj2 (Z.eqb_neq _ 0)) by (offs; lia). cbn [negb].
  destruct (heap_merge_next a (release b) (c :: r) s1 Hseg1 Ha Hlt) as (x & m' & Hm & Hseg' & Hag);
    [done|].
  exists m'. change (footprint (release b)) with (footprint b) in Hm.
  mstep Hm. split; [done|]. split; [done|]. eapply agree_trans; [exact Hag1|exact Hag].
Qed.

(** Following [next] pointers from [x] meets a block at [y]. *)
Inductive heap_reach (m : mem) : Z -> Z -> Prop :=
  | reach_here x : x <> 0 -> heap_reach m x x
  | reach_next x y :
      x <> 0 -> heap_reach m (load32 m (x + o_next)) y -> heap_reach m x y.

(** The stored [prev] of the buffer's block, once the merge with the next
    block is done, is NULL, or a block of the chain, or heap_merge rejects it.
    (Splitting a block leaves the [prev] of the block behind it stale, see
    [stale_prev_merges_into_buffer].) *)
Definition free_safe (s : kst) (ptr : Z) : Prop :=
  let a := ptr - sizeof_heap_block in
  forall s1, heap_free_front a (set_lock 1 s) = Ok (tt, s1) ->
  let p := load32 (k_mem s1) (a + o_prev) in
  p = 0 \/ heap_reach (k_mem s1) (k_heap_root s1) p \/
  merge_guard (k_mem s1) p a = false.

Lemma reach_block m a bs p :
  seg m a bs 0 -> 0 < a -> heap_reach m (match bs with [] => 0 | _ => a end) p ->
  exists l b r, bs = l ++ b :: r /\ p = a + span l.
Proof.
  revert a. induction bs as [|b bs IH]; intros a Hseg Ha Hr.
  { by inversion Hr. }
  destruct Hseg as ((_ & _ & Hn & _) & Hb & Hs).
  inversion Hr as [? Hx|? ? Hx Hr']; subst.
  - exists [], b, bs. split; [done|cbn; lia].
  - rewrite Hn in Hr'.
    destruct (IH (a + footprint b) Hs ltac:(offs; lia) Hr') as (l & c & r & -> & ->).
    exists (b :: l), c, r. split; [done|]. cbn. lia.
Qed.

Lemma span_prefix_inj l1 r1 l2 r2 :
  l1 ++ r1 = l2 ++ r2 -> Forall (fun b => 0 <= b_size b) (l1 ++ r1) ->
  span l1 = span l2 -> l1 = l2.
Proof.
  revert l2. induction l1 as [|b l1 IH]; intros [|c l2] Heq HF Hsp; cbn in *; try done.
  - simplify_eq. inversion HF as [|? ? ? HF']. apply Forall_app in HF' as [HF' _].
    pose proof (span_nonneg _ HF'). offs. lia.
  - simplify_eq. inversion HF as [|? ? ? HF']. apply Forall_app in HF' as [HF' _].
    pose proof (span_nonneg _ HF'). offs. lia.
  - injection Heq as -> Heq. inversion HF. f_equal. apply IH; [done|done|lia].
Qed.

(** A link that passes the guard of [heap_merge] and is on the chain is the
    previous block's address. *)
Lemma prev_on_chain m lo l b r p :
  seg m lo (l ++ b :: r) 0 -> 0 < lo ->
  heap_reach m lo p -> merge_guard m p (lo + span l) = true ->
  exists l1 pb, l = l1 ++ [pb] /\ p = lo + span l1.
Proof.
  intros Hseg Hlo Hreach Hg.
  assert (Forall (fun b => 0 <= b_size b) (l ++ b :: r)) as HF by eauto with heap.
  destruct (reach_block m lo (l ++ b :: r) p Hseg Hlo) as (l1 & pb & r1 & Heq & ->).
  { by destruct l. }
  exists l1, pb. split; [|done].
  unfold merge_guard in Hg. rewrite !andb_true_iff, !Z.eqb_eq in Hg.
  destruct Hg as [[[_ Hnext] _] _].
  rewrite Heq in Hseg. apply seg_app in Hseg as [_ ((_ & _ & Hn & _) & _)].
  rewrite Hn in Hnext.
  assert (0 <= span l) as Hl by (apply span_nonneg; by apply Forall_app in HF as [? _]).
  destruct r1 as [|c r1]; [lia|].
  symmetry. eapply (span_prefix_inj _ (c :: r1) _ (b :: r)).
  - rewrite <- app_assoc. cbn. done.
  - rewrite <- app_assoc. cbn. by rewrite <- Heq.
  - rewrite span_app. cbn. lia.
Qed.

Lemma heap_free_back_spec lo l b r s :
  let a := lo + span l in
  seg (k_mem s) lo (l ++ b :: r) 0 -> 0 < lo -> lo + span (l ++ b :: r) < W32 ->
  k_heap_root s = lo ->
  (b_prev b = 0 \/ heap_reach (k_mem s) lo (b_prev b) \/
   merge_guard (k_mem s) (b_prev b) a = false) ->
  exists m', heap_free_back a s = Ok (tt, set_mem m' s) /\
    seg m' lo (merge_last lo l b r) 0 /\
    agree (fun y => ~ in_hdrs lo (l ++ b :: r) y) (k_mem s) m'.
Proof.
  intros a Hseg Hlo Hlt Hroot Hsafe. subst a.
  pose proof Hseg as [Hl ((B1 & B2 & B3 & B4 & B5) & Hb0 & Hs)]%seg_app.
  assert (0 <= span l) as Hl0 by eauto with heap.
  assert (0 <= span r) as Hr0 by eauto with heap.
  rewrite span_app in Hlt. cbn [span] in Hlt.
  assert (heap_free_back (lo + span l) s =
    if negb (b_prev b =? 0) then (_ ← heap_merge (b_prev b) (lo + span l); mret tt) s
    else Ok (tt, s)) as Hrun.
  { unfold heap_free_back, ld32. rewrite gets_bind, if_app, gets_bind. by rewrite B4. }
  rewrite Hrun. clear Hrun.
  destruct (negb (b_prev b =? 0) && merge_guard (k_mem s) (b_prev b) (lo + span l)) eqn:Hg.
  - apply andb_prop in Hg as [Hp Hg]. rewrite Hp. apply negb_true_iff, Z.eqb_neq in Hp.
    destruct Hsafe as [?|[Hreach|?]]; [done| |congruence].
    destruct (prev_on_chain _ _ _ _ _ _ Hseg Hlo Hreach Hg) as (l1 & pb & -> & Hpa).
    rewrite span_app in *. cbn [span] in *. rewrite Z.add_0_r in *.
    rewrite <- app_assoc in *. cbn [app] in *.
    pose proof Hseg as [Hl1 Hseg1]%seg_app.
    assert (0 <= span l1) by eauto with heap.
    assert (0 <= b_size pb) by by destruct Hseg1 as (_ & ? & _).
    destruct (heap_merge_next (lo + span l1) pb (b :: r) s Hseg1) as (x & m' & Hm & Hseg' & Hag);
      [lia|cbn; offs; lia|done|].
    exists m'. rewrite Hpa, Z.add_assoc. mstep Hm. split; [done|]. split.
    + rewrite merge_last_snoc. eapply seg_replace; [exact Hseg|done..|].
      eapply agree_weaken; [|exact Hag]. intros x' Hx Hin.
      apply in_hdrs_range in Hin; [lia|by eapply seg_sizes].
    + eapply agree_weaken; [|exact Hag]. intros x' Hx Hin. apply Hx, in_hdrs_app. by right.
  - exists (k_mem s). rewrite set_mem_id. split; [|split; [|apply agree_refl]].
    + destruct (negb (b_prev b =? 0)); [|done]. cbn in Hg.
      unfold mbind, M_bind. by rewrite heap_merge_run, Hg.
    + cut (merge_last lo l b r = l ++ b :: r); [by intros ->|].
      destruct l as [|pb l1 _] using rev_ind; [done|].
      rewrite merge_last_snoc, <- app_assoc. cbn [app merge_next].
      rewrite <- app_assoc in Hseg. apply seg_app in Hseg as [Hl1 (Hpb & Hpb0 & Hb & _)].
      assert (0 <= span l1) by eauto with heap.
      rewrite span_app in *. cbn [span] in *. rewrite Z.add_0_r in *.
      destruct (mergeable (lo + span l1) pb b) eqn:Hm; [|done]. exfalso.
      assert (b_prev b = lo + span l1) as Hpa.
      { unfold mergeable in Hm. rewrite !andb_true_iff, Z.eqb_eq in Hm. tauto. }
      rewrite Hpa, (proj2 (Z.eqb_neq _ 0)) in Hg by lia. cbn [negb andb] in Hg.
      rewrite Z.add_assoc, (merge_guard_adj _ _ _ _ _ _ Hpb Hb) in Hg by (offs; lia).
      congruence.
Qed.

(** The call around the two merges. *)
Lemma heap_free_run a s m1 m' :
  k_heap_lock s = 0 -> 0 <= a -> a + HDR < W32 ->
  load32 (k_mem s) (a + o_magic) = HEAP_MAGIC_HEAD ->
  load32 (k_mem s) (a + o_status) = HEAP_MAGIC_USED ->
  heap_free_front a (set_lock 1 s) = Ok (tt, set_mem m1 (set_lock 1 s)) ->
  heap_free_back a (set_mem m1 (set_lock 1 s)) = Ok (tt, set_mem m' (set_lock 1 s)) ->
  heap_free (a + HDR) s = Ok (tt, set_mem m' s).
Proof.
  intros Hlock Ha Hlt M1 M2 Hfront Hback. set (s1 := set_lock 1 s) in *.
  unfold heap_free. mstep (lock_heap_free s Hlock).
  rewrite u32_small by (offs; lia). replace (a + HDR - sizeof_heap_block) with a by (offs; lia).
  assert (heap_free_body a s1 = (_ ← heap_free_front a; heap_free_back a) s1) as Hbody.
  { unfold heap_free_body, ld32. rewrite gets_bind. subst s1. cbn [k_mem set_lock].
    rewrite M1, if_app, gets_bind. cbn [k_mem set_lock]. by rewrite M2. }
  rewrite (bind_Ok _ _ _ tt (set_mem m' s1)).
  - rewrite unlock_heap_run. unfold s1, set_mem, set_lock. cbn. by rewrite Hlock.
  - etransitivity; [exact Hbody|]. mstep Hfront. exact Hback.
Qed.

Theorem heap_free_refines lo hi l b r s :
  let ptr := lo + span l + HDR in
  heap_inv lo hi s (l ++ b :: r) -> b_used b = true -> free_safe s ptr ->
  exists m', heap_free ptr s = Ok (tt, set_mem m' s) /\
    heap_inv lo hi (set_mem m' s) (free_block lo l b r) /\
    agree (fun y => ~ in_hdrs lo (l ++ b :: r) y) (k_mem s) m'.
Proof.
  intros ptr (Hroot & Hlock & Hseg & Hne & Hhi & Hlo & Hlt) Hu Hsafe. subst ptr.
  pose proof Hseg as [Hl Hb]%seg_app.
  assert (0 <= span l) as Hl0 by eauto with heap.
  assert (0 <= b_size b) as Hb0 by by destruct Hb as (_ & ? & _).
  pose proof Hb as ((B1 & B2 & _) & _ & Hs).
  assert (0 <= span r) as Hr0 by eauto with heap.
  rewrite span_app in Hhi. cbn [span] in Hhi.
  set (a := lo + span l) in *. set (s1 := set_lock 1 s).
  destruct (heap_free_front_spec a b r s1 Hb) as (m1 & Hfront & Hb1 & Hag1);
    [lia|cbn [span]; lia|].
  set (br := merge_next a (release b) r) in *.
  assert (seg m1 lo (l ++ fst br :: snd br) 0) as Hseg1.
  { eapply seg_replace; [exact Hseg|done..|]. eapply agree_weaken; [|exact Hag1].
    intros x Hx Hin. apply in_hdrs_range in Hin; [lia|by eapply seg_sizes]. }
  assert (span (fst br :: snd br) = span (b :: r)) as Hspan
    by (unfold br; by rewrite merge_next_span).
  assert (b_prev (fst br) = load32 m1 (a + o_prev)) as Hprev
    by (by destruct Hb1 as ((_ & _ & _ & ? & _) & _)).
  assert (a + HDR - sizeof_heap_block = a) as Ha' by (offs; lia).
  unfold free_safe in Hsafe. rewrite Ha' in Hsafe. specialize (Hsafe _ Hfront).
  cbn [k_mem k_heap_root set_mem set_lock s1] in Hsafe.
  rewrite <- Hprev, Hroot in Hsafe.
  destruct (heap_free_back_spec lo l (fst br) (snd br) (set_mem m1 s1))
    as (m' & Hback & Hseg' & Hag'); try done.
  { rewrite span_app, Hspan. cbn [span]. lia. }
  exists m'. split; [|split].
  - rewrite Hu in B2. apply (heap_free_run a s m1 m'); done || (offs; lia).
  - unfold heap_inv. cbn [k_mem k_heap_root k_heap_lock set_mem].
    rewrite free_block_span, span_app. cbn [span].
    split_and!; try done; try lia. apply merge_last_nonempty.
  - eapply agree_trans.
    + eapply agree_weaken; [|exact Hag1]. intros x Hx Hin.
      apply Hx, in_hdrs_app. by right.
    + eapply agree_weaken; [|exact Hag']. intros x Hx Hin.
      apply Hx. apply in_hdrs_app. apply in_hdrs_app in Hin as [?|?]; [by left|].
      right. by apply (merge_next_hdrs a (release b)).
Qed.

End Refine.

(** ** heap.c is an [Allocator] *)
Module Interface.
Import Impl Spec Chain Refine.

Lemma first_fit_span a n bs p bs' : first_fit a n bs = Some (p, bs') -> span bs' = span bs.
Proof.
  revert a p bs'. induction bs as [|b bs IH]; intros a p bs'; [done|]. cbn.
  destruct (fits n b).
  - intros [= _ <-]. rewrite span_app. unfold take_block.
    destruct (b_size b <=? _); cbn; offs; lia.
  - destruct (first_fit _ n bs) as [[q bs'']|] eqn:Hff; [|done].
    intros [= _ <-]. cbn. by rewrite (IH _ _ _ Hff).
Qed.

Lemma first_fit_low a n bs p bs' :
  Forall (fun b => 0 <= b_size b) bs -> first_fit a n bs = Some (p, bs') -> a + HDR <= p.
Proof.
  intros HF. revert a p bs'. induction HF as [|b bs Hb HF IH]; intros a p bs'; [done|].
  cbn. destruct (fits n b); [by intros [= <- _]|].
  destruct (first_fit _ n bs) as [[q bs'']|] eqn:Hff; [|done].
  intros [= <- _]. specialize (IH _ _ _ Hff). offs. lia.
Qed.

(** First fit hands out a fresh buffer of at least the wanted size (and at
    most 21 bytes more), and leaves the other buffers alone. *)
Lemma first_fit_live a n bs p bs' :
  Forall (fun b => 0 <= b_size b) bs -> 0 <= n -> first_fit a n bs = Some (p, bs') ->
  exists sz, n <= sz <= n + HDR + 1 /\ live a bs !! p = None /\
    live a bs' = <[p := sz]> (live a bs).
Proof.
  intros HF Hn. revert a p bs'. induction HF as [|b bs Hb HF IH]; intros a p bs'; [done|].
  cbn [first_fit]. destruct (fits n b) eqn:Hfit.
  - intros [= <- <-]. unfold fits in Hfit.
    apply andb_prop in Hfit as [Hu%negb_true_iff Hfit%Z.leb_le].
    assert (live a (b :: bs) = live (a + footprint b) bs) as Hl by (cbn; by rewrite Hu).
    assert (live (a + footprint b) bs !! (a + HDR) = None) as Hnone.
    { destruct (live (a + footprint b) bs !! (a + HDR)) as [k|] eqn:Hk; [|done].
      apply (live_range _ _ _ _ HF) in Hk. offs. lia. }
    rewrite Hl. unfold take_block. destruct (Z.leb_spec (b_size b) (n + HDR + 1)).
    + exists (b_size b). split; [lia|]. split; [done|]. done.
    + exists n. split; [offs; lia|]. split; [done|]. cbn. do 2 f_equal. offs. lia.
  - destruct (first_fit _ n bs) as [[q bs'']|] eqn:Hff; [|done]. intros [= <- <-].
    destruct (IH _ _ _ Hff) as (sz & Hsz & Hnone & Hlive). exists sz. split; [done|].
    cbn [live]. rewrite Hlive. destruct (b_used b); [|done].
    assert (a + HDR <> q).
    { apply first_fit_low in Hff; [|done]. offs. lia. }
    rewrite lookup_insert_ne by done. split; [done|]. by rewrite insert_insert_ne.
Qed.

Lemma merge_next_sizes a b r :
  Forall (fun b => 0 <= b_size b) (b :: r) ->
  Forall (fun b => 0 <= b_size b) (fst (merge_next a b r) :: snd (merge_next a b r)).
Proof.
  destruct r as [|c r]; [done|]. unfold merge_next. destruct (mergeable a b c); [|done].
  intros HF. inversion HF as [|? ? Hb HF']; inversion HF'; subst. cbn.
  constructor; [offs; lia|by apply sizes_relink].
Qed.

Lemma merge_last_live a l b r :
  Forall (fun b => 0 <= b_size b) (l ++ b :: r) ->
  live a (merge_last a l b r) = live a (l ++ b :: r).
Proof.
  destruct l as [|pb l _] using rev_ind; [done|]. rewrite merge_last_snoc, <- app_assoc.
  cbn [app]. intros HF. rewrite !live_app; [by rewrite merge_next_live|done|].
  apply Forall_app in HF as [? HF]. apply Forall_app. split; [done|].
  by apply merge_next_sizes.
Qed.

(** Freeing a block removes exactly its buffer. *)
Lemma free_block_live a l b r :
  Forall (fun b => 0 <= b_size b) (l ++ b :: r) -> b_used b = true ->
  live a (free_block a l b r) = delete (a + span l + HDR) (live a (l ++ b :: r)).
Proof.
  intros HF Hu. unfold free_block.
  pose proof HF as [HFl HFb]%Forall_app.
  assert (Forall (fun b => 0 <= b_size b) (release b :: r)) as HFr
    by (inversion HFb; by constructor).
  pose proof (merge_next_sizes (a + span l) (release b) r HFr) as HFm.
  rewrite merge_last_live by by apply Forall_app.
  rewrite !live_app by (done || by apply Forall_app).
  rewrite merge_next_live, delete_union. f_equal.
  - symmetry. apply delete_id. destruct (live a l !! _) as [k|] eqn:Hk; [|done].
    apply (live_range _ _ _ _ HFl) in Hk. offs. lia.
  - cbn. rewrite Hu. rewrite delete_insert_id; [done|].
    inversion HFb; subst. destruct (live _ r !! _) as [k|] eqn:Hk; [|done].
    apply live_range in Hk; [offs; lia|done].
Qed.

Lemma live_lookup_split a bs p n :
  live a bs !! p = Some n ->
  exists l b r, bs = l ++ b :: r /\ b_used b = true /\ b_size b = n /\
    p = a + span l + HDR.
Proof.
  revert a. induction bs as [|b bs IH]; intros a; cbn; [done|].
  destruct (b_used b) eqn:Hu.
  - rewrite lookup_insert_Some. intros [[<- <-]|[_ Hp]].
    + exists [], b, bs. split_and!; try done. cbn. lia.
    + destruct (IH _ Hp) as (l & c & r & -> & ? & ? & ->).
      exists (b :: l), c, r. split_and!; try done. cbn. lia.
  - intros Hp. destruct (IH _ Hp) as (l & c & r & -> & ? & ? & ->).
    exists (b :: l), c, r. split_and!; try done. cbn. lia.
Qed.

(** The invariant clients see. *)
Definition heap_ok (lo hi : Z) (s : kst) (L : bufs) : Prop :=
  exists bs, heap_inv lo hi s bs /\ L = live lo bs /\ hi - lo <= heap_size.

Lemma heap_ok_sizes lo hi s bs :
  heap_inv lo hi s bs -> Forall (fun b => 0 <= b_size b) bs.
Proof. intros (_ & _ & ? & _). by eapply seg_sizes. Qed.

Lemma heap_ok_bounds lo hi s L p n :
  heap_ok lo hi s L -> L !! p = Some n -> 0 < p /\ 0 <= n /\ p + n < W32.
Proof.
  intros (bs & Hinv & -> & _) Hp. pose proof (heap_ok_sizes _ _ _ _ Hinv) as HF.
  destruct Hinv as (_ & _ & _ & _ & ? & ? & ?).
  pose proof (live_range _ _ _ _ HF Hp). offs. lia.
Qed.

Lemma heap_ok_disjoint lo hi s L p n q k :
  heap_ok lo hi s L -> L !! p = Some n -> L !! q = Some k -> p <> q ->
  p + n <= q \/ q + k <= p.
Proof.
  intros (bs & Hinv & -> & _). eapply live_lookup_disjoint, heap_ok_sizes; done.
Qed.

Lemma heap_inv_frame lo hi s bs m' :
  heap_inv lo hi s bs ->
  agree (fun a => lo <= a < hi /\ ~ in_live (live lo bs) a) (k_mem s) m' ->
  heap_inv lo hi (set_mem m' s) bs.
Proof.
  intros Hinv Hag. pose proof (heap_ok_sizes _ _ _ _ Hinv) as HF.
  destruct Hinv as (Hr & Hl & Hseg & Hne & Hsp & Hrest).
  split; [done|split; [done|split; [|done]]]. cbn [k_mem set_mem].
  eapply seg_agree; [exact Hseg|]. eapply agree_weaken; [|exact Hag].
  intros x Hx. split; [rewrite <- Hsp; by apply in_hdrs_range|].
  intros Hlive. by apply (live_not_hdr _ _ _ HF Hlive).
Qed.

Lemma heap_ok_frame lo hi s L m' :
  heap_ok lo hi s L ->
  agree (fun a => (lo <= a < hi) /\ ~ in_live L a) (k_mem s) m' ->
  heap_ok lo hi (set_mem m' s) L.
Proof.
  intros (bs & Hinv & -> & Hsz) Hag. exists bs. split; [by apply heap_inv_frame|done].
Qed.

Lemma heap_malloc_ok lo hi s L n :
  heap_ok lo hi s L -> 0 <= n < W32 ->
  exists r s', malloc n s = Ok (r, s') /\ same_rest s s' /\
    ((r = 0 /\ s' = s) \/
     (exists sz, n <= sz /\ L !! r = None /\ heap_ok lo hi s' (<[r := sz]> L) /\
        agree (fun a => in_live L a \/ ~ (lo <= a < hi)) (k_mem s) (k_mem s'))).
Proof.
  intros (bs & Hinv & -> & Hsz) [Hn _]. pose proof (heap_ok_sizes _ _ _ _ Hinv) as HF.
  pose proof (heap_alloc_first_fit lo hi n bs s Hinv Hsz Hn) as H.
  destruct (first_fit lo n bs) as [[p bs']|] eqn:Hff.
  - destruct H as (m' & Hrun & Hseg & Hag). exists p, (set_mem m' s).
    split; [done|split; [done|]]. right.
    destruct (first_fit_live _ _ _ _ _ HF Hn Hff) as (sz & ? & Hnone & Hlive).
    exists sz. split; [lia|split; [done|split]].
    + exists bs'. rewrite Hlive. split; [|done]. destruct Hinv as (? & ? & _ & _ & ? & ? & ?).
      pose proof (first_fit_nonempty _ _ _ _ _ Hff).
      pose proof (first_fit_span _ _ _ _ _ Hff).
      unfold heap_inv. cbn [k_mem k_heap_root k_heap_lock set_mem].
      split_and!; done || lia.
    + eapply agree_weaken; [|exact Hag]. intros x [Hx|Hx]; [by right; right|lia].
  - exists 0, s. split; [done|split; [apply same_rest_refl|by left]].
Qed.

Lemma heap_free_ok lo hi s L p n :
  heap_ok lo hi s L -> L !! p = Some n -> free_safe s p ->
  exists s', free p s = Ok (tt, s') /\ same_rest s s' /\
    heap_ok lo hi s' (delete p L) /\
    agree (fun a => in_live L a \/ ~ (lo <= a < hi)) (k_mem s) (k_mem s').
Proof.
  intros (bs & Hinv & -> & Hsz) Hp Hsafe. pose proof (heap_ok_sizes _ _ _ _ Hinv) as HF.
  destruct (live_lookup_split _ _ _ _ Hp) as (l & b & r & -> & Hu & Hb & ->).
  destruct (heap_free_refines lo hi l b r s Hinv Hu Hsafe) as (m' & Hrun & Hinv' & Hag).
  exists (set_mem m' s). split; [done|split; [done|split]].
  - exists (free_block lo l b r). by rewrite free_block_live.
  - eapply agree_weaken; [|exact Hag]. intros x [Hx|Hx]; [by apply live_not_hdr|].
    destruct Hinv as (_ & _ & _ & _ & Hsp & _). intros Hh.
    apply (in_hdrs_range _ _ _ HF) in Hh. lia.
Qed.

Lemma heap_ok_arena lo hi s L a : heap_ok lo hi s L -> in_live L a -> lo <= a < hi.
Proof.
  intros (bs & Hinv & -> & _) (p & n & Hp & Ha).
  pose proof (heap_ok_sizes _ _ _ _ Hinv) as HF.
  destruct Hinv as (_ & _ & _ & _ & ? & ? & ?).
  pose proof (live_range _ _ _ _ HF Hp). offs. lia.
Qed.

(** The heap's initial chain: one free block. *)
Definition initial_chain : list blk := [Blk (heap_size - HDR) false 0].

Lemma heap_init_inv lo s :
  0 < lo -> lo + heap_size < W32 ->
  exists s', heap_init lo s = Ok (tt, s') /\
    heap_inv lo (lo + heap_size) s' initial_chain.
Proof.
  intros Hlo Hlt. unfold heap_init. krun. cbn [Seq.spinlock_init].
  unfold on_lock, zoom, Seq.spinlock_init. krun.
  eexists. split; [reflexivity|]. unfold heap_inv, initial_chain, heap_size in *.
  cbn [k_mem k_heap_root k_heap_lock set_mem set_root set_lock seg span].
  offs. split_and!; try done; try lia. hdr_solve.
Qed.

Lemma heap_ok_init lo s :
  0 < lo -> lo + heap_size < W32 ->
  exists s', heap_init lo s = Ok (tt, s') /\ heap_ok lo (lo + heap_size) s' ∅.
Proof.
  intros Hlo Hlt. destruct (heap_init_inv lo s Hlo Hlt) as (s' & Hrun & Hinv).
  exists s'. split; [done|]. exists initial_chain. split; [done|]. split; [done|lia].
Qed.

#[export] Instance heap_allocator (lo hi : Z) : Allocator := {|
  Alloc.malloc := malloc;
  Alloc.free := free;
  ainv := heap_ok lo hi;
  arena := fun a => lo <= a < hi;
  Alloc.free_safe := free_safe;
  live_bounds := heap_ok_bounds lo hi;
  live_arena := heap_ok_arena lo hi;
  live_disjoint := heap_ok_disjoint lo hi;
  malloc_spec := heap_malloc_ok lo hi;
  free_spec := heap_free_ok lo hi;
  ainv_frame := fun s L m' H => heap_ok_frame lo hi s L m' H
|}.

End Interface.

(** ** Links and coalescing *)
Module Links.
Import Impl Spec Chain Refine Interface.

(** Where the predecessor of the block after [l] starts. *)
Definition pred (a p : Z) (l : list blk) : Z :=
  match last l with
  | Some _ => a + span (removelast l)
  | None => p
  end.

(** Every stored [prev] is the address of the previous block. *)
Fixpoint linked (a p : Z) (bs : list blk) : Prop :=
  match bs with
  | [] => True
  | b :: bs' => b_prev b = p /\ linked (a + footprint b) a bs'
  end.

(** No two neighbours are free. *)
Fixpoint coalesced (bs : list blk) : Prop :=
  match bs with
  | b :: (c :: _) as bs' => (b_used b = true \/ b_used c = true) /\ coalesced bs'
  | _ => True
  end.

Lemma pred_snoc a p l b : pred a p (l ++ [b]) = a + span l.
Proof. unfold pred. by rewrite last_snoc, removelast_last. Qed.

Lemma pred_cons a p b l : pred a p (b :: l) = pred (a + footprint b) a l.
Proof.
  destruct l as [|c l _] using rev_ind; [unfold pred; cbn; lia|].
  rewrite app_comm_cons, !pred_snoc. cbn. lia.
Qed.

Lemma linked_app a p l r :
  linked a p (l ++ r) <-> linked a p l /\ linked (a + span l) (pred a p l) r.
Proof.
  revert a p. induction l as [|b l IH]; intros a p; cbn [app linked span].
  - rewrite Z.add_0_r. unfold pred. cbn. tauto.
  - rewrite IH, pred_cons, Z.add_assoc. tauto.
Qed.

Lemma linked_relink a p q bs : linked a q bs -> linked a p (relink p bs).
Proof. destruct bs as [|b bs]; [done|]. cbn. tauto. Qed.

Lemma coalesced_app l b r :
  coalesced (l ++ b :: r) <-> coalesced (l ++ [b]) /\ coalesced (b :: r).
Proof.
  induction l as [|c l IH]; [cbn; tauto|].
  destruct l as [|d l]; cbn [app coalesced] in *; [tauto|]. rewrite IH. tauto.
Qed.

Lemma coalesced_cons_used b r : b_used b = true -> coalesced r -> coalesced (b :: r).
Proof. destruct r; cbn; auto. Qed.

Lemma coalesced_tail b r : coalesced (b :: r) -> coalesced r.
Proof. destruct r; cbn; tauto. Qed.

(** A free block in front of [r], after the merge with [r]'s head, has no free
    block behind it. *)
Lemma merge_next_coalesced a b r :
  b_used b = false -> linked (a + footprint b) a r -> coalesced r ->
  coalesced (fst (merge_next a b r) :: snd (merge_next a b r)) /\
  linked (a + footprint (fst (merge_next a b r))) a (snd (merge_next a b r)).
Proof.
  intros Hu Hl Hc. destruct r as [|c r]; [done|]. destruct Hl as [Hp Hl].
  unfold merge_next, mergeable. rewrite Hu, Hp, Z.eqb_refl. cbn [negb andb].
  destruct (b_used c) eqn:Hcu; cbn [negb andb fst snd]; [cbn; auto|].
  replace (a + footprint (absorb b c)) with (a + footprint b + footprint c) by (offs; lia).
  split; [|by eapply linked_relink].
  destruct r as [|d r]; [done|]. destruct Hc as [[?|?] Hc]; [congruence|].
  cbn in *. tauto.
Qed.

Lemma merge_next_first a b r : b_used (fst (merge_next a b r)) = b_used b.
Proof. destruct r as [|c r]; [done|]. cbn. by destruct (mergeable a b c). Qed.

(** Freeing a block keeps the links exact and neighbours merged. *)
Lemma free_block_linked lo l b r :
  linked lo 0 (l ++ b :: r) -> coalesced (l ++ b :: r) -> b_used b = true ->
  linked lo 0 (free_block lo l b r) /\ coalesced (free_block lo l b r).
Proof.
  intros [Hl [Hp Hr]]%linked_app [Hcl Hcr]%coalesced_app Hu.
  unfold free_block. set (a := lo + span l) in *.
  destruct (merge_next_coalesced a (release b) r eq_refl Hr) as [Hc' Hr'];
    [by eapply coalesced_tail|].
  set (br := merge_next a (release b) r) in *.
  assert (b_prev (fst br) = pred lo 0 l) as Hp' by (subst br; by rewrite merge_next_prev).
  assert (b_used (fst br) = false) as Hu' by (subst br; by rewrite merge_next_first).
  destruct l as [|pb l _] using rev_ind.
  { cbn in a. subst a. rewrite Z.add_0_r in *. by split. }
  rewrite merge_last_snoc. rewrite pred_snoc in Hp'.
  apply linked_app in Hl as [Hl [Hpb _]].
  assert (a = lo + span l + footprint pb) as Ha by (subst a; rewrite span_app; cbn; lia).
  rewrite <- app_assoc in Hcl. cbn in Hcl. apply coalesced_app in Hcl as [Hcl _].
  destruct (b_used pb) eqn:Hpu.
  - assert (merge_next (lo + span l) pb (fst br :: snd br) = (pb, fst br :: snd br)) as ->
      by (unfold merge_next, mergeable; by rewrite Hpu).
    split.
    + apply linked_app. split; [done|]. cbn. rewrite <- Ha. by split_and!.
    + apply coalesced_app. split; [done|]. cbn. auto.
  - assert (coalesced (fst br :: snd br)) as Hcc by done.
    destruct (merge_next_coalesced (lo + span l) pb (fst br :: snd br) Hpu) as [Hc2 Hr2].
    { cbn. rewrite <- Ha. by split. }
    { done. }
    split.
    + apply linked_app. split; [done|]. split; [by rewrite merge_next_prev|done].
    + apply coalesced_app. split; [|done].
      destruct l as [|qb l _] using rev_ind; [done|].
      rewrite <- app_assoc in *. cbn in *. apply coalesced_app in Hcl as [Hcl1 [Hcl2 _]].
      apply coalesced_app. split; [done|].
      split; [|done]. left. destruct Hcl2; [done|congruence].
Qed.

Lemma reach_of_block m a l b r :
  seg m a (l ++ b :: r) 0 -> 0 < a -> heap_reach m a (a + span l).
Proof.
  revert a. induction l as [|c l IH]; intros a Hseg Ha.
  { cbn. rewrite Z.add_0_r. constructor. lia. }
  destruct Hseg as ((_ & _ & Hn & _) & Hc & Hs). apply reach_next; [lia|].
  rewrite Hn. cbn [app span] in *. destruct (l ++ b :: r) eqn:E; [by destruct l|].
  rewrite <- E in *. rewrite Z.add_assoc. apply IH; [done|offs; lia].
Qed.

(** With an exact link, returning the block is harmless. *)
Lemma free_safe_linked lo hi s l b r :
  heap_inv lo hi s (l ++ b :: r) -> b_prev b = pred lo 0 l ->
  free_safe s (lo + span l + HDR).
Proof.
  intros (Hroot & Hlock & Hseg & Hne & Hhi & Hlo & Hlt) Hp.
  pose proof Hseg as [Hl Hb]%seg_app.
  assert (0 <= span l) as Hl0 by eauto with heap.
  unfold free_safe. replace (lo + span l + HDR - sizeof_heap_block) with (lo + span l)
    by (offs; lia). intros s1 Hs1.
  rewrite span_app in Hhi.
  destruct (heap_free_front_spec (lo + span l) b r (set_lock 1 s) Hb)
    as (m1 & Hrun & Hseg1 & Hag); [lia|lia|].
  rewrite Hrun in Hs1. injection Hs1 as <-. cbn [k_mem k_heap_root set_mem set_lock].
  rewrite Hroot. pose proof Hseg1 as ((_ & _ & _ & Hprev & _) & _).
  rewrite merge_next_prev in Hprev. rewrite Hprev. cbn [release b_prev]. rewrite Hp.
  pose proof (seg_replace _ m1 lo l (b :: r) _ Hseg Hseg1) as Hall.
  destruct l as [|pb l _] using rev_ind; [by left|]. right; left.
  rewrite pred_snoc. rewrite <- app_assoc in Hall. eapply reach_of_block; [|done].
  apply Hall; [done..|]. eapply agree_weaken; [|exact Hag].
  intros x Hx Hin. apply in_hdrs_range in Hin; [lia|by eapply seg_sizes].
Qed.

End Links.
