(* ===== verification/HeapProps.v ===== *)
(** * What heap.c guarantees

    The theorems about the kernel heap: initialisation, first fit, merging,
    the allocate/free round trip, isolation of buffers along every client
    history, and the one case where the implementation falls short (a stale
    [prev] link). *)
From S2P Require Import Prelude Mem Spinlock Alloc Heap.
Import Heap.Impl Heap.Spec Heap.Chain Heap.Refine Heap.Interface Heap.Links.

(** The buffers that the clients own, with the bytes they expect in them. *)
Abbreviation arrays := (gmap Z (list Z)).

(** The clients of the heap.  They may allocate, return a buffer, and write to a
    byte of a buffer.  What a fresh buffer holds is arbitrary; then only a write
    to a buffer changes what is expected in it.  A buffer is returned where
    [heap_free] does not merge through a stale [prev] link ([free_safe]: the link
    is 0 or leads to a block of the chain, or no free header for this block
    stands where it leads). *)
Inductive client_step : kst * arrays -> kst * arrays -> Prop :=
  | client_malloc s H n r s' :
      0 <= n < W32 -> malloc n s = Ok (r, s') -> r <> 0 ->
      client_step (s, H) (s', <[r := load_bytes (k_mem s') r (Z.to_nat n)]> H)
  | client_malloc_fails s H n s' :
      0 <= n < W32 -> malloc n s = Ok (0, s') -> client_step (s, H) (s', H)
  | client_free s H p bs s' :
      H !! p = Some bs -> free_safe s p -> free p s = Ok (tt, s') ->
      client_step (s, H) (s', delete p H)
  | client_write s H p bs i v :
      H !! p = Some bs -> (i < length bs)%nat ->
      client_step (s, H)
        (set_mem (store8 (k_mem s) (p + Z.of_nat i) v) s, <[p := <[i := u8 v]> bs]> H).

Definition client_start (lo : Z) (s : kst) : Prop :=
  exists s0, heap_init lo s0 = Ok (tt, s).

Definition client_reach (lo : Z) (c : kst * arrays) : Prop :=
  exists s, client_start lo s /\ rtc client_step (s, ∅) c.

(** Each buffer lies inside an allocated block, and holds what is expected. *)
Definition covers (L : bufs) (H : arrays) : Prop :=
  forall p bs, H !! p = Some bs -> exists k, L !! p = Some k /\ Z.of_nat (length bs) <= k.

Definition holds (m : mem) (H : arrays) : Prop :=
  forall p bs, H !! p = Some bs -> load_bytes m p (length bs) = bs.

Definition client_inv (lo : Z) (c : kst * arrays) : Prop :=
  exists L, heap_ok lo (lo + heap_size) c.1 L /\ covers L c.2 /\ holds (k_mem c.1) c.2.

(** A history with a stale link: [p4] splits the block of [p2], and the block of
    [p3] behind it still points back to where [p2] was.  The merges that follow
    put that address into the live buffer [q], whose owner writes bytes there
    that look like a free header. *)
Definition stale_prev_history : M kst (Z * Z) :=
  _ ← heap_init 0x200000;
  p1 ← malloc 100;
  p2 ← malloc 100;
  p3 ← malloc 100;
  _ ← free p2;
  p4 ← malloc 10;
  _ ← malloc 70;
  _ ← free p1;
  _ ← free p4;
  q ← malloc 130;
  let w := p4 - sizeof_heap_block in
  _ ← st32 (w + o_magic) HEAP_MAGIC_HEAD;
  _ ← st32 (w + o_status) HEAP_MAGIC_FREE;
  _ ← st32 (w + o_next) (p3 - sizeof_heap_block);
  _ ← st32 (w + o_size) (p3 - sizeof_heap_block - w - sizeof_heap_block);
  mret (q, p3).


(** The invariant of a heap in a given state, by computation. *)
Definition hdr_check (m : mem) (a : Z) (b : blk) (nx : Z) : bool :=
  (load32 m (a + o_magic) =? HEAP_MAGIC_HEAD) &&
  (load32 m (a + o_status) =? status_of (b_used b)) &&
  (load32 m (a + o_next) =? nx) && (load32 m (a + o_prev) =? b_prev b) &&
  (load32 m (a + o_size) =? b_size b).

Fixpoint seg_check (m : mem) (a : Z) (bs : list blk) (nx : Z) : bool :=
  match bs with
  | [] => true
  | b :: bs' =>
      hdr_check m a b (match bs' with [] => nx | _ => a + footprint b end) &&
      (0 <=? b_size b) && seg_check m (a + footprint b) bs' nx
  end.

Definition inv_check (lo hi : Z) (s : kst) (bs : list blk) : bool :=
  (k_heap_root s =? lo) && (k_heap_lock s =? 0) && seg_check (k_mem s) lo bs 0 &&
  negb (length bs =? 0)%nat && (lo + span bs =? hi) && (0 <? lo) && (hi <? W32).

(** ** Shared lemmas *)

Lemma seg_check_sound m a bs nx : seg_check m a bs nx = true -> seg m a bs nx.
Proof.
  revert a. induction bs as [|b bs IH]; intros a; [done|]. cbn [seg_check seg]. unfold hdr_check.
  rewrite !andb_true_iff, !Z.eqb_eq, Z.leb_le. intros ((((((? & ?) & ?) & ?) & ?) & ?) & Hs).
  split; [done|]. split; [done|by apply IH].
Qed.

Lemma inv_check_sound lo hi s bs : inv_check lo hi s bs = true -> heap_inv lo hi s bs.
Proof.
  unfold inv_check. rewrite !andb_true_iff, !Z.eqb_eq, !Z.ltb_lt, negb_true_iff, Nat.eqb_neq.
  intros ((((((? & ?) & Hs) & Hne) & ?) & ?) & ?). unfold heap_inv. split_and!; try done.
  - by apply seg_check_sound.
  - by intros ->.
Qed.

(** A run that ends in a state that a test accepts. *)
Lemma run_checked {A} (m : M kst A) (test : A -> kst -> bool) s :
  match m s with Ok (a, s') => test a s' | Err _ => false end = true ->
  exists a s', m s = Ok (a, s') /\ test a s' = true.
Proof. destruct (m s) as [[a s']|]; [eauto|done]. Qed.

Lemma first_fit_none a n bs :
  first_fit a n bs = None -> Forall (fun b => b_used b = true \/ b_size b < n) bs.
Proof.
  revert a. induction bs as [|b bs IH]; intros a; [constructor|]. cbn.
  destruct (fits n b) eqn:Hfit; [done|].
  destruct (first_fit _ n bs) as [[??]|] eqn:Hff; [done|]. intros _. constructor; [|by eauto].
  unfold fits in Hfit. destruct (b_used b); [by left|]. right. cbn in Hfit. lia.
Qed.

(** ** The theorems *)

(** C2: [heap_alloc] is first fit.  On a heap whose blocks are [bs] it takes
    the first free block that is large enough, splits it when what is left is
    worth a header, and keeps every live buffer's bytes; it returns NULL, with
    nothing changed, exactly when no free block is large enough. *)
Theorem heap_alloc_is_first_fit lo hi n bs s :
  heap_inv lo hi s bs -> hi - lo <= heap_size -> 0 <= n ->
  match first_fit lo n bs with
  | Some (p, bs') =>
      exists s', heap_alloc n s = Ok (p, s') /\ heap_inv lo hi s' bs' /\
        same_rest s s' /\ agree (in_live (live lo bs)) (k_mem s) (k_mem s')
  | None =>
      heap_alloc n s = Ok (0, s) /\
      Forall (fun b => b_used b = true \/ b_size b < n) bs
  end.
Proof.
  intros Hinv Hsz Hn. pose proof (heap_alloc_first_fit lo hi n bs s Hinv Hsz Hn) as H.
  destruct (first_fit lo n bs) as [[p bs']|] eqn:Hff.
  - destruct H as (m' & Hrun & Hseg & Hag). exists (set_mem m' s).
    split; [done|split; [|split; [done|]]].
    + destruct Hinv as (? & ? & _ & _ & ? & ? & ?).
      pose proof (first_fit_nonempty _ _ _ _ _ Hff).
      pose proof (first_fit_span _ _ _ _ _ Hff).
      unfold heap_inv. cbn [k_mem k_heap_root k_heap_lock set_mem].
      split_and!; done || lia.
    + eapply agree_weaken; [|exact Hag]. intros x Hx. by right; right.
  - split; [done|]. by eapply first_fit_none.
Qed.

Lemma heap_alloc_is_first_fit_witness :
  exists s, heap_inv 0x200000 0x300000 s initial_chain /\
    exists s', heap_alloc 100 s = Ok (0x200014, s') /\
      heap_inv 0x200000 0x300000 s' [Blk 100 true 0; Blk 1048436 false 0x200000].
Proof.
  destruct (heap_init_inv 0x200000 boot_state ltac:(lia) ltac:(done)) as (s & _ & Hinv).
  exists s. split; [exact Hinv|].
  destruct (heap_alloc_is_first_fit 0x200000 0x300000 100 initial_chain s Hinv
    ltac:(done) ltac:(lia)) as (s' & Hrun & Hinv' & _).
  exists s'. split; [exact Hrun|exact Hinv'].
Defined.

(** C3: [heap_free] of a live buffer frees its block and merges it with free
    neighbours.  When the stored links are exact and no two neighbours are
    free, both remain so; the freed buffer, and no other, leaves the set of
    live buffers, and their bytes are kept. *)
Theorem heap_free_merges lo hi l b r s :
  let ptr := lo + span l + HDR in
  heap_inv lo hi s (l ++ b :: r) -> linked lo 0 (l ++ b :: r) ->
  coalesced (l ++ b :: r) -> b_used b = true ->
  exists s' bs', heap_free ptr s = Ok (tt, s') /\ bs' = free_block lo l b r /\
    heap_inv lo hi s' bs' /\ linked lo 0 bs' /\ coalesced bs' /\
    live lo bs' = delete ptr (live lo (l ++ b :: r)) /\
    agree (in_live (live lo (l ++ b :: r))) (k_mem s) (k_mem s').
Proof.
  intros ptr Hinv Hlk Hco Hu. pose proof (heap_ok_sizes _ _ _ _ Hinv) as HF.
  assert (b_prev b = pred lo 0 l) as Hp by (apply linked_app in Hlk as [_ [? _]]; done).
  destruct (heap_free_refines lo hi l b r s Hinv Hu) as (m' & Hrun & Hinv' & Hag).
  { by eapply free_safe_linked. }
  destruct (free_block_linked lo l b r Hlk Hco Hu) as [Hlk' Hco'].
  exists (set_mem m' s), (free_block lo l b r).
  do 5 (split; [done|]). split; [by apply free_block_live|].
  eapply agree_weaken; [|exact Hag]. intros x Hx. by apply live_not_hdr.
Qed.

Lemma heap_free_merges_witness :
  exists s s', heap_inv 0x200000 0x300000 s [Blk 100 true 0; Blk 1048436 false 0x200000] /\
    heap_free 0x200014 s = Ok (tt, s') /\
    heap_inv 0x200000 0x300000 s' initial_chain.
Proof.
  destruct (heap_init_inv 0x200000 boot_state ltac:(lia) ltac:(done)) as (s0 & _ & Hinv0).
  pose proof (heap_alloc_first_fit 0x200000 0x300000 100 initial_chain s0 Hinv0
    ltac:(done) ltac:(lia)) as (m & _ & Hseg & _).
  destruct Hinv0 as (Hr & Hl & _).
  assert (heap_inv 0x200000 0x300000 (set_mem m s0)
    ([] ++ Blk 100 true 0 :: [Blk 1048436 false 0x200000])) as Hinv
    by (split_and!; done).
  destruct (heap_free_merges 0x200000 0x300000 [] (Blk 100 true 0)
    [Blk 1048436 false 0x200000] (set_mem m s0) Hinv) as (s' & bs' & Hrun & -> & Hinv' & _).
  - cbn. done.
  - cbn. auto.
  - done.
  - exists (set_mem m s0), s'. split; [exact Hinv|split; [exact Hrun|exact Hinv']].
Defined.

(** *** Allocating and freeing again *)

Lemma take_block_release a n b r :
  0 <= n -> fits n b = true -> linked (a + footprint b) a r -> coalesced (b :: r) ->
  exists b' r', take_block a n b ++ r = b' :: r' /\ b_used b' = true /\
    b_prev b' = b_prev b /\ merge_next a (release b') r' = (b, r).
Proof.
  unfold fits. intros Hn [Hu%negb_true_iff Hfit%Z.leb_le]%andb_prop Hl Hc.
  unfold take_block. destruct b as [sz u p]. cbn in *. subst u.
  destruct (Z.leb_spec sz (n + HDR + 1)).
  - exists (Blk sz true p), r. split_and!; try done.
    destruct r as [|c r]; [done|]. cbn in Hc. destruct Hc as [[?|Hc] _]; [done|].
    unfold merge_next, mergeable. cbn. by rewrite Hc.
  - exists (Blk n true p), (Blk (sz - n - HDR) false a :: r). split_and!; try done.
    unfold merge_next, mergeable. cbn. rewrite Z.eqb_refl. cbn. f_equal.
    + unfold release, absorb, footprint. cbn. f_equal. lia.
    + destruct r as [|[csz cu cp] r]; [done|]. cbn in *. destruct Hl as [-> _]. done.
Qed.

Lemma merge_last_free_id lo l b r :
  linked lo 0 (l ++ b :: r) -> coalesced (l ++ b :: r) -> b_used b = false ->
  merge_last lo l b r = l ++ b :: r.
Proof.
  intros Hl Hc Hu. destruct l as [|pb l _] using rev_ind; [done|].
  rewrite merge_last_snoc. rewrite <- app_assoc in *. cbn [app] in *.
  apply coalesced_app in Hc as [_ Hc]. destruct Hc as [[Hp|?] _]; [|congruence].
  unfold merge_next, mergeable. by rewrite Hp.
Qed.

Lemma first_fit_split a n bs p bs' :
  first_fit a n bs = Some (p, bs') ->
  exists l b r, bs = l ++ b :: r /\ fits n b = true /\ p = a + span l + HDR /\
    bs' = l ++ take_block (a + span l) n b ++ r.
Proof.
  revert a p bs'. induction bs as [|b bs IH]; intros a p bs'; [done|]. cbn.
  destruct (fits n b) eqn:Hfit.
  - intros [= <- <-]. exists [], b, bs. cbn. rewrite Z.add_0_r. done.
  - destruct (first_fit _ n bs) as [[q bs'']|] eqn:Hff; [|done]. intros [= <- <-].
    destruct (IH _ _ _ Hff) as (l & c & r & -> & ? & -> & ->).
    exists (b :: l), c, r. cbn. rewrite !Z.add_assoc. done.
Qed.

(** C26: allocating a buffer and returning it at once restores the heap: the
    chain of blocks, with its sizes, states and links, is the one before. *)
Theorem malloc_free_roundtrip lo hi n bs s p s1 :
  heap_inv lo hi s bs -> hi - lo <= heap_size -> linked lo 0 bs -> coalesced bs ->
  0 <= n -> malloc n s = Ok (p, s1) -> p <> 0 ->
  exists s2, free p s1 = Ok (tt, s2) /\ heap_inv lo hi s2 bs.
Proof.
  intros Hinv Hsz Hlk Hco Hn Hm Hp.
  pose proof (heap_alloc_first_fit lo hi n bs s Hinv Hsz Hn) as H.
  destruct (first_fit lo n bs) as [[q bs']|] eqn:Hff.
  2:{ unfold malloc in Hm. rewrite H in Hm. by injection Hm as <- _. }
  destruct H as (m' & Hrun & Hseg & _). unfold malloc in Hm.
  rewrite Hrun in Hm. injection Hm as -> <-.
  pose proof (first_fit_nonempty _ _ _ _ _ Hff) as Hne.
  pose proof (first_fit_span _ _ _ _ _ Hff) as Hsp.
  destruct (first_fit_split _ _ _ _ _ Hff) as (l & b & r & -> & Hfit & -> & ->).
  pose proof Hlk as [_ [Hbp Hr]]%linked_app.
  pose proof Hco as [_ Hcr]%coalesced_app.
  destruct (take_block_release (lo + span l) n b r Hn Hfit Hr Hcr)
    as (b' & r' & Heq & Hu & Hpb & Hmn). rewrite Heq in *.
  assert (heap_inv lo hi (set_mem m' s) (l ++ b' :: r')) as Hinv'.
  { destruct Hinv as (? & ? & _ & _ & ? & ? & ?). unfold heap_inv.
    cbn [k_mem k_heap_root k_heap_lock set_mem]. split_and!; done || lia. }
  destruct (heap_free_refines lo hi l b' r' _ Hinv' Hu) as (m2 & Hrun2 & Hinv2 & _).
  { eapply free_safe_linked; [exact Hinv'|congruence]. }
  exists (set_mem m2 (set_mem m' s)). split; [exact Hrun2|].
  unfold free_block in Hinv2. rewrite Hmn in Hinv2. cbn [fst snd] in Hinv2.
  rewrite merge_last_free_id in Hinv2; [done..|].
  unfold fits in Hfit. apply andb_prop in Hfit as [Hf _]. by destruct (b_used b).
Qed.

Lemma malloc_free_roundtrip_witness :
  exists s s1 s2, heap_inv 0x200000 0x300000 s initial_chain /\
    malloc 64 s = Ok (0x200014, s1) /\ free 0x200014 s1 = Ok (tt, s2) /\
    heap_inv 0x200000 0x300000 s2 initial_chain.
Proof.
  destruct (heap_init_inv 0x200000 boot_state ltac:(lia) ltac:(done)) as (s & _ & Hinv).
  pose proof (heap_alloc_first_fit 0x200000 0x300000 64 initial_chain s Hinv
    ltac:(done) ltac:(lia)) as (m & Hrun & _).
  destruct (malloc_free_roundtrip 0x200000 0x300000 64 initial_chain s _ _ Hinv
    ltac:(done) ltac:(done) ltac:(done) ltac:(lia) Hrun ltac:(done)) as (s2 & Hfree & Hinv2).
  exists s, (set_mem m s), s2. split; [exact Hinv|split; [exact Hrun|split; [exact Hfree|exact Hinv2]]].
Defined.

(** *** Every client history *)

Lemma client_inv_start lo s :
  0 < lo -> lo + heap_size < W32 -> client_start lo s -> client_inv lo (s, ∅).
Proof.
  intros Hlo Hlt (s0 & Hrun). destruct (heap_ok_init lo s0 Hlo Hlt) as (s' & Hrun' & Hok).
  rewrite Hrun in Hrun'. injection Hrun' as <-. exists ∅. by split_and!.
Qed.

(** Bytes of live blocks that are kept hold what was expected. *)
Lemma holds_agree L H m m' :
  covers L H -> holds m H -> agree (in_live L) m m' -> holds m' H.
Proof.
  intros Hc Hh Ha p bs Hp. rewrite <- (Hh p bs Hp) at 2. symmetry.
  eapply load_bytes_agree; [exact Ha|]. intros i Hi. destruct (Hc p bs Hp) as (k & Hk & ?).
  eapply in_live_intro; [exact Hk|lia].
Qed.

Lemma covers_delete L H p : covers L H -> covers (delete p L) (delete p H).
Proof.
  intros Hc q bs. rewrite lookup_delete_Some. intros [Hne Hq].
  rewrite lookup_delete_ne by done. by apply Hc.
Qed.

Lemma client_inv_malloc lo s H n r s' :
  client_inv lo (s, H) -> 0 <= n < W32 -> malloc n s = Ok (r, s') ->
  (r = 0 /\ s' = s) \/
  (r <> 0 /\ client_inv lo (s', <[r := load_bytes (k_mem s') r (Z.to_nat n)]> H)).
Proof.
  intros (L & Hok & Hc & Hh) Hn Hm. cbn in *.
  destruct (heap_malloc_ok _ _ _ _ _ Hok Hn) as (r' & s'' & Hm' & _ & Hcase).
  rewrite Hm in Hm'. injection Hm' as <- <-.
  destruct Hcase as [Hcase|(sz & Hsz & Hnone & Hok' & Ha)]; [by left|right].
  destruct (heap_ok_bounds _ _ _ _ r sz Hok') as [Hr _]; [apply lookup_insert_eq|].
  split; [lia|]. exists (<[r := sz]> L). split_and!; [done| |]; intros q bs; cbn.
  - rewrite lookup_insert_Some. intros [[<- <-]|[Hne Hq]].
    + exists sz. rewrite lookup_insert_eq, length_load_bytes. split; [done|lia].
    + rewrite lookup_insert_ne by done. by apply Hc.
  - rewrite lookup_insert_Some. intros [[<- <-]|[Hne Hq]]; [by rewrite length_load_bytes|].
    eapply (holds_agree L H); [done..| |done]. eapply agree_weaken; [|exact Ha]. intros a Hin. by left.
Qed.

Lemma client_inv_free lo s H p bs :
  client_inv lo (s, H) -> H !! p = Some bs -> free_safe s p ->
  exists s', free p s = Ok (tt, s') /\ client_inv lo (s', delete p H).
Proof.
  intros (L & Hok & Hc & Hh) Hp Hsafe. cbn in *. destruct (Hc p bs Hp) as (k & Hk & _).
  destruct (heap_free_ok _ _ _ _ _ _ Hok Hk Hsafe) as (s' & Hf & _ & Hok' & Ha).
  exists s'. split; [done|]. exists (delete p L). split_and!; [done|by apply covers_delete|].
  intros q cs Hq. cbn in *. apply lookup_delete_Some in Hq as [_ Hq].
  eapply (holds_agree L H); [done..| |done]. eapply agree_weaken; [|exact Ha]. intros a Hin. by left.
Qed.

(** Buffers do not overlap. *)
Lemma client_disjoint lo s H p bs q cs :
  client_inv lo (s, H) -> H !! p = Some bs -> H !! q = Some cs -> p <> q ->
  p + Z.of_nat (length bs) <= q \/ q + Z.of_nat (length cs) <= p.
Proof.
  intros (L & Hok & Hc & _) Hp Hq Hne. cbn in *.
  destruct (Hc p bs Hp) as (k1 & Hk1 & ?), (Hc q cs Hq) as (k2 & Hk2 & ?).
  destruct (heap_ok_disjoint _ _ _ _ p k1 q k2 Hok Hk1 Hk2 Hne); lia.
Qed.

Lemma load_bytes_update m p n i v :
  (i < n)%nat -> load_bytes (store8 m (p + Z.of_nat i) v) p n = <[i := u8 v]> (load_bytes m p n).
Proof.
  intros Hi. apply list_eq. intros j. destruct (decide (j < n)%nat) as [Hj|Hj].
  2:{ rewrite !lookup_ge_None_2; [done|rewrite length_insert|]; rewrite length_load_bytes; lia. }
  rewrite load_bytes_lookup by done. destruct (decide (i = j)) as [<-|Hne].
  - rewrite list_lookup_insert_eq by (rewrite length_load_bytes; lia). by rewrite load8_store8_eq.
  - rewrite list_lookup_insert_ne, load_bytes_lookup by done. by rewrite load8_store8_ne by lia.
Qed.

Lemma client_inv_write lo s H p bs i v :
  client_inv lo (s, H) -> H !! p = Some bs -> (i < length bs)%nat ->
  client_inv lo
    (set_mem (store8 (k_mem s) (p + Z.of_nat i) v) s, <[p := <[i := u8 v]> bs]> H).
Proof.
  intros HI Hp Hi. pose proof HI as (L & Hok & Hc & Hh). cbn in *.
  destruct (Hc p bs Hp) as (k & Hk & ?). exists L. split_and!.
  - apply heap_ok_frame; [done|]. apply agree_store8. intros [_ Hn]. apply Hn.
    eapply in_live_intro; [exact Hk|lia].
  - intros q cs. cbn. rewrite lookup_insert_Some. intros [[<- <-]|[_ Hq]]; [|by apply Hc].
    exists k. by rewrite length_insert.
  - intros q cs. cbn. rewrite lookup_insert_Some. intros [[<- <-]|[Hne Hq]].
    + by rewrite length_insert, load_bytes_update, (Hh p bs Hp).
    + rewrite <- (Hh q cs Hq) at 2. symmetry.
      eapply (load_bytes_agree (fun a => a <> p + Z.of_nat i)); [apply agree_store8; intros []; done|].
      destruct (client_disjoint lo s H p bs q cs HI Hp Hq Hne); lia.
Qed.

Lemma client_inv_step lo c c' : client_step c c' -> client_inv lo c -> client_inv lo c'.
Proof.
  intros Hstep HI. destruct Hstep as
    [s H n r s' Hn Hm Hr|s H n s' Hn Hm|s H p bs s' Hp Hsafe Hf|s H p bs i v Hp Hi].
  - by destruct (client_inv_malloc lo s H n r s' HI Hn Hm) as [[]|[]].
  - by destruct (client_inv_malloc lo s H n 0 s' HI Hn Hm) as [[_ ->]|[]].
  - destruct (client_inv_free lo s H p bs HI Hp Hsafe) as (s'' & Hf' & HI').
    rewrite Hf in Hf'. by injection Hf' as <-.
  - by apply client_inv_write.
Qed.

Lemma client_reach_inv lo s H :
  0 < lo -> lo + heap_size < W32 -> client_reach lo (s, H) -> client_inv lo (s, H).
Proof.
  intros Hlo Hlt (s0 & Hstart & Hsteps). pose proof (client_inv_start lo s0 Hlo Hlt Hstart) as H0.
  induction Hsteps; eauto using client_inv_step.
Qed.

(** C1: isolation.  Along every history of allocations, writes and returns that
    follows [heap_init], where no return merges through a stale [prev] link
    ([free_safe]), the clients' buffers lie inside the heap with their headers,
    do not overlap, and each holds exactly the bytes that were written to it: no
    allocation, no return and no write to another buffer has changed them.
    Moreover [malloc] always returns, NULL or a buffer that nobody owns, and so
    does [free] of an owned buffer. *)
Theorem client_buffers_isolated lo s H :
  0 < lo -> lo + heap_size < W32 -> client_reach lo (s, H) ->
  (forall p bs, H !! p = Some bs ->
    lo + HDR <= p /\ p + Z.of_nat (length bs) <= lo + heap_size /\
    load_bytes (k_mem s) p (length bs) = bs) /\
  (forall p bs q cs, H !! p = Some bs -> H !! q = Some cs -> p <> q ->
    p + Z.of_nat (length bs) <= q \/ q + Z.of_nat (length cs) <= p) /\
  (forall n, 0 <= n < W32 -> exists r s', malloc n s = Ok (r, s') /\ H !! r = None) /\
  (forall p bs, H !! p = Some bs -> free_safe s p -> exists s', free p s = Ok (tt, s')).
Proof.
  intros Hlo Hlt Hr. pose proof (client_reach_inv lo s H Hlo Hlt Hr) as HI.
  pose proof HI as (L & Hok & Hc & Hh). cbn in *. split_and!.
  - intros p bs Hp. destruct (Hc p bs Hp) as (k & Hk & ?). pose proof Hok as (ch & Hinv & -> & _).
    pose proof (heap_ok_sizes _ _ _ _ Hinv) as HF. destruct Hinv as (_ & _ & _ & _ & Hsp & _ & _).
    pose proof (live_range _ _ _ _ HF Hk). split_and!; [lia|lia|by apply Hh].
  - intros p bs q cs. by apply (client_disjoint lo s H p bs q cs).
  - intros n Hn. destruct (heap_malloc_ok _ _ _ _ _ Hok Hn) as (r & s' & Hm & _ & Hcase).
    exists r, s'. split; [done|]. destruct (H !! r) as [bs|] eqn:E; [|done].
    destruct (Hc r bs E) as (k & Hk & _). destruct Hcase as [[-> _]|(sz & _ & Hnone & _)]; [|congruence].
    destruct (heap_ok_bounds _ _ _ _ 0 k Hok Hk). lia.
  - intros p bs Hp Hsafe. destruct (client_inv_free lo s H p bs HI Hp Hsafe) as (s' & Hf & _). by exists s'.
Qed.

(** Two buffers; a byte of the first is written after the second is there. *)
Lemma client_buffers_isolated_witness :
  exists s H, client_reach 0x200000 (s, H) /\
    load8 (k_mem s) 0x200014 = 7 /\ 0x200014 + 64 <= 0x200068.
Proof.
  destruct (heap_init_inv 0x200000 boot_state ltac:(lia) ltac:(done)) as (s & Hrun0 & Hinv).
  pose proof (heap_alloc_first_fit 0x200000 0x300000 64 initial_chain s Hinv
    ltac:(done) ltac:(lia)) as (m & Hrun & Hseg & _).
  set (s1 := set_mem m s) in *. set (H1 := <[0x200014 := load_bytes m 0x200014 64]> (∅ : arrays)).
  assert (heap_inv 0x200000 0x300000 s1 [Blk 64 true 0; Blk 1048472 false 0x200000]) as Hinv1.
  { destruct Hinv as (? & ? & _ & _ & ? & ? & ?). split_and!; done. }
  pose proof (heap_alloc_first_fit 0x200000 0x300000 8 _ s1 Hinv1
    ltac:(done) ltac:(lia)) as (m2 & Hrun2 & _).
  set (s2 := set_mem m2 s1) in *. set (H2 := <[0x200068 := load_bytes m2 0x200068 8]> H1).
  set (H3 := <[0x200014 := <[0%nat := u8 7]> (load_bytes m 0x200014 64)]> H2).
  set (s3 := set_mem (store8 m2 (0x200014 + Z.of_nat 0) 7) s2).
  assert (client_reach 0x200000 (s3, H3)) as Hr.
  { exists s. split; [by exists boot_state|].
    eapply rtc_l; [apply (client_malloc s ∅ 64 0x200014 s1); [lia|exact Hrun|lia]|].
    eapply rtc_l; [apply (client_malloc s1 H1 8 0x200068 s2); [lia|exact Hrun2|lia]|].
    apply rtc_once, (client_write s2 H2 0x200014 (load_bytes m 0x200014 64) 0 7); [done|].
    rewrite length_load_bytes. lia. }
  exists s3, H3. split; [exact Hr|].
  destruct (client_buffers_isolated 0x200000 _ _ ltac:(lia) ltac:(done) Hr) as (Hb & Hd & _).
  destruct (Hb 0x200014 (<[0%nat := u8 7]> (load_bytes m 0x200014 64)) eq_refl) as (_ & _ & Hl).
  split; [|lia]. rewrite length_insert, length_load_bytes in Hl.
  apply (f_equal (fun l => nth 0 l 0)) in Hl. exact Hl.
Defined.

(** *** Stale links *)




(** The merge with the previous block, where [prev] leads to bytes that look like
    a free block in front of this one. *)
Lemma heap_free_back_stale t p c r m s :
  seg m t (c :: r) 0 -> k_mem s = m -> 0 < t -> t + span (c :: r) < W32 ->
  b_used c = false -> b_prev c = p -> p <> 0 ->
  load32 m (p + o_magic) = HEAP_MAGIC_HEAD -> load32 m (p + o_status) = HEAP_MAGIC_FREE ->
  load32 m (p + o_next) = t -> (p + sizeof_heap_block +w load32 m (p + o_size)) = t ->
  exists m', heap_free_back t s = Ok (tt, set_mem m' s) /\ load32 m' (p + o_next) <> t.
Proof.
  intros Hseg <- Ht Hlt Hu Hp Hp0 G1 G2 G3 G4. pose proof Hseg as ((M1 & M2 & M3 & M4 & M5) & Hc & Hr).
  rewrite Hu in M2. cbn [status_of] in M2. rewrite Hp in M4. cbn [span] in Hlt.
  pose proof (seg_nonneg _ _ _ _ Hr) as Hspan.
  assert (merge_guard (k_mem s) p t = true) as Hg
    by (unfold merge_guard; rewrite G1, G2, G3, G4, M1, M2, M4, !Z.eqb_refl; done).
  exists (merge_mem (k_mem s) p t). split.
  { unfold heap_free_back, ld32. rewrite gets_bind, M4, (proj2 (Z.eqb_neq p 0)) by done.
    cbn [negb]. rewrite gets_bind, M4. rewrite (bind_Ok _ _ s p (set_mem (merge_mem (k_mem s) p t) s));
      [done|]. by rewrite heap_merge_run, Hg. }
  unfold merge_mem. rewrite M3. set (nx := match r with [] => 0 | _ => t + footprint c end).
  assert (nx <> t /\ 0 <= nx < W32 /\ (nx = 0 \/ t + 20 <= nx)) as (Hne & Hnx & Hfar)
    by (subst nx; unfold footprint, HDR in *; destruct r; cbn [span] in *; lia).
  rewrite load32_store32_ne by (unfold o_next, o_size; lia). rewrite load32_store32_eq.
  rewrite u32_small; [|apply load32_range]. destruct (Z.eqb_spec nx 0) as [E|E]; cbn [negb].
  - rewrite M3. fold nx. lia.
  - rewrite load32_store32_ne by (unfold o_next, o_prev; lia). rewrite M3. fold nx. lia.
Qed.

(** C39: [heap_free] follows a stale link.  If the [prev] of the freed block leads
    into another live buffer, and its owner has put bytes there that look like a
    free header in front of that block, then the free changes the other buffer. *)
Theorem stale_prev_merges_into_buffer lo hi s l c r q k :
  heap_inv lo hi s (l ++ c :: r) -> b_used c = true ->
  let t := lo + span l in
  let p := b_prev c in
  live lo (l ++ c :: r) !! q = Some k -> q <> t + HDR -> q <= p -> p + HDR <= q + k ->
  load32 (k_mem s) (p + o_magic) = HEAP_MAGIC_HEAD ->
  load32 (k_mem s) (p + o_status) = HEAP_MAGIC_FREE ->
  load32 (k_mem s) (p + o_next) = t ->
  (p + sizeof_heap_block +w load32 (k_mem s) (p + o_size)) = t ->
  exists s', free (t + HDR) s = Ok (tt, s') /\
    q <= p + o_next /\ p + o_next + 4 <= q + k /\
    load32 (k_mem s') (p + o_next) <> load32 (k_mem s) (p + o_next).
Proof.
  intros Hinv Hu t p Hq Hne Hqp Hpq G1 G2 G3 G4.
  pose proof (heap_ok_sizes _ _ _ _ Hinv) as HF.
  pose proof (live_range _ _ _ _ HF Hq) as Hrange.
  destruct Hinv as (Hroot & Hlock & Hseg & _ & Hhi & Hlo & Hlt).
  pose proof Hseg as [Hl Hs]%seg_app. fold t in Hs.
  pose proof (seg_nonneg _ _ _ _ Hl) as Hsl. rewrite span_app in Hhi.
  destruct (heap_free_front_spec t c r (set_lock 1 s) Hs) as (m1 & Hfront & Hseg1 & Hag); [lia|lia|].
  assert (forall o, 0 <= o <= 16 -> load32 m1 (p + o) = load32 (k_mem s) (p + o)) as Hkeep.
  { intros o Ho. symmetry. apply load32_ext. intros i Hi. apply Hag. intros Hin.
    apply (live_not_hdr lo (l ++ c :: r) (p + o + i) HF); [|apply in_hdrs_app; by right].
    apply (in_live_intro _ q k); [done|unfold HDR in *; lia]. }
  pose proof Hs as ((M1 & M2 & _) & Hc & Hr). rewrite Hu in M2.
  assert (HDR <= span (c :: r)) as Hspan
    by (pose proof (seg_nonneg _ _ _ _ Hr); cbn [span]; unfold footprint; lia).
  assert (b_used (fst (merge_next t (release c) r)) = false) as Hu1 by by rewrite merge_next_first.
  destruct (heap_free_back_stale t p _ _ m1 (set_mem m1 (set_lock 1 s)) Hseg1) as (m2 & Hback & Hch);
    try done; [lia| | | |rewrite Hkeep by (unfold o_magic; lia); done
      |rewrite Hkeep by (unfold o_status; lia); done|rewrite Hkeep by (unfold o_next; lia); done
      |rewrite Hkeep by (unfold o_size; lia); done|].
  { pose proof (merge_next_span t (release c) r) as E. cbn [span] in *.
    change (footprint (release c)) with (footprint c) in E. lia. }
  { by rewrite merge_next_prev. }
  { unfold HDR in *. lia. }
  exists (set_mem m2 s). split.
    apply (heap_free_run t s m1 m2 Hlock); try done; unfold HDR in *; lia.
  - split_and!; [unfold o_next; lia|unfold o_next, HDR in *; lia|]. cbn [k_mem set_lock set_mem].
    by rewrite G3.
Qed.

(** In the history above: the buffer [q] of 130 bytes changes when [p3] is
    returned. *)
Lemma stale_prev_merges_into_buffer_witness :
  exists s s', stale_prev_history boot_state = Ok ((0x200014, 0x200104), s) /\
    free 0x200104 s = Ok (tt, s') /\
    load32 (k_mem s') 0x200080 <> load32 (k_mem s) 0x200080 /\
    0x200014 <= 0x200080 /\ 0x200080 + 4 <= 0x200014 + 130.
Proof.
  set (l := [Blk 130 true 0; Blk 70 true 0x200000]). set (r := [Blk 1048196 false 0x2000F0]).
  set (c := Blk 100 true 0x200078).
  destruct (run_checked stale_prev_history (fun a s => (fst a =? 0x200014) && (snd a =? 0x200104) &&
    inv_check 0x200000 0x300000 s (l ++ c :: r) &&
    (load32 (k_mem s) 0x200078 =? HEAP_MAGIC_HEAD) && (load32 (k_mem s) 0x20007C =? HEAP_MAGIC_FREE) &&
    (load32 (k_mem s) 0x200080 =? 0x2000F0) && (load32 (k_mem s) 0x200088 =? 100)) boot_state)
    as ([q p3] & s & Hrun & Ht).
  { vm_compute. reflexivity. }
  rewrite !andb_true_iff, !Z.eqb_eq in Ht. cbn [fst snd] in Ht.
  destruct Ht as ((((((-> & ->) & Hinv%inv_check_sound) & G1) & G2) & G3) & G4).
  destruct (stale_prev_merges_into_buffer 0x200000 0x300000 s l c r 0x200014 130 Hinv) as
    (s' & Hfree & _ & _ & Hch); [done|by vm_compute|done|done|done|exact G1|exact G2|exact G3| |].
  { change (0x200078 + sizeof_heap_block +w load32 (k_mem s) 0x200088 = 0x2000F0). by rewrite G4. }
  exists s, s'. split; [exact Hrun|]. split; [exact Hfree|]. split; [exact Hch|lia].
Defined.
