(* ===== verification/CString.v ===== *)
(** * The string functions of kernel/stdkern

    [Module Impl] is the C code over the byte memory; the loops that end at a
    NUL take fuel, the counted ones recurse on their counter.  A C string is
    described by [cstr]; [Module Pure] says on lists of bytes what the
    functions return, and the theorems relate the two. *)
From S2P Require Import Prelude Mem Alloc.
From S2P Require Heap.

(** ** The C code *)
Module Impl.

(** memcpy.c: [while (count--) *pdst++ = *psrc++;] *)
Fixpoint memcpy_loop (count : nat) (pdst psrc : Z) : M kst unit :=
  match count with
  | O => mret tt
  | S count' =>
      b ← ld8 psrc;
      _ ← st8 pdst b;
      memcpy_loop count' (pdst + 1) (psrc + 1)
  end.
Definition memcpy (dst src count : Z) : M kst Z :=
  _ ← memcpy_loop (Z.to_nat count) dst src;
  mret dst.

(** memset.c *)
Fixpoint memset_loop (count : nat) (ptr byte : Z) : M kst unit :=
  match count with
  | O => mret tt
  | S count' =>
      _ ← st8 ptr byte;
      memset_loop count' (ptr + 1) byte
  end.
Definition memset (dest byte count : Z) : M kst Z :=
  _ ← memset_loop (Z.to_nat count) dest byte;
  mret dest.

(** strlen.c *)
Fixpoint strlen_loop (fuel : nat) (ptr : Z) : M kst Z :=
  match fuel with
  | O => fail Diverges
  | S fuel' =>
      c ← ld8 ptr;
      if c =? 0 then mret ptr else strlen_loop fuel' (ptr + 1)
  end.
Definition strlen (fuel : nat) (s : Z) : M kst Z :=
  ptr ← strlen_loop fuel s;
  mret (ptr -w s).

Fixpoint strnlen_loop (maxlen : nat) (ptr : Z) : M kst Z :=
  c ← ld8 ptr;
  if c =? 0 then mret ptr else
  match maxlen with
  | O => mret ptr
  | S maxlen' => strnlen_loop maxlen' (ptr + 1)
  end.
Definition strnlen (s maxlen : Z) : M kst Z :=
  if maxlen =? 0 then mret 0 else
  ptr ← strnlen_loop (Z.to_nat maxlen) s;
  mret (ptr -w s).

(** strcmp.c *)
Fixpoint strcmp (fuel : nat) (cmp1 cmp2 : Z) : M kst Z :=
  match fuel with
  | O => fail Diverges
  | S fuel' =>
      c1 ← ld8 cmp1;
      c2 ← ld8 cmp2;
      if negb (c1 =? 0) && negb (c2 =? 0) then
        if negb (c1 =? c2) then mret (c1 - c2)
        else strcmp fuel' (cmp1 + 1) (cmp2 + 1)
      else mret (c1 - c2)
  end.

(** [while ( *cmp1 && *cmp2 && n--)] *)
Fixpoint strncmp_loop (n : nat) (cmp1 cmp2 : Z) : M kst Z :=
  c1 ← ld8 cmp1;
  c2 ← ld8 cmp2;
  if negb (c1 =? 0) && negb (c2 =? 0) then
    match n with
    | O => mret (c1 - c2)
    | S n' =>
        if negb (c1 =? c2) then mret (c1 - c2)
        else strncmp_loop n' (cmp1 + 1) (cmp2 + 1)
    end
  else mret (c1 - c2).
Definition strncmp (s1 s2 n : Z) : M kst Z :=
  if n =? 0 then mret 0 else strncmp_loop (Z.to_nat n) s1 s2.

(** strcpy.c: copy up to the NUL; returns where the NUL goes. *)
Fixpoint strcpy_loop (fuel : nat) (ptr src : Z) : M kst Z :=
  match fuel with
  | O => fail Diverges
  | S fuel' =>
      c ← ld8 src;
      if c =? 0 then mret ptr else
      _ ← st8 ptr c;
      strcpy_loop fuel' (ptr + 1) (src + 1)
  end.
Definition strcpy (fuel : nat) (dst src : Z) : M kst Z :=
  if src =? 0 then mret dst else
  c ← ld8 src;
  if c =? 0 then mret dst else
  ptr ← strcpy_loop fuel dst src;
  _ ← st8 ptr 0;
  mret dst.

(** The [do .. while (--len)] of [strncpy], [len] > 0; on the NUL the inner
    [while (len--)] runs [len] more times. *)
Fixpoint strncpy_loop (len : nat) (ptr src : Z) : M kst unit :=
  match len with
  | O => mret tt
  | S len' =>
      c ← ld8 src;
      _ ← st8 ptr c;
      if c =? 0 then memset_loop (S len') (ptr + 1) 0
      else strncpy_loop len' (ptr + 1) (src + 1)
  end.
Definition strncpy (dst src len : Z) : M kst Z :=
  _ ← strncpy_loop (Z.to_nat len) dst src;
  mret dst.

(** strcat.c *)
Definition strcat (fuel : nat) (s1 s2 : Z) : M kst Z :=
  if s1 =? 0 then mret s1 else
  ptr1 ← strlen_loop fuel s1;
  if s2 =? 0 then mret s1 else
  ptr1 ← strcpy_loop fuel ptr1 s2;
  _ ← st8 ptr1 0;
  mret s1.

(** [while (count-- && *ptr2) *ptr1++ = *ptr2++;] *)
Fixpoint strncat_loop (count : nat) (ptr1 ptr2 : Z) : M kst Z :=
  match count with
  | O => mret ptr1
  | S count' =>
      c ← ld8 ptr2;
      if c =? 0 then mret ptr1 else
      _ ← st8 ptr1 c;
      strncat_loop count' (ptr1 + 1) (ptr2 + 1)
  end.
Definition strncat (fuel : nat) (s1 s2 count : Z) : M kst Z :=
  if s1 =? 0 then mret s1 else
  ptr1 ← strlen_loop fuel s1;
  if (s2 =? 0) || (count =? 0) then mret s1 else
  ptr1 ← strncat_loop (Z.to_nat count) ptr1 s2;
  _ ← st8 ptr1 0;
  mret s1.

(** strchr.c: [*ptr] is a (signed) [char], [c] an [int]. *)
Fixpoint strchr_loop (fuel : nat) (ptr c : Z) : M kst Z :=
  match fuel with
  | O => fail Diverges
  | S fuel' =>
      b ← ld8 ptr;
      if b =? 0 then mret 0
      else if s8 b =? c then mret ptr
      else strchr_loop fuel' (ptr + 1) c
  end.
Definition strchr (fuel : nat) (s c : Z) : M kst Z :=
  if s =? 0 then mret 0 else strchr_loop fuel s c.

Fixpoint strrchr_loop (fuel : nat) (ptr c target : Z) : M kst Z :=
  match fuel with
  | O => fail Diverges
  | S fuel' =>
      b ← ld8 ptr;
      if b =? 0 then mret target
      else strrchr_loop fuel' (ptr + 1) c (if s8 b =? c then ptr else target)
  end.
Definition strrchr (fuel : nat) (s c : Z) : M kst Z :=
  if s =? 0 then mret 0 else strrchr_loop fuel s c 0.

(** strsep.c: the inner loop over the delimiters. *)
Fixpoint matches (fuel : nat) (chr delims : Z) : M kst bool :=
  match fuel with
  | O => fail Diverges
  | S fuel' =>
      d ← ld8 delims;
      if d =? 0 then mret false
      else if chr =? d then mret true
      else matches fuel' chr (delims + 1)
  end.

Fixpoint strsep_loop (fuel : nat) (strptr strcur delimiter orig : Z) : M kst Z :=
  match fuel with
  | O => fail Diverges
  | S fuel' =>
      c ← ld8 strcur;
      if c =? 0 then
        _ ← st32 strptr 0;
        mret orig
      else
        hit ← matches fuel c delimiter;
        if (hit : bool) then
          _ ← st8 strcur 0;
          _ ← st32 strptr (strcur + 1);
          mret orig
        else strsep_loop fuel' strptr (strcur + 1) delimiter orig
  end.
Definition strsep (fuel : nat) (strptr delimiter : Z) : M kst Z :=
  if strptr =? 0 then mret 0 else
  str ← ld32 strptr;
  if str =? 0 then mret 0 else strsep_loop fuel strptr str delimiter str.

(** strdup.c *)
Definition strdup `{A : Allocator} (fuel : nat) (s : Z) : M kst Z :=
  len ← strlen fuel s;
  let nchar := len +w 1 in
  copystr ← malloc nchar;
  if copystr =? 0 then mret copystr else
  _ ← strcpy fuel copystr s;
  mret copystr.

End Impl.

(** ** What they compute *)
Module Pure.

(** The characters of a C string: bytes other than NUL. *)
Definition chars (s : list Z) : Prop := Forall (fun c => 0 < c < 256) s.

(** The string [s] and its NUL lie at [p]. *)
Definition cstr (m : mem) (p : Z) (s : list Z) : Prop :=
  load_bytes m p (S (length s)) = s ++ [0] /\ chars s.

(** First difference of the two byte strings (NUL included). *)
Fixpoint cmp (s1 s2 : list Z) : Z :=
  match s1, s2 with
  | [], [] => 0
  | [], c :: _ => - c
  | c :: _, [] => c
  | c1 :: s1', c2 :: s2' => if c1 =? c2 then cmp s1' s2' else c1 - c2
  end.

(** What strncmp.c compares: one character more than its argument says. *)
Definition cmpn (n : nat) (s1 s2 : list Z) : Z :=
  match n with
  | O => 0
  | S _ => cmp (take (S n) s1) (take (S n) s2)
  end.

(** The bytes [strncpy] stores. *)
Definition strncpy_bytes (n : nat) (s : list Z) : list Z :=
  if decide (n <= length s)%nat then take n s
  else s ++ [0] ++ replicate (n - length s) 0.

(** Index of the last character equal to [c]. *)
Fixpoint rindex (c : Z) (s : list Z) : option nat :=
  match s with
  | [] => None
  | b :: s' =>
      match rindex c s' with
      | Some i => Some (S i)
      | None => if s8 b =? c then Some O else None
      end
  end.

(** Split at the first delimiter. *)
Fixpoint sep (delims s : list Z) : list Z * option (list Z) :=
  match s with
  | [] => ([], None)
  | c :: s' =>
      if bool_decide (c ∈ delims) then ([], Some s')
      else let '(t, r) := sep delims s' in (c :: t, r)
  end.

End Pure.

(** ** Strings in memory *)
Module Facts.
Import Impl Pure.

Lemma cstr_nil m p : cstr m p [] <-> load8 m p = 0.
Proof.
  unfold cstr. rewrite load_bytes_S. cbn. unfold chars.
  split; [by intros [[= ?] _]|]. intros ->. split; [done|constructor].
Qed.

Lemma cstr_cons m p c s :
  cstr m p (c :: s) <-> load8 m p = c /\ 0 < c < 256 /\ cstr m (p + 1) s.
Proof.
  unfold cstr, chars. cbn [length]. rewrite load_bytes_S, Forall_cons. cbn [app].
  split.
  - intros [[= H1 H2] [Hc Hs]]. by rewrite H2.
  - intros (-> & Hc & H2 & Hs). by rewrite H2.
Qed.

Lemma cstr_agree m m' p s :
  cstr m p s -> agree (fun a => p <= a <= p + Z.of_nat (length s)) m m' -> cstr m' p s.
Proof.
  intros [H Hc] Hag. split; [|done]. rewrite <- H. symmetry.
  eapply load_bytes_agree; [exact Hag|]. intros i Hi. cbn. lia.
Qed.

Lemma cstr_store8 m p s a v :
  cstr m p s -> a < p \/ p + Z.of_nat (length s) < a -> cstr (store8 m a v) p s.
Proof. intros H Ha. eapply cstr_agree; [done|]. apply agree_store8. lia. Qed.

(** One string, read in two ways. *)
Lemma cstr_fun m p s s' : cstr m p s -> cstr m p s' -> s = s'.
Proof.
  revert p s'. induction s as [|c s IH]; intros p [|c' s'];
    rewrite ?cstr_nil, ?cstr_cons; try (intros; destruct_and?; lia); [done|].
  intros (<- & _ & Hs) (<- & _ & Hs'). f_equal. by eapply IH.
Qed.

Lemma cstr_head m p s : cstr m p s -> load8 m p = hd 0 s.
Proof. destruct s; rewrite ?cstr_nil, ?cstr_cons; cbn; tauto. Qed.

Lemma store_bytes_cstr m p s :
  chars s -> cstr (store_bytes m p (s ++ [0])) p s.
Proof.
  intros Hc. split; [|done].
  replace (S (length s)) with (length (s ++ [0])) by (rewrite length_app; cbn; lia).
  rewrite load_store_bytes. rewrite fmap_app. cbn. f_equal.
  induction Hc as [|c s Hc Hs IH]; [done|]. cbn. rewrite IH, u8_small by lia. done.
Qed.

(** *** The loops *)

(** Case analysis on a string lying in memory, keeping [H] for its tail. *)
Ltac cstr_cases s H :=
  let c := fresh "c" in let Hc := fresh "Hc" in let Hl := fresh "Hl" in
  destruct s as [|c s];
  [ rewrite cstr_nil in H; rewrite ?H
  | rewrite cstr_cons in H; destruct H as (Hl & Hc & H); rewrite ?Hl,
      ?(proj2 (Z.eqb_neq c 0)) by lia ];
  cbn [Z.eqb negb andb hd length] in *.

Lemma strlen_loop_run fuel p s st :
  cstr (k_mem st) p s -> (length s < fuel)%nat ->
  strlen_loop fuel p st = Ok (p + Z.of_nat (length s), st).
Proof.
  revert p s. induction fuel as [|fuel IH]; intros p s Hs Hf; [lia|].
  cbn [strlen_loop]. krun. cstr_cases s Hs.
  - by rewrite Z.add_0_r.
  - rewrite (IH (p + 1) s) by (done || lia). do 2 f_equal. lia.
Qed.

Lemma strnlen_loop_run n p s st :
  cstr (k_mem st) p s ->
  strnlen_loop n p st = Ok (p + Z.of_nat (n `min` length s), st).
Proof.
  revert p s. induction n as [|n IH]; intros p s Hs; cbn [strnlen_loop]; krun; cstr_cases s Hs.
  1,3: rewrite ?Nat.min_0_r; cbn; by rewrite Z.add_0_r.
  - cbn. by rewrite Z.add_0_r.
  - rewrite (IH (p + 1) s) by done. cbn [Nat.min]. do 2 f_equal. lia.
Qed.

Lemma strcmp_run fuel p1 p2 s1 s2 st :
  cstr (k_mem st) p1 s1 -> cstr (k_mem st) p2 s2 -> (length s1 < fuel)%nat ->
  strcmp fuel p1 p2 st = Ok (cmp s1 s2, st).
Proof.
  revert p1 p2 s1 s2. induction fuel as [|fuel IH]; intros p1 p2 s1 s2 H1 H2 Hf; [lia|].
  cbn [strcmp]. krun. cstr_cases s1 H1; cstr_cases s2 H2; cbn [cmp];
    try (do 2 f_equal; lia).
  destruct (Z.eqb_spec c c0); cbn [negb]; [|done].
  apply IH; [done..|lia].
Qed.

Lemma strncmp_loop_run n p1 p2 s1 s2 st :
  cstr (k_mem st) p1 s1 -> cstr (k_mem st) p2 s2 ->
  strncmp_loop n p1 p2 st = Ok (cmp (take (S n) s1) (take (S n) s2), st).
Proof.
  revert p1 p2 s1 s2. induction n as [|n IH]; intros p1 p2 s1 s2 H1 H2;
    cbn [strncmp_loop]; krun; cstr_cases s1 H1; cstr_cases s2 H2; cbn [cmp take];
    try (do 2 f_equal; lia).
  - destruct (Z.eqb_spec c c0); [|done]. rewrite !firstn_O. cbn. do 2 f_equal. lia.
  - destruct (Z.eqb_spec c c0); cbn [negb]; [|done]. by apply IH.
Qed.

Lemma memset_loop_run n p b st :
  memset_loop n p b st = Ok (tt, set_mem (store_bytes (k_mem st) p (replicate n b)) st).
Proof.
  revert p st. induction n as [|n IH]; intros p st; cbn [memset_loop replicate store_bytes].
  - by rewrite set_mem_id.
  - krun. by rewrite IH.
Qed.

Lemma load_bytes_store8_ne m p a n v :
  a < p \/ p + Z.of_nat n <= a -> load_bytes (store8 m a v) p n = load_bytes m p n.
Proof.
  intros Ha. symmetry.
  apply (load_bytes_agree (fun b => p <= b < p + Z.of_nat n)); [apply agree_store8|]; lia.
Qed.

Lemma store8_load8_same m a b : store8 m a (load8 m b) = store8 m a (default 0 (m !! b)).
Proof. unfold store8, load8. by rewrite u8_idem. Qed.

(** The forward copy is right whenever it does not overtake its source. *)
Lemma memcpy_loop_run n dst src st :
  dst <= src \/ src + Z.of_nat n <= dst ->
  memcpy_loop n dst src st
  = Ok (tt, set_mem (store_bytes (k_mem st) dst (load_bytes (k_mem st) src n)) st).
Proof.
  revert dst src st. induction n as [|n IH]; intros dst src st Hd; cbn [memcpy_loop].
  - change (load_bytes _ src 0) with (@nil Z). cbn [store_bytes]. by rewrite set_mem_id.
  - rewrite load_bytes_S. cbn [store_bytes]. krun.
    rewrite IH by lia. rewrite set_mem_mem. cbn [set_mem k_mem].
    by rewrite load_bytes_store8_ne by lia.
Qed.

Lemma strcpy_loop_run fuel dst src s st :
  cstr (k_mem st) src s -> (length s < fuel)%nat ->
  dst <= src \/ src + Z.of_nat (length s) < dst ->
  strcpy_loop fuel dst src st
  = Ok (dst + Z.of_nat (length s), set_mem (store_bytes (k_mem st) dst s) st).
Proof.
  revert dst src s st. induction fuel as [|fuel IH]; intros dst src s st Hs Hf Hd; [lia|].
  cbn [strcpy_loop]. krun. cstr_cases s Hs; cbn [store_bytes].
  - by rewrite Z.add_0_r, set_mem_id.
  - rewrite (IH _ _ s); [|apply cstr_store8; [done|lia]|lia..].
    cbn [set_mem k_mem]. do 2 f_equal. lia.
Qed.

(** A copy up to the NUL, followed by the store of the NUL. *)
Lemma strcpy_body_run {B} fuel dst src s st (k : unit -> M kst B) :
  cstr (k_mem st) src s -> (length s < fuel)%nat ->
  dst <= src \/ src + Z.of_nat (length s) < dst ->
  (ptr ← strcpy_loop fuel dst src; st8 ptr 0 ≫= k) st
  = k tt (set_mem (store_bytes (k_mem st) dst (s ++ [0])) st).
Proof.
  intros. mstep (strcpy_loop_run fuel dst src s st ltac:(done) ltac:(done) ltac:(done)).
  krun. rewrite store_bytes_app. done.
Qed.

Lemma strcpy_run fuel dst src s st :
  cstr (k_mem st) src s -> s <> [] -> (length s < fuel)%nat -> src <> 0 ->
  dst <= src \/ src + Z.of_nat (length s) < dst ->
  strcpy fuel dst src st
  = Ok (dst, set_mem (store_bytes (k_mem st) dst (s ++ [0])) st).
Proof.
  intros Hs Hne Hf H0 Hd. unfold strcpy. rewrite (proj2 (Z.eqb_neq src 0)) by done.
  rewrite (bind_Ok _ _ st (load8 (k_mem st) src) st) by done.
  pose proof (cstr_head _ _ _ Hs) as Hh. destruct s as [|c s]; [done|].
  pose proof (proj1 (cstr_cons _ _ _ _) Hs) as (_ & Hc & _). cbn in Hh.
  rewrite Hh, (proj2 (Z.eqb_neq c 0)) by lia.
  by rewrite (strcpy_body_run _ _ _ (c :: s)).
Qed.

Lemma strncpy_loop_S n ptr src :
  strncpy_loop (S n) ptr src
  = (c ← ld8 src;
     _ ← st8 ptr c;
     if c =? 0 then memset_loop (S n) (ptr + 1) 0
     else strncpy_loop n (ptr + 1) (src + 1)).
Proof. done. Qed.

Lemma strncpy_loop_run n dst src s st :
  cstr (k_mem st) src s ->
  dst <= src \/ src + Z.of_nat (length s) < dst ->
  strncpy_loop (S n) dst src st
  = Ok (tt, set_mem (store_bytes (k_mem st) dst (strncpy_bytes (S n) s)) st).
Proof.
  revert dst src s st. induction n as [|n IH]; intros dst src s st Hs Hd.
  all: rewrite strncpy_loop_S; krun; cstr_cases s Hs.
  - rewrite memset_loop_run. done.
  - unfold strncpy_bytes. cbn [length].
    rewrite decide_True by lia. rewrite firstn_cons, firstn_O. done.
  - rewrite memset_loop_run. done.
  - rewrite (IH _ _ s), set_mem_mem; [|apply cstr_store8; [done|lia]|lia].
    cbn [set_mem k_mem]. do 3 f_equal. unfold strncpy_bytes. cbn [length].
    repeat case_decide; try lia; done.
Qed.

Lemma strncat_loop_run n p1 p2 s st :
  cstr (k_mem st) p2 s ->
  p1 <= p2 \/ p2 + Z.of_nat (length s) < p1 ->
  strncat_loop n p1 p2 st
  = Ok (p1 + Z.of_nat (length (take n s)),
        set_mem (store_bytes (k_mem st) p1 (take n s)) st).
Proof.
  revert p1 p2 s st. induction n as [|n IH]; intros p1 p2 s st Hs Hd; cbn [strncat_loop].
  - rewrite firstn_O. cbn. by rewrite Z.add_0_r, set_mem_id.
  - krun. cstr_cases s Hs.
    + cbn. by rewrite Z.add_0_r, set_mem_id.
    + rewrite firstn_cons, (IH _ _ s); [|apply cstr_store8; [done|lia]|lia].
      cbn [set_mem k_mem length]. do 2 f_equal. lia.
Qed.

Lemma strchr_loop_run fuel p c s st :
  cstr (k_mem st) p s -> (length s < fuel)%nat -> 
  strchr_loop fuel p c st
  = Ok (match list_find (fun b => s8 b = c) s with
        | Some (i, _) => p + Z.of_nat i
        | None => 0
        end, st).
Proof.
  revert p s. induction fuel as [|fuel IH]; intros p s Hs Hf; [lia|].
  cbn [strchr_loop]. krun. cstr_cases s Hs; [done|]. cbn [list_find].
  case_decide as Hd.
  - rewrite (proj2 (Z.eqb_eq _ _)) by done. do 2 f_equal. lia.
  - rewrite (proj2 (Z.eqb_neq _ _)) by done. rewrite (IH _ s) by (done || lia).
    destruct (list_find _ s) as [[i b]|]; [|done]. cbn. do 2 f_equal. lia.
Qed.

Lemma strrchr_loop_run fuel p c t s st :
  cstr (k_mem st) p s -> (length s < fuel)%nat ->
  strrchr_loop fuel p c t st
  = Ok (match rindex c s with Some i => p + Z.of_nat i | None => t end, st).
Proof.
  revert p t s. induction fuel as [|fuel IH]; intros p t s Hs Hf; [lia|].
  cbn [strrchr_loop]. krun. cstr_cases s Hs; [done|].
  rewrite (IH _ _ s) by (done || lia). cbn [rindex].
  destruct (rindex c s) as [i|]; cbn; [do 2 f_equal; lia|].
  destruct (s8 c0 =? c); do 2 f_equal; lia.
Qed.

Lemma matches_run fuel c p d st :
  cstr (k_mem st) p d -> (length d < fuel)%nat ->
  matches fuel c p st = Ok (bool_decide (c ∈ d), st).
Proof.
  revert p d. induction fuel as [|fuel IH]; intros p d Hd Hf; [lia|].
  cbn [matches]. krun. cstr_cases d Hd.
  - by rewrite bool_decide_false by (by inversion 1).
  - destruct (Z.eqb_spec c c0) as [->|Hne].
    + rewrite bool_decide_true; [done|]. by left.
    + rewrite (IH _ d) by (done || lia). do 2 f_equal. apply bool_decide_ext.
      rewrite elem_of_cons. tauto.
Qed.

Lemma cstr_store32 m p s a v :
  cstr m p s -> a + 4 <= p \/ p + Z.of_nat (length s) < a -> cstr (store32 m a v) p s.
Proof.
  intros H Ha. eapply cstr_agree; [done|]. apply agree_store32. lia.
Qed.

(** What [strsep] leaves behind when the unread part of the string, at [cur],
    is split into the token and the rest. *)
Definition strsep_mem (m : mem) (strptr cur : Z) (r : list Z * option (list Z)) : mem :=
  let e := cur + Z.of_nat (length r.1) in
  match r.2 with
  | None => store32 m strptr 0
  | Some _ => store32 (store8 m e 0) strptr (e + 1)
  end.

Lemma strsep_loop_run fuel strptr cur delimiter d s orig st :
  cstr (k_mem st) cur s -> cstr (k_mem st) delimiter d ->
  (length s + length d < fuel)%nat ->
  strsep_loop fuel strptr cur delimiter orig st
  = Ok (orig, set_mem (strsep_mem (k_mem st) strptr cur (sep d s)) st).
Proof.
  intros Hs Hd. revert cur s Hs. induction fuel as [|fuel IH]; intros cur s Hs Hf; [lia|].
  cbn [strsep_loop]. krun. cstr_cases s Hs; [done|].
  rewrite (matches_run _ _ _ d) by (done || lia). cbn [sep].
  case_bool_decide.
  - unfold strsep_mem. cbn. by rewrite Z.add_0_r.
  - rewrite (IH _ s) by (done || lia). destruct (sep d s) as [t r].
    unfold strsep_mem. cbn [fst snd length].
    replace (cur + 1 + Z.of_nat (length t)) with (cur + Z.of_nat (S (length t))) by lia.
    done.
Qed.

(** The token, what follows it, and the delimiter between them. *)
Lemma sep_spec d s :
  match sep d s with
  | (t, None) => s = t /\ Forall (fun c => c ∉ d) s
  | (t, Some r) => exists c, s = t ++ c :: r /\ c ∈ d /\ Forall (fun c => c ∉ d) t
  end.
Proof.
  induction s as [|c s IH]; cbn [sep]; [split; [done|constructor]|].
  case_bool_decide; [by exists c|].
  destruct (sep d s) as [t [r|]].
  - destruct IH as (c' & -> & Hc' & Hn). exists c'. eauto using Forall_cons.
  - destruct IH as [-> Hn]. eauto using Forall_cons.
Qed.

(** A C string inside a longer one: up to [i], if a NUL is stored there. *)
Lemma cstr_app m p s1 s2 :
  cstr m p (s1 ++ s2) -> chars s1 /\ cstr m (p + Z.of_nat (length s1)) s2.
Proof.
  revert p. induction s1 as [|c s1 IH]; intros p; cbn [app length].
  - rewrite Z.add_0_r. split; [constructor|done].
  - rewrite cstr_cons. intros (_ & Hc & H). apply IH in H as [H1 H2].
    split; [by constructor|]. by replace (p + Z.of_nat (S (length s1)))
      with (p + 1 + Z.of_nat (length s1)) by lia.
Qed.

Lemma cstr_cut m p s1 s2 :
  cstr m p (s1 ++ s2) -> cstr (store8 m (p + Z.of_nat (length s1)) 0) p s1.
Proof.
  revert p. induction s1 as [|c s1 IH]; intros p; cbn [app length].
  - intros _. rewrite cstr_nil, Z.add_0_r. apply load8_store8_eq.
  - rewrite !cstr_cons. intros (Hl & Hc & H). rewrite load8_store8_ne by lia.
    split_and!; try done; try lia.
    replace (p + Z.of_nat (S (length s1))) with (p + 1 + Z.of_nat (length s1)) by lia. eauto.
Qed.

Lemma cstr_join m p s1 s2 :
  load_bytes m p (length s1) = s1 -> chars s1 ->
  cstr m (p + Z.of_nat (length s1)) s2 -> cstr m p (s1 ++ s2).
Proof.
  revert p. induction s1 as [|c s1 IH]; intros p Hl Hc H; cbn [app length] in *.
  - by rewrite Z.add_0_r in H.
  - rewrite load_bytes_S in Hl. injection Hl as Hl1 Hl2.
    apply Forall_cons in Hc as [Hc Hcs]. rewrite cstr_cons. split_and!; try done; try lia.
    apply IH; [done..|].
    by replace (p + 1 + Z.of_nat (length s1)) with (p + Z.of_nat (S (length s1))) by lia.
Qed.

Lemma cstr_bytes m p s : cstr m p s -> load_bytes m p (length s) = s.
Proof.
  revert p. induction s as [|c s IH]; intros p; [done|]. rewrite cstr_cons.
  intros (<- & _ & H). cbn [length]. rewrite load_bytes_S. f_equal. by apply IH.
Qed.

(** The sign [strcmp] returns is decided at the first difference. *)
Lemma cmp_first_difference s1 s2 :
  chars s1 -> chars s2 ->
  (cmp s1 s2 = 0 /\ s1 = s2) \/
  (exists i, take i s1 = take i s2 /\ nth i s1 0 <> nth i s2 0 /\
     cmp s1 s2 = nth i s1 0 - nth i s2 0).
Proof.
  intros H1. revert s2. induction H1 as [|c s1 Hc H1 IH]; intros s2 H2;
    destruct H2 as [|c2 s2 Hc2 H2]; cbn [cmp].
  - by left.
  - right. exists O. split_and!; [done|cbn; lia..].
  - right. exists O. split_and!; [done|cbn; lia..].
  - destruct (Z.eqb_spec c c2) as [->|Hne].
    + destruct (IH s2 H2) as [[E ->]|(i & Ht & Hn & E)]; [by left|].
      right. exists (S i). rewrite !firstn_cons. cbn [nth]. by rewrite Ht.
    + right. exists O. cbn. done.
Qed.

Lemma cmp_take_S n s1 s2 :
  take (Z.to_nat n) s1 = take (Z.to_nat n) s2 ->
  n < Z.of_nat (length s1) -> n < Z.of_nat (length s2) -> 0 < n ->
  cmp (take (S (Z.to_nat n)) s1) (take (S (Z.to_nat n)) s2)
  = nth (Z.to_nat n) s1 0 - nth (Z.to_nat n) s2 0.
Proof.
  intros Heq H1 H2 H0. assert (Z.to_nat n < length s1)%nat as L1 by lia.
  assert (Z.to_nat n < length s2)%nat as L2 by lia. clear H0 H1 H2.
  revert s1 s2 Heq L1 L2. induction (Z.to_nat n) as [|k IH];
    intros [|c1 s1] [|c2 s2] Heq L1 L2; cbn in L1, L2; try lia.
  - rewrite !firstn_cons, !firstn_O. cbn. destruct (Z.eqb_spec c1 c2); lia.
  - rewrite !(firstn_cons (S k)). rewrite !firstn_cons in Heq. injection Heq as -> Heq.
    cbn [cmp nth]. rewrite Z.eqb_refl. apply IH; [done|lia..].
Qed.

Lemma strcpy_empty_run fuel dst src st :
  cstr (k_mem st) src [] -> strcpy fuel dst src st = Ok (dst, st).
Proof.
  rewrite cstr_nil. intros H. unfold strcpy. krun. rewrite H. by destruct (src =? 0).
Qed.

Lemma strncpy_bytes_short n s :
  (length s < n)%nat -> strncpy_bytes n s = s ++ replicate (n + 1 - length s) 0.
Proof.
  intros H. unfold strncpy_bytes. rewrite decide_False by lia.
  by replace (n + 1 - length s)%nat with (S (n - length s)) by lia.
Qed.

Lemma u8_chars s : chars s -> u8 <$> s = s.
Proof.
  induction 1 as [|c s Hc Hs IH]; [done|]. cbn. by rewrite IH, u8_small by lia.
Qed.

Lemma load_store_chars m p s k n :
  chars s -> n = length (s ++ replicate k 0) ->
  load_bytes (store_bytes m p (s ++ replicate k 0)) p n = s ++ replicate k 0.
Proof.
  intros Hc ->. rewrite load_store_bytes, fmap_app, u8_chars by done.
  by rewrite fmap_replicate.
Qed.

Lemma strsep_mem_token m strptr p d s :
  cstr m p s -> strptr + 4 <= p \/ p + Z.of_nat (length s) < strptr ->
  cstr (strsep_mem m strptr p (sep d s)) p (sep d s).1.
Proof.
  intros Hs Ha. pose proof (sep_spec d s) as Hsep. unfold strsep_mem.
  destruct (sep d s) as [t [r|]]; cbn [fst snd].
  - destruct Hsep as (c & -> & _). rewrite length_app in Ha.
    apply cstr_store32; [by eapply cstr_cut|lia].
  - destruct Hsep as [<- _]. apply cstr_store32; [done|lia].
Qed.

Lemma strsep_mem_rest m strptr p d s :
  0 <= p -> cstr m p s -> p + Z.of_nat (length s) < W32 ->
  strptr + 4 <= p \/ p + Z.of_nat (length s) < strptr ->
  let m' := strsep_mem m strptr p (sep d s) in
  match (sep d s).2 with
  | Some r => cstr m' (load32 m' strptr) r /\ s <> [] /\ load32 m' strptr <> 0
  | None => load32 m' strptr = 0
  end.
Proof.
  intros Hp Hs Hb Ha. pose proof (sep_spec d s) as Hsep. unfold strsep_mem.
  destruct (sep d s) as [t [r|]]; cbn [fst snd]; [|by mem_simp].
  destruct Hsep as (c & -> & _). rewrite length_app in Ha, Hb. cbn [length] in Ha, Hb.
  rewrite load32_store32_eq, u32_small by lia.
  split_and!; [|by destruct t|lia].
  apply cstr_store32; [apply cstr_store8; [|lia]|lia].
  apply cstr_app in Hs as [_ Hs]. by apply cstr_cons in Hs as (_ & _ & Hs).
Qed.

Lemma strcpy_result fuel dst src s st
    (Hs : cstr (k_mem st) src s) (Hf : (length s < fuel)%nat) (H0 : src <> 0)
    (Hd : dst <= src \/ src + Z.of_nat (length s) < dst) :
  exists st', strcpy fuel dst src st = Ok (dst, st') /\ same_rest st st' /\
    (s = [] -> st' = st) /\ (s <> [] -> cstr (k_mem st') dst s) /\
    agree (fun a => a < dst \/ dst + Z.of_nat (length s) < a) (k_mem st) (k_mem st').
Proof.
  destruct (decide (s = [])) as [->|Hne].
  - exists st. split_and!; auto with mem; [|done]. by apply strcpy_empty_run.
  - exists (set_mem (store_bytes (k_mem st) dst (s ++ [0])) st).
    split_and!; [by apply strcpy_run|done|done|intros _|].
    + apply store_bytes_cstr, Hs.
    + apply agree_store_bytes. rewrite length_app. cbn. lia.
Qed.

Lemma strlen_run fuel p s st :
  cstr (k_mem st) p s -> (length s < fuel)%nat -> Z.of_nat (length s) < W32 ->
  strlen fuel p st = Ok (Z.of_nat (length s), st).
Proof.
  intros. unfold strlen. mstep (strlen_loop_run fuel p s st ltac:(done) ltac:(done)).
  krun. do 2 f_equal. rewrite u32_small by lia. lia.
Qed.

End Facts.

Import Impl Pure Facts.

(** ** Properties *)

(** [strcmp] returns 0 exactly on equal strings and otherwise the
    difference of the two characters at the first position where they differ,
    without changing any state. *)
Theorem strcmp_orders fuel p1 p2 s1 s2 st
    (H1 : cstr (k_mem st) p1 s1) (H2 : cstr (k_mem st) p2 s2)
    (Hf : (length s1 < fuel)%nat) :
  exists r, strcmp fuel p1 p2 st = Ok (r, st) /\
    ((r = 0 /\ s1 = s2) \/
     (exists i, take i s1 = take i s2 /\ nth i s1 0 <> nth i s2 0 /\
        r = nth i s1 0 - nth i s2 0)).
Proof.
  exists (cmp s1 s2). split; [by apply strcmp_run|].
  apply cmp_first_difference; [apply H1|apply H2].
Qed.

(** [strncmp] looks at one character more than its bound: two strings whose
    first [n] characters agree compare by their characters number [n]. *)
Theorem strncmp_compares_one_more p1 p2 s1 s2 n st
    (H1 : cstr (k_mem st) p1 s1) (H2 : cstr (k_mem st) p2 s2) (Hn : 0 < n)
    (Heq : take (Z.to_nat n) s1 = take (Z.to_nat n) s2)
    (Hl1 : n < Z.of_nat (length s1)) (Hl2 : n < Z.of_nat (length s2)) :
  strncmp p1 p2 n st = Ok (nth (Z.to_nat n) s1 0 - nth (Z.to_nat n) s2 0, st).
Proof.
  unfold strncmp. rewrite (proj2 (Z.eqb_neq n 0)) by lia.
  rewrite (strncmp_loop_run _ _ _ s1 s2) by done. do 2 f_equal.
  by apply cmp_take_S.
Qed.

(** [strcpy] copies a non-empty string with its NUL and touches nothing
    else; an empty string is not copied at all. *)
Theorem strcpy_copies_non_empty fuel dst src s st
    (Hs : cstr (k_mem st) src s) (Hf : (length s < fuel)%nat) (H0 : src <> 0)
    (Hd : dst <= src \/ src + Z.of_nat (length s) < dst) :
  exists st', strcpy fuel dst src st = Ok (dst, st') /\ same_rest st st' /\
    (s = [] -> st' = st) /\ (s <> [] -> cstr (k_mem st') dst s) /\
    agree (fun a => a < dst \/ dst + Z.of_nat (length s) < a) (k_mem st) (k_mem st').
Proof. by apply strcpy_result. Qed.

(** [strncpy] with room for [n] bytes stores [n + 1] bytes when the source
    is shorter than [n]: the string and zeros. *)
Theorem strncpy_pads_one_too_many dst src s n st
    (Hs : cstr (k_mem st) src s) (Hn : 0 < n)
    (Hd : dst <= src \/ src + Z.of_nat (length s) < dst)
    (Hlen : Z.of_nat (length s) < n) :
  exists st', strncpy dst src n st = Ok (dst, st') /\ same_rest st st' /\
    load_bytes (k_mem st') dst (Z.to_nat n + 1)
      = s ++ replicate (Z.to_nat n + 1 - length s) 0 /\
    agree (fun a => a < dst \/ dst + n < a) (k_mem st) (k_mem st').
Proof.
  destruct (Z.to_nat n) as [|k] eqn:Hk; [lia|].
  exists (set_mem (store_bytes (k_mem st) dst (strncpy_bytes (S k) s)) st).
  pose proof (strncpy_bytes_short (S k) s ltac:(lia)) as Hb.
  split_and!; [|done|..].
  - unfold strncpy. rewrite Hk. by mstep (strncpy_loop_run k dst src s st Hs Hd).
  - cbn [set_mem k_mem]. rewrite Hb. apply load_store_chars; [apply Hs|].
    rewrite length_app, length_replicate. lia.
  - apply agree_store_bytes. rewrite Hb, length_app, length_replicate. lia.
Qed.

(** [strcat] leaves the concatenation at its first argument and touches
    only the bytes behind its end. *)
Theorem strcat_appends fuel p1 p2 s1 s2 st
    (H1 : cstr (k_mem st) p1 s1) (H2 : cstr (k_mem st) p2 s2)
    (Hp1 : p1 <> 0) (Hp2 : p2 <> 0)
    (Hf1 : (length s1 < fuel)%nat) (Hf2 : (length s2 < fuel)%nat)
    (Hd : p1 + Z.of_nat (length s1) + Z.of_nat (length s2) < p2 \/
          p2 + Z.of_nat (length s2) < p1) :
  exists st', strcat fuel p1 p2 st = Ok (p1, st') /\ same_rest st st' /\
    cstr (k_mem st') p1 (s1 ++ s2) /\
    agree (fun a => a < p1 + Z.of_nat (length s1) \/
                    p1 + Z.of_nat (length s1) + Z.of_nat (length s2) < a)
      (k_mem st) (k_mem st').
Proof.
  exists (set_mem (store_bytes (k_mem st) (p1 + Z.of_nat (length s1)) (s2 ++ [0])) st).
  split_and!; [|done|..].
  - unfold strcat. rewrite !(proj2 (Z.eqb_neq _ 0)) by done.
    mstep (strlen_loop_run fuel p1 s1 st ltac:(done) ltac:(done)).
    by rewrite (strcpy_body_run _ _ _ s2) by (done || lia).
  - cbn [set_mem k_mem]. apply cstr_join; [|apply H1|apply store_bytes_cstr, H2].
    rewrite <- (cstr_bytes _ _ _ H1) at 3. symmetry.
    apply (load_bytes_agree (fun a => a < p1 + Z.of_nat (length s1))); [|lia].
    apply agree_store_bytes. lia.
  - apply agree_store_bytes. rewrite length_app. cbn. lia.
Qed.

(** [strsep] returns the string it was given, cut at the first
    delimiter, and leaves behind the pointer to what follows, or NULL when
    there is no delimiter. *)
Theorem strsep_splits fuel strptr delimiter d s p st
    (Hp : load32 (k_mem st) strptr = p) (H0 : strptr <> 0) (Hp0 : p <> 0)
    (Hs : cstr (k_mem st) p s) (Hd : cstr (k_mem st) delimiter d)
    (Hf : (length s + length d < fuel)%nat)
    (Hb : p + Z.of_nat (length s) < W32)
    (Hsep : strptr + 4 <= p \/ p + Z.of_nat (length s) < strptr) :
  exists st', strsep fuel strptr delimiter st = Ok (p, st') /\ same_rest st st' /\
    cstr (k_mem st') p (sep d s).1 /\
    match (sep d s).2 with
    | Some r => cstr (k_mem st') (load32 (k_mem st') strptr) r /\
                s <> [] /\ load32 (k_mem st') strptr <> 0
    | None => load32 (k_mem st') strptr = 0
    end.
Proof.
  exists (set_mem (strsep_mem (k_mem st) strptr p (sep d s)) st).
  split_and!; [|done|..].
  - unfold strsep. rewrite (proj2 (Z.eqb_neq _ 0)) by done.
    rewrite (bind_Ok _ _ st p st) by (krun; by rewrite Hp).
    rewrite (proj2 (Z.eqb_neq _ 0)) by done. by apply strsep_loop_run.
  - by apply strsep_mem_token.
  - pose proof (load32_range (k_mem st) strptr).
    by apply strsep_mem_rest; [lia|..].
Qed.

(** [strdup] returns NULL, changing nothing, when the allocator has no
    room, and otherwise a fresh buffer that holds a copy of a non-empty string;
    every live buffer keeps its bytes. *)
Theorem strdup_copies `{A : Allocator} fuel p s st L
    (HI : ainv st L) (Hs : cstr (k_mem st) p s) (Hp : p <> 0)
    (Hst : forall i, 0 <= i <= Z.of_nat (length s) -> stable L (p + i))
    (Hf : (length s < fuel)%nat) (Hlen : Z.of_nat (length s) + 1 < W32) :
  exists r st', strdup fuel p st = Ok (r, st') /\ same_rest st st' /\
    ((r = 0 /\ st' = st) \/
     (exists n, Z.of_nat (length s) + 1 <= n /\ L !! r = None /\
        ainv st' (<[r := n]> L) /\ (s <> [] -> cstr (k_mem st') r s) /\
        agree (stable L) (k_mem st) (k_mem st'))).
Proof.
  unfold strdup, strlen.
  mstep (strlen_run fuel p s st ltac:(done) ltac:(done) ltac:(lia)).
  rewrite u32_small by lia.
  destruct (malloc_spec st L (Z.of_nat (length s) + 1) HI ltac:(lia))
    as (r & s1 & Hm & Hr & Hcase). mstep Hm.
  destruct Hcase as [[-> ->]|(n & Hn & Hnone & HI' & Hag)].
  { exists 0, st. split_and!; auto. }
  destruct (live_bounds _ _ r n HI' (lookup_insert_eq _ _ _)) as (Hr0 & _ & Hrn).
  rewrite (proj2 (Z.eqb_neq r 0)) by lia.
  assert (cstr (k_mem s1) p s) as Hs1.
  { eapply cstr_agree; [exact Hs|]. eapply agree_weaken; [|exact Hag].
    intros a Ha. replace a with (p + (a - p)) by lia. apply Hst. lia. }
  assert (r + n <= p \/ p + Z.of_nat (length s) < r) as Hd.
  { eapply stable_apart; [exact HI'|done|lia|lia|exact Hst]. }
  destruct (strcpy_result fuel r p s s1 Hs1 Hf Hp ltac:(lia))
    as (s2 & Hrun & Hr2 & _ & Hc2 & Hag2). mstep Hrun.
  exists r, s2. split_and!; [done|by eapply same_rest_trans|]. right.
  exists n. split_and!; [lia|done|..|done|].
  - rewrite Hr2. apply ainv_frame; [done|]. eapply agree_weaken; [|exact Hag2].
    intros a [_ Ha]. destruct (decide (r <= a < r + n)); [|lia]. exfalso.
    apply Ha. eapply in_live_intro; [apply lookup_insert_eq|done].
  - eapply agree_trans; [exact Hag|]. eapply agree_weaken; [|exact Hag2].
    intros a Ha. destruct (stable_insert _ _ _ _ a HI' Hnone Ha). lia.
Qed.

(** [strchr] finds the first character equal to [c] (as a signed [char])
    before the NUL, and nothing else; in particular it never finds the NUL. *)
Theorem strchr_finds_first fuel p c s st
    (Hs : cstr (k_mem st) p s) (Hp : 0 < p) (Hf : (length s < fuel)%nat) :
  exists r, strchr fuel p c st = Ok (r, st) /\
    ((r = 0 /\ Forall (fun b => s8 b <> c) s) \/
     (exists i b, r = p + Z.of_nat i /\ s !! i = Some b /\ s8 b = c /\
        Forall (fun b => s8 b <> c) (take i s))).
Proof.
  eexists. split.
  { unfold strchr. rewrite (proj2 (Z.eqb_neq p 0)) by lia. by apply strchr_loop_run. }
  destruct (list_find (fun b => s8 b = c) s) as [[i b]|] eqn:Hfind.
  - right. apply list_find_Some in Hfind as (Hi & Hb & Hmin). exists i, b.
    split_and!; try done. apply Forall_lookup_2. intros j x Hj.
    apply lookup_take_Some in Hj as [Hj Hlt]. by eapply Hmin.
  - left. split; [done|]. by apply list_find_None in Hfind.
Qed.

(** ** Witnesses *)

(** Two strings, a delimiter and a pointer to the first string. *)
Definition sample_mem : mem :=
  store32 (store_bytes (store_bytes (store_bytes ∅ 0x1000 [104; 111; 108; 97; 0])
    0x2000 [104; 111; 108; 105; 0]) 0x3000 [108; 0]) 0x4000 0x1000.
Definition sample_state : kst := set_mem sample_mem boot_state.

Ltac cstr_vm := split; [vm_compute; reflexivity|unfold chars; repeat constructor].

Lemma sample1 : cstr sample_mem 0x1000 [104; 111; 108; 97].
Proof. cstr_vm. Qed.
Lemma sample2 : cstr sample_mem 0x2000 [104; 111; 108; 105].
Proof. cstr_vm. Qed.
Lemma sample3 : cstr sample_mem 0x3000 [108].
Proof. cstr_vm. Qed.

Lemma strcmp_orders_witness :
  exists r, strcmp 10 0x1000 0x2000 sample_state = Ok (r, sample_state).
Proof.
  destruct (strcmp_orders 10 0x1000 0x2000 _ _ sample_state sample1 sample2
    ltac:(cbn; lia)) as (r & H & _). by exists r.
Defined.

Lemma strncmp_compares_one_more_witness :
  strncmp 0x1000 0x2000 3 sample_state = Ok (-8, sample_state).
Proof.
  apply (strncmp_compares_one_more 0x1000 0x2000 _ _ 3 sample_state sample1 sample2);
    done.
Defined.

Lemma strcpy_copies_non_empty_witness :
  exists st', strcpy 10 0x5000 0x1000 sample_state = Ok (0x5000, st') /\
    cstr (k_mem st') 0x5000 [104; 111; 108; 97].
Proof.
  destruct (strcpy_copies_non_empty 10 0x5000 0x1000 _ sample_state sample1
    ltac:(cbn; lia) ltac:(done) ltac:(cbn; lia)) as (st' & H & _ & _ & Hc & _).
  exists st'. split; [exact H|]. by apply Hc.
Defined.

Lemma strncpy_pads_one_too_many_witness :
  exists st', strncpy 0x5000 0x1000 8 sample_state = Ok (0x5000, st') /\
    load_bytes (k_mem st') 0x5000 9 = [104; 111; 108; 97; 0; 0; 0; 0; 0].
Proof.
  destruct (strncpy_pads_one_too_many 0x5000 0x1000 _ 8 sample_state sample1
    ltac:(done) ltac:(cbn; lia) ltac:(done)) as (st' & H & _ & Hb & _).
  exists st'. split; [exact H|exact Hb].
Defined.

Lemma strcat_appends_witness :
  exists st', strcat 10 0x1000 0x2000 sample_state = Ok (0x1000, st') /\
    cstr (k_mem st') 0x1000 [104; 111; 108; 97; 104; 111; 108; 105].
Proof.
  destruct (strcat_appends 10 0x1000 0x2000 _ _ sample_state sample1 sample2
    ltac:(done) ltac:(done) ltac:(cbn; lia) ltac:(cbn; lia) ltac:(cbn; lia))
    as (st' & H & _ & Hc & _).
  exists st'. split; [exact H|exact Hc].
Defined.

Lemma strsep_splits_witness :
  exists st', strsep 10 0x4000 0x3000 sample_state = Ok (0x1000, st') /\
    cstr (k_mem st') 0x1000 [104; 111] /\
    cstr (k_mem st') (load32 (k_mem st') 0x4000) [97].
Proof.
  destruct (strsep_splits 10 0x4000 0x3000 _ _ 0x1000 sample_state ltac:(done)
    ltac:(done) ltac:(done) sample1 sample3 ltac:(cbn; lia) ltac:(done) ltac:(cbn; lia))
    as (st' & H & _ & Ht & Hr & _).
  exists st'. split; [exact H|split; [exact Ht|exact Hr]].
Defined.

Lemma strchr_finds_first_witness :
  exists r, strchr 10 0x1000 111 sample_state = Ok (r, sample_state).
Proof.
  destruct (strchr_finds_first 10 0x1000 111 _ sample_state sample1 ltac:(lia)
    ltac:(cbn; lia)) as (r & H & _). by exists r.
Defined.

(** On the heap of Heap.v, a string outside of it. *)
Lemma strdup_copies_witness :
  exists st st' r, strdup (A := Heap.Interface.heap_allocator 0x200000 0x300000)
    10 0x1000 st = Ok (r, st').
Proof.
  destruct (Heap.Interface.heap_ok_init 0x200000 sample_state ltac:(lia) ltac:(done))
    as (st & Hrun & Hok).
  assert (cstr (k_mem st) 0x1000 [104; 111; 108; 97]) as Hs.
  { injection Hrun as <-. cstr_vm. }
  destruct (strdup_copies (A := Heap.Interface.heap_allocator 0x200000 0x300000)
    10 0x1000 _ st _ Hok Hs ltac:(done)) as (r & st' & H & _).
  - intros i Hi. right. cbn in *. unfold Heap.Impl.heap_size. lia.
  - cbn. lia.
  - done.
  - exists st, st', r. exact H.
Defined.
