(* ===== verification/DList.v ===== *)
(** * The doubly linked lists (kernel/stdkern/list.c, kernel/sys/list.h)

    [Module Impl] is list.c over the byte memory, with the nodes obtained from
    an [Allocator]; [Module Rep] relates a list object to the sequence of its
    nodes; the theorems say what each operation does to that sequence. *)
From S2P Require Import Prelude Mem Alloc.
From S2P Require Heap.

(** ** The C code *)
Module Impl.

(** [struct listnode] and [struct list]. *)
Definition n_data : Z := 0.
Definition n_prev : Z := 4.
Definition n_next : Z := 8.
Definition sizeof_listnode : Z := 12.
Definition l_head : Z := 0.
Definition l_tail : Z := 4.
Definition l_count : Z := 8.
Definition sizeof_list : Z := 12.

Definition chain (car cdr : Z) : M kst unit :=
  _ ← mwhen (negb (car =? 0)) (st32 (car + n_next) cdr);
  mwhen (negb (cdr =? 0)) (st32 (cdr + n_prev) car).

Section ops.
Context `{A : Allocator}.

Definition listnode_alloc (ptr : Z) : M kst Z :=
  node ← malloc sizeof_listnode;
  if negb (node =? 0) then
    _ ← st32 (node + n_prev) 0;
    _ ← st32 (node + n_next) 0;
    _ ← st32 (node + n_data) ptr;
    mret node
  else mret node.

Definition listnode_free (node : Z) : M kst Z :=
  ptr ← ld32 (node + n_data);
  _ ← st32 (node + n_prev) 0;
  _ ← st32 (node + n_next) 0;
  _ ← st32 (node + n_data) 0;
  _ ← free node;
  mret ptr.

Definition list_alloc : M kst Z :=
  list ← malloc sizeof_list;
  if negb (list =? 0) then
    _ ← st32 (list + l_count) 0;
    _ ← st32 (list + l_head) 0;
    _ ← st32 (list + l_tail) 0;
    mret list
  else mret list.

Definition list_count (list : Z) : M kst Z := ld32 (list + l_count).

(** [list->count++], [list->count--] *)
Definition count_add (list d : Z) : M kst unit :=
  count ← ld32 (list + l_count);
  st32 (list + l_count) (count +w d).

Definition list_append (list ptr : Z) : M kst Z :=
  node ← listnode_alloc ptr;
  if negb (node =? 0) then
    tail ← ld32 (list + l_tail);
    _ ← chain tail node;
    _ ← st32 (list + l_tail) node;
    head ← ld32 (list + l_head);
    _ ← mwhen (head =? 0) (st32 (list + l_head) node);
    _ ← count_add list 1;
    mret node
  else mret node.

Definition list_prepend (list ptr : Z) : M kst Z :=
  node ← listnode_alloc ptr;
  if negb (node =? 0) then
    head ← ld32 (list + l_head);
    _ ← chain node head;
    _ ← st32 (list + l_head) node;
    tail ← ld32 (list + l_tail);
    _ ← mwhen (tail =? 0) (st32 (list + l_tail) node);
    _ ← count_add list 1;
    mret node
  else mret node.

(** [while (n--) cur = cur->next;] *)
Fixpoint walk (n : nat) (cur : Z) : M kst Z :=
  match n with
  | O => mret cur
  | S n' =>
      next ← ld32 (cur + n_next);
      walk n' next
  end.

Definition list_insert (list ptr before : Z) : M kst Z :=
  cur ← ld32 (list + l_head);
  if before =? 0 then list_prepend list ptr else
  count ← ld32 (list + l_count);
  if count <=? before then list_append list ptr else
  cur ← walk (Z.to_nat before) cur;
  newnode ← listnode_alloc ptr;
  if negb (newnode =? 0) then
    prevnode ← ld32 (cur + n_prev);
    _ ← chain prevnode newnode;
    _ ← chain newnode cur;
    _ ← count_add list 1;
    mret newnode
  else mret newnode.

Definition list_first (list : Z) : M kst Z :=
  head ← ld32 (list + l_head);
  if negb (head =? 0) then ld32 (head + n_data) else mret 0.

Definition list_last (list : Z) : M kst Z :=
  tail ← ld32 (list + l_tail);
  if negb (tail =? 0) then ld32 (tail + n_data) else mret 0.

Definition list_at (list idx : Z) : M kst Z :=
  cur ← ld32 (list + l_head);
  count ← ld32 (list + l_count);
  if count <=? idx then mret 0 else
  cur ← walk (Z.to_nat idx) cur;
  ld32 (cur + n_data).

Fixpoint list_index_loop (fuel : nat) (cur ptr i : Z) : M kst Z :=
  match fuel with
  | O => fail Diverges
  | S fuel' =>
      if cur =? 0 then mret (u32 (-1)) else
      data ← ld32 (cur + n_data);
      if data =? ptr then mret i else
      next ← ld32 (cur + n_next);
      list_index_loop fuel' next ptr (i +w 1)
  end.
Definition list_index (fuel : nat) (list ptr : Z) : M kst Z :=
  cur ← ld32 (list + l_head);
  list_index_loop fuel cur ptr 0.

(** [while (cur) { listnode_free(cur); cur = cur->next; }] *)
Fixpoint list_empty_loop (fuel : nat) (cur : Z) : M kst unit :=
  match fuel with
  | O => fail Diverges
  | S fuel' =>
      if cur =? 0 then mret tt else
      _ ← listnode_free cur;
      next ← ld32 (cur + n_next);
      list_empty_loop fuel' next
  end.
Definition list_empty (fuel : nat) (list : Z) : M kst unit :=
  cur ← ld32 (list + l_head);
  count ← ld32 (list + l_count);
  if negb (count =? 0) then
    _ ← list_empty_loop fuel cur;
    _ ← st32 (list + l_head) 0;
    _ ← st32 (list + l_tail) 0;
    st32 (list + l_count) 0
  else mret tt.

(** [list_unchain] up to the call of [listnode_free]. *)
Definition unlink (list node : Z) : M kst unit :=
  prev ← ld32 (node + n_prev);
  next ← ld32 (node + n_next);
  _ ← (if negb (prev =? 0) then st32 (prev + n_next) next
       else (next' ← ld32 (node + n_next); st32 (list + l_head) next'));
  _ ← (if negb (next =? 0) then st32 (next + n_prev) prev
       else (prev' ← ld32 (node + n_prev); st32 (list + l_tail) prev'));
  count_add list (-1).
Definition list_unchain (list node : Z) : M kst Z :=
  _ ← unlink list node;
  listnode_free node.

(** [while (at--)] of [list_remove]: the node, or NULL past the end. *)
Fixpoint remove_walk (n : nat) (cur : Z) : M kst Z :=
  match n with
  | O => mret cur
  | S n' =>
      next ← ld32 (cur + n_next);
      if next =? 0 then mret 0 else remove_walk n' next
  end.
Definition list_remove (list at_ : Z) : M kst Z :=
  head ← ld32 (list + l_head);
  count ← ld32 (list + l_count);
  if (head =? 0) || (count <=? at_) then mret 0 else
  cur ← remove_walk (Z.to_nat at_) head;
  if cur =? 0 then mret 0 else list_unchain list cur.

Fixpoint list_delete_loop (fuel : nat) (list cur ptr : Z) : M kst Z :=
  match fuel with
  | O => fail Diverges
  | S fuel' =>
      if cur =? 0 then mret 0 else
      data ← ld32 (cur + n_data);
      if data =? ptr then list_unchain list cur else
      next ← ld32 (cur + n_next);
      list_delete_loop fuel' list next ptr
  end.
Definition list_delete (fuel : nat) (list ptr : Z) : M kst Z :=
  cur ← ld32 (list + l_head);
  list_delete_loop fuel list cur ptr.

Definition list_pop_head (list : Z) : M kst Z :=
  head ← ld32 (list + l_head);
  if negb (head =? 0) then list_unchain list head else mret 0.

Definition list_pop_tail (list : Z) : M kst Z :=
  tail ← ld32 (list + l_tail);
  if negb (tail =? 0) then list_unchain list tail else mret 0.

Definition list_free (fuel : nat) (list : Z) : M kst unit :=
  _ ← list_empty fuel list;
  free list.

End ops.
End Impl.

(** ** The representation *)
Module Rep.
Import Impl.

(** A node: its address and the pointer it carries. *)
Abbreviation node := (Z * Z)%type.

Definition hd_addr (ns : list node) (nx : Z) : Z :=
  match ns with [] => nx | (a, _) :: _ => a end.
Definition last_addr (pv : Z) (ns : list node) : Z :=
  match last ns with None => pv | Some (a, _) => a end.

(** The nodes [ns] are chained in memory, between [pv] and [nx]. *)
Fixpoint dlseg (m : mem) (pv : Z) (ns : list node) (nx : Z) : Prop :=
  match ns with
  | [] => True
  | (a, d) :: ns' =>
      load32 m (a + n_data) = d /\ load32 m (a + n_prev) = pv /\
      load32 m (a + n_next) = hd_addr ns' nx /\ dlseg m a ns' nx
  end.

(** The half of the list before a node, and the half behind it. *)
Definition front (m : mem) (l : Z) (xs : list node) (nx : Z) : Prop :=
  load32 m (l + l_head) = hd_addr xs nx /\ dlseg m 0 xs nx.
Definition back (m : mem) (l : Z) (pv : Z) (ys : list node) : Prop :=
  load32 m (l + l_tail) = last_addr pv ys /\ dlseg m pv ys 0.

Definition is_list (m : mem) (l : Z) (ns : list node) : Prop :=
  front m l ns 0 /\ load32 m (l + l_tail) = last_addr 0 ns /\
  load32 m (l + l_count) = u32 (Z.of_nat (length ns)).

(** Two 12-byte objects do not overlap. *)
Definition apart (a b : Z) : Prop := a + 12 <= b \/ b + 12 <= a.
Definition outside (l : Z) (ns : list node) (x : Z) : Prop :=
  Forall (fun a => x < a \/ a + 12 <= x) (l :: ns.*1).

(** Every object of the list is a live buffer of its own. *)
Definition owned (L : bufs) (l : Z) (ns : list node) : Prop :=
  NoDup (l :: ns.*1) /\ Forall (fun a => exists k, L !! a = Some k /\ 12 <= k) (l :: ns.*1).

Definition list_ok `{A : Allocator} (s : kst) (L : bufs) (l : Z) (ns : list node) : Prop :=
  ainv s L /\ owned L l ns /\ is_list (k_mem s) l ns.

(** Returning the buffer is harmless whatever the clients' bytes are. *)
Definition robust `{A : Allocator} (s : kst) (L : bufs) (p : Z) : Prop :=
  forall m', agree (fun a => arena a /\ ~ in_live L a) (k_mem s) m' ->
  free_safe (set_mem m' s) p.

Ltac offs := unfold n_data, n_prev, n_next, l_head, l_tail, l_count, apart in *.

(** Membership in the cells of a list given in parts. *)
Ltac cell_in :=
  rewrite ?fmap_app, ?fmap_cons; cbn [fst]; rewrite ?elem_of_cons, ?elem_of_app;
  rewrite ?elem_of_cons; tauto.

Lemma last_addr_snoc pv xs a d : last_addr pv (xs ++ [(a, d)]) = a.
Proof. unfold last_addr. by rewrite last_snoc. Qed.
Lemma last_addr_cons pv a d ys : last_addr pv ((a, d) :: ys) = last_addr a ys.
Proof. unfold last_addr. rewrite last_cons. by destruct (last ys). Qed.
Lemma hd_addr_app xs ys nx : hd_addr (xs ++ ys) nx = hd_addr xs (hd_addr ys nx).
Proof. by destruct xs as [|[??]?]. Qed.
Lemma last_addr_app pv xs ys : last_addr pv (xs ++ ys) = last_addr (last_addr pv xs) ys.
Proof.
  unfold last_addr. rewrite last_app. by destruct (last ys) as [[??]|].
Qed.

Lemma dlseg_app m pv xs ys nx :
  dlseg m pv (xs ++ ys) nx <->
  dlseg m pv xs (hd_addr ys nx) /\ dlseg m (last_addr pv xs) ys nx.
Proof.
  revert pv. induction xs as [|[a d] xs IH]; intros pv; cbn [app dlseg].
  - unfold last_addr. cbn. tauto.
  - rewrite IH, hd_addr_app, last_addr_cons. tauto.
Qed.

Lemma is_list_split m l xs ys :
  is_list m l (xs ++ ys) <->
  front m l xs (hd_addr ys 0) /\ back m l (last_addr 0 xs) ys /\
  load32 m (l + l_count) = u32 (Z.of_nat (length (xs ++ ys))).
Proof.
  unfold is_list, front, back. rewrite hd_addr_app, last_addr_app, dlseg_app. tauto.
Qed.

Lemma dlseg_agree m m' pv ns nx :
  dlseg m pv ns nx ->
  (forall a x, a ∈ ns.*1 -> a <= x < a + 12 -> load8 m x = load8 m' x) ->
  dlseg m' pv ns nx.
Proof.
  revert pv. induction ns as [|[a d] ns IH]; intros pv; cbn; [done|].
  intros (H1 & H2 & H3 & H4) Hag. offs.
  rewrite <- (load32_ext m m' (a + 0)), <- (load32_ext m m' (a + 4)),
    <- (load32_ext m m' (a + 8)).
  2-4: intros; apply (Hag a); [by left|lia].
  split_and!; try done. apply IH; [done|]. intros b x Hb. apply Hag. by right.
Qed.

Lemma dlseg_store32 m pv ns nx a v :
  dlseg m pv ns nx -> (forall b, b ∈ ns.*1 -> a + 4 <= b \/ b + 12 <= a) ->
  dlseg (store32 m a v) pv ns nx.
Proof.
  intros H Hd. eapply dlseg_agree; [exact H|]. intros b x Hb Hx.
  rewrite load8_store32_ne; [done|]. specialize (Hd b Hb). lia.
Qed.

Lemma front_store32 m l xs nx a v :
  front m l xs nx -> a + 4 <= l \/ l + 4 <= a ->
  (forall b, b ∈ xs.*1 -> a + 4 <= b \/ b + 12 <= a) -> front (store32 m a v) l xs nx.
Proof.
  intros [H1 H2] Ha Hd. split; [|by apply dlseg_store32]. offs. by mem_simp.
Qed.

Lemma back_store32 m l pv ys a v :
  back m l pv ys -> a + 4 <= l + 4 \/ l + 8 <= a ->
  (forall b, b ∈ ys.*1 -> a + 4 <= b \/ b + 12 <= a) -> back (store32 m a v) l pv ys.
Proof.
  intros [H1 H2] Ha Hd. split; [|by apply dlseg_store32]. offs. by mem_simp.
Qed.

(** The word that points forward from [xs], and the one that points back from
    [ys]. *)
Definition next_word (l : Z) (xs : list node) : Z :=
  match last xs with Some (p, _) => p + n_next | None => l + l_head end.
Definition prev_word (l : Z) (ys : list node) : Z :=
  match ys with (q, _) :: _ => q + n_prev | [] => l + l_tail end.

(** The objects [zs] do not overlap. *)
Definition separate (zs : list Z) : Prop :=
  NoDup zs /\ forall a b, a ∈ zs -> b ∈ zs -> a <> b -> apart a b.

Lemma separate_app zs ws :
  separate (zs ++ ws) ->
  separate zs /\ separate ws /\ forall a b, a ∈ zs -> b ∈ ws -> apart a b.
Proof.
  intros [(H1 & H2 & H3)%NoDup_app Ha]. split_and!; [split|split|]; try done.
  - intros a b Ha' Hb'. apply Ha; apply elem_of_app; by left.
  - intros a b Ha' Hb'. apply Ha; apply elem_of_app; by right.
  - intros a b Ha' Hb'. apply Ha; [apply elem_of_app; by left|apply elem_of_app; by right|].
    intros ->. by apply (H2 b).
Qed.

Lemma separate_cons z zs :
  separate (z :: zs) -> separate zs /\ forall b, b ∈ zs -> apart z b.
Proof.
  intros H. apply (separate_app [z] zs) in H as (_ & ? & H). split; [done|].
  intros b. apply H. by left.
Qed.

Lemma separate_perm zs ws : zs ≡ₚ ws -> separate zs -> separate ws.
Proof.
  intros HP [Hn H]. split; [by rewrite <- HP|]. intros a b. rewrite <- HP. apply H.
Qed.

Lemma front_set_next m l xs nx v :
  front m l xs nx -> separate (l :: xs.*1) -> 0 <= v < W32 ->
  front (store32 m (next_word l xs) v) l xs v.
Proof.
  intros [Hh Hs] Hsep Hv. unfold next_word.
  destruct xs as [|[p d] xs _] using rev_ind.
  { cbn. split; [|done]. cbn. mem_simp. by apply u32_small. }
  rewrite last_snoc. rewrite fmap_app in Hsep. apply separate_cons in Hsep as [Hsep Hl].
  apply separate_app in Hsep as (_ & _ & Hp).
  assert (apart l p) as Hlp by (apply Hl, elem_of_app; right; by left).
  apply dlseg_app in Hs as [Hxs (H1 & H2 & H3 & _)]. cbn in Hxs.
  split.
  - rewrite hd_addr_app in *. offs. mem_simp. by rewrite Hh.
  - apply dlseg_app. split.
    + cbn. apply dlseg_store32; [done|]. intros b Hb.
      pose proof (Hp b p Hb ltac:(by left)). offs. lia.
    + cbn. offs. mem_simp. split_and!; try done. by apply u32_small.
Qed.

Lemma back_set_prev m l pv ys v :
  back m l pv ys -> separate (l :: ys.*1) -> 0 <= v < W32 ->
  back (store32 m (prev_word l ys) v) l v ys.
Proof.
  intros [Ht Hs] Hsep Hv. unfold prev_word. destruct ys as [|[q d] ys].
  { cbn. split; [|done]. unfold last_addr. cbn. mem_simp. by apply u32_small. }
  apply separate_cons in Hsep as [Hsep Hl]. cbn in Hsep, Hl.
  apply separate_cons in Hsep as [Hsep Hq].
  pose proof (Hl q ltac:(by left)) as Hlq. destruct Hs as (H1 & H2 & H3 & H4).
  split.
  - rewrite last_addr_cons in *. offs. mem_simp. done.
  - cbn. split_and!; [| | |apply dlseg_store32; [done|]].
    1-3: offs; mem_simp; try done. by apply u32_small.
    intros b Hb. specialize (Hq b Hb). offs. lia.
Qed.

(** The word that [next_word] names is the last node's or the head field. *)
Lemma next_word_apart l xs b :
  apart l b -> (forall a, a ∈ xs.*1 -> apart a b) ->
  next_word l xs + 4 <= b \/ b + 12 <= next_word l xs.
Proof.
  intros Hl Hx. unfold next_word. destruct (last xs) as [[p d]|] eqn:Hp; [|offs; lia].
  assert (p ∈ xs.*1) as Hin.
  { apply last_Some_elem_of in Hp. apply list_elem_of_fmap. by exists (p, d). }
  specialize (Hx p Hin). offs. lia.
Qed.

Lemma prev_word_apart l ys b :
  apart l b -> (forall a, a ∈ ys.*1 -> apart a b) ->
  prev_word l ys + 4 <= b \/ b + 12 <= prev_word l ys.
Proof.
  intros Hl Hy. unfold prev_word. destruct ys as [|[q d] ys]; [offs; lia|].
  specialize (Hy q ltac:(by left)). offs. lia.
Qed.

End Rep.

(** ** What the operations do *)
Module Ops.
Import Impl Rep.
Section ops.
Context `{A : Allocator}.

(** [frame] pushes [front] and [back] under stores elsewhere. *)
Ltac use_apart b Hb :=
  repeat match goal with
    | H : forall x, x ∈ ?X -> _, Hb : b ∈ ?X |- _ =>
        let T := type of (H b Hb) in
        lazymatch goal with
        | _ : T |- _ => fail
        | _ => pose proof (H b Hb)
        end
    end.
Ltac frame_side :=
  let b := fresh "b" in let Hb := fresh "Hb" in
  intros b Hb; use_apart b Hb; offs; lia.
Ltac frame :=
  repeat (first [apply front_store32|apply back_store32]; [|offs; lia|frame_side]).

Lemma owned_separate s L l ns : ainv s L -> owned L l ns -> separate (l :: ns.*1).
Proof.
  intros HI [Hn HF]. split; [done|]. intros a b Ha Hb Hne.
  rewrite Forall_forall in HF.
  destruct (HF a Ha) as (k & Hk & ?), (HF b Hb) as (j & Hj & ?).
  pose proof (live_disjoint _ _ _ _ _ _ HI Hk Hj Hne). offs. lia.
Qed.

Lemma owned_pos s L l ns a :
  ainv s L -> owned L l ns -> a ∈ l :: ns.*1 -> 0 < a /\ a + 12 < W32.
Proof.
  intros HI [_ HF] Ha. rewrite Forall_forall in HF. destruct (HF a Ha) as (k & Hk & ?).
  pose proof (live_bounds _ _ _ _ HI Hk). lia.
Qed.

Lemma owned_in_live L l ns a x :
  owned L l ns -> a ∈ l :: ns.*1 -> a <= x < a + 12 -> in_live L x.
Proof.
  intros [_ HF] Ha Hx. rewrite Forall_forall in HF. destruct (HF a Ha) as (k & Hk & ?).
  eapply in_live_intro; [done|lia].
Qed.

Lemma is_list_stable L l ns m m' :
  owned L l ns -> agree (stable L) m m' -> is_list m l ns -> is_list m' l ns.
Proof.
  intros Ho Hag ((H1 & H2) & H3 & H4).
  assert (forall a x, a ∈ l :: ns.*1 -> a <= x < a + 12 -> load8 m x = load8 m' x) as Hc.
  { intros a x Ha Hx. apply Hag. left. by eapply owned_in_live. }
  offs. split_and!.
  - split; [|eapply dlseg_agree; [done|]; intros; apply (Hc a); [by right|done]].
    rewrite <- H1. symmetry. apply load32_ext. intros. apply (Hc l); [by left|offs; lia].
  - rewrite <- H3. symmetry. apply load32_ext. intros. apply (Hc l); [by left|offs; lia].
  - rewrite <- H4. symmetry. apply load32_ext. intros. apply (Hc l); [by left|offs; lia].
Qed.

(** Writes to a cell of the list keep the allocator sound, and the rest. *)
Lemma ainv_cell s L l ns a w v :
  ainv s L -> owned L l ns -> a ∈ l :: ns.*1 -> a <= w -> w + 4 <= a + 12 ->
  ainv (set_mem (store32 (k_mem s) w v) s) L.
Proof.
  intros HI [_ HF] Ha Hw Hw'. rewrite Forall_forall in HF.
  destruct (HF a Ha) as (k & Hk & ?). eapply ainv_store32; [done|done|lia|lia].
Qed.

Lemma agree_cell m l ns a w v :
  a ∈ l :: ns.*1 -> a <= w -> w + 4 <= a + 12 -> agree (outside l ns) m (store32 m w v).
Proof.
  intros Ha Hw Hw'. apply agree_store32. intros i Hi Ho.
  unfold outside in Ho. rewrite Forall_forall in Ho. specialize (Ho a Ha). lia.
Qed.

Lemma listnode_alloc_spec s L d :
  ainv s L -> 0 <= d < W32 ->
  exists r s', listnode_alloc d s = Ok (r, s') /\ same_rest s s' /\
    ((r = 0 /\ s' = s) \/
     (exists k, 12 <= k /\ L !! r = None /\ ainv s' (<[r := k]> L) /\
        load32 (k_mem s') (r + n_data) = d /\ load32 (k_mem s') (r + n_prev) = 0 /\
        load32 (k_mem s') (r + n_next) = 0 /\ agree (stable L) (k_mem s) (k_mem s'))).
Proof.
  intros HI Hd. unfold listnode_alloc, sizeof_listnode.
  destruct (malloc_spec s L 12 HI ltac:(lia)) as (r & s1 & Hm & Hr & Hcase).
  mstep Hm. destruct Hcase as [[-> ->]|(k & Hk & Hnone & HI1 & Hag)].
  { exists 0, s. split_and!; auto with mem. }
  destruct (live_bounds _ _ r k HI1 (lookup_insert_eq _ _ _)) as (Hr0 & _ & Hrk).
  rewrite (proj2 (Z.eqb_neq r 0)) by lia. cbn [negb]. krun.
  eexists _, _. split; [done|]. split; [by rewrite Hr|]. right. exists k.
  cbn [set_mem k_mem]. offs. split_and!; try done.
  - apply (ainv_frame s1); [done|]. intros x [_ Hx].
    rewrite !load8_store32_ne; [done|..];
      destruct (decide (r <= x < r + k));
      try (exfalso; apply Hx; eapply in_live_intro; [apply lookup_insert_eq|done]); lia.
  - mem_simp. apply u32_small. lia.
  - mem_simp. done.
  - mem_simp. done.
  - intros x Hx. rewrite (Hag x Hx).
    destruct (stable_insert _ _ _ _ _ HI1 Hnone Hx) as [_ Hx'].
    rewrite !load8_store32_ne; [done|lia..].
Qed.

(** *** Linking a new node in *)

Definition node_at (m : mem) (r d pv nx : Z) : Prop :=
  load32 m (r + n_data) = d /\ load32 m (r + n_prev) = pv /\ load32 m (r + n_next) = nx.

(** [m'] is [m] with the node [r] linked between [xs] and [ys]. *)
Definition linked_in (m m' : mem) (l : Z) (xs : list node) (r d : Z) (ys : list node) : Prop :=
  front m' l xs r /\ back m' l r ys /\
  node_at m' r d (last_addr 0 xs) (hd_addr ys 0) /\
  load32 m' (l + l_count) = load32 m (l + l_count) +w 1 /\
  agree (outside l (xs ++ (r, d) :: ys)) m m'.

Definition positive (zs : list Z) : Prop := Forall (fun a => 0 < a < W32) zs.

Lemma last_addr_in pv xs : last_addr pv xs = pv \/ last_addr pv xs ∈ xs.*1.
Proof.
  unfold last_addr. destruct (last xs) as [[p d]|] eqn:Hp; [right|by left].
  apply last_Some_elem_of in Hp. apply list_elem_of_fmap. by exists (p, d).
Qed.

Lemma cells_apart l (xs : list node) r d ys :
  separate (l :: (xs ++ (r, d) :: ys).*1) ->
  separate (l :: xs.*1) /\ separate (l :: ys.*1) /\ apart l r /\
  (forall b, b ∈ xs.*1 -> apart l b) /\ (forall b, b ∈ ys.*1 -> apart l b) /\
  (forall b, b ∈ xs.*1 -> apart r b) /\ (forall b, b ∈ ys.*1 -> apart r b) /\
  (forall a b, a ∈ xs.*1 -> b ∈ ys.*1 -> apart a b).
Proof.
  rewrite fmap_app, fmap_cons. cbn [fst]. intros H.
  assert (separate (l :: xs.*1 ++ ys.*1)) as Hxy.
  { apply (separate_perm _ (r :: l :: xs.*1 ++ ys.*1)) in H; [|solve_Permutation].
    by apply separate_cons in H as [H _]. }
  pose proof (separate_cons _ _ H) as [H' Hl].
  apply separate_app in H' as (Hx & Hry & Hcross).
  apply separate_cons in Hry as [Hy Hr].
  split_and!.
  - change (separate ((l :: xs.*1) ++ ys.*1)) in Hxy. by apply separate_app in Hxy as (? & _).
  - apply (separate_perm _ (xs.*1 ++ l :: ys.*1)) in Hxy; [|solve_Permutation].
    by apply separate_app in Hxy as (_ & ? & _).
  - apply Hl, elem_of_app. right. by left.
  - intros b Hb. apply Hl, elem_of_app. by left.
  - intros b Hb. apply Hl, elem_of_app. right. by right.
  - intros b Hb. pose proof (Hcross b r Hb ltac:(by left)). offs. lia.
  - done.
  - intros a b Ha Hb. apply Hcross; [done|by right].
Qed.

Definition append_link (list node : Z) : M kst Z :=
  tail ← ld32 (list + l_tail);
  _ ← chain tail node;
  _ ← st32 (list + l_tail) node;
  head ← ld32 (list + l_head);
  _ ← mwhen (head =? 0) (st32 (list + l_head) node);
  _ ← count_add list 1;
  mret node.


Lemma st32_when (b : bool) a v s :
  mwhen b (st32 a v) s = Ok (tt, set_mem (if b then store32 (k_mem s) a v else k_mem s) s).
Proof. destruct b; [done|]. cbn. by rewrite set_mem_id. Qed.

(** The memory after [chain]. *)
Definition chain_mem (m : mem) (car cdr : Z) : mem :=
  let m1 := if negb (car =? 0) then store32 m (car + n_next) cdr else m in
  if negb (cdr =? 0) then store32 m1 (cdr + n_prev) car else m1.

Lemma chain_run car cdr s :
  chain car cdr s = Ok (tt, set_mem (chain_mem (k_mem s) car cdr) s).
Proof.
  unfold chain. mstep (st32_when (negb (car =? 0)) (car + n_next) cdr s).
  by rewrite st32_when.
Qed.

Lemma count_add_run l d s :
  count_add l d s
  = Ok (tt, set_mem (store32 (k_mem s) (l + l_count)
       (load32 (k_mem s) (l + l_count) +w d)) s).
Proof. done. Qed.

Lemma chain_mem_both m car cdr :
  car <> 0 -> cdr <> 0 ->
  chain_mem m car cdr = store32 (store32 m (car + n_next) cdr) (cdr + n_prev) car.
Proof. intros. unfold chain_mem. by rewrite !(proj2 (Z.eqb_neq _ 0)). Qed.
Lemma chain_mem_right m cdr :
  cdr <> 0 -> chain_mem m 0 cdr = store32 m (cdr + n_prev) 0.
Proof. intros. unfold chain_mem. by rewrite !(proj2 (Z.eqb_neq cdr 0)). Qed.
Lemma chain_mem_left m car :
  car <> 0 -> chain_mem m car 0 = store32 m (car + n_next) 0.
Proof. intros. unfold chain_mem. by rewrite !(proj2 (Z.eqb_neq car 0)). Qed.


Lemma next_word_snoc l xs p dp : next_word l (xs ++ [(p, dp)]) = p + n_next.
Proof. unfold next_word. by rewrite last_snoc. Qed.

Lemma outside_cell l ns x a : outside l ns x -> a ∈ l :: ns.*1 -> x < a \/ a + 12 <= x.
Proof. unfold outside. rewrite Forall_forall. auto. Qed.

(** [front] and [back] after explicit stores: other words, then the word that
    moved. *)
Ltac front_tac :=
  frame; first
    [ eapply front_set_next; [frame; eassumption|assumption|lia]
    | split; [offs; mem_simp; rewrite ?u32_small by lia; done|done] ].
Ltac back_tac :=
  frame; first
    [ eapply back_set_prev; [frame; eassumption|assumption|lia]
    | split; [offs; unfold last_addr; cbn; mem_simp; rewrite ?u32_small by lia; done|done] ].
Ltac words_tac :=
  unfold node_at; offs; mem_simp; rewrite ?u32_idem; rewrite ?u32_small by lia; done.

Lemma hd_addr_pos ns nx : Forall (fun a => 0 < a < W32) ns.*1 -> ns <> [] -> hd_addr ns nx <> 0.
Proof. destruct ns as [|[a d] ns]; [done|]. cbn. intros H _. inversion H. cbn. lia. Qed.

Lemma append_link_run s l ns r d :
  is_list (k_mem s) l ns -> separate (l :: (ns ++ [(r, d)]).*1) ->
  positive ((ns ++ [(r, d)]).*1) -> node_at (k_mem s) r d 0 0 ->
  exists m', append_link l r s = Ok (r, set_mem m' s) /\ linked_in (k_mem s) m' l ns r d [].
Proof.
  intros (Hf & Ht & Hc) Hsep Hpos (N1 & N2 & N3).
  pose proof (cells_apart _ _ _ _ _ Hsep) as (Hsx & _ & Hlr & Hlx & _ & Hrx & _).
  unfold positive in Hpos. rewrite fmap_app, Forall_app in Hpos.
  destruct Hpos as [Hpx Hpr]. apply Forall_cons in Hpr as [Hr _]. cbn in Hr.
  unfold append_link.
  rewrite (bind_Ok _ _ s (last_addr 0 ns) s) by (krun; by rewrite Ht).
  mstep (chain_run (last_addr 0 ns) r s).
  destruct ns as [|[p dp] xs _] using rev_ind.
  - destruct Hf as [Hh _]. cbn in Hh, Ht. change (last_addr 0 []) with 0.
    rewrite chain_mem_right by lia. krun. offs. mem_simp. rewrite Hh. cbn [Z.eqb].
    rewrite ?set_mem_mem. eexists. split; [done|]. unfold linked_in. cbn [set_mem k_mem].
    split_and!.
    + front_tac.
    + back_tac.
    + unfold last_addr, hd_addr. cbn. words_tac.
    + words_tac.
    + intros x Hx. pose proof (outside_cell _ _ _ l Hx ltac:(cell_in)).
      pose proof (outside_cell _ _ _ r Hx ltac:(cell_in)). offs.
      rewrite !load8_store32_ne by lia. done.
  - rewrite last_addr_snoc in *. rewrite fmap_app, Forall_app in Hpx.
    pose proof (proj2 Hpx) as Hp. apply Forall_cons in Hp as [Hp _]. cbn in Hp.
    rewrite <- Forall_app, <- fmap_app in Hpx.
    assert (p ∈ (xs ++ [(p, dp)]).*1) as Hin by cell_in.
    pose proof (Hlx p Hin). pose proof (Hrx p Hin).
    rewrite chain_mem_both by lia. krun. 
    assert (load32 (k_mem s) (l + l_head) <> 0) as Hh.
    { destruct Hf as [-> _]. apply hd_addr_pos; [done|by destruct xs]. }
    offs. mem_simp. rewrite (proj2 (Z.eqb_neq _ 0)) by done.
    rewrite ?set_mem_mem. eexists. split; [done|]. unfold linked_in. cbn [set_mem k_mem].
    change (p + 8) with (p + n_next). rewrite <- (next_word_snoc l xs p dp).
    split_and!.
    + front_tac.
    + back_tac.
    + unfold hd_addr. rewrite last_addr_snoc. rewrite next_word_snoc. words_tac.
    + rewrite next_word_snoc. words_tac.
    + rewrite next_word_snoc. intros x Hx. pose proof (outside_cell _ _ _ l Hx ltac:(cell_in)).
      pose proof (outside_cell _ _ _ r Hx ltac:(cell_in)). 
      pose proof (outside_cell _ _ _ p Hx ltac:(cell_in)). offs.
      rewrite !load8_store32_ne by lia. done.
Qed.

Definition prepend_link (list node : Z) : M kst Z :=
  head ← ld32 (list + l_head);
  _ ← chain node head;
  _ ← st32 (list + l_head) node;
  tail ← ld32 (list + l_tail);
  _ ← mwhen (tail =? 0) (st32 (list + l_tail) node);
  _ ← count_add list 1;
  mret node.

Lemma last_addr_pos pv ns :
  Forall (fun a => 0 < a < W32) ns.*1 -> ns <> [] -> last_addr pv ns <> 0.
Proof.
  intros HF Hne. destruct ns as [|[a d] ns _] using rev_ind; [done|].
  rewrite last_addr_snoc. rewrite fmap_app, Forall_app in HF. destruct HF as [_ HF].
  inversion HF. cbn in *. lia.
Qed.

Lemma prepend_link_run s l ns r d :
  is_list (k_mem s) l ns -> separate (l :: ((r, d) :: ns).*1) ->
  positive (((r, d) :: ns).*1) -> node_at (k_mem s) r d 0 0 ->
  exists m', prepend_link l r s = Ok (r, set_mem m' s) /\ linked_in (k_mem s) m' l [] r d ns.
Proof.
  intros (Hf & Ht & Hc) Hsep Hpos (N1 & N2 & N3).
  pose proof (cells_apart _ [] _ _ _ Hsep) as (_ & Hsy & Hlr & _ & Hly & _ & Hry & _).
  unfold positive in Hpos. rewrite fmap_cons, Forall_cons in Hpos.
  destruct Hpos as [Hr Hpy]. cbn [fst] in Hr.
  unfold prepend_link. destruct Hf as [Hh Hs].
  rewrite (bind_Ok _ _ s (hd_addr ns 0) s) by (krun; by rewrite Hh).
  mstep (chain_run r (hd_addr ns 0) s).
  assert (back (k_mem s) l 0 ns) as Hb by by split.
  destruct ns as [|[q dq] ys].
  - change (last_addr 0 []) with 0 in Ht. cbn [hd_addr].
    rewrite chain_mem_left by lia. krun. offs. mem_simp. rewrite Ht. cbn [Z.eqb].
    rewrite ?set_mem_mem. eexists. split; [done|]. unfold linked_in. cbn [set_mem k_mem].
    split_and!.
    + front_tac.
    + back_tac.
    + unfold last_addr, hd_addr. cbn. words_tac.
    + words_tac.
    + intros x Hx. pose proof (outside_cell _ _ _ l Hx ltac:(cell_in)).
      pose proof (outside_cell _ _ _ r Hx ltac:(cell_in)). offs.
      rewrite !load8_store32_ne by lia. done.
  - cbn [hd_addr] in *. assert (q ∈ ((q, dq) :: ys).*1) as Hin by cell_in.
    pose proof (Hly q Hin). pose proof (Hry q Hin).
    pose proof (proj1 (Forall_forall _ _) Hpy q Hin) as Hq. cbn in Hq.
    pose proof (last_addr_pos 0 _ Hpy ltac:(done)) as Hl0.
    rewrite chain_mem_both by lia. krun. offs. mem_simp. rewrite Ht.
    rewrite (proj2 (Z.eqb_neq _ 0)) by done.
    rewrite ?set_mem_mem. eexists. split; [done|]. unfold linked_in. cbn [set_mem k_mem].
    change (q + 4) with (prev_word l ((q, dq) :: ys)).
    split_and!.
    + front_tac.
    + back_tac.
    + unfold last_addr, hd_addr. cbn. words_tac.
    + cbn [prev_word]. words_tac.
    + intros x Hx. pose proof (outside_cell _ _ _ l Hx ltac:(cell_in)).
      pose proof (outside_cell _ _ _ r Hx ltac:(cell_in)).
      pose proof (outside_cell _ _ _ q Hx ltac:(cell_in)). cbn [prev_word]. offs.
      rewrite !load8_store32_ne by lia. done.
Qed.

Definition mid_link (list cur node : Z) : M kst Z :=
  prevnode ← ld32 (cur + n_prev);
  _ ← chain prevnode node;
  _ ← chain node cur;
  _ ← count_add list 1;
  mret node.

Lemma mid_link_run s l xs r d q dq ys :
  is_list (k_mem s) l (xs ++ (q, dq) :: ys) -> xs <> [] ->
  separate (l :: (xs ++ (r, d) :: (q, dq) :: ys).*1) ->
  positive ((xs ++ (r, d) :: (q, dq) :: ys).*1) -> node_at (k_mem s) r d 0 0 ->
  exists m', mid_link l q r s = Ok (r, set_mem m' s) /\
    linked_in (k_mem s) m' l xs r d ((q, dq) :: ys).
Proof.
  intros Hlist Hne Hsep Hpos (N1 & N2 & N3).
  apply is_list_split in Hlist as (Hf & Hb & Hc).
  pose proof (cells_apart _ _ _ _ _ Hsep) as (Hsx & Hsy & Hlr & Hlx & Hly & Hrx & Hry & Hxy).
  destruct xs as [|[p dp] xs _] using rev_ind; [done|]. rewrite last_addr_snoc in *.
  assert (p ∈ (xs ++ [(p, dp)]).*1) as Hp by cell_in.
  assert (q ∈ ((q, dq) :: ys).*1) as Hq by cell_in.
  assert (forall b, b ∈ ((q, dq) :: ys).*1 -> apart p b) as Hpy by auto.
  assert (forall b, b ∈ (xs ++ [(p, dp)]).*1 -> apart q b) as Hqx.
  { intros b Hb'. pose proof (Hxy b q Hb' Hq). offs. lia. }
  pose proof (Hlx p Hp). pose proof (Hrx p Hp). pose proof (Hly q Hq).
  pose proof (Hry q Hq). pose proof (Hxy p q Hp Hq).
  unfold positive in Hpos. rewrite Forall_forall in Hpos.
  assert (0 < p < W32 /\ 0 < r < W32 /\ 0 < q < W32) as (Hp0 & Hr0 & Hq0)
    by (split_and!; apply Hpos; cell_in).
  assert (load32 (k_mem s) (q + n_prev) = p) as Hqp by (by destruct Hb as [_ (_ & ? & _)]).
  unfold mid_link. rewrite (bind_Ok _ _ s p s) by (krun; by rewrite Hqp).
  mstep (chain_run p r s). mstep (chain_run r q (set_mem (chain_mem (k_mem s) p r) s)).
  rewrite !chain_mem_both by lia. krun. rewrite ?set_mem_mem.
  eexists. split; [done|]. unfold linked_in. cbn [set_mem k_mem].
  rewrite last_addr_snoc. rewrite <- (next_word_snoc l xs p dp).
  change (q + n_prev) with (prev_word l ((q, dq) :: ys)).
  split_and!.
  - rewrite next_word_snoc. offs. change (p + 8) with (p + n_next).
    rewrite <- (next_word_snoc l xs p dp). cbn [prev_word]. front_tac.
  - rewrite next_word_snoc. back_tac.
  - rewrite next_word_snoc. cbn [prev_word hd_addr]. words_tac.
  - rewrite next_word_snoc. cbn [prev_word hd_addr]. words_tac.
  - rewrite next_word_snoc. cbn [prev_word]. intros x Hx.
    pose proof (outside_cell _ _ _ l Hx ltac:(cell_in)).
    pose proof (outside_cell _ _ _ r Hx ltac:(cell_in)).
    pose proof (outside_cell _ _ _ p Hx ltac:(cell_in)).
    pose proof (outside_cell _ _ _ q Hx ltac:(cell_in)). offs.
    rewrite !load8_store32_ne by lia. done.
Qed.

(** *** Taking a node out *)

(** The two stores of [unlink], whichever branch is taken. *)
Lemma unlink_next_run l xs a nx s :
  Forall (fun b => 0 < b < W32) xs.*1 -> load32 (k_mem s) (a + n_next) = nx ->
  (if negb (last_addr 0 xs =? 0) then st32 (last_addr 0 xs + n_next) nx
   else (next' ← ld32 (a + n_next); st32 (l + l_head) next')) s
  = Ok (tt, set_mem (store32 (k_mem s) (next_word l xs) nx) s).
Proof.
  intros Hpos Hnx. destruct xs as [|[p dp] xs _] using rev_ind.
  - cbn. krun. by rewrite Hnx.
  - pose proof (last_addr_pos 0 _ Hpos ltac:(by destruct xs)) as Hne.
    rewrite next_word_snoc, last_addr_snoc in *.
    by rewrite (proj2 (Z.eqb_neq p 0)).
Qed.

Lemma unlink_prev_run l ys a pv s :
  Forall (fun b => 0 < b < W32) ys.*1 -> load32 (k_mem s) (a + n_prev) = pv ->
  (if negb (hd_addr ys 0 =? 0) then st32 (hd_addr ys 0 + n_prev) pv
   else (prev' ← ld32 (a + n_prev); st32 (l + l_tail) prev')) s
  = Ok (tt, set_mem (store32 (k_mem s) (prev_word l ys) pv) s).
Proof.
  intros Hpos Hpv. destruct ys as [|[q dq] ys].
  - cbn. krun. by rewrite Hpv.
  - pose proof (hd_addr_pos _ 0 Hpos ltac:(done)) as Hne. cbn [hd_addr prev_word] in *.
    by rewrite (proj2 (Z.eqb_neq q 0)).
Qed.

Lemma next_word_outside l xs ns i :
  0 <= i < 4 -> (forall b, b ∈ xs.*1 -> b ∈ ns.*1) -> ~ outside l ns (next_word l xs + i).
Proof.
  intros Hi Hin Ho. unfold next_word in Ho. destruct (last xs) as [[p d]|] eqn:Hp.
  - assert (p ∈ xs.*1) as Hpx.
    { apply last_Some_elem_of in Hp. apply list_elem_of_fmap. by exists (p, d). }
    pose proof (outside_cell _ _ _ p Ho ltac:(right; auto)). offs. lia.
  - pose proof (outside_cell _ _ _ l Ho ltac:(by left)). offs. lia.
Qed.

Lemma prev_word_outside l ys ns i :
  0 <= i < 4 -> (forall b, b ∈ ys.*1 -> b ∈ ns.*1) -> ~ outside l ns (prev_word l ys + i).
Proof.
  intros Hi Hin Ho. unfold prev_word in Ho. destruct ys as [|[q d] ys].
  - pose proof (outside_cell _ _ _ l Ho ltac:(by left)). offs. lia.
  - pose proof (outside_cell _ _ _ q Ho ltac:(right; apply Hin; by left)). offs. lia.
Qed.

Lemma next_word_field l xs :
  (forall b, b ∈ xs.*1 -> apart l b) ->
  next_word l xs = l + l_head \/ next_word l xs + 4 <= l \/ l + 12 <= next_word l xs.
Proof.
  intros H. unfold next_word. destruct (last xs) as [[p d]|] eqn:Hp; [right|by left].
  apply last_Some_elem_of in Hp. pose proof (H p ltac:(apply list_elem_of_fmap; by exists (p, d))).
  offs. lia.
Qed.

Lemma prev_word_field l ys :
  (forall b, b ∈ ys.*1 -> apart l b) ->
  prev_word l ys = l + l_tail \/ prev_word l ys + 4 <= l \/ l + 12 <= prev_word l ys.
Proof.
  intros H. unfold prev_word. destruct ys as [|[q d] ys]; [by left|right].
  pose proof (H q ltac:(by left)). offs. lia.
Qed.

Lemma hd_addr_range ys :
  Forall (fun b => 0 < b < W32) ys.*1 -> 0 <= hd_addr ys 0 < W32.
Proof. destruct ys as [|[q d] ys]; cbn; [lia|]. inversion 1. cbn in *. lia. Qed.

Lemma last_addr_range xs :
  Forall (fun b => 0 < b < W32) xs.*1 -> 0 <= last_addr 0 xs < W32.
Proof.
  intros HF. destruct (last_addr_in 0 xs) as [->|Hin]; [lia|].
  rewrite Forall_forall in HF. specialize (HF _ Hin). cbn in HF. lia.
Qed.

Lemma unlink_run s l xs a d ys :
  is_list (k_mem s) l (xs ++ (a, d) :: ys) ->
  separate (l :: (xs ++ (a, d) :: ys).*1) -> positive ((xs ++ (a, d) :: ys).*1) ->
  exists m', unlink l a s = Ok (tt, set_mem m' s) /\
    is_list m' l (xs ++ ys) /\ load32 m' (a + n_data) = d /\
    agree (outside l (xs ++ (a, d) :: ys)) (k_mem s) m'.
Proof.
  intros Hlist Hsep Hpos.
  pose proof (cells_apart _ _ _ _ _ Hsep) as (Hsx & Hsy & Hla & Hlx & Hly & Hax & Hay & Hxy).
  unfold positive in Hpos. rewrite fmap_app, fmap_cons, Forall_app, Forall_cons in Hpos.
  destruct Hpos as (Hpx & Ha0 & Hpy). cbn [fst] in Ha0.
  apply is_list_split in Hlist as (Hf & Hb & Hc). cbn [hd_addr] in Hf.
  destruct Hb as (Ht & Hd & Hpv & Hnx & Hsy').
  rewrite last_addr_cons in Ht.
  assert (back (k_mem s) l a ys) as Hb by by split.
  assert (next_word l xs + 4 <= a \/ a + 12 <= next_word l xs) as Hnw.
  { apply next_word_apart; [done|]. intros b Hb'. specialize (Hax b Hb'). offs. lia. }
  assert (prev_word l ys + 4 <= a \/ a + 12 <= prev_word l ys) as Hpw.
  { apply prev_word_apart; [done|]. intros b Hb'. specialize (Hay b Hb'). offs. lia. }
  unfold unlink.
  rewrite (bind_Ok _ _ s (last_addr 0 xs) s) by (krun; by rewrite Hpv).
  rewrite (bind_Ok _ _ s (hd_addr ys 0) s) by (krun; by rewrite Hnx).
  mstep (unlink_next_run l xs a (hd_addr ys 0) s Hpx Hnx).
  set (s1 := set_mem (store32 (k_mem s) (next_word l xs) (hd_addr ys 0)) s).
  assert (load32 (k_mem s1) (a + n_prev) = last_addr 0 xs) as Hpv1.
  { cbn. offs. mem_simp. done. }
  mstep (unlink_prev_run l ys a (last_addr 0 xs) s1 Hpy Hpv1).
  rewrite count_add_run. cbn [s1 set_mem k_mem]. rewrite ?set_mem_mem.
  pose proof (next_word_field l xs Hlx) as Hnl. pose proof (prev_word_field l ys Hly) as Hpl.
  assert (forall b, b ∈ xs.*1 -> prev_word l ys + 4 <= b \/ b + 12 <= prev_word l ys) as Hpwx
    by (intros b Hb'; apply prev_word_apart; [auto|];
        intros c Hc'; pose proof (Hxy b c Hb' Hc'); offs; lia).
  assert (forall b, b ∈ ys.*1 -> next_word l xs + 4 <= b \/ b + 12 <= next_word l xs) as Hnwy
    by (intros b Hb'; apply next_word_apart; auto).
  pose proof (hd_addr_range ys Hpy). pose proof (last_addr_range xs Hpx).
  eexists. split; [done|]. split_and!.
  - apply is_list_split. split_and!.
    + front_tac.
    + back_tac.
    + offs. mem_simp. rewrite Hc, !length_app. cbn [length]. unfold u32.
      rewrite Z.mod_mod, Z.add_mod_idemp_l by lia. f_equal. lia.
  - offs. mem_simp. done.
  - eapply agree_trans; [|apply (agree_cell _ _ _ l); [by left|offs; lia..]].
    eapply agree_trans; [|apply agree_store32; intros i Hi; apply prev_word_outside; [done|]].
    + apply agree_store32. intros i Hi. apply next_word_outside; [done|]. intros b Hb'. cell_in.
    + intros b Hb'. cell_in.
Qed.

(** *** The operations on list objects *)

(** The outcome of an insertion of [d] between [xs] and [ys]: NULL, nothing
    changed, or a fresh node there; other live buffers keep their bytes. *)
Definition inserted (s s' : kst) (L : bufs) (l : Z) (xs ys : list node) (d r : Z) : Prop :=
  same_rest s s' /\
  ((r = 0 /\ s' = s) \/
   (exists k, 12 <= k /\ L !! r = None /\
      list_ok s' (<[r := k]> L) l (xs ++ (r, d) :: ys) /\
      agree (fun x => stable L x /\ outside l (xs ++ ys) x) (k_mem s) (k_mem s'))).

Lemma owned_insert L l xs ys r d k :
  owned L l (xs ++ ys) -> L !! r = None -> 12 <= k ->
  owned (<[r := k]> L) l (xs ++ (r, d) :: ys).
Proof.
  intros [Hn HF] Hr Hk.
  assert (l :: (xs ++ (r, d) :: ys).*1 ≡ₚ r :: l :: (xs ++ ys).*1) as HP
    by (rewrite !fmap_app, fmap_cons; cbn [fst]; solve_Permutation).
  split.
  - rewrite HP. apply NoDup_cons. split; [|done]. intros Hin.
    rewrite Forall_forall in HF. destruct (HF r Hin) as (j & Hj & _). congruence.
  - rewrite HP. apply Forall_cons. split; [exists k; by rewrite lookup_insert_eq|].
    eapply Forall_impl; [exact HF|]. intros a (j & Hj & ?). exists j.
    rewrite lookup_insert_ne by congruence. done.
Qed.

Lemma owned_positive s L l ns : ainv s L -> owned L l ns -> positive ns.*1.
Proof.
  intros HI Ho. apply Forall_forall. intros a Ha.
  destruct (owned_pos s L l ns a HI Ho ltac:(by right)). cbn. lia.
Qed.

(** Stores into the cells of an owned list. *)
Lemma ainv_outside s L l ns m' :
  ainv s L -> owned L l ns -> agree (outside l ns) (k_mem s) m' -> ainv (set_mem m' s) L.
Proof.
  intros HI Ho Hag. apply ainv_frame; [done|]. eapply agree_weaken; [|exact Hag].
  intros x [_ Hx]. apply Forall_forall. intros a Ha. cbn.
  destruct (decide (a <= x < a + 12)); [|lia]. exfalso. apply Hx.
  by eapply owned_in_live.
Qed.

Lemma link_finish s L l xs ys d (body : Z -> M kst Z) :
  list_ok s L l (xs ++ ys) -> 0 <= d < W32 ->
  (forall s1 r, is_list (k_mem s1) l (xs ++ ys) ->
     separate (l :: (xs ++ (r, d) :: ys).*1) -> positive ((xs ++ (r, d) :: ys).*1) ->
     node_at (k_mem s1) r d 0 0 ->
     exists m', body r s1 = Ok (r, set_mem m' s1) /\ linked_in (k_mem s1) m' l xs r d ys) ->
  exists r s', (node ← listnode_alloc d;
                if negb (node =? 0) then body node else mret node) s = Ok (r, s') /\
    inserted s s' L l xs ys d r.
Proof.
  intros (HI & Ho & Hlist) Hd Hbody.
  destruct (listnode_alloc_spec s L d HI Hd) as (r & s1 & Hrun & Hr & Hcase). mstep Hrun.
  destruct Hcase as [[-> ->]|(k & Hk & Hnone & HI1 & N1 & N2 & N3 & Hag)].
  { exists 0, s. split; [done|]. split; [done|by left]. }
  pose proof (owned_insert L l xs ys r d k Ho Hnone Hk) as Ho1.
  pose proof (owned_positive _ _ _ _ HI1 Ho1) as Hpos.
  assert (0 < r < W32) as Hr0.
  { apply (proj1 (Forall_forall _ _) Hpos r). cell_in. }
  pose proof (is_list_stable _ _ _ _ _ Ho Hag Hlist) as Hlist1.
  destruct (Hbody s1 r Hlist1) as (m' & Hb & Hf & Hbk & (M1 & M2 & M3) & Hc & Hag').
  { by eapply owned_separate. } { done. } { by split. }
  rewrite (proj2 (Z.eqb_neq r 0)) by lia. cbn [negb].
  exists r, (set_mem m' s1). split; [exact Hb|]. split; [by eapply same_rest_trans|].
  right. exists k. split_and!; [done|done|split_and!|].
  - by eapply ainv_outside.
  - done.
  - cbn [set_mem k_mem]. apply is_list_split. cbn [hd_addr].
    destruct Hbk as [Hbt Hbs]. split_and!; [done| |].
    + split; [by rewrite last_addr_cons|]. cbn. done.
    + rewrite Hc. destruct Hlist1 as (_ & _ & ->). rewrite !length_app. cbn [length].
      unfold u32. rewrite Z.add_mod_idemp_l by lia. f_equal. lia.
  - intros x [Hx Hout]. rewrite (Hag x Hx). apply Hag'.
    destruct (stable_insert _ _ _ _ _ HI1 Hnone Hx) as [_ Hx'].
    unfold outside in *. rewrite Forall_forall in *. intros a Ha.
    destruct (decide (a = r)) as [->|Hne]; [lia|]. apply Hout. revert Ha.
    rewrite !fmap_app, fmap_cons. cbn [fst].
    rewrite !elem_of_cons, !elem_of_app, elem_of_cons. tauto.
Qed.

Lemma list_append_spec s L l ns d :
  list_ok s L l ns -> 0 <= d < W32 ->
  exists r s', list_append l d s = Ok (r, s') /\ inserted s s' L l ns [] d r.
Proof.
  intros Hok Hd. apply (link_finish s L l ns [] d (append_link l)); [by rewrite app_nil_r|done|].
  intros s1 r. rewrite app_nil_r. apply append_link_run.
Qed.

Lemma list_prepend_spec s L l ns d :
  list_ok s L l ns -> 0 <= d < W32 ->
  exists r s', list_prepend l d s = Ok (r, s') /\ inserted s s' L l [] ns d r.
Proof.
  intros Hok Hd. apply (link_finish s L l [] ns d (prepend_link l)); [done..|].
  intros s1 r. apply prepend_link_run.
Qed.

Lemma walk_run s pv xs ys :
  dlseg (k_mem s) pv (xs ++ ys) 0 ->
  walk (length xs) (hd_addr (xs ++ ys) 0) s = Ok (hd_addr ys 0, s).
Proof.
  revert pv. induction xs as [|[a d] xs IH]; intros pv; cbn [app length walk hd_addr]; [done|].
  intros (_ & _ & Hn & Hs). krun. rewrite Hn. by eapply IH.
Qed.

Lemma list_insert_spec s L l ns d before :
  list_ok s L l ns -> 0 <= d < W32 -> 0 <= before -> Z.of_nat (length ns) < W32 ->
  let i := Z.to_nat before in
  exists r s', list_insert l d before s = Ok (r, s') /\
    inserted s s' L l (take i ns) (drop i ns) d r.
Proof.
  intros Hok Hd Hb Hlen i.
  pose proof Hok as (HI & Ho & (Hh & Hs) & Ht & Hc). unfold list_insert.
  rewrite (bind_Ok _ _ s (hd_addr ns 0) s) by (krun; by rewrite Hh).
  destruct (Z.eqb_spec before 0) as [->|Hne].
  { subst i. apply list_prepend_spec; done. }
  rewrite u32_small in Hc by lia.
  rewrite (bind_Ok _ _ s (Z.of_nat (length ns)) s) by (krun; by rewrite Hc).
  destruct (Z.leb_spec (Z.of_nat (length ns)) before).
  { rewrite take_ge, drop_ge by lia. by apply list_append_spec. }
  pose proof (take_drop i ns) as Htd. rewrite <- Htd in Hs, Hok.
  assert (length (take i ns) = i) as Hli by (rewrite length_take; lia).
  pose proof (walk_run s 0 (take i ns) (drop i ns) Hs) as Hw. rewrite Hli, Htd in Hw.
  fold i. mstep Hw.
  destruct (drop i ns) as [|[q dq] ys] eqn:Hdrop.
  { apply (f_equal length) in Hdrop. rewrite length_drop in Hdrop. cbn in Hdrop. lia. }
  cbn [hd_addr].
  apply (link_finish s L l (take i ns) ((q, dq) :: ys) d (mid_link l q)); [done..|].
  intros s1 r Hl1. apply mid_link_run; [done|]. intros Hnil. rewrite Hnil in Hli.
  cbn in Hli. lia.
Qed.

(** *** Removal *)

Lemma robust_frame s L p m' :
  robust s L p -> agree (fun a => arena a /\ ~ in_live L a) (k_mem s) m' ->
  robust (set_mem m' s) L p.
Proof. intros H Hag m'' Hag''. apply H. eapply agree_trans; [exact Hag|exact Hag'']. Qed.

Lemma robust_safe s L p : robust s L p -> free_safe s p.
Proof. intros H. rewrite <- (set_mem_id s). by apply H. Qed.

Lemma outside_not_live L l ns m m' :
  owned L l ns -> agree (outside l ns) m m' -> agree (fun a => arena a /\ ~ in_live L a) m m'.
Proof.
  intros Ho. apply agree_weaken. intros x [_ Hx]. apply Forall_forall. intros a Ha. cbn.
  destruct (decide (a <= x < a + 12)); [|lia]. exfalso. apply Hx. by eapply owned_in_live.
Qed.

Lemma listnode_free_spec s L a k :
  ainv s L -> L !! a = Some k -> 12 <= k -> robust s L a ->
  exists s', listnode_free a s = Ok (load32 (k_mem s) (a + n_data), s') /\
    same_rest s s' /\ ainv s' (delete a L) /\ load32 (k_mem s') (a + n_next) = 0 /\
    agree (fun x => stable L x /\ (x < a \/ a + 12 <= x)) (k_mem s) (k_mem s').
Proof.
  intros HI Ha Hk Hrob. unfold listnode_free.
  set (m1 := store32 (store32 (store32 (k_mem s) (a + n_prev) 0) (a + n_next) 0) (a + n_data) 0).
  assert (agree (fun x => x < a \/ a + 12 <= x) (k_mem s) m1) as Hag1.
  { intros x Hx. subst m1. offs. rewrite !load8_store32_ne by lia. done. }
  assert (agree (fun x => arena x /\ ~ in_live L x) (k_mem s) m1) as Hag2.
  { eapply agree_weaken; [|exact Hag1]. intros x [_ Hx].
    destruct (decide (a <= x < a + 12)); [|lia]. exfalso. apply Hx.
    eapply in_live_intro; [done|lia]. }
  destruct (free_spec (set_mem m1 s) L a k) as (s' & Hrun & Hr & HI' & Hag').
  { by apply ainv_frame. } { done. } { apply (robust_safe _ L). by apply robust_frame. }
  exists s'. split_and!; [|done|done|..].
  - krun. rewrite ?set_mem_mem. fold m1. by rewrite Hrun.
  - rewrite <- (load32_agree _ _ _ _ Hag'); [subst m1; cbn; offs; mem_simp; done|].
    intros i Hi. left. eapply in_live_intro; [done|offs; lia].
  - intros x [Hx Hout]. rewrite (Hag1 x Hout). by apply Hag'.
Qed.

Lemma owned_delete L l xs a d ys :
  owned L l (xs ++ (a, d) :: ys) -> owned (delete a L) l (xs ++ ys).
Proof.
  intros [Hn HF].
  assert (l :: (xs ++ (a, d) :: ys).*1 ≡ₚ a :: l :: (xs ++ ys).*1) as HP
    by (rewrite !fmap_app, fmap_cons; cbn [fst]; solve_Permutation).
  rewrite HP in Hn, HF. apply NoDup_cons in Hn as [Ha Hn]. apply Forall_cons in HF as [_ HF].
  split; [done|]. rewrite Forall_forall in HF |- *. intros b Hb.
  destruct (HF b Hb) as (k & Hk & ?). exists k. rewrite lookup_delete_ne; [done|].
  by intros ->.
Qed.

(** What removing the node [a] between [xs] and [ys] leaves. *)
Definition removed (s s' : kst) (L : bufs) (l : Z) (xs : list node) (a d : Z) (ys : list node) : Prop :=
  same_rest s s' /\ list_ok s' (delete a L) l (xs ++ ys) /\
  agree (fun x => stable L x /\ outside l (xs ++ (a, d) :: ys) x) (k_mem s) (k_mem s').

Lemma list_unchain_spec s L l xs a d ys :
  list_ok s L l (xs ++ (a, d) :: ys) -> robust s L a ->
  exists s', list_unchain l a s = Ok (d, s') /\ removed s s' L l xs a d ys.
Proof.
  intros (HI & Ho & Hlist) Hrob.
  destruct (unlink_run s l xs a d ys Hlist) as (m1 & Hrun & Hlist1 & Hd & Hag1).
  { by eapply owned_separate. } { by eapply owned_positive. }
  assert (exists k, L !! a = Some k /\ 12 <= k) as (k & Hk & Hk12).
  { destruct Ho as [_ HF]. rewrite Forall_forall in HF. apply HF. right. cell_in. }
  destruct (listnode_free_spec (set_mem m1 s) L a k) as (s' & Hfree & Hr & HI' & _ & Hag2).
  { by eapply ainv_outside. } { done. } { done. }
  { apply robust_frame; [done|]. by eapply outside_not_live. }
  unfold list_unchain. mstep Hrun. exists s'. split.
  { rewrite Hfree. cbn [set_mem k_mem]. by rewrite Hd. }
  pose proof (owned_separate _ _ _ _ HI Ho) as Hsep.
  pose proof (cells_apart _ _ _ _ _ Hsep) as (_ & _ & Hla & _ & _ & Hax & Hay & _).
  split; [exact (same_rest_trans _ _ _ (same_rest_set_mem s m1) Hr)|].
  split; [split; [done|split; [by eapply owned_delete|]]|].
  - pose proof (owned_delete _ _ _ _ _ _ Ho) as Ho'.
    eapply (is_list_stable (delete a L)); [done| |exact Hlist1].
    intros x Hx. destruct (stable_delete _ _ _ _ _ HI Hk Hx). apply Hag2.
    split; [done|lia].
  - intros x [Hx Hout]. rewrite (Hag1 x Hout). apply Hag2. split; [done|].
    exact (outside_cell _ _ _ a Hout ltac:(cell_in)).
Qed.

Lemma hd_addr_split xs a d ys nx : hd_addr (xs ++ (a, d) :: ys) nx = hd_addr xs a.
Proof. by rewrite hd_addr_app. Qed.

Lemma remove_walk_run s pv xs ys nx :
  dlseg (k_mem s) pv (xs ++ ys) nx -> Forall (fun b => 0 < b < W32) (xs ++ ys).*1 -> ys <> [] ->
  remove_walk (length xs) (hd_addr (xs ++ ys) nx) s = Ok (hd_addr ys nx, s).
Proof.
  intros Hs HF Hne. revert pv Hs HF.
  induction xs as [|[a d] xs IH]; intros pv; cbn [app length remove_walk hd_addr]; [done|].
  intros (_ & _ & Hn & Hs) HF. rewrite fmap_cons in HF. apply Forall_cons in HF as [_ HF].
  krun. rewrite Hn. rewrite (proj2 (Z.eqb_neq _ 0)); [by eapply IH|].
  apply hd_addr_pos; [done|]. by destruct xs.
Qed.

Lemma list_delete_loop_run fuel s l ptr xs a d ys :
  forall pv, dlseg (k_mem s) pv (xs ++ (a, d) :: ys) 0 ->
  Forall (fun b => 0 < b < W32) (xs ++ (a, d) :: ys).*1 ->
  Forall (fun n => n.2 <> ptr) xs -> (length xs < fuel)%nat -> d = ptr ->
  list_delete_loop fuel l (hd_addr (xs ++ (a, d) :: ys) 0) ptr s = list_unchain l a s.
Proof.
  revert fuel. induction xs as [|[b e] xs IH]; intros fuel pv Hs HF Hno Hf Hd;
    (destruct fuel as [|fuel]; [cbn in Hf; lia|]); cbn [app hd_addr list_delete_loop] in *;
    rewrite fmap_cons in HF; apply Forall_cons in HF as [Hb HF]; cbn [fst] in Hb;
    destruct Hs as (Hdat & _ & Hn & Hs);
    rewrite (proj2 (Z.eqb_neq _ 0)) by lia; krun; rewrite Hdat.
  - by rewrite (proj2 (Z.eqb_eq _ _)).
  - apply Forall_cons in Hno as [He Hno]. cbn [snd] in He.
    rewrite (proj2 (Z.eqb_neq _ _)) by done. rewrite Hn.
    eapply IH; [done..|cbn in Hf; lia|done].
Qed.

Lemma list_delete_loop_miss fuel s l ptr ns :
  forall pv, dlseg (k_mem s) pv ns 0 -> Forall (fun b => 0 < b < W32) ns.*1 ->
  Forall (fun n => n.2 <> ptr) ns -> (length ns < fuel)%nat ->
  list_delete_loop fuel l (hd_addr ns 0) ptr s = Ok (0, s).
Proof.
  revert fuel. induction ns as [|[b e] ns IH]; intros fuel pv Hs HF Hno Hf;
    (destruct fuel as [|fuel]; [cbn in Hf; lia|]); cbn [hd_addr list_delete_loop]; [done|].
  rewrite fmap_cons in HF. apply Forall_cons in HF as [Hb HF]. cbn [fst] in Hb.
  destruct Hs as (Hdat & _ & Hn & Hs). apply Forall_cons in Hno as [He Hno]. cbn [snd] in He.
  rewrite (proj2 (Z.eqb_neq _ 0)) by lia. krun. rewrite Hdat.
  rewrite (proj2 (Z.eqb_neq _ _)) by done. rewrite Hn. eapply IH; [done..|cbn in Hf; lia].
Qed.

Lemma list_index_loop_run fuel s ptr ns :
  forall pv i, dlseg (k_mem s) pv ns 0 -> Forall (fun b => 0 < b < W32) ns.*1 ->
  (length ns < fuel)%nat -> 0 <= i -> i + Z.of_nat (length ns) < W32 ->
  list_index_loop fuel (hd_addr ns 0) ptr i s
  = Ok (match list_find (fun n => n.2 = ptr) ns with
        | Some (j, _) => i + Z.of_nat j
        | None => u32 (-1)
        end, s).
Proof.
  revert fuel. induction ns as [|[b e] ns IH]; intros fuel pv i Hs HF Hf Hi Hlen;
    (destruct fuel as [|fuel]; [cbn in Hf; lia|]); cbn [hd_addr list_index_loop]; [done|].
  rewrite fmap_cons in HF. apply Forall_cons in HF as [Hb HF]. cbn [fst] in Hb.
  destruct Hs as (Hdat & _ & Hn & Hs). cbn [length] in *.
  rewrite (proj2 (Z.eqb_neq b 0)) by lia. krun. rewrite Hdat. cbn [list_find snd].
  destruct (Z.eqb_spec e ptr) as [->|Hne].
  - rewrite decide_True by done. do 2 f_equal. lia.
  - rewrite decide_False by done. rewrite Hn, u32_small by lia.
    rewrite (IH _ _ _ Hs HF) by lia.
    destruct (list_find _ ns) as [[j n]|]; [|done]. cbn. do 2 f_equal. lia.
Qed.

(** [list_empty] frees the first node only: [listnode_free] has cleared the
    [next] the loop reads. *)
Lemma list_empty_spec fuel s L l a d ns :
  list_ok s L l ((a, d) :: ns) -> robust s L a -> Z.of_nat (length ((a, d) :: ns)) < W32 ->
  (2 <= fuel)%nat ->
  exists s', list_empty fuel l s = Ok (tt, s') /\ same_rest s s' /\ list_ok s' (delete a L) l [].
Proof.
  intros (HI & Ho & ((Hh & Hs) & Ht & Hc)) Hrob Hlen Hf.
  pose proof (owned_positive _ _ _ _ HI Ho) as Hpos.
  assert (exists k, L !! a = Some k /\ 12 <= k) as (k & Hk & Hk12).
  { destruct Ho as [_ HF]. rewrite Forall_forall in HF. apply HF. right. cell_in. }
  assert (0 < a < W32) as Ha by (apply (proj1 (Forall_forall _ _) Hpos a); cell_in).
  destruct (listnode_free_spec s L a k HI Hk Hk12 Hrob) as (s1 & Hfree & Hr & HI1 & Hz & Hag).
  destruct fuel as [|[|fuel]]; [lia..|]. unfold list_empty.
  rewrite (bind_Ok _ _ s a s) by (krun; by rewrite Hh).
  rewrite (bind_Ok _ _ s (Z.of_nat (length ((a, d) :: ns))) s)
    by (krun; by rewrite Hc, u32_small by lia).
  rewrite (proj2 (Z.eqb_neq _ 0)) by (cbn [length]; lia). cbn [negb].
  assert (list_empty_loop (S (S fuel)) a s = Ok (tt, s1)) as Hloop.
  { cbn [list_empty_loop]. rewrite (proj2 (Z.eqb_neq _ 0)) by lia.
    mstep Hfree. krun. rewrite Hz. done. }
  mstep Hloop. krun. rewrite ?set_mem_mem. eexists. split; [done|].
  split; [exact (same_rest_trans _ _ _ Hr (same_rest_set_mem s1 _))|].
  assert (owned (delete a L) l []) as Ho'.
  { pose proof (owned_delete _ _ [] _ _ _ Ho) as [Hn HF]. split.
    - apply NoDup_singleton.
    - apply Forall_singleton. by apply Forall_cons in HF as [? _]. }
  split; [|split; [done|]].
  - eapply ainv_outside; [done|exact Ho'|]. intros x Hx.
    pose proof (outside_cell _ _ _ l Hx ltac:(by left)). offs.
    rewrite !load8_store32_ne by lia. done.
  - unfold is_list, front. cbn. offs. mem_simp. done.
Qed.

End ops.
End Ops.

(** ** On the heap of Heap.v *)
Module OnHeap.
Import Impl Rep Ops.
Import Heap.Spec Heap.Chain Heap.Interface Heap.Links.

(** With an exact link to the previous block, a buffer is returned safely. *)
Lemma heap_robust lo hi s l b r :
  heap_inv lo hi s (l ++ b :: r) -> b_prev b = pred lo 0 l ->
  robust (A := heap_allocator lo hi) s (live lo (l ++ b :: r)) (lo + span l + HDR).
Proof.
  intros Hinv Hp m' Hag. eapply free_safe_linked; [|exact Hp].
  by eapply heap_inv_frame.
Qed.

(** A list of three pointers on a fresh heap at 2 MiB. *)
Definition demo_run : M kst Z :=
  _ ← Heap.Impl.heap_init 0x200000;
  list ← list_alloc (A := heap_allocator 0x200000 0x300000);
  _ ← list_append (A := heap_allocator 0x200000 0x300000) list 11;
  _ ← list_append (A := heap_allocator 0x200000 0x300000) list 22;
  _ ← list_append (A := heap_allocator 0x200000 0x300000) list 33;
  mret list.
Definition demo_state : kst :=
  match demo_run boot_state with Ok (_, s) => s | Err _ => boot_state end.
Definition demo_blocks : list blk :=
  [Blk 12 true 0; Blk 12 true 0x200000; Blk 12 true 0x200020; Blk 12 true 0x200040;
   Blk (0x100000 - 148) false 0x200060].
Definition demo_nodes : list node := [(0x200034, 11); (0x200054, 22); (0x200074, 33)].

Lemma demo_inv : heap_inv 0x200000 0x300000 demo_state demo_blocks.
Proof. repeat split; try (vm_compute; (reflexivity || discriminate)). Qed.

Lemma demo_list :
  list_ok (A := heap_allocator 0x200000 0x300000) demo_state
    (live 0x200000 demo_blocks) 0x200014 demo_nodes.
Proof.
  split; [exists demo_blocks; split; [exact demo_inv|done]|split; [split|]].
  - decided.
  - repeat constructor; eexists; (split; [vm_compute; reflexivity|lia]).
  - repeat split; vm_compute; reflexivity.
Qed.

Lemma demo_robust : 
  robust (A := heap_allocator 0x200000 0x300000) demo_state
    (live 0x200000 demo_blocks) 0x200054 /\
  robust (A := heap_allocator 0x200000 0x300000) demo_state
    (live 0x200000 demo_blocks) 0x200034.
Proof.
  split.
  - exact (heap_robust 0x200000 0x300000 demo_state (take 2 demo_blocks)
      (Blk 12 true 0x200020) (drop 3 demo_blocks) demo_inv eq_refl).
  - exact (heap_robust 0x200000 0x300000 demo_state (take 1 demo_blocks)
      (Blk 12 true 0x200000) (drop 2 demo_blocks) demo_inv eq_refl).
Qed.

End OnHeap.

Import Heap.Spec Heap.Interface Impl Rep Ops OnHeap.

Lemma list_delete_spec `{A : Allocator} fuel s L l ns ptr
    (Hok : list_ok s L l ns) (Hf : (length ns < fuel)%nat)
    (Hrob : forall a, (a, ptr) ∈ ns -> robust s L a) :
  match list_find (fun n => n.2 = ptr) ns with
  | Some (i, (a, d)) =>
      exists s', list_delete fuel l ptr s = Ok (ptr, s') /\
        removed s s' L l (take i ns) a ptr (drop (S i) ns)
  | None => list_delete fuel l ptr s = Ok (0, s)
  end.
Proof.
  pose proof Hok as (HI & Ho & (Hh & Hs) & Ht & Hc).
  pose proof (owned_positive _ _ _ _ HI Ho) as Hpos. unfold list_delete.
  destruct (list_find _ ns) as [[i [a d]]|] eqn:Hfind.
  - apply list_find_Some in Hfind as (Hlook & Hd & Hmin). cbn in Hd. subst d.
    pose proof (take_drop_middle _ _ _ Hlook) as Hns.
    rewrite (bind_Ok _ _ s (hd_addr ns 0) s) by (krun; by rewrite Hh).
    replace (hd_addr ns 0) with (hd_addr (take i ns ++ (a, ptr) :: drop (S i) ns) 0)
      by (by rewrite Hns).
    rewrite <- Hns in Hs, Hpos.
    pose proof (lookup_lt_Some _ _ _ Hlook).
    rewrite (list_delete_loop_run fuel s l ptr _ a ptr _ 0 Hs Hpos);
      [|apply Forall_lookup_2; intros j n Hj; apply lookup_take_Some in Hj as [Hj ?];
        by eapply Hmin|rewrite length_take; lia|done].
    apply list_unchain_spec; [by rewrite Hns|].
    apply Hrob. by eapply list_elem_of_lookup_2.
  - apply list_find_None in Hfind.
    rewrite (bind_Ok _ _ s (hd_addr ns 0) s) by (krun; by rewrite Hh).
    by eapply list_delete_loop_miss.
Qed.

(** ** Properties *)

(** C23: [list_insert] puts a fresh node at position [min before count] (the
    front for 0, the end when the position is past it), or returns NULL with
    nothing changed when the allocator has no room; the other nodes keep their
    order and data, and no other live buffer changes. *)
Theorem list_insert_places `{A : Allocator} s L l ns d before
    (Hok : list_ok s L l ns) (Hd : 0 <= d < W32) (Hb : 0 <= before)
    (Hlen : Z.of_nat (length ns) < W32) :
  let i := Z.to_nat before in
  exists r s', list_insert l d before s = Ok (r, s') /\
    inserted s s' L l (take i ns) (drop i ns) d r.
Proof. by apply list_insert_spec. Qed.

Lemma list_insert_places_witness :
  exists r s', list_insert (A := heap_allocator 0x200000 0x300000) 0x200014 44 1 demo_state
    = Ok (r, s') /\
    inserted (A := heap_allocator 0x200000 0x300000) demo_state s' (live 0x200000 demo_blocks)
      0x200014 [(0x200034, 11)] [(0x200054, 22); (0x200074, 33)] 44 r.
Proof.
  exact (list_insert_places (A := heap_allocator 0x200000 0x300000) demo_state _ 0x200014
    demo_nodes 44 1 demo_list ltac:(lia) ltac:(lia) ltac:(done)).
Defined.

(** C24: [list_remove] takes out the node at a position within the list,
    returns its data and gives its buffer back; past the end it returns NULL
    and changes nothing. *)
Theorem list_remove_takes_out `{A : Allocator} s L l ns i
    (Hok : list_ok s L l ns) (Hi : 0 <= i) (Hlen : Z.of_nat (length ns) < W32)
    (Hrob : forall a d, ns !! Z.to_nat i = Some (a, d) -> robust s L a) :
  match ns !! Z.to_nat i with
  | Some (a, d) =>
      exists s', list_remove l i s = Ok (d, s') /\
        removed s s' L l (take (Z.to_nat i) ns) a d (drop (S (Z.to_nat i)) ns)
  | None => list_remove l i s = Ok (0, s)
  end.
Proof.
  pose proof Hok as (HI & Ho & (Hh & Hs) & Ht & Hc).
  pose proof (owned_positive _ _ _ _ HI Ho) as Hpos.
  unfold list_remove. rewrite u32_small in Hc by lia.
  rewrite (bind_Ok _ _ s (hd_addr ns 0) s) by (krun; by rewrite Hh).
  rewrite (bind_Ok _ _ s (Z.of_nat (length ns)) s) by (krun; by rewrite Hc).
  destruct (ns !! Z.to_nat i) as [[a d]|] eqn:Hlook.
  - pose proof (lookup_lt_Some _ _ _ Hlook). pose proof (take_drop_middle _ _ _ Hlook) as Hns.
    rewrite (proj2 (Z.eqb_neq _ 0)) by (apply hd_addr_pos; [done|by destruct ns]).
    rewrite (proj2 (Z.leb_gt _ _)) by lia. cbn [orb].
    assert (length (take (Z.to_nat i) ns) = Z.to_nat i) as Hl by (rewrite length_take; lia).
    rewrite <- Hns in Hs, Hpos.
    pose proof (remove_walk_run s 0 _ _ 0 Hs Hpos ltac:(done)) as Hw.
    rewrite Hl, Hns in Hw. mstep Hw. cbn [hd_addr].
    assert (0 < a < W32) as Ha by (apply (proj1 (Forall_forall _ _) Hpos a); cell_in).
    rewrite (proj2 (Z.eqb_neq a 0)) by lia.
    apply list_unchain_spec; [by rewrite Hns|by eapply Hrob].
  - apply lookup_ge_None in Hlook. rewrite (proj2 (Z.leb_le _ _)) by lia.
    by rewrite orb_true_r.
Qed.

Lemma list_remove_takes_out_witness :
  exists s', list_remove (A := heap_allocator 0x200000 0x300000) 0x200014 1 demo_state
    = Ok (22, s').
Proof.
  destruct (list_remove_takes_out (A := heap_allocator 0x200000 0x300000) demo_state _ 0x200014
    demo_nodes 1 demo_list ltac:(lia) ltac:(done)) as (s' & H & _).
  - intros a d [= <- _]. apply demo_robust.
  - exists s'. exact H.
Defined.

(** [list_delete] takes out the first node that carries the pointer and
    returns the pointer; if there is none it returns NULL and changes nothing. *)
Theorem list_delete_first_match `{A : Allocator} fuel s L l ns ptr
    (Hok : list_ok s L l ns) (Hf : (length ns < fuel)%nat)
    (Hrob : forall a, (a, ptr) ∈ ns -> robust s L a) :
  match list_find (fun n => n.2 = ptr) ns with
  | Some (i, (a, d)) =>
      exists s', list_delete fuel l ptr s = Ok (ptr, s') /\
        removed s s' L l (take i ns) a ptr (drop (S i) ns)
  | None => list_delete fuel l ptr s = Ok (0, s)
  end.
Proof. by apply list_delete_spec. Qed.

Lemma list_delete_first_match_witness :
  exists s', list_delete (A := heap_allocator 0x200000 0x300000) 10 0x200014 22 demo_state
    = Ok (22, s').
Proof.
  destruct (list_delete_first_match (A := heap_allocator 0x200000 0x300000) 10 demo_state _
    0x200014 demo_nodes 22 demo_list ltac:(cbn; lia)) as (s' & H & _).
  - intros a Ha. unfold demo_nodes in Ha.
    repeat (apply elem_of_cons in Ha as [[=]|Ha]); subst; try apply demo_robust.
    by apply not_elem_of_nil in Ha.
  - exists s'. exact H.
Defined.

(** [list_at] and [list_index] read the list: the data at a position (NULL
    past the end), and the first position of a pointer (all ones if absent). *)
Theorem list_at_and_index `{A : Allocator} fuel s L l ns i ptr
    (Hok : list_ok s L l ns) (Hi : 0 <= i) (Hf : (length ns < fuel)%nat)
    (Hlen : Z.of_nat (length ns) < W32) :
  list_at l i s = Ok (from_option snd 0 (ns !! Z.to_nat i), s) /\
  list_index fuel l ptr s
  = Ok (match list_find (fun n => n.2 = ptr) ns with
        | Some (j, _) => Z.of_nat j
        | None => W32 - 1
        end, s).
Proof.
  pose proof Hok as (HI & Ho & (Hh & Hs) & Ht & Hc).
  pose proof (owned_positive _ _ _ _ HI Ho) as Hpos. rewrite u32_small in Hc by lia. split.
  - unfold list_at. rewrite (bind_Ok _ _ s (hd_addr ns 0) s) by (krun; by rewrite Hh).
    rewrite (bind_Ok _ _ s (Z.of_nat (length ns)) s) by (krun; by rewrite Hc).
    destruct (ns !! Z.to_nat i) as [[a d]|] eqn:Hlook.
    + pose proof (lookup_lt_Some _ _ _ Hlook). rewrite (proj2 (Z.leb_gt _ _)) by lia.
      pose proof (take_drop_middle _ _ _ Hlook) as Hns. rewrite <- Hns in Hs.
      pose proof (walk_run s 0 _ _ Hs) as Hw. rewrite length_take, Nat.min_l, Hns in Hw by lia.
      mstep Hw. cbn [hd_addr]. apply dlseg_app in Hs as [_ (Hd & _)]. krun. by rewrite Hd.
    + apply lookup_ge_None in Hlook. by rewrite (proj2 (Z.leb_le _ _)) by lia.
  - unfold list_index. rewrite (bind_Ok _ _ s (hd_addr ns 0) s) by (krun; by rewrite Hh).
    rewrite (list_index_loop_run fuel s ptr ns 0 0) by (done || lia).
    by destruct (list_find _ ns) as [[j n]|].
Qed.

Lemma list_at_and_index_witness :
  list_at 0x200014 2 demo_state = Ok (33, demo_state) /\
  list_index 10 0x200014 22 demo_state = Ok (1, demo_state).
Proof.
  exact (list_at_and_index (A := heap_allocator 0x200000 0x300000) 10 demo_state _ 0x200014
    demo_nodes 2 22 demo_list ltac:(lia) ltac:(cbn; lia) ltac:(done)).
Defined.

(** [list_empty] leaves an empty list object but gives back the first node
    only: every other node stays allocated with nothing pointing to it. *)
Theorem list_empty_leaks_tail `{A : Allocator} fuel s L l a d ns
    (Hok : list_ok s L l ((a, d) :: ns)) (Hrob : robust s L a)
    (Hlen : Z.of_nat (length ((a, d) :: ns)) < W32) (Hf : (2 <= fuel)%nat) :
  exists s', list_empty fuel l s = Ok (tt, s') /\ list_ok s' (delete a L) l [] /\
    Forall (fun n => is_Some (delete a L !! n.1)) ns.
Proof.
  destruct (list_empty_spec fuel s L l a d ns Hok Hrob Hlen Hf) as (s' & Hrun & _ & Hok').
  exists s'. split_and!; [done|done|]. destruct Hok as (_ & Ho & _).
  destruct (owned_delete _ _ [] _ _ _ Ho) as [_ HF]. apply Forall_cons in HF as [_ HF].
  apply Forall_forall. intros [b e] Hb. cbn [fst].
  destruct (proj1 (Forall_forall _ _) HF b) as (k & Hk & _); [|by exists k].
  apply list_elem_of_fmap. by exists (b, e).
Qed.

Lemma list_empty_leaks_tail_witness :
  exists s', list_empty (A := heap_allocator 0x200000 0x300000) 10 0x200014 demo_state
    = Ok (tt, s').
Proof.
  destruct (list_empty_leaks_tail (A := heap_allocator 0x200000 0x300000) 10 demo_state _
    0x200014 _ _ _ demo_list ltac:(apply demo_robust) ltac:(done) ltac:(lia)) as (s' & H & _).
  exists s'. exact H.
Defined.
