(* ===== verification/Ringbuf.v ===== *)
(** * Ring buffers (kernel/stdkern/ringbuf.c, kernel/sys/ringbuf.h)

    [Module Impl] is ringbuf.c over the byte memory.  [repr] relates a ring
    buffer object to a queue of at most [size] bytes and the overflow flag;
    the theorems show that the operations are those of a queue that drops its
    oldest byte when it is full. *)
From S2P Require Import Prelude Mem Alloc.
From S2P Require Heap.

(** ** The C code *)
Module Impl.

Definition RINGBUF_FUL : Z := 1.
Definition RINGBUF_OVF : Z := 2.

(** [struct ringbuf] *)
Definition o_buffer : Z := 0.
Definition o_size : Z := 4.
Definition o_writeptr : Z := 8.
Definition o_readptr : Z := 12.
Definition o_status : Z := 16.
Definition sizeof_ringbuf : Z := 20.

Section alloc.
Context `{A : Allocator}.

Definition ringbuf_alloc (size : Z) : M kst Z :=
  ringbuf ← malloc sizeof_ringbuf;
  if negb (ringbuf =? 0) then
    _ ← st32 (ringbuf + o_size) size;
    _ ← st32 (ringbuf + o_writeptr) 0;
    _ ← st32 (ringbuf + o_readptr) 0;
    buffer ← malloc size;
    _ ← st32 (ringbuf + o_buffer) buffer;
    buffer ← ld32 (ringbuf + o_buffer);
    if buffer =? 0 then
      _ ← free ringbuf;
      mret 0
    else mret ringbuf
  else mret ringbuf.

Definition ringbuf_free (buf : Z) : M kst unit :=
  _ ← (if negb (buf =? 0) then (b ← ld32 (buf + o_buffer); free b) else mret tt);
  free buf.

End alloc.

(** [if (++buf->ptr == buf->size) buf->ptr = 0;] *)
Definition advance (buf o_ptr : Z) : M kst unit :=
  ptr ← ld32 (buf + o_ptr);
  _ ← st32 (buf + o_ptr) (ptr +w 1);
  ptr' ← ld32 (buf + o_ptr);
  size ← ld32 (buf + o_size);
  mwhen (ptr' =? size) (st32 (buf + o_ptr) 0).

(** [buf->status |= flag] *)
Definition status_or (buf flag : Z) : M kst unit :=
  status ← ld32 (buf + o_status);
  st32 (buf + o_status) (Z.lor status flag).

Definition ringbuf_write (buf byte : Z) : M kst unit :=
  writeptr ← ld32 (buf + o_writeptr);
  readptr ← ld32 (buf + o_readptr);
  status ← ld32 (buf + o_status);
  _ ← (if (writeptr =? readptr) && negb (Z.land status RINGBUF_FUL =? 0) then
         _ ← status_or buf RINGBUF_OVF;
         advance buf o_readptr
       else mret tt);
  buffer ← ld32 (buf + o_buffer);
  writeptr ← ld32 (buf + o_writeptr);
  _ ← st8 (buffer + writeptr) byte;
  _ ← advance buf o_writeptr;
  writeptr ← ld32 (buf + o_writeptr);
  readptr ← ld32 (buf + o_readptr);
  if writeptr =? readptr then status_or buf RINGBUF_FUL else mret tt.

Definition ringbuf_test_overflow (buf : Z) : M kst Z :=
  status ← ld32 (buf + o_status);
  mret (Z.land status RINGBUF_OVF).

Definition ringbuf_test_ready (buf : Z) : M kst Z :=
  writeptr ← ld32 (buf + o_writeptr);
  readptr ← ld32 (buf + o_readptr);
  status ← ld32 (buf + o_status);
  mret (cbool (negb (writeptr =? readptr) || negb (Z.land status RINGBUF_FUL =? 0))).

Definition ringbuf_read (buf : Z) : M kst Z :=
  buffer ← ld32 (buf + o_buffer);
  readptr ← ld32 (buf + o_readptr);
  byte ← ld8 (buffer + readptr);
  _ ← advance buf o_readptr;
  _ ← st32 (buf + o_status) 0;
  mret byte.

End Impl.

(** ** The queue *)
Module Queue.

(** Adding a byte to a queue of capacity [n]: the oldest ones give way. *)
Definition push (n : Z) (q : list Z) (x : Z) : list Z :=
  let q' := q ++ [u8 x] in drop (length q' - Z.to_nat n) q'.

(** Whether adding a byte loses one. *)
Definition full (n : Z) (q : list Z) : bool := n <=? Z.of_nat (length q).

Lemma push_room n q x : Z.of_nat (length q) < n -> push n q x = q ++ [u8 x].
Proof.
  intros H. unfold push. rewrite length_app. cbn.
  by replace (length q + 1 - Z.to_nat n)%nat with 0%nat by lia.
Qed.

Lemma push_full n y q x :
  Z.of_nat (length (y :: q)) = n -> push n (y :: q) x = q ++ [u8 x].
Proof.
  intros H. unfold push. cbn [app length] in *. rewrite length_app. cbn.
  by replace (S (length q + 1) - Z.to_nat n)%nat with 1%nat by lia.
Qed.

(** Pushing a sequence onto a queue keeps its last [n] bytes. *)
Lemma push_all n q bs :
  0 <= n -> Z.of_nat (length q) <= n ->
  foldl (push n) q bs
  = drop (length q + length bs - Z.to_nat n) (q ++ (u8 <$> bs)).
Proof.
  intros Hn. revert q. induction bs as [|b bs IH]; intros q Hq; cbn [foldl fmap list_fmap].
  - rewrite app_nil_r. cbn. by replace (length q + 0 - Z.to_nat n)%nat with 0%nat by lia.
  - rewrite IH; [|unfold push; rewrite length_drop; lia].
    unfold push. rewrite length_drop, length_app. cbn [length].
    set (q' := q ++ [u8 b]).
    assert (q ++ u8 b :: (u8 <$> bs) = q' ++ (u8 <$> bs)) as -> by
      (subst q'; by rewrite <- app_assoc).
    assert (length q' = (length q + 1)%nat) as Hq' by (subst q'; by rewrite length_app).
    rewrite <- drop_app_le by lia. rewrite drop_drop. f_equal. lia.
Qed.

End Queue.

(** ** The representation *)
Module Rep.
Import Impl Queue.

(** The status word of a buffer that holds [q]. *)
Definition status_of (n : Z) (q : list Z) (ovf : bool) : Z :=
  (if full n q then RINGBUF_FUL else 0) + (if ovf then RINGBUF_OVF else 0).

(** The object at [p], of capacity [n], holds the queue [q]; bytes have been
    lost since the last read iff [ovf]. *)
Record repr (m : mem) (p n : Z) (q : list Z) (ovf : bool) : Prop := Repr {
  r_size : load32 m (p + o_size) = n;
  r_cap : 0 < n < W32;
  r_read : 0 <= load32 m (p + o_readptr) < n;
  r_write : load32 m (p + o_writeptr) = (load32 m (p + o_readptr) + Z.of_nat (length q)) mod n;
  r_status : load32 m (p + o_status) = status_of n q ovf;
  r_len : Z.of_nat (length q) <= n;
  r_ovf : ovf = true -> full n q = true;
  r_apart : p + sizeof_ringbuf <= load32 m (p + o_buffer) \/
            load32 m (p + o_buffer) + n <= p;
  r_bytes : forall i x, q !! i = Some x ->
    load8 m (load32 m (p + o_buffer) + (load32 m (p + o_readptr) + Z.of_nat i) mod n) = x
}.

(** The bytes of the object and of its buffer; an operation changes no other
    byte and keeps the buffer where it is. *)
Definition rb_cells (m : mem) (p n a : Z) : Prop :=
  p <= a < p + sizeof_ringbuf \/ load32 m (p + o_buffer) <= a < load32 m (p + o_buffer) + n.
Definition same_ring (m m' : mem) (p n : Z) : Prop :=
  load32 m' (p + o_buffer) = load32 m (p + o_buffer) /\
  agree (fun a => ~ rb_cells m p n a) m m'.

Ltac offs := unfold o_buffer, o_size, o_writeptr, o_readptr, o_status, sizeof_ringbuf in *.

Lemma wrap r i n :
  0 <= r < n -> 0 <= i <= n -> (r + i) mod n = if r + i <? n then r + i else r + i - n.
Proof.
  intros Hr Hi. destruct (Z.ltb_spec (r + i) n); [apply Z.mod_small; lia|].
  symmetry. apply (Z.mod_unique_pos _ _ 1); lia.
Qed.

Lemma advance_run p o n ptr s :
  load32 (k_mem s) (p + o) = ptr -> load32 (k_mem s) (p + o_size) = n ->
  0 <= ptr < n -> n < W32 -> o = o_readptr \/ o = o_writeptr ->
  advance p o s = Ok (tt, set_mem (store32 (k_mem s) (p + o) ((ptr + 1) mod n)) s).
Proof.
  intros Hp Hn Hr Hlt Ho. unfold advance. krun. rewrite Hp, !u32_small by lia.
  assert (load32 (store32 (k_mem s) (p + o) (ptr + 1)) (p + o_size) = n) as ->.
  { destruct Ho as [-> | ->]; offs; by mem_simp. }
  mem_simp. rewrite u32_small by lia. rewrite (wrap ptr 1) by lia.
  destruct (Z.eqb_spec (ptr + 1) n), (Z.ltb_spec (ptr + 1) n); try lia; [|done].
  rewrite ?set_mem_mem, store32_store32. by replace (ptr + 1 - n) with 0 by lia.
Qed.

Lemma status_full n q ovf :
  (ovf = true -> full n q = true) ->
  negb (Z.land (status_of n q ovf) RINGBUF_FUL =? 0) = full n q.
Proof. unfold status_of. intros H. by destruct (full n q), ovf; try (specialize (H eq_refl)). Qed.

Lemma write_eq_read n r q :
  0 <= r < n -> Z.of_nat (length q) <= n ->
  ((r + Z.of_nat (length q)) mod n =? r) = (length q =? 0)%nat || full n q.
Proof.
  intros Hr Hq. unfold full. rewrite wrap by lia.
  destruct (Z.ltb_spec (r + Z.of_nat (length q)) n), (Nat.eqb_spec (length q) 0),
    (Z.leb_spec n (Z.of_nat (length q))); cbn [orb];
    first [apply Z.eqb_eq; lia|apply Z.eqb_neq; lia].
Qed.
(** The stores of one write into a buffer with room, and into a full one. *)
Definition write_mem (m : mem) (p n b w x : Z) : mem :=
  store32 (store8 m (b + w) x) (p + o_writeptr) ((w + 1) mod n).

(** The end of [ringbuf_write], behind the test for a full buffer. *)
Definition write_tail (p x : Z) : M kst unit :=
  buffer ← ld32 (p + o_buffer);
  writeptr ← ld32 (p + o_writeptr);
  _ ← st8 (buffer + writeptr) x;
  _ ← advance p o_writeptr;
  writeptr ← ld32 (p + o_writeptr);
  readptr ← ld32 (p + o_readptr);
  if writeptr =? readptr then status_or p RINGBUF_FUL else mret tt.

Lemma write_tail_run s p n b r w x st :
  load32 (k_mem s) (p + o_buffer) = b -> load32 (k_mem s) (p + o_size) = n ->
  load32 (k_mem s) (p + o_readptr) = r -> load32 (k_mem s) (p + o_writeptr) = w ->
  load32 (k_mem s) (p + o_status) = st -> 0 <= st < W32 ->
  0 <= w < n -> n < W32 -> p + sizeof_ringbuf <= b \/ b + n <= p ->
  let m1 := write_mem (k_mem s) p n b w x in
  write_tail p x s
  = Ok (tt, set_mem (if (w + 1) mod n =? r
                     then store32 m1 (p + o_status) (Z.lor st RINGBUF_FUL) else m1) s).
Proof.
  intros Hb Hn Hr Hw Hst Hst0 Hw0 Hlt Hap m1. unfold write_tail.
  rewrite (bind_Ok _ _ s b s) by (krun; by rewrite Hb).
  rewrite (bind_Ok _ _ s w s) by (krun; by rewrite Hw).
  rewrite (bind_Ok _ _ s tt (set_mem (store8 (k_mem s) (b + w) x) s)) by done.
  set (s1 := set_mem (store8 (k_mem s) (b + w) x) s).
  pose proof (Z.mod_pos_bound (w + 1) n ltac:(lia)).
  rewrite (bind_Ok _ _ s1 tt (set_mem m1 s)).
  2:{ rewrite (advance_run p o_writeptr n w s1); [done|..]; auto; subst s1; cbn; offs;
      mem_simp; done. }
  krun. subst m1. unfold write_mem, status_or. offs. mem_simp.
  rewrite u32_small by lia. rewrite Hr. destruct (_ =? r); [|done]. krun.
  offs. mem_simp. by rewrite Hst.
Qed.

Lemma status_of_range n q ovf : 0 <= status_of n q ovf < W32.
Proof. unfold status_of, RINGBUF_FUL, RINGBUF_OVF. destruct (full n q), ovf; lia. Qed.

Lemma repr_buffer m p n q ovf :
  repr m p n q ovf -> forall m', (forall a, p <= a < p + sizeof_ringbuf -> load8 m a = load8 m' a) ->
  (forall i, 0 <= i < n ->
     load8 m (load32 m (p + o_buffer) + i) = load8 m' (load32 m (p + o_buffer) + i)) ->
  repr m' p n q ovf.
Proof.
  intros [H1 H2 H3 H4 H5 H6 H7 H8 H9] m' Hf Hb.
  assert (forall o, 0 <= o <= 16 -> load32 m' (p + o) = load32 m (p + o)) as Hl.
  { intros o Ho. symmetry. apply load32_ext. intros i Hi. apply Hf. offs. lia. }
  offs. split; offs; rewrite ?Hl by lia; try done.
  intros i x Hi. rewrite <- (H9 i x Hi). symmetry. apply Hb.
  apply Z.mod_pos_bound. lia.
Qed.

(** What remains to be shown of the memory after a write. *)
Lemma repr_stored m p n q q' st ovf :
  load32 m (p + o_size) = n -> 0 < n < W32 -> 0 <= load32 m (p + o_readptr) < n ->
  load32 m (p + o_writeptr) = (load32 m (p + o_readptr) + Z.of_nat (length q')) mod n ->
  load32 m (p + o_status) = st -> Z.of_nat (length q') <= n ->
  st = status_of n q ovf -> (ovf = true -> full n q' = true) ->
  (full n q = true -> full n q' = true) ->
  p + sizeof_ringbuf <= load32 m (p + o_buffer) \/ load32 m (p + o_buffer) + n <= p ->
  (forall i x, q' !! i = Some x ->
    load8 m (load32 m (p + o_buffer) + (load32 m (p + o_readptr) + Z.of_nat i) mod n) = x) ->
  repr (if full n q' then store32 m (p + o_status) (Z.lor st RINGBUF_FUL) else m) p n q' ovf.
Proof.
  intros H1 H2 H3 H4 H5 H6 -> H7 H8 H9 H10.
  assert (Z.lor (status_of n q ovf) RINGBUF_FUL = 1 + (if ovf then 2 else 0)) as Hor
    by (unfold status_of; by destruct (full n q), ovf).
  destruct (full n q') eqn:Hf.
  - rewrite Hor. split; offs; mem_simp; try done.
    + unfold status_of. rewrite Hf. by destruct ovf.
    + intros i x Hi. rewrite load8_store32_ne; [by apply H10|].
      pose proof (Z.mod_pos_bound (load32 m (p + 12) + Z.of_nat i) n ltac:(lia)). lia.
  - split; offs; try done; [|by intros Ho; specialize (H7 Ho)].
    rewrite H5. unfold status_of. rewrite Hf.
    destruct (full n q); [by specialize (H8 eq_refl)|done].
Qed.

Lemma write_mem_agree m p n b w x :
  load32 m (p + o_buffer) = b -> 0 <= w < n ->
  agree (fun a => ~ rb_cells m p n a) m (write_mem m p n b w x).
Proof.
  intros Hb Hw a Ha. unfold rb_cells in Ha. rewrite Hb in Ha. unfold write_mem. offs.
  rewrite load8_store32_ne, load8_store8_ne by lia. done.
Qed.

Lemma same_ring_if (c : bool) m m1 p n v :
  agree (fun a => ~ rb_cells m p n a) m m1 ->
  load32 m1 (p + o_buffer) = load32 m (p + o_buffer) ->
  same_ring m (if c then store32 m1 (p + o_status) v else m1) p n.
Proof.
  intros Hag Hb. destruct c; split; try done; [offs; by mem_simp|].
  intros a Ha. rewrite (Hag a Ha). unfold rb_cells in Ha. offs.
  rewrite load8_store32_ne by lia. done.
Qed.

(** The byte is behind the ones that are there. *)
Lemma write_mem_lookup m p n b r q x :
  0 <= r < n -> Z.of_nat (length q) < n -> p + sizeof_ringbuf <= b \/ b + n <= p ->
  (forall i y, q !! i = Some y -> load8 m (b + (r + Z.of_nat i) mod n) = y) ->
  forall i y, (q ++ [u8 x]) !! i = Some y ->
    load8 (write_mem m p n b ((r + Z.of_nat (length q)) mod n) x) (b + (r + Z.of_nat i) mod n) = y.
Proof.
  intros Hr Hq Hap Hm i y Hi. pose proof (lookup_lt_Some _ _ _ Hi) as Hlt.
  rewrite length_app in Hlt. cbn in Hlt. unfold write_mem.
  pose proof (Z.mod_pos_bound (r + Z.of_nat i) n ltac:(lia)).
  rewrite load8_store32_ne by (offs; lia).
  apply lookup_app_Some in Hi as [Hi|[Hge Hi]].
  - pose proof (lookup_lt_Some _ _ _ Hi). rewrite load8_store8_ne; [by apply Hm|].
    rewrite !wrap by lia.
    destruct (Z.ltb_spec (r + Z.of_nat i) n), (Z.ltb_spec (r + Z.of_nat (length q)) n); lia.
  - apply list_lookup_singleton_Some in Hi as [Hi <-].
    replace i with (length q) by lia. apply load8_store8_eq.
Qed.

(** Storing a byte behind [q] where there is room for it; [q0] is what the
    status word says. *)
Lemma write_tail_stores s p n b r q q0 ovf x :
  load32 (k_mem s) (p + o_buffer) = b -> load32 (k_mem s) (p + o_size) = n -> 0 < n < W32 ->
  load32 (k_mem s) (p + o_readptr) = r -> 0 <= r < n -> Z.of_nat (length q) < n ->
  load32 (k_mem s) (p + o_writeptr) = (r + Z.of_nat (length q)) mod n ->
  load32 (k_mem s) (p + o_status) = status_of n q0 ovf ->
  p + sizeof_ringbuf <= b \/ b + n <= p ->
  (ovf = true -> full n (q ++ [u8 x]) = true) ->
  (full n q0 = true -> full n (q ++ [u8 x]) = true) ->
  (forall i y, q !! i = Some y -> load8 (k_mem s) (b + (r + Z.of_nat i) mod n) = y) ->
  exists m', write_tail p x s = Ok (tt, set_mem m' s) /\ repr m' p n (q ++ [u8 x]) ovf /\
    same_ring (k_mem s) m' p n.
Proof.
  intros Hb Hn Hn0 Hr Hr0 Hq Hw Hst Hap Hovf Hfull Hm.
  set (w := (r + Z.of_nat (length q)) mod n) in *.
  assert (0 <= w < n) as Hw0 by (apply Z.mod_pos_bound; lia).
  assert (Z.of_nat (length (q ++ [u8 x])) = Z.of_nat (length q) + 1) as Hlen
    by (rewrite length_app; cbn; lia).
  assert ((w + 1) mod n = (r + Z.of_nat (length (q ++ [u8 x]))) mod n) as Hw1
    by (unfold w; rewrite Z.add_mod_idemp_l, Hlen by lia; f_equal; lia).
  pose proof (status_of_range n q0 ovf).
  rewrite (write_tail_run s p n b r w x (status_of n q0 ovf)) by (done || lia).
  rewrite Hw1, write_eq_read by lia.
  replace (length (q ++ [u8 x]) =? 0)%nat with false by by destruct q. cbn [orb].
  pose proof (Z.mod_pos_bound (w + 1) n ltac:(lia)).
  pose proof (write_mem_lookup _ p n b r q x Hr0 Hq Hap Hm) as Hbytes. fold w in Hbytes.
  pose proof (write_mem_agree (k_mem s) p n b w x Hb Hw0) as Hag.
  set (m1 := write_mem (k_mem s) p n b w x) in *.
  assert (load32 m1 (p + o_buffer) = b /\ load32 m1 (p + o_readptr) = r /\
    load32 m1 (p + o_size) = n /\ load32 m1 (p + o_status) = status_of n q0 ovf /\
    load32 m1 (p + o_writeptr) = (w + 1) mod n) as (Eb & Er & En & Es & Ew).
  { subst m1; unfold write_mem; offs; mem_simp. split_and!; try done. apply u32_small. lia. }
  eexists. split; [done|]. split; [|by apply same_ring_if; [|rewrite Eb, Hb]].
  apply (repr_stored m1 p n q0); rewrite ?Eb, ?Er; try done; [by rewrite Ew|lia].
Qed.

(** Writing with room. *)
Lemma ringbuf_write_room s p n q ovf x :
  repr (k_mem s) p n q ovf -> Z.of_nat (length q) < n ->
  exists m', ringbuf_write p x s = Ok (tt, set_mem m' s) /\ repr m' p n (q ++ [u8 x]) false /\
    same_ring (k_mem s) m' p n.
Proof.
  intros [H1 H2 H3 H4 H5 H6 H7 H8 H9] Hroom.
  assert (full n q = false) as Hfull by (unfold full; lia).
  assert (ovf = false) as -> by (destruct ovf; [rewrite H7 in Hfull by done|]; done).
  destruct (write_tail_stores s p n _ _ q q false x eq_refl H1 H2 eq_refl H3 Hroom H4 H5 H8)
    as (m' & Hrun & HR); [done|by rewrite Hfull|done|].
  exists m'. split; [|done]. rewrite <- Hrun. unfold ringbuf_write.
  set (r := load32 (k_mem s) (p + o_readptr)) in *.
  set (w := load32 (k_mem s) (p + o_writeptr)) in *.
  rewrite (bind_Ok _ _ s w s) by done. rewrite (bind_Ok _ _ s r s) by done.
  rewrite (bind_Ok _ _ s (status_of n q false) s) by (krun; by rewrite H5).
  rewrite status_full, Hfull, andb_false_r by done.
  by rewrite (bind_Ok _ _ s tt s).
Qed.

(** Writing into a full buffer: the oldest byte makes room. *)
Definition drop_mem (m : mem) (p n r : Z) : mem :=
  store32 (store32 m (p + o_status) 3) (p + o_readptr) ((r + 1) mod n).

Lemma ringbuf_write_full s p n y q ovf x :
  repr (k_mem s) p n (y :: q) ovf -> Z.of_nat (length (y :: q)) = n ->
  exists m', ringbuf_write p x s = Ok (tt, set_mem m' s) /\ repr m' p n (q ++ [u8 x]) true /\
    same_ring (k_mem s) m' p n.
Proof.
  intros [H1 H2 H3 H4 H5 H6 H7 H8 H9] Hlen.
  assert (full n (y :: q) = true) as Hfull by (unfold full; lia).
  assert (full n (q ++ [u8 x]) = true) as Hfull'
    by (unfold full; rewrite length_app; apply Z.leb_le; cbn [length] in *; lia).
  set (r := load32 (k_mem s) (p + o_readptr)) in *.
  set (b := load32 (k_mem s) (p + o_buffer)) in *.
  pose proof (Z.mod_pos_bound (r + 1) n ltac:(lia)) as Hr1.
  assert (load32 (k_mem s) (p + o_writeptr) = r) as Hw.
  { rewrite H4, Hlen, wrap by lia. destruct (Z.ltb_spec (r + n) n); lia. }
  assert (((r + 1) mod n + Z.of_nat (length q)) mod n = r) as Hw'.
  { rewrite Z.add_mod_idemp_l by lia. rewrite <- Hw at 2. rewrite H4. f_equal. cbn [length]. lia. }
  set (s0 := set_mem (drop_mem (k_mem s) p n r) s).
  assert (load32 (k_mem s0) (p + o_buffer) = b /\ load32 (k_mem s0) (p + o_readptr) = (r + 1) mod n /\
    load32 (k_mem s0) (p + o_size) = n /\ load32 (k_mem s0) (p + o_writeptr) = r /\
    load32 (k_mem s0) (p + o_status) = 3) as (Mb & Mr & Mn & Mw & Ms).
  { subst s0. unfold drop_mem. cbn. offs. mem_simp. split_and!; try done. apply u32_small. lia. }
  destruct (write_tail_stores s0 p n b ((r + 1) mod n) q (y :: q) true x) as (m' & Hrun & HR & Hsb & Hsa);
    try done.
  - cbn [length] in Hlen. lia.
  - by rewrite Mw.
  - rewrite Ms. unfold status_of. by rewrite Hfull.
  - intros i z Hi. pose proof (lookup_lt_Some _ _ _ Hi). cbn [length] in Hlen.
    rewrite Z.add_mod_idemp_l by lia.
    replace (r + 1 + Z.of_nat i) with (r + Z.of_nat (S i)) by lia.
    pose proof (Z.mod_pos_bound (r + Z.of_nat (S i)) n ltac:(lia)).
    subst s0. unfold drop_mem. cbn [k_mem set_mem].
    rewrite !load8_store32_ne by (offs; lia). by apply (H9 (S i)).
  - exists m'. split; [|split; [done|split; [by rewrite Hsb, Mb|]]].
    + change (set_mem m' s) with (set_mem m' s0). rewrite <- Hrun. unfold ringbuf_write.
      rewrite (bind_Ok _ _ s r s) by (krun; by rewrite Hw). rewrite (bind_Ok _ _ s r s) by done.
      rewrite (bind_Ok _ _ s (status_of n (y :: q) ovf) s) by (krun; by rewrite H5).
      rewrite status_full, Hfull, Z.eqb_refl by done. cbn [andb].
      rewrite (bind_Ok _ _ s tt s0); [done|].
      unfold status_or. rewrite (bind_Ok _ _ s tt (set_mem (store32 (k_mem s) (p + o_status) 3) s)).
      * rewrite (advance_run p o_readptr n r); [done|..]; try lia; auto; cbn; offs; mem_simp; done.
      * krun. rewrite H5. unfold status_of. rewrite Hfull. by destruct ovf.
    + intros a Ha. rewrite <- (Hsa a).
      * subst s0. unfold drop_mem. unfold rb_cells in Ha. fold b in Ha. cbn [k_mem set_mem].
        rewrite !load8_store32_ne by (offs; lia). done.
      * unfold rb_cells in *. by rewrite Mb.
Qed.

(** Reading a byte that is there. *)
Lemma ringbuf_read_run s p n y q ovf :
  repr (k_mem s) p n (y :: q) ovf ->
  exists m', ringbuf_read p s = Ok (y, set_mem m' s) /\ repr m' p n q false /\
    same_ring (k_mem s) m' p n.
Proof.
  intros [H1 H2 H3 H4 H5 H6 H7 H8 H9]. cbn [length] in *.
  set (r := load32 (k_mem s) (p + o_readptr)) in *.
  set (b := load32 (k_mem s) (p + o_buffer)) in *.
  pose proof (Z.mod_pos_bound (r + 1) n ltac:(lia)) as Hr1.
  unfold ringbuf_read. rewrite (bind_Ok _ _ s b s) by done.
  rewrite (bind_Ok _ _ s r s) by done. rewrite (bind_Ok _ _ s y s).
  2:{ krun. rewrite <- (H9 O y eq_refl). cbn. by rewrite Z.add_0_r, Z.mod_small by lia. }
  mstep (advance_run p o_readptr n r s ltac:(done) H1 H3 ltac:(lia) ltac:(by left)).
  krun. rewrite set_mem_mem. eexists. split; [done|].
  assert (full n q = false) as Hfull by (unfold full; lia).
  split.
  2:{ split; [offs; by mem_simp|]. intros a Ha. unfold rb_cells in Ha. offs.
      rewrite !load8_store32_ne by lia. done. }
  split; offs; mem_simp; rewrite ?u32_small by lia; try done; try lia.
  - rewrite H4, Z.add_mod_idemp_l by lia. f_equal. lia.
  - unfold status_of. by rewrite Hfull.
  - intros i x Hi. rewrite <- (H9 (S i) x Hi). fold b.
    rewrite Z.add_mod_idemp_l by lia.
    replace (r + 1 + Z.of_nat i) with (r + Z.of_nat (S i)) by lia.
    pose proof (Z.mod_pos_bound (r + Z.of_nat (S i)) n ltac:(lia)).
    rewrite !load8_store32_ne by lia. done.
Qed.

(** The two flags. *)
Lemma test_ready_run s p n q ovf :
  repr (k_mem s) p n q ovf ->
  ringbuf_test_ready p s = Ok (cbool (negb (length q =? 0)%nat), s).
Proof.
  intros [H1 H2 H3 H4 H5 H6 H7 H8 H9]. unfold ringbuf_test_ready. krun. rewrite H5.
  rewrite status_full by done. rewrite H4, write_eq_read by lia.
  do 3 f_equal. unfold full. destruct (Nat.eqb_spec (length q) 0) as [->|]; cbn [orb negb].
  - destruct (Z.leb_spec n (Z.of_nat 0)); [lia|done].
  - by destruct (n <=? _).
Qed.

Lemma test_overflow_run s p n q ovf :
  repr (k_mem s) p n q ovf ->
  ringbuf_test_overflow p s = Ok (if ovf then RINGBUF_OVF else 0, s).
Proof.
  intros [H1 H2 H3 H4 H5 H6 H7 H8 H9]. unfold ringbuf_test_overflow. krun. rewrite H5.
  unfold status_of. by destruct (full n q), ovf.
Qed.

End Rep.

(** ** Clients *)

Import Impl Queue Rep.

Fixpoint write_all (p : Z) (bs : list Z) : M kst unit :=
  match bs with
  | [] => mret tt
  | b :: bs' => _ ← ringbuf_write p b; write_all p bs'
  end.

(** [while (ringbuf_test_ready(buf)) ... ringbuf_read(buf)] *)
Fixpoint read_all (fuel : nat) (p : Z) : M kst (list Z) :=
  match fuel with
  | O => fail Diverges
  | S fuel' =>
      ready ← ringbuf_test_ready p;
      if ready =? 0 then mret [] else
      b ← ringbuf_read p;
      bs ← read_all fuel' p;
      mret (b :: bs)
  end.

(** A buffer allocated where a freed object had an odd status word. *)
Definition stale_status_history : M kst Z :=
  _ ← Heap.Impl.heap_init 0x200000;
  p ← Heap.Impl.malloc sizeof_ringbuf;
  _ ← st32 (p + o_status) RINGBUF_FUL;
  _ ← Heap.Impl.free p;
  buf ← ringbuf_alloc (A := Heap.Interface.heap_allocator 0x200000 0x300000) 16;
  ringbuf_test_ready buf.

(** A buffer of four bytes at 0x1000 that holds 7 and 8. *)
Definition sample_mem : mem :=
  store_bytes (store32 (store32 (store32 (store32 (store32 ∅ 0x1000 0x2000) 0x1004 4)
    0x1008 1) 0x100c 3) 0x1010 0) 0x2000 [8; 0; 0; 7].
Definition sample_state : kst := set_mem sample_mem boot_state.

Lemma sample_repr : repr sample_mem 0x1000 4 [7; 8] false.
Proof.
  split; try (vm_compute; (reflexivity || discriminate)).
  - done.
  - by vm_compute.
  - left. by vm_compute.
  - intros [|[|i]] x; [intros [= <-]; vm_compute; reflexivity..|done].
Qed.

Lemma write_step s p n q ovf x :
  repr (k_mem s) p n q ovf ->
  exists m', ringbuf_write p x s = Ok (tt, set_mem m' s) /\ repr m' p n (push n q x) (full n q) /\
    same_ring (k_mem s) m' p n.
Proof.
  intros H. pose proof H as [_ Hn _ _ _ Hlen _ _ _].
  destruct (decide (Z.of_nat (length q) < n)) as [Hr|Hr].
  - replace (full n q) with false by (unfold full; lia).
    rewrite push_room by done. by eapply ringbuf_write_room.
  - destruct q as [|y q]; [cbn in Hr; lia|].
    replace (full n (y :: q)) with true by (unfold full; lia).
    rewrite push_full by lia. eapply ringbuf_write_full; [done|lia].
Qed.

Lemma write_all_run s p n q ovf bs :
  repr (k_mem s) p n q ovf ->
  exists m' ovf', write_all p bs s = Ok (tt, set_mem m' s) /\
    repr m' p n (foldl (push n) q bs) ovf'.
Proof.
  revert s q ovf. induction bs as [|b bs IH]; intros s q ovf H; cbn [write_all foldl].
  - exists (k_mem s), ovf. by rewrite set_mem_id.
  - destruct (write_step s p n q ovf b H) as (m1 & Hrun & H1 & _). mstep Hrun.
    destruct (IH (set_mem m1 s) _ _ H1) as (m' & ovf' & -> & H').
    rewrite set_mem_mem. eauto.
Qed.

Lemma read_all_run s p n q ovf fuel :
  repr (k_mem s) p n q ovf -> (length q < fuel)%nat ->
  exists m' ovf', read_all fuel p s = Ok (q, set_mem m' s) /\ repr m' p n [] ovf'.
Proof.
  revert s ovf fuel. induction q as [|y q IH]; intros s ovf [|fuel] H Hf; cbn in Hf; try lia;
    cbn [read_all]; mstep (test_ready_run s p n _ ovf H).
  - exists (k_mem s), ovf. by rewrite set_mem_id.
  - cbn [length Nat.eqb negb cbool Z.eqb].
    destruct (ringbuf_read_run s p n y q ovf H) as (m1 & Hrun & H1 & _). mstep Hrun.
    destruct (IH (set_mem m1 s) false fuel H1 ltac:(lia)) as (m' & ovf' & Hrun' & H').
    mstep Hrun'. rewrite set_mem_mem. exists m', ovf'. done.
Qed.

(** ** Properties *)

(** [ringbuf_write] adds the byte at the end of the queue; when the buffer
    is full the oldest byte is dropped and the overflow flag is set. *)
Theorem ringbuf_write_pushes s p n q ovf x (H : repr (k_mem s) p n q ovf) :
  exists m', ringbuf_write p x s = Ok (tt, set_mem m' s) /\
    repr m' p n (push n q x) (full n q).
Proof. destruct (write_step s p n q ovf x H) as (m' & ? & ? & _). by exists m'. Qed.

Lemma ringbuf_write_pushes_witness :
  exists m', ringbuf_write 0x1000 9 sample_state = Ok (tt, set_mem m' sample_state) /\
    repr m' 0x1000 4 [7; 8; 9] false.
Proof. exact (ringbuf_write_pushes sample_state 0x1000 4 [7; 8] false 9 sample_repr). Defined.

(** [ringbuf_read] returns the oldest byte of a non-empty queue, removes
    it and clears the overflow flag. *)
Theorem ringbuf_read_pops s p n y q ovf (H : repr (k_mem s) p n (y :: q) ovf) :
  exists m', ringbuf_read p s = Ok (y, set_mem m' s) /\ repr m' p n q false.
Proof. destruct (ringbuf_read_run s p n y q ovf H) as (m' & ? & ? & _). by exists m'. Qed.

Lemma ringbuf_read_pops_witness :
  exists m', ringbuf_read 0x1000 sample_state = Ok (7, set_mem m' sample_state) /\
    repr m' 0x1000 4 [8] false.
Proof. exact (ringbuf_read_pops sample_state 0x1000 4 7 [8] false sample_repr). Defined.

(** C25: After any sequence of writes to an empty buffer, reading while it is
    ready returns the last [size] bytes written, in order, and ends. *)
Theorem ringbuf_keeps_last s p n bs ovf fuel
    (H : repr (k_mem s) p n [] ovf) (Hf : n < Z.of_nat fuel) :
  exists s1 s2, write_all p bs s = Ok (tt, s1) /\
    read_all fuel p s1 = Ok (drop (length bs - Z.to_nat n) (u8 <$> bs), s2) /\
    ringbuf_test_ready p s2 = Ok (0, s2).
Proof.
  destruct (write_all_run s p n [] ovf bs H) as (m1 & ovf1 & Hw & H1).
  pose proof (r_cap _ _ _ _ _ H) as Hn. pose proof (r_len _ _ _ _ _ H1) as Hl.
  rewrite push_all in H1, Hl by (cbn; lia). cbn [length app Nat.add] in H1, Hl.
  destruct (read_all_run (set_mem m1 s) p n _ ovf1 fuel H1 ltac:(lia)) as (m2 & ovf2 & Hr & H2).
  exists (set_mem m1 s), (set_mem m2 (set_mem m1 s)). split_and!; [done|exact Hr|].
  apply (test_ready_run (set_mem m2 (set_mem m1 s)) p n [] ovf2 H2).
Qed.

Lemma ringbuf_keeps_last_witness :
  exists s s1 s2, write_all 0x1000 [1; 2; 3; 4; 5] s = Ok (tt, s1) /\
    read_all 10 0x1000 s1 = Ok ([2; 3; 4; 5], s2).
Proof.
  destruct (ringbuf_read_run sample_state 0x1000 4 7 [8] false sample_repr) as (m1 & _ & H1 & _).
  destruct (ringbuf_read_run (set_mem m1 sample_state) 0x1000 4 8 [] false H1) as (m2 & _ & H2 & _).
  destruct (ringbuf_keeps_last (set_mem m2 sample_state) 0x1000 4 [1; 2; 3; 4; 5] false 10 H2
    ltac:(lia)) as (s1 & s2 & Hw & Hr & _).
  exists (set_mem m2 sample_state), s1, s2. split; [exact Hw|exact Hr].
Defined.

(** [ringbuf_alloc] does not initialise [status]: a new buffer can claim to
    have bytes to read, left over from a freed object. *)
Theorem ringbuf_alloc_keeps_stale_status :
  outcome (stale_status_history boot_state) = Some 1.
Proof. vm_compute. reflexivity. Qed.
