(* ===== verification/Pmm.v ===== *)
(** * The physical memory manager (arch/i386/kernel/mem/pmm.c)

    Pages of 4 KB are handed out from a bitmap with one bit per frame, which
    lives in the kernel heap.  [Module Impl] is pmm.c over the byte memory and
    its two statics; [taken] reads a frame's bit, and the theorems say how the
    operations move these bits. *)
From S2P Require Import Prelude Mem Alloc.
From S2P Require Heap.

(** ** The C code *)
Module Impl.

(** The statics [frames_map] and [frames_count], beside the memory. *)
Record pmm := Pmm { p_k : kst; frames_map : Z; frames_count : Z }.

Definition set_k (k : kst) (s : pmm) : pmm := Pmm k (frames_map s) (frames_count s).
Definition set_map (p : Z) (s : pmm) : pmm := Pmm (p_k s) p (frames_count s).
Definition set_count (n : Z) (s : pmm) : pmm := Pmm (p_k s) (frames_map s) n.
Definition kern {A} (m : M kst A) : M pmm A := zoom p_k set_k m.

Definition FRAME_NUMBER (memaddr : Z) : Z := Z.shiftr memaddr 12.
Definition PHYSICAL_ADDR (idx : Z) : Z := u32 (Z.shiftl idx 12).
Definition BIT_INDEX (frame_idx : Z) : Z := Z.shiftr frame_idx 5.
Definition BIT_OFFSET (frame_idx : Z) : Z := Z.land frame_idx 31.
Definition OFFSET_MASK (bit : Z) : Z := u32 (Z.shiftl 1 bit).

(** [&frames_map[BIT_INDEX(idx)]] *)
Definition word_of (idx : Z) : M pmm Z :=
  gets (fun s => frames_map s + 4 * BIT_INDEX idx).

Definition frame_set (idx : Z) : M pmm unit :=
  a ← word_of idx;
  w ← kern (ld32 a);
  kern (st32 a (Z.lor w (OFFSET_MASK (BIT_OFFSET idx)))).

Definition frame_test (idx : Z) : M pmm Z :=
  a ← word_of idx;
  w ← kern (ld32 a);
  mret (Z.land w (OFFSET_MASK (BIT_OFFSET idx))).

Definition frame_clear (idx : Z) : M pmm unit :=
  a ← word_of idx;
  w ← kern (ld32 a);
  kern (st32 a (Z.land w (u32 (Z.lnot (OFFSET_MASK (BIT_OFFSET idx)))))).

(** The [for] over [offset], [n] iterations from [offset] on. *)
Fixpoint find_offset (n : nat) (offset map : Z) : option Z :=
  match n with
  | O => None
  | S n' =>
      if Z.land map (OFFSET_MASK (BIT_OFFSET offset)) =? 0 then Some offset
      else find_offset n' (offset + 1) map
  end.

Fixpoint find_free_loop (fuel : nat) (idx : Z) : M pmm Z :=
  match fuel with
  | O => fail Diverges
  | S fuel' =>
      count ← gets frames_count;
      if negb (idx <? count) then mret (u32 (-1)) else
      a ← word_of idx;
      map ← kern (ld32 a);
      if negb (map =? u32 (-1)) then
        match find_offset 32 0 map with
        | Some offset => mret (Z.lor idx offset)
        | None => find_free_loop fuel' (idx +w 32)
        end
      else find_free_loop fuel' (idx +w 32)
  end.

(** There are at most [2^20] frames, 32 to a word. *)
Definition FIND_FUEL : nat := Z.to_nat 32769.
Definition frame_find_free : M pmm Z := find_free_loop FIND_FUEL 0.

(** Offsets in [multiboot_info_t] and [multiboot_mmap_t]. *)
Definition mb_flags : Z := 0.
Definition mb_mem_upper : Z := 8.
Definition mb_mmap_length : Z := 44.
Definition mb_mmap_addr : Z := 48.
Definition mm_size : Z := 0.
Definition mm_base_addr : Z := 4.
Definition mm_length : Z := 12.
Definition mm_type : Z := 20.

(** An [unsigned long long] in memory. *)
Definition ld64 (a : Z) : M pmm Z :=
  lo ← kern (ld32 a);
  hi ← kern (ld32 (a + 4));
  mret (lo + 4294967296 * hi).

Definition allocate_frames (multiboot_info : Z) : M pmm unit :=
  mem_upper ← kern (ld32 (multiboot_info + mb_mem_upper));
  let memsize := u32 (Z.shiftl (mem_upper +w 1) 10) in
  _ ← modify (set_count (FRAME_NUMBER memsize));
  count ← gets frames_count;
  let mapsize := BIT_INDEX count in
  let mapsize := if negb (BIT_OFFSET count =? 0) then mapsize +w 1 else mapsize in
  p ← kern (Heap.Impl.heap_alloc mapsize);
  modify (set_map p).

(** The [for] of [reserve_system_block]. *)
Fixpoint reserve_loop (fuel : nat) (mblock f page : Z) : M pmm unit :=
  match fuel with
  | O => fail Diverges
  | S fuel' =>
      count ← gets frames_count;
      length ← ld64 (mblock + mm_length);
      if (f <? count) && (page <? length) then
        _ ← frame_set f;
        reserve_loop fuel' mblock (f +w 1) (page +w 0x1000)
      else mret tt
  end.
Definition RESERVE_FUEL : nat := Z.to_nat 1048577.
Definition reserve_system_block (mblock : Z) : M pmm unit :=
  base_addr ← ld64 (mblock + mm_base_addr);
  reserve_loop RESERVE_FUEL mblock (u32 (FRAME_NUMBER base_addr)) 0.

(** The [while] of [reserve_system]. *)
Fixpoint reserve_blocks (fuel : nat) (mblock mmap_end : Z) : M pmm unit :=
  match fuel with
  | O => fail Diverges
  | S fuel' =>
      if negb (mblock <? mmap_end) then mret tt else
      type ← kern (ld32 (mblock + mm_type));
      _ ← (if negb (type =? 1) then reserve_system_block mblock else mret tt);
      size ← kern (ld32 (mblock + mm_size));
      reserve_blocks fuel' (mblock +w size +w 4) mmap_end
  end.
Definition reserve_system (fuel : nat) (multiboot_info : Z) : M pmm unit :=
  flags ← kern (ld32 (multiboot_info + mb_flags));
  if negb (Z.land flags 0x40 =? 0) then
    mblock ← kern (ld32 (multiboot_info + mb_mmap_addr));
    len ← kern (ld32 (multiboot_info + mb_mmap_length));
    reserve_blocks fuel mblock (mblock +w len)
  else mret tt.

(** [kernel_start] and [kernel_after] are symbols of the linker script. *)
Fixpoint reserve_kernel_loop (fuel : nat) (frame addr kernel_after : Z) : M pmm unit :=
  match fuel with
  | O => fail Diverges
  | S fuel' =>
      if negb (addr <? kernel_after) then mret tt else
      _ ← frame_set frame;
      reserve_kernel_loop fuel' (frame +w 1) (addr +w 4096) kernel_after
  end.
Definition reserve_kernel (kernel_start kernel_after : Z) : M pmm unit :=
  let addr := Z.land kernel_start 0xFFFFF000 in
  reserve_kernel_loop RESERVE_FUEL (FRAME_NUMBER addr) addr kernel_after.

Definition pmm_init (fuel : nat) (multiboot_info kernel_start kernel_after : Z) : M pmm unit :=
  _ ← allocate_frames multiboot_info;
  _ ← reserve_system fuel multiboot_info;
  reserve_kernel kernel_start kernel_after.

Definition pmm_alloc_page : M pmm Z :=
  frame ← frame_find_free;
  if frame =? u32 (-1) then mret 0 else
  _ ← frame_set frame;
  mret (PHYSICAL_ADDR frame).

Definition pmm_free_page (page : Z) : M pmm unit :=
  frame_clear (FRAME_NUMBER page).

End Impl.

(** ** The bitmap *)
Module Bits.
Import Impl.

(** Frame [f]'s bit. *)
Definition taken (s : pmm) (f : Z) : bool :=
  Z.testbit (load32 (k_mem (p_k s)) (frames_map s + 4 * BIT_INDEX f)) (BIT_OFFSET f).

(** Same statics, and the same kernel state but for the bitmap's bytes. *)
Definition same_but_map (s s' : pmm) : Prop :=
  frames_map s' = frames_map s /\ frames_count s' = frames_count s /\
  same_rest (p_k s) (p_k s').

Lemma same_but_map_refl s : same_but_map s s.
Proof. split_and!; [done..|apply same_rest_refl]. Qed.

Lemma offset_range f : 0 <= BIT_OFFSET f < 32.
Proof.
  unfold BIT_OFFSET. change 31 with (Z.ones 5). rewrite Z.land_ones by lia.
  apply Z.mod_pos_bound. lia.
Qed.

Lemma index_offset f : f = 32 * BIT_INDEX f + BIT_OFFSET f.
Proof.
  unfold BIT_INDEX, BIT_OFFSET. change 31 with (Z.ones 5).
  rewrite Z.land_ones, Z.shiftr_div_pow2 by lia. change (2 ^ 5) with 32.
  apply Z.div_mod. lia.
Qed.

Lemma mask_bit i j : 0 <= i < 32 -> 0 <= j -> Z.testbit (OFFSET_MASK i) j = (i =? j).
Proof.
  intros Hi Hj. unfold OFFSET_MASK, u32. change 4294967296 with (2 ^ 32).
  rewrite Z.shiftl_1_l, Z.mod_small.
  - apply Z.pow2_bits_eqb. lia.
  - split; [apply Z.pow_nonneg; lia|apply Z.pow_lt_mono_r; lia].
Qed.

Lemma u32_bit x j : 0 <= j < 32 -> Z.testbit (u32 x) j = Z.testbit x j.
Proof.
  intros Hj. unfold u32. change 4294967296 with (2 ^ 32). by rewrite Z.mod_pow2_bits_low by lia.
Qed.

Lemma index_nonneg f : 0 <= f -> 0 <= BIT_INDEX f.
Proof. intros. by apply Z.shiftr_nonneg. Qed.

(** The word of the bitmap that holds frame [f], and its replacement. *)
Definition word (s : pmm) (f : Z) : Z :=
  load32 (k_mem (p_k s)) (frames_map s + 4 * BIT_INDEX f).
Definition write_word (s : pmm) (f v : Z) : pmm :=
  set_k (set_mem (store32 (k_mem (p_k s)) (frames_map s + 4 * BIT_INDEX f) v) (p_k s)) s.

Lemma taken_store s f v g :
  0 <= f -> 0 <= g ->
  taken (write_word s f v) g
  = if BIT_INDEX f =? BIT_INDEX g then Z.testbit v (BIT_OFFSET g) else taken s g.
Proof.
  intros Hf Hg. unfold taken, write_word. cbn [set_k frames_map p_k set_mem k_mem].
  destruct (Z.eqb_spec (BIT_INDEX f) (BIT_INDEX g)) as [->|Hne].
  - rewrite load32_store32_eq. apply u32_bit, offset_range.
  - rewrite load32_store32_ne; [done|]. lia.
Qed.

Lemma same_frame f g :
  (f =? g) = (BIT_INDEX f =? BIT_INDEX g) && (BIT_OFFSET f =? BIT_OFFSET g).
Proof.
  pose proof (index_offset f). pose proof (index_offset g).
  pose proof (offset_range f). pose proof (offset_range g).
  destruct (Z.eqb_spec f g) as [->|]; [by rewrite !Z.eqb_refl|].
  destruct (Z.eqb_spec (BIT_INDEX f) (BIT_INDEX g)), (Z.eqb_spec (BIT_OFFSET f) (BIT_OFFSET g));
    cbn; try done. lia.
Qed.

Lemma frame_set_run s f :
  0 <= f ->
  exists s', frame_set f s = Ok (tt, s') /\ same_but_map s s' /\
    forall g, 0 <= g -> taken s' g = (f =? g) || taken s g.
Proof.
  intros Hf. exists (write_word s f (Z.lor (word s f) (OFFSET_MASK (BIT_OFFSET f)))).
  split; [done|]. split; [done|]. intros g Hg.
  rewrite taken_store by done. pose proof (offset_range f). pose proof (offset_range g).
  rewrite (same_frame f g). destruct (Z.eqb_spec (BIT_INDEX f) (BIT_INDEX g)) as [Hi|]; [|by cbn].
  rewrite Z.lor_spec, mask_bit by lia. cbn [andb]. rewrite orb_comm. f_equal.
  unfold taken, word. by rewrite Hi.
Qed.

Lemma frame_clear_run s f :
  0 <= f ->
  exists s', frame_clear f s = Ok (tt, s') /\ same_but_map s s' /\
    forall g, 0 <= g -> taken s' g = negb (f =? g) && taken s g.
Proof.
  intros Hf.
  exists (write_word s f (Z.land (word s f) (u32 (Z.lnot (OFFSET_MASK (BIT_OFFSET f)))))).
  split; [done|]. split; [done|]. intros g Hg.
  rewrite taken_store by done. pose proof (offset_range f). pose proof (offset_range g).
  rewrite (same_frame f g). destruct (Z.eqb_spec (BIT_INDEX f) (BIT_INDEX g)) as [Hi|]; [|by cbn].
  rewrite Z.land_spec, u32_bit, Z.lnot_spec, mask_bit by lia. cbn [andb].
  rewrite andb_comm. f_equal. unfold taken, word. by rewrite Hi.
Qed.

Lemma land_mask w i :
  0 <= i < 32 -> Z.land w (OFFSET_MASK i) = if Z.testbit w i then OFFSET_MASK i else 0.
Proof.
  intros Hi. apply Z.bits_inj'. intros j Hj. rewrite Z.land_spec, mask_bit by lia.
  destruct (Z.eqb_spec i j) as [<-|Hne].
  - rewrite andb_true_r. destruct (Z.testbit w i); [by rewrite mask_bit, Z.eqb_refl by lia|].
    by rewrite Z.bits_0.
  - rewrite andb_false_r. destruct (Z.testbit w i); [|by rewrite Z.bits_0].
    rewrite mask_bit by lia. symmetry. by apply Z.eqb_neq.
Qed.

Lemma mask_nonzero i : 0 <= i < 32 -> OFFSET_MASK i <> 0.
Proof.
  intros Hi H. pose proof (mask_bit i i Hi ltac:(lia)) as Hb.
  rewrite H, Z.bits_0, Z.eqb_refl in Hb. done.
Qed.

Lemma frame_test_run s f :
  0 <= f -> frame_test f s = Ok (if taken s f then OFFSET_MASK (BIT_OFFSET f) else 0, s).
Proof.
  intros Hf. pose proof (offset_range f). unfold taken. rewrite <- land_mask by done.
  destruct s as [[] ? ?]; done.
Qed.

(** *** The search for a free frame *)

(** A frame in the word that starts at frame [idx]. *)
Lemma index_in_word k j :
  0 <= k -> 0 <= j < 32 -> BIT_INDEX (32 * k + j) = k /\ BIT_OFFSET (32 * k + j) = j.
Proof.
  intros Hk Hj. pose proof (index_offset (32 * k + j)). pose proof (offset_range (32 * k + j)).
  lia.
Qed.

Lemma lor_offset k j : 0 <= k -> 0 <= j < 32 -> Z.lor (32 * k) j = 32 * k + j.
Proof.
  intros Hk Hj. symmetry. apply Z.add_nocarry_lor.
  apply Z.bits_inj'. intros i Hi. rewrite Z.land_spec, Z.bits_0.
  destruct (decide (i < 5)).
  - replace (32 * k) with (k * 2 ^ 5) by lia. by rewrite Z.mul_pow2_bits_low.
  - rewrite (Z.bits_above_log2 j); [by rewrite andb_false_r|lia|].
    destruct (decide (j = 0)) as [->|]; [cbn; lia|].
    apply Z.log2_lt_pow2; [lia|]. assert (2 ^ 5 <= 2 ^ i) by (apply Z.pow_le_mono_r; lia). lia.
Qed.

Lemma find_offset_spec n o map :
  0 <= o -> o + Z.of_nat n <= 32 ->
  match find_offset n o map with
  | Some j => o <= j < 32 /\ Z.testbit map j = false /\
              forall i, o <= i < j -> Z.testbit map i = true
  | None => forall i, o <= i < o + Z.of_nat n -> Z.testbit map i = true
  end.
Proof.
  revert o. induction n as [|n IH]; intros o Ho Hn; cbn [find_offset]; [lia|].
  assert (BIT_OFFSET o = o) as ->.
  { destruct (index_in_word 0 o ltac:(lia) ltac:(lia)) as [_ E]. exact E. }
  rewrite land_mask by lia. destruct (Z.testbit map o) eqn:Hb.
  - rewrite (proj2 (Z.eqb_neq _ 0)) by (apply mask_nonzero; lia).
    specialize (IH (o + 1) ltac:(lia) ltac:(lia)).
    destruct (find_offset n (o + 1) map) as [j|].
    + destruct IH as (? & ? & Hlow). split_and!; [lia|lia|done|].
      intros i Hi. destruct (decide (i = o)) as [->|]; [done|]. apply Hlow. lia.
    + intros i Hi. destruct (decide (i = o)) as [->|]; [done|]. apply IH. lia.
  - cbn. split_and!; [lia|lia|done|]. lia.
Qed.

Lemma all_ones_bits j : 0 <= j < 32 -> Z.testbit (u32 (-1)) j = true.
Proof. intros Hj. rewrite u32_bit by done. apply Z.bits_m1. lia. Qed.

(** The frames that have a bit: the last word of the bitmap may have more bits than
    there are frames left. *)
Definition bitmap_frames (s : pmm) : Z := 32 * ((frames_count s + 31) / 32).

Lemma bitmap_frames_spec s k : 32 * k < bitmap_frames s <-> 32 * k < frames_count s.
Proof. unfold bitmap_frames. Z.to_euclidean_division_equations. lia. Qed.

(** The search returns the lowest free frame of the words in use. *)
Lemma find_free_loop_spec fuel s k :
  0 <= k -> frames_count s <= 1048576 -> 32 * k <= frames_count s + 31 ->
  (Z.to_nat (frames_count s + 31 - 32 * k) < 32 * fuel)%nat ->
  (forall g, 0 <= g < 32 * k -> taken s g = true) ->
  exists r, find_free_loop fuel (32 * k) s = Ok (r, s) /\
    ((0 <= r < 1048576 /\ r < bitmap_frames s /\ taken s r = false /\
      forall g, 0 <= g < r -> taken s g = true) \/
     (r = u32 (-1) /\ forall g, 0 <= g < bitmap_frames s -> taken s g = true)).
Proof.
  revert k. induction fuel as [|fuel IH]; intros k Hk Hc Hk32 Hf Hlow; [lia|].
  cbn [find_free_loop]. rewrite gets_bind. rewrite if_app.
  destruct (Z.ltb_spec (32 * k) (frames_count s)) as [Hlt|Hge]; cbn [negb].
  2:{ exists (u32 (-1)). split; [done|]. right. split; [done|]. intros g Hg. apply Hlow.
      pose proof (bitmap_frames_spec s k). lia. }
  unfold word_of. rewrite gets_bind.
  set (map := load32 (k_mem (p_k s)) (frames_map s + 4 * BIT_INDEX (32 * k))).
  rewrite (bind_Ok _ _ s map s) by (by destruct s as [[] ? ?]).
  assert (forall i, 0 <= i < 32 -> taken s (32 * k + i) = Z.testbit map i) as Htk.
  { intros i Hi. unfold taken. destruct (index_in_word k i Hk Hi) as [-> ->].
    subst map. destruct (index_in_word k 0 Hk ltac:(lia)) as [E _].
    rewrite Z.add_0_r in E. by rewrite E. }
  assert ((forall i, 0 <= i < 32 -> Z.testbit map i = true) ->
    exists r, find_free_loop fuel (32 * k +w 32) s = Ok (r, s) /\
    ((0 <= r < 1048576 /\ r < bitmap_frames s /\ taken s r = false /\
      forall g, 0 <= g < r -> taken s g = true) \/
     (r = u32 (-1) /\ forall g, 0 <= g < bitmap_frames s -> taken s g = true))) as Hnext.
  { intros Hall. rewrite u32_small by lia.
    replace (32 * k + 32) with (32 * (k + 1)) by lia. apply IH; [lia..|].
    intros g Hg. destruct (decide (g < 32 * k)); [by apply Hlow; lia|].
    replace g with (32 * k + (g - 32 * k)) by lia. rewrite Htk by lia. apply Hall. lia. }
  rewrite if_app. destruct (Z.eqb_spec map (u32 (-1))) as [Hones|_]; cbn [negb].
  { apply Hnext. intros i Hi. rewrite Hones. by apply all_ones_bits. }
  pose proof (find_offset_spec 32 0 map ltac:(lia) ltac:(lia)) as Hoff.
  destruct (find_offset 32 0 map) as [j|]; [|by apply Hnext].
  destruct Hoff as (Hj & Hfree & Hbelow). exists (32 * k + j).
  rewrite lor_offset by lia. split; [done|]. left.
  assert (32 * k + j < bitmap_frames s)
    by (unfold bitmap_frames; Z.to_euclidean_division_equations; lia).
  split_and!; [lia|lia|done|by rewrite Htk|].
  intros g Hg. destruct (decide (g < 32 * k)); [by apply Hlow; lia|].
  replace g with (32 * k + (g - 32 * k)) by lia. rewrite Htk by lia. apply Hbelow. lia.
Qed.

Lemma find_free_run s :
  0 <= frames_count s <= 1048576 ->
  exists r, frame_find_free s = Ok (r, s) /\
    ((0 <= r < 1048576 /\ r < bitmap_frames s /\ taken s r = false /\
      forall g, 0 <= g < r -> taken s g = true) \/
     (r = u32 (-1) /\ forall g, 0 <= g < bitmap_frames s -> taken s g = true)).
Proof. intros H. apply (find_free_loop_spec FIND_FUEL s 0); unfold FIND_FUEL; intros; lia. Qed.

(** The outcome of [pmm_alloc_page]. *)
Definition alloc_result (s : pmm) (a : Z) (s' : pmm) : Prop :=
  (a = 0 /\ s' = s /\ forall g, 0 <= g < bitmap_frames s -> taken s g = true) \/
  (exists r, 0 <= r < 1048576 /\ r < bitmap_frames s /\ a = 4096 * r /\
     taken s r = false /\ (forall g, 0 <= g < r -> taken s g = true) /\
     same_but_map s s' /\ forall g, 0 <= g -> taken s' g = (r =? g) || taken s g).

Lemma physical_addr r : 0 <= r < 1048576 -> PHYSICAL_ADDR r = 4096 * r.
Proof.
  intros Hr. unfold PHYSICAL_ADDR. rewrite Z.shiftl_mul_pow2 by lia. rewrite u32_small; lia.
Qed.

Lemma frame_number_page r : 0 <= r -> FRAME_NUMBER (4096 * r) = r.
Proof.
  intros Hr. unfold FRAME_NUMBER. rewrite Z.shiftr_div_pow2 by lia.
  change (2 ^ 12) with 4096. rewrite Z.mul_comm. apply Z.div_mul. lia.
Qed.

Lemma alloc_page_run s :
  0 <= frames_count s <= 1048576 ->
  exists a s', pmm_alloc_page s = Ok (a, s') /\ alloc_result s a s'.
Proof.
  intros Hc. destruct (find_free_run s Hc) as (r & Hrun & Hcase).
  unfold pmm_alloc_page. mstep Hrun.
  destruct Hcase as [(Hr & Hr' & Hfree & Hlow)|[-> Hall]].
  - rewrite (proj2 (Z.eqb_neq r _)) by (change (u32 (-1)) with 4294967295; lia).
    destruct (frame_set_run s r ltac:(lia)) as (s' & Hset & Hsame & Htk). mstep Hset.
    exists (PHYSICAL_ADDR r), s'. split; [done|]. right. exists r.
    rewrite physical_addr by lia. done.
  - exists 0, s. split; [done|]. left. done.
Qed.

Lemma free_page_run s r :
  0 <= r ->
  exists s', pmm_free_page (4096 * r) s = Ok (tt, s') /\ same_but_map s s' /\
    forall g, 0 <= g -> taken s' g = negb (r =? g) && taken s g.
Proof.
  intros Hr. unfold pmm_free_page. rewrite frame_number_page by done.
  by apply frame_clear_run.
Qed.

(** *** Reserving a range *)

(** The 64-bit field at [a], when the bitmap does not overlap it. *)
Definition clear_of_map (s : pmm) (a : Z) : Prop :=
  forall f, 0 <= f < frames_count s ->
  let w := frames_map s + 4 * BIT_INDEX f in w + 4 <= a \/ a + 8 <= w.

Definition load64 (s : pmm) (a : Z) : Z :=
  load32 (k_mem (p_k s)) a + 4294967296 * load32 (k_mem (p_k s)) (a + 4).

Lemma ld64_run s a : ld64 a s = Ok (load64 s a, s).
Proof. by destruct s as [[] ? ?]. Qed.

Lemma load64_range s a : 0 <= load64 s a.
Proof.
  unfold load64. pose proof (load32_range (k_mem (p_k s)) a).
  pose proof (load32_range (k_mem (p_k s)) (a + 4)). lia.
Qed.

Lemma frame_set_load64 s f s' a :
  0 <= f < frames_count s -> clear_of_map s a -> frame_set f s = Ok (tt, s') ->
  load64 s' a = load64 s a.
Proof.
  intros Hf Hclr. specialize (Hclr f Hf). cbn in Hclr. intros Hrun.
  assert (s' = write_word s f (Z.lor (word s f) (OFFSET_MASK (BIT_OFFSET f)))) as ->
    by (by injection Hrun).
  unfold load64, write_word. cbn [set_k p_k set_mem k_mem].
  rewrite !load32_store32_ne by lia. done.
Qed.

(** From frame [f0] on, while the block's length lasts. *)
Definition in_block (f0 len g : Z) : bool := (f0 <=? g) && (4096 * (g - f0) <? len).

(** A byte of the block lies in frame [g]. *)
Definition covers (base len g : Z) : bool := (base <? 4096 * (g + 1)) && (4096 * g <? base + len).

(** The marked frames are the covered ones, except for the last one of a block
    whose base is not aligned. *)
Lemma block_frames base len :
  0 <= base -> 0 <= len ->
  (base mod 4096 = 0 -> forall g, in_block (base / 4096) len g = covers base len g) /\
  (forall g, in_block (base / 4096) len g = true -> covers base len g = true) /\
  (forall g, covers base len g = true ->
    in_block (base / 4096) len g = true \/ g = (base + len - 1) / 4096).
Proof.
  intros Hb Hl. unfold in_block, covers.
  pose proof (Z.div_mod base 4096 ltac:(lia)) as E. pose proof (Z.mod_pos_bound base 4096 ltac:(lia)).
  set (f := base / 4096) in *. set (o := base mod 4096) in *. split_and!.
  - intros Ho g. apply eq_iff_eq_true. rewrite !andb_true_iff, Z.leb_le, !Z.ltb_lt. lia.
  - intros g. rewrite !andb_true_iff, Z.leb_le, !Z.ltb_lt. lia.
  - intros g. rewrite !andb_true_iff, Z.leb_le, !Z.ltb_lt. intros [H1 H2].
    destruct (Z.lt_ge_cases (4096 * (g - f)) len); [left; lia|right].
    apply (Z.div_unique_pos _ _ _ (base + len - 1 - 4096 * g)); lia.
Qed.

Lemma reserve_loop_run fuel s mblock f0 f :
  frames_count s <= 1048576 -> 0 <= f0 <= f -> f - f0 <= 1048576 ->
  clear_of_map s (mblock + mm_length) ->
  frames_count s - f < Z.of_nat fuel -> (0 < fuel)%nat ->
  let len := load64 s (mblock + mm_length) in
  exists s', reserve_loop fuel mblock f (u32 (4096 * (f - f0))) s = Ok (tt, s') /\
    same_but_map s s' /\
    forall g, 0 <= g ->
    taken s' g = ((f <=? g) && (g <? frames_count s) && in_block f0 len g) || taken s g.
Proof.
  revert s f. induction fuel as [|fuel IH]; intros s f Hc Hf Hd Hclr Hfuel H0 len; [lia|].
  cbn [reserve_loop]. rewrite gets_bind. mstep (ld64_run s (mblock + mm_length)).
  fold len. rewrite if_app.
  destruct (Z.ltb_spec f (frames_count s)) as [Hlt|Hge]; cbn [andb].
  2:{ exists s. split; [done|]. split; [apply same_but_map_refl|]. intros g Hg.
      destruct (Z.leb_spec f g), (Z.ltb_spec g (frames_count s)); cbn [andb orb]; done || lia. }
  rewrite u32_small by lia.
  destruct (Z.ltb_spec (4096 * (f - f0)) len) as [Hl|Hge].
  2:{ exists s. split; [done|]. split; [apply same_but_map_refl|]. intros g Hg. unfold in_block.
      destruct (Z.leb_spec f g); [|done].
      destruct (Z.ltb_spec (4096 * (g - f0)) len); [lia|]. by rewrite !andb_false_r. }
  destruct (frame_set_run s f ltac:(lia)) as (s1 & Hset & (E1 & E2 & E3) & Htk).
  mstep Hset. rewrite (u32_small (f + 1)) by lia.
  pose proof (frame_set_load64 s f s1 _ ltac:(lia) Hclr Hset) as Hlen.
  destruct (IH s1 (f + 1)) as (s' & Hrun & (F1 & F2 & F3) & Htk'); try lia.
  { intros g Hg. rewrite E1. apply Hclr. lia. }
  replace (4096 * (f - f0) +w 0x1000) with (u32 (4096 * (f + 1 - f0))) by (f_equal; lia).
  exists s'. split; [exact Hrun|]. split.
  { split_and!; [congruence..|exact (same_rest_trans _ _ _ E3 F3)]. }
  intros g Hg. rewrite Htk' by done. rewrite Htk, Hlen, E2 by done. fold len.
  unfold in_block. destruct (Z.eqb_spec f g) as [<-|Hne].
  - rewrite (proj2 (Z.leb_le f f)), (proj2 (Z.ltb_lt f _)), (proj2 (Z.leb_le f0 f)) by lia.
    rewrite (proj2 (Z.ltb_lt (4096 * (f - f0)) len)) by done.
    by rewrite (proj2 (Z.leb_gt (f + 1) f)) by lia.
  - cbn [orb]. f_equal. do 2 f_equal.
    destruct (Z.leb_spec (f + 1) g), (Z.leb_spec f g); done || lia.
Qed.

End Bits.

Import Impl Bits.

(** ** Clients *)

(** Pages handed out and not given back. *)
Inductive page_step : pmm * list Z -> pmm * list Z -> Prop :=
  | page_alloc s held a s' :
      pmm_alloc_page s = Ok (a, s') -> a <> 0 -> page_step (s, held) (s', a :: held)
  | page_alloc_fails s held s' :
      pmm_alloc_page s = Ok (0, s') -> page_step (s, held) (s', held)
  | page_free s l a r s' :
      pmm_free_page a s = Ok (tt, s') -> page_step (s, l ++ a :: r) (s', l ++ r).

(** Every page held is aligned and its frame is marked. *)
Definition page_inv (c : pmm * list Z) : Prop :=
  0 <= frames_count c.1 <= 1048576 /\ NoDup c.2 /\
  Forall (fun a => exists r, 0 < r < 1048576 /\ a = 4096 * r /\ taken c.1 r = true) c.2.

Lemma page_inv_step c c' : page_step c c' -> page_inv c -> page_inv c'.
Proof.
  intros Hstep (Hc & Hnd & HF).
  destruct Hstep as [s held a s' Hrun Ha|s held s' Hrun|s l a r s' Hrun]; cbn [fst snd] in *.
  1,2: destruct (alloc_page_run s Hc) as (a' & s'' & Hrun' & Hres);
    rewrite Hrun in Hrun'; injection Hrun' as <- <-.
  - destruct Hres as [(-> & _)|(r & Hr & _ & -> & Hfree & _ & (_ & E & _) & Htk)]; [done|].
    unfold page_inv. cbn [fst snd]. rewrite E. split_and!; [lia..| |].
    + apply NoDup_cons. split; [|done]. intros Hin. rewrite Forall_forall in HF.
      destruct (HF _ Hin) as (r' & ? & Heq & Ht). assert (r' = r) by lia. congruence.
    + apply Forall_cons. split.
      * exists r. split_and!; [lia|lia|done|]. by rewrite Htk, Z.eqb_refl by lia.
      * eapply Forall_impl; [exact HF|]. intros b (r' & ? & ? & Ht). exists r'.
        split_and!; [lia..|]. by rewrite Htk, Ht, orb_true_r by lia.
  - destruct Hres as [(_ & -> & _)|(r & Hr & _ & Hz & _ & _ & (_ & E & _) & Htk)]; [done|].
    unfold page_inv. cbn [fst snd]. rewrite E. split_and!; [lia..|done|].
    eapply Forall_impl; [exact HF|]. intros b (r' & ? & ? & Ht). exists r'.
    split_and!; [lia..|]. by rewrite Htk, Ht, orb_true_r by lia.
  - pose proof HF as [HFl (HFa & HFr)%Forall_cons]%Forall_app.
    destruct HFa as (k & Hk & -> & Ht).
    destruct (free_page_run s k ltac:(lia)) as (s'' & Hrun' & (_ & E & _) & Htk).
    rewrite Hrun in Hrun'. injection Hrun' as <-.
    unfold page_inv. cbn [fst snd]. rewrite E.
    rewrite <- Permutation_middle in Hnd. apply NoDup_cons in Hnd as [Hnin Hnd].
    split_and!; [lia..|done|]. apply Forall_forall. intros b Hb.
    assert (b ∈ l ++ 4096 * k :: r) as Hb'.
    { apply elem_of_app in Hb as [?|?]; apply elem_of_app; [by left|right; by right]. }
    rewrite Forall_forall in HF. destruct (HF b Hb') as (r' & ? & -> & Ht').
    exists r'. split_and!; [lia..|]. rewrite Htk, Ht' by lia.
    destruct (Z.eqb_spec k r') as [->|]; [done|done].
Qed.

(** A bitmap of 64 frames at 0x1000, of which the first 34 are taken. *)
Definition sample_pmm : pmm :=
  Pmm (set_mem (store32 (store32 ∅ 0x1000 0xFFFFFFFF) 0x1004 3) boot_state) 0x1000 64.

(** Boot on a machine with 4 MB whose kernel lies at 1 MB and whose heap is at
    2 MB, then an allocation: [malloc] before and after [pmm_init]. *)
Definition overflow_history : M pmm (Z * Z) :=
  _ ← kern (st32 (0x9000 + mb_mem_upper) 4095);
  _ ← kern (Heap.Impl.heap_init 0x200000);
  p ← kern (Heap.Impl.malloc 16);
  _ ← kern (Heap.Impl.free p);
  _ ← pmm_init 10 0x9000 0x100000 0x108000;
  q ← kern (Heap.Impl.malloc 16);
  mret (p, q).

(** ** Properties *)

(** C13: [pmm_alloc_page] takes the lowest frame whose bit in the bitmap is clear
    and returns its address; every other frame's bit is kept.  It returns 0 with
    nothing changed when no bit of the bitmap's words is clear (and, with its bit
    set, for frame 0, see below).  The last word has
    bits for up to 31 frames behind the memory's [frames_count]: such a frame is
    taken, and an address beyond the memory returned, exactly when every frame
    of the memory is taken and its bit is the first that is clear. *)
Theorem pmm_alloc_takes_lowest s (Hc : 0 <= frames_count s <= 1048576) :
  exists a s', pmm_alloc_page s = Ok (a, s') /\
    ((a = 0 /\ s' = s /\ forall g, 0 <= g < bitmap_frames s -> taken s g = true) \/
     (exists r, 0 <= r < bitmap_frames s /\ a = 4096 * r /\
        taken s r = false /\ (forall g, 0 <= g < r -> taken s g = true) /\
        same_but_map s s' /\ (forall g, 0 <= g -> taken s' g = (r =? g) || taken s g) /\
        (frames_count s <= r <-> forall g, 0 <= g < frames_count s -> taken s g = true))).
Proof.
  destruct (alloc_page_run s Hc) as (a & s' & Hrun & Hres). exists a, s'. split; [done|].
  destruct Hres as [?|(r & Hr & Hr' & -> & Hfree & Hlow & Hsame & Htk)]; [by left|right].
  exists r. split_and!; [lia|lia|done..|]. split; [intros Hge g Hg; apply Hlow; lia|].
  intros Hall. destruct (Z.le_gt_cases (frames_count s) r) as [|Hlt]; [done|].
  by rewrite (Hall r) in Hfree by lia.
Qed.

Lemma pmm_alloc_takes_lowest_witness :
  exists s', pmm_alloc_page sample_pmm = Ok (4096 * 34, s') /\ taken s' 34 = true.
Proof.
  destruct (pmm_alloc_takes_lowest sample_pmm ltac:(cbn; lia)) as (a & s' & Hrun & Hres).
  destruct Hres as [(_ & _ & Hall)|(r & Hr & -> & Hfree & Hlow & _ & Htk & _)].
  { specialize (Hall 34 ltac:(by vm_compute)). vm_compute in Hall. discriminate Hall. }
  assert (r = 34) as ->.
  { destruct (Z.lt_trichotomy r 34) as [Hlt|[->|Hgt]]; [|done|].
    - assert (forallb (fun i => taken sample_pmm (Z.of_nat i)) (seq 0 34) = true) as Hall
        by (vm_compute; reflexivity).
      rewrite forallb_forall in Hall. specialize (Hall (Z.to_nat r) ltac:(apply in_seq; lia)).
      rewrite Z2Nat.id in Hall by lia. congruence.
    - specialize (Hlow 34 ltac:(lia)). vm_compute in Hlow. discriminate Hlow. }
  exists s'. split; [exact Hrun|]. by rewrite Htk.
Defined.

(** A bitmap of 40 frames that are all taken: the next page is frame 40, behind
    the memory. *)
Lemma pmm_alloc_past_memory :
  let s := Pmm (set_mem (store32 (store32 ∅ 0x1000 0xFFFFFFFF) 0x1004 0xFF) boot_state) 0x1000 40 in
  (forall g, 0 <= g < 40 -> taken s g = true) /\
  exists s', pmm_alloc_page s = Ok (4096 * 40, s').
Proof.
  intros s. split; [|by eexists; vm_compute; reflexivity]. intros g Hg.
  assert (forallb (fun i => taken s (Z.of_nat i)) (seq 0 40) = true) as Hall
    by (vm_compute; reflexivity).
  rewrite forallb_forall in Hall. specialize (Hall (Z.to_nat g) ltac:(apply in_seq; lia)).
  by rewrite Z2Nat.id in Hall by lia.
Qed.

(** A page that is allocated and given back leaves every frame's bit as it
    was. *)
Theorem pmm_alloc_free_roundtrip s a s1
    (Hc : 0 <= frames_count s <= 1048576) (Ha : pmm_alloc_page s = Ok (a, s1)) (H0 : a <> 0) :
  exists s2, pmm_free_page a s1 = Ok (tt, s2) /\ forall g, 0 <= g -> taken s2 g = taken s g.
Proof.
  destruct (alloc_page_run s Hc) as (a' & s1' & Ha' & Hres).
  rewrite Ha in Ha'. injection Ha' as <- <-.
  destruct Hres as [(-> & _)|(r & Hr & _ & -> & Hfree & _ & _ & Htk)]; [done|].
  destruct (free_page_run s1 r ltac:(lia)) as (s2 & Hrun & _ & Htk2).
  exists s2. split; [done|]. intros g Hg. rewrite Htk2, Htk by done.
  destruct (Z.eqb_spec r g) as [<-|]; [by rewrite Hfree|done].
Qed.

Lemma pmm_alloc_free_roundtrip_witness :
  exists s1 s2, pmm_alloc_page sample_pmm = Ok (4096 * 34, s1) /\
    pmm_free_page (4096 * 34) s1 = Ok (tt, s2).
Proof.
  eassert (pmm_alloc_page sample_pmm = Ok (4096 * 34, _)) as Hrun
    by (vm_compute; reflexivity).
  destruct (pmm_alloc_free_roundtrip sample_pmm _ _ ltac:(cbn; lia) Hrun ltac:(done))
    as (s2 & Hf & _).
  eexists _, s2. split; [exact Hrun|exact Hf].
Defined.

(** C27: No page is handed out twice.  After any sequence of allocations and
    returns of pages held, the pages held are distinct and page-aligned. *)
Theorem pmm_pages_distinct s s' held
    (Hc : 0 <= frames_count s <= 1048576) (Hsteps : rtc page_step (s, []) (s', held)) :
  NoDup held /\ Forall (fun a => exists r, a = 4096 * r /\ taken s' r = true) held.
Proof.
  assert (page_inv (s, [])) as H0 by (split_and!; cbn; [lia..|constructor|constructor]).
  assert (page_inv (s', held)) as (_ & Hnd & HF)
    by (clear Hc; induction Hsteps; eauto using page_inv_step).
  split; [done|]. eapply Forall_impl; [exact HF|]. intros a (r & _ & ? & ?). by exists r.
Qed.

Lemma pmm_pages_distinct_witness :
  exists s1 s2, NoDup [4096 * 35; 4096 * 34] /\ rtc page_step (sample_pmm, [])
    (s2, [4096 * 35; 4096 * 34]) /\ pmm_alloc_page sample_pmm = Ok (4096 * 34, s1).
Proof.
  eassert (pmm_alloc_page sample_pmm = Ok (4096 * 34, _)) as Hrun1
    by (vm_compute; reflexivity).
  match type of Hrun1 with _ = Ok (_, ?s) => set (s1 := s) in Hrun1 end.
  eassert (pmm_alloc_page s1 = Ok (4096 * 35, _)) as Hrun2
    by (vm_compute; reflexivity).
  match type of Hrun2 with _ = Ok (_, ?s) => set (s2 := s) in Hrun2 end.
  assert (rtc page_step (sample_pmm, []) (s2, [4096 * 35; 4096 * 34])) as Hsteps.
  { eapply rtc_l; [apply (page_alloc _ [] _ _ Hrun1); done|].
    eapply rtc_l; [apply (page_alloc _ [4096 * 34] _ _ Hrun2); done|]. apply rtc_refl. }
  destruct (pmm_pages_distinct sample_pmm s2 _ ltac:(cbn; lia) Hsteps) as [Hnd _].
  exists s1, s2. split; [exact Hnd|split; [exact Hsteps|exact Hrun1]].
Defined.

(** C28: [reserve_system_block] marks frames in steps of 4096 bytes from the frame
    of the block's base address, for as long as the block's length lasts, up to
    the number of frames; the other bits are kept.  If the base is aligned these
    are exactly the frames that the block's bytes lie in.  If it is not, they are
    among those, and the only one that may be left out is the one of its last
    byte. *)
Theorem reserve_block_marks s mblock
    (Hc : 0 <= frames_count s <= 1048576)
    (Hclr : clear_of_map s (mblock + mm_length))
    (Hbase : load64 s (mblock + mm_base_addr) < W32) :
  let f0 := load64 s (mblock + mm_base_addr) / 4096 in
  let len := load64 s (mblock + mm_length) in
  exists s', reserve_system_block mblock s = Ok (tt, s') /\ same_but_map s s' /\
    (forall g, 0 <= g ->
      taken s' g = ((g <? frames_count s) && in_block f0 len g) || taken s g) /\
    let base := load64 s (mblock + mm_base_addr) in
    (base mod 4096 = 0 -> forall g, in_block f0 len g = covers base len g) /\
    (forall g, in_block f0 len g = true -> covers base len g = true) /\
    (forall g, covers base len g = true ->
      in_block f0 len g = true \/ g = (base + len - 1) / 4096).
Proof.
  intros f0 len. pose proof (load64_range s (mblock + mm_base_addr)) as Hb0.
  pose proof (load64_range s (mblock + mm_length)) as Hl0.
  unfold reserve_system_block. mstep (ld64_run s (mblock + mm_base_addr)).
  assert (u32 (FRAME_NUMBER (load64 s (mblock + mm_base_addr))) = f0) as ->.
  { unfold FRAME_NUMBER. rewrite Z.shiftr_div_pow2 by lia. change (2 ^ 12) with 4096.
    apply u32_small. subst f0. split; [by apply Z.div_pos|].
    apply Z.div_lt_upper_bound; lia. }
  assert (0 <= f0 < 1048576) as Hf0.
  { subst f0. split; [by apply Z.div_pos|]. apply Z.div_lt_upper_bound; lia. }
  destruct (reserve_loop_run RESERVE_FUEL s mblock f0 f0) as (s' & Hrun & Hsame & Htk);
    [lia|lia|lia|done|unfold RESERVE_FUEL; lia|unfold RESERVE_FUEL; lia|].
  replace (4096 * (f0 - f0)) with 0 in Hrun by lia. exists s'. split; [exact Hrun|].
  split; [done|]. split; [|exact (block_frames _ _ Hb0 Hl0)].
  intros g Hg. rewrite Htk by done. f_equal. unfold in_block.
  destruct (Z.leb_spec f0 g); cbn [andb]; [done|]. by rewrite andb_false_r.
Qed.

(** Frame 34 on, 6144 bytes. *)
Lemma reserve_block_marks_witness :
  let s := set_k (set_mem (store32 (store32 (k_mem (p_k sample_pmm)) 0x4004 0x22000) 0x400C 0x1800)
    (p_k sample_pmm)) sample_pmm in
  exists s', reserve_system_block 0x4000 s = Ok (tt, s') /\
    taken s 34 = false /\ taken s' 34 = true /\ taken s' 35 = true /\ taken s' 36 = false.
Proof.
  intros s. destruct (reserve_block_marks s 0x4000) as (s' & Hrun & _ & Htk & _).
  - cbn. lia.
  - intros f Hf w. left. change (0 <= f < 64) in Hf.
    change (0x1000 + 4 * Z.shiftr f 5 + 4 <= 0x400c).
    rewrite Z.shiftr_div_pow2 by lia. change (2 ^ 5) with 32.
    pose proof (Z.div_lt_upper_bound f 32 2). lia.
  - vm_compute. reflexivity.
  - exists s'. split; [exact Hrun|]. split; [vm_compute; reflexivity|].
    split; [|split]; rewrite Htk by lia; vm_compute; reflexivity.
Defined.

(** The byte range [0xFFF, 0x1001) lies in the frames 0 and 1; only frame 0 is
    marked. *)
Lemma reserve_leaves_last_frame :
  covers 0xFFF 2 1 = true /\ in_block (0xFFF / 4096) 2 1 = false.
Proof. by vm_compute. Qed.

(** When frame 0 is free, [pmm_alloc_page] takes it and returns its address
    0, the value that means failure: the caller cannot use the page and the
    frame is lost. *)
Theorem pmm_alloc_loses_frame_zero s
    (Hc : 0 < frames_count s <= 1048576) (Hfree : taken s 0 = false) :
  exists s', pmm_alloc_page s = Ok (0, s') /\ taken s' 0 = true.
Proof.
  destruct (alloc_page_run s ltac:(lia)) as (a & s' & Hrun & Hres).
  destruct Hres as [(_ & _ & Hall)|(r & Hr & _ & -> & _ & Hlow & _ & Htk)].
  - by rewrite (Hall 0) in Hfree by (pose proof (bitmap_frames_spec s 0); lia).
  - destruct (decide (r = 0)) as [->|].
    + exists s'. split; [done|]. by rewrite Htk by lia.
    + by rewrite (Hlow 0) in Hfree by lia.
Qed.

Lemma pmm_alloc_loses_frame_zero_witness :
  exists s', pmm_alloc_page (Pmm boot_state 0x1000 64) = Ok (0, s') /\ taken s' 0 = true.
Proof. apply (pmm_alloc_loses_frame_zero (Pmm boot_state 0x1000 64)); [cbn; lia|done]. Defined.

(** *** The size of the bitmap *)

(** A byte whose bit 1 is set is none of the bytes of a block's magic number. *)
Lemma magic_byte m h d :
  0 <= d < 4 -> load32 m h = Heap.Impl.HEAP_MAGIC_HEAD -> Z.testbit (load8 m (h + d)) 1 = false.
Proof.
  intros Hd Hm. unfold load32 in Hm. change Heap.Impl.HEAP_MAGIC_HEAD with 0x51514949 in Hm.
  pose proof (load8_range m h). pose proof (load8_range m (h + 1)).
  pose proof (load8_range m (h + 2)). pose proof (load8_range m (h + 3)).
  assert (d = 0 \/ d = 1 \/ d = 2 \/ d = 3) as [->|[->|[->| ->]]] by lia; rewrite ?Z.add_0_r.
  - replace (load8 m h) with 0x49 by lia. done.
  - replace (load8 m (h + 1)) with 0x49 by lia. done.
  - replace (load8 m (h + 2)) with 0x51 by lia. done.
  - replace (load8 m (h + 3)) with 0x51 by lia. done.
Qed.

Lemma lor_bit_1 m a w : Z.testbit (load8 (store32 m a (Z.lor w 2)) a) 1 = true.
Proof.
  unfold store32. rewrite !load8_store8_ne by lia. rewrite load8_store8_eq. unfold u8.
  change 256 with (2 ^ 8). rewrite Z.mod_pow2_bits_low, Z.lor_spec by lia. apply orb_true_r.
Qed.

(** [malloc] in a heap whose only other block has a damaged header. *)
Lemma malloc_damaged lo b r s n :
  Heap.Chain.seg (k_mem s) lo [b] r -> Heap.Spec.b_used b = true -> 0 < lo -> r <> 0 ->
  load32 (k_mem s) r <> Heap.Impl.HEAP_MAGIC_HEAD ->
  k_heap_root s = lo -> k_heap_lock s = 0 -> Heap.Impl.malloc n s = Ok (0, s).
Proof.
  intros ((B1 & B2 & B3 & _) & _ & _) Hu Hlo Hr Hbad Hroot Hlock. rewrite Hu in B2.
  unfold Heap.Impl.malloc, Heap.Impl.heap_alloc. rewrite gets_bind, Hroot.
  mstep (Heap.Refine.lock_heap_free s Hlock). set (s1 := set_lock 1 s).
  assert (Heap.Impl.heap_alloc_loop Heap.Impl.HEAP_FUEL lo n s1 = Ok (0, s1)) as Hl.
  { replace Heap.Impl.HEAP_FUEL with (S (S (Z.to_nat 65534))) by (unfold Heap.Impl.HEAP_FUEL; lia).
    change (k_mem s) with (k_mem s1) in *.
    cbn [Heap.Impl.heap_alloc_loop]. rewrite (proj2 (Z.eqb_neq lo 0)) by lia. krun.
    rewrite B1, B2, B3. cbn [negb Z.eqb]. rewrite (proj2 (Z.eqb_neq r 0)) by done. krun.
    unfold Heap.Impl.o_magic. rewrite Z.add_0_r, (proj2 (Z.eqb_neq _ _) Hbad). done. }
  mstep Hl. mstep (Heap.Refine.unlock_heap_run s1). unfold s1, set_lock. cbn. by rewrite <- Hlock; destruct s.
Qed.

(** What [allocate_frames] does on a fresh heap: it takes a byte for each word of
    the bitmap. *)
Lemma allocate_frames_run lo mbi s :
  Heap.Chain.heap_inv lo (lo + Heap.Impl.heap_size) (p_k s) Heap.Interface.initial_chain ->
  let count := FRAME_NUMBER (u32 (Z.shiftl (load32 (k_mem (p_k s)) (mbi + mb_mem_upper) +w 1) 10)) in
  let size := (count + 31) / 32 in
  exists m, allocate_frames mbi s = Ok (tt, Pmm (set_mem m (p_k s)) (lo + 20) count) /\
    Heap.Chain.seg m lo [Heap.Spec.Blk size true 0;
      Heap.Spec.Blk (Heap.Impl.heap_size - 20 - size - 20) false lo] 0.
Proof.
  intros Hinv count size. assert (0 <= count <= 1048575) as Hc.
  { unfold count, FRAME_NUMBER. rewrite Z.shiftr_div_pow2 by lia.
    pose proof (u32_range (Z.shiftl (load32 (k_mem (p_k s)) (mbi + mb_mem_upper) +w 1) 10)).
    Z.to_euclidean_division_equations. lia. }
  assert (0 <= size <= 32768) as Hsz by (unfold size; Z.to_euclidean_division_equations; lia).
  assert ((if negb (BIT_OFFSET count =? 0) then BIT_INDEX count +w 1 else BIT_INDEX count) = size) as Esz.
  { pose proof (index_offset count). pose proof (offset_range count).
    assert (0 <= BIT_INDEX count <= 32768) by lia. unfold size.
    destruct (Z.eqb_spec (BIT_OFFSET count) 0); cbn [negb]; rewrite ?u32_small by lia;
      Z.to_euclidean_division_equations; lia. }
  pose proof (Heap.Refine.heap_alloc_first_fit lo _ size _ (p_k s) Hinv ltac:(lia) ltac:(lia)) as H.
  unfold Heap.Interface.initial_chain in H. cbn [Heap.Spec.first_fit] in H.
  unfold Heap.Spec.fits in H. cbn [Heap.Spec.b_used Heap.Spec.b_size] in H.
  rewrite (proj2 (Z.leb_le _ _)) in H by (unfold Heap.Impl.heap_size, Heap.Spec.HDR; lia).
  cbn [negb andb] in H. destruct H as (m & Hrun & Hseg & _). exists m. split.
  - unfold allocate_frames. unfold kern, zoom, ld32. cbn [mbind M_bind].
    rewrite (bind_Ok _ _ s (load32 (k_mem (p_k s)) (mbi + mb_mem_upper)) s) by (by destruct s as [[] ? ?]).
    fold count. rewrite modify_bind, gets_bind. cbn [frames_count set_count]. rewrite Esz.
    rewrite (bind_Ok _ _ _ (lo + Heap.Spec.HDR) (set_k (set_mem m (p_k s)) (set_count count s)));
      [done|]. cbn [p_k set_count]. by rewrite Hrun.
  - unfold Heap.Spec.take_block in Hseg. cbn [Heap.Spec.b_size Heap.Spec.b_prev] in Hseg.
    rewrite (proj2 (Z.leb_gt _ _)) in Hseg by (unfold Heap.Impl.heap_size, Heap.Spec.HDR; lia).
    replace (Heap.Impl.heap_size - 20 - size - 20)
      with (Heap.Impl.heap_size - Heap.Spec.HDR - size - Heap.Spec.HDR) by (unfold Heap.Spec.HDR; lia).
    exact Hseg.
Qed.

(** C40: The frame bitmap is too small, whatever the memory's size.
    [allocate_frames] asks the heap for as many bytes as the bitmap has words.
    On a heap as [heap_init] leaves it and for a memory of 65 frames or more, the
    first quarter of the bits fills the buffer; marking a frame behind them,
    which is a frame of the memory, changes the header of the heap's next block,
    and from then on every [malloc] returns NULL. *)
Theorem bitmap_overflow_breaks_heap lo mbi s :
  Heap.Chain.heap_inv lo (lo + Heap.Impl.heap_size) (p_k s) Heap.Interface.initial_chain ->
  let count := FRAME_NUMBER (u32 (Z.shiftl (load32 (k_mem (p_k s)) (mbi + mb_mem_upper) +w 1) 10)) in
  let size := (count + 31) / 32 in
  let f := 32 * ((size + 3) / 4) + 1 in
  65 <= count ->
  exists s1 s2, allocate_frames mbi s = Ok (tt, s1) /\
    frames_count s1 = count /\ 0 <= f < count /\
    frame_set f s1 = Ok (tt, s2) /\
    load32 (k_mem (p_k s1)) (frames_map s1 + size) = Heap.Impl.HEAP_MAGIC_HEAD /\
    load32 (k_mem (p_k s2)) (frames_map s1 + size) <> Heap.Impl.HEAP_MAGIC_HEAD /\
    forall n, Heap.Impl.malloc n (p_k s2) = Ok (0, p_k s2).
Proof.
  intros Hinv count size f Hbig. destruct (allocate_frames_run lo mbi s Hinv) as (m & Hrun & Hseg).
  fold count in Hrun, Hseg. fold size in Hseg. set (s1 := Pmm (set_mem m (p_k s)) (lo + 20) count).
  set (k := (size + 3) / 4) in *.
  assert (3 <= size /\ 32 * size <= count + 31) as [Hs3 Hs32]
    by (unfold size; Z.to_euclidean_division_equations; lia).
  assert (size <= 4 * k < size + 4 /\ k <= size - 2) as [Hk Hk2]
    by (unfold k; Z.to_euclidean_division_equations; lia).
  destruct (index_in_word k 1 ltac:(lia) ltac:(lia)) as [Ei Eo]. fold f in Ei, Eo.
  set (a := lo + 20 + 4 * k). set (m2 := store32 m a (Z.lor (load32 m a) 2)).
  assert (frame_set f s1 = Ok (tt, Pmm (set_mem m2 (p_k s)) (lo + 20) count)) as Hset
    by (unfold frame_set, word_of; rewrite gets_bind, Eo, Ei; done).
  pose proof Hseg as ((B1 & B2 & B3 & B4 & B5) & Hb & (N1 & _) & _).
  unfold Heap.Impl.o_magic, Heap.Impl.o_status, Heap.Impl.o_next, Heap.Impl.o_prev, Heap.Impl.o_size,
    Heap.Spec.footprint, Heap.Spec.HDR in *. cbn [Heap.Spec.b_size] in *.
  replace (lo + (20 + size)) with (lo + 20 + size) in * by lia. rewrite Z.add_0_r in N1.
  assert (load32 m2 (lo + 20 + size) <> Heap.Impl.HEAP_MAGIC_HEAD) as Hbad.
  { intros E. pose proof (magic_byte m2 (lo + 20 + size) (4 * k - size) ltac:(lia) E) as Hbit.
    replace (lo + 20 + size + (4 * k - size)) with a in Hbit by (unfold a; lia).
    unfold m2 in Hbit. by rewrite lor_bit_1 in Hbit. }
  destruct Hinv as (Hroot & Hlock & _ & _ & _ & Hlo & _).
  eexists s1, _. split; [exact Hrun|]. split; [done|]. split; [unfold f; lia|].
  split; [exact Hset|]. split; [exact N1|]. split; [exact Hbad|].
  intros n. apply (malloc_damaged lo (Heap.Spec.Blk size true 0) (lo + 20 + size)); try done; [|lia].
  cbn [p_k set_mem k_mem]. split; [|split; [exact Hb|done]]. unfold m2.
  split_and!; cbn [Heap.Spec.b_used Heap.Spec.b_prev Heap.Spec.b_size];
    unfold Heap.Impl.o_magic, Heap.Impl.o_status, Heap.Impl.o_next, Heap.Impl.o_prev, Heap.Impl.o_size;
    rewrite load32_store32_ne by (unfold a; lia); done.
Qed.

(** 4 MB of memory above the first, a heap at 2 MB. *)
Lemma bitmap_overflow_breaks_heap_witness :
  exists s s2, load32 (k_mem (p_k s)) (0x9000 + mb_mem_upper) = 4095 /\
    (_ ← allocate_frames 0x9000; frame_set 257) s = Ok (tt, s2) /\
    Heap.Impl.malloc 16 (p_k s2) = Ok (0, p_k s2).
Proof.
  destruct (Heap.Interface.heap_init_inv 0x200000
    (set_mem (store32 ∅ (0x9000 + mb_mem_upper) 4095) boot_state) ltac:(lia) ltac:(done))
    as (k & Hinit & Hinv).
  assert (load32 (k_mem k) (0x9000 + mb_mem_upper) = 4095) as Hm.
  { assert (match Heap.Impl.heap_init 0x200000 (set_mem (store32 ∅ (0x9000 + mb_mem_upper) 4095) boot_state)
      with Ok (_, k) => load32 (k_mem k) (0x9000 + mb_mem_upper) | Err _ => 0 end = 4095) as H
      by (vm_compute; reflexivity). by rewrite Hinit in H. }
  assert (FRAME_NUMBER (u32 (Z.shiftl (load32 (k_mem (p_k (Pmm k 0 0))) (0x9000 + mb_mem_upper) +w 1) 10))
    = 1024) as Hcount by (cbn [p_k]; rewrite Hm; reflexivity).
  pose proof (bitmap_overflow_breaks_heap 0x200000 0x9000 (Pmm k 0 0) Hinv) as H.
  rewrite Hcount in H. destruct (H ltac:(lia)) as (s1 & s2 & Hrun & _ & _ & Hset & _ & _ & Hmal).
  exists (Pmm k 0 0), s2. split; [exact Hm|]. split; [|apply Hmal]. mstep Hrun. exact Hset.
Defined.

(** The same damage in [pmm_init], which marks the kernel's own frames. *)
Lemma pmm_init_breaks_heap :
  outcome (overflow_history (Pmm boot_state 0 0)) = Some (0x200014, 0).
Proof. vm_compute. reflexivity. Qed.
