(* ===== verification/Ports.v ===== *)
(** * Port input and output (kernel/i386/i386/port.c, kernel/i386/include/cpu.h)

    Each function is one [in] or [out] instruction.  An access is recorded in
    [k_io]; what an [in] reads is decided by the hardware [k_hw]. *)
From S2P Require Import Prelude Mem.

Definition trunc (bits v : Z) : Z := v mod 2 ^ bits.

Definition port_out (bits port value : Z) : M kst unit :=
  modify (add_io (PortOut bits (u16 port) (trunc bits value))).

Definition port_in (bits port : Z) : M kst Z :=
  fun s =>
    let v := trunc bits (k_hw s (k_io s) (u16 port)) in
    Ok (v, add_io (PortIn bits (u16 port) v) s).

Definition port_out_byte (port value : Z) : M kst unit := port_out 8 port value.
Definition port_out_word (port value : Z) : M kst unit := port_out 16 port value.
Definition port_out_long (port value : Z) : M kst unit := port_out 32 port value.
Definition port_in_byte (port : Z) : M kst Z := port_in 8 port.
Definition port_in_word (port : Z) : M kst Z := port_in 16 port.
Definition port_in_long (port : Z) : M kst Z := port_in 32 port.

(** Several accesses in a row. *)
Definition add_ios (es : list io_event) (s : kst) : kst :=
  KSt (k_mem s) (k_heap_root s) (k_heap_lock s) (k_io s ++ es) (k_hw s).

Lemma add_ios_nil s : add_ios [] s = s.
Proof. destruct s. unfold add_ios. cbn. by rewrite app_nil_r. Qed.
Lemma add_ios_add es e s : add_io e (add_ios es s) = add_ios (es ++ [e]) s.
Proof. unfold add_ios, add_io. cbn. by rewrite app_assoc. Qed.
Lemma add_ios_app es fs s : add_ios fs (add_ios es s) = add_ios (es ++ fs) s.
Proof. unfold add_ios. cbn. by rewrite app_assoc. Qed.

Lemma k_mem_add_ios es s : k_mem (add_ios es s) = k_mem s.
Proof. done. Qed.

Lemma port_out_byte_run port value s :
  port_out_byte port value s = Ok (tt, add_ios [Out8 (u16 port) (u8 value)] s).
Proof. done. Qed.

Lemma port_in_byte_run port s :
  let v := u8 (k_hw s (k_io s) (u16 port)) in
  port_in_byte port s = Ok (v, add_ios [In8 (u16 port) v] s).
Proof. done. Qed.
