(* ===== verification/Paging.v ===== *)
(** * The boot page directory (kernel/i386/i386/paging.c)

    [Module Impl] fills the directory and turns paging on; [Module Mmu] is the
    address translation of the i386 with 4 MB pages, by which the theorems say
    what the directory maps where. *)
From S2P Require Import Prelude.

Module Impl.

(** The directory and the control registers. *)
Record cpu := Cpu { kernel_page_directory : list Z; cr0 : Z; cr3 : Z; cr4 : Z }.

Definition set_pde (i v : Z) (c : cpu) : cpu :=
  Cpu (<[Z.to_nat i := u32 v]> (kernel_page_directory c)) (cr0 c) (cr3 c) (cr4 c).
Definition set_cr0 (v : Z) (c : cpu) : cpu :=
  Cpu (kernel_page_directory c) v (cr3 c) (cr4 c).
Definition set_cr3 (v : Z) (c : cpu) : cpu :=
  Cpu (kernel_page_directory c) (cr0 c) v (cr4 c).
Definition set_cr4 (v : Z) (c : cpu) : cpu :=
  Cpu (kernel_page_directory c) (cr0 c) (cr3 c) v.

(** [for (i = first; ...; i++) kernel_page_directory[i] = f(i);], [n] times *)
Fixpoint fill (n : nat) (i : Z) (f : Z -> Z) : M cpu unit :=
  match n with
  | O => mret tt
  | S n' => _ ← modify (set_pde i (f i)); fill n' (i + 1) f
  end.

Definition virtual_memory_init : M cpu unit :=
  _ ← fill 512 0 (fun i => Z.lor (Z.shiftl i 22) 0x83);
  fill 512 512 (fun i => Z.lor (Z.shiftl (i - 512) 2) 0x83).

(** [directory] is the address of the array. *)
Definition enable_paging (directory : Z) : M cpu unit :=
  _ ← modify (set_cr3 directory);
  cr ← gets cr4;
  _ ← modify (set_cr4 (Z.lor cr 0x10));
  cr ← gets cr0;
  modify (set_cr0 (Z.lor cr 0x80000001)).

End Impl.

(** ** Address translation with 4 MB pages *)
Module Mmu.

(** Bit 0 of an entry is "present", bit 7 "page size"; bits 31 to 22 are the
    4 MB frame.  [None] is a page fault (or a 4 KB page table). *)
Definition translate (dir : list Z) (va : Z) : option Z :=
  pde ← dir !! Z.to_nat (Z.shiftr va 22);
  if Z.testbit pde 0 && Z.testbit pde 7
  then Some (Z.lor (Z.shiftl (Z.shiftr pde 22) 22) (Z.land va 0x3FFFFF))
  else None.

(** Paging with 4 MB pages is on. *)
Definition paging_on (c : Impl.cpu) : bool :=
  Z.testbit (Impl.cr0 c) 31 && Z.testbit (Impl.cr4 c) 4.

End Mmu.

(** ** Lemmas *)
Module Facts.
Import Impl Mmu.

Lemma fill_run n i f c :
  0 <= i -> i + Z.of_nat n <= Z.of_nat (length (kernel_page_directory c)) ->
  exists d, fill n i f c = Ok (tt, Cpu d (cr0 c) (cr3 c) (cr4 c)) /\
    length d = length (kernel_page_directory c) /\
    forall j, 0 <= j ->
      d !! Z.to_nat j = if (i <=? j) && (j <? i + Z.of_nat n) then Some (u32 (f j))
                        else kernel_page_directory c !! Z.to_nat j.
Proof.
  revert i c. induction n as [|n IH]; intros i c Hi Hn; cbn [fill].
  - exists (kernel_page_directory c). split; [by destruct c|]. split; [done|].
    intros j Hj. destruct (Z.leb_spec i j), (Z.ltb_spec j (i + Z.of_nat 0)); cbn [andb]; done || lia.
  - destruct (IH (i + 1) (set_pde i (f i) c)) as (d & Hrun & Hlen & Hd); [lia| |].
    { cbn. rewrite length_insert. lia. }
    exists d. rewrite modify_bind. split; [done|]. cbn in Hlen.
    rewrite length_insert in Hlen. split; [done|]. intros j Hj. rewrite Hd by done. cbn.
    destruct (decide (j = i)) as [->|Hne].
    + rewrite (proj2 (Z.leb_gt (i + 1) i)), (proj2 (Z.leb_le i i)) by lia.
      rewrite (proj2 (Z.ltb_lt i (i + Z.of_nat (S n)))) by lia. cbn [andb].
      apply list_lookup_insert_eq. lia.
    + rewrite list_lookup_insert_ne by lia.
      destruct (Z.leb_spec (i + 1) j), (Z.leb_spec i j),
        (Z.ltb_spec j (i + 1 + Z.of_nat n)), (Z.ltb_spec j (i + Z.of_nat (S n)));
        cbn [andb]; done || lia.
Qed.

(** The entries [virtual_memory_init] writes. *)
Definition entry (i : Z) : Z :=
  if i <? 512 then Z.lor (Z.shiftl i 22) 0x83 else Z.lor (Z.shiftl (i - 512) 2) 0x83.

(** What they say: 32 bits wide, present, 4 MB pages; the frame is the page's
    own number in the lower half and 0 in the upper half; bit 2, user access,
    follows the index there. *)
Definition entry_ok (i : Z) : bool :=
  (u32 (entry i) =? entry i) && Z.testbit (entry i) 0 && Z.testbit (entry i) 7
  && (Z.shiftr (entry i) 22 =? (if i <? 512 then i else 0))
  && Bool.eqb (Z.testbit (entry i) 2) ((512 <=? i) && Z.odd i).

Lemma entries_ok i : 0 <= i < 1024 -> entry_ok i = true.
Proof.
  intros Hi.
  assert (forallb (fun k => entry_ok (Z.of_nat k)) (seq 0 1024) = true) as H
    by (vm_compute; reflexivity).
  rewrite forallb_forall in H. specialize (H (Z.to_nat i)).
  rewrite Z2Nat.id in H by lia. apply H, in_seq. lia.
Qed.

Lemma directory_entries c :
  length (kernel_page_directory c) = 1024%nat ->
  exists d, virtual_memory_init c = Ok (tt, Cpu d (cr0 c) (cr3 c) (cr4 c)) /\
    length d = 1024%nat /\
    forall i, 0 <= i < 1024 -> d !! Z.to_nat i = Some (entry i).
Proof.
  intros Hlen. unfold virtual_memory_init.
  destruct (fill_run 512 0 (fun i => Z.lor (Z.shiftl i 22) 0x83) c) as (d & Hrun & Hl & Hd);
    [lia|lia|]. mstep Hrun.
  destruct (fill_run 512 512 (fun i => Z.lor (Z.shiftl (i - 512) 2) 0x83)
    (Cpu d (cr0 c) (cr3 c) (cr4 c))) as (d' & Hrun' & Hl' & Hd'); [lia|cbn [kernel_page_directory]; lia|].
  exists d'. split; [exact Hrun'|]. cbn [kernel_page_directory] in *. split; [lia|].
  intros i Hi. pose proof (entries_ok i Hi) as Hok. unfold entry_ok in Hok.
  rewrite !andb_true_iff, Z.eqb_eq in Hok. destruct Hok as [[[[Hw _] _] _] _].
  rewrite <- Hw. unfold entry. rewrite Hd' by lia.
  change (512 + Z.of_nat 512) with 1024. change (0 + Z.of_nat 512) with 512 in Hd.
  destruct (Z.ltb_spec i 512).
  - rewrite (proj2 (Z.leb_gt 512 i)) by lia. cbn [andb]. rewrite Hd by lia.
    by rewrite (proj2 (Z.leb_le 0 i)), (proj2 (Z.ltb_lt i 512)) by lia.
  - by rewrite (proj2 (Z.leb_le 512 i)), (proj2 (Z.ltb_lt i 1024)) by lia.
Qed.

Lemma page_split va : Z.lor (Z.shiftl (Z.shiftr va 22) 22) (Z.land va 0x3FFFFF) = va.
Proof.
  apply Z.bits_inj'. intros j Hj. rewrite Z.lor_spec, Z.land_spec.
  change 0x3FFFFF with (Z.ones 22). rewrite Z.testbit_ones by lia.
  destruct (decide (j < 22)).
  - rewrite Z.shiftl_spec_low by done. cbn [orb]. rewrite (proj2 (Z.leb_le 0 j)), (proj2 (Z.ltb_lt j 22)) by lia.
    by rewrite andb_true_r.
  - rewrite Z.shiftl_spec, Z.shiftr_spec by lia. rewrite (proj2 (Z.ltb_ge j 22)) by lia.
    rewrite !andb_false_r, orb_false_r. f_equal. lia.
Qed.

Lemma translate_entry d va :
  0 <= va < W32 -> (forall i, 0 <= i < 1024 -> d !! Z.to_nat i = Some (entry i)) ->
  translate d va
  = Some (Z.lor (Z.shiftl (if va <? 0x80000000 then Z.shiftr va 22 else 0) 22)
            (Z.land va 0x3FFFFF)).
Proof.
  intros Hva Hd. unfold translate.
  assert (Z.shiftr va 22 = va / 4194304) as Hi by (by rewrite Z.shiftr_div_pow2 by lia).
  assert (0 <= Z.shiftr va 22 < 1024) as Hr.
  { rewrite Hi. split; [apply Z.div_pos; lia|]. apply Z.div_lt_upper_bound; lia. }
  rewrite Hd by done. cbn [mbind option_bind]. pose proof (entries_ok _ Hr) as Hok. unfold entry_ok in Hok.
  rewrite !andb_true_iff, !Z.eqb_eq in Hok. destruct Hok as [[[[_ ->] ->] Hf] _].
  cbn [andb]. rewrite Hf. do 3 f_equal.
  destruct (Z.ltb_spec (Z.shiftr va 22) 512), (Z.ltb_spec va 0x80000000); try done; exfalso;
    rewrite Hi in *; Z.to_euclidean_division_equations; lia.
Qed.

End Facts.

Import Impl Mmu Facts.

(** ** Properties *)

(** C31: The lower half of the address space is identity-mapped: every address
    below 2 GB translates to itself, so the kernel keeps running at its
    physical addresses when paging is turned on. *)
Theorem lower_half_is_identity c va
    (Hlen : length (kernel_page_directory c) = 1024%nat) (Hva : 0 <= va < 0x80000000) :
  exists c', virtual_memory_init c = Ok (tt, c') /\
    translate (kernel_page_directory c') va = Some va.
Proof.
  destruct (directory_entries c Hlen) as (d & Hrun & _ & Hd).
  eexists. split; [exact Hrun|]. cbn [kernel_page_directory].
  rewrite (translate_entry d va) by (done || lia).
  rewrite (proj2 (Z.ltb_lt va _)) by lia. by rewrite page_split.
Qed.

Lemma lower_half_is_identity_witness :
  exists c', virtual_memory_init (Cpu (replicate 1024 0) 0 0 0) = Ok (tt, c') /\
    translate (kernel_page_directory c') 0xB8000 = Some 0xB8000.
Proof.
  exact (lower_half_is_identity (Cpu (replicate 1024 0) 0 0 0) 0xB8000
    ltac:(vm_compute; reflexivity) ltac:(lia)).
Defined.

(** The upper half does not mirror the lower one: the entries shift the
    page number by 2 instead of 22, so every address from 2 GB on translates
    into the first 4 MB. *)
Theorem upper_half_maps_first_page c va
    (Hlen : length (kernel_page_directory c) = 1024%nat) (Hva : 0x80000000 <= va < W32) :
  exists c', virtual_memory_init c = Ok (tt, c') /\
    translate (kernel_page_directory c') va = Some (Z.land va 0x3FFFFF).
Proof.
  destruct (directory_entries c Hlen) as (d & Hrun & _ & Hd).
  eexists. split; [exact Hrun|]. cbn [kernel_page_directory].
  rewrite (translate_entry d va) by (done || lia).
  by rewrite (proj2 (Z.ltb_ge va _)) by lia.
Qed.

Lemma upper_half_maps_first_page_witness :
  exists c', virtual_memory_init (Cpu (replicate 1024 0) 0 0 0) = Ok (tt, c') /\
    translate (kernel_page_directory c') 0xC0100000 = Some 0x100000.
Proof.
  exact (upper_half_maps_first_page (Cpu (replicate 1024 0) 0 0 0) 0xC0100000
    ltac:(vm_compute; reflexivity) ltac:(lia)).
Defined.

(** [enable_paging] leaves 4 MB paging on, with the directory it is given
    loaded, and does not touch the directory. *)
Theorem enable_paging_turns_on c directory :
  exists c', enable_paging directory c = Ok (tt, c') /\ paging_on c' = true /\
    cr3 c' = directory /\ kernel_page_directory c' = kernel_page_directory c.
Proof.
  eexists. split; [reflexivity|]. split; [|done]. unfold paging_on. cbn -[Z.testbit Z.lor].
  rewrite !Z.lor_spec. rewrite (eq_refl : Z.testbit 0x80000001 31 = true).
  rewrite (eq_refl : Z.testbit 0x10 4 = true). by rewrite !orb_true_r.
Qed.
