(* ===== verification/Idt.v ===== *)
(** * Interrupts (arch/i386/kernel/cpu/idt.c, include/kernel/cpu/idt.h)

    The interrupt descriptor table, the remapping of the two 8259 controllers
    and the dispatcher.  A local handler is a C function pointer: here a name
    of a type [handler] whose effect is given by [run]; the theorems hold for
    every such type. *)
From S2P Require Import Prelude Mem Ports.

(** ** The C code *)
Module Impl.

Definition INTERRUPTS : nat := 48.

(** [struct idt_entry], [struct idt_table], and the fields of
    [struct idt_data] the C code reads. *)
Record idt_entry := IdtEntry {
  offset1 : Z; segment : Z; zeros : Z; attributes : Z; offset2 : Z
}.
Record idt_table := IdtTable { limit : Z; base : Z }.
Record idt_data := IdtData { int_no : Z; err_code : Z }.

(** The entry points of lidt.S, by their names in isrdef.h. *)
Inductive isr :=
  | isr_0 | isr_1 | isr_2 | isr_3 | isr_4 | isr_5 | isr_6 | isr_7 | isr_8 | isr_9 | isr_10
  | isr_11 | isr_12 | isr_13 | isr_14 | isr_15 | isr_16 | isr_17 | isr_18 | isr_19 | isr_20
  | isr_21 | isr_22 | isr_23 | isr_24 | isr_25 | isr_26 | isr_27 | isr_28 | isr_29 | isr_30
  | isr_31 | isr_32 | isr_33 | isr_34 | isr_35 | isr_36 | isr_37 | isr_38 | isr_39 | isr_40
  | isr_41 | isr_42 | isr_43 | isr_44 | isr_45 | isr_46 | isr_47.

(** [isr_vector], from the addresses of the entry points. *)
Definition isr_vector (addr : isr -> Z) : list Z :=
  [addr isr_0; addr isr_1; addr isr_2; addr isr_3; addr isr_4; addr isr_5; addr isr_6;
   addr isr_7; addr isr_8; addr isr_9; addr isr_10; addr isr_11; addr isr_12; addr isr_13;
   addr isr_14; addr isr_15; addr isr_16; addr isr_17; addr isr_18; addr isr_19;
   addr isr_20; addr isr_21; addr isr_22; addr isr_23; addr isr_24; addr isr_25;
   addr isr_26; addr isr_27; addr isr_28; addr isr_29; addr isr_30; addr isr_31;
   addr isr_32; addr isr_33; addr isr_34; addr isr_35; addr isr_36; addr isr_37;
   addr isr_38; addr isr_39; addr isr_40; addr isr_41; addr isr_42; addr isr_43;
   addr isr_44; addr isr_45; addr isr_46; addr isr_47].

Section idt.
Context {handler X : Type}.

(** The statics of idt.c, with the kernel state [i_k] and what else the
    handlers work on, [i_ext]; [idt_loaded] is the processor's table
    register. *)
Record idt := Idt {
  i_k : kst;
  idt_toc : idt_table;
  idt_entries : list idt_entry;
  idt_handlers : list (option handler);
  idt_loaded : option idt_table;
  i_ext : X
}.

Definition set_ik (k : kst) (s : idt) : idt :=
  Idt k (idt_toc s) (idt_entries s) (idt_handlers s) (idt_loaded s) (i_ext s).
Definition set_ext (x : X) (s : idt) : idt :=
  Idt (i_k s) (idt_toc s) (idt_entries s) (idt_handlers s) (idt_loaded s) x.
Definition set_toc (t : idt_table) (s : idt) : idt :=
  Idt (i_k s) t (idt_entries s) (idt_handlers s) (idt_loaded s) (i_ext s).
Definition set_entry (i : nat) (e : idt_entry) (s : idt) : idt :=
  Idt (i_k s) (idt_toc s) (<[i := e]> (idt_entries s)) (idt_handlers s) (idt_loaded s) (i_ext s).
Definition set_handler (i : nat) (h : option handler) (s : idt) : idt :=
  Idt (i_k s) (idt_toc s) (idt_entries s) (<[i := h]> (idt_handlers s)) (idt_loaded s) (i_ext s).
Definition out8 (port value : Z) : M idt unit := zoom i_k set_ik (port_out_byte port value).

Definition idt_set_entry (pos : nat) (offset segment attributes : Z) : M idt unit :=
  modify (set_entry pos (IdtEntry (u16 (Z.land offset 0xFFFF)) (u16 segment) 0
    (u8 attributes) (u16 (Z.land (Z.shiftr offset 16) 0xFFFF)))).

Definition remap_pic (start_int : Z) : M idt unit :=
  _ ← out8 0x20 0x11;
  _ ← out8 0xA0 0x11;
  _ ← out8 0x21 start_int;
  _ ← out8 0xA1 (start_int + 8);
  _ ← out8 0x21 0x04;
  _ ← out8 0xA1 0x02;
  _ ← out8 0x21 0x01;
  _ ← out8 0xA1 0x01;
  _ ← out8 0x21 0x00;
  out8 0xA1 0x00.

Definition idt_set_handler (interrupt_code : Z) (h : option handler) : M idt unit :=
  if Z.of_nat INTERRUPTS <=? interrupt_code then mret tt
  else modify (set_handler (Z.to_nat interrupt_code) h).

(** [lidt (idt_toc); sti] *)
Definition idt_load : M idt unit :=
  modify (fun s => Idt (i_k s) (idt_toc s) (idt_entries s) (idt_handlers s)
    (Some (idt_toc s)) (i_ext s)).

(** The [for] of [idt_init], [n] entries from [i] on. *)
Fixpoint idt_fill (vector : list Z) (n i : nat) : M idt unit :=
  match n with
  | O => mret tt
  | S n' =>
      offset ← (match vector !! i with Some a => mret a | None => fail OutOfBounds end);
      _ ← idt_set_entry i offset 0x08 0x8E;
      _ ← modify (set_handler i None);
      idt_fill vector n' (S i)
  end.

(** [entries] is [&idt_entries]. *)
Definition idt_init (entries : Z) (addr : isr -> Z) : M idt unit :=
  _ ← modify (set_toc (IdtTable (u16 (8 * Z.of_nat INTERRUPTS - 1)) (u32 entries)));
  _ ← remap_pic 0x20;
  _ ← idt_fill (isr_vector addr) INTERRUPTS 0;
  idt_load.

Context (run : handler -> idt_data -> M idt unit).

Definition fallback_handler (data : idt_data) : M idt unit := mret tt.

(** An index past the end of [idt_handlers] is undefined behaviour. *)
Definition idt_handler (data : idt_data) : M idt unit :=
  handlers ← gets idt_handlers;
  h ← (match handlers !! Z.to_nat (int_no data) with
       | Some h => mret h
       | None => fail OutOfBounds
       end);
  _ ← (match h with
       | Some f => run f data
       | None => fallback_handler data
       end);
  if int_no data <? 16 then fail Halted else
  _ ← mwhen ((0x28 <=? int_no data) && (int_no data <? 0x30)) (out8 0xA0 0x20);
  mwhen ((0x20 <=? int_no data) && (int_no data <? 0x30)) (out8 0x20 0x20).

End idt.
Arguments idt : clear implicits.
End Impl.

(** ** Lemmas *)
Module Facts.
Import Impl.
Section facts.
Context {handler X : Type}.
Implicit Types s : idt handler X.

(** The vector that the processor serves through an entry point. *)
Definition vector_of (r : isr) : nat :=
  match r with
  | isr_0 => 0 | isr_1 => 1 | isr_2 => 2 | isr_3 => 3 | isr_4 => 4 | isr_5 => 5
  | isr_6 => 6 | isr_7 => 7 | isr_8 => 8 | isr_9 => 9 | isr_10 => 10 | isr_11 => 11
  | isr_12 => 12 | isr_13 => 13 | isr_14 => 14 | isr_15 => 15 | isr_16 => 16 | isr_17 => 17
  | isr_18 => 18 | isr_19 => 19 | isr_20 => 20 | isr_21 => 21 | isr_22 => 22 | isr_23 => 23
  | isr_24 => 24 | isr_25 => 25 | isr_26 => 26 | isr_27 => 27 | isr_28 => 28 | isr_29 => 29
  | isr_30 => 30 | isr_31 => 31 | isr_32 => 32 | isr_33 => 33 | isr_34 => 34 | isr_35 => 35
  | isr_36 => 36 | isr_37 => 37 | isr_38 => 38 | isr_39 => 39 | isr_40 => 40 | isr_41 => 41
  | isr_42 => 42 | isr_43 => 43 | isr_44 => 44 | isr_45 => 45 | isr_46 => 46 | isr_47 => 47
  end%nat.

(** The table is in the order of the vectors. *)
Lemma isr_vector_lookup addr j :
  (j < 48)%nat -> exists r, isr_vector addr !! j = Some (addr r) /\ vector_of r = j.
Proof.
  intros Hj. do 48 (destruct j as [|j]; [by eexists; split; [reflexivity|]|]). lia.
Qed.

Definition gate (isr : Z) : idt_entry :=
  IdtEntry (isr mod 65536) 0x08 0 0x8E (isr / 65536).

(** The address the processor jumps to through an interrupt gate. *)
Definition gate_target (e : idt_entry) : Z := offset1 e + 65536 * offset2 e.

Lemma gate_of isr :
  0 <= isr < W32 ->
  IdtEntry (u16 (Z.land isr 0xFFFF)) (u16 0x08) 0 (u8 0x8E)
    (u16 (Z.land (Z.shiftr isr 16) 0xFFFF)) = gate isr.
Proof.
  intros Hi. unfold gate. change 0xFFFF with (Z.ones 16). rewrite !Z.land_ones by lia.
  rewrite Z.shiftr_div_pow2 by lia. change (2 ^ 16) with 65536. f_equal.
  - apply u16_small. apply Z.mod_pos_bound. lia.
  - rewrite (Z.mod_small (isr / 65536)); [apply u16_small|];
      Z.to_euclidean_division_equations; lia.
Qed.

Lemma idt_fill_run vector n i s :
  length vector = 48%nat -> Forall (fun a => 0 <= a < W32) vector -> (i + n <= 48)%nat ->
  length (idt_entries s) = 48%nat -> length (idt_handlers s) = 48%nat ->
  exists es hs,
    idt_fill vector n i s = Ok (tt, Idt (i_k s) (idt_toc s) es hs (idt_loaded s) (i_ext s)) /\
    length es = 48%nat /\ length hs = 48%nat /\
    forall j, (j < 48)%nat ->
      (if decide (i <= j < i + n)%nat then es !! j = gate <$> vector !! j /\ hs !! j = Some None
       else es !! j = idt_entries s !! j /\ hs !! j = idt_handlers s !! j).
Proof.
  intros Hl HF. revert i s. induction n as [|n IH]; intros i s Hi He Hh; cbn [idt_fill].
  - exists (idt_entries s), (idt_handlers s). split_and!; [by destruct s|done..|].
    intros j Hj. rewrite decide_False by lia. done.
  - destruct (lookup_lt_is_Some_2 vector i ltac:(lia)) as [a Ha]. rewrite Ha, ret_bind.
    set (s1 := set_handler i None (set_entry i (gate a) s)).
    destruct (IH (S i) s1) as (es & hs & Hrun & Hle & Hlh & Hall); [lia|..].
    { cbn. by rewrite length_insert. } { cbn. by rewrite length_insert. }
    exists es, hs. split_and!; [|done..|].
    + unfold idt_set_entry. rewrite modify_bind, gate_of by (rewrite Forall_lookup in HF; by eapply HF).
      rewrite modify_bind. exact Hrun.
    + intros j Hj. specialize (Hall j Hj).
      destruct (decide (i = j)) as [<-|Hne].
      * rewrite decide_False in Hall by lia. rewrite decide_True by lia.
        destruct Hall as [-> ->]. rewrite Ha. cbn. rewrite !list_lookup_insert_eq by lia. done.
      * cbn in Hall. rewrite !list_lookup_insert_ne in Hall by done.
        repeat case_decide; done || lia.
Qed.

Lemma remap_pic_run start s :
  0 <= start < 248 ->
  remap_pic start s
  = Ok (tt, set_ik (add_ios [Out8 0x20 0x11; Out8 0xA0 0x11; Out8 0x21 start;
                             Out8 0xA1 (start + 8); Out8 0x21 4; Out8 0xA1 2;
                             Out8 0x21 1; Out8 0xA1 1; Out8 0x21 0; Out8 0xA1 0] (i_k s)) s).
Proof.
  intros Hs. unfold remap_pic, out8. cbv beta iota zeta delta [mbind M_bind zoom].
  rewrite !port_out_byte_run. cbn [set_ik i_k].
  repeat (rewrite ?port_out_byte_run; cbn [set_ik i_k idt_toc idt_entries idt_handlers idt_loaded]).
  rewrite !add_ios_app. cbn [app].
  rewrite (u8_small start), (u8_small (start + 8)) by lia. done.
Qed.

(** The writes that acknowledge an interrupt. *)
Definition eoi (n : Z) : list io_event :=
  (if (0x28 <=? n) && (n <? 0x30) then [Out8 0xA0 0x20] else []) ++
  (if (0x20 <=? n) && (n <? 0x30) then [Out8 0x20 0x20] else []).

(** Dispatching a vector that is not an exception. *)
Lemma dispatch_run (run : handler -> idt_data -> M (idt handler X) unit) s d h s1 :
  idt_handlers s !! Z.to_nat (int_no d) = Some h -> 16 <= int_no d ->
  match h with Some f => run f d s = Ok (tt, s1) | None => s1 = s end ->
  idt_handler run d s = Ok (tt, set_ik (add_ios (eoi (int_no d)) (i_k s1)) s1).
Proof.
  intros Hh Hn Hrun.
  unfold idt_handler. rewrite gets_bind, Hh. rewrite ret_bind.
  rewrite (bind_Ok _ _ s tt s1); [|destruct h; [done|by subst s1]].
  rewrite if_app. rewrite (proj2 (Z.ltb_ge (int_no d) 16)) by lia. unfold eoi.
  destruct ((0x28 <=? int_no d) && (int_no d <? 0x30)),
    ((0x20 <=? int_no d) && (int_no d <? 0x30)); cbn [app mwhen];
    cbv [mbind M_bind mret M_ret out8 zoom]; rewrite ?port_out_byte_run;
    cbn [set_ik i_k idt_toc idt_entries idt_handlers idt_loaded];
    rewrite ?port_out_byte_run, ?add_ios_app, ?add_ios_nil; try done; by destruct s1.
Qed.

End facts.
End Facts.

Import Impl Facts.

(** ** Properties *)

(** C30: [idt_init] fills each of the 48 gates with its entry point (ring 0, kernel
    code segment, present 32-bit interrupt gates), clears every handler, moves
    the controllers to vectors 0x20 and 0x28 with all lines unmasked, and
    loads a table of exactly 48 descriptors. *)
Theorem idt_init_fills_table {handler X} (s : idt handler X) entries addr
    (Haddr : forall r, 0 <= addr r < W32) (Hent : 0 <= entries < W32)
    (He : length (idt_entries s) = 48%nat) (Hh : length (idt_handlers s) = 48%nat) :
  exists s', idt_init entries addr s = Ok (tt, s') /\
    (forall j, (j < 48)%nat -> exists r e, vector_of r = j /\ idt_entries s' !! j = Some e /\
       gate_target e = addr r /\ segment e = 0x08 /\ zeros e = 0 /\ attributes e = 0x8E /\
       idt_handlers s' !! j = Some None) /\
    idt_loaded s' = Some (IdtTable 383 entries) /\
    k_io (i_k s') = k_io (i_k s) ++
      [Out8 0x20 0x11; Out8 0xA0 0x11; Out8 0x21 0x20; Out8 0xA1 0x28; Out8 0x21 4;
       Out8 0xA1 2; Out8 0x21 1; Out8 0xA1 1; Out8 0x21 0; Out8 0xA1 0].
Proof.
  unfold idt_init. rewrite modify_bind. rewrite u32_small by lia.
  mstep (remap_pic_run 0x20 (set_toc (IdtTable (u16 (8 * Z.of_nat INTERRUPTS - 1)) entries) s)
    ltac:(lia)).
  set (k' := add_ios _ _). set (s1 := set_ik k' _).
  destruct (idt_fill_run (isr_vector addr) INTERRUPTS 0 s1) as (es & hs & Hrun & _ & _ & Hall);
    [done|repeat constructor; apply Haddr|done|done|done|]. mstep Hrun.
  eexists. split; [reflexivity|]. cbn [idt_entries idt_handlers idt_loaded i_k].
  split_and!; [|done|done].
  intros j Hj. destruct (isr_vector_lookup addr j Hj) as (r & Hr & Hn).
  specialize (Hall j Hj). unfold INTERRUPTS in Hall.
  rewrite decide_True, Hr in Hall by lia. destruct Hall as [-> ->].
  exists r, (gate (addr r)). specialize (Haddr r). split_and!; try done.
  unfold gate_target, gate. cbn. rewrite (Z.div_mod (addr r) 65536) at 3 by lia. lia.
Qed.

Lemma idt_init_fills_table_witness :
  exists s', idt_init (handler := unit) (X := unit) 0x105000
      (fun r => 0x100000 + 10 * Z.of_nat (vector_of r))
    (Idt boot_state (IdtTable 0 0) (replicate 48 (IdtEntry 0 0 0 0 0)) (replicate 48 None) None tt)
    = Ok (tt, s') /\ idt_loaded s' = Some (IdtTable 383 0x105000).
Proof.
  destruct (idt_init_fills_table (handler := unit) (X := unit)
    (Idt boot_state (IdtTable 0 0) (replicate 48 (IdtEntry 0 0 0 0 0)) (replicate 48 None) None tt)
    0x105000 (fun r => 0x100000 + 10 * Z.of_nat (vector_of r))) as (s' & H & _ & Hl & _);
    [intros []; cbn; lia|lia|done|done|].
  exists s'. split; [exact H|exact Hl].
Defined.

(** C29: Dispatching an interrupt of the controllers runs its handler (or
    nothing when there is none) and then acknowledges it, at the second
    controller first when it came from there; other vectors from 16 on are not
    acknowledged. *)
Theorem idt_handler_acknowledges {handler X}
    (run : handler -> idt_data -> M (idt handler X) unit)
    s d h s1
    (Hh : idt_handlers s !! Z.to_nat (int_no d) = Some h) (Hn : 16 <= int_no d)
    (Hrun : match h with Some f => run f d s = Ok (tt, s1) | None => s1 = s end) :
  idt_handler run d s = Ok (tt, set_ik (add_ios (eoi (int_no d)) (i_k s1)) s1).
Proof. by apply (dispatch_run _ _ _ h). Qed.

Lemma idt_handler_acknowledges_witness :
  exists s : idt unit unit, idt_handler (fun _ _ => mret tt) (IdtData 0x28 0) s
    = Ok (tt, set_ik (add_ios [Out8 0xA0 0x20; Out8 0x20 0x20] (i_k s)) s).
Proof.
  exists (Idt boot_state (IdtTable 0 0) [] (replicate 48 None) None tt).
  exact (idt_handler_acknowledges (fun (_ : unit) _ => mret tt)
    (Idt boot_state (IdtTable 0 0) [] (replicate 48 None) None tt) (IdtData 0x28 0) None _
    eq_refl ltac:(cbn; lia) eq_refl).
Defined.

(** The machine halts after an exception below 16, whatever its handler
    does, and never runs past the dispatcher. *)
Theorem idt_handler_halts_on_exception {handler X}
    (run : handler -> idt_data -> M (idt handler X) unit) s d
    (Hn : 0 <= int_no d < 16) (Hlen : length (idt_handlers s) = 48%nat)
    (Hok : forall f s, exists s', run f d s = Ok (tt, s')) :
  idt_handler run d s = Err Halted.
Proof.
  unfold idt_handler. rewrite gets_bind.
  destruct (lookup_lt_is_Some_2 (idt_handlers s) (Z.to_nat (int_no d)) ltac:(lia)) as [h Hh].
  rewrite Hh, ret_bind.
  assert (exists s1, (match h with Some f => run f d | None => fallback_handler d end) s
    = Ok (tt, s1)) as [s1 H1] by (destruct h; [apply Hok|by exists s]).
  mstep H1. by rewrite (proj2 (Z.ltb_lt (int_no d) 16)) by lia.
Qed.

Lemma idt_handler_halts_on_exception_witness :
  idt_handler (fun (_ : unit) _ => mret tt) (IdtData 13 0)
    (Idt boot_state (IdtTable 0 0) [] (replicate 48 None) None tt) = Err Halted.
Proof.
  apply (idt_handler_halts_on_exception (fun (_ : unit) _ => mret tt)); [cbn; lia|done|].
  intros f s. by exists s.
Defined.
