(* ===== verification/Device.v ===== *)
(** * What the device drivers share (kernel/sys/device.h)

    The device objects and the interrupt handlers of the kernel by name, the
    state the drivers work on, and the loop with which the keyboard and the
    serial port copy received bytes to a reader. *)
From S2P Require Import Prelude Mem Alloc Ports Ringbuf Idt.
From stdpp Require Import strings.
Import Idt.Impl.
Local Open Scope Z_scope.

(** The [device_t] objects of kernel/device. *)
Inductive dev_name : Set :=
  | null_device | zero_device | keyboard_device | pctimer_device
  | clock_device | uart8250_device | vgafb_device | vtcon_device.

#[export] Instance dev_name_eq_dec : EqDecision dev_name.
Proof. solve_decision. Defined.

(** The functions given to [idt_set_handler]. *)
Inductive isr_name : Set :=
  | keyboard_key_handler_ptr | pctimer_handler_ptr | uart8250_interrupt_ptr.

(** [struct rtclock] of rtclock.c. *)
Record rtclock := RtClock {
  is_binary : Z; year : Z; seconds : Z; minutes : Z; hours : Z; month : Z; day : Z
}.

(** The statics of the drivers. *)
Record drivers := Drivers {
  keyboard_rbuf : Z;
  next_ticks : Z;
  rtc_clock : rtclock;
  uart_flags : Z;
  uart_rx_buf : Z
}.

Definition dst : Type := idt isr_name drivers.

Definition kern {A} (m : M kst A) : M dst A := zoom i_k set_ik m.
Definition dget {A} (f : drivers -> A) : M dst A := gets (fun s => f (i_ext s)).
Definition dmod (f : drivers -> drivers) : M dst unit :=
  modify (fun s => set_ext (f (i_ext s)) s).

Lemma kern_run {A} (m : M kst A) (s : dst) a k :
  m (i_k s) = Ok (a, k) -> kern m s = Ok (a, set_ik k s).
Proof. intros H. unfold kern, zoom. by rewrite H. Qed.

Lemma set_ik_id (s : dst) : set_ik (i_k s) s = s.
Proof. by destruct s. Qed.

Lemma set_ik_ik k k' (s : dst) : set_ik k (set_ik k' s) = set_ik k s.
Proof. done. Qed.

Definition set_rbuf (p : Z) (d : drivers) : drivers :=
  Drivers p (next_ticks d) (rtc_clock d) (uart_flags d) (uart_rx_buf d).
Definition set_ticks (n : Z) (d : drivers) : drivers :=
  Drivers (keyboard_rbuf d) n (rtc_clock d) (uart_flags d) (uart_rx_buf d).
Definition set_clock (c : rtclock) (d : drivers) : drivers :=
  Drivers (keyboard_rbuf d) (next_ticks d) c (uart_flags d) (uart_rx_buf d).
Definition set_uart_flags (n : Z) (d : drivers) : drivers :=
  Drivers (keyboard_rbuf d) (next_ticks d) (rtc_clock d) n (uart_rx_buf d).
Definition set_uart_buf (p : Z) (d : drivers) : drivers :=
  Drivers (keyboard_rbuf d) (next_ticks d) (rtc_clock d) (uart_flags d) p.

(** ** The device manager, as the drivers see it (kernel/sys/device.h)

    A driver registers its devices from its [drv_init]; Devfs.v implements the
    manager. [K] is the state of the kernel above the drivers. *)
Class DeviceManager (K : Type) := {
  below : forall {A}, M dst A -> M K A;
  device_install : dev_name -> list Z -> M K Z;
  device_remove : list Z -> M K unit
}.

(** A string literal, without its NUL. *)
Definition chars_of (s : string) : list Z :=
  (fun c => Z.of_N (Ascii.N_of_ascii c)) <$> String.list_ascii_of_string s.

(** VO_* of kernel/sys/vfs.h *)
Definition VO_FREAD : Z := 1.
Definition VO_FWRITE : Z := 2.
Definition VO_FBINARY : Z := 4.

(** ** The copy loop of [keyboard_read] and [uart8250_read] *)

(** [while (total <= len && ringbuf_test_ready(rbuf))
       { *buf++ = ringbuf_read(rbuf); total++; }] *)
Fixpoint drain (fuel : nat) (rbuf buf total len : Z) : M kst Z :=
  match fuel with
  | O => fail Diverges
  | S fuel' =>
      if negb (total <=? len) then mret total else
      ready ← Ringbuf.Impl.ringbuf_test_ready rbuf;
      if ready =? 0 then mret total else
      byte ← Ringbuf.Impl.ringbuf_read rbuf;
      _ ← st8 buf byte;
      drain fuel' rbuf (buf + 1) (total +w 1) len
  end.

Section drain_facts.
Import Ringbuf.Rep Ringbuf.Queue.

(** The reader's buffer does not overlap the ring buffer. *)
Definition buf_apart (m : mem) (p n buf k : Z) : Prop :=
  (buf + k <= p \/ p + 20 <= buf) /\
  let b := load32 m (p + Ringbuf.Impl.o_buffer) in (buf + k <= b \/ b + n <= buf).

Lemma repr_store8 m p n q ovf buf k a v :
  repr m p n q ovf -> buf_apart m p n buf k -> buf <= a < buf + k ->
  repr (store8 m a v) p n q ovf /\
  load32 (store8 m a v) (p + Ringbuf.Impl.o_buffer) = load32 m (p + Ringbuf.Impl.o_buffer).
Proof.
  intros H [H1 H2] Ha. cbn in H2. split.
  - eapply repr_buffer; [exact H|..].
    + intros x Hx. unfold Ringbuf.Impl.sizeof_ringbuf in Hx.
      rewrite load8_store8_ne by lia. done.
    + intros i Hi. rewrite load8_store8_ne by lia. done.
  - unfold Ringbuf.Impl.o_buffer in *. rewrite load32_store8_ne by lia. done.
Qed.

Lemma repr_bytes m p n q ovf : repr m p n q ovf -> Forall (fun b => 0 <= b < 256) q.
Proof.
  intros H. apply Forall_lookup_2. intros i x Hi.
  rewrite <- (r_bytes _ _ _ _ _ H i x Hi). apply load8_range.
Qed.

(** What reading [k] bytes of the queue [q] into [buf] does. *)
Definition drained (m m' : mem) (p n buf : Z) (q : list Z) (k : nat) : Prop :=
  (exists ovf', repr m' p n (drop k q) ovf') /\ load_bytes m' buf k = take k q /\
  load32 m' (p + Ringbuf.Impl.o_buffer) = load32 m (p + Ringbuf.Impl.o_buffer) /\
  agree (fun a => ~ rb_cells m p n a /\ (a < buf \/ buf + Z.of_nat k <= a)) m m'.

Lemma drained_0 m p n q ovf buf : repr m p n q ovf -> drained m m p n buf q 0.
Proof. intros H. split_and!; [exists ovf; done|done|done|done]. Qed.

Lemma drained_S m m1 m' p n buf y q k :
  same_ring m m1 p n -> (buf + 1 <= p \/ p + 20 <= buf) ->
  (forall a, buf <= a < buf + 1 -> ~ rb_cells m p n a) -> 0 <= y < 256 ->
  drained (store8 m1 buf y) m' p n (buf + 1) q k -> drained m m' p n buf (y :: q) (S k).
Proof.
  intros [Hb Hag] Hp Hout Hy (Hr & Hl & Hb' & Hag').
  assert (load32 (store8 m1 buf y) (p + Ringbuf.Impl.o_buffer)
    = load32 m (p + Ringbuf.Impl.o_buffer)) as Hb1.
  { rewrite <- Hb. unfold Ringbuf.Impl.o_buffer. rewrite load32_store8_ne by lia. done. }
  assert (forall a, rb_cells (store8 m1 buf y) p n a <-> rb_cells m p n a) as Hc
    by (intros a; unfold rb_cells; by rewrite Hb1).
  split_and!; [done|..].
  - rewrite load_bytes_S, Hl, firstn_cons. f_equal.
    rewrite <- (Hag' buf); [rewrite load8_store8_eq; by apply u8_small|].
    rewrite Hc. split; [apply Hout; lia|lia].
  - by rewrite Hb'.
  - intros a [Ha1 Ha2]. rewrite (Hag a Ha1).
    rewrite <- (Hag' a) by (rewrite Hc; split; [done|lia]).
    rewrite load8_store8_ne by lia. done.
Qed.

Lemma drain_run fuel s p n q ovf buf total len :
  repr (k_mem s) p n q ovf -> Forall (fun b => 0 <= b < 256) q ->
  (Nat.min (Z.to_nat (len + 1 - total)) (length q) < fuel)%nat ->
  0 <= total <= len + 1 -> len < W32 - 1 ->
  buf_apart (k_mem s) p n buf (len + 1 - total) ->
  let k := Nat.min (Z.to_nat (len + 1 - total)) (length q) in
  exists m', drain fuel p buf total len s = Ok (total + Z.of_nat k, set_mem m' s) /\
    drained (k_mem s) m' p n buf q k.
Proof.
  revert s q ovf buf total. induction fuel as [|fuel IH];
    intros s q ovf buf total H HF Hf Ht Hlen Hap k; [lia|]. cbn [drain].
  rewrite if_app. destruct (Z.leb_spec total len) as [Hle|Hgt]; cbn [negb].
  2:{ exists (k_mem s). replace k with O by lia. rewrite set_mem_id, Z.add_0_r.
      split; [done|by eapply drained_0]. }
  mstep (test_ready_run s p n q ovf H). rewrite if_app. destruct q as [|y q].
  { exists (k_mem s). cbn [length] in k. replace k with O by lia.
    rewrite set_mem_id, Z.add_0_r. split; [done|by eapply drained_0]. }
  cbn [length Nat.eqb negb cbool Z.eqb].
  destruct (ringbuf_read_run s p n y q ovf H) as (m1 & Hrun & H1 & Hsame). mstep Hrun.
  rewrite (bind_Ok _ _ (set_mem m1 s) tt (set_mem (store8 m1 buf y) s)) by done.
  apply Forall_cons in HF as [Hy HF]. pose proof Hap as [Hap1 Hap2]. cbn in Hap2.
  assert (buf_apart m1 p n buf (len + 1 - total)) as Hap'.
  { split; [done|]. cbn. destruct Hsame as [-> _]. done. }
  destruct (repr_store8 m1 p n q false buf (len + 1 - total) buf y H1 Hap' ltac:(lia))
    as [H2 Hb2].
  destruct (IH (set_mem (store8 m1 buf y) s) q false (buf + 1) (total + 1) H2 HF)
    as (m' & Hrun' & Hd); [cbn [length] in Hf; lia|lia|lia|..].
  { split; [lia|]. cbn [set_mem k_mem]. rewrite Hb2. destruct Hsame as [-> _]. lia. }
  rewrite u32_small by lia. cbn [length] in k.
  set (k' := Nat.min (Z.to_nat (len + 1 - (total + 1))) (length q)) in *.
  replace k with (S k') by lia. exists m'. split.
  - rewrite Hrun'. do 2 f_equal. lia.
  - eapply drained_S; [exact Hsame|lia| |done|exact Hd].
    intros a Ha. unfold rb_cells, Ringbuf.Impl.sizeof_ringbuf. lia.
Qed.

End drain_facts.
