(* ===== verification/Chardev.v ===== *)
(** * The character device drivers

    [Module Null] (kernel/device/null.c), [Module Kbd] (kbd.c),
    [Module Pctimer] (pctimer.c) and [Module Uart] (uart8250.c), over the
    driver state of Device.v.  The functions that register a device call the
    device manager through the interface of Device.v. *)
From S2P Require Import Prelude Mem Alloc Ports Ringbuf Idt Device.
From S2P Require CString Heap.
From stdpp Require Import strings.
Import Idt.Impl.
Local Open Scope Z_scope.

(** ** null.c *)
Module Null.

Definition null_dev_open (flags : Z) : M kst Z := mret 0.
Definition null_dev_close : M kst Z := mret 0.
Definition null_dev_read (buf len : Z) : M kst Z := mret 0.
Definition null_dev_write (buf len : Z) : M kst Z := mret len.

(** [for (i = 0; i < len; i++) buf[i] = 0;] *)
Fixpoint zero_loop (n : nat) (buf i : Z) : M kst unit :=
  match n with
  | O => mret tt
  | S n' => _ ← st8 (buf + i) 0; zero_loop n' buf (i + 1)
  end.
Definition zero_dev_read (buf len : Z) : M kst Z :=
  _ ← zero_loop (Z.to_nat len) buf 0;
  mret len.

Definition null_init `{DeviceManager K} : M K Z :=
  _ ← device_install null_device (chars_of "null");
  _ ← device_install zero_device (chars_of "zero");
  mret 0.

End Null.

(** ** kbd.c *)
Module Kbd.

Definition keyboard_open (flags : Z) : M dst Z := mret 0.
Definition keyboard_close : M dst Z := mret 0.

Definition keyboard_read (fuel : nat) (buf len : Z) : M dst Z :=
  rbuf ← dget keyboard_rbuf;
  kern (drain fuel rbuf buf 0 len).

Definition keyboard_key_handler (idt : idt_data) : M dst unit :=
  scancode ← kern (port_in_byte 0x60);
  rbuf ← dget keyboard_rbuf;
  kern (Ringbuf.Impl.ringbuf_write rbuf (u8 (s8 scancode))).

Definition keyboard_init `{Allocator} `{DeviceManager K} : M K Z :=
  rbuf ← below (kern (Ringbuf.Impl.ringbuf_alloc 1024));
  _ ← below (dmod (set_rbuf rbuf));
  _ ← below (idt_set_handler 0x21 (Some keyboard_key_handler_ptr));
  _ ← device_install keyboard_device (chars_of "kbd");
  mret 0.

End Kbd.

(** ** pctimer.c *)
Module Pctimer.

Definition pctimer_handler (data : idt_data) : M dst unit :=
  dmod (fun d => set_ticks (next_ticks d +w 1) d).

Definition pctimer_init `{DeviceManager K} : M K Z :=
  _ ← below (idt_set_handler 0x20 (Some pctimer_handler_ptr));
  _ ← device_install pctimer_device (chars_of "pit");
  mret 0.

Definition pctimer_open (flags : Z) : M dst Z := mret 0.
Definition pctimer_close : M dst Z := mret 0.

(** ["0123456789ABCDEF"[d]] *)
Definition letters (d : Z) : Z := if d <? 10 then 48 + d else 55 + d.

(** The first [for]: [conversion[0..n-1]], lowest digit first. *)
Fixpoint convert (n : nat) (ticks : Z) : list Z :=
  match n with
  | O => []
  | S n' => letters (Z.land ticks 0xF) :: convert n' (Z.shiftr ticks 4)
  end.

(** The second [for]; [i] is unsigned, so [i >= 0] always holds and only
    [len] ends the loop.  Past index 0 the next [i] is 0xFFFFFFFF. *)
Fixpoint emit (len : nat) (conversion : list Z) (i buf read : Z) : M kst Z :=
  match len with
  | O => mret read
  | S len' =>
      match conversion !! Z.to_nat i with
      | None => fail OutOfBounds
      | Some c =>
          _ ← st8 buf c;
          emit len' conversion (i -w 1) (buf + 1) (read +w 1)
      end
  end.

Definition pctimer_read (buf len : Z) : M dst Z :=
  ticks ← dget next_ticks;
  kern (emit (Z.to_nat len) (convert 8 ticks) 7 buf 0).

End Pctimer.

(** ** uart8250.c *)
Module Uart.

Definition UART_PORT : Z := 0x3F8.
Definition uart8250_baud_divisors : list Z :=
  [0x001; 0x003; 0x006; 0x00C; 0x010; 0x018; 0x020; 0x030; 0x03A; 0x040; 0x060;
   0x0C0; 0x180; 0x300; 0x417; 0x900; 0x000].
Definition BAUD_RATE_19200 : nat := 2.

Definition uart8250_reconfigure : M kst unit :=
  let divisor := nth BAUD_RATE_19200 uart8250_baud_divisors 0 in
  _ ← port_out_byte (UART_PORT + 1) 0x00;
  _ ← port_out_byte (UART_PORT + 3) 0x80;
  _ ← port_out_byte (UART_PORT + 0) (Z.land divisor 0xFF);
  _ ← port_out_byte (UART_PORT + 1) (Z.shiftr divisor 8);
  _ ← port_out_byte (UART_PORT + 3) 0x03;
  _ ← port_out_byte (UART_PORT + 4) 0x07;
  port_out_byte (UART_PORT + 1) 0x01.

Definition acknowledge : M kst unit :=
  _ ← port_in_byte (UART_PORT + 2);
  mret tt.

(** [while (port_in_byte(UART_PORT + 5) & 1)] *)
Fixpoint receive (fuel : nat) (flags rx_buf : Z) : M kst unit :=
  match fuel with
  | O => fail Diverges
  | S fuel' =>
      lsr ← port_in_byte (UART_PORT + 5);
      if Z.land lsr 1 =? 0 then mret tt else
      value ← port_in_byte UART_PORT;
      _ ← mwhen (negb (Z.land flags VO_FWRITE =? 0))
            (Ringbuf.Impl.ringbuf_write rx_buf value);
      receive fuel' flags rx_buf
  end.

Definition uart8250_interrupt (fuel : nat) (idt : idt_data) : M dst unit :=
  flags ← dget uart_flags;
  rx_buf ← dget uart_rx_buf;
  _ ← kern (receive fuel flags rx_buf);
  kern acknowledge.

Definition uart8250_init `{DeviceManager K} : M K Z :=
  _ ← device_install uart8250_device (chars_of "uart");
  _ ← below (kern uart8250_reconfigure);
  _ ← below (idt_set_handler 0x24 (Some uart8250_interrupt_ptr));
  _ ← below (kern acknowledge);
  mret 0.

Definition uart8250_tini `{DeviceManager K} : M K unit :=
  device_remove (chars_of "uart").

Definition uart8250_open `{A : Allocator} (flags : Z) : M dst Z :=
  cur ← dget uart_flags;
  if negb (cur =? 0) then mret (-1) else
  _ ← dmod (set_uart_flags flags);
  rx_buf ← kern (Ringbuf.Impl.ringbuf_alloc 4096);
  _ ← dmod (set_uart_buf rx_buf);
  mret 0.

Definition uart8250_close `{A : Allocator} : M dst Z :=
  cur ← dget uart_flags;
  if cur =? 0 then mret (-1) else
  rx_buf ← dget uart_rx_buf;
  _ ← kern (Ringbuf.Impl.ringbuf_free rx_buf);
  _ ← dmod (set_uart_flags 0);
  mret 0.

Definition uart8250_read (fuel : nat) (buf len : Z) : M dst Z :=
  rx_buf ← dget uart_rx_buf;
  kern (drain fuel rx_buf buf 0 len).

Fixpoint uart8250_write_binary (len : nat) (buf write_bytes : Z) : M kst Z :=
  match len with
  | O => mret write_bytes
  | S len' =>
      b ← ld8 buf;
      _ ← port_out_byte UART_PORT b;
      uart8250_write_binary len' (buf + 1) (write_bytes +w 1)
  end.

(** ['\r'] is 13, ['\n'] 10, ['\b'] 8. *)
Fixpoint uart8250_write_non_binary (len : nat) (buf write_bytes : Z) : M kst Z :=
  match len with
  | O => mret write_bytes
  | S len' =>
      b ← ld8 buf;
      if b =? 13 then
        _ ← port_out_byte UART_PORT 13;
        _ ← port_out_byte UART_PORT 10;
        uart8250_write_non_binary len' (buf + 1) (write_bytes +w 2)
      else if b =? 127 then
        _ ← port_out_byte UART_PORT 8;
        uart8250_write_non_binary len' (buf + 1) (write_bytes +w 1)
      else
        _ ← port_out_byte UART_PORT b;
        uart8250_write_non_binary len' (buf + 1) (write_bytes +w 1)
  end.

Definition uart8250_write (buf len : Z) : M dst Z :=
  if buf =? 0 then mret 0 else
  c ← kern (ld8 buf);
  if c =? 0 then mret 0 else
  flags ← dget uart_flags;
  if negb (Z.land flags VO_FBINARY =? 0)
  then kern (uart8250_write_binary (Z.to_nat len) buf 0)
  else kern (uart8250_write_non_binary (Z.to_nat len) buf 0).

End Uart.

(** The handler table's functions. *)
Definition run_isr (fuel : nat) (h : isr_name) (d : idt_data) : M dst unit :=
  match h with
  | keyboard_key_handler_ptr => Kbd.keyboard_key_handler d
  | pctimer_handler_ptr => Pctimer.pctimer_handler d
  | uart8250_interrupt_ptr => Uart.uart8250_interrupt fuel d
  end.

(** ** Lemmas *)
Module Facts.
Import Ringbuf.Impl Ringbuf.Rep Ringbuf.Queue.

(** *** The timer's digits *)

Lemma convert_lookup n ticks i :
  (i < n)%nat -> 0 <= ticks ->
  Pctimer.convert n ticks !! i
  = Some (Pctimer.letters (ticks / 16 ^ Z.of_nat i mod 16)).
Proof.
  revert ticks i. induction n as [|n IH]; intros ticks i Hi Ht; [lia|].
  cbn [Pctimer.convert]. destruct i as [|i]; cbn [lookup list_lookup].
  - cbn. rewrite Z.div_1_r. do 2 f_equal. change 15 with (Z.ones 4). by rewrite Z.land_ones.
  - rewrite IH; [|lia|by apply Z.shiftr_nonneg]. do 3 f_equal.
    rewrite Z.shiftr_div_pow2 by lia. rewrite Z.div_div by lia. f_equal.
    change (2 ^ 4) with 16. rewrite <- Z.pow_succ_r by lia. f_equal. lia.
Qed.

Lemma length_convert n ticks : length (Pctimer.convert n ticks) = n.
Proof. revert ticks. induction n as [|n IH]; intros ticks; cbn; [done|by rewrite IH]. Qed.

(** The digits of [ticks], highest first. *)
Definition hex (ticks : Z) : list Z := reverse (Pctimer.convert 8 ticks).

(** [k] bytes emitted from index [i] downwards. *)
Lemma emit_run k conv i buf read s :
  (k <= S i)%nat -> (i < length conv)%nat -> (i < 8)%nat -> 0 <= read -> read + Z.of_nat k < W32 ->
  Pctimer.emit k conv (Z.of_nat i) buf read s
  = Ok (read + Z.of_nat k,
        set_mem (store_bytes (k_mem s) buf (take k (reverse (take (S i) conv)))) s).
Proof.
  revert i buf read s. induction k as [|k IH]; intros i buf read s Hk Hi H8 Hr Hlt; cbn [Pctimer.emit].
  - rewrite firstn_O. cbn. by rewrite Z.add_0_r, set_mem_id.
  - rewrite Nat2Z.id. destruct (lookup_lt_is_Some_2 conv i Hi) as [c Hc]. rewrite Hc.
    rewrite (bind_Ok _ _ s tt (set_mem (store8 (k_mem s) buf c) s)) by done.
    rewrite (take_S_r conv i c Hc), reverse_snoc, firstn_cons. cbn [store_bytes].
    rewrite (u32_small (read + 1)) by lia. destruct i as [|i].
    + assert (k = 0)%nat as -> by lia. cbn [Pctimer.emit]. rewrite firstn_O. cbn. done.
    + rewrite (u32_small (Z.of_nat (S i) - 1)) by lia.
      replace (Z.of_nat (S i) - 1) with (Z.of_nat i) by lia.
      rewrite IH by lia. rewrite set_mem_mem. cbn [set_mem k_mem].
      f_equal. f_equal. lia.
Qed.

Lemma emit_overrun k conv i buf read s :
  (length conv <= 8)%nat -> (i < length conv)%nat -> (S i < k)%nat ->
  Pctimer.emit k conv (Z.of_nat i) buf read s = Err OutOfBounds.
Proof.
  intros Hl. revert i buf read s. induction k as [|k IH]; intros i buf read s Hi Hk; [lia|].
  cbn [Pctimer.emit]. rewrite Nat2Z.id.
  destruct (lookup_lt_is_Some_2 conv i Hi) as [c Hc]. rewrite Hc.
  rewrite (bind_Ok _ _ s tt (set_mem (store8 (k_mem s) buf c) s)) by done.
  destruct i as [|i].
  - destruct k as [|k]; [lia|]. cbn [Pctimer.emit].
    change (Z.of_nat 0 -w 1) with 4294967295.
    assert (length conv <= Z.to_nat 4294967295)%nat as Hge
      by (apply Nat2Z.inj_le; rewrite Z2Nat.id by done; lia).
    by rewrite (lookup_ge_None_2 _ _ Hge).
  - rewrite (u32_small (Z.of_nat (S i) - 1)) by lia.
    replace (Z.of_nat (S i) - 1) with (Z.of_nat i) by lia. apply IH; lia.
Qed.

(** *** The serial port *)

(** What the terminal is sent for a byte. *)
Definition cooked (b : Z) : list Z :=
  if b =? 13 then [13; 10] else if b =? 127 then [8] else [b].
Definition sent (bs : list Z) : list io_event := Out8 Uart.UART_PORT <$> bs.

Lemma out_uart b s : 0 <= b < 256 ->
  port_out_byte Uart.UART_PORT b s = Ok (tt, add_ios (sent [b]) s).
Proof. intros Hb. rewrite port_out_byte_run, u8_small by done. done. Qed.

Lemma sent_app bs cs : sent (bs ++ cs) = sent bs ++ sent cs.
Proof. apply fmap_app. Qed.

Lemma write_binary_run n buf w s :
  0 <= w -> w + Z.of_nat n < W32 ->
  Uart.uart8250_write_binary n buf w s
  = Ok (w + Z.of_nat n, add_ios (sent (load_bytes (k_mem s) buf n)) s).
Proof.
  revert buf w s. induction n as [|n IH]; intros buf w s Hw Hlt; cbn [Uart.uart8250_write_binary].
  - cbn. by rewrite Z.add_0_r, add_ios_nil.
  - rewrite (bind_Ok _ _ s (load8 (k_mem s) buf) s) by done.
    mstep (out_uart (load8 (k_mem s) buf) s (load8_range _ _)).
    rewrite u32_small, IH by lia. rewrite load_bytes_S, add_ios_app. f_equal.
    f_equal. lia.
Qed.

Lemma write_non_binary_run n buf w s :
  0 <= w -> w + 2 * Z.of_nat n < W32 ->
  let out := load_bytes (k_mem s) buf n ≫= cooked in
  Uart.uart8250_write_non_binary n buf w s
  = Ok (w + Z.of_nat (length out), add_ios (sent out) s).
Proof.
  revert buf w s. induction n as [|n IH]; intros buf w s Hw Hlt;
    cbn [Uart.uart8250_write_non_binary].
  - cbn. by rewrite Z.add_0_r, add_ios_nil.
  - rewrite (bind_Ok _ _ s (load8 (k_mem s) buf) s) by done.
    pose proof (load8_range (k_mem s) buf) as Hb.
    rewrite load_bytes_S. cbn [mbind list_bind]. unfold cooked at 1 3. rewrite !if_app.
    destruct (Z.eqb_spec (load8 (k_mem s) buf) 13) as [E|].
    { mstep (out_uart 13 s ltac:(lia)). mstep (out_uart 10 (add_ios (sent [13]) s) ltac:(lia)).
      rewrite u32_small, IH by lia. rewrite !add_ios_app, <- !sent_app, k_mem_add_ios. cbn [app length].
      f_equal. f_equal. lia. }
    destruct (Z.eqb_spec (load8 (k_mem s) buf) 127) as [E|].
    { mstep (out_uart 8 s ltac:(lia)).
      rewrite u32_small, IH by lia. rewrite !add_ios_app, <- !sent_app, k_mem_add_ios. cbn [app length].
      f_equal. f_equal. lia. }
    mstep (out_uart (load8 (k_mem s) buf) s Hb).
    rewrite u32_small, IH by lia. rewrite !add_ios_app, <- !sent_app, k_mem_add_ios. cbn [app length].
    f_equal. f_equal. lia.
Qed.

(** *** The receiver *)

(** How many bytes have been taken from the receiver's data register. *)
Definition is_rx (e : io_event) : bool :=
  match e with PortIn 8 1016 _ => true | _ => false end.
Definition consumed (io : list io_event) : nat := length (filter (fun e => is_rx e = true) io).

(** A serial port that will have received exactly the bytes [bs]: bit 0 of the
    line status register says whether one is left, and the data register
    delivers the next one. *)
Definition receives (hw : list io_event -> Z -> Z) (bs : list Z) : Prop :=
  Forall (fun b => 0 <= b < 256) bs /\
  forall io, Z.testbit (hw io 1021) 0 = (consumed io <? length bs)%nat /\
             hw io 1016 = nth (consumed io) bs 0.

(** The bytes taken from the data register, and the accesses that only poll and
    take. *)
Definition rx_data (io : list io_event) : list Z :=
  omap (fun e => match e with In8 p v => if p =? 1016 then Some v else None | _ => None end) io.
Definition rx_only (io : list io_event) : Prop :=
  Forall (fun e => exists v, e = In8 1021 v \/ e = In8 1016 v) io.

Lemma consumed_app io io' : consumed (io ++ io') = (consumed io + consumed io')%nat.
Proof. unfold consumed. by rewrite filter_app, length_app. Qed.

Lemma land_u8_1 x : Z.land (u8 x) 1 = Z.b2z (Z.testbit x 0).
Proof.
  change 1 with (Z.ones 1). rewrite Z.land_ones, Z.bit0_mod by lia. change (2 ^ 1) with 2.
  unfold u8. Z.to_euclidean_division_equations. lia.
Qed.

Lemma drop_cons_nth n (bs : list Z) b rest :
  drop n bs = b :: rest ->
  (n < length bs)%nat /\ nth n bs 0 = b /\ drop (S n) bs = rest.
Proof.
  intros H. assert (bs !! n = Some b) as Hn.
  { pose proof (lookup_drop bs n 0) as Hd. rewrite H, Nat.add_0_r in Hd. by rewrite <- Hd. }
  split_and!; [by eapply lookup_lt_Some|by apply nth_lookup_Some|].
  apply drop_S in Hn. congruence.
Qed.

(** Polling the line status register. *)
Lemma poll_run bs s :
  receives (k_hw s) bs ->
  exists lsr, port_in_byte (Uart.UART_PORT + 5) s = Ok (lsr, add_ios [In8 1021 lsr] s) /\
    (Z.land lsr 1 =? 0) = negb (consumed (k_io s) <? length bs)%nat.
Proof.
  intros [_ Hhw]. eexists. split; [apply port_in_byte_run|].
  change (u16 (Uart.UART_PORT + 5)) with 1021. rewrite land_u8_1.
  rewrite (proj1 (Hhw (k_io s))). by destruct (_ <? _)%nat.
Qed.

Lemma rx_more s s' lsr b rest :
  (exists evs, k_io s' = ((k_io s ++ [In8 1021 lsr]) ++ [In8 1016 b]) ++ evs /\
    rx_data evs = rest /\ rx_only evs) ->
  exists evs, k_io s' = k_io s ++ evs /\ rx_data evs = b :: rest /\ rx_only evs.
Proof.
  intros (evs & Hio & Hd & Ho). exists (In8 1021 lsr :: In8 1016 b :: evs).
  split_and!; [by rewrite Hio, <- !app_assoc| |].
  - cbn. by rewrite <- Hd.
  - constructor; [by exists lsr; left|]. constructor; [by exists b; right|done].
Qed.

(** One call of the loop's body: the state that the next call starts in. *)
Lemma receive_run fuel flags p n q ovf bs rest s :
  receives (k_hw s) bs -> drop (consumed (k_io s)) bs = rest ->
  repr (k_mem s) p n q ovf -> (length rest < fuel)%nat ->
  exists s' ovf', Uart.receive fuel flags p s = Ok (tt, s') /\
    repr (k_mem s') p n
      (if Z.land flags VO_FWRITE =? 0 then q else foldl (push n) q rest) ovf' /\
    k_hw s' = k_hw s /\
    exists evs, k_io s' = k_io s ++ evs /\ rx_data evs = rest /\ rx_only evs.
Proof.
  intros Hhw. revert fuel s q ovf Hhw.
  induction rest as [|b rest IH]; intros [|fuel] s q ovf Hhw Hrest H Hf; cbn in Hf; try lia;
    cbn [Uart.receive]; destruct (poll_run bs s Hhw) as (lsr & Hpoll & Hbit);
    mstep Hpoll; rewrite if_app, Hbit.
  - assert (length bs <= consumed (k_io s))%nat as Hall.
    { apply (f_equal length) in Hrest. rewrite length_drop in Hrest. cbn in Hrest. lia. }
    rewrite (proj2 (Nat.ltb_ge _ _)) by done. cbn [negb].
    eexists _, ovf. split; [done|]. rewrite k_mem_add_ios. cbn [add_ios k_io k_hw foldl].
    split_and!; [destruct (Z.land flags VO_FWRITE =? 0); exact H|done|].
    exists [In8 1021 lsr]. split_and!; [done..|]. constructor; [by exists lsr; left|constructor].
  - destruct (drop_cons_nth _ _ _ _ Hrest) as (Hlt & Hnth & Hdrop).
    rewrite (proj2 (Nat.ltb_lt _ _)) by done. cbn [negb].
    set (s1 := add_ios [In8 1021 lsr] s).
    assert (consumed (k_io s1) = consumed (k_io s)) as Hc1.
    { subst s1. cbn [add_ios k_io]. rewrite consumed_app. change (consumed [In8 1021 lsr]) with 0%nat. lia. }
    pose proof (port_in_byte_run Uart.UART_PORT s1) as Hin.
    change (u16 Uart.UART_PORT) with 1016 in Hin.
    assert (u8 (k_hw s1 (k_io s1) 1016) = b) as Hb.
    { change (k_hw s1) with (k_hw s). rewrite (proj2 (proj2 Hhw (k_io s1))), Hc1, Hnth. apply u8_small.
      destruct Hhw as [HF _]. rewrite Forall_forall in HF. apply HF.
      rewrite <- Hnth. apply list_elem_of_In, nth_In. lia. }
    rewrite Hb in Hin. mstep Hin. set (s2 := add_ios [In8 1016 b] s1).
    assert (consumed (k_io s2) = S (consumed (k_io s))) as Hc2.
    { subst s2. cbn [add_ios k_io]. rewrite consumed_app, Hc1. change (consumed [In8 1016 b]) with 1%nat. lia. }
    destruct (Z.eqb_spec (Z.land flags VO_FWRITE) 0) as [E|E]; cbn [negb mwhen].
    + rewrite (bind_Ok _ _ s2 tt s2) by done.
      destruct (IH fuel s2 q ovf) as (s' & ovf' & Hrun & Hr & Hh & Hio);
        [done|by rewrite Hc2|done|lia|].
      exists s', ovf'. split_and!; [done..|]. by apply (rx_more s s' lsr).
    + destruct (write_step s2 p n q ovf b H) as (m2 & Hw & H2 & _). mstep Hw.
      destruct (IH fuel (set_mem m2 s2) (push n q b) (full n q)) as (s' & ovf' & Hrun & Hr & Hh & Hio);
        [done|by rewrite <- Hdrop, <- Hc2|done|lia|].
      exists s', ovf'. split_and!; [done..|]. by apply (rx_more s s' lsr).
Qed.

(** *** An interrupt of the keyboard *)

(** The whole interrupt around the write to the ring buffer. *)
Lemma keyboard_dispatch_run fuel (s : dst) e m :
  idt_handlers s !! 0x21%nat = Some (Some keyboard_key_handler_ptr) ->
  let v := u8 (k_hw (i_k s) (k_io (i_k s)) 0x60) in
  let k1 := add_ios [In8 0x60 v] (i_k s) in
  ringbuf_write (keyboard_rbuf (i_ext s)) v k1 = Ok (tt, set_mem m k1) ->
  idt_handler (run_isr fuel) (IdtData 0x21 e) s
    = Ok (tt, set_ik (set_mem m (add_ios [In8 0x60 v; Out8 0x20 0x20] (i_k s))) s).
Proof.
  intros Hh v k1 Hw. set (s1 := set_ik (set_mem m k1) s).
  assert (run_isr fuel keyboard_key_handler_ptr (IdtData 0x21 e) s = Ok (tt, s1)) as Hrun.
  { cbn [run_isr]. unfold Kbd.keyboard_key_handler.
    rewrite (bind_Ok _ _ s v (set_ik k1 s)) by done.
    unfold dget. rewrite gets_bind. unfold kern, zoom. cbn [set_ik i_k i_ext].
    assert (u8 (s8 v) = v) as -> by (rewrite u8_s8; apply u8_idem). by rewrite Hw. }
  rewrite (Idt.Facts.dispatch_run (run_isr fuel) s (IdtData 0x21 e) _ s1 Hh ltac:(cbn; lia) Hrun).
  unfold s1, k1, set_ik, set_mem, add_ios. cbn. by rewrite <- app_assoc.
Qed.

Lemma keyboard_interrupt_run fuel (s : dst) e n q ovf
    (Hh : idt_handlers s !! 0x21%nat = Some (Some keyboard_key_handler_ptr))
    (H : repr (k_mem (i_k s)) (keyboard_rbuf (i_ext s)) n q ovf) :
  let v := u8 (k_hw (i_k s) (k_io (i_k s)) 0x60) in
  exists m, idt_handler (run_isr fuel) (IdtData 0x21 e) s
      = Ok (tt, set_ik (set_mem m (add_ios [In8 0x60 v; Out8 0x20 0x20] (i_k s))) s) /\
    repr m (keyboard_rbuf (i_ext s)) n (push n q v) (full n q) /\
    same_ring (k_mem (i_k s)) m (keyboard_rbuf (i_ext s)) n.
Proof.
  intros v. set (k1 := add_ios [In8 0x60 v] (i_k s)).
  destruct (write_step k1 (keyboard_rbuf (i_ext s)) n q ovf v H) as (m1 & Hw & H1 & H2).
  exists m1. split_and!; [by apply keyboard_dispatch_run|done|exact H2].
Qed.

End Facts.

Import Ringbuf.Rep Ringbuf.Queue Facts.

(** ** Properties *)

(** A keyboard interrupt reads one scancode from port 0x60, adds it to the
    driver's ring buffer (dropping the oldest one if it is full), and is
    acknowledged at the first interrupt controller. *)
Theorem keyboard_interrupt_delivers fuel (s : dst) e n q ovf
    (Hh : idt_handlers s !! 0x21%nat = Some (Some keyboard_key_handler_ptr))
    (H : repr (k_mem (i_k s)) (keyboard_rbuf (i_ext s)) n q ovf) :
  let v := u8 (k_hw (i_k s) (k_io (i_k s)) 0x60) in
  exists s', idt_handler (run_isr fuel) (IdtData 0x21 e) s = Ok (tt, s') /\
    repr (k_mem (i_k s')) (keyboard_rbuf (i_ext s')) n (push n q v) (full n q) /\
    k_io (i_k s') = k_io (i_k s) ++ [In8 0x60 v; Out8 0x20 0x20].
Proof.
  intros v. destruct (keyboard_interrupt_run fuel s e n q ovf Hh H) as (m & Hrun & Hr & _).
  eexists. by split_and!.
Qed.

(** The keyboard's ring buffer of Ringbuf.v's sample, installed at 0x21. *)
Definition sample_dst : dst :=
  Idt (KSt Ringbuf.sample_mem 0 0 [] (fun _ _ => 0x1E)) (IdtTable 0 0) []
    (replicate 33 None ++ Some keyboard_key_handler_ptr :: replicate 14 None) None
    (Drivers 0x1000 0 (RtClock 0 0 0 0 0 0 0) 0 0).

Lemma keyboard_interrupt_delivers_witness :
  exists s', idt_handler (run_isr 10) (IdtData 0x21 0) sample_dst = Ok (tt, s') /\
    repr (k_mem (i_k s')) (keyboard_rbuf (i_ext s')) 4 [7; 8; 0x1E] false.
Proof.
  destruct (keyboard_interrupt_delivers 10 sample_dst 0 4 [7; 8] false eq_refl
    Ringbuf.sample_repr) as (s' & Hrun & Hr & _).
  exists s'. split; [exact Hrun|exact Hr].
Defined.

(** [keyboard_read] copies the oldest scancodes to the caller, but one more
    than it was asked for when more are waiting: its buffer overflows by a
    byte. *)
Theorem keyboard_read_overruns fuel (s : dst) n q ovf buf len
    (H : repr (k_mem (i_k s)) (keyboard_rbuf (i_ext s)) n q ovf)
    (Hf : (length q < fuel)%nat) (Hlen : 0 <= len < W32 - 1)
    (Hap : buf_apart (k_mem (i_k s)) (keyboard_rbuf (i_ext s)) n buf (len + 1)) :
  let k := Nat.min (Z.to_nat len + 1) (length q) in
  exists m', Kbd.keyboard_read fuel buf len s = Ok (Z.of_nat k, set_ik (set_mem m' (i_k s)) s) /\
    drained (k_mem (i_k s)) m' (keyboard_rbuf (i_ext s)) n buf q k.
Proof.
  intros k.
  destruct (drain_run fuel (i_k s) (keyboard_rbuf (i_ext s)) n q ovf buf 0 len H
    (repr_bytes _ _ _ _ _ H) ltac:(lia) ltac:(lia) ltac:(lia)) as (m' & Hrun & Hd).
  { by rewrite Z.sub_0_r. }
  replace (Z.to_nat (len + 1 - 0)) with (Z.to_nat len + 1)%nat in Hrun, Hd by lia.
  exists m'. split; [|exact Hd]. unfold Kbd.keyboard_read, dget. rewrite gets_bind.
  unfold kern, zoom. by rewrite Hrun.
Qed.

Lemma keyboard_read_overruns_witness :
  exists m', Kbd.keyboard_read 10 0x5000 1 sample_dst
    = Ok (2, set_ik (set_mem m' (i_k sample_dst)) sample_dst) /\
    load_bytes m' 0x5000 2 = [7; 8].
Proof.
  destruct (keyboard_read_overruns 10 sample_dst 4 [7; 8] false 0x5000 1 Ringbuf.sample_repr
    ltac:(cbn; lia) ltac:(lia)) as (m' & Hrun & _ & Hl & _).
  - split; [right; cbn; lia|]. right. change (0x2000 + 4 <= 0x5000). lia.
  - exists m'. split; [exact Hrun|exact Hl].
Defined.

(** [pctimer_read] writes the hexadecimal digits of the tick counter,
    highest first, up to the 8 there are; asked for more, it reads past its
    conversion buffer (the loop counts an unsigned index down below 0). *)
Theorem pctimer_read_hex (s : dst) buf len (Hlen : 0 <= len < W32)
    (Ht : 0 <= next_ticks (i_ext s)) :
  Pctimer.pctimer_read buf len s
  = if len <=? 8
    then Ok (len, set_ik (set_mem (store_bytes (k_mem (i_k s)) buf
                   (take (Z.to_nat len) (hex (next_ticks (i_ext s))))) (i_k s)) s)
    else Err OutOfBounds.
Proof.
  unfold Pctimer.pctimer_read, dget. rewrite gets_bind. unfold kern, zoom.
  pose proof (length_convert 8 (next_ticks (i_ext s))) as Hl.
  destruct (Z.leb_spec len 8) as [Hle|Hgt].
  - change 7 with (Z.of_nat 7). rewrite emit_run by lia.
    unfold hex. rewrite (take_ge (Pctimer.convert _ _) 8) by lia.
    do 2 f_equal. lia.
  - change 7 with (Z.of_nat 7). by rewrite emit_overrun by lia.
Qed.

Lemma pctimer_read_hex_witness :
  exists s', Pctimer.pctimer_read 0x5000 8
    (set_ext (set_ticks 0x1234ABCD (i_ext sample_dst)) sample_dst) = Ok (8, s') /\
    load_bytes (k_mem (i_k s')) 0x5000 8 = [49; 50; 51; 52; 65; 66; 67; 68].
Proof.
  eexists. split.
  - apply (pctimer_read_hex (set_ext (set_ticks 0x1234ABCD (i_ext sample_dst)) sample_dst)
      0x5000 8); [lia|cbn; lia].
  - vm_compute. reflexivity.
Defined.

(** A write to the serial port in text mode sends every byte, carriage
    returns followed by a line feed and deletes as backspaces, in order, and
    returns the number of bytes sent; in binary mode it sends the bytes as they
    are; a buffer that starts with a NUL is not sent at all. *)
Theorem uart_write_sends (s : dst) buf len
    (Hlen : 0 <= 2 * len < W32) (Hbuf : buf <> 0) :
  let bs := load_bytes (k_mem (i_k s)) buf (Z.to_nat len) in
  let out := if load8 (k_mem (i_k s)) buf =? 0 then []
             else if Z.land (uart_flags (i_ext s)) VO_FBINARY =? 0 then bs ≫= cooked else bs in
  Uart.uart8250_write buf len s
  = Ok (Z.of_nat (length out), set_ik (add_ios (sent out) (i_k s)) s).
Proof.
  intros bs out. unfold Uart.uart8250_write. rewrite (proj2 (Z.eqb_neq _ 0)) by done.
  rewrite (bind_Ok _ _ s (load8 (k_mem (i_k s)) buf) s) by (by destruct s as [[]]).
  subst out. rewrite if_app. destruct (load8 _ buf =? 0).
  { cbn [sent fmap list_fmap length]. rewrite add_ios_nil. by destruct s. }
  unfold dget. rewrite gets_bind, if_app. unfold kern, zoom.
  destruct (Z.land _ VO_FBINARY =? 0); cbn [negb].
  - by rewrite write_non_binary_run by lia.
  - rewrite write_binary_run by lia. fold bs. subst bs. rewrite length_load_bytes.
    by rewrite Z.add_0_l.
Qed.

Lemma uart_write_sends_witness :
  outcome (Uart.uart8250_write 0x2000 4
    (set_ik (set_mem (store_bytes ∅ 0x2000 [65; 13; 127; 66]) (i_k sample_dst)) sample_dst))
    = Some 5.
Proof. rewrite uart_write_sends by lia. vm_compute. reflexivity. Defined.

(** C32: The serial interrupt empties the receiver: its accesses are reads of the
    line status and data registers that take every byte the hardware holds once
    and in order, and then one read of the interrupt identification register,
    which acknowledges the interrupt at the port.  The bytes go to the ring
    buffer, behind the ones that are pending, when the device was opened with
    [VO_FWRITE] (the flag for writing), else nowhere. *)
Theorem uart_interrupt_receives fuel (s : dst) e n q ovf bs
    (Hhw : receives (k_hw (i_k s)) bs)
    (H : repr (k_mem (i_k s)) (uart_rx_buf (i_ext s)) n q ovf)
    (Hf : (length bs < fuel)%nat) :
  let rest := drop (consumed (k_io (i_k s))) bs in
  exists s' ovf' evs, Uart.uart8250_interrupt fuel (IdtData 0x24 e) s = Ok (tt, s') /\
    repr (k_mem (i_k s')) (uart_rx_buf (i_ext s')) n
      (if Z.land (uart_flags (i_ext s)) VO_FWRITE =? 0 then q else foldl (push n) q rest) ovf' /\
    k_io (i_k s') = (k_io (i_k s) ++ evs)
      ++ [In8 0x3FA (u8 (k_hw (i_k s) (k_io (i_k s) ++ evs) 0x3FA))] /\
    rx_data evs = rest /\ rx_only evs.
Proof.
  intros rest. unfold Uart.uart8250_interrupt, dget. rewrite gets_bind, gets_bind.
  destruct (receive_run fuel (uart_flags (i_ext s)) (uart_rx_buf (i_ext s)) n q ovf bs rest
    (i_k s) Hhw eq_refl H) as (k' & ovf' & Hrun & Hr & Hh & evs & Hio & Hd & Ho).
  { subst rest. rewrite length_drop. lia. }
  rewrite (bind_Ok _ _ s tt (set_ik k' s)) by (unfold kern, zoom; by rewrite Hrun).
  eexists _, ovf', evs. split; [reflexivity|]. cbn [set_ik i_k i_ext]. split; [exact Hr|].
  split; [|done]. cbn [k_io add_io k_hw]. rewrite <- Hio, <- Hh. done.
Qed.

(** A receiver that delivers [72; 105] and then is empty. *)
Definition sample_hw (io : list io_event) (port : Z) : Z :=
  if port =? 1021 then (if (consumed io <? 2)%nat then 1 else 0)
  else nth (consumed io) [72; 105] 0.

Lemma uart_interrupt_receives_witness :
  exists s s' ovf', Uart.uart8250_interrupt 10 (IdtData 0x24 0) s = Ok (tt, s') /\
    repr (k_mem (i_k s')) (uart_rx_buf (i_ext s')) 4 [7; 8; 72; 105] ovf'.
Proof.
  set (s := Idt (KSt Ringbuf.sample_mem 0 0 [] sample_hw) (IdtTable 0 0) []
    (replicate 48 None) None (Drivers 0 0 (RtClock 0 0 0 0 0 0 0) VO_FWRITE 0x1000) : dst).
  destruct (uart_interrupt_receives 10 s 0 4 [7; 8] false [72; 105]) as (s' & ovf' & evs & Hrun & Hr & _).
  - split; [repeat constructor; lia|]. intros io. split; [|done].
    unfold s, sample_hw. cbn [i_k k_hw]. rewrite Z.eqb_refl. cbn [length].
    by destruct (consumed io <? 2)%nat.
  - exact Ringbuf.sample_repr.
  - cbn. lia.
  - exists s, s', ovf'. split; [exact Hrun|exact Hr].
Defined.
