(* ===== verification/RingIsr.v ===== *)
(** * A ring buffer under interrupts: the keyboard

    [keyboard_read] (kernel/device/kbd.c) and the functions of ringbuf.c it
    calls run with interrupts enabled, and the keyboard's interrupt writes to
    the ring buffer they read.  [Module Accesses] is their code once more, an
    access to memory at a time; without interrupts it is the code of Ringbuf.v
    and Chardev.v.  [Module Reader] reasons about the read while an interrupt
    comes between any two of the accesses, for every interrupt that is a [source]
    of bytes for the ring; [Module Keyboard] is the keyboard's.  UartIsr.v has the
    serial port's. *)
From S2P Require Import Prelude Mem Alloc Ports Steps Ringbuf Idt Device Chardev.
Import Idt.Impl Ringbuf.Rep Ringbuf.Queue.
Local Open Scope Z_scope.

(** ** The code, an access at a time *)
Module Accesses.
Import Ringbuf.Impl.

Definition rd8 (a : Z) : thread dst Z := act (kern (ld8 a)).
Definition rd32 (a : Z) : thread dst Z := act (kern (ld32 a)).
Definition wr8 (a v : Z) : thread dst unit := act_ (kern (st8 a v)).
Definition wr32 (a v : Z) : thread dst unit := act_ (kern (st32 a v)).

Definition ringbuf_test_ready (buf : Z) : thread dst Z :=
  writeptr ← rd32 (buf + o_writeptr);
  readptr ← rd32 (buf + o_readptr);
  if negb (writeptr =? readptr) then mret 1 else
  status ← rd32 (buf + o_status);
  mret (cbool (negb (Z.land status RINGBUF_FUL =? 0))).

(** [if (++buf->ptr == buf->size) buf->ptr = 0;] *)
Definition advance (buf o_ptr : Z) : thread dst unit :=
  ptr ← rd32 (buf + o_ptr);
  _ ← wr32 (buf + o_ptr) (ptr +w 1);
  ptr' ← rd32 (buf + o_ptr);
  size ← rd32 (buf + o_size);
  if ptr' =? size then wr32 (buf + o_ptr) 0 else mret tt.

Definition ringbuf_read (buf : Z) : thread dst Z :=
  buffer ← rd32 (buf + o_buffer);
  readptr ← rd32 (buf + o_readptr);
  byte ← rd8 (buffer + readptr);
  _ ← advance buf o_readptr;
  _ ← wr32 (buf + o_status) 0;
  mret byte.

(** The loop of [keyboard_read]. *)
Fixpoint drain (fuel : nat) (rbuf buf total len : Z) : thread dst Z :=
  match fuel with
  | O => act (fail Diverges)
  | S fuel' =>
      if negb (total <=? len) then mret total else
      ready ← ringbuf_test_ready rbuf;
      if ready =? 0 then mret total else
      byte ← ringbuf_read rbuf;
      _ ← wr8 buf byte;
      drain fuel' rbuf (buf + 1) (total +w 1) len
  end.

Definition keyboard_read (fuel : nat) (rbuf buf len : Z) : thread dst Z :=
  drain fuel rbuf buf 0 len.

End Accesses.

(** *** Without interrupts it is the code of Ringbuf.v and Chardev.v *)
Module Sequential.
Section sequential.
Context (isr : M dst unit).

Lemma kern_bind {A B} (m : M kst A) (f : A -> M kst B) s :
  kern (m ≫= f) s = (kern m ≫= fun a => kern (f a)) s.
Proof.
  unfold kern, zoom, mbind, M_bind. destruct (m (i_k s)) as [[a k]|]; [|done].
  cbn [set_ik i_k]. by destruct (f a k) as [[b k']|].
Qed.

Lemma alone_bind {A B} (p : thread dst A) (f : A -> thread dst B) m g s :
  (forall s, interleave isr p [] s = kern m s) ->
  (forall a s, interleave isr (f a) [] s = kern (g a) s) ->
  interleave isr (p ≫= f) [] s = kern (m ≫= g) s.
Proof.
  intros Hp Hf. rewrite interleave_bind_nil, kern_bind. unfold mbind, M_bind.
  rewrite Hp. destruct (kern m s) as [[a s']|]; [apply Hf|done].
Qed.

Lemma alone_ret {A} (a : A) s : interleave isr (mret a) [] s = kern (mret a) s.
Proof. by destruct s. Qed.

Lemma test_ready_alone buf s :
  interleave isr (Accesses.ringbuf_test_ready buf) [] s = kern (Impl.ringbuf_test_ready buf) s.
Proof.
  apply alone_bind; [intros; apply interleave_act|intros w s1].
  apply alone_bind; [intros; apply interleave_act|intros r s2].
  destruct (w =? r); cbn [negb orb]; [|by destruct s2].
  apply alone_bind; [intros; apply interleave_act|intros; apply alone_ret].
Qed.

Lemma advance_alone buf o s :
  interleave isr (Accesses.advance buf o) [] s = kern (Impl.advance buf o) s.
Proof.
  apply alone_bind; [intros; apply interleave_act|intros; cbv beta].
  apply alone_bind; [intros; apply interleave_act_|intros; cbv beta].
  do 2 (apply alone_bind; [intros; apply interleave_act|intros; cbv beta]).
  unfold mwhen. destruct (_ =? _); [apply interleave_act_|apply alone_ret].
Qed.

Lemma ringbuf_read_alone buf s :
  interleave isr (Accesses.ringbuf_read buf) [] s = kern (Impl.ringbuf_read buf) s.
Proof.
  do 3 (apply alone_bind; [intros; apply interleave_act|intros; cbv beta]).
  apply alone_bind; [apply advance_alone|intros; cbv beta].
  apply alone_bind; [intros; apply interleave_act_|intros; apply alone_ret].
Qed.

Lemma drain_alone fuel rbuf buf total len s :
  interleave isr (Accesses.drain fuel rbuf buf total len) [] s
  = kern (drain fuel rbuf buf total len) s.
Proof.
  revert buf total s. induction fuel as [|fuel IH]; intros buf total s; [apply interleave_act|].
  cbn [Accesses.drain drain]. destruct (negb _); [apply alone_ret|].
  apply alone_bind; [apply test_ready_alone|intros ready s1].
  destruct (ready =? 0); [apply alone_ret|].
  apply alone_bind; [apply ringbuf_read_alone|intros byte s2].
  apply alone_bind; [apply interleave_act_|intros [] s3; apply IH].
Qed.

(** The accesses of [keyboard_read] in a row are [keyboard_read]. *)
Theorem keyboard_read_alone fuel buf len s :
  interleave isr (Accesses.keyboard_read fuel (keyboard_rbuf (i_ext s)) buf len) [] s
  = Kbd.keyboard_read fuel buf len s.
Proof. apply drain_alone. Qed.

End sequential.
End Sequential.

(** ** The ring buffer in the middle of a read *)
Module Ring.
Import Ringbuf.Impl.

(** The object at [p] holds [q] from the index [raw] on, which is the capacity
    itself between the two stores of [advance]; the status word is [st]. *)
Record ring (m : mem) (p n raw st : Z) (q : list Z) : Prop := Ring {
  g_size : load32 m (p + o_size) = n;
  g_cap : 0 < n < W32;
  g_raw : load32 m (p + o_readptr) = raw;
  g_range : 0 <= raw <= n;
  g_write : load32 m (p + o_writeptr) = (raw + Z.of_nat (length q)) mod n;
  g_status : load32 m (p + o_status) = st;
  g_len : Z.of_nat (length q) <= n;
  g_apart : p + sizeof_ringbuf <= load32 m (p + o_buffer) \/ load32 m (p + o_buffer) + n <= p;
  g_bytes : forall i x, q !! i = Some x ->
    load8 m (load32 m (p + o_buffer) + (raw + Z.of_nat i) mod n) = x
}.

Lemma repr_ring m p n q ovf :
  repr m p n q ovf -> ring m p n (load32 m (p + o_readptr)) (status_of n q ovf) q.
Proof. intros [H1 H2 H3 H4 H5 H6 H7 H8 H9]. split; try done. lia. Qed.

Lemma ring_is_repr m p n raw q ovf :
  ring m p n raw (status_of n q ovf) q -> raw < n -> (ovf = true -> full n q = true) ->
  repr m p n q ovf.
Proof. intros [H1 H2 <- H3 H4 H5 H6 H7 H8] Hr Ho. split; try done. lia. Qed.

(** A byte more, of less than [n]: whether the write pointer meets the read
    pointer. *)
Lemma next_meets raw n l :
  0 < n -> 0 <= raw <= n -> 0 <= l < n ->
  (((raw + l) mod n + 1) mod n =? raw) = (raw <? n) && (l + 1 =? n).
Proof.
  intros Hn Hr Hl. rewrite Z.add_mod_idemp_l by lia. rewrite <- Z.add_assoc.
  pose proof (Z.mod_pos_bound (raw + (l + 1)) n ltac:(lia)).
  destruct (Z.ltb_spec raw n) as [Hlt|Hge]; cbn [andb]; [|apply Z.eqb_neq; lia].
  rewrite wrap by lia.
  destruct (Z.ltb_spec (raw + (l + 1)) n), (Z.eqb_spec (l + 1) n);
    first [apply Z.eqb_eq; lia|apply Z.eqb_neq; lia].
Qed.

(** [ringbuf_write] in that state, with room and a clear status word. *)
Lemma ring_write s p n raw q x :
  ring (k_mem s) p n raw 0 q -> Z.of_nat (length q) < n ->
  exists m', ringbuf_write p x s = Ok (tt, set_mem m' s) /\
    ring m' p n raw (cbool ((raw <? n) && (Z.of_nat (length q) + 1 =? n))) (q ++ [u8 x]) /\
    same_ring (k_mem s) m' p n.
Proof.
  intros [H1 H2 H3 H4 H5 H6 H7 H8 H9] Hl.
  set (w := (raw + Z.of_nat (length q)) mod n) in *.
  set (b := load32 (k_mem s) (p + o_buffer)) in *.
  assert (0 <= w < n) as Hw by (apply Z.mod_pos_bound; lia).
  assert (ringbuf_write p x s = write_tail p x s) as ->.
  { unfold ringbuf_write. rewrite (bind_Ok _ _ s w s) by (krun; by rewrite H5).
    rewrite (bind_Ok _ _ s raw s) by (krun; by rewrite H3).
    rewrite (bind_Ok _ _ s 0 s) by (krun; by rewrite H6).
    rewrite andb_false_r. done. }
  rewrite (write_tail_run s p n b raw w x 0) by (done || lia).
  cbv zeta. pose proof (next_meets raw n (Z.of_nat (length q)) ltac:(lia) H4 ltac:(lia)) as Hmeet.
  fold w in Hmeet. rewrite Hmeet. eexists. split; [done|].
  pose proof (write_mem_agree (k_mem s) p n b w x eq_refl Hw) as Hag.
  assert (w = (raw mod n + Z.of_nat (length q)) mod n) as Ew by by rewrite Z.add_mod_idemp_l by lia.
  pose proof (write_mem_lookup (k_mem s) p n b (raw mod n) q x (Z.mod_pos_bound raw n ltac:(lia)) Hl H8)
    as Hb. rewrite <- Ew in Hb.
  set (m1 := write_mem (k_mem s) p n b w x) in *.
  pose proof (Z.mod_pos_bound (w + 1) n ltac:(lia)) as Hw1.
  assert (load32 m1 (p + o_buffer) = b /\ load32 m1 (p + o_readptr) = raw /\
    load32 m1 (p + o_size) = n /\ load32 m1 (p + o_status) = 0 /\
    load32 m1 (p + o_writeptr) = (w + 1) mod n) as (Eb & Er & En & Es & Ewp).
  { subst m1; unfold write_mem; offs; mem_simp. split_and!; try done. apply u32_small. lia. }
  assert (forall i y, (q ++ [u8 x]) !! i = Some y -> load8 m1 (b + (raw + Z.of_nat i) mod n) = y) as Hb'.
  { intros i y Hi. rewrite <- (Hb ltac:(intros j z Hj; rewrite Z.add_mod_idemp_l by lia; by apply H9) i y Hi).
    by rewrite Z.add_mod_idemp_l by lia. }
  split; [|by apply same_ring_if].
  assert (Z.of_nat (length (q ++ [u8 x])) = Z.of_nat (length q) + 1) as Hlen
    by (rewrite length_app; cbn; lia).
  assert ((w + 1) mod n = (raw + Z.of_nat (length (q ++ [u8 x]))) mod n) as Hnext
    by (unfold w; rewrite Z.add_mod_idemp_l, Hlen by lia; f_equal; lia).
  destruct (_ && _).
  - split; offs; mem_simp; try done; try lia.
    intros i y Hi. rewrite Eb, load8_store32_ne; [by apply Hb'|].
    pose proof (Z.mod_pos_bound (raw + Z.of_nat i) n ltac:(lia)). lia.
  - split; try done; try lia. intros i y Hi. rewrite Eb. by apply Hb'.
Qed.

End Ring.

(** ** A reader and an interrupt that writes *)
Module Reader.
Import Ringbuf.Impl Ring.

Lemma same_ring_trans m1 m2 m3 p n :
  same_ring m1 m2 p n -> same_ring m2 m3 p n -> same_ring m1 m3 p n.
Proof.
  intros [E1 A1] [E2 A2]. split; [congruence|]. intros a Ha. rewrite (A1 a Ha). apply A2.
  unfold rb_cells in *. by rewrite E1.
Qed.

(** An interrupt that was served: the bytes it wrote and what it did at the ports. *)
Definition served : Type := list Z * list io_event.
Definition got (hs : list served) : list Z := mjoin hs.*1.
Definition accesses (hs : list served) : list io_event := mjoin hs.*2.

Lemma got_snoc hs h : got (hs ++ [h]) = got hs ++ h.1.
Proof. unfold got. rewrite fmap_app, join_app. cbn. by rewrite app_nil_r. Qed.

Lemma accesses_snoc hs h : accesses (hs ++ [h]) = accesses hs ++ h.2.
Proof. unfold accesses. rewrite fmap_app, join_app. cbn. by rewrite app_nil_r. Qed.

(** The status word after [vs] are written behind [q]. *)
Definition status_after (n raw st : Z) (q vs : list Z) : Z :=
  if decide (vs = []) then st else cbool ((raw <? n) && (Z.of_nat (length q + length vs) =? n)).

Lemma status_after_cons n raw st q v vs :
  status_after n raw st q (v :: vs)
  = status_after n raw (cbool ((raw <? n) && (Z.of_nat (length q) + 1 =? n))) (q ++ [v]) vs.
Proof.
  unfold status_after. cbn [decide]. rewrite (decide_False (P := v :: vs = [])) by done.
  rewrite length_app. cbn [length]. destruct (decide (vs = [])) as [->|]; do 3 f_equal; cbn; lia.
Qed.

Section reader.
(** The state before the read, the ring buffer, its capacity and queue, and the
    caller's buffer of [cap] bytes. *)
Context (s0 : dst) (isr : M dst unit) (p n : Z) (q0 : list Z) (buf cap : Z).
Local Abbreviation m0 := (k_mem (i_k s0)).

(** Whether, after the interrupts [hs], [b] more of them may come. *)
Context (left : list served -> nat -> Prop).

(** The state after the interrupts [hs], with the memory [m]. *)
Definition after (m : mem) (hs : list served) : dst :=
  set_ik (set_mem m (add_ios (accesses hs) (i_k s0))) s0.

(** What the reader needs of them: at most [top] bytes come in all, and one
    interrupt writes what it delivers behind the pending bytes. *)
Record source (top : nat) : Prop := Source {
  sr_top hs b : left hs b -> (length q0 + length (got hs) <= top)%nat;
  sr_bytes hs b : left hs b -> Forall (fun x => 0 <= x < 256) (got hs);
  sr_serve hs b : left hs (S b) -> exists h, left (hs ++ [h]) b /\
    forall m raw st q, ring m p n raw st q -> h.1 = [] \/ st = 0 ->
      Z.of_nat (length q + length h.1) <= n ->
      exists m', isr (after m hs) = Ok (tt, after m' (hs ++ [h])) /\
        ring m' p n raw (status_after n raw st q h.1) (q ++ h.1) /\ same_ring m m' p n
}.

Context (top : nat) (Hsource : source top) (Htop : Z.of_nat top <= n).
Context (Hap : buf_apart m0 p n buf cap).

(** Of [q0 ++ got hs], what has arrived, [c] bytes are out of the ring and the
    first [d] of them are in the caller's buffer. *)
Record common (c d : nat) (raw st : Z) (b : nat) (hs : list served) (m : mem) : Prop := Common {
  c_left : left hs b;
  c_ring : ring m p n raw st (drop c (q0 ++ got hs));
  c_le : (d <= c <= length (q0 ++ got hs))%nat;
  c_fits : Z.of_nat d <= cap;
  c_bytes : load_bytes m buf d = take d (q0 ++ got hs);
  c_buffer : load32 m (p + o_buffer) = load32 m0 (p + o_buffer);
  c_frame : agree (fun a => ~ rb_cells m0 p n a /\ (a < buf \/ buf + Z.of_nat d <= a)) m0 m
}.

Lemma left_room hs b : left hs b -> Z.of_nat (length (q0 ++ got hs)) <= n.
Proof. intros H. pose proof (sr_top _ Hsource _ _ H). rewrite length_app. lia. Qed.

Lemma reader_cells_apart d a :
  Z.of_nat d <= cap -> rb_cells m0 p n a -> a < buf \/ buf + Z.of_nat d <= a.
Proof.
  intros Hd. destruct Hap as [H1 H2]. cbn in H2. unfold rb_cells, sizeof_ringbuf. lia.
Qed.

(** One interrupt, when the status word is clear or the bytes are all there. *)
Lemma common_isr c d raw st b hs m :
  common c d raw st (S b) hs m -> st = 0 \/ n <= Z.of_nat (length (q0 ++ got hs)) ->
  exists m' h, isr (after m hs) = Ok (tt, after m' (hs ++ [h])) /\
    common c d raw (status_after n raw st (drop c (q0 ++ got hs)) h.1) b (hs ++ [h]) m' /\
    (h.1 = [] \/ st = 0) /\ Z.of_nat (length (q0 ++ got hs) + length h.1) <= n.
Proof.
  intros [H2 H3 H4 H5 H6 H7 H8] Hst.
  destruct (sr_serve _ Hsource hs b H2) as (h & Hl & Hrun).
  pose proof (left_room _ _ Hl) as Hr. rewrite got_snoc, app_assoc, length_app in Hr.
  assert (h.1 = [] \/ st = 0) as Hv.
  { destruct Hst as [Hst|Hst]; [by right|left]. destruct h.1; [done|cbn in Hr; lia]. }
  destruct (Hrun m raw st _ H3 Hv) as (m' & R & Hg & Hs & Ha); [rewrite length_drop; lia|].
  exists m', h. split; [exact R|]. split; [|split; [done|lia]].
  assert (forall a, rb_cells m p n a <-> rb_cells m0 p n a) as Hcell
    by (intros a; unfold rb_cells; by rewrite H7).
  split; try done; rewrite ?got_snoc, ?app_assoc.
  - by rewrite (drop_app_le (q0 ++ got hs)) by lia.
  - rewrite (length_app (q0 ++ got hs)). lia.
  - rewrite take_app_le, <- H6 by lia. symmetry. eapply load_bytes_agree; [exact Ha|].
    intros i Hi Hin. apply Hcell in Hin. destruct (reader_cells_apart d _ H5 Hin); lia.
  - by rewrite Hs.
  - intros a [Ha1 Ha2]. rewrite (H8 a) by done. apply Ha. by rewrite Hcell.
Qed.

(** *** The two assertions

    [idle]: the ring is a proper one, and [R] holds of what has arrived.
    [midway]: the oldest byte is taken, but the status word is still the old
    one; if that is not clear, nothing more can come. *)
Definition grows (R : list Z -> Prop) : Prop := forall l vs,
  R l -> Z.of_nat (length l + length vs) <= n -> R (l ++ vs).

Definition idle (c d : nat) (raw : Z) (R : list Z -> Prop) : assertion (S := dst) := fun b s =>
  exists hs m ovf, s = after m hs /\
    common c d raw (status_of n (drop c (q0 ++ got hs)) ovf) b hs m /\ raw < n /\
    (ovf = true -> full n (drop c (q0 ++ got hs)) = true) /\ R (q0 ++ got hs).

Definition midway (c d : nat) (raw : Z) (R : list Z -> Prop) : assertion (S := dst) := fun b s =>
  exists hs m st, s = after m hs /\ common (S c) d raw st b hs m /\
    (st = 0 \/ n <= Z.of_nat (length (q0 ++ got hs))) /\ R (q0 ++ got hs).

Lemma status_clear c l ovf :
  (ovf = true -> full n (drop c l) = true) ->
  status_of n (drop c l) ovf = 0 \/ n <= Z.of_nat (length l).
Proof.
  intros Ho. unfold status_of. destruct (full n (drop c l)) eqn:Hf.
  - right. unfold full in Hf. rewrite length_drop in Hf. apply Z.leb_le in Hf. lia.
  - left. destruct ovf; [by specialize (Ho eq_refl)|done].
Qed.

Lemma idle_stable c d raw R : grows R -> stable isr (idle c d raw R).
Proof.
  intros HR b s (hs & m & ovf & -> & H & Hraw & Ho & HQ).
  destruct (common_isr c d raw _ b hs m H (status_clear _ _ _ Ho)) as (m' & h & Hrun & H' & Hv & Hl).
  exists (after m' (hs ++ [h])). split; [done|]. pose proof (c_le _ _ _ _ _ _ _ H) as Hc.
  assert (drop c (q0 ++ got (hs ++ [h])) = drop c (q0 ++ got hs) ++ h.1) as E
    by (by rewrite got_snoc, app_assoc, drop_app_le by lia).
  assert (R (q0 ++ got (hs ++ [h]))) as HR' by (rewrite got_snoc, app_assoc; by apply HR).
  unfold status_after in H'. destruct (decide (h.1 = [])) as [Eh|Eh].
  - exists (hs ++ [h]), m', ovf. rewrite E, Eh, app_nil_r. by split_and!.
  - exists (hs ++ [h]), m', false. split_and!; try done. destruct Hv as [Hv|Hv]; [done|].
    replace (status_of n _ false) with (cbool ((raw <? n)
      && (Z.of_nat (length (drop c (q0 ++ got hs)) + length h.1) =? n))); [done|].
    rewrite (proj2 (Z.ltb_lt raw n) Hraw), E. unfold status_of, full. rewrite length_app, length_drop.
    cbn [andb]. destruct (Z.eqb_spec (Z.of_nat (length (q0 ++ got hs) - c + length h.1)) n),
      (Z.leb_spec n (Z.of_nat (length (q0 ++ got hs) - c + length h.1))); (done || lia).
Qed.

Lemma midway_stable c d raw R : grows R -> stable isr (midway c d raw R).
Proof.
  intros HR b s (hs & m & st & -> & H & Hb & HQ).
  destruct (common_isr (S c) d raw st b hs m H Hb) as (m' & h & Hrun & H' & Hv & Hl).
  exists (after m' (hs ++ [h])). split; [done|]. exists (hs ++ [h]), m'. eexists.
  split; [done|]. split; [exact H'|]. rewrite got_snoc, app_assoc. split; [|by apply HR].
  pose proof (c_le _ _ _ _ _ _ _ H). unfold status_after. destruct (decide (h.1 = [])) as [Eh|Eh].
  - by rewrite Eh, app_nil_r.
  - left. rewrite length_drop, (proj2 (Z.eqb_neq _ _)) by lia. by rewrite andb_false_r.
Qed.

(** *** The accesses *)

Lemma kern_ld32 a m hs : kern (ld32 a) (after m hs) = Ok (load32 m a, after m hs).
Proof. done. Qed.
Lemma kern_ld8 a m hs : kern (ld8 a) (after m hs) = Ok (load8 m a, after m hs).
Proof. done. Qed.
Lemma kern_st32 a v m hs : kern (st32 a v) (after m hs) = Ok (tt, after (store32 m a v) hs).
Proof. done. Qed.
Lemma kern_st8 a v m hs : kern (st8 a v) (after m hs) = Ok (tt, after (store8 m a v) hs).
Proof. done. Qed.

(** A store to the ring buffer's fields. *)
Lemma common_ring c c' d raw raw' st st' b hs m o v :
  common c d raw st b hs m -> (c <= c' <= length (q0 ++ got hs))%nat -> o = o_readptr \/ o = o_status ->
  ring (store32 m (p + o) v) p n raw' st' (drop c' (q0 ++ got hs)) ->
  common c' d raw' st' b hs (store32 m (p + o) v).
Proof.
  intros [H2 H3 H4 H5 H6 H7 H8] Hc Ho Hg.
  assert (forall a, ~ rb_cells m0 p n a -> load8 (store32 m (p + o) v) a = load8 m a) as Hout.
  { intros a Ha. apply load8_store32_ne. unfold rb_cells in Ha. offs. lia. }
  split; try done; [lia| | |].
  - rewrite <- H6. apply load_bytes_agree with (P := fun a => ~ rb_cells m0 p n a).
    + intros a Ha. by apply Hout.
    + intros i Hi Hcell. destruct (reader_cells_apart d _ H5 Hcell); lia.
  - rewrite load32_store32_ne by (offs; lia). done.
  - intros a Ha. rewrite (H8 a Ha). symmetry. apply Hout, Ha.
Qed.

Lemma common_advance c d raw st b hs m :
  common c d raw st b hs m -> raw < n -> (c < length (q0 ++ got hs))%nat ->
  common (S c) d (raw + 1) st b hs (store32 m (p + o_readptr) (raw + 1)).
Proof.
  intros H Hr Hc. pose proof H as [_ [G1 G2 G3 G4 G5 G6 G7 G8 G9] _ _ _ _ _].
  apply (common_ring c (S c) d raw (raw + 1) st st b hs m o_readptr); [done|lia|by left|].
  rewrite length_drop in *. split; offs; mem_simp; rewrite ?u32_small by lia; try done; try lia.
  - rewrite G5, length_drop. f_equal. lia.
  - rewrite length_drop. lia.
  - intros i x Hi. rewrite <- (G9 (S i) x) by (rewrite lookup_drop in *; by rewrite Nat.add_succ_r).
    pose proof (Z.mod_pos_bound (raw + Z.of_nat (S i)) n ltac:(lia)).
    replace (raw + 1 + Z.of_nat i) with (raw + Z.of_nat (S i)) by lia.
    rewrite load8_store32_ne by lia. done.
Qed.

Lemma common_wrap c d st b hs m :
  common c d n st b hs m -> common c d 0 st b hs (store32 m (p + o_readptr) 0).
Proof.
  intros H. pose proof H as [_ [G1 G2 G3 G4 G5 G6 G7 G8 G9] Hle _ _ _ _].
  assert (forall i, (n + i) mod n = (0 + i) mod n) as Emod.
  { intros i. rewrite <- (Z.mod_add (0 + i) 1 n) by lia. f_equal. lia. }
  apply (common_ring c c d n 0 st st b hs m o_readptr); [done|lia|by left|].
  split; offs; mem_simp; try done; try lia; [by rewrite G5, Emod|].
  intros i x Hi. rewrite <- (G9 i x Hi), Emod.
  pose proof (Z.mod_pos_bound (0 + Z.of_nat i) n ltac:(lia)). rewrite load8_store32_ne by lia. done.
Qed.

Lemma common_status c d raw st b hs m :
  common c d raw st b hs m -> common c d raw 0 b hs (store32 m (p + o_status) 0).
Proof.
  intros H. pose proof H as [_ [G1 G2 G3 G4 G5 G6 G7 G8 G9] Hle _ _ _ _].
  apply (common_ring c c d raw raw st 0 b hs m o_status); [done|lia|by right|].
  split; offs; mem_simp; try done.
  intros i x Hi. rewrite <- (G9 i x Hi).
  pose proof (Z.mod_pos_bound (raw + Z.of_nat i) n ltac:(lia)). rewrite load8_store32_ne by lia. done.
Qed.

(** A byte for the caller. *)
Lemma common_store c d raw st b hs m y :
  common c d raw st b hs m -> (d < c)%nat -> Z.of_nat (S d) <= cap ->
  (q0 ++ got hs) !! d = Some y -> 0 <= y < 256 ->
  common c (S d) raw st b hs (store8 m (buf + Z.of_nat d) y).
Proof.
  intros [H2 H3 H4 H5 H6 H7 H8] Hd Hcap Hy Hy0. pose proof Hap as [Ha1 Ha2]. cbn in Ha2.
  assert (forall a, rb_cells m0 p n a -> a <> buf + Z.of_nat d) as Hcell.
  { intros a Ha. unfold rb_cells, sizeof_ringbuf in Ha. lia. }
  set (m1 := store8 m (buf + Z.of_nat d) y).
  assert (forall a, a <> buf + Z.of_nat d -> load8 m1 a = load8 m a) as Hout
    by (intros a Ha; by apply load8_store8_ne).
  assert (forall o, 0 <= o <= 16 -> load32 m1 (p + o) = load32 m (p + o)) as Hfld.
  { intros o Ho. apply load32_ext. intros i Hi. apply Hout, Hcell.
    left. unfold sizeof_ringbuf. lia. }
  split; try done; [|lia| | |].
  - destruct H3 as [G1 G2 G3 G4 G5 G6 G7 G8 G9].
    split; offs; rewrite ?Hfld by lia; try done.
    intros i x Hi. rewrite <- (G9 i x Hi). apply Hout, Hcell. right. unfold o_buffer. rewrite <- H7.
    pose proof (Z.mod_pos_bound (raw + Z.of_nat i) n ltac:(lia)). lia.
  - rewrite (take_S_r _ _ _ Hy), <- H6. unfold load_bytes. rewrite seq_S, fmap_app. cbn.
    f_equal; [|f_equal; unfold m1; rewrite load8_store8_eq; by apply u8_small].
    apply list_fmap_ext. intros i j Hij. apply lookup_seq in Hij as [-> Hij]. apply Hout. lia.
  - rewrite <- H7. apply Hfld. offs. lia.
  - intros a [Hc' Ha]. rewrite (H8 a) by (split; [done|lia]). symmetry. apply Hout. lia.
Qed.

(** *** The functions *)

(** An access that only looks. *)
Lemma look_idle {A} m0' v c d raw R (k : Z -> thread dst A) Q b s :
  grows R -> idle c d raw R b s ->
  (forall hs m ovf b, common c d raw (status_of n (drop c (q0 ++ got hs)) ovf) b hs m ->
     raw < n -> R (q0 ++ got hs) -> kern m0' (after m hs) = Ok (v, after m hs)) ->
  (forall b s, idle c d raw R b s -> wp isr (k v) Q b s) ->
  wp isr (act (kern m0') ≫= k) Q b s.
Proof.
  intros HR H Hm Hk. eapply wp_look; [by apply idle_stable|exact H| |exact Hk].
  intros b1 s1 (hs & m & ovf & -> & HC & Hr & _ & HQ). by eapply Hm.
Qed.

Lemma look_midway {A} m0' v c d raw R (k : Z -> thread dst A) Q b s :
  grows R -> midway c d raw R b s ->
  (forall hs m st b, common (S c) d raw st b hs m -> kern m0' (after m hs) = Ok (v, after m hs)) ->
  (forall b s, midway c d raw R b s -> wp isr (k v) Q b s) ->
  wp isr (act (kern m0') ≫= k) Q b s.
Proof.
  intros HR H Hm Hk. eapply wp_look; [by apply midway_stable|exact H| |exact Hk].
  intros b1 s1 (hs & m & st & -> & HC & _ & _). by eapply Hm.
Qed.

Lemma idle_weaken c d raw (R R' : list Z -> Prop) b s :
  idle c d raw R b s -> (forall l, (c <= length l)%nat -> R l -> R' l) -> idle c d raw R' b s.
Proof.
  intros (hs & m & ovf & -> & H & Hr & Ho & HQ) HR. exists hs, m, ovf. split_and!; try done.
  apply HR; [|done]. apply (c_le _ _ _ _ _ _ _ H).
Qed.

(** What the write pointer says of the number of bytes in the ring. *)
Lemma common_writeptr c d raw st b hs m :
  common c d raw st b hs m -> raw < n ->
  0 < n /\ load32 m (p + o_writeptr) = (raw + Z.of_nat (length (drop c (q0 ++ got hs)))) mod n /\
  (load32 m (p + o_writeptr) = raw <->
    length (drop c (q0 ++ got hs)) = 0%nat \/ n <= Z.of_nat (length (drop c (q0 ++ got hs)))).
Proof.
  intros H Hr. destruct (c_ring _ _ _ _ _ _ _ H) as [G1 G2 G3 G4 G5 G6 G7 G8 G9].
  pose proof (write_eq_read n raw (drop c (q0 ++ got hs)) ltac:(lia) ltac:(lia)) as E.
  rewrite <- G5 in E. split; [lia|]. split; [done|].
  rewrite <- Z.eqb_eq, E, orb_true_iff, Nat.eqb_eq. unfold full. by rewrite Z.leb_le.
Qed.

(** [ringbuf_test_ready]: a ready ring has a byte; if it is not ready, all that
    was pending before is out of it. *)
Lemma wp_test_ready c d raw b s :
  idle c d raw (fun _ => True) b s ->
  wp isr (Accesses.ringbuf_test_ready p)
    (fun v => idle c d raw (fun l => if v =? 0 then (length q0 <= c)%nat else (c < length l)%nat)) b s.
Proof.
  intros H. unfold Accesses.ringbuf_test_ready.
  eapply wp_act; [by apply (idle_stable c d raw (fun _ => True))|exact H|].
  clear b s H. intros b s (hs & m & ovf & -> & H & Hraw & Ho & _).
  destruct (common_writeptr _ _ _ _ _ _ _ H Hraw) as (Hn & _ & Hw).
  set (w := load32 m (p + o_writeptr)) in *.
  exists w, (after m hs). split; [done|]. pose proof (c_le _ _ _ _ _ _ _ H) as Hle.
  set (R := fun l : list Z => (w <> raw -> (c < length l)%nat) /\
    (w = raw -> (length q0 <= c)%nat \/ n <= Z.of_nat (length (drop c l)))).
  assert (grows R) as HR.
  { intros l vs [HR1 HR2] Hl. split; intros E; [rewrite length_app; specialize (HR1 E); lia|].
    destruct (HR2 E) as [|Hf]; [by left|right]. rewrite length_drop in Hf. rewrite length_drop, length_app. lia. }
  assert (idle c d raw R b (after m hs)) as HI.
  { exists hs, m, ovf. pose proof (length_drop (q0 ++ got hs) c). pose proof (length_app q0 (got hs)).
    split; [done|]. split; [done|]. split; [done|]. split; [done|].
    split; intros E; [|apply Hw in E as [E|E]; [left|right]; lia].
    destruct (decide (length (drop c (q0 ++ got hs)) = 0%nat)) as [E0|]; [|lia].
    exfalso. apply E, Hw. by left. }
  apply (look_idle _ raw c d raw R); [done|done| |].
  { intros hs' m' ovf' b' H' _ _. rewrite kern_ld32. by rewrite (g_raw _ _ _ _ _ _ (c_ring _ _ _ _ _ _ _ H')). }
  clear Hw HI Hle H Ho. clearbody w. clear b m hs ovf. intros b s HI.
  destruct (Z.eqb_spec w raw) as [E|E]; cbn [negb].
  2:{ cbn. eapply idle_weaken; [exact HI|]. intros l _ [HR1 _]. by apply HR1. }
  eapply wp_act; [by apply idle_stable|exact HI|].
  clear b s HI. intros b s (hs & m & ovf & -> & H & Hr & Ho & HQ).
  exists (status_of n (drop c (q0 ++ got hs)) ovf), (after m hs). split.
  { rewrite kern_ld32. by rewrite (g_status _ _ _ _ _ _ (c_ring _ _ _ _ _ _ _ H)). }
  rewrite status_full by done. cbn. exists hs, m, ovf. split_and!; try done.
  destruct HQ as [_ HQ]. specialize (HQ E).
  unfold full. destruct (Z.leb_spec n (Z.of_nat (length (drop c (q0 ++ got hs))))) as [Hf|Hf]; cbn.
  - rewrite length_drop in Hf. lia.
  - destruct HQ; [done|lia].
Qed.

Lemma head_grows c y : grows (fun l => l !! c = Some y).
Proof. intros l vs Hl _. by apply lookup_app_l_Some. Qed.

(** The oldest byte is taken: the read pointer moves, and no interrupt can fill
    the ring before the status word is cleared. *)
Lemma wp_advance c d raw R b s :
  grows R -> (forall l, R l -> (c < length l)%nat) -> idle c d raw R b s ->
  wp isr (Accesses.advance p o_readptr)
    (fun _ b s => exists raw', raw' < n /\ midway c d raw' R b s) b s.
Proof.
  intros HR Hlen H. unfold Accesses.advance. apply (look_idle _ raw c d raw R); [done|done| |].
  { intros hs m ovf b' H' _ _. rewrite kern_ld32. by rewrite (g_raw _ _ _ _ _ _ (c_ring _ _ _ _ _ _ _ H')). }
  clear b s H. intros b s H. apply (wp_act_ isr _ _ (idle c d raw R)); [by apply idle_stable|exact H|].
  clear b s H. intros b s (hs & m & ovf & -> & H & Hr & Ho & HQ).
  destruct (c_ring _ _ _ _ _ _ _ H) as [_ Hn _ Hr0 _ _ _ _ _].
  eexists. split; [apply kern_st32|]. rewrite u32_small by lia.
  assert (midway c d (raw + 1) R b (after (store32 m (p + o_readptr) (raw + 1)) hs)) as HM.
  { exists hs. do 2 eexists. split; [done|]. split; [apply common_advance; try done; by apply Hlen|].
    split; [|done]. by apply (status_clear c). }
  apply (look_midway _ (raw + 1) c d (raw + 1) R); [done|done| |].
  { intros hs' m' st b' H'. rewrite kern_ld32. by rewrite (g_raw _ _ _ _ _ _ (c_ring _ _ _ _ _ _ _ H')). }
  clear HM. intros b1 s1 HM. apply (look_midway _ n c d (raw + 1) R); [done|done| |].
  { intros hs' m' st b' H'. rewrite kern_ld32. by rewrite (g_size _ _ _ _ _ _ (c_ring _ _ _ _ _ _ _ H')). }
  clear b1 s1 HM. intros b1 s1 HM. destruct (Z.eqb_spec (raw + 1) n) as [E|E].
  2:{ exists (raw + 1). split; [lia|done]. }
  rewrite E in HM. apply (wp_act_ isr _ (fun u => Done u) (midway c d n R)); [by apply midway_stable|done|].
  clear b1 s1 HM. intros b1 s1 (hs1 & m1 & st & -> & H1 & Hb1 & HQ1).
  eexists. split; [apply kern_st32|]. exists 0. split; [lia|]. exists hs1. do 2 eexists.
  split; [done|]. split; [by apply common_wrap|done].
Qed.

(** [ringbuf_read] returns the oldest byte. *)
Lemma wp_ringbuf_read c d raw y b s :
  idle c d raw (fun l => l !! c = Some y) b s ->
  wp isr (Accesses.ringbuf_read p)
    (fun v b s => v = y /\ exists raw', idle (S c) d raw' (fun l => l !! c = Some y) b s) b s.
Proof.
  intros H. unfold Accesses.ringbuf_read. pose proof (head_grows c y) as HR.
  set (R := fun l : list Z => l !! c = Some y) in *.
  apply (look_idle _ (load32 m0 (p + o_buffer)) c d raw R); [done|done| |].
  { intros hs m ovf b' H' _ _. rewrite kern_ld32. by rewrite (c_buffer _ _ _ _ _ _ _ H'). }
  clear b s H. intros b s H. apply (look_idle _ raw c d raw R); [done|done| |].
  { intros hs m ovf b' H' _ _. rewrite kern_ld32. by rewrite (g_raw _ _ _ _ _ _ (c_ring _ _ _ _ _ _ _ H')). }
  clear b s H. intros b s H. apply (look_idle _ y c d raw R); [done|done| |].
  { intros hs m ovf b' H' Hr HQ. rewrite kern_ld8, <- (c_buffer _ _ _ _ _ _ _ H').
    destruct (c_ring _ _ _ _ _ _ _ H') as [_ Hn _ Hr0 _ _ _ _ Hb].
    specialize (Hb O y ltac:(by rewrite lookup_drop, Nat.add_0_r)).
    change (Z.of_nat 0) with 0 in Hb. rewrite (Z.add_0_r raw), Z.mod_small in Hb by lia. by rewrite Hb. }
  clear b s H. intros b s H. apply wp_bind.
  eapply wp_mono; [apply (wp_advance c d raw R b s HR); [|exact H]; intros l Hl; by eapply lookup_lt_Some|].
  clear b s H. intros _ b s (raw' & Hr & H). apply (wp_act_ isr _ _ (midway c d raw' R)); [by apply midway_stable|exact H|].
  clear b s H. intros b s (hs & m & st & -> & H & Hb & HQ). eexists. split; [apply kern_st32|].
  split; [done|]. exists raw', hs. eexists _, false. split; [done|].
  assert (full n (drop (S c) (q0 ++ got hs)) = false) as Hf
    by (pose proof (left_room _ _ (c_left _ _ _ _ _ _ _ H)); pose proof (c_le _ _ _ _ _ _ _ H);
        unfold full; rewrite length_drop; apply Z.leb_gt; lia).
  split_and!; [|done|done|done]. unfold status_of. rewrite Hf. by eapply common_status.
Qed.

Lemma idle_stores c d raw y b s :
  Forall (fun x => 0 <= x < 256) q0 -> (d < c)%nat -> Z.of_nat (S d) <= cap ->
  idle c d raw (fun l => l !! d = Some y) b s ->
  exists s', kern (st8 (buf + Z.of_nat d) y) s = Ok (tt, s') /\
    idle c (S d) raw (fun _ => True) b s'.
Proof.
  intros HF Hd Hcap (hs & m & ovf & -> & H & Hr & Ho & HQ). eexists. split; [apply kern_st8|].
  exists hs. eexists _, ovf. split_and!; try done. apply common_store; try done.
  apply lookup_app_Some in HQ as [HQ|[_ HQ]].
  - rewrite Forall_lookup in HF. by eapply HF.
  - pose proof (sr_bytes _ Hsource _ _ (c_left _ _ _ _ _ _ _ H)) as HF'.
    rewrite Forall_lookup in HF'. by eapply HF'.
Qed.

(** The loop of [keyboard_read]. *)
Lemma wp_drain k c raw len b s :
  Forall (fun x => 0 <= x < 256) q0 -> cap = len + 1 -> len < W32 - 1 ->
  (top - c < k)%nat -> Z.of_nat c <= cap ->
  idle c c raw (fun _ => True) b s ->
  wp isr (Accesses.drain k p (buf + Z.of_nat c) (Z.of_nat c) len)
    (fun v b s => exists c' raw', v = Z.of_nat c' /\
      idle c' c' raw' (fun _ => (length q0 <= c')%nat \/ Z.of_nat c' = cap) b s) b s.
Proof.
  intros HF Ecap Hlen. revert c raw b s. induction k as [|k IH]; intros c raw b s Hk Hc H; [lia|].
  cbn [Accesses.drain]. destruct (Z.leb_spec (Z.of_nat c) len) as [Hle|Hgt]; cbn [negb].
  2:{ exists c, raw. split; [done|]. eapply idle_weaken; [exact H|]. intros l _ _. right. lia. }
  apply wp_bind. eapply wp_mono; [apply (wp_test_ready c c raw _ _ H)|].
  clear b s H. intros ready b s. cbv beta. destruct (ready =? 0); intros H.
  { exists c, raw. split; [done|]. eapply idle_weaken; [exact H|]. intros l _ Hl. by left. }
  assert (exists y, idle c c raw (fun l => l !! c = Some y) b s /\ (c < top)%nat)
    as (y & Hy & Hct).
  { destruct H as (hs & m & ovf & -> & H & Hr & Ho & HQ).
    destruct (lookup_lt_is_Some_2 _ _ HQ) as [y Hy]. exists y. split; [by exists hs, m, ovf|].
    pose proof (sr_top _ Hsource _ _ (c_left _ _ _ _ _ _ _ H)). rewrite length_app in HQ. lia. }
  clear H. apply wp_bind. eapply wp_mono; [apply (wp_ringbuf_read c c raw y _ _ Hy)|].
  clear b s Hy. intros v b s [-> [raw' H]].
  apply (wp_act_ isr _ _ (idle (S c) c raw' (fun l => l !! c = Some y)));
    [apply idle_stable, head_grows|exact H|].
  clear b s H. intros b s H. destruct (idle_stores (S c) c raw' y b s) as (s' & Hrun & H'); try done; [lia..|].
  exists s'. split; [done|]. rewrite u32_small by lia.
  replace (buf + Z.of_nat c + 1) with (buf + Z.of_nat (S c)) by lia.
  replace (Z.of_nat c + 1) with (Z.of_nat (S c)) by lia. apply (IH (S c) raw'); [lia|lia|done].
Qed.

(** The whole read. *)
Lemma read_loses_nothing k len ovf sched b :
  repr m0 p n q0 ovf -> left [] b -> (sum_list sched <= b)%nat ->
  cap = len + 1 -> 0 <= len < W32 - 1 -> (top < k)%nat ->
  exists hs m c ovf' b',
    interleave isr (Accesses.drain k p buf 0 len) sched s0 = Ok (Z.of_nat c, after m hs) /\
    left hs b' /\
    (Nat.min (Z.to_nat len + 1) (length q0) <= c
      <= Nat.min (Z.to_nat len + 1) (length (q0 ++ got hs)))%nat /\
    load_bytes m buf c = take c (q0 ++ got hs) /\ repr m p n (drop c (q0 ++ got hs)) ovf'.
Proof.
  intros H Hl Hs Hcap Hlen Hk. set (raw := load32 m0 (p + o_readptr)).
  pose proof (repr_bytes _ _ _ _ _ H) as HF. pose proof (r_read _ _ _ _ _ H) as Hread.
  assert (idle 0 0 raw (fun _ => True) b s0) as HI.
  { exists [], m0, ovf. unfold got. rewrite app_nil_r. split_and!; [| |fold raw in Hread; lia|apply (r_ovf _ _ _ _ _ H)|done].
    - unfold after. cbn. rewrite add_ios_nil, set_mem_id. by rewrite set_ik_id.
    - split; unfold got; cbn; rewrite ?app_nil_r; try done; [apply repr_ring, H|lia..]. }
  pose proof (wp_drain k 0 raw len b s0 HF Hcap ltac:(lia) ltac:(lia) ltac:(cbn; lia) HI) as HW.
  rewrite Z.add_0_r in HW. destruct (wp_sound _ _ _ _ _ sched HW Hs) as (a & b' & s' & Hrun & HQ).
  destruct HQ as (c & raw' & -> & hs & m & ovf' & -> & HC & Hr & Ho & Hend).
  exists hs, m, c, ovf', b'. destruct HC as [H2 H3 H4 H5 H6 H7 H8].
  split_and!; try done; [lia..|by eapply ring_is_repr].
Qed.

End reader.
End Reader.
Import Ring Reader.

(** ** The keyboard's interrupt *)
Module Keyboard.
Import Ringbuf.Impl Chardev.Facts.

(** What an interrupt that brings the scancode [v] does at the ports. *)
Definition arrival (v : Z) : list io_event := [In8 0x60 v; Out8 0x20 0x20].
Definition arrivals (bs : list Z) : list io_event := bs ≫= arrival.

(** [bs] are what the hardware answers to interrupts after the accesses [io]. *)
Definition answers (hw : list io_event -> Z -> Z) (io : list io_event) (bs : list Z) : Prop :=
  forall i v, bs !! i = Some v -> v = u8 (hw (io ++ arrivals (take i bs)) 0x60).

(** The state [s] after the arrivals of [bs], with the memory [m]. *)
Definition now (s : dst) (m : mem) (bs : list Z) : dst :=
  set_ik (set_mem m (add_ios (arrivals bs) (i_k s))) s.

Lemma arrivals_snoc bs v : arrivals (bs ++ [v]) = arrivals bs ++ arrival v.
Proof. unfold arrivals. by rewrite bind_app, bind_singleton. Qed.

Lemma answers_snoc hw io bs v :
  answers hw io bs -> v = u8 (hw (io ++ arrivals bs) 0x60) -> answers hw io (bs ++ [v]).
Proof.
  intros H Hv i x Hi. apply lookup_app_Some in Hi as [Hi|[Hge Hi]].
  - pose proof (lookup_lt_Some _ _ _ Hi). rewrite take_app_le by lia. by apply H.
  - apply list_lookup_singleton_Some in Hi as [Hi <-]. replace i with (length bs) by lia.
    by rewrite take_app_length.
Qed.

(** Each interrupt brings one scancode, and [total] of them come at most. *)
Definition keys (s : dst) (total : nat) (hs : list served) (b : nat) : Prop :=
  answers (k_hw (i_k s)) (k_io (i_k s)) (got hs) /\ accesses hs = arrivals (got hs) /\
  (length (got hs) + b <= total)%nat.

Lemma keyboard_source fuel e (s : dst) n q total :
  idt_handlers s !! 0x21%nat = Some (Some keyboard_key_handler_ptr) ->
  source s (idt_handler (run_isr fuel) (IdtData 0x21 e)) (keyboard_rbuf (i_ext s)) n q
    (keys s total) (length q + total).
Proof.
  intros Hh. split.
  - intros hs b (_ & _ & Hl). lia.
  - intros hs b (Ha & _ & _). apply Forall_lookup_2. intros i v Hv.
    rewrite (Ha i v Hv). apply u8_range.
  - intros hs b (Ha & Hac & Hl).
    set (v := u8 (k_hw (i_k s) (k_io (i_k s) ++ accesses hs) 0x60)).
    exists ([v], arrival v). split.
    { unfold keys. rewrite got_snoc, accesses_snoc. cbn [fst snd].
      rewrite arrivals_snoc, Hac, length_app. cbn [length]. split_and!; [|done|lia].
      apply answers_snoc; [done|]. by rewrite <- Hac. }
    cbn [fst snd]. intros m raw st q' Hg [|Hst] Hlen; [done|]. subst st. cbn [length] in Hlen.
    set (k1 := add_ios [In8 0x60 v] (i_k (after s m hs))).
    destruct (ring_write k1 (keyboard_rbuf (i_ext s)) n raw q' v Hg ltac:(lia)) as (m' & Hw & Hg' & Hs).
    exists m'. assert (u8 v = v) as Ev by apply u8_idem. rewrite Ev in Hg'.
    split_and!; [|by rewrite status_after_cons|exact Hs].
    rewrite (keyboard_dispatch_run fuel (after s m hs) e m' Hh Hw). unfold after.
    rewrite set_ik_ik, accesses_snoc. do 3 f_equal. unfold set_mem, add_ios. cbn.
    by rewrite <- app_assoc.
Qed.

End Keyboard.
Import Keyboard.

(** ** Properties *)

(** C15: A read of the keyboard loses no scancode to an interrupt.  [keyboard_read]
    with interrupts between any of its accesses to memory, as long as what is
    pending and what arrives fit the ring buffer: it ends, the caller gets what
    was pending and what has arrived, in order, up to [len] + 1 bytes and at
    least all that was pending at the start; the rest is still in the ring, and
    every interrupt was acknowledged. *)
Theorem keyboard_read_under_interrupts fuel k e (s : dst) n q ovf buf len sched
    (Hh : idt_handlers s !! 0x21%nat = Some (Some keyboard_key_handler_ptr))
    (H : repr (k_mem (i_k s)) (keyboard_rbuf (i_ext s)) n q ovf)
    (Hap : buf_apart (k_mem (i_k s)) (keyboard_rbuf (i_ext s)) n buf (len + 1))
    (Hroom : Z.of_nat (length q + sum_list sched) <= n)
    (Hk : (length q + sum_list sched < k)%nat) (Hlen : 0 <= len < W32 - 1) :
  exists bs m c ovf',
    interleave (idt_handler (run_isr fuel) (IdtData 0x21 e))
      (Accesses.keyboard_read k (keyboard_rbuf (i_ext s)) buf len) sched s
      = Ok (Z.of_nat c, now s m bs) /\
    answers (k_hw (i_k s)) (k_io (i_k s)) bs /\ (length bs <= sum_list sched)%nat /\
    (Nat.min (Z.to_nat len + 1) (length q) <= c <= Nat.min (Z.to_nat len + 1) (length (q ++ bs)))%nat /\
    load_bytes m buf c = take c (q ++ bs) /\
    repr m (keyboard_rbuf (i_ext s)) n (drop c (q ++ bs)) ovf'.
Proof.
  destruct (read_loses_nothing s _ _ n q buf (len + 1) _ _ (keyboard_source fuel e s n q (sum_list sched) Hh)
    ltac:(lia) Hap k len ovf sched (sum_list sched) H) as (hs & m & c & ovf' & b & Hrun & HL & HR);
    [by split_and!|done|done|done|lia|].
  destruct HL as (Ha & Hac & Hl). exists (got hs), m, c, ovf'. unfold after in Hrun.
  rewrite Hac in Hrun. split_and!; try done; [lia|apply HR..].
Qed.

(** Two codes are pending, and a key arrives while the first is read. *)
Lemma keyboard_read_under_interrupts_witness :
  exists bs m c, interleave (idt_handler (run_isr 10) (IdtData 0x21 0))
      (Accesses.keyboard_read 10 0x1000 0x5000 15) [0; 0; 0; 0; 0; 0; 0; 1]%nat sample_dst
      = Ok (Z.of_nat c, now sample_dst m bs) /\
    (2 <= c)%nat /\ load_bytes m 0x5000 c = take c ([7; 8] ++ bs).
Proof.
  destruct (keyboard_read_under_interrupts 10 10 0 sample_dst 4 [7; 8] false 0x5000 15
    [0; 0; 0; 0; 0; 0; 0; 1]%nat eq_refl Ringbuf.sample_repr) as (bs & m & c & ovf' & Hrun & _ & _ & Hc & Hb & _).
  - split; [right; cbn; lia|]. right. change (0x2000 + 4 <= 0x5000). lia.
  - cbn. lia.
  - cbn. lia.
  - lia.
  - exists bs, m, c. split; [exact Hrun|]. split; [cbn in Hc; lia|exact Hb].
Defined.

(** The same read, evaluated. *)
Example keyboard_read_evaluated :
  outcome ((c ← interleave (idt_handler (run_isr 10) (IdtData 0x21 0))
      (Accesses.keyboard_read 10 0x1000 0x5000 15) [0; 0; 0; 0; 0; 0; 0; 1]%nat;
    m ← gets (fun s : dst => k_mem (i_k s));
    mret (c, load_bytes m 0x5000 3)) sample_dst)
  = Some (3, [7; 8; 0x1E]).
Proof. vm_compute. reflexivity. Qed.

(** The bound is needed, and is the best one: when the ring becomes full between
    the two stores of [ringbuf_read], the second one clears the mark that it is
    full, and a ring with four codes counts as empty. *)
Lemma full_ring_is_lost :
  outcome ((c ← interleave (idt_handler (run_isr 10) (IdtData 0x21 0))
      (Accesses.keyboard_read 10 0x1000 0x5000 15) [0; 0; 0; 0; 0; 0; 0; 0; 0; 0; 3]%nat;
    ready ← kern (Ringbuf.Impl.ringbuf_test_ready 0x1000);
    mret (c, ready)) sample_dst)
  = Some (1, 0).
Proof. vm_compute. reflexivity. Qed.
