(* ===== verification/UartIsr.v ===== *)
(** * The serial port's ring buffer under interrupts

    [uart8250_read] (kernel/device/uart8250.c) reads the ring buffer that the
    serial interrupt writes to.  One interrupt may bring no byte, one or many:
    [uart8250_interrupt] polls the line status register until the receiver is
    empty.  This is the second instance of [RingIsr.Reader]. *)
From S2P Require Import Prelude Mem Alloc Ports Steps Ringbuf Idt Device Chardev RingIsr.
Import Idt.Impl Ringbuf.Rep Ringbuf.Queue RingIsr.Ring RingIsr.Reader.
Local Open Scope Z_scope.

(** ** The code, an access at a time *)
Module Code.

(** The loop of [uart8250_read] is that of [keyboard_read]. *)
Definition uart8250_read (fuel : nat) (rbuf buf len : Z) : thread dst Z :=
  Accesses.drain fuel rbuf buf 0 len.

(** Without interrupts it is the code of Chardev.v. *)
Lemma uart8250_read_alone isr fuel buf len s :
  interleave isr (uart8250_read fuel (uart_rx_buf (i_ext s)) buf len) [] s
  = Uart.uart8250_read fuel buf len s.
Proof. apply Sequential.drain_alone. Qed.

End Code.

(** ** What the serial port answers to an interrupt *)
Module Serial.

Section hardware.
Context (hw : list io_event -> Z -> Z) (flags : Z).

(** The answers to the polling loop after the accesses [io], if it ends within
    [fuel] rounds: the bytes that are taken, and the accesses. *)
Fixpoint polled (fuel : nat) (io : list io_event) : option served :=
  match fuel with
  | O => None
  | S fuel' =>
      let lsr := u8 (hw io 0x3FD) in
      let io1 := io ++ [In8 0x3FD lsr] in
      if Z.land lsr 1 =? 0 then Some ([], [In8 0x3FD lsr]) else
      let v := u8 (hw io1 0x3F8) in
      '(vs, evs) ← polled fuel' (io1 ++ [In8 0x3F8 v]);
      Some (v :: vs, In8 0x3FD lsr :: In8 0x3F8 v :: evs)
  end.

(** The bytes go to the ring buffer only when the port is open with [VO_FWRITE]. *)
Definition kept (vs : list Z) : list Z := if Z.land flags VO_FWRITE =? 0 then [] else vs.

(** A whole interrupt: the interrupt identification register is read at the end,
    and the interrupt controller is told. *)
Definition serve (fuel : nat) (io : list io_event) : option served :=
  '(vs, evs) ← polled fuel io;
  Some (kept vs, evs ++ [In8 0x3FA (u8 (hw (io ++ evs) 0x3FA)); Out8 0x20 0x20]).

(** [k] interrupts. *)
Fixpoint history (fuel : nat) (io : list io_event) (k : nat) : option (list served) :=
  match k with
  | O => Some []
  | S k' =>
      h ← serve fuel io;
      hs ← history fuel (io ++ snd h) k';
      Some (h :: hs)
  end.

Lemma polled_range fuel io vs evs :
  polled fuel io = Some (vs, evs) -> Forall (fun x => 0 <= x < 256) vs.
Proof.
  revert io vs evs. induction fuel as [|fuel IH]; intros io vs evs H; [done|].
  cbn [polled] in H. destruct (_ =? 0); [by simplify_eq/=|].
  apply bind_Some in H as ([vs' evs'] & E & H). simplify_eq.
  constructor; [apply u8_range|by eapply IH].
Qed.

Lemma history_length fuel io k hs : history fuel io k = Some hs -> length hs = k.
Proof.
  revert io hs. induction k as [|k IH]; intros io hs H; [by simplify_eq/=|].
  cbn [history] in H. apply bind_Some in H as (h & _ & H).
  apply bind_Some in H as (hs' & E & H). simplify_eq. cbn. f_equal. by eapply IH.
Qed.

Lemma history_lookup fuel io k hs j h :
  history fuel io k = Some hs -> hs !! j = Some h ->
  serve fuel (io ++ accesses (take j hs)) = Some h.
Proof.
  revert io hs j. induction k as [|k IH]; intros io hs j H Hj; [by simplify_eq/=|].
  cbn [history] in H. apply bind_Some in H as (h0 & E & H).
  apply bind_Some in H as (hs' & E' & H). simplify_eq. destruct j as [|j]; cbn in Hj.
  - simplify_eq. unfold accesses. cbn. by rewrite app_nil_r.
  - rewrite <- (IH _ _ _ E' Hj). unfold accesses. cbn. by rewrite <- app_assoc.
Qed.

Lemma history_range fuel io k hs :
  history fuel io k = Some hs -> Forall (fun x => 0 <= x < 256) (got hs).
Proof.
  revert io hs. induction k as [|k IH]; intros io hs H; [simplify_eq/=; constructor|].
  cbn [history] in H. apply bind_Some in H as ([vs evs] & E & H).
  apply bind_Some in H as (hs' & E' & H). simplify_eq. unfold serve in E.
  apply bind_Some in E as ([vs' evs'] & E & H). simplify_eq.
  unfold got. cbn. apply Forall_app. split; [|by eapply IH].
  unfold kept. destruct (_ =? 0); [constructor|by eapply polled_range].
Qed.

End hardware.

(** *** The interrupt does what the answers say *)

Lemma receive_ignored fuel flags p : forall s vs evs,
  Z.land flags VO_FWRITE = 0 -> polled (k_hw s) fuel (k_io s) = Some (vs, evs) ->
  Uart.receive fuel flags p s = Ok (tt, add_ios evs s).
Proof.
  induction fuel as [|fuel IH]; intros s vs evs Hf Hp; [done|].
  cbn [polled Uart.receive] in *. set (lsr := u8 (k_hw s (k_io s) 0x3FD)) in *.
  rewrite (bind_Ok _ _ s lsr (add_ios [In8 0x3FD lsr] s)) by apply port_in_byte_run.
  rewrite if_app. destruct (Z.land lsr 1 =? 0); [by simplify_eq|].
  apply bind_Some in Hp as ([vs' evs'] & Ep & Hp). simplify_eq.
  set (s1 := add_ios [In8 0x3FD lsr] s). set (v := u8 (k_hw s (k_io s ++ [In8 0x3FD lsr]) 0x3F8)) in *.
  rewrite (bind_Ok _ _ s1 v (add_ios [In8 0x3F8 v] s1)) by apply port_in_byte_run.
  rewrite Hf. cbn [negb mwhen Z.eqb]. rewrite ret_bind.
  rewrite (IH (add_ios [In8 0x3F8 v] s1) vs' evs' Hf Ep). unfold s1. by rewrite !add_ios_app.
Qed.

Lemma receive_written fuel flags p n raw : forall s st q vs evs,
  Z.land flags VO_FWRITE <> 0 -> polled (k_hw s) fuel (k_io s) = Some (vs, evs) ->
  ring (k_mem s) p n raw st q -> vs = [] \/ st = 0 -> Z.of_nat (length q + length vs) <= n ->
  exists m', Uart.receive fuel flags p s = Ok (tt, set_mem m' (add_ios evs s)) /\
    ring m' p n raw (status_after n raw st q vs) (q ++ vs) /\ same_ring (k_mem s) m' p n.
Proof.
  induction fuel as [|fuel IH]; intros s st q vs evs Hf Hp Hg Hst Hl; [done|].
  cbn [polled Uart.receive] in *. set (lsr := u8 (k_hw s (k_io s) 0x3FD)) in *.
  rewrite (bind_Ok _ _ s lsr (add_ios [In8 0x3FD lsr] s)) by apply port_in_byte_run.
  rewrite if_app. destruct (Z.land lsr 1 =? 0).
  { simplify_eq. exists (k_mem s). rewrite app_nil_r. by split_and!; [|exact Hg|]. }
  apply bind_Some in Hp as ([vs' evs'] & Ep & Hp). simplify_eq.
  set (s1 := add_ios [In8 0x3FD lsr] s). set (v := u8 (k_hw s (k_io s ++ [In8 0x3FD lsr]) 0x3F8)) in *.
  set (s2 := add_ios [In8 0x3F8 v] s1).
  rewrite (bind_Ok _ _ s1 v s2) by apply port_in_byte_run.
  rewrite (proj2 (Z.eqb_neq _ _) Hf). cbn [negb mwhen].
  destruct Hst as [|Hst]; [done|]. subst st. cbn [length] in Hl.
  destruct (ring_write s2 p n raw q v Hg ltac:(lia)) as (m1 & Hw & Hg1 & Hs1). mstep Hw.
  assert (u8 v = v) as Ev by apply u8_idem. rewrite Ev in Hg1.
  destruct (IH (set_mem m1 s2) _ (q ++ [v]) vs' evs' Hf Ep Hg1) as (m2 & Hr & Hg2 & Hs2).
  { destruct vs' as [|v' vs']; [by left|right]. cbn [length] in Hl.
    rewrite (proj2 (Z.eqb_neq _ n)) by lia. by rewrite andb_false_r. }
  { rewrite length_app. cbn [length]. lia. }
  exists m2. rewrite status_after_cons. rewrite <- app_assoc in Hg2.
  split_and!; [|exact Hg2|by eapply same_ring_trans]. rewrite Hr.
  unfold s2, s1, set_mem, add_ios. cbn. by rewrite <- !app_assoc.
Qed.

Lemma receive_polled fuel flags p n raw s st q vs evs :
  polled (k_hw s) fuel (k_io s) = Some (vs, evs) -> ring (k_mem s) p n raw st q ->
  kept flags vs = [] \/ st = 0 -> Z.of_nat (length q + length (kept flags vs)) <= n ->
  exists m', Uart.receive fuel flags p s = Ok (tt, set_mem m' (add_ios evs s)) /\
    ring m' p n raw (status_after n raw st q (kept flags vs)) (q ++ kept flags vs) /\
    same_ring (k_mem s) m' p n.
Proof.
  intros Hp Hg. unfold kept. destruct (Z.eqb_spec (Z.land flags VO_FWRITE) 0) as [Hf|Hf].
  - intros _ _. exists (k_mem s). rewrite (receive_ignored fuel flags p s vs evs Hf Hp), app_nil_r.
    by split_and!.
  - intros Hst Hl. by apply (receive_written fuel flags p n raw s st q vs evs).
Qed.

(** The interrupts so far are the first of [all], and [b] more are to come. *)
Definition from (all hs : list served) (b : nat) : Prop :=
  hs = take (length hs) all /\ (length hs + b <= length all)%nat.

Lemma from_got all hs b : from all hs b -> exists rest, got all = got hs ++ rest.
Proof.
  intros [E _]. exists (got (drop (length hs) all)). rewrite <- (take_drop (length hs) all) at 1.
  unfold got. rewrite fmap_app, join_app. by rewrite <- E.
Qed.

Lemma uart_source fuel e (s : dst) n q all k :
  idt_handlers s !! 0x24%nat = Some (Some uart8250_interrupt_ptr) ->
  history (k_hw (i_k s)) (uart_flags (i_ext s)) fuel (k_io (i_k s)) k = Some all ->
  source s (idt_handler (run_isr fuel) (IdtData 0x24 e)) (uart_rx_buf (i_ext s)) n q
    (from all) (length q + length (got all)).
Proof.
  intros Hh Hall. split.
  - intros hs b H. destruct (from_got _ _ _ H) as [rest ->]. rewrite length_app. lia.
  - intros hs b H. destruct (from_got _ _ _ H) as [rest E].
    pose proof (history_range _ _ _ _ _ _ Hall) as HF. rewrite E in HF. by apply Forall_app in HF as [HF _].
  - intros hs b [E Hl]. destruct (lookup_lt_is_Some_2 all (length hs) ltac:(lia)) as [h Hh'].
    exists h. split.
    { split; rewrite length_app; cbn [length]; [|lia]. by rewrite Nat.add_1_r, (take_S_r _ _ h), <- E. }
    intros m raw st q' Hg Hst Hlen. pose proof (history_lookup _ _ _ _ _ _ _ _ Hall Hh') as Hs.
    rewrite <- E in Hs. unfold serve in Hs. apply bind_Some in Hs as ([vs evs] & Hp & Hs).
    simplify_eq. cbn [fst snd] in *.
    destruct (receive_polled fuel (uart_flags (i_ext s)) (uart_rx_buf (i_ext s)) n raw
      (i_k (after s m hs)) st q' vs evs Hp Hg Hst Hlen) as (m' & Hr & Hg' & Hs').
    exists m'. split_and!; [|exact Hg'|exact Hs'].
    set (s1 := set_ik (add_ios [In8 0x3FA (u8 (k_hw (i_k s) ((k_io (i_k s) ++ accesses hs) ++ evs) 0x3FA))]
      (set_mem m' (add_ios evs (i_k (after s m hs))))) s).
    assert (run_isr fuel uart8250_interrupt_ptr (IdtData 0x24 e) (after s m hs) = Ok (tt, s1)) as Hrun.
    { cbn [run_isr]. unfold Uart.uart8250_interrupt, dget. rewrite !gets_bind.
      unfold kern, zoom. change (i_ext (after s m hs)) with (i_ext s).
      unfold mbind at 1, M_bind at 1. by rewrite Hr. }
    rewrite (Idt.Facts.dispatch_run (run_isr fuel) (after s m hs) (IdtData 0x24 e) _ s1 Hh
      ltac:(cbn; lia) Hrun).
    unfold s1, after. rewrite set_ik_ik, accesses_snoc. cbn [fst snd].
    unfold set_mem, add_ios. cbn. by rewrite <- !app_assoc.
Qed.

End Serial.
Import Serial.

(** ** Properties *)

(** C16: A read of the serial port loses no byte of the ring buffer to an interrupt.
    Interrupts come between any of the accesses of [uart8250_read], each polling
    the receiver until it is empty; it keeps the bytes when the port is open with
    [VO_FWRITE], else it drops them ([kept]).  When what is pending and all that
    they keep fit the ring buffer, then the read ends, some number [j] of the
    interrupts were served whole and acknowledged, the caller gets what was
    pending and what those kept, in order, up to [len] + 1 bytes and at least all
    that was pending at the start, and the rest is still in the ring. *)
Theorem uart_read_under_interrupts fuel k e (s : dst) n q ovf buf len sched all
    (Hh : idt_handlers s !! 0x24%nat = Some (Some uart8250_interrupt_ptr))
    (H : repr (k_mem (i_k s)) (uart_rx_buf (i_ext s)) n q ovf)
    (Hap : buf_apart (k_mem (i_k s)) (uart_rx_buf (i_ext s)) n buf (len + 1))
    (Hall : history (k_hw (i_k s)) (uart_flags (i_ext s)) fuel (k_io (i_k s)) (sum_list sched) = Some all)
    (Hroom : Z.of_nat (length q + length (got all)) <= n)
    (Hk : (length q + length (got all) < k)%nat) (Hlen : 0 <= len < W32 - 1) :
  exists j m c ovf', let bs := q ++ got (take j all) in
    interleave (idt_handler (run_isr fuel) (IdtData 0x24 e))
      (Code.uart8250_read k (uart_rx_buf (i_ext s)) buf len) sched s
      = Ok (Z.of_nat c, after s m (take j all)) /\
    (j <= sum_list sched)%nat /\
    (Nat.min (Z.to_nat len + 1) (length q) <= c <= Nat.min (Z.to_nat len + 1) (length bs))%nat /\
    load_bytes m buf c = take c bs /\
    repr m (uart_rx_buf (i_ext s)) n (drop c bs) ovf'.
Proof.
  pose proof (history_length _ _ _ _ _ _ Hall) as Hlall.
  destruct (read_loses_nothing s _ _ n q buf (len + 1) _ _ (uart_source fuel e s n q all _ Hh Hall)
    Hroom Hap k len ovf sched (sum_list sched) H) as (hs & m & c & ovf' & b & Hrun & [E Hl] & HR);
    [split; [by destruct all|cbn; lia]|done|done|done|lia|].
  exists (length hs), m, c, ovf'. cbv zeta. rewrite <- E.
  split_and!; [exact Hrun|lia|apply HR..].
Qed.

(** The device is open, two bytes are pending and two more have arrived. *)
Definition sample_line : dst :=
  Idt (KSt Ringbuf.sample_mem 0 0 [] sample_hw) (IdtTable 0 0) []
    (<[0x24%nat := Some uart8250_interrupt_ptr]> (replicate 48 None)) None
    (Drivers 0 0 (RtClock 0 0 0 0 0 0 0) VO_FWRITE 0x1000).

(** What two interrupts then do: the first takes both bytes, the second one finds
    nothing. *)
Definition sample_history : list served :=
  [([72; 105], [In8 0x3FD 1; In8 0x3F8 72; In8 0x3FD 1; In8 0x3F8 105; In8 0x3FD 0;
      In8 0x3FA 0; Out8 0x20 0x20]);
   ([], [In8 0x3FD 0; In8 0x3FA 0; Out8 0x20 0x20])].

(** The interrupts come in the middle of the read. *)
Lemma uart_read_under_interrupts_witness :
  exists j m c, interleave (idt_handler (run_isr 10) (IdtData 0x24 0))
      (Code.uart8250_read 10 0x1000 0x5000 15) [0; 0; 0; 0; 1; 0; 1]%nat sample_line
      = Ok (Z.of_nat c, after sample_line m (take j sample_history)) /\
    (2 <= c)%nat /\ load_bytes m 0x5000 c = take c ([7; 8] ++ got (take j sample_history)).
Proof.
  destruct (uart_read_under_interrupts 10 10 0 sample_line 4 [7; 8] false 0x5000 15
    [0; 0; 0; 0; 1; 0; 1]%nat sample_history eq_refl)
    as (j & m & c & ovf' & Hrun & _ & Hc & Hb & _).
  - exact Ringbuf.sample_repr.
  - split; [right; cbn; lia|]. right. change (0x2000 + 4 <= 0x5000). lia.
  - vm_compute. reflexivity.
  - cbn. lia.
  - cbn. lia.
  - lia.
  - exists j, m, c. split; [exact Hrun|]. split; [cbn in Hc; lia|exact Hb].
Defined.

(** The same read, evaluated. *)
Example uart_read_evaluated :
  outcome ((c ← interleave (idt_handler (run_isr 10) (IdtData 0x24 0))
      (Code.uart8250_read 10 0x1000 0x5000 15) [0; 0; 0; 0; 1; 0; 1]%nat;
    m ← gets (fun s : dst => k_mem (i_k s));
    mret (c, load_bytes m 0x5000 4)) sample_line)
  = Some (4, [7; 8; 72; 105]).
Proof. vm_compute. reflexivity. Qed.
