(* ===== verification/Rtclock.v ===== *)
(** * The real time clock (kernel/device/rtclock.c)

    The CMOS clock is read through ports 0x70 (register number) and 0x71
    (value); a reader gets the fourteen digits YYYYMMDDHHMMSS and a NUL.  The
    clock's fields are the [rtc_clock] of Device.v. *)
From S2P Require Import Prelude Mem Ports Idt Device.
From stdpp Require Import strings.
Import Idt.Impl.
Local Open Scope Z_scope.

(** ** The C code *)
Module Impl.

Definition REG_SECONDS : Z := 0.
Definition REG_MINUTES : Z := 2.
Definition REG_HOURS : Z := 4.
Definition REG_DAY : Z := 7.
Definition REG_MONTH : Z := 8.
Definition REG_YEAR : Z := 9.
Definition REG_CENTURY : Z := 0x32.
Definition REG_STATUS_B : Z := 0xB.

Definition BCD_TO_BIN (bcd : Z) : Z := bcd / 16 * 10 + Z.land bcd 0xF.

Definition sameclock (a b : rtclock) : bool :=
  (year a =? year b) && (month a =? month b) && (day a =? day b) &&
  (hours a =? hours b) && (minutes a =? minutes b) && (seconds a =? seconds b).

Definition copyclock (clock : rtclock) : M dst unit :=
  dmod (fun d => set_clock (RtClock (is_binary (rtc_clock d)) (year clock)
    (seconds clock) (minutes clock) (hours clock) (month clock) (day clock)) d).

Definition read_cmos (reg : Z) : M dst Z :=
  _ ← kern (port_out_byte 0x70 reg);
  kern (port_in_byte 0x71).

(** The caller's structure [c] after the call. *)
Definition readclock (c : rtclock) : M dst rtclock :=
  sec ← read_cmos REG_SECONDS;
  mins ← read_cmos REG_MINUTES;
  hrs ← read_cmos REG_HOURS;
  yr ← read_cmos REG_YEAR;
  mon ← read_cmos REG_MONTH;
  _ ← read_cmos REG_DAY;
  dy ← read_cmos REG_DAY;
  century ← read_cmos REG_CENTURY;
  bin ← dget (fun d => is_binary (rtc_clock d));
  let conv x := if bin =? 0 then u8 (BCD_TO_BIN x) else x in
  let conv_year := if bin =? 0 then u16 (BCD_TO_BIN yr) else yr in
  let conv_century := if bin =? 0 then u32 (BCD_TO_BIN century) else century in
  mret (RtClock (is_binary c) (u16 (conv_century * 100 + conv_year))
    (conv sec) (conv mins) (conv hrs) (conv mon) (conv dy)).

(** [clock_a] and [clock_b] are locals that start with any contents. *)
Fixpoint update_clock (fuel : nat) (clock_a clock_b : rtclock) : M dst unit :=
  match fuel with
  | O => fail Diverges
  | S fuel' =>
      clock_a' ← readclock clock_a;
      clock_b' ← readclock clock_b;
      if sameclock clock_a' clock_b' then copyclock clock_b'
      else update_clock fuel' clock_a' clock_b'
  end.

Definition clock_init `{DeviceManager K} : M K Z :=
  van_damme ← below (read_cmos REG_STATUS_B);
  _ ← below (dmod (fun d => let c := rtc_clock d in
    set_clock (RtClock (cbool (negb (Z.land van_damme 0x4 =? 0))) (year c) (seconds c)
      (minutes c) (hours c) (month c) (day c)) d));
  _ ← device_install clock_device (chars_of "clock");
  mret 0.

Definition clock_open (flags : Z) : M dst Z := mret 0.
Definition clock_close : M dst Z := mret 0.

(** [tmp[i++] = v] on [char tmp[16]]; the list is what has been stored. *)
Definition push_tmp (tmp : list Z) (v : Z) : M kst (list Z) :=
  if (length tmp <? 16)%nat then mret (tmp ++ [v]) else fail OutOfBounds.

(** [while (num > 0)]; [tmp] has 16 places, so 17 rounds are enough. *)
Fixpoint digits_loop (fuel : nat) (num : Z) (tmp : list Z) : M kst (list Z) :=
  match fuel with
  | O => fail Diverges
  | S fuel' =>
      if negb (0 <? num) then mret tmp else
      tmp' ← push_tmp tmp (48 + num mod 10);
      digits_loop fuel' (num / 10) tmp'
  end.

(** [while (i < len)] *)
Fixpoint pad_loop (fuel : nat) (len : Z) (tmp : list Z) : M kst (list Z) :=
  match fuel with
  | O => fail Diverges
  | S fuel' =>
      if negb (Z.of_nat (length tmp) <? len) then mret tmp else
      tmp' ← push_tmp tmp 48;
      pad_loop fuel' len tmp'
  end.

(** [while (i >= 0) *buf++ = tmp[--i];] from [i]: the last round, from
    [i = 0], reads [tmp[-1]], the byte [stray] of the stack below [tmp]. *)
Fixpoint emit_loop (stray : Z) (tmp : list Z) (buf : Z) (i : nat) : M kst unit :=
  match i with
  | O => st8 buf stray
  | S i' =>
      _ ← st8 buf (nth i' tmp 0);
      emit_loop stray tmp (buf + 1) i'
  end.

Definition write_number (stray buf num len : Z) : M kst unit :=
  tmp ← digits_loop 17 num [];
  tmp' ← pad_loop 17 len tmp;
  emit_loop stray tmp' buf (length tmp').

(** [stray i] is the byte below [tmp] in the i-th call of [write_number]. *)
Definition clock_read (fuel : nat) (uninit : rtclock) (stray : nat -> Z) (buf len : Z) : M dst Z :=
  if len <? 15 then mret 0 else
  _ ← update_clock fuel uninit uninit;
  c ← dget rtc_clock;
  _ ← kern (write_number (stray 0%nat) buf (year c) 4);
  _ ← kern (write_number (stray 1%nat) (buf + 4) (month c) 2);
  _ ← kern (write_number (stray 2%nat) (buf + 6) (day c) 2);
  _ ← kern (write_number (stray 3%nat) (buf + 8) (hours c) 2);
  _ ← kern (write_number (stray 4%nat) (buf + 10) (minutes c) 2);
  _ ← kern (write_number (stray 5%nat) (buf + 12) (seconds c) 2);
  _ ← kern (st8 (buf + 14) 0);
  mret 15.

End Impl.

(** ** Lemmas *)
Module Facts.
Import Impl.

(** *** Decimal digits *)

(** The [k] low decimal digits of [n] as characters, highest first, and the
    same lowest first. *)
Fixpoint dec (k : nat) (n : Z) : list Z :=
  match k with
  | O => []
  | S k' => dec k' (n / 10) ++ [48 + n mod 10]
  end.
Fixpoint little (k : nat) (n : Z) : list Z :=
  match k with
  | O => []
  | S k' => (48 + n mod 10) :: little k' (n / 10)
  end.

Lemma little_dec k n : reverse (little k n) = dec k n.
Proof.
  revert n. induction k as [|k IH]; intros n; cbn [little dec]; [done|].
  by rewrite reverse_cons, IH.
Qed.

Lemma length_little k n : length (little k n) = k.
Proof. revert n. induction k; intros n; cbn; auto. Qed.

Lemma length_dec k n : length (dec k n) = k.
Proof. by rewrite <- little_dec, length_reverse, length_little. Qed.

Lemma little_0 k : little k 0 = replicate k 48.
Proof. induction k as [|k IH]; [done|]. cbn [little replicate]. change (0 / 10) with 0. by rewrite IH. Qed.

Lemma push_tmp_run tmp v s :
  (length tmp < 16)%nat -> push_tmp tmp v s = Ok (tmp ++ [v], s).
Proof. intros H. unfold push_tmp. by rewrite (proj2 (Nat.ltb_lt _ _) H). Qed.

Lemma digits_run k fuel num tmp s :
  0 <= num < 10 ^ Z.of_nat k -> (length tmp + k <= 16)%nat -> (k < fuel)%nat ->
  exists ds, digits_loop fuel num tmp s = Ok (tmp ++ ds, s) /\
    (length ds <= k)%nat /\ ds ++ replicate (k - length ds) 48 = little k num.
Proof.
  revert fuel num tmp. induction k as [|k IH]; intros [|fuel] num tmp Hn Hl Hf; try lia;
    cbn [digits_loop]; rewrite if_app.
  - assert (num = 0) as -> by (cbn in Hn; lia). cbn. exists []. by rewrite app_nil_r.
  - destruct (Z.ltb_spec 0 num); cbn [negb].
    + rewrite Nat2Z.inj_succ, Z.pow_succ_r in Hn by lia.
      mstep (push_tmp_run tmp (48 + num mod 10) s ltac:(lia)).
      destruct (IH fuel (num / 10) (tmp ++ [48 + num mod 10])) as (ds & Hrun & Hle & Hds);
        [split; [apply Z.div_pos; lia|apply Z.div_lt_upper_bound; lia]|
         rewrite length_app; cbn; lia|lia|].
      exists ((48 + num mod 10) :: ds). rewrite Hrun, <- app_assoc. cbn [length little].
      split_and!; [done|lia|]. rewrite <- Hds. done.
    + assert (num = 0) as -> by lia. exists []. rewrite app_nil_r, little_0. cbn.
      split_and!; [done|lia|done].
Qed.

Lemma pad_run fuel len tmp s :
  (length tmp <= len)%nat -> (len <= 16)%nat -> (len - length tmp < fuel)%nat ->
  pad_loop fuel (Z.of_nat len) tmp s = Ok (tmp ++ replicate (len - length tmp) 48, s).
Proof.
  revert tmp. induction fuel as [|fuel IH]; intros tmp Hle H16 Hf; [lia|].
  cbn [pad_loop]. rewrite if_app.
  destruct (Z.ltb_spec (Z.of_nat (length tmp)) (Z.of_nat len)); cbn [negb].
  - mstep (push_tmp_run tmp 48 s ltac:(lia)).
    rewrite IH by (rewrite ?length_app; cbn; lia). rewrite length_app, <- app_assoc. cbn.
    by replace (len - length tmp)%nat with (S (len - (length tmp + 1)))%nat by lia.
  - replace (len - length tmp)%nat with O by lia. cbn. by rewrite app_nil_r.
Qed.

Lemma emit_digits_run stray tmp rest buf s :
  emit_loop stray (tmp ++ rest) buf (length tmp) s
  = Ok (tt, set_mem (store_bytes (k_mem s) buf (reverse tmp ++ [stray])) s).
Proof.
  revert rest buf s. induction tmp as [|x tmp IH] using rev_ind; intros rest buf s; [done|].
  rewrite length_app, Nat.add_comm, reverse_snoc, <- app_assoc.
  cbn [Nat.add length emit_loop app store_bytes]. rewrite nth_middle.
  rewrite (bind_Ok _ _ s tt (set_mem (store8 (k_mem s) buf x) s)) by done.
  rewrite IH, set_mem_mem. done.
Qed.

(** [write_number] stores its digits and one byte more. *)
Lemma write_number_run stray buf num len s :
  0 <= num < 10 ^ Z.of_nat len -> (len <= 16)%nat ->
  write_number stray buf num (Z.of_nat len) s
  = Ok (tt, set_mem (store_bytes (k_mem s) buf (dec len num ++ [stray])) s).
Proof.
  intros Hn Hlen. unfold write_number.
  destruct (digits_run len 17 num [] s Hn) as (ds & Hrun & Hle & Hds); [cbn; lia|lia|].
  mstep Hrun. cbn [app].
  rewrite (bind_Ok _ _ s _ s (pad_run 17 len ds s Hle Hlen ltac:(lia))).
  rewrite Hds. rewrite <- (app_nil_r (little len num)) at 1.
  by rewrite emit_digits_run, little_dec.
Qed.

(** The next number overwrites that byte. *)
Lemma store_bytes_over m a b xs y zs :
  b = a + Z.of_nat (length xs) -> zs <> [] ->
  store_bytes (store_bytes m a (xs ++ [y])) b zs = store_bytes m a (xs ++ zs).
Proof.
  intros -> Hz. destruct zs as [|z zs]; [done|].
  rewrite !store_bytes_app. cbn [store_bytes]. f_equal. unfold store8.
  by rewrite insert_insert_eq.
Qed.

(** *** The CMOS registers *)

(** A clock chip whose registers hold [regs] (and do not change while they are
    read). *)
Definition cmos (hw : list io_event -> Z -> Z) (regs : Z -> Z) : Prop :=
  forall io r, hw (io ++ [Out8 0x70 r]) 0x71 = regs r.

(** The accesses of one [readclock]. *)
Definition clock_regs : list Z := 
  [REG_SECONDS; REG_MINUTES; REG_HOURS; REG_YEAR; REG_MONTH; REG_DAY; REG_DAY; REG_CENTURY].
Definition clock_ios (regs : Z -> Z) : list io_event :=
  clock_regs ≫= (fun r => [Out8 0x70 r; In8 0x71 (u8 (regs r))]).

Lemma read_cmos_run regs r s :
  cmos (k_hw (i_k s)) regs -> 0 <= r < 256 ->
  read_cmos r s
  = Ok (u8 (regs r), set_ik (add_ios [Out8 0x70 r; In8 0x71 (u8 (regs r))] (i_k s)) s).
Proof.
  intros Hc Hr. unfold read_cmos, kern, zoom.
  rewrite (bind_Ok _ _ s tt (set_ik (add_ios [Out8 0x70 r] (i_k s)) s)).
  2:{ rewrite port_out_byte_run. change (u16 0x70) with 0x70. by rewrite u8_small. }
  rewrite port_in_byte_run. cbn [set_ik i_k add_ios k_hw k_io].
  change (u16 0x71) with 0x71. rewrite (Hc (k_io (i_k s)) r).
  f_equal. f_equal. unfold set_ik. f_equal. by rewrite add_ios_app.
Qed.

(** The value a register holds for [n], in BCD or binary. *)
Definition enc (bin n : Z) : Z := if bin =? 0 then n / 10 * 16 + n mod 10 else n.

Definition holds (bin : Z) (regs : Z -> Z) (c : rtclock) : Prop :=
  regs REG_SECONDS = enc bin (seconds c) /\ regs REG_MINUTES = enc bin (minutes c) /\
  regs REG_HOURS = enc bin (hours c) /\ regs REG_DAY = enc bin (day c) /\
  regs REG_MONTH = enc bin (month c) /\ regs REG_YEAR = enc bin (year c mod 100) /\
  regs REG_CENTURY = enc bin (year c / 100).

(** A time the reader's text has room for. *)
Definition printable (c : rtclock) : Prop :=
  0 <= year c < 10000 /\ 0 <= month c < 100 /\ 0 <= day c < 100 /\
  0 <= hours c < 100 /\ 0 <= minutes c < 100 /\ 0 <= seconds c < 100.

Lemma enc_u8 bin n : 0 <= n < 100 -> u8 (enc bin n) = enc bin n.
Proof.
  intros Hn. apply u8_small. unfold enc. destruct (bin =? 0); [|lia].
  Z.to_euclidean_division_equations. lia.
Qed.

Lemma BCD_TO_BIN_enc n : 0 <= n < 100 -> BCD_TO_BIN (n / 10 * 16 + n mod 10) = n.
Proof.
  intros Hn. unfold BCD_TO_BIN. change 0xF with (Z.ones 4). rewrite Z.land_ones by lia.
  change (2 ^ 4) with 16.
  Z.to_euclidean_division_equations. lia.
Qed.

(** Decoding a register to a w-bit field that has room for it. *)
Lemma conv_enc (w : Z -> Z) bin n :
  0 <= n < 100 -> w n = n ->
  (if bin =? 0 then w (BCD_TO_BIN (enc bin n)) else enc bin n) = n.
Proof.
  intros Hn Hw. unfold enc. destruct (bin =? 0); [|done]. by rewrite BCD_TO_BIN_enc.
Qed.

Lemma readclock_run regs c0 c s :
  cmos (k_hw (i_k s)) regs -> holds (is_binary (rtc_clock (i_ext s))) regs c -> printable c ->
  readclock c0 s
  = Ok (RtClock (is_binary c0) (year c) (seconds c) (minutes c) (hours c) (month c) (day c),
        set_ik (add_ios (clock_ios regs) (i_k s)) s).
Proof.
  intros Hc (Hs & Hm & Hh & Hd & Hmo & Hy & Hce) (P1 & P2 & P3 & P4 & P5 & P6).
  unfold readclock.
  do 8 match goal with |- (read_cmos ?r ≫= _) ?t = _ =>
    mstep (read_cmos_run regs r t Hc ltac:(done));
    cbn [set_ik i_k i_ext idt_toc idt_entries idt_handlers idt_loaded];
    rewrite ?add_ios_app, ?set_ik_ik; cbn [app] end.
  unfold dget. rewrite gets_bind. cbn [set_ik i_ext].
  rewrite Hs, Hm, Hh, Hd, Hmo, Hy, Hce.
  set (bin := is_binary (rtc_clock (i_ext s))) in *.
  assert (0 <= year c / 100 < 100 /\ 0 <= year c mod 100 < 100) as [Y1 Y2] by cint.
  rewrite !enc_u8 by lia.
  rewrite !(conv_enc u8), (conv_enc u16), (conv_enc u32)
    by (lia || (apply u8_small; lia) || (apply u16_small; lia) || (apply u32_small; lia)).
  unfold mret, M_ret. f_equal. f_equal; [f_equal|].
  - rewrite u16_small by cint. rewrite (Z.div_mod (year c) 100) at 3 by lia. lia.
  - f_equal. f_equal. unfold clock_ios, clock_regs. cbn [mbind list_bind app]. rewrite Hs, Hm, Hh, Hd, Hmo, Hy, Hce, !enc_u8 by lia. done.
Qed.

Lemma sameclock_refl c : sameclock c c = true.
Proof. unfold sameclock. by rewrite !Z.eqb_refl. Qed.

(** Two equal readings in a row are kept. *)
Lemma update_clock_run fuel regs a b c s :
  cmos (k_hw (i_k s)) regs -> holds (is_binary (rtc_clock (i_ext s))) regs c -> printable c ->
  let bin := is_binary (rtc_clock (i_ext s)) in
  update_clock (S fuel) a b s
  = Ok (tt, set_ext (set_clock (RtClock bin (year c) (seconds c) (minutes c) (hours c) (month c)
              (day c)) (i_ext s))
            (set_ik (add_ios (clock_ios regs ++ clock_ios regs) (i_k s)) s)).
Proof.
  intros Hc Hh Hp bin. cbn [update_clock]. mstep (readclock_run regs a c s Hc Hh Hp).
  set (s1 := set_ik _ s).
  mstep (readclock_run regs b c s1 ltac:(exact Hc) ltac:(exact Hh) Hp).
  rewrite if_app.
  match goal with |- (if ?x then _ else _) = _ => replace x with true end.
  2:{ symmetry. unfold sameclock. cbn [year month day hours minutes seconds].
      by rewrite !Z.eqb_refl. }
  rewrite <- add_ios_app. done.
Qed.

(** *** The text a reader gets *)

Definition date_text (c : rtclock) : list Z :=
  dec 4 (year c) ++ dec 2 (month c) ++ dec 2 (day c) ++
  dec 2 (hours c) ++ dec 2 (minutes c) ++ dec 2 (seconds c) ++ [0].

Lemma date_bytes_run stray buf c (s : dst) :
  printable c ->
  (_ ← kern (write_number (stray 0%nat) buf (year c) 4);
   _ ← kern (write_number (stray 1%nat) (buf + 4) (month c) 2);
   _ ← kern (write_number (stray 2%nat) (buf + 6) (day c) 2);
   _ ← kern (write_number (stray 3%nat) (buf + 8) (hours c) 2);
   _ ← kern (write_number (stray 4%nat) (buf + 10) (minutes c) 2);
   _ ← kern (write_number (stray 5%nat) (buf + 12) (seconds c) 2);
   _ ← kern (st8 (buf + 14) 0);
   mret 15) s
  = Ok (15, set_ik (set_mem (store_bytes (k_mem (i_k s)) buf (date_text c)) (i_k s)) s).
Proof.
  intros (P1 & P2 & P3 & P4 & P5 & P6).
  do 6 match goal with |- (kern (write_number ?x ?b ?n ?l) ≫= _) ?t = _ =>
    let k := eval vm_compute in (Z.to_nat l) in
    mstep (kern_run _ t _ _ (write_number_run x b n k (i_k t) ltac:(cbn; lia) ltac:(lia)));
    change (i_k (set_ik ?x t)) with x; rewrite ?set_ik_ik end.
  match goal with |- (_ ≫= _) ?t = _ =>
    rewrite (bind_Ok _ _ t tt (set_ik (set_mem (store8 (k_mem (i_k t)) (buf + 14) 0) (i_k t)) t))
      by done end.
  unfold mret, M_ret. do 2 f_equal. cbn [i_k set_ik].
  rewrite ?set_ik_ik, !set_mem_mem. cbn [set_mem k_mem].
  change (store8 ?m (buf + 14) 0) with (store_bytes m (buf + 14) [0]).
  do 6 (rewrite store_bytes_over; [|rewrite ?length_app, ?length_dec; lia|
    first [done|by intros [_ ?]%app_nil]]; rewrite ?app_assoc).
  unfold date_text. by rewrite <- !app_assoc.
Qed.

Definition same_time (bin : Z) (c : rtclock) : rtclock :=
  RtClock bin (year c) (seconds c) (minutes c) (hours c) (month c) (day c).

Lemma clock_read_run fuel uninit stray buf len (s : dst) regs c :
  cmos (k_hw (i_k s)) regs -> holds (is_binary (rtc_clock (i_ext s))) regs c -> printable c ->
  15 <= len ->
  clock_read (S fuel) uninit stray buf len s
  = Ok (15, set_ext (set_clock (same_time (is_binary (rtc_clock (i_ext s))) c) (i_ext s))
      (set_ik (set_mem (store_bytes (k_mem (i_k s)) buf (date_text c))
        (add_ios (clock_ios regs ++ clock_ios regs) (i_k s))) s)).
Proof.
  intros Hc Hh Hp Hlen. unfold clock_read. rewrite (proj2 (Z.ltb_ge len 15)) by done.
  mstep (update_clock_run fuel regs uninit uninit c s Hc Hh Hp).
  unfold dget at 1. rewrite gets_bind. by rewrite date_bytes_run by exact Hp.
Qed.

End Facts.

Import Impl Facts.

(** ** Properties *)

(** C33: While the chip's registers do not change, a reader with room for 15
    bytes gets the date and time as the digits YYYYMMDDHHMMSS and a NUL,
    whether the chip counts in BCD or in binary and whatever the stray byte is
    that [write_number] stores behind each number; nothing else in memory
    changes. *)
Theorem clock_read_formats_time fuel uninit stray buf len (s : dst) regs c
    (Hc : cmos (k_hw (i_k s)) regs)
    (Hh : holds (is_binary (rtc_clock (i_ext s))) regs c) (Hp : printable c)
    (Hlen : 15 <= len) :
  exists s', clock_read (S fuel) uninit stray buf len s = Ok (15, s') /\
    k_mem (i_k s') = store_bytes (k_mem (i_k s)) buf (date_text c) /\
    k_io (i_k s') = k_io (i_k s) ++ clock_ios regs ++ clock_ios regs.
Proof.
  rewrite (clock_read_run fuel uninit stray buf len s regs c) by done.
  eexists. split; [reflexivity|]. done.
Qed.

(** 2021-12-31 23:59:58 in BCD. *)
Definition sample_regs (r : Z) : Z :=
  match r with
  | 0 => 0x58 | 2 => 0x59 | 4 => 0x23 | 7 => 0x31 | 8 => 0x12 | 9 => 0x21 | 50 => 0x20 | _ => 0
  end.
Definition sample_hw (io : list io_event) (port : Z) : Z :=
  match last io with Some (PortOut 8 112 r) => sample_regs r | _ => 0 end.
Definition sample_clock : rtclock := RtClock 0 2021 58 59 23 12 31.
Definition sample_dst : dst :=
  Idt (KSt ∅ 0 0 [] sample_hw) (IdtTable 0 0) [] [] None
    (Drivers 0 0 (RtClock 0 0 0 0 0 0 0) 0 0).

Lemma clock_read_formats_time_witness :
  exists s', clock_read 1 sample_clock (fun _ => 0xAA) 0x5000 15 sample_dst = Ok (15, s') /\
    load_bytes (k_mem (i_k s')) 0x5000 15
    = [50; 48; 50; 49; 49; 50; 51; 49; 50; 51; 53; 57; 53; 56; 0].
Proof.
  destruct (clock_read_formats_time 0 sample_clock (fun _ => 0xAA) 0x5000 15 sample_dst
    sample_regs sample_clock) as (s' & Hrun & Hm & _).
  - intros io r. cbn [sample_dst i_k k_hw]. unfold sample_hw. by rewrite last_snoc.
  - repeat split; reflexivity.
  - repeat split; done.
  - lia.
  - exists s'. split; [exact Hrun|]. rewrite Hm. vm_compute. reflexivity.
Defined.
