(* ===== verification/Vgafb.v ===== *)
(** * The VGA text framebuffer (kernel/device/vgafb.c)

    The block device over the 4000 bytes at 0xB8000: clipped reads and writes,
    and the cursor, which is moved through the CRT controller's ports. *)
From S2P Require Import Prelude Mem Ports Idt Device.
From stdpp Require Import strings.
Import Idt.Impl.
Local Open Scope Z_scope.

(** ** The C code *)
Module Impl.

Definition VGA_BASE : Z := 0xB8000.
Definition VGA_COLS : Z := 80.
Definition VGA_ROWS : Z := 25.
Definition VGA_CHARS : Z := VGA_COLS * VGA_ROWS.
Definition VGA_SIZE : Z := VGA_CHARS * 2.
Definition VGA_LIMIT : Z := VGA_BASE + VGA_SIZE.
Definition VGA_IOR_ADDR : Z := 0x3D4.
Definition VGA_IOR_DATA : Z := 0x3D5.
Definition VGAFB_IOCTL_SETCUR : Z := 0.
Definition VGAFB_IOCTL_MOVECUR : Z := 1.

(** [for (i = 0; i < n; i++) vga[i] = 0x700;], two bytes an entry. *)
Fixpoint blank_loop (n : nat) (vga : Z) : M kst unit :=
  match n with
  | O => mret tt
  | S n' =>
      _ ← st8 vga 0x00;
      _ ← st8 (vga + 1) 0x07;
      blank_loop n' (vga + 2)
  end.

Definition vgafb_init `{DeviceManager K} : M K Z :=
  r ← device_install vgafb_device (chars_of "fb");
  if r <? 0 then mret (-1) else
  _ ← below (kern (blank_loop (Z.to_nat VGA_CHARS) VGA_BASE));
  mret 0.

Definition vgafb_open (flags : Z) : M dst Z := mret 0.
Definition vgafb_close : M dst Z := mret 0.

(** The [for (ptr = start; ptr < end; ptr++)] of both directions: [n] bytes
    from [src] to [dst], counted. *)
Fixpoint copy_loop (n : nat) (dst src bytes : Z) : M kst Z :=
  match n with
  | O => mret bytes
  | S n' =>
      b ← ld8 src;
      _ ← st8 dst b;
      copy_loop n' (dst + 1) (src + 1) (bytes +w 1)
  end.

(** [end]: 32-bit pointer arithmetic, clipped to the framebuffer. *)
Definition clip (start len : Z) : Z :=
  let end_ := start +w len in
  if VGA_LIMIT <=? end_ then VGA_LIMIT else end_.

Definition vgafb_read (buf offt len : Z) : M dst Z :=
  if offt <? VGA_SIZE then
    let start := VGA_BASE + offt in
    kern (copy_loop (Z.to_nat (clip start len - start)) buf start 0)
  else mret 0.

Definition vgafb_write (buf offt len : Z) : M dst Z :=
  if offt <? VGA_SIZE then
    let start := VGA_BASE + offt in
    kern (copy_loop (Z.to_nat (clip start len - start)) start buf 0)
  else mret 0.

Definition enablecursor (enabled : bool) : M kst unit :=
  if enabled then
    _ ← port_out_byte VGA_IOR_ADDR 0xA;
    in1 ← port_in_byte VGA_IOR_DATA;
    _ ← port_out_byte VGA_IOR_DATA (Z.lor (Z.land in1 0x1F) 0xD);
    _ ← port_out_byte VGA_IOR_ADDR 0xB;
    in2 ← port_in_byte VGA_IOR_DATA;
    port_out_byte VGA_IOR_DATA (Z.lor (Z.land in2 0xC0) 0xF)
  else
    _ ← port_out_byte VGA_IOR_ADDR 0xA;
    port_out_byte VGA_IOR_DATA 0x20.

Definition movecursor (abspos : Z) : M kst unit :=
  _ ← port_out_byte VGA_IOR_ADDR 0xE;
  _ ← port_out_byte VGA_IOR_DATA (Z.land (Z.shiftr abspos 8) 0xFF);
  _ ← port_out_byte VGA_IOR_ADDR 0xF;
  port_out_byte VGA_IOR_DATA (Z.land abspos 0xFF).

Definition vgafb_ioctl (iorq arg : Z) : M dst Z :=
  if iorq =? VGAFB_IOCTL_SETCUR then
    _ ← kern (enablecursor (negb (arg =? 0)));
    mret 0
  else if iorq =? VGAFB_IOCTL_MOVECUR then
    lo ← kern (ld8 arg);
    hi ← kern (ld8 (arg + 1));
    _ ← kern (movecursor (lo + 256 * hi));
    mret 0
  else mret (-1).

End Impl.

(** ** Lemmas *)
Module Facts.
Import Impl.

(** The number of bytes a transfer of [len] bytes at [offt] moves: what fits
    on the screen, or nothing when the end pointer wraps around. *)
Definition window (offt len : Z) : Z :=
  if offt <? VGA_SIZE then
    if W32 <=? VGA_BASE + offt + len then 0 else Z.min len (VGA_SIZE - offt)
  else 0.

Lemma window_bounds offt len :
  0 <= offt -> 0 <= len ->
  0 <= window offt len <= len /\ (0 < window offt len -> offt + window offt len <= VGA_SIZE).
Proof.
  intros. unfold window, VGA_SIZE, VGA_CHARS, VGA_COLS, VGA_ROWS, VGA_BASE.
  destruct (offt <? _) eqn:?; [destruct (_ <=? _) eqn:?|]; lia.
Qed.

Lemma clip_window offt len :
  0 <= offt < VGA_SIZE -> 0 <= len < W32 ->
  Z.to_nat (clip (VGA_BASE + offt) len - (VGA_BASE + offt)) = Z.to_nat (window offt len).
Proof.
  intros Ho Hl. unfold window, clip. rewrite (proj2 (Z.ltb_lt offt VGA_SIZE)) by lia.
  unfold VGA_LIMIT, VGA_SIZE, VGA_CHARS, VGA_COLS, VGA_ROWS, VGA_BASE in *.
  destruct (Z.leb_spec W32 (0xB8000 + offt + len)) as [Hw|Hw].
  - replace (0xB8000 + offt +w len) with (0xB8000 + offt + len - W32) by cint.
    destruct (Z.leb_spec (0xB8000 + 80 * 25 * 2) (0xB8000 + offt + len - W32)); lia.
  - rewrite u32_small by lia.
    destruct (Z.leb_spec (0xB8000 + 80 * 25 * 2) (0xB8000 + offt + len)); lia.
Qed.

Lemma copy_run n dst src c s :
  dst <= src \/ src + Z.of_nat n <= dst -> 0 <= c -> c + Z.of_nat n < W32 ->
  copy_loop n dst src c s
  = Ok (c + Z.of_nat n, set_mem (store_bytes (k_mem s) dst (load_bytes (k_mem s) src n)) s).
Proof.
  revert dst src c s. induction n as [|n IH]; intros dst src c s Hd Hc Hn; cbn [copy_loop].
  - change (load_bytes _ src 0) with (@nil Z). cbn [store_bytes].
    by rewrite Z.add_0_r, set_mem_id.
  - rewrite (bind_Ok _ _ s (load8 (k_mem s) src) s) by done.
    rewrite (bind_Ok _ _ s tt (set_mem (store8 (k_mem s) dst (load8 (k_mem s) src)) s)) by done.
    rewrite u32_small, IH by lia. rewrite set_mem_mem, load_bytes_S. cbn [store_bytes set_mem k_mem].
    f_equal. f_equal; [lia|]. do 2 f_equal.
    apply load_bytes_agree with (P := fun a => src + 1 <= a < src + 1 + Z.of_nat n).
    + intros a Ha. rewrite load8_store8_ne by lia. done.
    + intros i Hi. lia.
Qed.

(** The CRT controller's registers after a sequence of port accesses: the
    index register selects which one the data register writes. *)
Record crtc := Crtc { index : Z; crtc_reg : Z -> Z }.
Definition crtc_step (c : crtc) (e : io_event) : crtc :=
  match e with
  | PortOut 8 0x3D4 v => Crtc v (crtc_reg c)
  | PortOut 8 0x3D5 v => Crtc (index c) (fun r => if r =? index c then v else crtc_reg c r)
  | _ => c
  end.
Definition crtc_of (io : list io_event) : crtc := foldl crtc_step (Crtc 0 (fun _ => 0)) io.

(** The cursor's place on the screen. *)
Definition cursor (io : list io_event) : Z :=
  256 * crtc_reg (crtc_of io) 0xE + crtc_reg (crtc_of io) 0xF.

Definition movecursor_ios (pos : Z) : list io_event :=
  [Out8 0x3D4 0xE; Out8 0x3D5 (pos / 256); Out8 0x3D4 0xF; Out8 0x3D5 (pos mod 256)].

Lemma cursor_movecursor io pos :
  cursor (io ++ movecursor_ios pos) = pos.
Proof.
  unfold cursor, crtc_of. rewrite foldl_app. cbn.
  rewrite (Z.div_mod pos 256) at 3 by lia. lia.
Qed.

Lemma movecursor_run pos s :
  0 <= pos < 65536 ->
  movecursor pos s = Ok (tt, add_ios (movecursor_ios pos) s).
Proof.
  intros Hp. unfold movecursor. cbv beta iota zeta delta [mbind M_bind].
  rewrite !port_out_byte_run, !add_ios_app. cbn [app]. unfold movecursor_ios.
  change 0xFF with (Z.ones 8). rewrite !Z.land_ones, Z.shiftr_div_pow2 by lia.
  change (2 ^ 8) with 256. rewrite (Z.mod_small (pos / 256)) by cint.
  rewrite (u8_small (pos / 256)), (u8_small (pos mod 256)) by cint. done.
Qed.

(** Transfers that stay on the screen. *)
Lemma vgafb_write_run buf offt len (s : dst) :
  0 <= offt < VGA_SIZE -> 0 <= len -> offt + len <= VGA_SIZE ->
  VGA_LIMIT <= buf \/ buf + len <= VGA_BASE ->
  vgafb_write buf offt len s
  = Ok (len, set_ik (set_mem (store_bytes (k_mem (i_k s)) (VGA_BASE + offt)
      (load_bytes (k_mem (i_k s)) buf (Z.to_nat len))) (i_k s)) s).
Proof.
  intros Ho Hl Hs Hd. unfold vgafb_write. rewrite if_app, (proj2 (Z.ltb_lt _ _)) by lia.
  assert (window offt len = len) as Hw.
  { unfold window, VGA_LIMIT, VGA_SIZE, VGA_CHARS, VGA_COLS, VGA_ROWS, VGA_BASE in *.
    rewrite (proj2 (Z.ltb_lt _ _)), (proj2 (Z.leb_gt _ _)) by lia. lia. }
  unfold VGA_LIMIT, VGA_SIZE, VGA_CHARS, VGA_COLS, VGA_ROWS in *.
  rewrite clip_window, Hw by (unfold VGA_SIZE, VGA_CHARS, VGA_COLS, VGA_ROWS; lia).
  unfold kern, zoom. rewrite copy_run by lia. by rewrite Z2Nat.id by lia.
Qed.

Lemma vgafb_read_run buf offt len (s : dst) :
  0 <= offt < VGA_SIZE -> 0 <= len -> offt + len <= VGA_SIZE ->
  VGA_LIMIT <= buf \/ buf + len <= VGA_BASE ->
  vgafb_read buf offt len s
  = Ok (len, set_ik (set_mem (store_bytes (k_mem (i_k s)) buf
      (load_bytes (k_mem (i_k s)) (VGA_BASE + offt) (Z.to_nat len))) (i_k s)) s).
Proof.
  intros Ho Hl Hs Hd. unfold vgafb_read. rewrite if_app, (proj2 (Z.ltb_lt _ _)) by lia.
  assert (window offt len = len) as Hw.
  { unfold window, VGA_LIMIT, VGA_SIZE, VGA_CHARS, VGA_COLS, VGA_ROWS, VGA_BASE in *.
    rewrite (proj2 (Z.ltb_lt _ _)), (proj2 (Z.leb_gt _ _)) by lia. lia. }
  unfold VGA_LIMIT, VGA_SIZE, VGA_CHARS, VGA_COLS, VGA_ROWS in *.
  rewrite clip_window, Hw by (unfold VGA_SIZE, VGA_CHARS, VGA_COLS, VGA_ROWS; lia).
  unfold kern, zoom. rewrite copy_run by lia. by rewrite Z2Nat.id by lia.
Qed.

Lemma vgafb_movecur_run arg (s : dst) :
  let m := k_mem (i_k s) in
  vgafb_ioctl VGAFB_IOCTL_MOVECUR arg s
  = Ok (0, set_ik (add_ios (movecursor_ios (load8 m arg + 256 * load8 m (arg + 1))) (i_k s)) s).
Proof.
  intros m. pose proof (load8_range m arg). pose proof (load8_range m (arg + 1)).
  change (vgafb_ioctl VGAFB_IOCTL_MOVECUR arg s) with
    ((lo ← kern (ld8 arg); hi ← kern (ld8 (arg + 1));
      _ ← kern (movecursor (lo + 256 * hi)); mret 0) s).
  mstep (kern_run (ld8 arg) s _ (i_k s) eq_refl). rewrite set_ik_id.
  mstep (kern_run (ld8 (arg + 1)) s _ (i_k s) eq_refl). rewrite set_ik_id.
  by mstep (kern_run _ s _ _ (movecursor_run
    (load8 m arg + 256 * load8 m (arg + 1)) (i_k s) ltac:(lia))).
Qed.

End Facts.

Import Impl Facts.

(** ** Properties *)

(** C34: A write to the framebuffer stores the caller's bytes from the given
    offset on, as many as fit below the end of the screen, returns how many,
    and changes no other byte: never one outside [VGA_BASE, VGA_LIMIT). *)
Theorem vgafb_write_clips (s : dst) buf offt len
    (Ho : 0 <= offt) (Hl : 0 <= len < W32)
    (Hd : VGA_LIMIT <= buf \/ buf + len <= VGA_BASE) :
  let n := window offt len in
  exists m', vgafb_write buf offt len s = Ok (n, set_ik (set_mem m' (i_k s)) s) /\
    load_bytes m' (VGA_BASE + offt) (Z.to_nat n) = load_bytes (k_mem (i_k s)) buf (Z.to_nat n) /\
    agree (fun a => a < VGA_BASE + offt \/ VGA_BASE + offt + n <= a) (k_mem (i_k s)) m' /\
    (0 < n -> VGA_BASE + offt + n <= VGA_LIMIT).
Proof.
  intros n. unfold vgafb_write. destruct (window_bounds offt len Ho ltac:(lia)) as [Hn Hin].
  fold n in Hn, Hin. rewrite if_app. destruct (Z.ltb_spec offt VGA_SIZE) as [Hlt|Hge].
  - rewrite clip_window by lia. fold n.
    unfold VGA_LIMIT in *. unfold kern, zoom. rewrite copy_run by lia.
    rewrite Z2Nat.id, Z.add_0_l by lia. eexists. split; [reflexivity|]. split_and!.
    + apply load_bytes_copy.
    + intros a Ha. rewrite load8_store_bytes_ne; [done|]. rewrite length_load_bytes. lia.
    + lia.
  - assert (n = 0) as -> by (unfold n, window; by rewrite (proj2 (Z.ltb_ge _ _))).
    exists (k_mem (i_k s)). rewrite set_mem_id. split_and!; [by destruct s|done|done|lia].
Qed.

Definition sample_dst : dst :=
  Idt (KSt (store_bytes ∅ 0x5000 [65; 7; 66; 7]) 0 0 [] (fun _ _ => 0)) (IdtTable 0 0) [] [] None
    (Drivers 0 0 (RtClock 0 0 0 0 0 0 0) 0 0).

(** Four bytes written two bytes before the end: two are stored. *)
Lemma vgafb_write_clips_witness :
  exists m', vgafb_write 0x5000 3998 4 sample_dst
    = Ok (2, set_ik (set_mem m' (i_k sample_dst)) sample_dst) /\
    load_bytes m' (VGA_BASE + 3998) 2 = [65; 7].
Proof.
  destruct (vgafb_write_clips sample_dst 0x5000 3998 4) as (m' & Hrun & Hl & _);
    [lia|lia|right; unfold VGA_BASE; lia|].
  exists m'. split; [exact Hrun|exact Hl].
Defined.

(** What was written to the framebuffer is read back from the same
    offset. *)
Theorem vgafb_read_returns_written (s s1 : dst) buf buf' offt len n
    (Ho : 0 <= offt) (Hl : 0 <= len < W32)
    (Hd : VGA_LIMIT <= buf \/ buf + len <= VGA_BASE)
    (Hd' : VGA_LIMIT <= buf' \/ buf' + len <= VGA_BASE)
    (Hw : vgafb_write buf offt len s = Ok (n, s1)) :
  exists s2, vgafb_read buf' offt len s1 = Ok (n, s2) /\
    load_bytes (k_mem (i_k s2)) buf' (Z.to_nat n)
    = load_bytes (k_mem (i_k s)) buf (Z.to_nat n).
Proof.
  destruct (window_bounds offt len Ho ltac:(lia)) as [Hn Hin].
  unfold vgafb_write, vgafb_read in *. rewrite if_app in *.
  destruct (Z.ltb_spec offt VGA_SIZE) as [Hlt|Hge].
  - rewrite clip_window in * by lia. unfold VGA_LIMIT in *. unfold kern, zoom in *.
    rewrite copy_run in Hw by lia. rewrite Z2Nat.id, Z.add_0_l in Hw by lia.
    injection Hw as <- <-. rewrite copy_run by lia. rewrite Z2Nat.id, Z.add_0_l by lia.
    eexists. split; [reflexivity|]. cbn [set_ik i_k set_mem k_mem].
    by rewrite !load_bytes_copy.
  - injection Hw as <- <-. by eexists.
Qed.

Lemma vgafb_read_returns_written_witness :
  exists s2, vgafb_read 0x6000 0 4
    (set_ik (set_mem (store_bytes (k_mem (i_k sample_dst)) VGA_BASE [65; 7; 66; 7])
      (i_k sample_dst)) sample_dst) = Ok (4, s2) /\
    load_bytes (k_mem (i_k s2)) 0x6000 4 = [65; 7; 66; 7].
Proof.
  apply (vgafb_read_returns_written sample_dst _ 0x5000 0x6000 0 4 4);
    [lia|lia|right; unfold VGA_BASE; lia|right; unfold VGA_BASE; lia|reflexivity].
Defined.

(** The MOVECUR request puts the hardware cursor at the 16-bit position
    its argument points to. *)
Theorem vgafb_ioctl_moves_cursor (s : dst) arg :
  exists s', vgafb_ioctl VGAFB_IOCTL_MOVECUR arg s = Ok (0, s') /\
    k_mem (i_k s') = k_mem (i_k s) /\
    cursor (k_io (i_k s'))
    = load8 (k_mem (i_k s)) arg + 256 * load8 (k_mem (i_k s)) (arg + 1).
Proof.
  rewrite vgafb_movecur_run. eexists. split; [reflexivity|]. split; [done|].
  apply cursor_movecursor.
Qed.
