(* ===== verification/Objects.v ===== *)
(** * The objects of the virtual file system (kernel/sys/vfs.h)

    The code above the drivers works on structures that point at each other.
    Here they live in a typed store: a pointer is an address ([Z], NULL is 0),
    and the store says what structure is there.  [malloc] of a structure gives
    a fresh address or NULL ([o_grants] decides, as the heap of Heap.v may be
    full), [free] takes the address out, and following NULL or a pointer to a
    structure that is gone is an error.  A [list_t] is the sequence of its data
    pointers: DList.v proves that the list functions of list.c behave so.  A C
    string is the list of its characters without the NUL (Pure of CString.v). *)
From S2P Require Import Prelude Mem Idt Device.
Import Idt.Impl.

(** ** Structures *)

Record vfs_node := Node {
  vn_name : list Z; vn_flags : Z; vn_parent : Z; vn_volume : Z; vn_payload : Z
}.

(** [vv_name] is NULL when [strdup] had no memory. *)
Record vfs_volume := Volume {
  vv_name : option (list Z); vv_family : Z; vv_root : Z; vv_payload : Z
}.

(** The file system drivers (FS_DESCRIPTOR). *)
Inductive fsys : Set := rootfs_fs | devfs_fs | tarfs_driver.

#[export] Instance fsys_eq_dec : EqDecision fsys.
Proof. solve_decision. Defined.

(** [struct tarfs_node] and [struct tarfs_payload] of tar.c. *)
Record tarfs_node := TarNode { tn_node : Z; tn_block : Z }.
Record tarfs_payload := TarPayload {
  tp_buf : Z; tp_nodes : Z; tp_volume : Z; tp_root : Z
}.

Inductive obj :=
  | ONode (n : vfs_node)
  | OVolume (v : vfs_volume)
  | OFsys (f : fsys)
  | ODevice (d : dev_name)
  | OTarNode (t : tarfs_node)
  | OTarPayload (p : tarfs_payload)
  | OList (xs : list Z).

(** ** The state of the kernel above the drivers *)

(** [struct vtcontext] of vtcon.c, but for the [buffer], which is in memory. *)
Record vtcontext := VtContext { cx : Z; cy : Z; fg : Z; bg : Z; kbd_status : Z }.

(** The statics of vtcon.c; [context] always points to
    [contexts[current_context]]. *)
Record vtstate := VtState {
  con_fb : Z;
  con_kbd : Z;
  vt_clock : Z;
  contexts : list vtcontext;
  current_context : nat
}.

(** [o_junk] is what a fresh structure holds before it is written: a name and
    a word by address. *)
Record ker := Ker {
  o_dst : dst;
  o_objs : gmap Z obj;
  o_next : Z;
  o_count : nat;
  o_grants : nat -> bool;
  o_junk_name : Z -> list Z;
  o_junk_word : Z -> Z;
  vfs_volumes : Z;
  vfs_drivers : Z;
  rootfs_nodes : Z;
  devmgr_list : Z;
  o_vt : vtstate
}.

Definition set_dst (d : dst) (s : ker) : ker :=
  Ker d (o_objs s) (o_next s) (o_count s) (o_grants s) (o_junk_name s) (o_junk_word s)
    (vfs_volumes s) (vfs_drivers s) (rootfs_nodes s) (devmgr_list s) (o_vt s).
Definition set_objs (m : gmap Z obj) (s : ker) : ker :=
  Ker (o_dst s) m (o_next s) (o_count s) (o_grants s) (o_junk_name s) (o_junk_word s)
    (vfs_volumes s) (vfs_drivers s) (rootfs_nodes s) (devmgr_list s) (o_vt s).
Definition set_next (n : Z) (s : ker) : ker :=
  Ker (o_dst s) (o_objs s) n (o_count s) (o_grants s) (o_junk_name s) (o_junk_word s)
    (vfs_volumes s) (vfs_drivers s) (rootfs_nodes s) (devmgr_list s) (o_vt s).
Definition tick (s : ker) : ker :=
  Ker (o_dst s) (o_objs s) (o_next s) (S (o_count s)) (o_grants s) (o_junk_name s)
    (o_junk_word s) (vfs_volumes s) (vfs_drivers s) (rootfs_nodes s) (devmgr_list s) (o_vt s).
Definition set_volumes (p : Z) (s : ker) : ker :=
  Ker (o_dst s) (o_objs s) (o_next s) (o_count s) (o_grants s) (o_junk_name s) (o_junk_word s)
    p (vfs_drivers s) (rootfs_nodes s) (devmgr_list s) (o_vt s).
Definition set_drivers (p : Z) (s : ker) : ker :=
  Ker (o_dst s) (o_objs s) (o_next s) (o_count s) (o_grants s) (o_junk_name s) (o_junk_word s)
    (vfs_volumes s) p (rootfs_nodes s) (devmgr_list s) (o_vt s).
Definition set_rootfs_nodes (p : Z) (s : ker) : ker :=
  Ker (o_dst s) (o_objs s) (o_next s) (o_count s) (o_grants s) (o_junk_name s) (o_junk_word s)
    (vfs_volumes s) (vfs_drivers s) p (devmgr_list s) (o_vt s).
Definition set_devmgr_list (p : Z) (s : ker) : ker :=
  Ker (o_dst s) (o_objs s) (o_next s) (o_count s) (o_grants s) (o_junk_name s) (o_junk_word s)
    (vfs_volumes s) (vfs_drivers s) (rootfs_nodes s) p (o_vt s).

Definition set_vt (v : vtstate) (s : ker) : ker :=
  Ker (o_dst s) (o_objs s) (o_next s) (o_count s) (o_grants s) (o_junk_name s) (o_junk_word s)
    (vfs_volumes s) (vfs_drivers s) (rootfs_nodes s) (devmgr_list s) v.

Definition set_obj (p : Z) (o : obj) (s : ker) : ker := set_objs (<[p := o]> (o_objs s)) s.

(** A command of the drivers and of the memory below them. *)
Definition low {A} (m : M dst A) : M ker A := zoom o_dst set_dst m.

(** The byte memory, as the code above the drivers uses it. *)
Definition kmem (s : ker) : mem := k_mem (i_k (o_dst s)).
Definition set_kmem (m : mem) (s : ker) : ker :=
  set_dst (set_ik (set_mem m (i_k (o_dst s))) (o_dst s)) s.
Definition ldb (a : Z) : M ker Z := low (kern (ld8 a)).
Definition stb (a v : Z) : M ker unit := low (kern (st8 a v)).

(** ** Access *)

Definition as_node (o : obj) : option vfs_node :=
  match o with ONode n => Some n | _ => None end.
Definition as_volume (o : obj) : option vfs_volume :=
  match o with OVolume v => Some v | _ => None end.
Definition as_fsys (o : obj) : option fsys :=
  match o with OFsys f => Some f | _ => None end.
Definition as_device (o : obj) : option dev_name :=
  match o with ODevice d => Some d | _ => None end.
Definition as_tarnode (o : obj) : option tarfs_node :=
  match o with OTarNode t => Some t | _ => None end.
Definition as_payload (o : obj) : option tarfs_payload :=
  match o with OTarPayload p => Some p | _ => None end.
Definition as_list (o : obj) : option (list Z) :=
  match o with OList xs => Some xs | _ => None end.

(** The structure of a kind at an address. *)
Definition view {A} (kind : obj -> option A) (m : gmap Z obj) (p : Z) : option A :=
  m !! p ≫= kind.

Definition deref {A} (kind : obj -> option A) (p : Z) : M ker A :=
  if p =? 0 then fail NullDeref
  else fun s =>
    match view kind (o_objs s) p with
    | Some a => Ok (a, s)
    | None => Err WildPointer
    end.

Definition put (p : Z) (o : obj) : M ker unit := modify (set_obj p o).

(** [malloc] for a structure with contents [o]; [o] depends on the address
    where the code leaves fields uninitialised. *)
Definition new (o : Z -> obj) : M ker Z :=
  fun s =>
    if o_grants s (o_count s)
    then Ok (o_next s, set_next (o_next s + 1) (set_obj (o_next s) (o (o_next s)) (tick s)))
    else Ok (0, tick s).

Definition free_obj (p : Z) : M ker unit :=
  if p =? 0 then mret tt
  else modify (fun s => set_objs (delete p (o_objs s)) s).

(** [strdup]: NULL without memory; an empty string is not copied
    (CString.strcpy_copies_non_empty), its copy is what the memory held. *)
Definition dup (str : list Z) : M ker (option (list Z)) :=
  fun s =>
    if o_grants s (o_count s)
    then Ok (Some (if decide (str = []) then o_junk_name s (o_next s) else str),
             set_next (o_next s + 1) (tick s))
    else Ok (None, tick s).

(** ** [list_t] *)
Module Lists.

Definition list_alloc : M ker Z := new (fun _ => OList []).

(** [list_append]: nothing is added when there is no memory for the node. *)
Definition append_node (l x : Z) (xs : list Z) : M ker unit :=
  fun s =>
    if o_grants s (o_count s)
    then Ok (tt, set_obj l (OList (xs ++ [x])) (tick s))
    else Ok (tt, tick s).
Definition list_append (l x : Z) : M ker unit :=
  xs ← deref as_list l;
  append_node l x xs.

Fixpoint remove_first (x : Z) (xs : list Z) : list Z :=
  match xs with
  | [] => []
  | y :: ys => if y =? x then ys else y :: remove_first x ys
  end.

Definition list_delete (l x : Z) : M ker unit :=
  xs ← deref as_list l;
  put l (OList (remove_first x xs)).

End Lists.

(** ** Lemmas *)

Lemma ldb_run a s : ldb a s = Ok (load8 (kmem s) a, s).
Proof. destruct s as [[[] ? ? ? ? ?] ? ? ? ? ? ? ? ? ? ? ?]. done. Qed.
Lemma stb_run a v s : stb a v s = Ok (tt, set_kmem (store8 (kmem s) a v) s).
Proof. done. Qed.

Lemma set_kmem_id s : set_kmem (kmem s) s = s.
Proof. destruct s as [[[] ? ? ? ? ?] ? ? ? ? ? ? ? ? ? ? ?]. done. Qed.
Lemma set_kmem_kmem m m' s : set_kmem m (set_kmem m' s) = set_kmem m s.
Proof. done. Qed.
Lemma kmem_set_kmem m s : kmem (set_kmem m s) = m.
Proof. done. Qed.

Lemma deref_run {A} (kind : obj -> option A) p s a :
  p <> 0 -> view kind (o_objs s) p = Some a -> deref kind p s = Ok (a, s).
Proof.
  intros Hp H. unfold deref. rewrite (proj2 (Z.eqb_neq p 0)) by done. by rewrite H.
Qed.

Lemma put_bind {B} p o (f : unit -> M ker B) s : (put p o ≫= f) s = f tt (set_obj p o s).
Proof. done. Qed.

Lemma deref_null {A} (kind : obj -> option A) s : deref kind 0 s = Err NullDeref.
Proof. done. Qed.

Lemma view_insert {A} (kind : obj -> option A) m p o :
  view kind (<[p := o]> m) p = kind o.
Proof. unfold view. by rewrite lookup_insert_eq. Qed.

Lemma view_insert_ne {A} (kind : obj -> option A) m p q o :
  p <> q -> view kind (<[p := o]> m) q = view kind m q.
Proof. intros H. unfold view. by rewrite lookup_insert_ne. Qed.

Lemma view_delete_ne {A} (kind : obj -> option A) m p q :
  p <> q -> view kind (delete p m) q = view kind m q.
Proof. intros H. unfold view. by rewrite lookup_delete_ne. Qed.

Lemma view_Some {A} (kind : obj -> option A) m p a :
  view kind m p = Some a -> exists o, m !! p = Some o /\ kind o = Some a.
Proof. unfold view. rewrite bind_Some. eauto. Qed.

(** ** The tree of files

    The objects and the tables that lead to them: what a command that only
    draws, reads or takes memory for a string leaves alone. *)
Definition tables (s : ker) : Z * Z * Z * Z :=
  (vfs_volumes s, vfs_drivers s, rootfs_nodes s, devmgr_list s).
Definition same_tree (s s' : ker) : Prop :=
  o_objs s' = o_objs s /\ o_next s <= o_next s' /\ o_grants s' = o_grants s /\ tables s' = tables s.
Lemma same_tree_refl s : same_tree s s.
Proof. by split_and!. Qed.
Lemma same_tree_trans s1 s2 s3 : same_tree s1 s2 -> same_tree s2 s3 -> same_tree s1 s3.
Proof. intros (? & ? & ? & ?) (? & ? & ? & ?). split_and!; [congruence|lia|congruence|congruence]. Qed.

(** ** Commands that change nothing *)

Create HintDb readonly discriminated.

(** Whatever [m] returns, it leaves the state as it is. *)
Definition reads_only {S A} (m : M S A) : Prop := forall s r s', m s = Ok (r, s') -> s' = s.

Section reads_only.
Context {S A B : Type}.

Lemma ret_reads_only (a : A) : reads_only (mret (M := M S) a).
Proof. by intros s r s' [= _ <-]. Qed.
Lemma fail_reads_only e : reads_only (fail (S := S) (A := A) e).
Proof. done. Qed.
Lemma gets_reads_only (f : S -> A) : reads_only (gets f).
Proof. by intros s r s' [= _ <-]. Qed.
Lemma bind_reads_only (m : M S A) (f : A -> M S B) :
  reads_only m -> (forall a, reads_only (f a)) -> reads_only (m ≫= f).
Proof.
  intros Hm Hf s r s' H. apply bind_Ok_inv in H as (a & s1 & H1 & H2).
  apply Hm in H1 as ->. by apply Hf in H2.
Qed.
Lemma if_reads_only (b : bool) (m n : M S A) :
  reads_only m -> reads_only n -> reads_only (if b then m else n).
Proof. by destruct b. Qed.

End reads_only.

Lemma deref_reads_only {A} (kind : obj -> option A) p : reads_only (deref kind p).
Proof.
  intros s r s'. unfold deref. destruct (p =? 0); [done|].
  destruct (view kind (o_objs s) p); [|done]. by intros [= _ <-].
Qed.

#[export] Hint Resolve ret_reads_only fail_reads_only gets_reads_only bind_reads_only
  if_reads_only deref_reads_only : readonly.
