(* ===== verification/Vfs.v ===== *)
(** * The virtual file system (kernel/kern/fs_vfs.c, fs_fsops.c, fs_path.c)

    [Module Ops] (fs_fsops.c) dispatches an operation on a node to the file
    system driver of its volume; [Module Mounts] (fs_vfs.c) keeps the mounted
    volumes and the root file system that lists them; [Module Path]
    (fs_path.c) resolves "VOLUME:/dir/file" to a node. *)
From S2P Require Import Prelude Mem Device Objects.
From S2P Require CString.
From stdpp Require Import strings.
Local Open Scope Z_scope.
Import CString.Pure.

(** ** Constants and tables (kernel/sys/vfs.h) *)

Definition VN_FREGFILE : Z := 1.
Definition VN_FDIR : Z := 2.
Definition VN_FCHARDEV : Z := 3.
Definition VN_FBLOCKDEV : Z := 4.

(** The hooks of a file system driver; [None] is a NULL function pointer. *)
Record vfs_ops := VfsOps {
  vfs_open : option (Z -> Z -> M ker Z);
  vfs_read : option (Z -> Z -> Z -> Z -> M ker Z);
  vfs_write : option (Z -> Z -> Z -> Z -> M ker Z);
  vfs_ioctl : option (Z -> Z -> Z -> M ker Z);
  vfs_close : option (Z -> M ker Z);
  vfs_readdir : option (Z -> Z -> M ker Z);
  vfs_finddir : option (Z -> list Z -> M ker Z)
}.

Record vfs_filesys := Filesys {
  fsd_ident : list Z;
  fsd_init : option (M ker unit);
  fsd_mount : Z -> M ker Z;
  fsd_ops : vfs_ops
}.

(** The [vfs_filesys_t] structures of the drivers. *)
Class FsDrivers := filesys : fsys -> vfs_filesys.

(** [-1] as an [unsigned int]. *)
Definition MINUS1 : Z := 4294967295.

(** Addresses of the static structures. *)
Definition rootfs_root : Z := 1.
Definition devfs_rootdir : Z := 2.
Definition fsys_ptr (f : fsys) : Z :=
  match f with rootfs_fs => 3 | devfs_fs => 4 | tarfs_driver => 5 end.

(** ** fs_fsops.c *)
Module Ops.

Section ops.
Context `{FsDrivers}.

(** [NODE_OPS(node)] *)
Definition NODE_OPS (node : Z) : M ker (option vfs_ops) :=
  if node =? 0 then mret None else
  n ← deref as_node node;
  if vn_volume n =? 0 then mret None else
  v ← deref as_volume (vn_volume n);
  if vv_family v =? 0 then mret None else
  f ← deref as_fsys (vv_family v);
  mret (Some (fsd_ops (filesys f))).

Definition is_file (flags : Z) : bool :=
  (flags =? VN_FREGFILE) || (flags =? VN_FCHARDEV) || (flags =? VN_FBLOCKDEV).
Definition is_device (flags : Z) : bool :=
  (flags =? VN_FCHARDEV) || (flags =? VN_FBLOCKDEV).
Definition is_dir (flags : Z) : bool := flags =? VN_FDIR.

(** What the functions below have in common: the hook is called if the driver
    has one and the node is of a kind it applies to. *)
Definition dispatch {A B} (hook : vfs_ops -> option B) (applies : Z -> bool)
    (call : B -> M ker A) (otherwise : A) (node : Z) : M ker A :=
  ops ← NODE_OPS node;
  match ops ≫= hook with
  | Some h =>
      n ← deref as_node node;
      if applies (vn_flags n) then call h else mret otherwise
  | None => mret otherwise
  end.

Definition fs_open (node flags : Z) : M ker Z :=
  dispatch vfs_open is_file (fun h => h node flags) (-1) node.
Definition fs_close (node : Z) : M ker Z :=
  dispatch vfs_close is_file (fun h => h node) (-1) node.
Definition fs_read (node offt buf len : Z) : M ker Z :=
  dispatch vfs_read is_file (fun h => h node offt buf len) MINUS1 node.
Definition fs_write (node offt buf len : Z) : M ker Z :=
  dispatch vfs_write is_file (fun h => h node offt buf len) MINUS1 node.
Definition fs_ioctl (node iorq args : Z) : M ker Z :=
  dispatch vfs_ioctl is_device (fun h => h node iorq args) (-1) node.
Definition fs_readdir (node index : Z) : M ker Z :=
  dispatch vfs_readdir is_dir (fun h => h node index) 0 node.
Definition fs_finddir (node : Z) (name : list Z) : M ker Z :=
  dispatch vfs_finddir is_dir (fun h => h node name) 0 node.

End ops.
End Ops.

(** ** fs_vfs.c *)
Module Mounts.

(** [vv_name] and other strings that may be NULL. *)
Definition str (p : option (list Z)) : M ker (list Z) :=
  match p with
  | Some s => mret s
  | None => fail NullDeref
  end.

(** [strcpy] into the array [vn_name], 64 bytes, that holds [old]: NULL and the empty
    string are not copied. *)
Definition copy_name (old : list Z) (src : option (list Z)) : M ker (list Z) :=
  match src with
  | None | Some [] => mret old
  | Some name => if (length name <? 64)%nat then mret name else fail OutOfBounds
  end.

(** The body of [find_mountpoint_by_name]'s loop over [vfs_volumes]. *)
Fixpoint find_mountpoint (vols : list Z) (mtname : list Z) : M ker Z :=
  match vols with
  | [] => mret 0
  | p :: vols' =>
      mountpoint ← deref as_volume p;
      name ← str (vv_name mountpoint);
      if cmpn 16 name mtname =? 0 then mret p
      else find_mountpoint vols' mtname
  end.
Definition find_mountpoint_by_name (mtname : list Z) : M ker Z :=
  l ← gets vfs_volumes;
  vols ← deref as_list l;
  find_mountpoint vols mtname.

(** The root file system's node for a volume. *)
Definition rootfs_register_volume (vol : Z) : M ker unit :=
  node ← new (fun _ => ONode (Node [] 0 0 0 0));
  if node =? 0 then fail NullDeref else
  v ← deref as_volume vol;
  junk ← gets (fun s => o_junk_name s node);
  name' ← copy_name junk (vv_name v);
  root ← deref as_node rootfs_root;
  _ ← put node (ONode (Node name' VN_FREGFILE rootfs_root (vn_volume root) vol));
  l ← gets rootfs_nodes;
  Lists.list_append l node.

(** The loop over [rootfs_nodes]: the first node of that name is deleted. *)
Fixpoint unregister (nodes : list Z) (l : Z) (name : list Z) : M ker unit :=
  match nodes with
  | [] => mret tt
  | p :: nodes' =>
      n ← deref as_node p;
      if cmp (vn_name n) name =? 0 then Lists.list_delete l p
      else unregister nodes' l name
  end.
Definition rootfs_unregister_volume (vol : Z) : M ker unit :=
  l ← gets rootfs_nodes;
  nodes ← deref as_list l;
  if decide (nodes = []) then mret tt else
  v ← deref as_volume vol;
  name ← str (vv_name v);
  unregister nodes l name.

Definition rootfs_mount (vol : Z) : M ker Z :=
  l ← gets rootfs_nodes;
  if negb (l =? 0) then mret (-1) else
  l' ← Lists.list_alloc;
  _ ← modify (set_rootfs_nodes l');
  root ← deref as_node rootfs_root;
  _ ← put rootfs_root
        (ONode (Node (vn_name root) (vn_flags root) (vn_parent root) vol (vn_payload root)));
  v ← deref as_volume vol;
  _ ← put vol (OVolume (Volume (vv_name v) (vv_family v) rootfs_root (vv_payload v)));
  mret 0.

Definition rootfs_open (node flags : Z) : M ker Z :=
  mret (if (Z.land flags VO_FREAD =? 0) || negb (Z.land flags VO_FWRITE =? 0) then -1 else 0).
Definition rootfs_close (node : Z) : M ker Z := mret 0.
Definition rootfs_read (node offt buf len : Z) : M ker Z := mret 0.

Definition rootfs_readdir (node index : Z) : M ker Z :=
  l ← gets rootfs_nodes;
  nodes ← deref as_list l;
  mret (if Z.of_nat (length nodes) <=? index then 0 else nth (Z.to_nat index) nodes 0).

Fixpoint find_node (nodes : list Z) (name : list Z) : M ker Z :=
  match nodes with
  | [] => mret 0
  | p :: nodes' =>
      n ← deref as_node p;
      if cmp (vn_name n) name =? 0 then mret p else find_node nodes' name
  end.
Definition rootfs_finddir (node : Z) (name : list Z) : M ker Z :=
  l ← gets rootfs_nodes;
  nodes ← deref as_list l;
  find_node nodes name.

Definition rootfs_ops : vfs_ops :=
  VfsOps (Some rootfs_open) (Some rootfs_read) None None (Some rootfs_close)
    (Some rootfs_readdir) (Some rootfs_finddir).
Definition rootfs : vfs_filesys := Filesys (chars_of "rootfs") None rootfs_mount rootfs_ops.

Section mounts.
Context `{FsDrivers}.

(** The loop of [get_driver_by_name] over [vfs_drivers]. *)
Fixpoint find_driver (drivers : list Z) (name : list Z) : M ker Z :=
  match drivers with
  | [] => mret 0
  | p :: drivers' =>
      f ← deref as_fsys p;
      if cmp name (fsd_ident (filesys f)) =? 0 then mret p else find_driver drivers' name
  end.
Definition get_driver_by_name (name : list Z) : M ker Z :=
  l ← gets vfs_drivers;
  drivers ← deref as_list l;
  find_driver drivers name.

Definition vfs_mount (driver name : list Z) (argp : Z) : M ker Z :=
  found ← find_mountpoint_by_name name;
  if negb (found =? 0) then mret (-1) else
  family ← get_driver_by_name driver;
  if family =? 0 then mret (-1) else
  volume ← new (fun _ => OVolume (Volume None 0 0 0));
  if volume =? 0 then mret (-1) else
  vname ← dup name;
  _ ← put volume (OVolume (Volume vname family 0 argp));
  f ← deref as_fsys family;
  r ← fsd_mount (filesys f) volume;
  if r <? 0 then
    _ ← free_obj volume;
    mret (-1)
  else
    l ← gets vfs_volumes;
    _ ← Lists.list_append l volume;
    _ ← rootfs_register_volume volume;
    mret 0.

(** The loop over the driver descriptors that the linker collected. *)
Fixpoint register_drivers (descriptors : list fsys) : M ker unit :=
  match descriptors with
  | [] => mret tt
  | f :: rest =>
      _ ← match fsd_init (filesys f) with Some init => init | None => mret tt end;
      l ← gets vfs_drivers;
      _ ← Lists.list_append l (fsys_ptr f);
      register_drivers rest
  end.

Definition vfs_init (descriptors : list fsys) : M ker unit :=
  l ← Lists.list_alloc;
  _ ← modify (set_volumes l);
  l' ← Lists.list_alloc;
  _ ← modify (set_drivers l');
  _ ← Lists.list_append l' (fsys_ptr rootfs_fs);
  _ ← vfs_mount (chars_of "rootfs") (chars_of "ROOT") 0;
  register_drivers descriptors.

Definition vfs_umount (mountname : list Z) : M ker Z :=
  vol ← find_mountpoint_by_name mountname;
  if vol =? 0 then mret (-1) else
  _ ← rootfs_unregister_volume vol;
  l ← gets vfs_volumes;
  _ ← Lists.list_delete l vol;
  _ ← free_obj vol;
  mret 0.

Definition vfs_get_volume (mountname : list Z) : M ker Z :=
  mtpoint ← find_mountpoint_by_name mountname;
  if mtpoint =? 0 then mret 0 else
  v ← deref as_volume mtpoint;
  mret (vv_root v).

End mounts.
End Mounts.

(** ** fs_path.c *)
Module Path.

Section path.
Context `{FsDrivers}.

(** One call per path component: [fuel] is the length of the path and more. *)
Fixpoint fs_follow_path (fuel : nat) (root : Z) (path : list Z) : M ker Z :=
  match fuel with
  | O => fail Diverges
  | S fuel' =>
      let '(out, path') := sep (chars_of "/") path in
      node ← Ops.fs_finddir root out;
      match path' with
      | None => mret node
      | Some rest =>
          n ← deref as_node node;
          if Z.land (vn_flags n) VN_FDIR =? 0 then mret 0
          else fs_follow_path fuel' node rest
      end
  end.

(** [strdup] failing leaves NULL, which [strsep] passes through. *)
Definition fs_resolve (path : list Z) : M ker Z :=
  copy ← dup path;
  match copy with
  | None => mret 0
  | Some p =>
      let '(volname, rest) := sep (chars_of ":") p in
      match rest with
      | None => mret 0
      | Some inner =>
          descriptor ← Mounts.vfs_get_volume volname;
          if descriptor =? 0 then mret descriptor else
          match inner with
          | 47 :: inner' =>
              if decide (inner' = []) then mret descriptor
              else fs_follow_path (S (length inner')) descriptor inner'
          | _ => mret descriptor
          end
      end
  end.

End path.
End Path.
