(* ===== verification/Devfs.v ===== *)
(** * The device manager and its file system (kernel/kern/fs_devfs.c)

    [Module Impl] is the code: the list of installed devices, and the file
    system "devfs" that shows them as files.  A device is a table of function
    pointers ([device]); [Module Table] fills the tables of the kernel's own
    drivers in, except for the console's, which is an argument. *)
From S2P Require Import Prelude Mem Alloc Idt Device Objects Vfs.
From S2P Require CString Chardev Rtclock Vgafb.
From stdpp Require Import strings.
Local Open Scope Z_scope.
Import CString.Pure.

(** ** The C code *)
Module Impl.

Definition DV_FCHARDEV : Z := 1.
Definition DV_FBLCKDEV : Z := 2.

(** [device_t]; [None] is a NULL function pointer. *)
Record device := Dev {
  dev_open : option (Z -> M ker Z);
  dev_read_blk : option (Z -> Z -> Z -> M ker Z);
  dev_write_blk : option (Z -> Z -> Z -> M ker Z);
  dev_read_chr : option (Z -> Z -> M ker Z);
  dev_write_chr : option (Z -> Z -> M ker Z);
  dev_ioctl : option (Z -> Z -> M ker Z);
  dev_close : option (M ker Z)
}.

(** The static [device_t] structures: their addresses, the flags of their
    families ([dev_family->drv_flags]), their functions. *)
Definition dev_ptr (d : dev_name) : Z :=
  match d with
  | null_device => 10 | zero_device => 11 | keyboard_device => 12 | pctimer_device => 13
  | clock_device => 14 | uart8250_device => 15 | vgafb_device => 16 | vtcon_device => 17
  end.
Definition drv_flags (d : dev_name) : Z :=
  match d with vgafb_device => DV_FBLCKDEV | _ => DV_FCHARDEV end.

Class Devices := device_of : dev_name -> device.

(** The loop of [devfs_finddir] over [devmgr_list]. *)
Fixpoint find_device (nodes : list Z) (name : list Z) : M ker Z :=
  match nodes with
  | [] => mret 0
  | p :: nodes' =>
      vnode ← deref as_node p;
      if cmpn 64 (vn_name vnode) name =? 0 then mret p else find_device nodes' name
  end.
Definition devfs_finddir (node : Z) (name : list Z) : M ker Z :=
  l ← gets devmgr_list;
  nodes ← deref as_list l;
  find_device nodes name.

(** [strncpy(node->vn_name, mtname, 64)]: from 64 characters on the name would
    have no NUL.  (The 65th byte that a shorter name's padding stores is the
    first of [vn_flags], which is set next.) *)
Definition copy_64 (mtname : list Z) : M ker (list Z) :=
  if (length mtname <? 64)%nat then mret mtname else fail OutOfBounds.

Definition class_flags (dev : dev_name) : Z :=
  let f := Z.land (drv_flags dev) (Z.lor DV_FBLCKDEV DV_FCHARDEV) in
  if f =? DV_FBLCKDEV then VN_FBLOCKDEV
  else if f =? DV_FCHARDEV then VN_FCHARDEV else 0.

Definition device_install (dev : dev_name) (mtname : list Z) : M ker Z :=
  taken ← devfs_finddir 0 mtname;
  if negb (taken =? 0) then mret (-2) else
  node ← new (fun _ => ONode (Node [] 0 0 0 0));
  if node =? 0 then mret (-1) else
  name ← copy_64 mtname;
  root ← deref as_node devfs_rootdir;
  _ ← put node (ONode (Node name (class_flags dev) devfs_rootdir (vn_volume root) (dev_ptr dev)));
  l ← gets devmgr_list;
  _ ← Lists.list_append l node;
  mret 0.

Definition device_remove (mtname : list Z) : M ker unit :=
  node ← devfs_finddir 0 mtname;
  if node =? 0 then mret tt else
  l ← gets devmgr_list;
  _ ← Lists.list_delete l node;
  free_obj node.

Definition devfs_mount (vol : Z) : M ker Z :=
  root ← deref as_node devfs_rootdir;
  if negb (vn_volume root =? 0) then mret (-1) else
  _ ← put devfs_rootdir
        (ONode (Node (vn_name root) (vn_flags root) (vn_parent root) vol (vn_payload root)));
  v ← deref as_volume vol;
  _ ← put vol (OVolume (Volume (vv_name v) (vv_family v) devfs_rootdir (vv_payload v)));
  mret 0.

Definition devfs_readdir (node index : Z) : M ker Z :=
  l ← gets devmgr_list;
  nodes ← deref as_list l;
  mret (if index <? Z.of_nat (length nodes) then nth (Z.to_nat index) nodes 0 else 0).

Section devfs.
Context `{Devices}.

(** [node->vn_payload], [None] for NULL. *)
Definition payload_dev (node : Z) : M ker (option dev_name) :=
  n ← deref as_node node;
  if vn_payload n =? 0 then mret None else
  d ← deref as_device (vn_payload n);
  mret (Some d).

Definition devfs_open (node flags : Z) : M ker Z :=
  dev ← payload_dev node;
  match dev ≫= (fun d => dev_open (device_of d)) with
  | Some f => f flags
  | None => mret (-1)
  end.

(** A character device is read without the offset, a block device with it; a
    device without the function for its class answers -1. *)
Definition devfs_read (node offt buf len : Z) : M ker Z :=
  dev ← payload_dev node;
  match dev with
  | None => mret MINUS1
  | Some d =>
      let flags := drv_flags d in
      let chr := if negb (Z.land flags DV_FCHARDEV =? 0)
                 then (fun f => f buf len) <$> dev_read_chr (device_of d) else None in
      let blk := if negb (Z.land flags DV_FBLCKDEV =? 0)
                 then (fun f => f buf offt len) <$> dev_read_blk (device_of d) else None in
      match chr, blk with
      | Some m, _ => m
      | None, Some m => m
      | None, None => mret MINUS1
      end
  end.

Definition devfs_write (node offt buf len : Z) : M ker Z :=
  dev ← payload_dev node;
  match dev with
  | None => mret MINUS1
  | Some d =>
      let flags := drv_flags d in
      let chr := if negb (Z.land flags DV_FCHARDEV =? 0)
                 then (fun f => f buf len) <$> dev_write_chr (device_of d) else None in
      let blk := if negb (Z.land flags DV_FBLCKDEV =? 0)
                 then (fun f => f buf offt len) <$> dev_write_blk (device_of d) else None in
      match chr, blk with
      | Some m, _ => m
      | None, Some m => m
      | None, None => mret MINUS1
      end
  end.

Definition devfs_ioctl (node iorq args : Z) : M ker Z :=
  dev ← payload_dev node;
  match dev ≫= (fun d => dev_ioctl (device_of d)) with
  | Some f => f iorq args
  | None => mret (-1)
  end.

Definition devfs_close (node : Z) : M ker Z :=
  dev ← payload_dev node;
  match dev ≫= (fun d => dev_close (device_of d)) with
  | Some f => f
  | None => mret (-1)
  end.

Definition devfs_ops : vfs_ops :=
  VfsOps (Some devfs_open) (Some devfs_read) (Some devfs_write) (Some devfs_ioctl)
    (Some devfs_close) (Some devfs_readdir) (Some devfs_finddir).
Definition devfs : vfs_filesys := Filesys (chars_of "devfs") None devfs_mount devfs_ops.

End devfs.

(** The driver manager's view of the drivers: [driver_t] by name. *)
Inductive driver_name : Set :=
  | null_driver | keyboard_driver | pctimer_driver | clock_driver
  | uart8250_driver | vgafb_driver | vtcon_driver.
Class Drivers := drv_init : driver_name -> M ker Z.

(** The loop over the driver descriptors that the linker collected. *)
Fixpoint init_drivers `{Drivers} (drivers : list driver_name) : M ker unit :=
  match drivers with
  | [] => mret tt
  | d :: rest => _ ← drv_init d; init_drivers rest
  end.

Definition device_init `{FsDrivers} `{Drivers} (drivers : list driver_name) : M ker unit :=
  l ← Lists.list_alloc;
  _ ← modify (set_devmgr_list l);
  _ ← Mounts.vfs_mount (chars_of "devfs") (chars_of "DEV") 0;
  init_drivers drivers.

End Impl.

(** The drivers register their devices here. *)
#[export] Instance kernel_devices : DeviceManager ker := {
  below := @low;
  device_install := Impl.device_install;
  device_remove := Impl.device_remove
}.

(** ** The kernel's own device tables *)
Module Table.
Import Impl.

Section table.
Context `{Allocator} (fuel : nat) (uninit : rtclock) (stray : nat -> Z) (vtcon : device).

(** The [device_t] structures of the drivers. *)
Definition null_dev : device :=
  Dev (Some (fun f => low (kern (Chardev.Null.null_dev_open f)))) None None
    (Some (fun b l => low (kern (Chardev.Null.null_dev_read b l))))
    (Some (fun b l => low (kern (Chardev.Null.null_dev_write b l))))
    None (Some (low (kern Chardev.Null.null_dev_close))).
Definition zero_dev : device :=
  Dev (Some (fun f => low (kern (Chardev.Null.null_dev_open f)))) None None
    (Some (fun b l => low (kern (Chardev.Null.zero_dev_read b l))))
    (Some (fun b l => low (kern (Chardev.Null.null_dev_write b l))))
    None (Some (low (kern Chardev.Null.null_dev_close))).
Definition keyboard_dev : device :=
  Dev (Some (fun f => low (Chardev.Kbd.keyboard_open f))) None None
    (Some (fun b l => low (Chardev.Kbd.keyboard_read fuel b l))) None
    None (Some (low Chardev.Kbd.keyboard_close)).
Definition pctimer_dev : device :=
  Dev (Some (fun f => low (Chardev.Pctimer.pctimer_open f))) None None
    (Some (fun b l => low (Chardev.Pctimer.pctimer_read b l))) None
    None (Some (low Chardev.Pctimer.pctimer_close)).
Definition clock_dev : device :=
  Dev (Some (fun f => low (Rtclock.Impl.clock_open f))) None None
    (Some (fun b l => low (Rtclock.Impl.clock_read fuel uninit stray b l))) None
    None (Some (low Rtclock.Impl.clock_close)).
Definition uart8250_dev : device :=
  Dev (Some (fun f => low (Chardev.Uart.uart8250_open f))) None None
    (Some (fun b l => low (Chardev.Uart.uart8250_read fuel b l)))
    (Some (fun b l => low (Chardev.Uart.uart8250_write b l)))
    None (Some (low Chardev.Uart.uart8250_close)).
Definition vgafb_dev : device :=
  Dev (Some (fun f => low (Vgafb.Impl.vgafb_open f)))
    (Some (fun b o l => low (Vgafb.Impl.vgafb_read b o l)))
    (Some (fun b o l => low (Vgafb.Impl.vgafb_write b o l))) None None
    (Some (fun q a => low (Vgafb.Impl.vgafb_ioctl q a)))
    (Some (low Vgafb.Impl.vgafb_close)).

Definition devices : Devices := fun d =>
  match d with
  | null_device => null_dev
  | zero_device => zero_dev
  | keyboard_device => keyboard_dev
  | pctimer_device => pctimer_dev
  | clock_device => clock_dev
  | uart8250_device => uart8250_dev
  | vgafb_device => vgafb_dev
  | vtcon_device => vtcon
  end.

(** [drv_init] of the drivers; the console's is an argument as well. *)
Definition drivers (vtcon_init : M ker Z) : Drivers := fun d =>
  match d with
  | null_driver => Chardev.Null.null_init
  | keyboard_driver => Chardev.Kbd.keyboard_init
  | pctimer_driver => Chardev.Pctimer.pctimer_init
  | clock_driver => Rtclock.Impl.clock_init
  | uart8250_driver => Chardev.Uart.uart8250_init
  | vgafb_driver => Vgafb.Impl.vgafb_init
  | vtcon_driver => vtcon_init
  end.

End table.
End Table.
