(* ===== verification/Tarfs.v ===== *)
(** * The TAR file system (kernel/fs/tarfs/tar.c, tar.h)

    A mounted archive is a sequence of 512-byte blocks in memory: the header
    of a file, then its data.  [Module Impl] is the code: the walk over the
    headers, the rebuilding of the directory tree from the path names, and
    the hooks of the file system.  Headers are read from (and their names cut
    in) the byte memory of Mem.v; the nodes are objects of Objects.v. *)
From S2P Require Import Prelude Mem Idt Device Objects Vfs.
From S2P Require CString.
From stdpp Require Import strings.
Local Open Scope Z_scope.
Import CString.Pure.

(** ** The C code *)
Module Impl.

(** [tar_metadata_t], [tar_header_block_t] *)
Definition t_name : Z := 0.
Definition t_size : Z := 124.
Definition t_type : Z := 156.
Definition sizeof_block : Z := 512.

(** [octal2int]: no check that the characters are octal digits. *)
Fixpoint octal2int (fuel : nat) (octstring acc : Z) : M ker Z :=
  match fuel with
  | O => fail Diverges
  | S fuel' =>
      c ← ldb octstring;
      if c =? 0 then mret acc
      else octal2int fuel' (octstring + 1) (u32 (acc * 8 + (s8 c - 48)))
  end.

(** The characters of the string at [p], up to its NUL. *)
Fixpoint c_string (fuel : nat) (p : Z) : M ker (list Z) :=
  match fuel with
  | O => fail Diverges
  | S fuel' =>
      c ← ldb p;
      if c =? 0 then mret [] else
      cs ← c_string fuel' (p + 1);
      mret (c :: cs)
  end.

Definition decode_block (tar block : Z) : M ker Z :=
  tnode ← new (fun _ => OTarNode (TarNode 0 block));
  if tnode =? 0 then mret (-1) else
  t ← deref as_payload tar;
  _ ← Lists.list_append (tp_nodes t) tnode;
  mret 0.

(** [split_basename]: directory and file name around the last slash. *)
Definition split_basename (path : list Z) : list Z * list Z :=
  match rindex 47 path with
  | Some i => (take i path, drop (S i) path)
  | None => ([], path)
  end.

(** How many characters "./" and "/" in front take up, and what is left without
    a slash at the end. *)
Definition skip_dot (p : list Z) : nat :=
  match p with 46 :: 47 :: _ => 1 | _ => 0 end.
Definition skip_slash (p : list Z) : nat :=
  match p with 47 :: _ => 1 | _ => 0 end.
Definition skip_front (p : list Z) : nat :=
  let d := skip_dot p in (d + skip_slash (drop d p))%nat.
Definition ends_slash (p : list Z) : bool := bool_decide (last p = Some 47).
Definition cut_slash (p : list Z) : list Z :=
  if ends_slash p then take (length p - 1) p else p.

(** The loop of [lookup_vnode]; [reassemble] is the call that may follow a
    match.  The trailing slash is cut off the name in the archive itself. *)
Fixpoint lookup_loop (fuel : nat) (reassemble : Z -> M ker unit) (nodes : list Z)
    (path : list Z) : M ker Z :=
  match nodes with
  | [] => mret 0
  | p :: nodes' =>
      tarnode ← deref as_tarnode p;
      let name := tn_block tarnode + t_name in
      full ← c_string fuel name;
      let k := skip_front full in
      let kiwi := drop k full in
      _ ← mwhen (ends_slash kiwi) (stb (name + Z.of_nat (length full) - 1) 0);
      if cmpn 256 (cut_slash kiwi) path =? 0 then
        _ ← reassemble p;
        t ← deref as_tarnode p;
        mret (tn_node t)
      else lookup_loop fuel reassemble nodes' path
  end.

(** [vnode->vn_parent = ...] and the root of the archive, for the entry whose
    normalised path is [path]: the node's name and parent. *)
Definition place_node (fuel : nat) (reassemble : Z -> M ker unit) (tarfile vnode : Z)
    (path : list Z) : M ker (list Z * Z) :=
  junk ← gets (fun s => o_junk_name s vnode);
  if decide (path = []) then
    t ← deref as_payload tarfile;
    _ ← mwhen (tp_root t =? 0)
          (put tarfile (OTarPayload (TarPayload (tp_buf t) (tp_nodes t) (tp_volume t) vnode)));
    mret (junk, 0)
  else
    let '(dirname, basename) := split_basename path in
    name ← Mounts.copy_name junk (Some basename);
    t ← deref as_payload tarfile;
    nodes ← deref as_list (tp_nodes t);
    parent ← lookup_loop fuel reassemble nodes dirname;
    mret (name, parent).

Definition type_flags (type : Z) : Z :=
  if type =? 48 then VN_FREGFILE else if type =? 53 then VN_FDIR else 0.

(** [reassemble_nodes]; [depth] bounds the recursion through the directories
    on an entry's path. *)
Fixpoint reassemble_nodes (depth fuel : nat) (tarfile node : Z) : M ker unit :=
  match depth with
  | O => fail Diverges
  | S depth' =>
      tn ← deref as_tarnode node;
      if negb (tn_node tn =? 0) then mret tt else
      full ← c_string fuel (tn_block tn + t_name);
      copy ← dup full;
      match copy with
      | None => fail NullDeref
      | Some orig =>
          let path := cut_slash (drop (skip_front orig) orig) in
          vnode ← new (fun _ => ONode (Node [] 0 0 0 0));
          if vnode =? 0 then fail NullDeref else
          place ← place_node fuel (reassemble_nodes depth' fuel tarfile) tarfile vnode path;
          type ← ldb (tn_block tn + t_type);
          t ← deref as_payload tarfile;
          _ ← put vnode (ONode (Node place.1 (type_flags type) place.2 (tp_volume t) node));
          put node (OTarNode (TarNode vnode (tn_block tn)))
      end
  end.

(** The [while] of [init_nodes] over the headers, from block number [bx]. *)
Fixpoint scan_blocks (fuel : nat) (tar buf bx : Z) : M ker unit :=
  match fuel with
  | O => fail Diverges
  | S fuel' =>
      let block := u32 (buf + sizeof_block * bx) in
      c ← ldb (block + t_name);
      if c =? 0 then mret tt else
      _ ← decode_block tar block;
      file_length ← octal2int fuel (block + t_size) 0;
      let bx1 := bx +w (file_length / 512 + 1) in
      scan_blocks fuel' tar buf (if file_length mod 512 =? 0 then bx1 else bx1 +w 1)
  end.

Fixpoint reassemble_all (depth fuel : nat) (tar : Z) (nodes : list Z) : M ker unit :=
  match nodes with
  | [] => mret tt
  | p :: nodes' =>
      _ ← reassemble_nodes depth fuel tar p;
      reassemble_all depth fuel tar nodes'
  end.

Definition init_nodes (depth fuel : nat) (tar : Z) : M ker unit :=
  t ← deref as_payload tar;
  _ ← scan_blocks fuel tar (tp_buf t) 0;
  nodes ← deref as_list (tp_nodes t);
  reassemble_all depth fuel tar nodes.

Definition tarfs_mount (depth fuel : nat) (luna : Z) : M ker Z :=
  v ← deref as_volume luna;
  payload ← new (fun p => OTarPayload (TarPayload (vv_payload v) 0 luna 0));
  if payload =? 0 then mret (-1) else
  junk ← gets (fun s => o_junk_word s payload);
  nodes ← Lists.list_alloc;
  _ ← put payload (OTarPayload (TarPayload (vv_payload v) nodes luna junk));
  _ ← init_nodes depth fuel payload;
  t ← deref as_payload payload;
  w ← deref as_volume luna;
  _ ← put luna (OVolume (Volume (vv_name w) (vv_family w) (tp_root t) payload));
  mret 0.

Definition tarfs_open (node flags : Z) : M ker Z := mret 0.
Definition tarfs_close (node : Z) : M ker Z := mret 0.
(** Not in the operations' table. *)
Definition tarfs_write (node offt buf len : Z) : M ker Z := mret MINUS1.

(** [while (len > 0 && offt < size) dst[read++] = data[offt++];] *)
Fixpoint read_loop (len : nat) (dst data offt size read : Z) : M ker Z :=
  match len with
  | O => mret read
  | S len' =>
      if negb (offt <? size) then mret read else
      b ← ldb (data + offt);
      _ ← stb (dst + read) b;
      read_loop len' dst data (offt +w 1) size (read +w 1)
  end.

Definition tarfs_read (fuel : nat) (node offt buf len : Z) : M ker Z :=
  n ← deref as_node node;
  tar ← deref as_tarnode (vn_payload n);
  size ← octal2int fuel (tn_block tar + t_size) 0;
  read_loop (Z.to_nat len) buf (tn_block tar + 512) offt size 0.

(** The archive of the volume that [node] is on. *)
Definition nodes_of (node : Z) : M ker (list Z) :=
  n ← deref as_node node;
  v ← deref as_volume (vn_volume n);
  t ← deref as_payload (vv_payload v);
  deref as_list (tp_nodes t).

Fixpoint readdir_loop (nodes : list Z) (dir : Z) (index : nat) : M ker Z :=
  match nodes with
  | [] => mret 0
  | p :: nodes' =>
      kiwi ← deref as_tarnode p;
      n ← deref as_node (tn_node kiwi);
      if vn_parent n =? dir then
        match index with
        | O => mret (tn_node kiwi)
        | S index' => readdir_loop nodes' dir index'
        end
      else readdir_loop nodes' dir index
  end.
Definition tarfs_readdir (node index : Z) : M ker Z :=
  nodes ← nodes_of node;
  readdir_loop nodes node (Z.to_nat index).

Fixpoint finddir_loop (nodes : list Z) (dir : Z) (name : list Z) : M ker Z :=
  match nodes with
  | [] => mret 0
  | p :: nodes' =>
      tarnode ← deref as_tarnode p;
      n ← deref as_node (tn_node tarnode);
      if (vn_parent n =? dir) && (cmp name (vn_name n) =? 0) then mret (tn_node tarnode)
      else finddir_loop nodes' dir name
  end.
Definition tarfs_finddir (node : Z) (name : list Z) : M ker Z :=
  nodes ← nodes_of node;
  finddir_loop nodes node name.

Definition tarfs_ops (fuel : nat) : vfs_ops :=
  VfsOps (Some tarfs_open) (Some (tarfs_read fuel)) None None (Some tarfs_close)
    (Some tarfs_readdir) (Some tarfs_finddir).
Definition tarfs (depth fuel : nat) : vfs_filesys :=
  Filesys (chars_of "tarfs") None (tarfs_mount depth fuel) (tarfs_ops fuel).

End Impl.
