(* ===== verification/Scancodes.v ===== *)
(** * Scancodes (kernel/device/vtcon/scancodes.h)

    The virtual keys and the table of the US layout: a row for each scancode,
    in it a column for each state of the Shift (1), Control (2) and Alt (4)
    keys. *)
From S2P Require Import Prelude.
From stdpp Require Import strings.
From Stdlib Require Import Ascii.
Local Open Scope Z_scope.

Definition VK_NUL : Z := 0.
Definition VK_SOH : Z := 1.
Definition VK_STX : Z := 2.
Definition VK_ETX : Z := 3.
Definition VK_EOT : Z := 4.
Definition VK_ENQ : Z := 5.
Definition VK_ACK : Z := 6.
Definition VK_BEL : Z := 7.
Definition VK_BS : Z := 8.
Definition VK_HT : Z := 9.
Definition VK_LF : Z := 10.
Definition VK_VT : Z := 11.
Definition VK_FF : Z := 12.
Definition VK_CR : Z := 13.
Definition VK_SO : Z := 14.
Definition VK_SI : Z := 15.
Definition VK_DLE : Z := 16.
Definition VK_DC1 : Z := 17.
Definition VK_DC2 : Z := 18.
Definition VK_DC3 : Z := 19.
Definition VK_DC4 : Z := 20.
Definition VK_NAK : Z := 21.
Definition VK_SYN : Z := 22.
Definition VK_ETB : Z := 23.
Definition VK_CAN : Z := 24.
Definition VK_EM : Z := 25.
Definition VK_SUB : Z := 26.
Definition VK_ESC : Z := 27.
Definition VK_FS : Z := 28.
Definition VK_GS : Z := 29.
Definition VK_RS : Z := 30.
Definition VK_US : Z := 31.
Definition VK_SP : Z := 32.
Definition VK_DEL : Z := 127.
Definition VK_CUP : Z := 224.
Definition VK_CLFT : Z := 225.
Definition VK_CRGT : Z := 226.
Definition VK_CDWN : Z := 227.
Definition VK_PGUP : Z := 228.
Definition VK_PGDN : Z := 229.
Definition VK_INSERT : Z := 230.
Definition VK_HOME : Z := 231.
Definition VK_END : Z := 232.
Definition VK_LCTL : Z := 233.
Definition VK_RCTL : Z := 234.
Definition VK_LSHF : Z := 235.
Definition VK_RSHF : Z := 236.
Definition VK_LALT : Z := 237.
Definition VK_RALT : Z := 238.
Definition VK_CAPL : Z := 239.
Definition VK_NUML : Z := 240.
Definition VK_SCRL : Z := 241.
Definition VK_BTAB : Z := 242.
Definition VK_F1 : Z := 243.
Definition VK_F2 : Z := 244.
Definition VK_F3 : Z := 245.
Definition VK_F4 : Z := 246.
Definition VK_F5 : Z := 247.
Definition VK_F6 : Z := 248.
Definition VK_F7 : Z := 249.
Definition VK_F8 : Z := 250.
Definition VK_F9 : Z := 251.
Definition VK_F10 : Z := 252.
Definition VK_F11 : Z := 253.
Definition VK_F12 : Z := 254.

(** A character of the source. *)
Definition chr (a : Ascii.ascii) : Z := Z.of_N (Ascii.N_of_ascii a).
Arguments chr _%_char.

(** [kbdev_t] *)
Record kbdev := Kbdev { kd_vk : Z; kd_flags : Z }.

Definition us_scancodes_1 : list (list Z) := [
  [VK_NUL; VK_NUL; VK_NUL; VK_NUL; VK_NUL; VK_NUL; VK_NUL; VK_NUL];
  [VK_ESC; VK_ESC; VK_ESC; VK_ESC; VK_ESC; VK_ESC; VK_ESC; VK_ESC];
  [chr "1"; chr "!"; VK_NUL; VK_NUL; chr "1"; chr "!"; VK_NUL; VK_NUL];
  [chr "2"; chr "@"; VK_NUL; VK_NUL; chr "1"; chr "@"; VK_NUL; VK_NUL];
  [chr "3"; chr "#"; VK_NUL; VK_NUL; chr "1"; chr "#"; VK_NUL; VK_NUL];
  [chr "4"; chr "$"; VK_NUL; VK_NUL; chr "1"; chr "$"; VK_NUL; VK_NUL];
  [chr "5"; chr "%"; VK_NUL; VK_NUL; chr "1"; chr "%"; VK_NUL; VK_NUL];
  [chr "6"; chr "^"; VK_NUL; VK_NUL; chr "1"; chr "^"; VK_NUL; VK_NUL];
  [chr "7"; chr "&"; VK_NUL; VK_NUL; chr "1"; chr "&"; VK_NUL; VK_NUL];
  [chr "8"; chr "*"; VK_NUL; VK_NUL; chr "1"; chr "*"; VK_NUL; VK_NUL];
  [chr "9"; chr "("; VK_NUL; VK_NUL; chr "1"; chr "("; VK_NUL; VK_NUL];
  [chr "0"; chr ")"; VK_NUL; VK_NUL; chr "1"; chr ")"; VK_NUL; VK_NUL];
  [chr "-"; chr "_"; VK_US; VK_US; chr "-"; chr "_"; VK_US; VK_US];
  [chr "="; chr "+"; VK_NUL; VK_NUL; chr "="; chr "+"; VK_NUL; VK_NUL];
  [VK_BS; VK_BS; VK_DEL; VK_DEL; VK_BS; VK_BS; VK_DEL; VK_DEL];
  [VK_HT; VK_BTAB; VK_NUL; VK_NUL; VK_VT; VK_BTAB; VK_NUL; VK_NUL];
  [chr "q"; chr "Q"; VK_DC1; VK_DC1; chr "q"; chr "Q"; VK_DC1; VK_DC1];
  [chr "w"; chr "W"; VK_ETB; VK_ETB; chr "w"; chr "W"; VK_ETB; VK_ETB];
  [chr "e"; chr "E"; VK_ENQ; VK_ENQ; chr "e"; chr "E"; VK_ENQ; VK_ENQ];
  [chr "r"; chr "R"; VK_DC2; VK_DC2; chr "r"; chr "R"; VK_DC2; VK_DC2];
  [chr "t"; chr "T"; VK_DC4; VK_DC4; chr "t"; chr "T"; VK_DC4; VK_DC4];
  [chr "y"; chr "Y"; VK_EM; VK_EM; chr "y"; chr "Y"; VK_EM; VK_EM];
  [chr "u"; chr "U"; VK_NAK; VK_NAK; chr "u"; chr "U"; VK_NAK; VK_NAK];
  [chr "i"; chr "I"; VK_HT; VK_HT; chr "i"; chr "I"; VK_HT; VK_HT];
  [chr "o"; chr "O"; VK_SI; VK_SI; chr "o"; chr "O"; VK_SI; VK_SI];
  [chr "p"; chr "P"; VK_DLE; VK_DLE; chr "p"; chr "P"; VK_DLE; VK_DLE];
  [chr "["; chr "{"; VK_ESC; VK_ESC; chr "["; chr "{"; VK_ESC; VK_ESC];
  [chr "]"; chr "}"; VK_GS; VK_GS; chr "]"; chr "}"; VK_GS; VK_GS];
  [VK_LF; VK_LF; VK_CR; VK_CR; VK_LF; VK_LF; VK_CR; VK_CR];
  [VK_LCTL; VK_LCTL; VK_LCTL; VK_LCTL; VK_LCTL; VK_LCTL; VK_LCTL; VK_LCTL];
  [chr "a"; chr "A"; VK_SOH; VK_SOH; chr "a"; chr "A"; VK_SOH; VK_SOH];
  [chr "s"; chr "S"; VK_DC3; VK_DC3; chr "s"; chr "S"; VK_DC3; VK_DC3];
  [chr "d"; chr "D"; VK_EOT; VK_EOT; chr "d"; chr "D"; VK_EOT; VK_EOT];
  [chr "f"; chr "F"; VK_ACK; VK_ACK; chr "f"; chr "F"; VK_ACK; VK_ACK];
  [chr "g"; chr "G"; VK_BEL; VK_BEL; chr "g"; chr "G"; VK_BEL; VK_BEL];
  [chr "h"; chr "H"; VK_BS; VK_BS; chr "h"; chr "H"; VK_BS; VK_BS];
  [chr "j"; chr "J"; VK_LF; VK_LF; chr "j"; chr "J"; VK_LF; VK_LF];
  [chr "k"; chr "K"; VK_VT; VK_VT; chr "k"; chr "K"; VK_VT; VK_VT];
  [chr "l"; chr "L"; VK_FF; VK_FF; chr "l"; chr "L"; VK_FF; VK_FF];
  [chr ";"; chr ":"; VK_NUL; VK_NUL; chr ";"; chr ":"; VK_NUL; VK_NUL];
  [chr "'"; 34; VK_NUL; VK_NUL; chr "'"; 34; VK_NUL; VK_NUL];
  [chr "`"; chr "~"; VK_NUL; VK_NUL; chr "`"; chr "~"; VK_NUL; VK_NUL];
  [VK_LSHF; VK_LSHF; VK_LSHF; VK_LSHF; VK_LSHF; VK_LSHF; VK_LSHF; VK_LSHF];
  [chr "\"; chr "|"; VK_FS; VK_FS; chr "\"; chr "|"; VK_FS; VK_FS];
  [chr "z"; chr "Z"; VK_SUB; VK_SUB; chr "z"; chr "Z"; VK_SUB; VK_SUB];
  [chr "x"; chr "X"; VK_CAN; VK_CAN; chr "x"; chr "X"; VK_CAN; VK_CAN];
  [chr "c"; chr "C"; VK_ETX; VK_ETX; chr "c"; chr "C"; VK_ETX; VK_ETX];
  [chr "v"; chr "V"; VK_SYN; VK_SYN; chr "v"; chr "V"; VK_SYN; VK_SYN];
  [chr "b"; chr "B"; VK_STX; VK_STX; chr "b"; chr "B"; VK_STX; VK_STX];
  [chr "n"; chr "N"; VK_SO; VK_SO; chr "n"; chr "N"; VK_SO; VK_SO];
  [chr "m"; chr "M"; VK_CR; VK_CR; chr "m"; chr "M"; VK_CR; VK_CR];
  [chr ","; chr "<"; VK_NUL; VK_NUL; chr ","; chr "<"; VK_NUL; VK_NUL];
  [chr "."; chr ">"; VK_NUL; VK_NUL; chr "."; chr ">"; VK_NUL; VK_NUL];
  [chr "/"; chr "?"; VK_NUL; VK_NUL; chr "/"; chr "?"; VK_NUL; VK_NUL];
  [VK_RSHF; VK_RSHF; VK_RSHF; VK_RSHF; VK_RSHF; VK_RSHF; VK_RSHF; VK_RSHF];
  [chr "*"; chr "*"; chr "*"; chr "*"; chr "*"; chr "*"; chr "*"; chr "*"];
  [VK_LALT; VK_LALT; VK_LALT; VK_LALT; VK_LALT; VK_LALT; VK_LALT; VK_LALT];
  [chr " "; chr " "; VK_NUL; chr " "; chr " "; chr " "; VK_NUL; chr " "];
  [VK_CAPL; VK_CAPL; VK_CAPL; VK_CAPL; VK_CAPL; VK_CAPL; VK_CAPL; VK_CAPL];
  [VK_F1; VK_F1; VK_F1; VK_F1; VK_F1; VK_F1; VK_F1; VK_F1];
  [VK_F2; VK_F2; VK_F2; VK_F2; VK_F2; VK_F2; VK_F2; VK_F2];
  [VK_F3; VK_F3; VK_F3; VK_F3; VK_F3; VK_F3; VK_F3; VK_F3];
  [VK_F4; VK_F4; VK_F4; VK_F4; VK_F4; VK_F4; VK_F4; VK_F4];
  [VK_F5; VK_F5; VK_F5; VK_F5; VK_F5; VK_F5; VK_F5; VK_F5];
  [VK_F6; VK_F6; VK_F6; VK_F6; VK_F6; VK_F6; VK_F6; VK_F6];
  [VK_F7; VK_F7; VK_F7; VK_F7; VK_F7; VK_F7; VK_F7; VK_F7];
  [VK_F8; VK_F8; VK_F8; VK_F8; VK_F8; VK_F8; VK_F8; VK_F8];
  [VK_F9; VK_F9; VK_F9; VK_F9; VK_F9; VK_F9; VK_F9; VK_F9];
  [VK_F10; VK_F10; VK_F10; VK_F10; VK_F10; VK_F10; VK_F10; VK_F10];
  [VK_NUML; VK_NUML; VK_NUML; VK_NUML; VK_NUML; VK_NUML; VK_NUML; VK_NUML];
  [VK_SCRL; VK_SCRL; VK_SCRL; VK_SCRL; VK_SCRL; VK_SCRL; VK_SCRL; VK_SCRL];
  [chr "7"; chr "7"; chr "7"; chr "7"; chr "7"; chr "7"; chr "7"; chr "7"];
  [chr "8"; chr "8"; chr "8"; chr "8"; chr "8"; chr "8"; chr "8"; chr "8"];
  [chr "9"; chr "9"; chr "9"; chr "9"; chr "9"; chr "9"; chr "9"; chr "9"];
  [chr "-"; chr "-"; chr "-"; chr "-"; chr "-"; chr "-"; chr "-"; chr "-"];
  [chr "4"; chr "4"; chr "4"; chr "4"; chr "4"; chr "4"; chr "4"; chr "4"];
  [chr "5"; chr "5"; chr "5"; chr "5"; chr "5"; chr "5"; chr "5"; chr "5"];
  [chr "6"; chr "6"; chr "6"; chr "6"; chr "6"; chr "6"; chr "6"; chr "6"];
  [chr "+"; chr "+"; chr "+"; chr "+"; chr "+"; chr "+"; chr "+"; chr "+"];
  [chr "1"; chr "1"; chr "1"; chr "1"; chr "1"; chr "1"; chr "1"; chr "1"];
  [chr "2"; chr "2"; chr "2"; chr "2"; chr "2"; chr "2"; chr "2"; chr "2"];
  [chr "3"; chr "3"; chr "3"; chr "3"; chr "3"; chr "3"; chr "3"; chr "3"];
  [chr "0"; chr "0"; chr "0"; chr "0"; chr "0"; chr "0"; chr "0"; chr "0"];
  [chr "."; chr "."; chr "."; chr "."; chr "."; chr "."; chr "."; chr "."];
  [VK_NUL; VK_NUL; VK_NUL; VK_NUL; VK_NUL; VK_NUL; VK_NUL; VK_NUL];
  [VK_NUL; VK_NUL; VK_NUL; VK_NUL; VK_NUL; VK_NUL; VK_NUL; VK_NUL];
  [VK_NUL; VK_NUL; VK_NUL; VK_NUL; VK_NUL; VK_NUL; VK_NUL; VK_NUL];
  [VK_F11; VK_NUL; VK_NUL; VK_NUL; VK_NUL; VK_NUL; VK_NUL; VK_NUL];
  [VK_F12; VK_NUL; VK_NUL; VK_NUL; VK_NUL; VK_NUL; VK_NUL; VK_NUL];
  [0; 0; 0; 0; 0; 0; 0; 0]
].
