(* ===== verification/Vtcon.v ===== *)
(** * The virtual console (kernel/device/vtcon/vtcon.c)

    A character device that turns bytes into entries of the VGA framebuffer,
    keeps eight contexts (screens) with their cursors, draws the status bar,
    and turns the keyboard's scancodes into virtual keys.  It works on the
    framebuffer, the keyboard and the clock through the VFS.  The statics are
    [o_vt] of Objects.v; the contexts' screen buffers and the local arrays
    whose addresses are handed out are in memory ([frame]). *)
From S2P Require Import Prelude Mem Idt Device Objects Vfs Devfs Scancodes.
From S2P Require CString Vgafb.
From stdpp Require Import strings.
From Stdlib Require Import Ascii.
Local Open Scope Z_scope.

(** ** The C code *)
Module Impl.

Definition VGA_COLS : Z := 80.
Definition VGA_ROWS : Z := 25.
Definition VGA_ENTRY (char fg bg : Z) : Z :=
  Z.lor (Z.lor char (Z.shiftl fg 8)) (Z.shiftl bg 12).

Definition KBD_MOD_SHIFT : Z := 0x01.
Definition KBD_MOD_CTRL : Z := 0x02.
Definition KBD_MOD_ALT : Z := 0x04.
Definition KBD_MOD_META : Z := 0x08.
Definition KBD_CAP_UP : Z := 0x10.
Definition KBD_LOCK_CAPS : Z := 0x100.
Definition KBD_MODS : Z := Z.lor (Z.lor KBD_MOD_SHIFT KBD_MOD_CTRL) KBD_MOD_ALT.

(** Addresses: the array [contexts] and the arrays on the stack. *)
Record frame := Frame {
  f_contexts : Z; f_date : Z; f_row : Z; f_entry : Z; f_abspos : Z; f_copy : Z; f_kbd : Z
}.

(** *** The context *)

Definition ctx0 : vtcontext := VtContext 0 0 0 0 0.
Definition ctx_of (v : vtstate) : vtcontext := nth (current_context v) (contexts v) ctx0.
Definition context : M ker vtcontext := gets (fun s => ctx_of (o_vt s)).
Definition mod_vt (f : vtstate -> vtstate) : M ker unit :=
  modify (fun s => set_vt (f (o_vt s)) s).
Definition mod_context (f : vtcontext -> vtcontext) : M ker unit :=
  mod_vt (fun v => VtState (con_fb v) (con_kbd v) (vt_clock v)
    (alter f (current_context v) (contexts v)) (current_context v)).

Definition set_cx (x : Z) (c : vtcontext) : vtcontext :=
  VtContext x (cy c) (fg c) (bg c) (kbd_status c).
Definition set_cy (y : Z) (c : vtcontext) : vtcontext :=
  VtContext (cx c) y (fg c) (bg c) (kbd_status c).
Definition set_status (k : Z) (c : vtcontext) : vtcontext :=
  VtContext (cx c) (cy c) (fg c) (bg c) k.

Definition stw (a v : Z) : M ker unit :=
  _ ← stb a v;
  stb (a + 1) (v / 256).
Fixpoint store_entries (a : Z) (es : list Z) : M ker unit :=
  match es with
  | [] => mret tt
  | e :: es' => _ ← stw a e; store_entries (a + 2) es'
  end.
Fixpoint load_chars (a : Z) (n : nat) : M ker (list Z) :=
  match n with
  | O => mret []
  | S n' => c ← ldb a; cs ← load_chars (a + 1) n'; mret (c :: cs)
  end.

Section vtcon.
Context `{FsDrivers} (F : frame) (VERSION_NAME : list Z).

Definition fb : M ker Z := gets (fun s => con_fb (o_vt s)).

(** *** The status bar *)

(** [text] after [memset], the context's digit and [strncpy]. *)
Definition status_text (current : nat) : list Z :=
  let version := CString.Pure.strncpy_bytes 70 VERSION_NAME in
  [0; 49 + Z.of_nat current; 0; 0] ++ version ++ replicate (76 - length version) 0.

(** An element of [char text[]] or [char date[]], sign-extended. *)
Definition entry_of (c fg bg : Z) : Z := u16 (VGA_ENTRY (s8 c) fg bg).

(** The first loop, over [VGA_COLS] columns. *)
Definition text_entries (text : list Z) : list Z :=
  imap (fun i c =>
    let fg := if (i <? 3)%nat then 0x1 else 0x7 in
    let bg := if fg =? 0x7 then 0x1 else 0x7 in
    entry_of c fg bg) text.

(** The 21 assignments behind it. *)
Definition date_entries (date : list Z) : list Z :=
  let d i := nth i date 0 in
  (fun c => entry_of c 0x1 0x7) <$>
    [32; d 0%nat; d 1%nat; d 2%nat; d 3%nat; 47; d 4%nat; d 5%nat; 47; d 6%nat; d 7%nat; 32;
     d 8%nat; d 9%nat; 58; d 10%nat; d 11%nat; 58; d 12%nat; d 13%nat; 32].

Definition status_row (current : nat) (date : list Z) : list Z :=
  take 59 (text_entries (status_text current)) ++ date_entries date.

Definition drawstatus : M ker unit :=
  clock ← gets (fun s => vt_clock (o_vt s));
  _ ← Ops.fs_read clock 0 (f_date F) 15;
  date ← load_chars (f_date F) 15;
  current ← gets (fun s => current_context (o_vt s));
  _ ← store_entries (f_row F) (status_row current date);
  con ← fb;
  _ ← Ops.fs_write con (2 * VGA_COLS * (VGA_ROWS - 1)) (f_row F) (2 * VGA_COLS);
  mret tt.

(** *** Contexts and the screen *)

Definition sizeof_vtcontext : Z := 4016.
Definition buffer_of (i : nat) : Z := f_contexts F + sizeof_vtcontext * Z.of_nat i + 16.

Definition resetcontext (i : nat) : M ker unit :=
  _ ← mod_vt (fun v => VtState (con_fb v) (con_kbd v) (vt_clock v)
        (alter (fun c => VtContext 0 0 7 0 (kbd_status c)) i (contexts v)) (current_context v));
  store_entries (buffer_of i) (replicate 2000 (VGA_ENTRY 32 0x7 0x0)).

Fixpoint resetcontexts_from (n i : nat) : M ker unit :=
  match n with
  | O => mret tt
  | S n' => _ ← resetcontext i; resetcontexts_from n' (S i)
  end.
Definition resetcontexts : M ker unit := resetcontexts_from 8 0.

Definition syncfbcursor : M ker unit :=
  c ← context;
  _ ← stw (f_abspos F) (u16 (u32 (cy c * VGA_COLS + cx c)));
  con ← fb;
  _ ← Ops.fs_ioctl con Vgafb.Impl.VGAFB_IOCTL_MOVECUR (f_abspos F);
  mret tt.

Definition switchcontext (to : nat) : M ker unit :=
  if negb (to <? 8)%nat then mret tt else
  con ← fb;
  current ← gets (fun s => current_context (o_vt s));
  _ ← Ops.fs_read con 0 (buffer_of current) 4000;
  _ ← mod_vt (fun v => VtState (con_fb v) (con_kbd v) (vt_clock v) (contexts v) to);
  con' ← fb;
  _ ← Ops.fs_write con' 0 (buffer_of to) 4000;
  _ ← drawstatus;
  syncfbcursor.

(** The two loops of [clearscreen], over the positions in order. *)
Fixpoint clear_loop (n : nat) (pos : Z) : M ker unit :=
  match n with
  | O => mret tt
  | S n' =>
      c ← context;
      _ ← stw (f_entry F) (u16 (VGA_ENTRY 32 (fg c) (bg c)));
      con ← fb;
      _ ← Ops.fs_write con (2 * pos) (f_entry F) 2;
      clear_loop n' (pos + 1)
  end.
Definition clearscreen : M ker unit :=
  _ ← clear_loop (Z.to_nat (VGA_ROWS * VGA_COLS)) 0;
  _ ← mod_context (fun c => set_cy 0 (set_cx 0 c));
  _ ← drawstatus;
  syncfbcursor.

Definition copyrow (dst src : Z) : M ker unit :=
  if negb ((dst <? VGA_ROWS) && (src <? VGA_ROWS)) then mret tt else
  con ← fb;
  read ← Ops.fs_read con (VGA_COLS * src * 2) (f_copy F) (VGA_COLS * 2);
  con' ← fb;
  _ ← Ops.fs_write con' (VGA_COLS * dst * 2) (f_copy F) read;
  mret tt.

Fixpoint clearrow_loop (n : nat) (offt : Z) : M ker unit :=
  match n with
  | O => mret tt
  | S n' =>
      con ← fb;
      _ ← Ops.fs_write con offt (f_entry F) 2;
      clearrow_loop n' (offt + 2)
  end.
Definition clearrow (row : Z) : M ker unit :=
  c ← context;
  _ ← stw (f_entry F) (u16 (Z.shiftl (fg c) 8));
  clearrow_loop (Z.to_nat VGA_COLS) (VGA_COLS * row * 2).

(** [for (row = 1; row < VGA_ROWS - 1; row++) copyrow(row - 1, row);] *)
Fixpoint scroll_rows (n : nat) (row : Z) : M ker unit :=
  match n with
  | O => mret tt
  | S n' => _ ← copyrow (row - 1) row; scroll_rows n' (row + 1)
  end.

Definition moveline : M ker unit :=
  _ ← mod_context (fun c => set_cy (cy c +w 1) c);
  c ← context;
  if cy c =? VGA_ROWS - 1 then
    _ ← scroll_rows 23 1;
    _ ← clearrow (VGA_ROWS - 2);
    mod_context (set_cy (VGA_ROWS - 2))
  else mret tt.

Definition movecursor : M ker unit :=
  _ ← mod_context (fun c => set_cx (cx c +w 1) c);
  c ← context;
  if cx c =? VGA_COLS then
    _ ← mod_context (set_cx 0);
    moveline
  else mret tt.

(** [do context->cx++; while (context->cx % 7);]: a multiple of 7 is met in
    7 steps, or in 7 more when the counter wraps around. *)
Fixpoint tab_loop (fuel : nat) : M ker unit :=
  match fuel with
  | O => fail Diverges
  | S fuel' =>
      _ ← mod_context (fun c => set_cx (cx c +w 1) c);
      c ← context;
      if cx c mod 7 =? 0 then mret tt else tab_loop fuel'
  end.

Definition put_glyph (ch : Z) : M ker unit :=
  c ← context;
  let pos := s32 (cy c * VGA_COLS + cx c) in
  _ ← stw (f_entry F) (u16 (VGA_ENTRY ch (fg c) (bg c)));
  con ← fb;
  _ ← Ops.fs_write con (u32 (2 * pos)) (f_entry F) 2;
  movecursor.

Definition putchar (ch : Z) : M ker unit :=
  c ← context;
  _ ← (if ch =? 8 then
         mwhen (0 <? cx c) (mod_context (fun c => set_cx (cx c -w 1) c))
       else if ch =? 9 then
         _ ← tab_loop 14;
         c' ← context;
         mwhen (VGA_COLS <=? cx c') (_ ← mod_context (set_cx 0); moveline)
       else if ch =? 10 then
         _ ← moveline;
         mod_context (set_cx 0)
       else if ch =? 13 then mod_context (set_cx 0)
       else put_glyph ch);
  _ ← drawstatus;
  syncfbcursor.

(** [putstr] of a literal. *)
Fixpoint putstr (str : list Z) : M ker unit :=
  match str with
  | [] => mret tt
  | c :: str' => _ ← putchar c; putstr str'
  end.

(** *** The keyboard *)

Definition get_single_scancode (key : Z) : M ker Z :=
  if 0x58 <? key then mret VK_NUL else
  c ← context;
  let idx := Z.land (kbd_status c) KBD_MODS in
  match us_scancodes_1 !! Z.to_nat key with
  | Some row => match row !! Z.to_nat idx with
                | Some vk => mret (s8 vk)
                | None => fail OutOfBounds
                end
  | None => fail OutOfBounds
  end.

Definition releasebit (bit : Z) (rel : bool) : M ker unit :=
  mod_context (fun c => set_status
    (if rel then Z.ldiff (kbd_status c) bit else Z.lor (kbd_status c) bit) c).
Definition togglekbdbit (bit : Z) : M ker unit :=
  mod_context (fun c => set_status (Z.lxor (kbd_status c) bit) c).

(** The virtual key of an extended scancode; [None] leaves [vk] as it was. *)
Definition extended_key (keycode : Z) : option Z :=
  match keycode with
  | 0x1C => Some VK_LF | 0x1D => Some VK_RCTL | 0x35 => Some (chr "/") | 0x38 => Some VK_RALT
  | 0x47 => Some VK_HOME | 0x48 => Some VK_CUP | 0x49 => Some VK_PGUP | 0x4B => Some VK_CLFT
  | 0x4D => Some VK_CRGT | 0x4F => Some VK_END | 0x50 => Some VK_CDWN | 0x51 => Some VK_PGDN
  | 0x52 => Some VK_INSERT | 0x53 => Some VK_DEL
  | _ => None
  end.

(** The end of both branches: the event for the caller. *)
Definition key_event (vk : Z) (rel : bool) : M ker kbdev :=
  c ← context;
  let flags := u16 (kbd_status c) in
  mret (Kbdev vk (if rel then Z.lor flags KBD_CAP_UP else flags)).

(** [kbdev] holds the event afterwards; [vk] is the local's initial value. *)
Definition decode_scancode (vk0 : Z) (kbdev : kbdev) (buf len : Z) : M ker (Z * Scancodes.kbdev) :=
  if len =? 1 then
    b ← ldb buf;
    let keycode := Z.land b 0x7F in
    let rel := negb (Z.land b 0x80 =? 0) in
    code ← get_single_scancode keycode;
    let vk := u8 code in
    _ ← (if vk =? VK_LCTL then releasebit KBD_MOD_CTRL rel
         else if (vk =? VK_LSHF) || (vk =? VK_RSHF) then releasebit KBD_MOD_SHIFT rel
         else if vk =? VK_LALT then releasebit KBD_MOD_ALT rel
         else if vk =? VK_CAPL then mwhen (negb rel) (togglekbdbit KBD_LOCK_CAPS)
         else mret tt);
    ev ← key_event vk rel;
    mret (0, ev)
  else if len =? 2 then
    b0 ← ldb buf;
    if negb (b0 =? 0xE0) then mret (-1, kbdev) else
    b ← ldb (buf + 1);
    let keycode := Z.land b 0x7F in
    let rel := negb (Z.land b 0x80 =? 0) in
    _ ← (if keycode =? 0x1D then releasebit KBD_MOD_CTRL rel
         else if keycode =? 0x38 then releasebit KBD_MOD_ALT rel
         else if (keycode =? 0x5B) || (keycode =? 0x59) then releasebit KBD_MOD_META rel
         else mret tt);
    ev ← key_event (default vk0 (extended_key keycode)) rel;
    mret (0, ev)
  else mret (-1, kbdev).

(** The cases of [echo_scancode]'s switch that print a string, in order. *)
Definition echo_strings : list (Z * string) := [
  (VK_NUL, "^@"); (VK_SOH, "^A"); (VK_STX, "^B"); (VK_ETX, "^C"); (VK_EOT, "^D");
  (VK_ENQ, "^E"); (VK_ACK, "^F"); (VK_BEL, "^G"); (VK_VT, "^K"); (VK_SO, "^N");
  (VK_SI, "^O"); (VK_DLE, "^P"); (VK_DC1, "^Q"); (VK_DC2, "^R"); (VK_DC3, "^S");
  (VK_DC4, "^T"); (VK_NAK, "^U"); (VK_SYN, "^V"); (VK_ETB, "^W"); (VK_CAN, "^X");
  (VK_EM, "^Y"); (VK_SUB, "^Z"); (VK_ESC, "^["); (VK_FS, "^\"); (VK_GS, "^]");
  (VK_RS, "^^"); (VK_US, "^_"); (VK_CUP, "^[[A"); (VK_CDWN, "^[[B"); (VK_CRGT, "^[[C");
  (VK_CLFT, "^[[D"); (VK_HOME, "^[[H"); (VK_END, "^[[F"); (VK_INSERT, "^[[2~");
  (VK_DEL, "^[[3~"); (VK_PGUP, "^[[5~"); (VK_PGDN, "^[[6~"); (VK_F9, "^[[20~");
  (VK_F10, "^[[21~"); (VK_F11, "^[[23~"); (VK_F12, "^[[24~")
]%string.

(** The keys that select a context. *)
Definition echo_switches : list (Z * nat) := [
  (VK_F1, 0); (VK_F2, 1); (VK_F3, 2); (VK_F4, 3); (VK_F5, 4); (VK_F6, 5); (VK_F7, 6); (VK_F8, 7)
]%nat.

Fixpoint assoc {A} (k : Z) (table : list (Z * A)) : option A :=
  match table with
  | [] => None
  | (k', a) :: table' => if k =? k' then Some a else assoc k table'
  end.

Definition echo_scancode (kbdev : kbdev) : M ker unit :=
  if negb (Z.land (kd_flags kbdev) KBD_CAP_UP =? 0) then mret tt else
  let vk := kd_vk kbdev in
  match assoc vk echo_strings, assoc vk echo_switches with
  | Some str, _ => putstr (chars_of str)
  | None, Some to => switchcontext to
  | None, None =>
      if vk =? VK_BS then putchar 8
      else if vk =? VK_HT then putchar 9
      else if vk =? VK_LF then putchar 10
      else if vk =? VK_FF then clearscreen
      else if vk =? VK_CR then putchar 13
      else mwhen ((27 <=? vk) && (vk <? 127)) (putchar vk)
  end.

(** *** The device *)

(** The [while] of [vtcon_read].  [vk0] is what [decode_scancode]'s local
    holds for an extended scancode it does not know; [kbdev] is written before
    it is read.  The loop goes on for as long as the keyboard delivers, so the
    number of rounds needs fuel. *)
Fixpoint vtcon_read_loop (fuel : nat) (vk0 : Z) (kbdev : kbdev) (buf len read_bytes : Z)
    : M ker Z :=
  match fuel with
  | O => fail Diverges
  | S fuel' =>
      if negb (4 <=? len) then mret read_bytes else
      con ← gets (fun s => con_kbd (o_vt s));
      kbd_len ← Ops.fs_read con 0 (f_kbd F) 16;
      if kbd_len =? 0 then mret read_bytes else
      d ← decode_scancode vk0 kbdev (f_kbd F) kbd_len;
      let '(r, ev) := d in
      if r =? 0 then
        _ ← echo_scancode ev;
        _ ← stw buf (kd_vk ev);
        _ ← stw (buf + 2) (kd_flags ev);
        vtcon_read_loop fuel' vk0 ev buf (len -w 4) (read_bytes +w 4)
      else vtcon_read_loop fuel' vk0 ev buf len read_bytes
  end.
Definition vtcon_read (fuel : nat) (vk0 : Z) (buf len : Z) : M ker Z :=
  _ ← drawstatus;
  vtcon_read_loop fuel vk0 (Kbdev 0 0) buf len 0.

Fixpoint vtcon_write_loop (rem : nat) (buf : Z) : M ker unit :=
  match rem with
  | O => mret tt
  | S rem' =>
      c ← ldb buf;
      _ ← putchar c;
      vtcon_write_loop rem' (buf + 1)
  end.
Definition vtcon_write (buf len : Z) : M ker Z :=
  _ ← vtcon_write_loop (Z.to_nat len) buf;
  mret len.

(** What the three [try_open_*] have in common: resolve, store, open. *)
Definition try_open (set : Z -> vtstate -> vtstate) (path : list Z) (flags : Z) : M ker Z :=
  node ← Path.fs_resolve path;
  _ ← mod_vt (set node);
  if node =? 0 then mret (-1) else
  r ← Ops.fs_open node flags;
  mret (if r =? 0 then 0 else -1).

Definition set_con_fb (p : Z) (v : vtstate) : vtstate :=
  VtState p (con_kbd v) (vt_clock v) (contexts v) (current_context v).
Definition set_con_kbd (p : Z) (v : vtstate) : vtstate :=
  VtState (con_fb v) p (vt_clock v) (contexts v) (current_context v).
Definition set_vt_clock (p : Z) (v : vtstate) : vtstate :=
  VtState (con_fb v) (con_kbd v) p (contexts v) (current_context v).

Definition try_open_fb : M ker Z := try_open set_con_fb (chars_of "DEV:/fb") VO_FWRITE.
Definition try_open_kbd : M ker Z := try_open set_con_kbd (chars_of "DEV:/kbd") VO_FREAD.
Definition try_open_clock : M ker Z := try_open set_vt_clock (chars_of "DEV:/clock") VO_FREAD.

Definition try_close_kbd : M ker Z :=
  con ← fb;
  r ← Ops.fs_close con;
  mret (if r =? 0 then 0 else -1).
Definition try_close_clock : M ker Z :=
  clock ← gets (fun s => vt_clock (o_vt s));
  r ← Ops.fs_close clock;
  mret (if r =? 0 then 0 else -1).
Definition try_close_fb : M ker Z :=
  con ← fb;
  r ← Ops.fs_close con;
  mret (if r =? 0 then 0 else -1).

Definition vtcon_open (flags : Z) : M ker Z :=
  if negb (Z.land flags VO_FREAD =? 0) then mret (-1) else
  con ← fb;
  if negb (con =? 0) then mret (-1) else
  r ← try_open_fb;
  if r <? 0 then mret (-1) else
  r ← try_open_kbd;
  if r <? 0 then
    _ ← try_close_fb;
    mret (-1)
  else
  r ← try_open_clock;
  if r <? 0 then
    _ ← try_close_kbd;
    _ ← try_close_fb;
    mret (-1)
  else
  _ ← drawstatus;
  _ ← syncfbcursor;
  mret 0.

Definition vtcon_ioctl (op argp : Z) : M ker Z :=
  if op =? 0 then
    _ ← clearscreen;
    mret 0
  else mret (-1).

Definition vtcon_close : M ker Z :=
  _ ← try_close_clock;
  _ ← try_close_kbd;
  _ ← try_close_fb;
  _ ← resetcontexts;
  mret 0.

Definition vtcon_dev (fuel : nat) (vk0 : Z) : Devfs.Impl.device :=
  Devfs.Impl.Dev (Some vtcon_open) None None
    (Some (vtcon_read fuel vk0)) (Some vtcon_write) (Some vtcon_ioctl) (Some vtcon_close).

Definition vtcon_init : M ker Z :=
  _ ← resetcontexts;
  _ ← device_install vtcon_device (chars_of "vtcon");
  mret 0.

End vtcon.
End Impl.
