(* ===== verification/KernMain.v ===== *)
(** * The kernel's start (kernel/kern/kern_main.c)

    The tables that tie the parts together (which file system drivers and
    devices the kernel has) and [kernel_main]: it starts the VFS and the device
    manager, mounts the initial ramdisk and prints the message of the day.
    [Module Sample] is a machine on which it runs. *)
From S2P Require Import Prelude Mem Alloc Idt Device Objects Vfs Devfs Tarfs Vtcon.
From S2P Require CString Heap.
From stdpp Require Import strings.
Local Open Scope Z_scope.
Import Idt.Impl CString.Pure.

(** ** The C code *)
Module Impl.

(** What the kernel's parts are run with: fuel for the loops over memory and
    for the recursion of tar.c, the bytes the drivers leave to chance, where
    the console's arrays are, and the build's VERSION_NAME.  The console works
    on files, and is one: [c_levels] bounds how often it is entered through
    itself, which does not happen on "DEV:/fb", "DEV:/kbd" and
    "DEV:/clock". *)
Record config := Config {
  c_fuel : nat;
  c_depth : nat;
  c_uninit : rtclock;
  c_stray : nat -> Z;
  c_vk0 : Z;
  c_frame : Vtcon.Impl.frame;
  c_version : list Z;
  c_levels : nat
}.

Section kernel.
Context `{Allocator} (c : config).

(** The devices and the file systems, given the console's functions. *)
Definition devices_with (console : Devfs.Impl.device) : Devfs.Impl.Devices :=
  Devfs.Table.devices (c_fuel c) (c_uninit c) (c_stray c) console.
Definition filesystems_with (console : Devfs.Impl.device) : FsDrivers := fun f =>
  match f with
  | rootfs_fs => Mounts.rootfs
  | devfs_fs => Devfs.Impl.devfs (H := devices_with console)
  | tarfs_driver => Tarfs.Impl.tarfs (c_depth c) (c_fuel c)
  end.

(** A console that does not return. *)
Definition endless_console : Devfs.Impl.device :=
  Devfs.Impl.Dev (Some (fun _ => fail Diverges)) None None (Some (fun _ _ => fail Diverges))
    (Some (fun _ _ => fail Diverges)) (Some (fun _ _ => fail Diverges)) (Some (fail Diverges)).
Fixpoint console (levels : nat) : Devfs.Impl.device :=
  match levels with
  | O => endless_console
  | S levels' =>
      Vtcon.Impl.vtcon_dev (H := filesystems_with (console levels')) (c_frame c) (c_version c)
        (c_fuel c) (c_vk0 c)
  end.

#[local] Instance kernel_device_table : Devfs.Impl.Devices := devices_with (console (c_levels c)).
#[local] Instance kernel_drivers : Devfs.Impl.Drivers :=
  Devfs.Table.drivers (Vtcon.Impl.vtcon_init (c_frame c)).

(** The file system drivers (FS_DESCRIPTOR). *)
Definition kernel_filesystems : FsDrivers := filesystems_with (console (c_levels c)).
#[local] Existing Instance kernel_filesystems.

(** Fields of [multiboot_info_t] and [multiboot_module_t]. *)
Definition mb_mods_count : Z := 20.
Definition mb_mods_addr : Z := 24.
Definition mod_start : Z := 0.
Definition mod_string : Z := 8.
Definition sizeof_module : Z := 16.

Definition ldw (a : Z) : M ker Z := low (kern (ld32 a)).

(** The [for] over the modules; the name that is compared is always the first
    module's. *)
Fixpoint ramdisk_loop (n : nat) (i mods : Z) : M ker unit :=
  match n with
  | O => mret tt
  | S n' =>
      string ← ldw (mods + mod_string);
      name ← Tarfs.Impl.c_string (c_fuel c) string;
      if cmp (chars_of "ramdisk") name =? 0 then
        tar ← ldw (mods + sizeof_module * i + mod_start);
        _ ← Mounts.vfs_mount (chars_of "tarfs") (chars_of "INITRD") tar;
        mret tt
      else ramdisk_loop n' (i + 1) mods
  end.
Definition ramdisk_init (multiboot_info : Z) : M ker unit :=
  multiboot_mods ← ldw (multiboot_info + mb_mods_addr);
  mods_count ← ldw (multiboot_info + mb_mods_count);
  ramdisk_loop (Z.to_nat mods_count) 0 multiboot_mods.

Definition fs_resolve_and_open (path : list Z) (args : Z) : M ker Z :=
  node ← Path.fs_resolve path;
  if node =? 0 then mret 0 else
  r ← Ops.fs_open node args;
  mret (if r =? 0 then node else 0).

(** [str] points to a string in memory. *)
Definition fs_write_string (node offt str : Z) : M ker Z :=
  len ← low (kern (CString.Impl.strlen (c_fuel c) str));
  Ops.fs_write node offt str len.

(** [while ((read = fs_read(motd, offt, buffer, 64)) > 0)]; [read] is an
    [int]. *)
Fixpoint motd_loop (fuel : nat) (vtcon motd buffer offt : Z) : M ker unit :=
  match fuel with
  | O => fail Diverges
  | S fuel' =>
      r ← Ops.fs_read motd offt buffer 64;
      let read := s32 r in
      if 0 <? read then
        _ ← Ops.fs_write vtcon 0 buffer read;
        motd_loop fuel' vtcon motd buffer (offt + read)
      else mret tt
  end.

(** [for (;;) fs_read(vtcon, 0, buffer, 64);], the first [rounds] rounds. *)
Fixpoint idle (rounds : nat) (vtcon buffer : Z) : M ker unit :=
  match rounds with
  | O => mret tt
  | S rounds' => _ ← Ops.fs_read vtcon 0 buffer 64; idle rounds' vtcon buffer
  end.

(** [buffer] is the local array, [newline] the literal. *)
Definition kernel_welcome (rounds : nat) (buffer newline : Z) : M ker unit :=
  vtcon ← fs_resolve_and_open (chars_of "DEV:/vtcon") VO_FWRITE;
  motd ← fs_resolve_and_open (chars_of "INITRD:/SYSTEM/MOTD.TXT") VO_FREAD;
  _ ← (if motd =? 0 then mret tt else
       _ ← motd_loop (c_fuel c) vtcon motd buffer 0;
       _ ← fs_write_string vtcon 0 newline;
       _ ← Ops.fs_close motd;
       mret tt);
  idle rounds vtcon buffer.

(** [descriptors] and [drivers] are the tables the linker collects;
    [enable_paging] is the function of Paging.v. *)
Definition kernel_main (descriptors : list fsys) (drivers : list Devfs.Impl.driver_name)
    (enable_paging : M ker unit) (multiboot_info : Z) (rounds : nat) (buffer newline : Z)
    : M ker unit :=
  _ ← Mounts.vfs_init descriptors;
  _ ← Devfs.Impl.device_init drivers;
  _ ← ramdisk_init multiboot_info;
  _ ← enable_paging;
  kernel_welcome rounds buffer newline.

End kernel.
End Impl.

(** ** A machine that boots *)
Module Sample.
Import Impl.

(** The statics of the VFS before [vfs_init]. *)
Definition static_objs : gmap Z obj :=
  list_to_map
    ([(rootfs_root, ONode (Node [] VN_FDIR 0 0 0)); (devfs_rootdir, ONode (Node [] VN_FDIR 0 0 0))]
     ++ ((fun f => (fsys_ptr f, OFsys f)) <$> [rootfs_fs; devfs_fs; tarfs_driver])
     ++ ((fun d => (Devfs.Impl.dev_ptr d, ODevice d)) <$>
           [null_device; zero_device; keyboard_device; pctimer_device; clock_device;
            uart8250_device; vgafb_device; vtcon_device])).

(** A header block: name, size, type. *)
Definition header (m : mem) (a : Z) (name size : list Z) (type : Z) : mem :=
  store8 (store_bytes (store_bytes m a (name ++ [0])) (a + 124) (size ++ [0])) (a + 156) type.

(** The message of the day: ramdisk/SYSTEM/MOTD.TXT as it is in the
    repository, 596 bytes: ten blocks of [kernel_welcome]'s loop. *)
Definition motd_text : list Z := chars_of "Welcome to NativeOS Preview.

Thank you for your interest in testing NativeOS. NativeOS is a toy
OS for the i386 system architecture to help me learn more about how
computers work.

This is a work in progress. Expect bugs. Please, keep an eye on the
repository and the issue tracker for future work and bug fixes.

* Repository: https://git.danirod.es/nativeos.git
* Issue tracker: https://redmine.danirod.es/projects/nativeos
* GitHub Mirror: https://github.com/danirod/nativeos


This is the virtual console test.
Press keys to type them into the screen.
Press keys F1 to F8 to switch context.
".

(** The lines of a text, each filled up to a row of the screen. *)
Fixpoint text_rows (line text : list Z) : list (list Z) :=
  match text with
  | [] => [line]
  | 10 :: text' => line :: text_rows [] text'
  | c :: text' => text_rows (line ++ [c]) text'
  end.
Definition page (text : list Z) : list Z :=
  text_rows [] text ≫= (fun l => l ++ replicate (80 - length l) 0).

(** The ramdisk at 0x400000: the directory SYSTEM and the file MOTD.TXT in
    it. *)
Definition ramdisk (m : mem) : mem :=
  store_bytes
    (header
       (header
          (header m 0x400000 (chars_of "./") (chars_of "00000000000") 53)
          0x400200 (chars_of "./SYSTEM/") (chars_of "00000000000") 53)
       0x400400 (chars_of "./SYSTEM/MOTD.TXT") (chars_of "00000001124") 48)
    0x400600 motd_text.

(** The boot loader's information at 0x9000, its module list at 0x9100. *)
Definition multiboot (m : mem) : mem :=
  store_bytes
    (store32 (store32 (store32 (store32 m (0x9000 + mb_mods_count) 1) (0x9000 + mb_mods_addr) 0x9100)
       0x9100 0x400000) (0x9100 + mod_string) 0x9200)
    0x9200 (chars_of "ramdisk").

(** What the boot loader leaves, and the literal of [kernel_welcome]. *)
Definition loaded : mem := store_bytes (multiboot (ramdisk ∅)) 0x9300 [10].

Definition boot_kst : kst :=
  match Heap.Impl.heap_init 0x200000 (set_mem loaded boot_state) with
  | Ok (_, s) => s
  | Err _ => boot_state
  end.

Definition boot_ker (junk : Z -> Z) : ker :=
  Ker (Idt boot_kst (IdtTable 0 0) [] (replicate 48 None) None
         (Drivers 0 0 (RtClock 0 0 0 0 0 0 0) 0 0))
    static_objs 256 0 (fun _ => true) (fun _ => []) junk 0 0 0 0
    (VtState 0 0 0 (replicate 8 (VtContext 0 0 0 0 0)) 0).

Definition sample_frame : Vtcon.Impl.frame :=
  Vtcon.Impl.Frame 0x10000 0x7000 0x7100 0x7200 0x7204 0x7300 0x7400.
Definition sample_config : config :=
  Config 200 100 (RtClock 0 0 0 0 0 0 0) (fun _ => 0) 0 sample_frame
    (chars_of "NativeOS Preview") 1.

#[export] Instance sample_heap : Allocator := Heap.Interface.heap_allocator 0x200000 0x300000.

Definition sample_drivers : list Devfs.Impl.driver_name :=
  [Devfs.Impl.null_driver; Devfs.Impl.keyboard_driver; Devfs.Impl.pctimer_driver;
   Devfs.Impl.clock_driver; Devfs.Impl.uart8250_driver; Devfs.Impl.vgafb_driver;
   Devfs.Impl.vtcon_driver].
Definition descriptors : list fsys := [rootfs_fs; devfs_fs; tarfs_driver].

(** [kernel_main], with one round of the last loop; [junk] is what fresh memory
    holds. *)
Definition boot (junk : Z -> Z) : res (unit * ker) :=
  kernel_main sample_config descriptors sample_drivers (mret tt) 0x9000 1 0x8000 0x9300
    (boot_ker junk).

(** Its first half, up to the ramdisk. *)
Definition boot_without_motd (junk : Z -> Z) : res (unit * ker) :=
  (Mounts.vfs_init (H := kernel_filesystems sample_config) descriptors;;
   Devfs.Impl.device_init (H := kernel_filesystems sample_config)
     (H0 := kernel_drivers sample_config) sample_drivers;;
   ramdisk_init sample_config 0x9000) (boot_ker junk).

End Sample.

Import Impl Sample.

(** The root of the volume of that name, in a state. *)
Definition root_of (name : list Z) (s : ker) : option Z :=
  outcome (Mounts.vfs_get_volume name s).

(** What resolving the path of the message of the day gives. *)
Definition motd_node (s : ker) : option Z :=
  outcome (Path.fs_resolve (H := kernel_filesystems sample_config)
    (chars_of "INITRD:/SYSTEM/MOTD.TXT") s).

(** A run that ends, observed. *)
Lemma run_observed {A B} (r : res (A * ker)) (ob : ker -> B) a o :
  match r with Ok (a, s) => Some (a, ob s) | Err _ => None end = Some (a, o) ->
  exists s, r = Ok (a, s) /\ ob s = o.
Proof. destruct r as [[a' s]|e]; [|done]. intros [= <- E]. by exists s. Qed.

(** ** Properties *)

(** [tarfs_mount] does not initialise [payload->root]: when the memory the
    payload gets is not zero, the archive's root node is never stored and the
    volume's root is that stale word, a pointer to nothing. *)
Theorem tarfs_root_is_stale :
  exists s, boot_without_motd (fun _ => 7) = Ok (tt, s) /\
    (root_of (chars_of "INITRD") s, motd_node s) = (Some 7, None).
Proof.
  apply (run_observed (boot_without_motd (fun _ => 7))
    (fun s => (root_of (chars_of "INITRD") s, motd_node s))). vm_compute. reflexivity.
Qed.
