(* ===== verification/Layout.v ===== *)
(** * The layout of the C structures

    The operations on bytes of memory (Heap.v, Ringbuf.v, DList.v, Pmm.v, Tarfs.v,
    KernMain.v, Vtcon.v) use the offsets of the fields as numbers.  Here are the
    structures themselves and the layout rules of the i386 System V ABI, in which
    [unsigned long long] is aligned to four bytes; [offsets_agree] compares the
    numbers with them.  The rules are sound: the fields of a structure lie inside
    it, aligned, and do not overlap. *)
From S2P Require Import Prelude Heap Ringbuf DList Pmm Idt Tarfs Vtcon KernMain.
From stdpp Require Import strings.
Local Open Scope Z_scope.

(** ** Types and their layout *)
Module Types.

(** A structure is packed or not. *)
Inductive ctype :=
  | Char | Short | Int | LongLong | Pointer
  | Array (n : nat) (t : ctype)
  | Struct (packed : bool) (fields : list (string * ctype)).

Definition round_up (x a : Z) : Z := (x + (a - 1)) / a * a.

Section fields.
Context (align size : ctype -> Z).

Fixpoint fields_align (fields : list (string * ctype)) : Z :=
  match fields with
  | [] => 1
  | (_, t) :: fs => Z.max (align t) (fields_align fs)
  end.

(** The end of the last of the fields, from the offset [o] on. *)
Fixpoint fields_end (packed : bool) (o : Z) (fields : list (string * ctype)) : Z :=
  match fields with
  | [] => o
  | (_, t) :: fs => fields_end packed (round_up o (if packed then 1 else align t) + size t) fs
  end.

End fields.

Fixpoint align_of (t : ctype) : Z :=
  match t with
  | Char => 1
  | Short => 2
  | Int | LongLong | Pointer => 4
  | Array _ t => align_of t
  | Struct packed fields => if packed then 1 else fields_align align_of fields
  end.

Fixpoint size_of (t : ctype) : Z :=
  match t with
  | Char => 1
  | Short => 2
  | Int | Pointer => 4
  | LongLong => 8
  | Array n t => Z.of_nat n * size_of t
  | Struct packed fields =>
      round_up (fields_end align_of size_of packed 0 fields) (align_of t)
  end.

(** The fields from the offset [o] on, with their offsets. *)
Fixpoint place (packed : bool) (o : Z) (fields : list (string * ctype)) : list (string * Z * ctype) :=
  match fields with
  | [] => []
  | (f, t) :: fs =>
      let o' := round_up o (if packed then 1 else align_of t) in
      (f, o', t) :: place packed (o' + size_of t) fs
  end.

Definition placed (t : ctype) : list (string * Z * ctype) :=
  match t with Struct packed fields => place packed 0 fields | _ => [] end.

(** [offsetof(t, f)] *)
Definition offset_of (t : ctype) (f : string) : option Z :=
  head (omap (fun x => if decide (x.1.1 = f) then Some x.1.2 else None) (placed t)).

End Types.

(** ** The structures *)
Module C.
Import Types.

Definition heap_block : ctype := Struct false
  [("magic", Int); ("status", Int); ("next", Pointer); ("prev", Pointer); ("size", Int)]%string.

Definition ringbuf : ctype := Struct false
  [("buffer", Pointer); ("size", Int); ("writeptr", Int); ("readptr", Int);
   ("status", Int)]%string.

Definition listnode : ctype := Struct false
  [("data", Pointer); ("prev", Pointer); ("next", Pointer)]%string.

Definition list : ctype := Struct false
  [("head", Pointer); ("tail", Pointer); ("count", Int)]%string.

Definition idt_table : ctype := Struct true [("limit", Short); ("base", Int)]%string.

Definition idt_entry : ctype := Struct true
  [("offset1", Short); ("segment", Short); ("zeros", Char); ("attributes", Char);
   ("offset2", Short)]%string.

Definition tar_metadata : ctype := Struct false
  [("name", Array 100 Char); ("mode", Array 8 Char); ("uid", Array 8 Char);
   ("gid", Array 8 Char); ("size", Array 12 Char); ("mktime", Array 12 Char);
   ("checksum", Array 8 Char); ("type", Char); ("linkname", Array 100 Char);
   ("magic", Array 6 Char); ("version", Array 2 Char); ("uname", Array 32 Char);
   ("gname", Array 32 Char); ("devmajor", Array 8 Char); ("devminor", Array 8 Char);
   ("prefix", Array 155 Char)]%string.

Definition tar_header_block : ctype := Struct false
  [("metadata", tar_metadata); ("reserved", Array 12 Char)]%string.

Definition vtcontext : ctype := Struct false
  [("cx", Int); ("cy", Int); ("fg", Char); ("bg", Char); ("kbd_status", Int);
   ("buffer", Array 2000 Short)]%string.

Definition multiboot_module : ctype := Struct false
  [("mod_start", Int); ("mod_end", Int); ("string", Int); ("reserved", Int)]%string.

Definition multiboot_elf : ctype := Struct false
  [("num", Int); ("size", Int); ("addr", Int); ("shndx", Int)]%string.

Definition multiboot_mmap : ctype := Struct false
  [("size", Int); ("base_addr", LongLong); ("length", LongLong); ("type", Int)]%string.

Definition multiboot_drive : ctype := Struct false
  [("size", Int); ("drive_number", Char); ("drive_mode", Char); ("drive_cylinders", Char);
   ("drive_heads", Short); ("drive_sectors", Char); ("drive_ports", Pointer)]%string.

Definition multiboot_apm_table : ctype := Struct false
  [("version", Short); ("cseg", Short); ("offset", Short); ("cseg_16", Short); ("dseg", Short);
   ("flags", Short); ("cseg_len", Short); ("cseg_16_len", Short); ("dseg_len", Short)]%string.

Definition multiboot_vbe_info : ctype := Struct false
  [("vbe_control_info", Int); ("vbe_mode_info", Int); ("vbe_mode", Short);
   ("vbe_interface_segment", Short); ("vbe_interface_offset", Short);
   ("vbe_interface_length", Short)]%string.

Definition multiboot_info : ctype := Struct false
  [("flags", Int); ("mem_lower", Int); ("mem_upper", Int); ("boot_device", Int);
   ("command_line", Int); ("mods_count", Int); ("mods_addr", Int); ("elf", multiboot_elf);
   ("mmap_length", Int); ("mmap_addr", Int); ("drives_length", Int); ("drives_addr", Int);
   ("config_table", Int); ("boot_loader_name", Int); ("apm_table", Int);
   ("vbe_info", multiboot_vbe_info)]%string.

End C.
Import Types.

(** ** The rules are sound *)

Lemma round_up_spec x a : 0 < a -> x <= round_up x a < x + a /\ (a | round_up x a).
Proof.
  intros Ha. unfold round_up. split; [|by exists ((x + (a - 1)) / a)].
  Z.to_euclidean_division_equations. nia.
Qed.

Lemma align_pos : forall t, 0 < align_of t.
Proof.
  fix IH 1. intros [| | | | |n t|packed fields]; cbn [align_of]; try lia; [apply IH|].
  destruct packed; [lia|]. induction fields as [|[f t] fs IHfs]; cbn [fields_align]; [lia|].
  pose proof (IH t). lia.
Qed.

(** A field starts at or behind the offset that is reached. *)
Lemma next_field (packed : bool) o t :
  o <= round_up o (if packed then 1 else align_of t) /\
  ((if packed then 1 else align_of t) | round_up o (if packed then 1 else align_of t)).
Proof.
  pose proof (align_pos t). destruct (round_up_spec o (if packed then 1 else align_of t));
    [destruct packed; lia|]. split; [lia|done].
Qed.

Lemma size_nonneg : forall t, 0 <= size_of t.
Proof.
  fix IH 1. intros [| | | | |n t|packed fields]; cbn [size_of]; try lia; [pose proof (IH t); lia|].
  assert (forall o, 0 <= o -> 0 <= fields_end align_of size_of packed o fields) as H.
  { induction fields as [|[f t] fs IHfs]; intros o Ho; cbn [fields_end]; [lia|]. apply IHfs.
    pose proof (IH t). pose proof (next_field packed o t). lia. }
  specialize (H 0 ltac:(lia)).
  pose proof (round_up_spec (fields_end align_of size_of packed 0 fields) _
    (align_pos (Struct packed fields))). lia.
Qed.

Lemma fields_end_le packed o fs : o <= fields_end align_of size_of packed o fs.
Proof.
  revert o. induction fs as [|[f t] fs IH]; intros o; cbn [fields_end]; [lia|].
  pose proof (IH (round_up o (if packed then 1 else align_of t) + size_of t)).
  pose proof (next_field packed o t). pose proof (size_nonneg t). lia.
Qed.

Lemma place_bounds packed fs : forall o f p t,
  (f, p, t) ∈ place packed o fs ->
  o <= p /\ p + size_of t <= fields_end align_of size_of packed o fs /\
  (packed = false -> (align_of t | p)).
Proof.
  induction fs as [|[g u] fs IH]; intros o f p t H; cbn [place fields_end] in *; [by apply elem_of_nil in H|].
  destruct (next_field packed o u) as [Hle Hdiv]. pose proof (size_nonneg u).
  apply elem_of_cons in H as [H|H].
  - simplify_eq. split_and!; [lia|apply fields_end_le|]. intros ->. exact Hdiv.
  - destruct (IH _ _ _ _ H) as (H1 & H2 & H3). split_and!; [lia|lia|done].
Qed.

(** A field lies inside its structure, at a multiple of its alignment unless the
    structure is packed. *)
Theorem field_inside packed fields f p t :
  (f, p, t) ∈ placed (Struct packed fields) ->
  0 <= p /\ p + size_of t <= size_of (Struct packed fields) /\
  (packed = false -> (align_of t | p)).
Proof.
  intros H. destruct (place_bounds packed fields 0 f p t H) as (H1 & H2 & H3).
  pose proof (round_up_spec (fields_end align_of size_of packed 0 fields) _
    (align_pos (Struct packed fields))). cbn [size_of]. split_and!; [lia|lia|done].
Qed.

(** A later field begins where an earlier one has ended. *)
Theorem fields_disjoint packed fs : forall o i j f p t f' p' t',
  place packed o fs !! i = Some (f, p, t) -> place packed o fs !! j = Some (f', p', t') ->
  (i < j)%nat -> p + size_of t <= p'.
Proof.
  induction fs as [|[g u] fs IH]; intros o i j f p t f' p' t' Hi Hj Hlt; [done|].
  cbn [place] in *. destruct j as [|j]; [lia|]. destruct i as [|i]; cbn in Hi, Hj.
  - simplify_eq. apply list_elem_of_lookup_2, place_bounds in Hj. lia.
  - eapply (IH _ i j); [done..|lia].
Qed.

(** ** The numbers of the code's model *)

(** The offsets and sizes that the other files use are those of the structures. *)
Theorem offsets_agree :
  (offset_of C.heap_block <$> ["magic"; "status"; "next"; "prev"; "size"]%string
    = Some <$> [Heap.Impl.o_magic; Heap.Impl.o_status; Heap.Impl.o_next; Heap.Impl.o_prev;
                Heap.Impl.o_size] /\ size_of C.heap_block = Heap.Impl.sizeof_heap_block) /\
  (offset_of C.ringbuf <$> ["buffer"; "size"; "writeptr"; "readptr"; "status"]%string
    = Some <$> [Ringbuf.Impl.o_buffer; Ringbuf.Impl.o_size; Ringbuf.Impl.o_writeptr;
                Ringbuf.Impl.o_readptr; Ringbuf.Impl.o_status] /\
   size_of C.ringbuf = Ringbuf.Impl.sizeof_ringbuf) /\
  (offset_of C.listnode <$> ["data"; "prev"; "next"]%string
    = Some <$> [DList.Impl.n_data; DList.Impl.n_prev; DList.Impl.n_next] /\
   size_of C.listnode = DList.Impl.sizeof_listnode) /\
  (offset_of C.list <$> ["head"; "tail"; "count"]%string
    = Some <$> [DList.Impl.l_head; DList.Impl.l_tail; DList.Impl.l_count] /\
   size_of C.list = DList.Impl.sizeof_list) /\
  (offset_of C.tar_metadata <$> ["name"; "size"; "type"]%string
    = Some <$> [Tarfs.Impl.t_name; Tarfs.Impl.t_size; Tarfs.Impl.t_type] /\
   offset_of C.tar_header_block "metadata" = Some 0 /\
   size_of C.tar_header_block = Tarfs.Impl.sizeof_block) /\
  (offset_of C.multiboot_info <$> ["flags"; "mem_upper"; "mmap_length"; "mmap_addr"]%string
    = Some <$> [Pmm.Impl.mb_flags; Pmm.Impl.mb_mem_upper; Pmm.Impl.mb_mmap_length;
                Pmm.Impl.mb_mmap_addr] /\
   offset_of C.multiboot_mmap <$> ["size"; "base_addr"; "length"; "type"]%string
    = Some <$> [Pmm.Impl.mm_size; Pmm.Impl.mm_base_addr; Pmm.Impl.mm_length; Pmm.Impl.mm_type]) /\
  (offset_of C.multiboot_info <$> ["mods_count"; "mods_addr"]%string
    = Some <$> [KernMain.Impl.mb_mods_count; KernMain.Impl.mb_mods_addr] /\
   offset_of C.multiboot_module <$> ["mod_start"; "string"]%string
    = Some <$> [KernMain.Impl.mod_start; KernMain.Impl.mod_string] /\
   size_of C.multiboot_module = KernMain.Impl.sizeof_module) /\
  (offset_of C.vtcontext "buffer" = Some 16 /\
   size_of C.vtcontext = Vtcon.Impl.sizeof_vtcontext) /\
  (size_of C.idt_entry = 8 /\ offset_of C.idt_table "base" = Some 2).
Proof. vm_compute. by split_and!. Qed.
