(* ===== verification/ListAbs.v ===== *)
(** * The lists above are the lists below

    Objects.v keeps a [list_t] as the sequence of its data pointers.  The
    theorem of this file relates it to the linked lists of DList.v: appending
    and deleting through the C functions has the effect on the nodes' data that
    the commands of Objects.v have on the sequence. *)
From S2P Require Import Prelude Mem Alloc Heap DList Idt Device Objects KernMain.
From stdpp Require Import strings.
Local Open Scope Z_scope.
Import DList.Impl DList.Rep DList.Ops.

(** The sequence of a list of nodes. *)
Definition data (ns : list node) : list Z := ns.*2.

(** The list at [p] of the store is the linked list [ns]. *)
Definition listed (k : ker) (p : Z) (ns : list node) : Prop :=
  p <> 0 /\ view as_list (o_objs k) p = Some (data ns).

Lemma remove_first_find x ns :
  Lists.remove_first x (data ns)
  = match list_find (fun n : node => n.2 = x) ns with
    | Some (i, _) => data (take i ns ++ drop (S i) ns)
    | None => data ns
    end.
Proof.
  unfold data. induction ns as [|[a d] ns IH]; [done|].
  rewrite fmap_cons. cbn [snd Lists.remove_first list_find].
  destruct (Z.eqb_spec d x) as [->|Hne]; [by rewrite decide_True|].
  rewrite decide_False by done. rewrite IH. by destruct (list_find _ ns) as [[i n]|].
Qed.

(** The abstract commands on a listed list. *)
Lemma store_append p x ns k :
  listed k p ns ->
  exists k', Lists.list_append p x k = Ok (tt, k') /\
    view as_list (o_objs k') p = Some (if o_grants k (o_count k) then data ns ++ [x] else data ns).
Proof.
  intros [Hp Hv]. unfold Lists.list_append. mstep (deref_run as_list p k _ Hp Hv).
  unfold Lists.append_node. destruct (o_grants k (o_count k)); (eexists; split; [reflexivity|]).
  - exact (view_insert as_list _ p (OList (data ns ++ [x]))).
  - exact Hv.
Qed.

Lemma store_delete p x ns k :
  listed k p ns ->
  exists k', Lists.list_delete p x k = Ok (tt, k') /\
    view as_list (o_objs k') p = Some (Lists.remove_first x (data ns)).
Proof.
  intros [Hp Hv]. unfold Lists.list_delete. mstep (deref_run as_list p k _ Hp Hv).
  eexists. split; [reflexivity|].
  exact (view_insert as_list _ p (OList (Lists.remove_first x (data ns)))).
Qed.

(** ** Properties *)

(** C22: The list functions of list.c and the list commands of Objects.v agree:
    appended to a list that stands for the same sequence, a pointer comes last
    in both, or in neither when there is no memory for the node; deleted, its
    first occurrence goes from both. *)
Theorem lists_agree `{A : Allocator} fuel s L l ns d k p
    (Hok : list_ok s L l ns) (Hd : 0 <= d < W32) (Hf : (length ns < fuel)%nat)
    (Hrob : forall a, (a, d) ∈ ns -> robust s L a) (Hk : listed k p ns) :
  (exists r s' L' ns' k', list_append l d s = Ok (r, s') /\ list_ok s' L' l ns' /\
     Lists.list_append p d k = Ok (tt, k') /\
     ((r =? 0) = negb (o_grants k (o_count k)) -> listed k' p ns')) /\
  (exists r s' L' ns' k', list_delete fuel l d s = Ok (r, s') /\ list_ok s' L' l ns' /\
     Lists.list_delete p d k = Ok (tt, k') /\ listed k' p ns').
Proof.
  pose proof Hk as [Hp _]. split.
  - destruct (list_append_spec s L l ns d Hok Hd) as (r & s' & R & _ & Hcase).
    destruct (store_append p d ns k Hk) as (k' & R' & V').
    destruct Hcase as [[-> ->]|(n & _ & Hnone & Hok' & _)].
    + exists 0, s, L, ns, k'. split_and!; [done..|]. intros E. split; [done|]. rewrite V'.
      by destruct (o_grants k (o_count k)).
    + exists r, s', (<[r := n]> L), (ns ++ [(r, d)]), k'. split_and!; [done..|].
      destruct Hok' as (HI & Ho & _).
      assert (r <> 0).
      { pose proof (owned_positive _ _ _ _ HI Ho) as Hpos.
        enough (0 < r < W32) by lia. apply (proj1 (Forall_forall _ _) Hpos r).
        rewrite fmap_app. apply elem_of_app. right. cbn. by left. }
      rewrite (proj2 (Z.eqb_neq r 0)) by done. intros E. split; [done|]. rewrite V'.
      destruct (o_grants k (o_count k)); [|done]. unfold data. by rewrite fmap_app.
  - destruct (store_delete p d ns k Hk) as (k' & R' & V'). rewrite remove_first_find in V'.
    pose proof (list_delete_spec fuel s L l ns d Hok Hf Hrob) as HD.
    destruct (list_find _ ns) as [[i [a x]]|].
    + destruct HD as (s' & R & _ & Hok' & _).
      exists d, s', (delete a L), (take i ns ++ drop (S i) ns), k'. by split_and!.
    + exists 0, s, L, ns, k'. by split_and!.
Qed.

(** The sequence [11; 22; 33], and DList.v's list of it. *)
Definition listed_ker : ker :=
  set_obj 300 (OList [11; 22; 33]) (KernMain.Sample.boot_ker (fun _ => 0)).

Lemma lists_agree_witness :
  exists r s' L' ns' k',
    list_delete (A := Heap.Interface.heap_allocator 0x200000 0x300000) 10 0x200014 22
      DList.OnHeap.demo_state = Ok (r, s') /\
    list_ok (A := Heap.Interface.heap_allocator 0x200000 0x300000) s' L' 0x200014 ns' /\
    Lists.list_delete 300 22 listed_ker = Ok (tt, k') /\ listed k' 300 ns'.
Proof.
  refine (proj2 (lists_agree (A := Heap.Interface.heap_allocator 0x200000 0x300000) 10
    DList.OnHeap.demo_state _ 0x200014 DList.OnHeap.demo_nodes 22 listed_ker 300
    DList.OnHeap.demo_list _ _ _ _)).
  - lia.
  - cbn. lia.
  - intros a Ha. unfold DList.OnHeap.demo_nodes in Ha.
    repeat (apply elem_of_cons in Ha as [[=]|Ha]); subst; try apply DList.OnHeap.demo_robust.
    by apply not_elem_of_nil in Ha.
  - split; [lia|]. vm_compute. reflexivity.
Defined.
