(* ===== verification/VfsProps.v ===== *)
(** * Properties of the virtual file system

    Path resolution computes the walk that its components spell
    ([Module Walk]); mounting and unmounting keep the table of volumes and the
    root directory that lists them in step ([Module Table]); an operation on a
    node of a mounted volume is its driver's ([Module Nodes]). *)
From S2P Require Import Prelude Mem Device Objects Vfs Devfs KernMain.
From S2P Require CString.
From stdpp Require Import strings.
Local Open Scope Z_scope.
Import CString.Pure.

(** ** Path resolution *)
Module Walk.

Lemma sep_cut d c x rest :
  x ∈ d -> Forall (fun y => y ∉ d) c -> sep d (c ++ x :: rest) = (c, Some rest).
Proof.
  intros Hx. induction 1 as [|y c Hy Hc IH]; cbn [app sep].
  - by rewrite bool_decide_true.
  - by rewrite bool_decide_false, IH by done.
Qed.

Lemma sep_last d c : Forall (fun y => y ∉ d) c -> sep d c = (c, None).
Proof.
  induction 1 as [|y c Hy Hc IH]; cbn [sep]; [done|].
  by rewrite bool_decide_false, IH by done.
Qed.

(** A component: no slash in it. *)
Definition component (c : list Z) : Prop := Forall (fun y => y ∉ chars_of "/") c.

Fixpoint join (comps : list (list Z)) : list Z :=
  match comps with
  | [] => []
  | [c] => c
  | c :: cs => c ++ 47 :: join cs
  end.

(** The specification: the walk from [root] along [comps], given the entry
    lookup [dir] and the nodes' flags.  A missing entry before the last one is
    dereferenced; an entry without the directory bit ends the walk. *)
Fixpoint follow (dir : Z -> list Z -> res Z) (flags : Z -> option Z) (root : Z)
    (comps : list (list Z)) : res Z :=
  match comps with
  | [] => dir root []
  | [c] => dir root c
  | c :: cs =>
      match dir root c with
      | Err e => Err e
      | Ok node =>
          if node =? 0 then Err NullDeref else
          match flags node with
          | None => Err WildPointer
          | Some fl => if Z.land fl VN_FDIR =? 0 then Ok 0 else follow dir flags node cs
          end
      end
  end.

Definition flags_in (s : ker) (p : Z) : option Z := vn_flags <$> view as_node (o_objs s) p.

Definition with_state {A} (r : res A) (s : ker) : res (A * ker) :=
  match r with Ok a => Ok (a, s) | Err e => Err e end.

Section walk.
Context `{FsDrivers}.

(** Looking up an entry changes nothing. *)
Definition read_only_dirs (s : ker) : Prop :=
  forall d n r s', Ops.fs_finddir d n s = Ok (r, s') -> s' = s.
Definition entry_of (s : ker) (d : Z) (n : list Z) : res Z :=
  match Ops.fs_finddir d n s with Ok (r, _) => Ok r | Err e => Err e end.

Lemma finddir_entry s d n :
  read_only_dirs s -> Ops.fs_finddir d n s = with_state (entry_of s d n) s.
Proof.
  intros Hro. unfold entry_of. destruct (Ops.fs_finddir d n s) as [[r s']|e] eqn:E; [|done].
  cbn. by rewrite (Hro d n r s' E).
Qed.

Lemma follow_path_run (s : ker) fuel root comps :
  read_only_dirs s -> Forall component comps -> (length (join comps) < fuel)%nat ->
  Path.fs_follow_path fuel root (join comps) s
  = with_state (follow (entry_of s) (flags_in s) root comps) s.
Proof.
  intros Hdir. revert root fuel. induction comps as [|c [|c' cs] IH];
    intros root [|fuel] Hc Hf; try (cbn in Hf; lia).
  - cbn [join Path.fs_follow_path sep follow]. unfold mbind, M_bind.
    rewrite finddir_entry by done. by destruct (entry_of s root []).
  - apply Forall_cons in Hc as [Hc _]. cbn [join Path.fs_follow_path follow].
    rewrite sep_last by exact Hc. unfold mbind, M_bind.
    rewrite finddir_entry by done. by destruct (entry_of s root c).
  - apply Forall_cons in Hc as [Hc Hcs]. cbn [Path.fs_follow_path].
    change (join (c :: c' :: cs)) with (c ++ 47 :: join (c' :: cs)) in *.
    rewrite sep_cut by (exact Hc || (cbn; left)).
    unfold mbind, M_bind at 1. rewrite finddir_entry by done. cbn [follow].
    destruct (entry_of s root c) as [node|e]; [|done]. cbn [with_state].
    unfold deref, flags_in. destruct (Z.eqb_spec node 0) as [->|Hn]; [done|].
    unfold M_bind at 1.
    destruct (view as_node (o_objs s) node) as [n|]; cbn [fmap option_fmap option_map];
      [|done].
    rewrite if_app. destruct (Z.land (vn_flags n) VN_FDIR =? 0); [done|].
    apply IH; [done|]. rewrite length_app in Hf. cbn [length] in Hf. lia.
Qed.

End walk.
End Walk.

(** ** Operations on nodes *)
Module Nodes.

(** [p] is the node [n] on a volume of the file system [f]. *)
Definition mounted_node (s : ker) (p : Z) (f : fsys) (n : vfs_node) : Prop :=
  exists v, p <> 0 /\ view as_node (o_objs s) p = Some n /\
    vn_volume n <> 0 /\ view as_volume (o_objs s) (vn_volume n) = Some v /\
    vv_family v = fsys_ptr f /\ view as_fsys (o_objs s) (fsys_ptr f) = Some f.

Section nodes.
Context `{FsDrivers}.

Lemma mounted_ops_run s p f n :
  mounted_node s p f n -> Ops.NODE_OPS p s = Ok (Some (fsd_ops (filesys f)), s).
Proof.
  intros (v & Hp & Hn & Hv0 & Hv & Hf & Hfs). unfold Ops.NODE_OPS.
  rewrite (proj2 (Z.eqb_neq p 0)) by done. mstep (deref_run as_node p s n Hp Hn).
  rewrite (proj2 (Z.eqb_neq (vn_volume n) 0)) by done.
  mstep (deref_run as_volume (vn_volume n) s v Hv0 Hv). rewrite Hf, if_app.
  assert (fsys_ptr f <> 0) as Hf0 by by destruct f.
  rewrite (proj2 (Z.eqb_neq _ _) Hf0).
  by mstep (deref_run as_fsys (fsys_ptr f) s f Hf0 Hfs).
Qed.

Lemma mounted_dispatch_run {A B} (hook : vfs_ops -> option B) applies call (otherwise : A) s p f n h :
  mounted_node s p f n -> hook (fsd_ops (filesys f)) = Some h -> applies (vn_flags n) = true ->
  Ops.dispatch hook applies call otherwise p s = call h s.
Proof.
  intros Hm Hh Ha. unfold Ops.dispatch. mstep (mounted_ops_run s p f n Hm).
  cbn [mbind option_bind]. rewrite Hh. destruct Hm as (v & Hp & Hn & _).
  mstep (deref_run as_node p s n Hp Hn). by rewrite Ha.
Qed.

(** A hook does not apply to nodes of other kinds. *)
Lemma mounted_dispatch_skips {A B} (hook : vfs_ops -> option B) applies call (otherwise : A) s p f n :
  mounted_node s p f n -> applies (vn_flags n) = false ->
  Ops.dispatch hook applies call otherwise p s = Ok (otherwise, s).
Proof.
  intros Hm Ha. unfold Ops.dispatch. mstep (mounted_ops_run s p f n Hm).
  cbn [mbind option_bind]. destruct (hook _); [|done]. destruct Hm as (v & Hp & Hn & _).
  mstep (deref_run as_node p s n Hp Hn). by rewrite Ha.
Qed.

End nodes.
End Nodes.

(** ** The table of volumes *)
Module Table.
Import Mounts.

(** *** Comparing names *)

Lemma cmp_eq a b : chars a -> chars b -> cmp a b = 0 <-> a = b.
Proof.
  intros Ha Hb. split; [|intros ->; by induction b as [|x b IH]; cbn;
    [|rewrite Z.eqb_refl; apply IH; inversion Hb]].
  destruct (CString.Facts.cmp_first_difference a b Ha Hb) as [[_ ->]|(i & _ & Hne & ->)];
    [done|lia].
Qed.

Lemma cmpn_16 a b : chars a -> chars b -> cmpn 16 a b = 0 <-> take 17 a = take 17 b.
Proof. intros Ha Hb. cbn [cmpn]. apply cmp_eq; by apply Forall_take. Qed.

(** A name that fits in [vn_name]. *)
Definition valid_name (n : list Z) : Prop := chars n /\ n <> [] /\ (length n < 64)%nat.

(** *** The invariant *)

Abbreviation vol := (Z * vfs_volume)%type.
Abbreviation entry := (Z * vfs_node)%type.

Definition name_of (v : vol) : list Z := default [] (vv_name v.2).
Definition key (v : vol) : list Z := take 17 (name_of v).

Definition vol_at (m : gmap Z obj) (v : vol) : Prop :=
  256 <= v.1 /\ view as_volume m v.1 = Some v.2 /\
  exists n, vv_name v.2 = Some n /\ valid_name n.
Definition entry_at (m : gmap Z obj) (e : entry) : Prop :=
  256 <= e.1 /\ view as_node m e.1 = Some e.2.

(** The root directory's entry for a volume. *)
Definition lists (e : entry) (v : vol) : Prop :=
  vn_name e.2 = name_of v /\ vn_payload e.2 = v.1 /\
  vn_flags e.2 = VN_FREGFILE /\ vn_parent e.2 = rootfs_root.

Record mounts (s : ker) (vs : list vol) (es : list entry) : Prop := Mounts {
  m_fresh : forall p, is_Some (o_objs s !! p) -> p < o_next s;
  m_next : 256 <= o_next s;
  m_static : 256 <= vfs_volumes s /\ 256 <= rootfs_nodes s /\ vfs_volumes s <> rootfs_nodes s;
  m_vols : view as_list (o_objs s) (vfs_volumes s) = Some vs.*1;
  m_vol_at : Forall (vol_at (o_objs s)) vs;
  m_keys : NoDup (key <$> vs);
  m_root : view as_list (o_objs s) (rootfs_nodes s) = Some es.*1;
  m_entry_at : Forall (entry_at (o_objs s)) es;
  m_lists : Forall2 lists es vs
}.

(** [find_mountpoint_by_name] in the table. *)
Definition answers (mt : list Z) (v : vol) : bool := bool_decide (key v = take 17 mt).
Definition lookup_vol (vs : list vol) (mt : list Z) : option vol := List.find (answers mt) vs.

Lemma find_mountpoint_run vs mt s :
  Forall (vol_at (o_objs s)) vs -> chars mt ->
  find_mountpoint vs.*1 mt s
  = Ok (match lookup_vol vs mt with Some v => v.1 | None => 0 end, s).
Proof.
  intros Hvs Hmt. induction Hvs as [|v vs (H1 & H2 & n & Hn & Hc & _) Hvs IH]; [done|].
  cbn [fmap list_fmap find_mountpoint].
  mstep (deref_run as_volume v.1 s v.2 ltac:(lia) H2).
  unfold str. rewrite Hn, ret_bind, if_app. unfold lookup_vol. cbn [List.find].
  unfold answers at 1, key, name_of. rewrite Hn. cbn [default].
  pose proof (cmpn_16 n mt Hc Hmt) as E.
  destruct (Z.eqb_spec (cmpn 16 n mt) 0) as [E0|E0].
  - by rewrite bool_decide_true by (by apply E).
  - rewrite bool_decide_false by (by rewrite <- E). exact IH.
Qed.

Lemma find_by_name_run vs es mt s :
  mounts s vs es -> chars mt ->
  find_mountpoint_by_name mt s
  = Ok (match lookup_vol vs mt with Some v => v.1 | None => 0 end, s).
Proof.
  intros Hm Hmt. unfold find_mountpoint_by_name. rewrite gets_bind.
  destruct (m_static _ _ _ Hm) as (? & ? & ?).
  mstep (deref_run as_list (vfs_volumes s) s _ ltac:(lia) (m_vols _ _ _ Hm)).
  apply find_mountpoint_run; [apply (m_vol_at _ _ _ Hm)|done].
Qed.

Lemma lookup_vol_Some vs mt v :
  lookup_vol vs mt = Some v -> v ∈ vs /\ key v = take 17 mt.
Proof.
  unfold lookup_vol. intros H. apply List.find_some in H as [Hin Ha].
  split; [by apply list_elem_of_In|]. unfold answers in Ha. by apply bool_decide_eq_true in Ha.
Qed.

Lemma lookup_vol_None vs mt : lookup_vol vs mt = None -> take 17 mt ∉ (key <$> vs).
Proof.
  intros H Hin. apply list_elem_of_fmap in Hin as (v & E & Hv).
  apply list_elem_of_In in Hv. apply List.find_none with (x := v) in H; [|done].
  unfold answers in H. by apply bool_decide_eq_false in H.
Qed.

(** *** Frames *)

(** [s'] differs from [s] in nothing the table is made of, except perhaps the
    object at [p]. *)
Record kept (p : Z) (s s' : ker) : Prop := Kept {
  k_statics : vfs_volumes s' = vfs_volumes s /\ rootfs_nodes s' = rootfs_nodes s;
  k_next : o_next s <= o_next s';
  k_fresh : forall q, is_Some (o_objs s' !! q) -> q < o_next s';
  k_objs : forall q, 256 <= q < o_next s -> q <> p -> o_objs s' !! q = o_objs s !! q
}.

Lemma kept_view {A} (kind : obj -> option A) p s s' q :
  kept p s s' -> 256 <= q < o_next s -> q <> p ->
  view kind (o_objs s') q = view kind (o_objs s) q.
Proof. intros H Hq Hne. unfold view. by rewrite (k_objs _ _ _ H). Qed.

Lemma view_fresh {A} (kind : obj -> option A) s q a :
  (forall p, is_Some (o_objs s !! p) -> p < o_next s) ->
  view kind (o_objs s) q = Some a -> q < o_next s.
Proof. intros Hf (o & Ho & _)%view_Some. apply Hf. by exists o. Qed.

Lemma mounts_kept p s s' vs es :
  mounts s vs es -> kept p s s' -> o_next s <= p \/ p < 256 -> mounts s' vs es.
Proof.
  intros Hm Hk Hp. pose proof (m_fresh _ _ _ Hm) as Hf.
  destruct (m_static _ _ _ Hm) as (S1 & S2 & S3).
  assert (forall {A} (kind : obj -> option A) q a, 256 <= q ->
    view kind (o_objs s) q = Some a -> view kind (o_objs s') q = Some a) as Hv.
  { intros A kind q a Hq Ha. pose proof (view_fresh kind s q a Hf Ha).
    rewrite (kept_view kind p s s') by (done || lia). done. }
  destruct (k_statics _ _ _ Hk) as [E1 E2]. pose proof (k_next _ _ _ Hk).
  pose proof (m_next _ _ _ Hm).
  split; rewrite ?E1, ?E2.
  - apply (k_fresh _ _ _ Hk).
  - lia.
  - done.
  - apply Hv; [done|apply (m_vols _ _ _ Hm)].
  - eapply Forall_impl; [apply (m_vol_at _ _ _ Hm)|]. intros v (H1 & H2 & H3). split_and!; auto.
  - apply (m_keys _ _ _ Hm).
  - apply Hv; [done|apply (m_root _ _ _ Hm)].
  - eapply Forall_impl; [apply (m_entry_at _ _ _ Hm)|]. intros v (H1 & H2). split; auto.
  - apply (m_lists _ _ _ Hm).
Qed.

Lemma mounts_same s s' ws rs : mounts s ws rs -> same_tree s s' -> mounts s' ws rs.
Proof.
  intros Hm (Eo & Hn & _ & Et). injection Et as E1 _ E2 _.
  apply (mounts_kept (o_next s) s); [done| |lia]. split; [done|done| |].
  - intros q. rewrite Eo. intros Hq. apply (m_fresh _ _ _ Hm) in Hq. lia.
  - intros q _ _. by rewrite Eo.
Qed.

(** *** Steps of the operations *)

Definition rich (s : ker) : Prop := forall i, o_grants s i = true.

Lemma new_run s o :
  rich s ->
  new o s = Ok (o_next s, set_next (o_next s + 1) (set_obj (o_next s) (o (o_next s)) (tick s))).
Proof. intros H. unfold new. by rewrite H. Qed.

Lemma dup_run s n :
  rich s -> n <> [] -> dup n s = Ok (Some n, set_next (o_next s + 1) (tick s)).
Proof. intros H Hn. unfold dup. rewrite H. by rewrite decide_False. Qed.

Lemma list_append_run l x xs s :
  rich s -> l <> 0 -> view as_list (o_objs s) l = Some xs ->
  Lists.list_append l x s = Ok (tt, set_obj l (OList (xs ++ [x])) (tick s)).
Proof.
  intros Hr Hl Hv. unfold Lists.list_append. mstep (deref_run as_list l s xs Hl Hv).
  unfold Lists.append_node. by rewrite Hr.
Qed.

Lemma copy_name_run junk n s :
  valid_name n -> copy_name junk (Some n) s = Ok (n, s).
Proof.
  intros (_ & Hne & Hl). destruct n as [|c n]; [done|]. unfold copy_name.
  by rewrite (proj2 (Nat.ltb_lt _ _) Hl).
Qed.

(** The state in which the driver's mount hook is called. *)
Definition volume_made (name : list Z) (fam argp : Z) (s : ker) : ker :=
  set_obj (o_next s) (OVolume (Volume (Some name) fam 0 argp))
    (set_next (o_next s + 1 + 1)
      (tick (set_next (o_next s + 1) (set_obj (o_next s) (OVolume (Volume None 0 0 0)) (tick s))))).

Lemma volume_made_kept name fam argp s :
  (forall p, is_Some (o_objs s !! p) -> p < o_next s) ->
  kept (o_next s) s (volume_made name fam argp s).
Proof.
  intros Hf. split; cbn.
  - done.
  - lia.
  - intros q Hq. destruct (decide (q = o_next s)) as [->|Hne]; [lia|].
    rewrite !lookup_insert_ne in Hq by done. specialize (Hf q Hq). lia.
  - intros q Hq Hne. by rewrite !lookup_insert_ne by done.
Qed.

(** What a successful mount hook may do: set the new volume's root and payload,
    make objects of its own, and change static nodes. *)
Record hooked (p root payload : Z) (s s' : ker) : Prop := Hooked {
  h_kept : kept p s s';
  h_grants : o_grants s' = o_grants s;
  h_rootfs : exists n, view as_node (o_objs s') rootfs_root = Some n;
  h_vol : forall v, view as_volume (o_objs s) p = Some v ->
    view as_volume (o_objs s') p = Some (Volume (vv_name v) (vv_family v) root payload)
}.

Lemma kept_trans p s1 s2 s3 : kept p s1 s2 -> kept p s2 s3 -> kept p s1 s3.
Proof.
  intros [[A1 A2] A3 A4 A5] [[B1 B2] B3 B4 B5]. split.
  - by rewrite B1, B2.
  - lia.
  - done.
  - intros q Hq Hne. rewrite B5, A5 by (done || lia). done.
Qed.

(** Adding the volume at [p] to the table: the last two steps of
    [vfs_mount]. *)
Definition registered (s : ker) (l p : Z) (vs : list vol) (es : list entry) (e : entry) : ker :=
  set_obj (rootfs_nodes s) (OList (es.*1 ++ [e.1]))
    (tick (set_obj e.1 (ONode e.2)
      (set_next (e.1 + 1) (set_obj e.1 (ONode (Node [] 0 0 0 0)) (tick
        (set_obj l (OList (vs.*1 ++ [p])) (tick s))))))).

Ltac views :=
  cbn [o_objs set_obj set_objs set_next tick o_next vfs_volumes rootfs_nodes];
  repeat first
    [ rewrite view_insert | rewrite view_insert_ne by (unfold rootfs_root in *; lia) ].

Lemma rootfs_register_run s p es v n rn :
  rich s -> 256 <= p < o_next s -> 256 <= rootfs_nodes s < o_next s ->
  view as_volume (o_objs s) p = Some v -> vv_name v = Some n -> valid_name n ->
  view as_node (o_objs s) rootfs_root = Some rn ->
  view as_list (o_objs s) (rootfs_nodes s) = Some es ->
  let q := o_next s in
  rootfs_register_volume p s
  = Ok (tt, set_obj (rootfs_nodes s) (OList (es ++ [q]))
      (tick (set_obj q (ONode (Node n VN_FREGFILE rootfs_root (vn_volume rn) p))
        (set_next (q + 1) (set_obj q (ONode (Node [] 0 0 0 0)) (tick s)))))).
Proof.
  intros Hr Hp Hl Hv Hn Hval Hrn Hes q. unfold rootfs_register_volume.
  mstep (new_run s (fun _ => ONode (Node [] 0 0 0 0)) Hr). fold q.
  rewrite if_app, (proj2 (Z.eqb_neq q 0)) by lia.
  set (s1 := set_next (q + 1) _).
  assert (view as_volume (o_objs s1) p = Some v) as Hv1 by (subst s1; by views).
  mstep (deref_run as_volume p s1 v ltac:(lia) Hv1). rewrite gets_bind, Hn.
  mstep (copy_name_run (o_junk_name s1 q) n s1 Hval).
  assert (view as_node (o_objs s1) rootfs_root = Some rn) as Hrn1 by (subst s1; by views).
  mstep (deref_run as_node rootfs_root s1 rn ltac:(done) Hrn1).
  rewrite put_bind, gets_bind.
  apply (list_append_run (rootfs_nodes s) q es); [exact Hr|lia|].
  subst s1. by views.
Qed.

Lemma register_run s p vs es v n rn :
  rich s -> mounts s vs es -> 256 <= p < o_next s -> p <> vfs_volumes s -> p <> rootfs_nodes s ->
  view as_volume (o_objs s) p = Some v -> vv_name v = Some n -> valid_name n ->
  view as_node (o_objs s) rootfs_root = Some rn ->
  let e := (o_next s, Node n VN_FREGFILE rootfs_root (vn_volume rn) p) in
  (l ← gets vfs_volumes; _ ← Lists.list_append l p; _ ← rootfs_register_volume p; mret 0) s
  = Ok (0, registered s (vfs_volumes s) p vs es e).
Proof.
  intros Hr Hm Hp Hpv Hpr Hv Hn Hval Hrn e. rewrite gets_bind.
  destruct (m_static _ _ _ Hm) as (S1 & S2 & S3). pose proof (m_next _ _ _ Hm) as Hnx.
  pose proof (view_fresh as_list s _ _ (m_fresh _ _ _ Hm) (m_root _ _ _ Hm)) as Hlr.
  mstep (list_append_run (vfs_volumes s) p vs.*1 s Hr ltac:(lia) (m_vols _ _ _ Hm)).
  set (s1 := set_obj (vfs_volumes s) _ (tick s)).
  rewrite (bind_Ok _ _ s1 tt (registered s (vfs_volumes s) p vs es e)); [done|].
  apply (rootfs_register_run s1 p es.*1 v n rn); try done.
  - subst s1. by views.
  - subst s1. by views.
  - subst s1. views. apply (m_root _ _ _ Hm).
Qed.

(** A list object is no volume and no node. *)
Lemma list_apart {A} (kind : obj -> option A) m l q xs a :
  (forall ys, kind (OList ys) = None) ->
  view as_list m l = Some xs -> view kind m q = Some a -> q <> l.
Proof.
  intros Hk (o & Ho & Hx)%view_Some (o' & Ho' & Ha)%view_Some ->.
  rewrite Ho in Ho'. injection Ho' as <-. destruct o; try done. by rewrite Hk in Ha.
Qed.

(** Objects of the table lie apart from its lists and below the next free
    address. *)
Lemma mounts_apart {A} (kind : obj -> option A) s vs es q a :
  mounts s vs es -> (forall ys, kind (OList ys) = None) -> view kind (o_objs s) q = Some a ->
  q < o_next s /\ q <> vfs_volumes s /\ q <> rootfs_nodes s.
Proof.
  intros Hm Hk Ha. split_and!.
  - by eapply view_fresh; [apply (m_fresh _ _ _ Hm)|].
  - by eapply list_apart; [|apply (m_vols _ _ _ Hm)|].
  - by eapply list_apart; [|apply (m_root _ _ _ Hm)|].
Qed.

Lemma registered_view {A} (kind : obj -> option A) s vs es p e q a :
  mounts s vs es -> (forall ys, kind (OList ys) = None) -> e.1 = o_next s ->
  view kind (o_objs s) q = Some a ->
  view kind (o_objs (registered s (vfs_volumes s) p vs es e)) q = Some a.
Proof.
  intros Hm Hk He Ha. destruct (mounts_apart kind s vs es q a Hm Hk Ha) as (H1 & H2 & H3).
  unfold registered. by views.
Qed.

(** The invariant afterwards. *)
Lemma registered_mounts s p vs es v n rn :
  mounts s vs es -> 256 <= p -> view as_volume (o_objs s) p = Some v ->
  vv_name v = Some n -> valid_name n -> take 17 n ∉ (key <$> vs) ->
  let e := (o_next s, Node n VN_FREGFILE rootfs_root (vn_volume rn) p) in
  mounts (registered s (vfs_volumes s) p vs es e) (vs ++ [(p, v)]) (es ++ [e]).
Proof.
  intros Hm Hp Hv Hn Hval Hkey e.
  destruct (m_static _ _ _ Hm) as (S1 & S2 & S3). pose proof (m_next _ _ _ Hm) as Hnx.
  pose proof (view_fresh as_list s _ _ (m_fresh _ _ _ Hm) (m_vols _ _ _ Hm)) as Hlv.
  pose proof (view_fresh as_list s _ _ (m_fresh _ _ _ Hm) (m_root _ _ _ Hm)) as Hlr.
  split; cbn [o_next vfs_volumes rootfs_nodes registered set_obj set_objs set_next tick].
  - intros q. unfold registered. cbn [e fst snd]. views. rewrite !lookup_insert_is_Some'.
    intros [|[|[|[|Hq]]]]; try lia. apply (m_fresh _ _ _ Hm) in Hq. lia.
  - cbn [e fst]. lia.
  - done.
  - unfold registered. cbn [e fst snd]. views. by rewrite fmap_app.
  - apply Forall_app. split.
    + eapply Forall_impl; [apply (m_vol_at _ _ _ Hm)|]. intros w (H1 & H2 & H3).
      split_and!; [done| |done]. by apply (registered_view as_volume s vs es).
    + apply Forall_singleton. split_and!; [done| |by exists n].
      by apply (registered_view as_volume s vs es).
  - rewrite fmap_app. apply NoDup_app. split_and!; [apply (m_keys _ _ _ Hm)| |apply NoDup_singleton].
    assert (key (p, v) = take 17 n) as E by (unfold key, name_of; cbn; by rewrite Hn).
    intros k Hk ->%list_elem_of_singleton. by rewrite E in Hk.
  - unfold registered. views. by rewrite fmap_app.
  - apply Forall_app. split.
    + eapply Forall_impl; [apply (m_entry_at _ _ _ Hm)|]. intros w (H1 & H2).
      split; [done|]. by apply (registered_view as_node s vs es).
    + apply Forall_singleton. split; [cbn; lia|]. unfold registered. cbn [e fst snd]. by views.
  - apply Forall2_app; [apply (m_lists _ _ _ Hm)|]. constructor; [|constructor].
    unfold lists, name_of. cbn. by rewrite Hn.
Qed.

(** *** Drivers *)

Section drivers.
Context `{FsDrivers}.

Definition ident (f : fsys) : list Z := fsd_ident (filesys f).

(** The registered drivers. *)
Definition drivers_ok (s : ker) (ds : list fsys) : Prop :=
  256 <= vfs_drivers s /\ view as_list (o_objs s) (vfs_drivers s) = Some (fsys_ptr <$> ds) /\
  Forall (fun f => view as_fsys (o_objs s) (fsys_ptr f) = Some f /\ chars (ident f)) ds.

Definition lookup_driver (ds : list fsys) (name : list Z) : option fsys :=
  List.find (fun f => bool_decide (name = ident f)) ds.

Lemma find_driver_run ds name s :
  Forall (fun f => view as_fsys (o_objs s) (fsys_ptr f) = Some f /\ chars (ident f)) ds ->
  chars name ->
  find_driver (fsys_ptr <$> ds) name s
  = Ok (match lookup_driver ds name with Some f => fsys_ptr f | None => 0 end, s).
Proof.
  intros Hds Hn. induction Hds as [|f ds [Hf Hi] Hds IH]; [done|].
  cbn [fmap list_fmap find_driver].
  mstep (deref_run as_fsys (fsys_ptr f) s f ltac:(by destruct f) Hf).
  rewrite if_app. unfold lookup_driver. cbn [List.find].
  pose proof (cmp_eq name (ident f) Hn Hi) as E. unfold ident in E.
  destruct (Z.eqb_spec (cmp name (fsd_ident (filesys f))) 0) as [E0|E0].
  - by rewrite bool_decide_true by (by apply E).
  - rewrite bool_decide_false by (unfold ident; by rewrite <- E). exact IH.
Qed.

Lemma get_driver_run ds name s :
  drivers_ok s ds -> chars name ->
  get_driver_by_name name s
  = Ok (match lookup_driver ds name with Some f => fsys_ptr f | None => 0 end, s).
Proof.
  intros (H1 & H2 & H3) Hn. unfold get_driver_by_name. rewrite gets_bind.
  mstep (deref_run as_list (vfs_drivers s) s _ ltac:(lia) H2). by apply find_driver_run.
Qed.

Lemma lookup_driver_view ds name f s :
  drivers_ok s ds -> lookup_driver ds name = Some f ->
  view as_fsys (o_objs s) (fsys_ptr f) = Some f.
Proof.
  intros (_ & _ & H3) Hl. apply List.find_some in Hl as [Hin _].
  apply list_elem_of_In in Hin. rewrite Forall_forall in H3. by apply H3.
Qed.

(** *** Mounting, up to the registration *)

Lemma mount_prefix_run ds s vs es driver name argp f s2 r :
  rich s -> mounts s vs es -> drivers_ok s ds -> chars driver -> valid_name name ->
  lookup_vol vs name = None -> lookup_driver ds driver = Some f ->
  fsd_mount (filesys f) (o_next s) (volume_made name (fsys_ptr f) argp s) = Ok (r, s2) ->
  vfs_mount driver name argp s
  = (if r <? 0 then (_ ← free_obj (o_next s); mret (-1))
     else (l ← gets vfs_volumes; _ ← Lists.list_append l (o_next s);
           _ ← rootfs_register_volume (o_next s); mret 0)) s2.
Proof.
  intros Hr Hm Hds Hd Hval Hvol Hdrv Hhook. unfold vfs_mount. pose proof (m_next _ _ _ Hm) as Hnx.
  destruct Hval as (Hc & Hne & _).
  mstep (find_by_name_run vs es name s Hm Hc). rewrite Hvol. cbn [negb Z.eqb].
  mstep (get_driver_run ds driver s Hds Hd). rewrite Hdrv, if_app.
  rewrite (proj2 (Z.eqb_neq (fsys_ptr f) 0)) by (by destruct f).
  mstep (new_run s (fun _ => OVolume (Volume None 0 0 0)) Hr).
  rewrite if_app, (proj2 (Z.eqb_neq (o_next s) 0)) by lia.
  set (s1 := set_next (o_next s + 1) _).
  mstep (dup_run s1 name Hr Hne). rewrite put_bind.
  change (set_obj (o_next s) _ _) with (volume_made name (fsys_ptr f) argp s).
  set (s3 := volume_made name (fsys_ptr f) argp s).
  assert (view as_fsys (o_objs s3) (fsys_ptr f) = Some f) as Hf.
  { subst s3. unfold volume_made. pose proof (lookup_driver_view _ _ _ _ Hds Hdrv).
    assert (fsys_ptr f < 256) by (by destruct f). by views. }
  mstep (deref_run as_fsys (fsys_ptr f) s3 f ltac:(by destruct f) Hf).
  by mstep Hhook.
Qed.

End drivers.

(** The root of the volume that answers to the name. *)
Lemma get_volume_run vs es mt s :
  mounts s vs es -> chars mt ->
  vfs_get_volume mt s = Ok (match lookup_vol vs mt with Some v => vv_root v.2 | None => 0 end, s).
Proof.
  intros Hm Hc. unfold vfs_get_volume. mstep (find_by_name_run vs es mt s Hm Hc).
  destruct (lookup_vol vs mt) as [v|] eqn:Hv; [|done].
  destruct (lookup_vol_Some _ _ _ Hv) as [Hin _].
  pose proof (m_vol_at _ _ _ Hm) as HF. rewrite Forall_forall in HF. destruct (HF v Hin) as (V1 & V2 & _).
  rewrite (proj2 (Z.eqb_neq v.1 0)) by lia. by mstep (deref_run as_volume v.1 s v.2 ltac:(lia) V2).
Qed.

(** *** Unmounting *)

Lemma unregister_run a e b l s n all :
  Forall (entry_at (o_objs s)) (a ++ [e]) -> Forall (fun w => chars (vn_name w.2)) (a ++ [e]) ->
  chars n -> Forall (fun w => vn_name w.2 <> n) a -> vn_name e.2 = n ->
  l <> 0 -> view as_list (o_objs s) l = Some all ->
  unregister (a ++ e :: b).*1 l n s = Ok (tt, set_obj l (OList (Lists.remove_first e.1 all)) s).
Proof.
  intros He Hc Hn Ha Hen Hl0 Hall. induction a as [|w a IH].
  - apply Forall_cons in He as [[He1 He2] _]. apply Forall_cons in Hc as [Hc _].
    cbn [app fmap list_fmap unregister].
    mstep (deref_run as_node e.1 s e.2 ltac:(lia) He2). rewrite if_app.
    rewrite (proj2 (Z.eqb_eq (cmp (vn_name e.2) n) 0)) by exact (proj2 (cmp_eq _ _ Hc Hn) Hen).
    unfold Lists.list_delete. by mstep (deref_run as_list l s all Hl0 Hall).
  - apply Forall_cons in He as [[Hw1 Hw2] He]. apply Forall_cons in Hc as [Hwc Hc].
    apply Forall_cons in Ha as [Hwn Ha].
    cbn [app fmap list_fmap unregister].
    mstep (deref_run as_node w.1 s w.2 ltac:(lia) Hw2). rewrite if_app.
    rewrite (proj2 (Z.eqb_neq (cmp (vn_name w.2) n) 0)) by exact (fun E => Hwn (proj1 (cmp_eq _ _ Hwc Hn) E)).
    by apply IH.
Qed.

Lemma remove_first_mid x (a b : list Z) :
  x ∉ a -> Lists.remove_first x (a ++ x :: b) = a ++ b.
Proof.
  induction a as [|y a IH]; cbn; [by rewrite Z.eqb_refl|].
  intros [Hxy Ha]%not_elem_of_cons. rewrite (proj2 (Z.eqb_neq y x)) by (by intros ->). by rewrite IH.
Qed.

(** The volume that answers to a name, its entry, and what lies before and
    behind them. *)
Lemma table_split s vs es v :
  mounts s vs es -> v ∈ vs ->
  exists va vb ea e eb, vs = va ++ v :: vb /\ es = ea ++ e :: eb /\
    Forall2 lists ea va /\ lists e v /\ Forall2 lists eb vb /\
    (key v ∉ (key <$> (va ++ vb))) /\ (v.1 ∉ va.*1) /\ (e.1 ∉ ea.*1).
Proof.
  intros Hm (va & vb & ->)%list_elem_of_split.
  destruct (proj1 (Forall2_app_inv_r _ _ _ _) (m_lists _ _ _ Hm)) as (ea & er & H1 & H2 & ->).
  inversion H2 as [|e v' eb vb' Hl H3]; subst. pose proof (m_keys _ _ _ Hm) as Hk.
  rewrite fmap_app, fmap_cons in Hk. apply NoDup_app in Hk as (Hk1 & Hk2 & [Hk3 Hk4]%NoDup_cons).
  exists va, vb, ea, e, eb. split_and!; try done.
  - rewrite fmap_app, elem_of_app. intros [Hin|]; [|done]. apply (Hk2 _ Hin). left.
  - intros (w & E & Hw)%list_elem_of_fmap. apply (Hk2 (key v)); [|left].
    apply list_elem_of_fmap. exists w. split; [|done].
    pose proof (m_vol_at _ _ _ Hm) as Hv. rewrite Forall_forall in Hv.
    destruct (Hv w ltac:(set_solver)) as (_ & Ew & _). destruct (Hv v ltac:(set_solver)) as (_ & Ev & _).
    unfold key, name_of. rewrite <- E in Ew. congruence.
  - intros (w & E & Hw)%list_elem_of_fmap.
    pose proof (m_entry_at _ _ _ Hm) as Hv. rewrite Forall_forall in Hv.
    destruct (Hv w ltac:(set_solver)) as (_ & Ew). destruct (Hv e ltac:(set_solver)) as (_ & Ee).
    rewrite <- E in Ew. assert (w.2 = e.2) as Ewe by congruence.
    apply list_elem_of_lookup_1 in Hw as [i Hi].
    destruct (Forall2_lookup_l _ _ _ _ _ H1 Hi) as (u & Hu & Hlu).
    apply (Hk2 (key u)); [by apply list_elem_of_fmap_2, list_elem_of_lookup_2 with i|].
    assert (key u = key v) as ->; [|left]. unfold key.
    destruct Hlu as [<- _], Hl as [<- _]. by rewrite Ewe.
Qed.

(** The state after unmounting [v], with what is left of the two lists. *)
Definition unmounted (s : ker) (v : vol) (vs : list vol) (es : list entry) : ker :=
  set_objs (delete v.1
    (o_objs (set_obj (vfs_volumes s) (OList vs.*1) (set_obj (rootfs_nodes s) (OList es.*1) s))))
    (set_obj (vfs_volumes s) (OList vs.*1) (set_obj (rootfs_nodes s) (OList es.*1) s)).

Lemma unmounted_view {A} (kind : obj -> option A) s vs es v vs' es' q a :
  mounts s vs es -> (forall ys, kind (OList ys) = None) -> q <> v.1 ->
  view kind (o_objs s) q = Some a -> view kind (o_objs (unmounted s v vs' es')) q = Some a.
Proof.
  intros Hm Hk Hq Ha. destruct (mounts_apart kind s vs es q a Hm Hk Ha) as (H1 & H2 & H3).
  unfold unmounted. cbn [o_objs set_objs]. rewrite view_delete_ne by done. by views.
Qed.

Lemma unmounted_mounts s va v vb ea e eb :
  mounts s (va ++ v :: vb) (ea ++ e :: eb) -> v.1 ∉ (va ++ vb).*1 ->
  Forall2 lists ea va -> Forall2 lists eb vb ->
  mounts (unmounted s v (va ++ vb) (ea ++ eb)) (va ++ vb) (ea ++ eb).
Proof.
  intros Hm Hnv H1 H2. destruct (m_static _ _ _ Hm) as (S1 & S2 & S3).
  pose proof (m_vol_at _ _ _ Hm) as Hv. pose proof (m_entry_at _ _ _ Hm) as He.
  apply Forall_app in Hv as [Hva [(Hv1 & Hv2 & _) Hvb]%Forall_cons].
  apply Forall_app in He as [Hea [_ Heb]%Forall_cons].
  destruct (mounts_apart as_volume s _ _ v.1 v.2 Hm ltac:(done) Hv2) as (L1 & L2 & L3).
  assert (forall w, w ∈ va ++ vb -> vol_at (o_objs s) w ->
    vol_at (o_objs (unmounted s v (va ++ vb) (ea ++ eb))) w) as Hvol.
  { intros w Hw (W1 & W2 & W3). split_and!; [done| |done].
    eapply unmounted_view; [exact Hm|done| |done].
    intros E. apply Hnv. rewrite <- E. by apply list_elem_of_fmap_2. }
  assert (forall w, entry_at (o_objs s) w ->
    entry_at (o_objs (unmounted s v (va ++ vb) (ea ++ eb))) w) as Hent.
  { intros w (W1 & W2). split; [done|]. eapply unmounted_view; [exact Hm|done| |done].
    intros E. rewrite E in W2. unfold view in Hv2, W2.
    destruct (o_objs s !! v.1) as [[]|]; done. }
  split; unfold unmounted; cbn [o_next vfs_volumes rootfs_nodes set_obj set_objs o_objs].
  - intros p [o Ho]. apply lookup_delete_Some in Ho as [_ Ho].
    assert (is_Some (o_objs s !! p) \/ p = vfs_volumes s \/ p = rootfs_nodes s) as [Hp|Hp].
    { destruct (decide (p = vfs_volumes s)); [auto|]. destruct (decide (p = rootfs_nodes s)); [auto|].
      rewrite !lookup_insert_ne in Ho by done. left. by exists o. }
    { by apply (m_fresh _ _ _ Hm). }
    pose proof (view_fresh as_list s _ _ (m_fresh _ _ _ Hm) (m_vols _ _ _ Hm)).
    pose proof (view_fresh as_list s _ _ (m_fresh _ _ _ Hm) (m_root _ _ _ Hm)).
    destruct Hp as [->| ->]; done.
  - apply (m_next _ _ _ Hm).
  - done.
  - rewrite view_delete_ne by done. by views.
  - apply Forall_forall. intros w Hw. apply Hvol; [done|].
    assert (Forall (vol_at (o_objs s)) (va ++ vb)) as HF by (by apply Forall_app).
    rewrite Forall_forall in HF. by apply HF.
  - pose proof (m_keys _ _ _ Hm) as Hk. rewrite fmap_app, fmap_cons in Hk.
    apply NoDup_app in Hk as (K1 & K2 & [_ K3]%NoDup_cons). rewrite fmap_app.
    apply NoDup_app. split_and!; [done| |done]. intros x Hx Hx'. apply (K2 x Hx). by right.
  - rewrite view_delete_ne by done. by views.
  - apply Forall_app. split; (eapply Forall_impl; [eassumption|exact Hent]).
  - by apply Forall2_app.
Qed.

Lemma entries_chars m es vs :
  Forall2 lists es vs -> Forall (vol_at m) vs -> Forall (fun w => chars (vn_name w.2)) es.
Proof.
  induction 1 as [|e v es vs [Hn _] Hl IH]; [done|].
  intros [(_ & _ & n & Hv & Hc & _) Hvs]%Forall_cons. constructor; [|by apply IH].
  rewrite Hn. unfold name_of. by rewrite Hv.
Qed.

Lemma entries_differ es vs v :
  Forall2 lists es vs -> key v ∉ (key <$> vs) -> Forall (fun w => vn_name w.2 <> name_of v) es.
Proof.
  induction 1 as [|e w es vs [Hn _] Hl IH]; [done|]. rewrite fmap_cons.
  intros [H1 H2]%not_elem_of_cons. constructor; [|by apply IH].
  rewrite Hn. intros E. apply H1. unfold key. by rewrite E.
Qed.

Lemma umount_run s va v vb ea e eb mt :
  mounts s (va ++ v :: vb) (ea ++ e :: eb) -> chars mt ->
  lookup_vol (va ++ v :: vb) mt = Some v ->
  Forall2 lists ea va -> lists e v -> key v ∉ (key <$> (va ++ vb)) ->
  v.1 ∉ va.*1 -> e.1 ∉ ea.*1 ->
  vfs_umount mt s = Ok (0, unmounted s v (va ++ vb) (ea ++ eb)).
Proof.
  intros Hm Hmt Hlook H1 Hl Hkv Hva Hea. unfold vfs_umount.
  destruct (m_static _ _ _ Hm) as (S1 & S2 & S3).
  pose proof (m_vol_at _ _ _ Hm) as Hv. rewrite Forall_forall in Hv.
  destruct (Hv v ltac:(apply elem_of_app; right; left)) as (V1 & V2 & n & Hn & Hc & _).
  mstep (find_by_name_run _ _ mt s Hm Hmt). rewrite Hlook, if_app.
  rewrite (proj2 (Z.eqb_neq v.1 0)) by lia.
  unfold rootfs_unregister_volume.
  rewrite (bind_Ok _ _ s tt (set_obj (rootfs_nodes s) (OList (ea ++ eb).*1) s)).
  - rewrite gets_bind. set (s1 := set_obj (rootfs_nodes s) _ s).
    unfold Lists.list_delete.
    assert (view as_list (o_objs s1) (vfs_volumes s) = Some (va ++ v :: vb).*1) as Hvl.
    { subst s1. views. apply (m_vols _ _ _ Hm). }
    rewrite (bind_Ok _ _ s1 tt (set_obj (vfs_volumes s) (OList (va ++ vb).*1) s1)).
    + unfold free_obj. rewrite (proj2 (Z.eqb_neq v.1 0)) by lia. done.
    + mstep (deref_run as_list (vfs_volumes s) s1 _ ltac:(lia) Hvl).
      rewrite !fmap_app, fmap_cons, remove_first_mid by done. done.
  - rewrite gets_bind.
    mstep (deref_run as_list (rootfs_nodes s) s _ ltac:(lia) (m_root _ _ _ Hm)).
    rewrite decide_False by (by destruct ea).
    mstep (deref_run as_volume v.1 s v.2 ltac:(lia) V2). unfold str. rewrite Hn, ret_bind.
    assert (name_of v = n) as En by (unfold name_of; by rewrite Hn).
    rewrite (unregister_run ea e eb (rootfs_nodes s) s n (ea ++ e :: eb).*1).
    + rewrite !fmap_app, fmap_cons, remove_first_mid by done. done.
    + pose proof (m_entry_at _ _ _ Hm) as He. apply Forall_app in He as [He1 [He2 _]%Forall_cons].
      apply Forall_app. by split; [|apply Forall_singleton].
    + pose proof (entries_chars _ _ _ (m_lists _ _ _ Hm) (m_vol_at _ _ _ Hm)) as He.
      apply Forall_app in He as [He1 [He2 _]%Forall_cons].
      apply Forall_app. by split; [|apply Forall_singleton].
    + done.
    + rewrite <- En. apply (entries_differ ea va); [done|].
      rewrite fmap_app in Hkv. by intros ?; apply Hkv, elem_of_app; left.
    + destruct Hl as [-> _]. done.
    + lia.
    + apply (m_root _ _ _ Hm).
Qed.

Lemma lookup_vol_snoc vs v mt :
  lookup_vol vs mt = None -> key v = take 17 mt -> lookup_vol (vs ++ [v]) mt = Some v.
Proof.
  intros Hn E. unfold lookup_vol in *. induction vs as [|w vs IH]; cbn [app List.find] in *.
  - unfold answers. by rewrite bool_decide_true.
  - destruct (answers mt w); [done|]. by apply IH.
Qed.

Lemma lookup_vol_split va v vb mt :
  key v ∉ (key <$> (va ++ vb)) -> key v = take 17 mt ->
  lookup_vol (va ++ v :: vb) mt = Some v /\ lookup_vol (va ++ vb) mt = None.
Proof.
  intros Hk E. unfold lookup_vol. split.
  - induction va as [|w va IH]; cbn [app List.find].
    + unfold answers. by rewrite bool_decide_true.
    + cbn [app] in Hk. rewrite fmap_cons in Hk. apply not_elem_of_cons in Hk as [H1 H2].
      unfold answers at 1. rewrite bool_decide_false; [by apply IH|congruence].
  - induction (va ++ vb) as [|w ws IH]; [done|]. cbn [List.find].
    rewrite fmap_cons in Hk. apply not_elem_of_cons in Hk as [H1 H2].
    unfold answers at 1. rewrite bool_decide_false by congruence. by apply IH.
Qed.

End Table.

Import Walk Table Mounts.

(** *** The device file system's mount hook keeps the contract *)

Definition devfs_mounted (p : Z) (v : vfs_volume) (root : vfs_node) (s : ker) : ker :=
  set_obj p (OVolume (Volume (vv_name v) (vv_family v) devfs_rootdir (vv_payload v)))
    (set_obj devfs_rootdir
      (ONode (Node (vn_name root) (vn_flags root) (vn_parent root) p (vn_payload root))) s).

Lemma devfs_mount_hooked p s v root :
  (forall q, is_Some (o_objs s !! q) -> q < o_next s) -> 256 <= p ->
  view as_volume (o_objs s) p = Some v -> view as_node (o_objs s) devfs_rootdir = Some root ->
  vn_volume root = 0 -> (exists n, view as_node (o_objs s) rootfs_root = Some n) ->
  Devfs.Impl.devfs_mount p s = Ok (0, devfs_mounted p v root s) /\
  hooked p devfs_rootdir (vv_payload v) s (devfs_mounted p v root s).
Proof.
  intros Hf Hp Hv Hroot Hz [rn Hrn]. unfold Devfs.Impl.devfs_mount.
  pose proof (view_fresh as_volume s p v Hf Hv).
  mstep (deref_run as_node devfs_rootdir s root ltac:(done) Hroot). rewrite Hz. cbn [negb Z.eqb].
  rewrite put_bind. set (s1 := set_obj devfs_rootdir _ s).
  assert (view as_volume (o_objs s1) p = Some v) as Hv1.
  { subst s1. cbn [o_objs set_obj set_objs].
    by rewrite view_insert_ne by (unfold devfs_rootdir; lia). }
  mstep (deref_run as_volume p s1 v ltac:(lia) Hv1). split; [reflexivity|].
  unfold devfs_mounted. subst s1. split; [split|..]; cbn [o_objs set_obj set_objs o_next vfs_volumes rootfs_nodes o_grants].
  - done.
  - lia.
  - intros q. rewrite !lookup_insert_is_Some'. unfold devfs_rootdir.
    intros [|[|Hq]]; [lia..|by apply Hf].
  - intros q Hq Hne. unfold devfs_rootdir. by rewrite !lookup_insert_ne by lia.
  - done.
  - exists rn. unfold devfs_rootdir, rootfs_root in *.
    by rewrite !view_insert_ne by lia.
  - intros w Hw. rewrite Hv in Hw. injection Hw as <-. by rewrite view_insert.
Qed.

(** ** A sample: the root file system is mounted *)
Module Start.
Import KernMain.Impl KernMain.Sample.

Definition sample_state : ker :=
  match Mounts.vfs_init (H := kernel_filesystems sample_config) descriptors (boot_ker (fun _ => 0)) with
  | Ok (_, s) => s
  | Err _ => boot_ker (fun _ => 0)
  end.
Definition sample_vols : list vol :=
  [(258, Volume (Some (chars_of "ROOT")) (fsys_ptr rootfs_fs) rootfs_root 0)].
Definition sample_entries : list entry :=
  [(261, Node (chars_of "ROOT") VN_FREGFILE rootfs_root 258 258)].

Lemma sample_mounts : mounts sample_state sample_vols sample_entries.
Proof.
  split.
  - assert (map_Forall (fun p _ => p < o_next sample_state) (o_objs sample_state)) as HF by decided.
    intros p [o Ho]. by apply (HF p o).
  - by vm_compute.
  - by vm_compute.
  - by vm_compute.
  - constructor; [|done]. split_and!; [done|by vm_compute|]. exists (chars_of "ROOT").
    split; [done|]. split; [decided|]. split; [done|cbn; lia].
  - decided.
  - by vm_compute.
  - constructor; [|done]. split; [done|by vm_compute].
  - constructor; [|done]. by split_and!.
Qed.

#[export] Instance sample_fs : FsDrivers := kernel_filesystems sample_config.

Lemma sample_drivers_ok : drivers_ok sample_state [rootfs_fs; rootfs_fs; devfs_fs; tarfs_driver].
Proof.
  split; [by vm_compute|]. split; [by vm_compute|].
  repeat constructor; try by vm_compute.
Qed.

(** The kernel's directories are only read by a lookup. *)
Lemma find_node_reads_only nodes n : reads_only (find_node nodes n).
Proof. induction nodes; cbn; auto with readonly. Qed.
Lemma find_device_reads_only nodes n : reads_only (Devfs.Impl.find_device nodes n).
Proof. induction nodes; cbn; auto with readonly. Qed.
Lemma finddir_loop_reads_only nodes d n : reads_only (Tarfs.Impl.finddir_loop nodes d n).
Proof. induction nodes; cbn; auto 10 with readonly. Qed.

Lemma kernel_finddir_reads_only `{Alloc.Allocator} c con f h d n :
  vfs_finddir (fsd_ops (filesystems_with c con f)) = Some h -> reads_only (h d n).
Proof.
  destruct f; intros [= <-];
    unfold rootfs_finddir, Devfs.Impl.devfs_finddir, Tarfs.Impl.tarfs_finddir,
      Tarfs.Impl.nodes_of;
    auto 20 using find_node_reads_only, find_device_reads_only, finddir_loop_reads_only
      with readonly.
Qed.

Lemma NODE_OPS_reads_only `{FsDrivers} p : reads_only (Ops.NODE_OPS p).
Proof. unfold Ops.NODE_OPS. auto 20 with readonly. Qed.

Lemma NODE_OPS_driver `{FsDrivers} p s ops s' :
  Ops.NODE_OPS p s = Ok (Some ops, s') -> exists f, ops = fsd_ops (filesys f).
Proof.
  unfold Ops.NODE_OPS. rewrite if_app. destruct (p =? 0); [done|].
  intros (n & s1 & _ & Hrun)%bind_Ok_inv. rewrite if_app in Hrun.
  destruct (vn_volume n =? 0); [done|].
  apply bind_Ok_inv in Hrun as (v & s2 & _ & Hrun). rewrite if_app in Hrun.
  destruct (vv_family v =? 0); [done|].
  apply bind_Ok_inv in Hrun as (f & s3 & _ & [= <- _]). by exists f.
Qed.

Lemma finddir_reads_only `{Alloc.Allocator} c con d n :
  reads_only (Ops.fs_finddir (H := filesystems_with c con) d n).
Proof.
  intros s r s' Hrun. unfold Ops.fs_finddir, Ops.dispatch in Hrun.
  apply bind_Ok_inv in Hrun as (ops & s1 & H1 & Hrun).
  pose proof (NODE_OPS_reads_only d s ops s1 H1) as ->. revert Hrun.
  destruct (ops ≫= vfs_finddir) as [h|] eqn:Hh; [|by intros [= _ <-]].
  apply bind_Some in Hh as (ops' & -> & Hh). destruct (NODE_OPS_driver d s ops' s H1) as [f ->].
  apply bind_reads_only; [auto with readonly|]. intros m.
  apply if_reads_only; [|auto with readonly]. by eapply kernel_finddir_reads_only.
Qed.

Lemma sample_rich : rich sample_state.
Proof. intros i. reflexivity. Qed.

End Start.

Import Start.

(** ** Properties *)

(** The state after a mount, when the driver's hook has left [s2]. *)
Lemma vfs_mount_hooked `{FsDrivers} s ds vs es driver name argp f r s2 root payload
    (Hr : rich s) (Hm : mounts s vs es) (Hds : drivers_ok s ds)
    (Hd : chars driver) (Hname : valid_name name)
    (Hvol : lookup_vol vs name = None) (Hdrv : lookup_driver ds driver = Some f)
    (Hhook : fsd_mount (filesys f) (o_next s) (volume_made name (fsys_ptr f) argp s) = Ok (r, s2))
    (Hr0 : 0 <= r)
    (Hh : hooked (o_next s) root payload (volume_made name (fsys_ptr f) argp s) s2) :
  exists e, let s' := registered s2 (vfs_volumes s2) (o_next s) vs es e in
    vfs_mount driver name argp s = Ok (0, s') /\ mounts s2 vs es /\ e.1 = o_next s2 /\
    mounts s' (vs ++ [(o_next s, Volume (Some name) (fsys_ptr f) root payload)]) (es ++ [e]) /\
    lists e (o_next s, Volume (Some name) (fsys_ptr f) root payload).
Proof.
  destruct Hh as [Hk Hg [rn Hrn] Hv]. pose proof (m_next _ _ _ Hm) as Hnx.
  set (v := Volume (Some name) (fsys_ptr f) root payload).
  assert (kept (o_next s) s s2) as Hk2
    by (eapply kept_trans; [apply volume_made_kept, (m_fresh _ _ _ Hm)|exact Hk]).
  assert (mounts s2 vs es) as Hm2 by (eapply mounts_kept; [exact Hm|exact Hk2|lia]).
  assert (view as_volume (o_objs s2) (o_next s) = Some v) as Hv2.
  { apply (Hv (Volume (Some name) (fsys_ptr f) 0 argp)). unfold volume_made. by views. }
  destruct (mounts_apart as_volume s2 vs es _ _ Hm2 ltac:(done) Hv2) as (A1 & A2 & A3).
  assert (rich s2) as Hr2 by (intros i; rewrite Hg; apply Hr).
  exists (o_next s2, Node name VN_FREGFILE rootfs_root (vn_volume rn) (o_next s)). split_and!.
  - rewrite (mount_prefix_run ds s vs es driver name argp f s2 r) by done.
    rewrite (proj2 (Z.ltb_ge r 0)) by done.
    by apply (register_run s2 (o_next s) vs es v name rn).
  - done.
  - done.
  - apply registered_mounts; try done. by apply lookup_vol_None.
  - done.
Qed.

Lemma vfs_mount_run `{FsDrivers} s ds vs es driver name argp f s2 root payload
    (Hr : rich s) (Hm : mounts s vs es) (Hds : drivers_ok s ds)
    (Hd : chars driver) (Hname : valid_name name)
    (Hvol : lookup_vol vs name = None) (Hdrv : lookup_driver ds driver = Some f)
    (Hhook : fsd_mount (filesys f) (o_next s) (volume_made name (fsys_ptr f) argp s) = Ok (0, s2))
    (Hh : hooked (o_next s) root payload (volume_made name (fsys_ptr f) argp s) s2) :
  exists e, let s' := registered s2 (vfs_volumes s2) (o_next s) vs es e in
    vfs_mount driver name argp s = Ok (0, s') /\ mounts s2 vs es /\ e.1 = o_next s2 /\
    mounts s' (vs ++ [(o_next s, Volume (Some name) (fsys_ptr f) root payload)]) (es ++ [e]) /\
    lists e (o_next s, Volume (Some name) (fsys_ptr f) root payload).
Proof. by apply (vfs_mount_hooked s ds vs es driver name argp f 0). Qed.

(** The hook fails: the new volume is freed, and the table is the old one. *)
Lemma vfs_mount_fails `{FsDrivers} s ds vs es driver name argp f r s2
    (Hr : rich s) (Hm : mounts s vs es) (Hds : drivers_ok s ds)
    (Hd : chars driver) (Hname : valid_name name)
    (Hvol : lookup_vol vs name = None) (Hdrv : lookup_driver ds driver = Some f)
    (Hhook : fsd_mount (filesys f) (o_next s) (volume_made name (fsys_ptr f) argp s) = Ok (r, s2))
    (Hr0 : r < 0) (Hk : kept (o_next s) (volume_made name (fsys_ptr f) argp s) s2) :
  let s' := set_objs (delete (o_next s) (o_objs s2)) s2 in
  vfs_mount driver name argp s = Ok (-1, s') /\ mounts s' vs es /\ o_objs s' !! o_next s = None.
Proof.
  intros s'. pose proof (m_next _ _ _ Hm) as Hnx. split_and!.
  - rewrite (mount_prefix_run ds s vs es driver name argp f s2 r) by done.
    rewrite (proj2 (Z.ltb_lt r 0)) by done. unfold free_obj.
    by rewrite (proj2 (Z.eqb_neq (o_next s) 0)), modify_bind by lia.
  - apply (mounts_kept (o_next s) s); [done| |lia].
    assert (kept (o_next s) s s2) as [H1 H2 H3 H4]
      by (eapply kept_trans; [apply volume_made_kept, (m_fresh _ _ _ Hm)|exact Hk]).
    split; [done|done|..].
    + intros q [o Ho]. subst s'. cbn [o_objs set_objs] in Ho.
      apply lookup_delete_Some in Ho as [_ Ho]. apply H3. by exists o.
    + intros q Hq Hne. subst s'. cbn [o_objs set_objs]. rewrite lookup_delete_ne by done. by apply H4.
  - apply lookup_delete_eq.
Qed.

(** C18: Mounting.  When no mounted volume answers to the name and the driver is
    known, the driver's mount hook decides.  If it fails (and keeps what was
    there), the answer is -1, the table and the root directory are the old
    ones and the new volume is freed.  If it succeeds, the volume is added at
    the end of the table with the root and payload the hook gave it, an entry
    for it is added at the end of the root directory, and [vfs_get_volume] finds
    that root under the name. *)
Theorem vfs_mount_adds `{FsDrivers} s ds vs es driver name argp f r s2 root payload
    (Hr : rich s) (Hm : mounts s vs es) (Hds : drivers_ok s ds)
    (Hd : chars driver) (Hname : valid_name name)
    (Hvol : lookup_vol vs name = None) (Hdrv : lookup_driver ds driver = Some f)
    (Hhook : fsd_mount (filesys f) (o_next s) (volume_made name (fsys_ptr f) argp s) = Ok (r, s2))
    (Hk : kept (o_next s) (volume_made name (fsys_ptr f) argp s) s2)
    (Hh : 0 <= r -> hooked (o_next s) root payload (volume_made name (fsys_ptr f) argp s) s2) :
  if r <? 0 then
    exists s', vfs_mount driver name argp s = Ok (-1, s') /\ mounts s' vs es /\
      o_objs s' !! o_next s = None
  else
    exists s' e, vfs_mount driver name argp s = Ok (0, s') /\
      mounts s' (vs ++ [(o_next s, Volume (Some name) (fsys_ptr f) root payload)]) (es ++ [e]) /\
      lists e (o_next s, Volume (Some name) (fsys_ptr f) root payload) /\
      vfs_get_volume name s' = Ok (root, s').
Proof.
  destruct (Z.ltb_spec r 0) as [Hlt|Hge].
  - eexists. by apply (vfs_mount_fails s ds vs es driver name argp f r s2).
  - destruct (vfs_mount_hooked s ds vs es driver name argp f r s2 root payload Hr Hm Hds Hd Hname Hvol Hdrv
      Hhook Hge (Hh Hge)) as (e & H1 & _ & _ & H2 & H3).
    exists (registered s2 (vfs_volumes s2) (o_next s) vs es e), e. split_and!; try done.
    destruct Hname as (Hc & _ & Hlen). rewrite (get_volume_run _ _ name _ H2 Hc).
    by rewrite (lookup_vol_snoc vs (o_next s, Volume (Some name) (fsys_ptr f) root payload) name Hvol).
Qed.

(** devfs, on the machine of KernMain.v. *)
Lemma vfs_mount_adds_witness :
  exists s' e, vfs_mount (chars_of "devfs") (chars_of "DEV") 0 sample_state = Ok (0, s') /\
    mounts s' (sample_vols ++ [(262, Volume (Some (chars_of "DEV")) 4 devfs_rootdir 0)])
      (sample_entries ++ [e]) /\
    vfs_get_volume (chars_of "DEV") s' = Ok (devfs_rootdir, s').
Proof.
  destruct (devfs_mount_hooked 262 (volume_made (chars_of "DEV") 4 0 sample_state)
    (Volume (Some (chars_of "DEV")) 4 0 0) (Node [] VN_FDIR 0 0 0)) as (Hrun & Hh).
  - apply (volume_made_kept (chars_of "DEV") 4 0 sample_state), (m_fresh _ _ _ sample_mounts).
  - lia.
  - by vm_compute.
  - by vm_compute.
  - done.
  - eexists. by vm_compute.
  - set (s2 := devfs_mounted _ _ _ _) in Hrun, Hh.
    destruct (vfs_mount_adds sample_state [rootfs_fs; rootfs_fs; devfs_fs; tarfs_driver]
      sample_vols sample_entries (chars_of "devfs") (chars_of "DEV") 0 devfs_fs 0 s2 devfs_rootdir 0
      sample_rich sample_mounts sample_drivers_ok) as (s' & e & H1 & H2 & _ & H3);
      [decided|split; [decided|split; [done|cbn; lia]]|by vm_compute|by vm_compute|exact Hrun
      |apply Hh|by intros _|].
    exists s', e. split; [exact H1|]. split; [exact H2|exact H3].
Defined.

(** A mount whose name is taken, or whose driver is not known, is refused
    and changes nothing. *)
Theorem vfs_mount_refuses `{FsDrivers} s ds vs es driver name argp
    (Hm : mounts s vs es) (Hds : drivers_ok s ds) (Hd : chars driver) (Hc : chars name)
    (Hno : lookup_vol vs name <> None \/ lookup_driver ds driver = None) :
  vfs_mount driver name argp s = Ok (-1, s).
Proof.
  unfold vfs_mount. mstep (find_by_name_run vs es name s Hm Hc). rewrite if_app.
  destruct (lookup_vol vs name) as [v|] eqn:Hv.
  - apply lookup_vol_Some in Hv as [Hv _]. pose proof (m_vol_at _ _ _ Hm) as HF.
    rewrite Forall_forall in HF. destruct (HF v Hv) as [Hge _].
    by rewrite (proj2 (Z.eqb_neq v.1 0)) by lia.
  - destruct Hno as [|Hno]; [done|]. cbn [negb Z.eqb].
    mstep (get_driver_run ds driver s Hds Hd). by rewrite Hno.
Qed.

Lemma vfs_mount_refuses_witness :
  vfs_mount (chars_of "devfs") (chars_of "ROOT") 0 sample_state = Ok (-1, sample_state).
Proof.
  apply (vfs_mount_refuses sample_state [rootfs_fs; rootfs_fs; devfs_fs; tarfs_driver]
    sample_vols sample_entries); [exact sample_mounts|exact sample_drivers_ok|decided|decided|].
  left. by vm_compute.
Defined.

Lemma umount_removes s vs es mt v
    (Hm : mounts s vs es) (Hv : lookup_vol vs mt = Some v) (Hc : chars mt) :
  exists s' va vb ea e eb, vs = va ++ v :: vb /\ es = ea ++ e :: eb /\ lists e v /\
    vfs_umount mt s = Ok (0, s') /\ mounts s' (va ++ vb) (ea ++ eb) /\
    o_objs s' !! v.1 = None /\ lookup_vol (va ++ vb) mt = None.
Proof.
  destruct (lookup_vol_Some vs mt v Hv) as [Hin Hkey].
  destruct (table_split s vs es v Hm Hin)
    as (va & vb & ea & e & eb & -> & -> & H1 & Hl & H2 & Hkv & Hva & Hea).
  exists (unmounted s v (va ++ vb) (ea ++ eb)), va, vb, ea, e, eb. split_and!; try done.
  - by apply (umount_run s va v vb ea e eb mt).
  - apply (unmounted_mounts s va v vb ea e eb); [done| |done|done].
    intros (w & E & Hw)%list_elem_of_fmap. apply Hkv, list_elem_of_fmap. exists w. split; [|done].
    pose proof (m_vol_at _ _ _ Hm) as HF. rewrite Forall_forall in HF.
    destruct (HF w) as (_ & Ew & _);
      [apply elem_of_app in Hw as [|]; apply elem_of_app; [by left|by right; right]|].
    destruct (HF v Hin) as (_ & Ev & _). unfold key, name_of. rewrite <- E in Ew. congruence.
  - unfold unmounted. cbn [o_objs set_objs]. apply lookup_delete_eq.
  - by apply (lookup_vol_split va v vb mt).
Qed.

(** C19: Unmounting answers -1 and changes nothing when no volume answers to
    the name; else it takes the volume that does out of the table and its entry
    out of the root directory, and frees it; the name is free again. *)
Theorem vfs_umount_removes s vs es mt (Hm : mounts s vs es) (Hc : chars mt) :
  match lookup_vol vs mt with
  | None => vfs_umount mt s = Ok (-1, s)
  | Some v =>
      exists s' va vb ea e eb, vs = va ++ v :: vb /\ es = ea ++ e :: eb /\ lists e v /\
        vfs_umount mt s = Ok (0, s') /\ mounts s' (va ++ vb) (ea ++ eb) /\
        o_objs s' !! v.1 = None /\ lookup_vol (va ++ vb) mt = None
  end.
Proof.
  destruct (lookup_vol vs mt) as [v|] eqn:Hv; [by apply (umount_removes s vs es)|].
  unfold vfs_umount. mstep (find_by_name_run vs es mt s Hm Hc). by rewrite Hv.
Qed.

Lemma vfs_umount_removes_witness :
  (exists s', vfs_umount (chars_of "ROOT") sample_state = Ok (0, s') /\ mounts s' [] []) /\
  vfs_umount (chars_of "INITRD") sample_state = Ok (-1, sample_state).
Proof.
  pose proof (vfs_umount_removes sample_state sample_vols sample_entries (chars_of "ROOT")
    sample_mounts ltac:(decided)) as H.
  pose proof (vfs_umount_removes sample_state sample_vols sample_entries (chars_of "INITRD")
    sample_mounts ltac:(decided)) as H'.
  change (lookup_vol sample_vols (chars_of "ROOT")) with
    (Some (258, Volume (Some (chars_of "ROOT")) (fsys_ptr rootfs_fs) rootfs_root 0)) in H.
  destruct H as (s' & va & vb & ea & e & eb & Hv & He & _ & Hrun & Hm & _).
  split; [|exact H'].
  destruct va as [|? [|]]; [|discriminate Hv|discriminate Hv].
  destruct ea as [|? [|]]; [|discriminate He|discriminate He].
  injection Hv as <-. injection He as _ <-. exists s'. exact (conj Hrun Hm).
Defined.

(** Up to the root of the volume. *)
Lemma fs_resolve_volume `{FsDrivers} s vs es volname v rest
    (Hr : rich s) (Hm : mounts s vs es) (Hv : lookup_vol vs volname = Some v)
    (Hc : chars volname) (Hcolon : 58 ∉ volname) (Hne : rest <> []) :
  let s' := set_next (o_next s + 1) (tick s) in
  Path.fs_resolve (volname ++ 58 :: 47 :: rest) s
  = if vv_root v.2 =? 0 then Ok (0, s')
    else Path.fs_follow_path (S (length rest)) (vv_root v.2) rest s'.
Proof.
  intros s'. unfold Path.fs_resolve.
  assert (kept (o_next s) s s') as Hk.
  { split; cbn; [done|lia| |done]. intros q Hq. apply (m_fresh _ _ _ Hm) in Hq. lia. }
  pose proof (mounts_kept _ _ _ _ _ Hm Hk ltac:(lia)) as Hm'.
  assert (volname ++ 58 :: 47 :: rest <> []) as Hp by (by destruct volname).
  mstep (dup_run s _ Hr Hp).
  rewrite sep_cut; [|cbn; left|].
  2:{ apply Forall_forall. intros x Hx E. apply list_elem_of_singleton in E as ->. done. }
  fold s'. mstep (get_volume_run vs es volname s' Hm' Hc). rewrite Hv.
  destruct (Z.eqb_spec (vv_root v.2) 0) as [E|E]; [by rewrite E|]. by rewrite decide_False.
Qed.

Lemma fs_resolve_run `{FsDrivers} s vs es volname v comps
    (Hr : rich s) (Hm : mounts s vs es) (Hv : lookup_vol vs volname = Some v)
    (Hc : chars volname) (Hcolon : 58 ∉ volname) (Hroot : vv_root v.2 <> 0)
    (Hcomps : Forall component comps) (Hne : join comps <> [])
    (Hro : read_only_dirs (set_next (o_next s + 1) (tick s))) :
  let s' := set_next (o_next s + 1) (tick s) in
  Path.fs_resolve (volname ++ 58 :: 47 :: join comps) s
  = with_state (follow (entry_of s') (flags_in s') (vv_root v.2) comps) s'.
Proof.
  intros s'. rewrite (fs_resolve_volume s vs es volname v) by done. fold s'.
  rewrite (proj2 (Z.eqb_neq (vv_root v.2) 0)) by done.
  apply follow_path_run; [exact Hro|done|lia].
Qed.

(** C9: Resolving "VOLUME:/a/b/c" looks the volume up in the table and walks
    from its root along the components: the result is the node the last one
    names (or NULL), NULL when a component on the way is no directory, and a
    NULL dereference when a component on the way does not exist. *)
Theorem fs_resolve_walks `{FsDrivers} s vs es volname v comps
    (Hr : rich s) (Hm : mounts s vs es) (Hv : lookup_vol vs volname = Some v)
    (Hc : chars volname) (Hcolon : 58 ∉ volname) (Hroot : vv_root v.2 <> 0)
    (Hcomps : Forall component comps) (Hne : join comps <> [])
    (Hro : read_only_dirs (set_next (o_next s + 1) (tick s))) :
  let s' := set_next (o_next s + 1) (tick s) in
  Path.fs_resolve (volname ++ 58 :: 47 :: join comps) s
  = with_state (follow (entry_of s') (flags_in s') (vv_root v.2) comps) s'.
Proof. by apply (fs_resolve_run s vs es). Qed.

Lemma fs_resolve_walks_witness :
  outcome (Path.fs_resolve (chars_of "ROOT" ++ 58 :: 47 :: join [chars_of "ROOT"]) sample_state)
  = Some 261.
Proof.
  rewrite (fs_resolve_walks sample_state sample_vols sample_entries (chars_of "ROOT")
    (258, Volume (Some (chars_of "ROOT")) (fsys_ptr rootfs_fs) rootfs_root 0) [chars_of "ROOT"]
    sample_rich sample_mounts).
  - vm_compute. reflexivity.
  - by vm_compute.
  - decided.
  - decided.
  - discriminate.
  - constructor; [decided|constructor].
  - discriminate.
  - intros d n r s' Hrun. exact (finddir_reads_only KernMain.Sample.sample_config _ d n _ _ _ Hrun).
Defined.
