(* ===== verification/DevfsProps.v ===== *)
(** * Properties of the device manager

    The list of devices is a directory without two entries of one name
    ([Module Dir]); a file operation on a device's node reaches the function
    of its driver ([Module Route]). *)
From S2P Require Import Prelude Mem Alloc Idt Device Objects Vfs Devfs KernMain VfsProps.
From S2P Require CString Chardev Vgafb.
From stdpp Require Import strings.
Local Open Scope Z_scope.
Import CString.Pure VfsProps.Nodes VfsProps.Table Devfs.Impl.

(** ** The directory *)
Module Dir.

(** The 65 characters that [devfs_finddir] compares. *)
Definition dkey (e : entry) : list Z := take 65 (vn_name e.2).

Record installed (s : ker) (es : list entry) : Prop := Installed {
  i_fresh : forall p, is_Some (o_objs s !! p) -> p < o_next s;
  i_next : 256 <= o_next s;
  i_static : 256 <= devmgr_list s;
  i_list : view as_list (o_objs s) (devmgr_list s) = Some es.*1;
  i_at : Forall (entry_at (o_objs s)) es;
  i_names : Forall (fun e => chars (vn_name e.2)) es;
  i_keys : NoDup (dkey <$> es)
}.

Definition find_entry (es : list entry) (name : list Z) : option entry :=
  List.find (fun e => bool_decide (dkey e = take 65 name)) es.

Lemma cmpn_64 a b : chars a -> chars b -> cmpn 64 a b = 0 <-> take 65 a = take 65 b.
Proof. intros Ha Hb. cbn [cmpn]. apply cmp_eq; by apply Forall_take. Qed.

Lemma find_device_run es name s :
  Forall (entry_at (o_objs s)) es -> Forall (fun e => chars (vn_name e.2)) es -> chars name ->
  find_device es.*1 name s
  = Ok (match find_entry es name with Some e => e.1 | None => 0 end, s).
Proof.
  intros He Hc Hn. induction He as [|e es [He1 He2] He IH]; [done|].
  apply Forall_cons in Hc as [Hc1 Hc]. cbn [fmap list_fmap find_device].
  mstep (deref_run as_node e.1 s e.2 ltac:(lia) He2). rewrite if_app.
  unfold find_entry. cbn [List.find]. unfold dkey at 1.
  pose proof (cmpn_64 (vn_name e.2) name Hc1 Hn) as E.
  destruct (Z.eqb_spec (cmpn 64 (vn_name e.2) name) 0) as [E0|E0].
  - by rewrite bool_decide_true by (by apply E).
  - rewrite bool_decide_false by (by rewrite <- E). by apply IH.
Qed.

Lemma devfs_finddir_run es node name s :
  installed s es -> chars name ->
  devfs_finddir node name s
  = Ok (match find_entry es name with Some e => e.1 | None => 0 end, s).
Proof.
  intros Hi Hn. unfold devfs_finddir. rewrite gets_bind. pose proof (i_static _ _ Hi).
  mstep (deref_run as_list (devmgr_list s) s _ ltac:(lia) (i_list _ _ Hi)).
  apply find_device_run; [apply (i_at _ _ Hi)|apply (i_names _ _ Hi)|done].
Qed.

Lemma find_entry_None es name : find_entry es name = None -> take 65 name ∉ (dkey <$> es).
Proof.
  intros H Hin. apply list_elem_of_fmap in Hin as (e & E & He).
  apply list_elem_of_In in He. apply List.find_none with (x := e) in H; [|done].
  by apply bool_decide_eq_false in H.
Qed.

Lemma find_entry_Some es name e :
  find_entry es name = Some e -> e ∈ es /\ dkey e = take 65 name.
Proof.
  intros H. apply List.find_some in H as [Hin Ha].
  split; [by apply list_elem_of_In|by apply bool_decide_eq_true in Ha].
Qed.

Lemma find_entry_snoc es e name :
  find_entry es name = None -> dkey e = take 65 name -> find_entry (es ++ [e]) name = Some e.
Proof.
  intros H E. induction es as [|w es IH]; cbn.
  - by rewrite bool_decide_true.
  - unfold find_entry in H. cbn [List.find] in H.
    destruct (bool_decide (dkey w = take 65 name)); [done|]. by apply IH.
Qed.

(** The node [device_install] makes, and the state it leaves. *)
Definition dev_node (root : vfs_node) (dev : dev_name) (name : list Z) : vfs_node :=
  Node name (class_flags dev) devfs_rootdir (vn_volume root) (dev_ptr dev).
Definition installed_state (s : ker) (es : list entry) (n : vfs_node) : ker :=
  set_obj (devmgr_list s) (OList (es.*1 ++ [o_next s]))
    (tick (set_obj (o_next s) (ONode n)
      (set_next (o_next s + 1) (set_obj (o_next s) (ONode (Node [] 0 0 0 0)) (tick s))))).

Lemma device_install_run s es dev name root :
  rich s -> installed s es -> valid_name name -> find_entry es name = None ->
  view as_node (o_objs s) devfs_rootdir = Some root ->
  Impl.device_install dev name s = Ok (0, installed_state s es (dev_node root dev name)).
Proof.
  intros Hr Hi (Hc & Hne & Hl) Hfind Hroot. unfold Impl.device_install.
  pose proof (i_next _ _ Hi). pose proof (i_static _ _ Hi).
  pose proof (view_fresh as_list s _ _ (i_fresh _ _ Hi) (i_list _ _ Hi)).
  mstep (devfs_finddir_run es 0 name s Hi Hc). rewrite Hfind. cbn [negb Z.eqb].
  mstep (new_run s (fun _ => ONode (Node [] 0 0 0 0)) Hr).
  rewrite if_app, (proj2 (Z.eqb_neq (o_next s) 0)) by lia. set (s1 := set_next _ _).
  assert (copy_64 name s1 = Ok (name, s1)) as Hcp
    by (unfold copy_64; by rewrite (proj2 (Nat.ltb_lt _ _) Hl)).
  mstep Hcp.
  assert (view as_node (o_objs s1) devfs_rootdir = Some root) as Hroot1.
  { subst s1. cbn [o_objs set_next set_obj set_objs tick].
    by rewrite view_insert_ne by (unfold devfs_rootdir; lia). }
  mstep (deref_run as_node devfs_rootdir s1 root ltac:(done) Hroot1).
  rewrite put_bind, gets_bind. set (s2 := set_obj (o_next s) _ s1).
  assert (view as_list (o_objs s2) (devmgr_list s) = Some es.*1) as Hlist.
  { subst s2 s1. views. apply (i_list _ _ Hi). }
  by mstep (list_append_run (devmgr_list s) (o_next s) es.*1 s2 Hr ltac:(lia) Hlist).
Qed.

Lemma installed_state_ok s es dev name root :
  installed s es -> valid_name name -> find_entry es name = None ->
  installed (installed_state s es (dev_node root dev name))
    (es ++ [(o_next s, dev_node root dev name)]).
Proof.
  intros Hi (Hc & Hne & Hl) Hfind.
  pose proof (i_next _ _ Hi). pose proof (i_static _ _ Hi).
  pose proof (view_fresh as_list s _ _ (i_fresh _ _ Hi) (i_list _ _ Hi)).
  split; unfold installed_state;
    cbn [o_next devmgr_list set_obj set_objs set_next tick].
  - intros q. views. rewrite !lookup_insert_is_Some'.
    intros [|[|[|Hq]]]; try lia. apply (i_fresh _ _ Hi) in Hq. lia.
  - lia.
  - done.
  - views. by rewrite fmap_app.
  - apply Forall_app. split.
    + eapply Forall_impl; [apply (i_at _ _ Hi)|]. intros w [W1 W2]. split; [done|].
      pose proof (view_fresh as_node s _ _ (i_fresh _ _ Hi) W2).
      assert (w.1 <> devmgr_list s)
        by (eapply list_apart; [|apply (i_list _ _ Hi)|exact W2]; done).
      by views.
    + apply Forall_singleton. split; [cbn; lia|]. cbn [fst snd]. by views.
  - apply Forall_app. split; [apply (i_names _ _ Hi)|]. by apply Forall_singleton.
  - rewrite fmap_app. apply NoDup_app. split_and!; [apply (i_keys _ _ Hi)| |apply NoDup_singleton].
    intros k Hk E%list_elem_of_singleton. apply (find_entry_None _ _ Hfind).
    unfold dkey in E. cbn in E. by rewrite <- E.
Qed.

End Dir.

(** ** Operations on a device's file *)
Module Route.

(** What a read or a write on a device's file does: the function of the
    device's class, or -1 when the device has none. *)
Definition transfer {A} (d : dev_name) (chr : option (Z -> Z -> M ker A))
    (blk : option (Z -> Z -> Z -> M ker A)) (none : A) (buf offt len : Z) : M ker A :=
  match d with
  | vgafb_device => match blk with Some f => f buf offt len | None => mret none end
  | _ => match chr with Some f => f buf len | None => mret none end
  end.

Section route.
Context `{Devices} `{FsDrivers} (Hdevfs : filesys devfs_fs = devfs).

(** [p] is the node of the device [d] on the mounted devfs. *)
Definition device_node (s : ker) (p : Z) (d : dev_name) : Prop :=
  exists n v, p <> 0 /\ view as_node (o_objs s) p = Some n /\
    vn_flags n = class_flags d /\ vn_payload n = dev_ptr d /\
    view as_device (o_objs s) (dev_ptr d) = Some d /\
    vn_volume n <> 0 /\ view as_volume (o_objs s) (vn_volume n) = Some v /\
    vv_family v = fsys_ptr devfs_fs /\
    view as_fsys (o_objs s) (fsys_ptr devfs_fs) = Some devfs_fs.

Lemma device_mounted s p d :
  device_node s p d -> exists n, mounted_node s p devfs_fs n /\ vn_flags n = class_flags d.
Proof. intros (n & v & ? & ? & ? & ? & ? & ? & ? & ? & ?). exists n. split; [by exists v|done]. Qed.

Lemma payload_run s p d : device_node s p d -> payload_dev p s = Ok (Some d, s).
Proof.
  intros (n & v & Hp & Hn & _ & Hpl & Hd & _). unfold payload_dev.
  mstep (deref_run as_node p s n Hp Hn). rewrite Hpl, if_app.
  rewrite (proj2 (Z.eqb_neq (dev_ptr d) 0)) by (by destruct d).
  by mstep (deref_run as_device (dev_ptr d) s d ltac:(by destruct d) Hd).
Qed.

Lemma class_flags_file d : Ops.is_file (class_flags d) = true /\ Ops.is_device (class_flags d) = true.
Proof. by destruct d. Qed.

Lemma node_dispatch_run {A B} (hook : vfs_ops -> option B) applies call (otherwise : A) s p d h :
  device_node s p d -> hook devfs_ops = Some h -> applies (class_flags d) = true ->
  Ops.dispatch hook applies call otherwise p s = call h s.
Proof.
  intros (n & Hm & Hfl)%device_mounted Hh Ha.
  apply (mounted_dispatch_run hook applies call otherwise s p devfs_fs n h Hm); [by rewrite Hdevfs|].
  by rewrite Hfl.
Qed.

Lemma fs_read_run s p d offt buf len :
  device_node s p d ->
  Ops.fs_read p offt buf len s
  = transfer d (dev_read_chr (device_of d)) (dev_read_blk (device_of d)) MINUS1 buf offt len s.
Proof.
  intros Hd. unfold Ops.fs_read.
  rewrite (node_dispatch_run vfs_read _ _ _ s p d devfs_read Hd eq_refl (proj1 (class_flags_file d))).
  unfold devfs_read. mstep (payload_run s p d Hd).
  destruct d; cbn; by destruct (dev_read_chr _), (dev_read_blk _).
Qed.

Lemma fs_write_run s p d offt buf len :
  device_node s p d ->
  Ops.fs_write p offt buf len s
  = transfer d (dev_write_chr (device_of d)) (dev_write_blk (device_of d)) MINUS1 buf offt len s.
Proof.
  intros Hd. unfold Ops.fs_write.
  rewrite (node_dispatch_run vfs_write _ _ _ s p d devfs_write Hd eq_refl (proj1 (class_flags_file d))).
  unfold devfs_write. mstep (payload_run s p d Hd).
  destruct d; cbn; by destruct (dev_write_chr _), (dev_write_blk _).
Qed.

Lemma fs_ioctl_run s p d iorq args :
  device_node s p d ->
  Ops.fs_ioctl p iorq args s
  = match dev_ioctl (device_of d) with Some f => f iorq args s | None => Ok (-1, s) end.
Proof.
  intros Hd. unfold Ops.fs_ioctl.
  rewrite (node_dispatch_run vfs_ioctl _ _ _ s p d devfs_ioctl Hd eq_refl (proj2 (class_flags_file d))).
  unfold devfs_ioctl. mstep (payload_run s p d Hd). cbn. by destruct (dev_ioctl _).
Qed.

Lemma fs_open_run s p d flags :
  device_node s p d ->
  Ops.fs_open p flags s
  = match dev_open (device_of d) with Some f => f flags s | None => Ok (-1, s) end.
Proof.
  intros Hd. unfold Ops.fs_open.
  rewrite (node_dispatch_run vfs_open _ _ _ s p d devfs_open Hd eq_refl (proj1 (class_flags_file d))).
  unfold devfs_open. mstep (payload_run s p d Hd). cbn. by destruct (dev_open _).
Qed.

Lemma fs_close_run s p d :
  device_node s p d ->
  Ops.fs_close p s
  = match dev_close (device_of d) with Some f => f s | None => Ok (-1, s) end.
Proof.
  intros Hd. unfold Ops.fs_close.
  rewrite (node_dispatch_run vfs_close _ _ _ s p d devfs_close Hd eq_refl (proj1 (class_flags_file d))).
  unfold devfs_close. mstep (payload_run s p d Hd). cbn. by destruct (dev_close _).
Qed.

End route.

End Route.

Import Dir Route.

(** ** A sample: the device manager after [device_init] *)
Module Start.
Import KernMain.Impl KernMain.Sample VfsProps.Start.

#[export] Instance sample_devices : Devices :=
  devices_with sample_config (console sample_config (c_levels sample_config)).

Definition with_drivers (ds : list driver_name) : ker :=
  match device_init (H0 := kernel_drivers sample_config) ds sample_state with
  | Ok (_, s) => s
  | Err _ => sample_state
  end.
Definition no_devices : ker := with_drivers [].
Definition null_devices : ker := with_drivers [null_driver].

Lemma sample_installed : installed no_devices [].
Proof.
  split.
  - assert (map_Forall (fun p _ => p < o_next no_devices) (o_objs no_devices)) as HF by decided.
    intros p [o Ho]. exact (HF p o Ho).
  - vm_compute. discriminate.
  - vm_compute. discriminate.
  - vm_compute. reflexivity.
  - constructor.
  - constructor.
  - constructor.
Qed.

Lemma null_node : device_node null_devices 266 null_device.
Proof.
  exists (Node (chars_of "null") VN_FCHARDEV devfs_rootdir 263 10),
    (Volume (Some (chars_of "DEV")) 4 devfs_rootdir 0).
  repeat split; vm_compute; (reflexivity || discriminate).
Qed.

End Start.

Import Start.

(** ** Properties *)

(** C37: [device_install] refuses a name that is taken with -2, changing
    nothing; otherwise it adds a node for the device at the end of the
    directory, and from then on the name is found there. *)
Theorem device_install_registers s es dev name root
    (Hr : rich s) (Hi : installed s es) (Hn : valid_name name)
    (Hroot : view as_node (o_objs s) devfs_rootdir = Some root) :
  match find_entry es name with
  | Some _ => Impl.device_install dev name s = Ok (-2, s)
  | None =>
      exists s', Impl.device_install dev name s = Ok (0, s') /\
        installed s' (es ++ [(o_next s, dev_node root dev name)]) /\
        forall node, devfs_finddir node name s' = Ok (o_next s, s')
  end.
Proof.
  destruct (find_entry es name) as [e|] eqn:Hf.
  - unfold Impl.device_install. mstep (devfs_finddir_run es 0 name s Hi (proj1 Hn)). rewrite Hf.
    apply find_entry_Some in Hf as [Hin _]. pose proof (i_at _ _ Hi) as HF.
    rewrite Forall_forall in HF. destruct (HF e Hin) as [He _].
    by rewrite (proj2 (Z.eqb_neq e.1 0)) by lia.
  - exists (installed_state s es (dev_node root dev name)).
    pose proof (installed_state_ok s es dev name root Hi Hn Hf) as Hi'.
    split_and!; [by apply device_install_run|done|].
    intros node. rewrite (devfs_finddir_run _ node name _ Hi' (proj1 Hn)).
    by rewrite (find_entry_snoc es (o_next s, dev_node root dev name)).
Qed.

Lemma device_install_registers_witness :
  exists s', Impl.device_install zero_device (chars_of "zero") no_devices = Ok (0, s') /\
    installed s' [(266, Node (chars_of "zero") VN_FCHARDEV devfs_rootdir 263 11)].
Proof.
  destruct (device_install_registers no_devices [] zero_device (chars_of "zero")
    (Node [] VN_FDIR 0 263 0) ltac:(intros i; reflexivity) sample_installed)
    as (s' & Hrun & Hi & _); [split; [decided|split; [done|cbn; lia]]|by vm_compute|].
  exists s'. exact (conj Hrun Hi).
Defined.

(** C12: Opening, reading, writing, controlling and closing the file of a device
    are the functions of its driver: a character device is read and written
    without the offset, a block device with it, and a missing function is
    answered with -1. *)
Theorem devfs_file_is_device `{Devices} `{FsDrivers} s p d offt buf len flags iorq args
    (Hdevfs : filesys devfs_fs = devfs) (Hd : device_node s p d) :
  Ops.fs_read p offt buf len s
    = transfer d (dev_read_chr (device_of d)) (dev_read_blk (device_of d)) MINUS1 buf offt len s /\
  Ops.fs_write p offt buf len s
    = transfer d (dev_write_chr (device_of d)) (dev_write_blk (device_of d)) MINUS1 buf offt len s /\
  Ops.fs_open p flags s
    = match dev_open (device_of d) with Some f => f flags s | None => Ok (-1, s) end /\
  Ops.fs_ioctl p iorq args s
    = match dev_ioctl (device_of d) with Some f => f iorq args s | None => Ok (-1, s) end /\
  Ops.fs_close p s
    = match dev_close (device_of d) with Some f => f s | None => Ok (-1, s) end.
Proof.
  split_and!; [by apply fs_read_run|by apply fs_write_run|by apply fs_open_run|
    by apply fs_ioctl_run|by apply fs_close_run].
Qed.

Lemma devfs_file_is_device_witness :
  outcome (Ops.fs_write (H := VfsProps.Start.sample_fs)
    266 0 0x8000 5 null_devices) = Some 5.
Proof.
  destruct (devfs_file_is_device
    (H0 := VfsProps.Start.sample_fs)
    null_devices 266 null_device 0 0x8000 5 0 0 0 eq_refl null_node) as (_ & Hw & _).
  rewrite Hw. vm_compute. reflexivity.
Defined.
