(* ===== verification/TarfsProps.v ===== *)
(** * Properties of the TAR file system

    [Module Bytes]: reading a file's data and its header's numbers;
    [Module Scan]: the walk over the headers visits every file of an archive
    once and stops.  TarTree.v goes on with the tree that is built from them. *)
From S2P Require Import Prelude Mem Idt Device Objects Vfs Tarfs KernMain VfsProps.
From S2P Require CString.
From stdpp Require Import strings.
Local Open Scope Z_scope.
Import Idt.Impl CString.Pure VfsProps.Table Tarfs.Impl.

(** ** Bytes *)
Module Bytes.

Lemma read_loop_run n dst data offt size read s :
  0 <= offt -> size < W32 -> 0 <= read -> read + Z.of_nat n < W32 ->
  let k := Nat.min n (Z.to_nat (size - offt)) in
  dst + read + Z.of_nat k <= data + offt \/ data + offt + Z.of_nat k <= dst + read ->
  read_loop n dst data offt size read s
  = Ok (read + Z.of_nat k,
        set_kmem (store_bytes (kmem s) (dst + read) (load_bytes (kmem s) (data + offt) k)) s).
Proof.
  intros Ho Hs Hr Hn k. subst k. revert offt read s Ho Hr Hn.
  induction n as [|n IH]; intros offt read s Ho Hr Hn Hd; cbn [read_loop].
  - change (load_bytes _ (data + offt) (Nat.min 0 _)) with (@nil Z).
    cbn [store_bytes Nat.min]. by rewrite Z.add_0_r, set_kmem_id.
  - rewrite if_app. destruct (Z.ltb_spec offt size) as [Hlt|Hge]; cbn [negb].
    + mstep (ldb_run (data + offt) s). mstep (stb_run (dst + read) (load8 (kmem s) (data + offt)) s).
      rewrite !u32_small by lia.
      replace (Nat.min (S n) (Z.to_nat (size - offt)))
        with (S (Nat.min n (Z.to_nat (size - (offt + 1))))) in * by lia.
      rewrite IH by lia. rewrite load_bytes_S. cbn [store_bytes].
      set (k := Nat.min n (Z.to_nat (size - (offt + 1)))) in *.
      f_equal. f_equal; [lia|]. unfold set_kmem at 1. cbn [o_dst set_dst set_kmem i_k set_ik].
      unfold set_kmem, kmem. cbn [o_dst set_dst i_k set_ik k_mem set_mem].
      replace (dst + (read + 1)) with (dst + read + 1) by lia.
      replace (data + (offt + 1)) with (data + offt + 1) by lia.
      rewrite (load_bytes_agree (fun a => data + offt + 1 <= a < data + offt + 1 + Z.of_nat k)
        (store8 (k_mem (i_k (o_dst s))) (dst + read) (load8 (k_mem (i_k (o_dst s))) (data + offt)))
        (k_mem (i_k (o_dst s)))).
      * done.
      * intros a Ha. rewrite load8_store8_ne by lia. done.
      * intros i Hi. lia.
    + replace (Nat.min (S n) (Z.to_nat (size - offt))) with O by lia.
      change (load_bytes _ (data + offt) 0) with (@nil Z).
      cbn [store_bytes]. by rewrite Z.add_0_r, set_kmem_id.
Qed.

(** *** Octal numbers *)

Fixpoint octal_value (ds : list Z) (acc : Z) : Z :=
  match ds with
  | [] => acc
  | c :: ds' => octal_value ds' (acc * 8 + (c - 48))
  end.

(** The [k] low octal digits of [n] as characters, highest first. *)
Fixpoint octal (k : nat) (n : Z) : list Z :=
  match k with
  | O => []
  | S k' => octal k' (n / 8) ++ [48 + n mod 8]
  end.

Lemma octal_value_app ds1 ds2 acc :
  octal_value (ds1 ++ ds2) acc = octal_value ds2 (octal_value ds1 acc).
Proof. revert acc. induction ds1; intros acc; cbn; auto. Qed.

Lemma octal_digits k n : Forall (fun c => 48 <= c < 56) (octal k n).
Proof.
  revert n. induction k as [|k IH]; intros n; cbn; [done|].
  apply Forall_app. split; [apply IH|]. apply Forall_singleton. pose proof (Z.mod_pos_bound n 8). lia.
Qed.

Lemma length_octal k n : length (octal k n) = k.
Proof. revert n. induction k; intros n; cbn; [done|]. rewrite length_app, IHk. cbn. lia. Qed.

Lemma octal_value_octal k n acc :
  0 <= n < 8 ^ Z.of_nat k -> octal_value (octal k n) acc = acc * 8 ^ Z.of_nat k + n.
Proof.
  revert n. induction k as [|k IH]; intros n Hn.
  - cbn in *. lia.
  - cbn [octal]. rewrite Nat2Z.inj_succ, Z.pow_succ_r in * by lia.
    rewrite octal_value_app, IH by (Z.to_euclidean_division_equations; lia). cbn.
    rewrite (Z.div_mod n 8) at 3 by lia. lia.
Qed.

Lemma octal_value_range ds acc :
  Forall (fun c => 48 <= c < 56) ds -> 0 <= acc ->
  0 <= acc <= octal_value ds acc.
Proof.
  intros H. revert acc. induction H as [|c ds Hc H IH]; intros acc Ha; cbn; [lia|].
  specialize (IH (acc * 8 + (c - 48)) ltac:(lia)). lia.
Qed.

Lemma octal2int_run fuel p ds acc s :
  cstr (kmem s) p ds -> Forall (fun c => 48 <= c < 56) ds -> (length ds < fuel)%nat ->
  0 <= acc -> octal_value ds acc < W32 ->
  octal2int fuel p acc s = Ok (octal_value ds acc, s).
Proof.
  intros Hs Hd. revert p fuel acc Hs. induction Hd as [|c ds Hc Hd IH];
    intros p [|fuel] acc Hs Hf Ha Hv; try (cbn in Hf; lia); cbn [octal2int octal_value] in *.
  - mstep (ldb_run p s). apply CString.Facts.cstr_nil in Hs. by rewrite Hs.
  - mstep (ldb_run p s). apply CString.Facts.cstr_cons in Hs as (H1 & H2 & H3). rewrite H1, if_app.
    rewrite (proj2 (Z.eqb_neq c 0)) by lia.
    pose proof (octal_value_range ds (acc * 8 + (c - 48)) Hd ltac:(lia)).
    assert (s8 c = c) as ->.
    { unfold s8. rewrite u8_small by lia. by rewrite (proj2 (Z.ltb_lt c 128)) by lia. }
    rewrite u32_small by lia. apply IH; [done|cbn in Hf; lia|lia|lia].
Qed.

End Bytes.

(** ** The walk over the headers *)
Module Scan.
Import Bytes.

(** Blocks a file of [sz] bytes takes: its header and its data. *)
Definition blocks_of (sz : Z) : Z := 1 + (sz + 511) / 512.

(** An archive from block [bx] on, as tar writes it: headers with a name and an
    octal size, the data, and a header without a name at the end. *)
Fixpoint archive (m : mem) (buf bx : Z) (sizes : list Z) : Prop :=
  let block := buf + sizeof_block * bx in
  0 <= bx /\ block < W32 /\
  match sizes with
  | [] => load8 m block = 0
  | sz :: sizes' =>
      load8 m block <> 0 /\ 0 <= sz < W32 /\ cstr m (block + t_size) (octal 11 sz) /\
      archive m buf (bx + blocks_of sz) sizes'
  end.

(** The addresses of its headers. *)
Fixpoint headers (buf bx : Z) (sizes : list Z) : list Z :=
  match sizes with
  | [] => []
  | sz :: sizes' => (buf + sizeof_block * bx) :: headers buf (bx + blocks_of sz) sizes'
  end.

(** Nothing but the store, its counters and the bytes of the memory differs. *)
Definition quiet (s s' : ker) : Prop :=
  s' = Ker (o_dst (set_kmem (kmem s') s)) (o_objs s') (o_next s') (o_count s') (o_grants s)
         (o_junk_name s) (o_junk_word s) (vfs_volumes s) (vfs_drivers s) (rootfs_nodes s)
         (devmgr_list s) (o_vt s).
Lemma quiet_refl s : quiet s s.
Proof. unfold quiet. by destruct s as [[[] ? ? ? ? ?] ? ? ? ? ? ? ? ? ? ? ?]. Qed.
Lemma quiet_trans s1 s2 s3 : quiet s1 s2 -> quiet s2 s3 -> quiet s1 s3.
Proof.
  unfold quiet. intros H1 H2. rewrite H2. f_equal; rewrite H1; reflexivity.
Qed.

Lemma quiet_objs s m n k : quiet s (Ker (o_dst s) m n k (o_grants s) (o_junk_name s) (o_junk_word s)
  (vfs_volumes s) (vfs_drivers s) (rootfs_nodes s) (devmgr_list s) (o_vt s)).
Proof. unfold quiet. by destruct s as [[[] ? ? ? ? ?] ? ? ? ? ? ? ? ? ? ? ?]. Qed.

(** The list at [l] got a new entry for each of the [blocks]; the rest of the
    store and the memory stayed. *)
Record scanned (s s' : ker) (l : Z) (xs blocks : list Z) : Prop := Scanned {
  sc_list : exists ps, view as_list (o_objs s') l = Some (xs ++ ps) /\
    Forall2 (fun p b => view as_tarnode (o_objs s') p = Some (TarNode 0 b)) ps blocks /\
    Forall (fun p => o_next s <= p) ps;
  sc_next : o_next s <= o_next s';
  sc_fresh : forall q, is_Some (o_objs s' !! q) -> q < o_next s';
  sc_keep : forall q, q < o_next s -> q <> l -> o_objs s' !! q = o_objs s !! q;
  sc_dst : o_dst s' = o_dst s;
  sc_quiet : quiet s s'
}.

(** The state after [decode_block]. *)
Definition decoded (s : ker) (l block : Z) (xs : list Z) : ker :=
  set_obj l (OList (xs ++ [o_next s]))
    (tick (set_next (o_next s + 1) (set_obj (o_next s) (OTarNode (TarNode 0 block)) (tick s)))).

Lemma decode_block_run s tar t xs block :
  rich s -> 0 < o_next s -> 0 < tar < o_next s -> 0 < tp_nodes t < o_next s ->
  view as_payload (o_objs s) tar = Some t -> view as_list (o_objs s) (tp_nodes t) = Some xs ->
  decode_block tar block s = Ok (0, decoded s (tp_nodes t) block xs).
Proof.
  intros Hr Hn Ht Hl Hv Hxs. unfold decode_block.
  mstep (new_run s (fun _ => OTarNode (TarNode 0 block)) Hr).
  rewrite if_app, (proj2 (Z.eqb_neq (o_next s) 0)) by lia. set (s1 := set_next _ _).
  assert (view as_payload (o_objs s1) tar = Some t) as Hv1.
  { subst s1. by views. }
  mstep (deref_run as_payload tar s1 t ltac:(lia) Hv1).
  assert (view as_list (o_objs s1) (tp_nodes t) = Some xs) as Hxs1 by (subst s1; by views).
  by mstep (list_append_run (tp_nodes t) (o_next s) xs s1 Hr ltac:(lia) Hxs1).
Qed.

(** Rounding up in the code: [length / 512 + 1], and one more for a rest. *)
Lemma blocks_of_code bx sz :
  0 <= bx -> 0 <= sz -> bx + blocks_of sz < W32 ->
  (if sz mod 512 =? 0 then bx +w (sz / 512 + 1) else bx +w (sz / 512 + 1) +w 1)
  = bx + blocks_of sz.
Proof.
  intros Hb Hs Hw. unfold blocks_of in *.
  rewrite (u32_small (bx + (sz / 512 + 1))) by (Z.to_euclidean_division_equations; lia).
  destruct (Z.eqb_spec (sz mod 512) 0); [|rewrite u32_small];
    Z.to_euclidean_division_equations; lia.
Qed.

Lemma archive_range m buf bx sizes : archive m buf bx sizes -> 0 <= bx /\ buf + 512 * bx < W32.
Proof.
  unfold sizeof_block. destruct sizes; cbn [archive]; unfold sizeof_block; intros (H1 & H2 & _); split; lia.
Qed.

Lemma decoded_scanned s tar t xs block bs s' :
  (forall q, is_Some (o_objs s !! q) -> q < o_next s) -> 0 < tp_nodes t < o_next s ->
  view as_payload (o_objs s) tar = Some t -> view as_list (o_objs s) (tp_nodes t) = Some xs ->
  scanned (decoded s (tp_nodes t) block xs) s' (tp_nodes t) (xs ++ [o_next s]) bs ->
  scanned s s' (tp_nodes t) xs (block :: bs).
Proof.
  intros Hf Hl Ht Hxs [(ps & Hps & Hall & Hnew) S2 S3 S4 S5 S6].
  unfold decoded in S2, S4, Hnew. cbn [o_next o_objs set_obj set_objs set_next tick] in S2, S4, Hnew. split.
  - exists (o_next s :: ps). rewrite Hps, <- app_assoc. split; [done|]. split.
    2:{ constructor; [lia|]. eapply Forall_impl; [exact Hnew|]. cbv beta. lia. }
    constructor; [|done]. unfold view. rewrite S4 by lia. rewrite lookup_insert_ne, lookup_insert_eq by lia. done.
  - lia.
  - done.
  - intros q Hq Hne. rewrite S4 by lia. by rewrite !lookup_insert_ne by lia.
  - done.
  - eapply quiet_trans; [|exact S6]. set (d := decoded s (tp_nodes t) block xs).
    exact (quiet_objs s (o_objs d) (o_next d) (o_count d)).
Qed.

Lemma scan_run sizes : forall fuel s tar t xs buf bx,
  rich s -> (forall q, is_Some (o_objs s !! q) -> q < o_next s) ->
  0 <= buf -> 0 < tar -> 0 < tp_nodes t ->
  view as_payload (o_objs s) tar = Some t -> view as_list (o_objs s) (tp_nodes t) = Some xs ->
  archive (kmem s) buf bx sizes -> (length sizes + 12 <= fuel)%nat ->
  exists s', scan_blocks fuel tar buf bx s = Ok (tt, s') /\
    scanned s s' (tp_nodes t) xs (headers buf bx sizes).
Proof.
  induction sizes as [|sz sizes IH]; intros [|fuel] s tar t xs buf bx Hr Hf Hb Ht Hl Hv Hxs Har Hfu;
    cbn [length] in Hfu; try lia; pose proof (archive_range _ _ _ _ Har) as [Hbx Hblk];
    cbn [scan_blocks]; unfold sizeof_block; rewrite (u32_small (buf + 512 * bx)) by lia;
    unfold t_name; rewrite Z.add_0_r.
  - destruct Har as (_ & _ & H0). mstep (ldb_run (buf + 512 * bx) s).
    unfold sizeof_block in H0. rewrite H0. exists s. split; [done|].
    split; try done; [|apply quiet_refl]. exists []. by rewrite app_nil_r.
  - destruct Har as (_ & _ & H0 & Hsz & Hsize & Har). unfold sizeof_block in H0, Hsize.
    pose proof (view_fresh as_payload s tar t Hf Hv) as Htn.
    pose proof (view_fresh as_list s (tp_nodes t) xs Hf Hxs) as Hln.
    mstep (ldb_run (buf + 512 * bx) s). rewrite if_app, (proj2 (Z.eqb_neq _ 0)) by done.
    mstep (decode_block_run s tar t xs (buf + 512 * bx) Hr ltac:(lia) ltac:(lia) ltac:(lia) Hv Hxs).
    set (s1 := decoded s (tp_nodes t) (buf + 512 * bx) xs).
    pose proof (octal_value_octal 11 sz 0 ltac:(cbn; lia)) as Hov. rewrite Z.mul_0_l, Z.add_0_l in Hov.
    assert (octal2int (S fuel) (buf + 512 * bx + t_size) 0 s1 = Ok (sz, s1)) as Hoct.
    { rewrite <- Hov at 1. apply (octal2int_run (S fuel) _ (octal 11 sz));
        [exact Hsize|apply octal_digits|rewrite length_octal; lia|lia|rewrite Hov; lia]. }
    mstep Hoct. pose proof (archive_range _ _ _ _ Har) as [Hbx' Hblk'].
    assert (0 < blocks_of sz) by (unfold blocks_of; Z.to_euclidean_division_equations; lia).
    rewrite blocks_of_code by lia.
    destruct (IH fuel s1 tar t (xs ++ [o_next s]) buf (bx + blocks_of sz)) as (s' & Hrun & Hsc);
      try done; try lia.
    + intros q. subst s1. unfold decoded. views. rewrite !lookup_insert_is_Some'.
      intros [|[|Hq]]; try lia. apply Hf in Hq. lia.
    + subst s1. unfold decoded.
      assert (tar <> tp_nodes t) by (eapply list_apart; [|exact Hxs|exact Hv]; done). by views.
    + subst s1. unfold decoded. by views.
    + exists s'. split; [exact Hrun|]. cbn [headers]. by eapply decoded_scanned.
Qed.

End Scan.

Import Bytes Scan.

(** ** Properties *)

(** The whole effect of a read: the slice is copied. *)
Lemma tarfs_read_run fuel s p n t sz offt buf len
    (Hp : p <> 0) (Hn : view as_node (o_objs s) p = Some n)
    (Ht0 : vn_payload n <> 0) (Ht : view as_tarnode (o_objs s) (vn_payload n) = Some t)
    (Hsz : 0 <= sz < W32) (Hsize : cstr (kmem s) (tn_block t + t_size) (octal 11 sz))
    (Hf : (11 < fuel)%nat) (Ho : 0 <= offt) (Hl : 0 <= len < W32)
    (Hd : buf + len <= tn_block t + 512 \/ tn_block t + 512 + sz <= buf) :
  let k := Nat.min (Z.to_nat len) (Z.to_nat (sz - offt)) in
  tarfs_read fuel p offt buf len s
  = Ok (Z.of_nat k,
        set_kmem (store_bytes (kmem s) buf (load_bytes (kmem s) (tn_block t + 512 + offt) k)) s).
Proof.
  intros k. unfold tarfs_read.
  mstep (deref_run as_node p s n Hp Hn). mstep (deref_run as_tarnode (vn_payload n) s t Ht0 Ht).
  pose proof (octal_value_octal 11 sz 0 ltac:(cbn; lia)) as Hov. rewrite Z.mul_0_l, Z.add_0_l in Hov.
  assert (octal2int fuel (tn_block t + t_size) 0 s = Ok (sz, s)) as Hoct.
  { rewrite <- Hov at 1. apply (octal2int_run fuel _ (octal 11 sz));
      [exact Hsize|apply octal_digits|rewrite length_octal; lia|lia|rewrite Hov; lia]. }
  mstep Hoct. rewrite read_loop_run by lia. fold k. by rewrite !Z.add_0_r, Z.add_0_l.
Qed.

Lemma agree_copied m buf m0 a k :
  agree (fun b => b < buf \/ buf + Z.of_nat k <= b) m (store_bytes m buf (load_bytes m0 a k)).
Proof. apply agree_store_bytes. intros b Hb. rewrite length_load_bytes. lia. Qed.

(** C20: Reading a file of [sz] bytes at an offset copies the bytes of its data
    from there on, at most [len] of them and never past its end, into the
    caller's buffer, and returns how many. *)
Theorem tarfs_read_slice fuel s p n t sz offt buf len
    (Hp : p <> 0) (Hn : view as_node (o_objs s) p = Some n)
    (Ht0 : vn_payload n <> 0) (Ht : view as_tarnode (o_objs s) (vn_payload n) = Some t)
    (Hsz : 0 <= sz < W32) (Hsize : cstr (kmem s) (tn_block t + t_size) (octal 11 sz))
    (Hf : (11 < fuel)%nat) (Ho : 0 <= offt) (Hl : 0 <= len < W32)
    (Hd : buf + len <= tn_block t + 512 \/ tn_block t + 512 + sz <= buf) :
  let k := Nat.min (Z.to_nat len) (Z.to_nat (sz - offt)) in
  exists s', tarfs_read fuel p offt buf len s = Ok (Z.of_nat k, s') /\
    load_bytes (kmem s') buf k = load_bytes (kmem s) (tn_block t + 512 + offt) k /\
    agree (fun a => a < buf \/ buf + Z.of_nat k <= a) (kmem s) (kmem s') /\
    o_objs s' = o_objs s.
Proof.
  intros k. eexists. split; [by apply (tarfs_read_run fuel s p n t)|].
  split_and!; [apply load_bytes_copy|by apply agree_copied|done].
Qed.

(** C21: The walk over an archive's headers ends at the first header without a
    name, having made one node for each file, in order, whatever the files'
    sizes (empty files and files that fill their last block included). *)
Theorem scan_blocks_visits s tar t xs buf sizes fuel
    (Hr : rich s) (Hfresh : forall q, is_Some (o_objs s !! q) -> q < o_next s)
    (Hb : 0 <= buf) (Htar : 0 < tar) (Hl : 0 < tp_nodes t)
    (Ht : view as_payload (o_objs s) tar = Some t)
    (Hxs : view as_list (o_objs s) (tp_nodes t) = Some xs)
    (Har : archive (kmem s) buf 0 sizes) (Hf : (length sizes + 12 <= fuel)%nat) :
  exists s' ps, scan_blocks fuel tar buf 0 s = Ok (tt, s') /\
    view as_list (o_objs s') (tp_nodes t) = Some (xs ++ ps) /\
    Forall2 (fun p b => view as_tarnode (o_objs s') p = Some (TarNode 0 b)) ps
      (headers buf 0 sizes) /\
    o_dst s' = o_dst s.
Proof.
  destruct (scan_run sizes fuel s tar t xs buf 0) as (s' & Hrun & [(ps & H1 & H2 & _) _ _ _ H5 _]);
    try done.
  by exists s', ps.
Qed.

(** The ramdisk of KernMain.v, and an archive object for it. *)
Definition sample_ker : ker :=
  set_next 260 (set_objs (<[257 := OTarPayload (TarPayload 0x400000 258 0 0)]>
    (<[258 := OList []]>
      (<[256 := ONode (Node (chars_of "MOTD.TXT") VN_FREGFILE 0 0 259)]>
        (<[259 := OTarNode (TarNode 256 0x400400)]> ∅))))
    (set_kmem (KernMain.Sample.ramdisk ∅) (KernMain.Sample.boot_ker (fun _ => 0)))).

(** "com", from offset 3 of "Welcome to ...". *)
Lemma tarfs_read_slice_witness :
  exists s', tarfs_read 20 256 3 0x8000 3 sample_ker = Ok (3, s') /\
    load_bytes (kmem s') 0x8000 3 = [99; 111; 109].
Proof.
  destruct (tarfs_read_slice 20 sample_ker 256 (Node (chars_of "MOTD.TXT") VN_FREGFILE 0 0 259)
    (TarNode 256 0x400400) 596 3 0x8000 3) as (s' & Hrun & Hl & _);
    [lia|by vm_compute|done|by vm_compute|lia|split; [by vm_compute|decided]|lia|lia|lia|cbn; lia|].
  exists s'. split; [exact Hrun|]. exact Hl.
Defined.

Lemma scan_blocks_visits_witness :
  exists s' ps, scan_blocks 20 257 0x400000 0 sample_ker = Ok (tt, s') /\
    view as_list (o_objs s') 258 = Some ps /\
    Forall2 (fun p b => view as_tarnode (o_objs s') p = Some (TarNode 0 b)) ps
      [0x400000; 0x400200; 0x400400].
Proof.
  destruct (scan_blocks_visits sample_ker 257 (TarPayload 0x400000 258 0 0) [] 0x400000 [0; 0; 596] 20)
    as (s' & ps & H1 & H2 & H3 & _).
  - intros i. reflexivity.
  - assert (map_Forall (fun p _ => p < o_next sample_ker) (o_objs sample_ker)) as HF by decided.
    intros p [o Ho]. exact (HF p o Ho).
  - lia.
  - lia.
  - cbn. lia.
  - by vm_compute.
  - by vm_compute.
  - repeat split; try decided; vm_compute; (reflexivity || discriminate).
  - cbn. lia.
  - exists s', ps. exact (conj H1 (conj H2 H3)).
Defined.
