(* ===== verification/TarTree.v ===== *)
(** * The directory tree of an archive

    tar.c rebuilds the directories of an archive from the path names in its
    headers.  [Module Paths]: path names; [Module Build]: the nodes that
    [reassemble_nodes] makes are the tree that the paths spell. *)
From S2P Require Import Prelude Mem Idt Device Objects Vfs Tarfs KernMain VfsProps TarfsProps.
From S2P Require CString.
From stdpp Require Import strings.
Local Open Scope Z_scope.
Import Idt.Impl CString.Pure VfsProps.Walk VfsProps.Table Tarfs.Impl TarfsProps.Scan.

(** ** Path names *)
Module Paths.

(** The path that a name in a header stands for. *)
Definition norm (full : list Z) : list Z := cut_slash (drop (skip_front full) full).
(** A name after [lookup_vnode] has cut the slash at its end. *)
Definition trimmed (full : list Z) : list Z :=
  if ends_slash (drop (skip_front full) full) then take (length full - 1) full else full.

Definition dirname (p : list Z) : list Z := (split_basename p).1.
Definition basename (p : list Z) : list Z := (split_basename p).2.

(** The path of the entry [n] of the directory [d]. *)
Definition under (d n : list Z) : list Z := if decide (d = []) then n else d ++ 47 :: n.

Lemma ends_slash_app p x : ends_slash (p ++ [x]) = bool_decide (x = 47).
Proof. unfold ends_slash. rewrite last_snoc. apply bool_decide_ext. naive_solver. Qed.

Lemma cut_slash_snoc p : cut_slash (p ++ [47]) = p.
Proof.
  unfold cut_slash. rewrite ends_slash_app, bool_decide_true by done.
  rewrite length_app. cbn [length]. by rewrite Nat.add_sub, take_app_length.
Qed.

Lemma cut_slash_id p : ends_slash p = false -> cut_slash p = p.
Proof. unfold cut_slash. by intros ->. Qed.

Lemma ends_slash_inv p : ends_slash p = true -> exists q, p = q ++ [47].
Proof.
  intros [q ->]%bool_decide_eq_true%last_Some. by exists q.
Qed.

(** "./" takes up two characters, "/" one. *)
Lemma skip_front_cases full :
  (exists q, full = 46 :: 47 :: q) \/ (exists q, full = 47 :: q) \/
  (skip_front full = 0%nat /\ head full <> Some 47).
Proof.
  destruct full as [|c full]; [by right; right|].
  destruct (decide (c = 47)) as [->|Hc]; [by right; left; exists full|].
  destruct (decide (c = 46 /\ head full = Some 47)) as [[-> H]|H].
  - left. destruct full as [|d full]; [done|]. injection H as ->. by exists full.
  - right; right. split; [|by intros [= ->]]. unfold skip_front.
    assert (skip_dot (c :: full) = 0%nat) as ->.
    { unfold skip_dot. repeat case_match; try done. by destruct H. }
    cbn [drop Nat.add skip_slash]. by repeat case_match.
Qed.

Lemma trimmed_spec full :
  trimmed full = full \/
  (exists q, full = q ++ [47] /\ trimmed full = q /\ q <> [] /\ skip_front q = skip_front full /\
    ends_slash (drop (skip_front full) full) = true /\ drop (skip_front full) full = drop (skip_front full) q ++ [47]).
Proof.
  unfold trimmed. destruct (ends_slash (drop (skip_front full) full)) eqn:E; [right|by left].
  destruct (ends_slash_inv _ E) as [r Hr]. set (k := skip_front full) in *.
  exists (take k full ++ r).
  assert (full = (take k full ++ r) ++ [47]) as Hf.
  { rewrite <- app_assoc, <- Hr. by rewrite take_drop. }
  assert (k <= length full)%nat as Hk.
  { destruct (decide (k <= length full)%nat); [done|]. rewrite drop_ge in Hr by lia. by destruct r. }
  assert (length (take k full) = k) as Hlk by (rewrite length_take; lia).
  assert (length full = S (k + length r)) as Hlf
    by (rewrite Hf, !length_app, Hlk; cbn; lia).
  assert (drop k (take k full ++ r) = r) as Hd by (by rewrite drop_app_length').
  split_and!; [done|..].
  - rewrite Hf at 2. rewrite Hlf. cbn. rewrite Nat.sub_0_r. apply take_app_length'.
    rewrite length_app. lia.
  - subst k. destruct (skip_front_cases full) as [[q ->]|[[q ->]|[H0 H1]]]; [done|done|].
    intros [_ ->]%app_eq_nil. rewrite H0, drop_0 in Hr. by rewrite Hr in H1.
  - subst k. destruct (skip_front_cases full) as [[q ->]|[[q ->]|[H0 H1]]]; [done|done|].
    rewrite H0 in Hr |- *. rewrite drop_0 in Hr. rewrite take_0, app_nil_l. rewrite Hr in H0, H1.
    destruct (skip_front_cases r) as [[q ->]|[[q ->]|[-> _]]]; [done|by destruct H1|done].
  - done.
  - by rewrite Hd, Hr.
Qed.

(** Cutting the slash off the name changes nothing for the path. *)
Lemma norm_trimmed full : ends_slash (norm full) = false -> norm (trimmed full) = norm full.
Proof.
  intros Hn. destruct (trimmed_spec full) as [->|(q & _ & -> & _ & Hk & _ & Hd)]; [done|].
  unfold norm in *. rewrite Hd, cut_slash_snoc in *. rewrite Hk. by apply cut_slash_id.
Qed.

(** A walk along a list, by position. *)
Lemma drop_step {A} (x : A) l' k l : x :: l' = drop k l -> l !! k = Some x /\ l' = drop (S k) l.
Proof.
  intros E. split.
  - rewrite <- (Nat.add_0_r k), <- lookup_drop, <- E. done.
  - rewrite <- Nat.add_1_r, <- drop_drop, <- E. done.
Qed.
Lemma drop_end {A} k (l : list A) : [] = drop k l -> (length l <= k)%nat.
Proof. intros E%(f_equal length). rewrite length_drop in E. cbn in E. lia. Qed.

(** *** Directory and file name *)

Lemma s8_slash x : 0 < x < 256 -> (s8 x =? 47) = (x =? 47).
Proof.
  intros Hx. unfold s8. rewrite u8_small by lia.
  destruct (Z.ltb_spec x 128); [done|].
  rewrite !(proj2 (Z.eqb_neq _ _)) by lia. done.
Qed.

Lemma rindex_component n : chars n -> rindex 47 n = None <-> component n.
Proof.
  induction 1 as [|x n Hx Hn IH]; cbn [rindex]; [split; [by constructor|done]|].
  unfold component in *. rewrite Forall_cons. rewrite s8_slash by done.
  change (chars_of "/") with [47]. rewrite not_elem_of_cons.
  destruct (rindex 47 n) eqn:E.
  - split; [done|]. intros [_ H]. by apply IH in H.
  - destruct (Z.eqb_spec x 47) as [->|Hne].
    + split; [done|]. by intros [[? _] _].
    + split; [|done]. intros _. split; [split; [done|apply not_elem_of_nil]|by apply IH].
Qed.

Lemma rindex_cut p n : rindex 47 n = None -> rindex 47 (p ++ 47 :: n) = Some (length p).
Proof. intros Hn. induction p as [|x p IH]; cbn [app rindex length]; [by rewrite Hn|by rewrite IH]. Qed.

Lemma rindex_Some p i :
  chars p -> rindex 47 p = Some i ->
  p = take i p ++ 47 :: drop (S i) p /\ rindex 47 (drop (S i) p) = None.
Proof.
  intros Hp. revert i. induction Hp as [|x p Hx Hp IH]; intros i; cbn [rindex]; [done|].
  destruct (rindex 47 p) as [j|] eqn:E.
  - intros [= <-]. destruct (IH j eq_refl) as [H1 H2]. split; [|done]. cbn. by f_equal.
  - rewrite s8_slash by done. destruct (Z.eqb_spec x 47) as [->|]; [|done]. by intros [= <-].
Qed.

Lemma split_under d n : chars n -> component n -> split_basename (under d n) = (d, n).
Proof.
  intros Hn Hc%rindex_component; [|done]. unfold split_basename, under. case_decide as Hd.
  - by rewrite Hc, Hd.
  - rewrite rindex_cut by done. f_equal; [by apply take_app_length|].
    change (d ++ 47 :: n) with (d ++ [47] ++ n). rewrite app_assoc.
    apply drop_app_length'. rewrite length_app. cbn. lia.
Qed.

(** A path that is made of its directory and its name. *)
Record proper (p : list Z) : Prop := Proper {
  p_chars : chars p;
  p_head : head p <> Some 47;
  p_last : ends_slash p = false
}.

Lemma under_split p :
  proper p -> p = under (dirname p) (basename p) /\ component (basename p) /\
    (p <> [] -> basename p <> []).
Proof.
  intros [Hc Hh Hl]. unfold dirname, basename, split_basename.
  destruct (rindex 47 p) as [i|] eqn:E; cbn [fst snd].
  - destruct (rindex_Some p i Hc E) as [H1 H2]. split_and!.
    + unfold under. rewrite decide_False; [done|]. intros H3. rewrite H3 in H1. by rewrite H1 in Hh.
    + apply rindex_component; [|done]. by apply Forall_drop.
    + intros _ H3. rewrite H3 in H1. rewrite H1, ends_slash_app in Hl. by apply bool_decide_eq_false in Hl.
  - split_and!; [done|by apply rindex_component|done].
Qed.

Lemma dirname_under d n : chars n -> component n -> dirname (under d n) = d /\ basename (under d n) = n.
Proof. intros H1 H2. unfold dirname, basename. by rewrite split_under. Qed.

Lemma dirname_shorter p : proper p -> p <> [] -> (length (dirname p) < length p)%nat.
Proof.
  intros Hp Hne. destruct (under_split p Hp) as (E & _ & Hb). specialize (Hb Hne).
  rewrite E at 2. unfold under. case_decide as Hd.
  - rewrite Hd. destruct (basename p); [done|]. cbn. lia.
  - rewrite length_app. cbn. lia.
Qed.

Lemma basename_chars p : chars p -> chars (basename p).
Proof.
  intros Hc. unfold basename, split_basename. destruct (rindex 47 p); [by apply Forall_drop|done].
Qed.

Lemma dirname_proper p : proper p -> Forall (fun c => 0 < c < 256) (dirname p).
Proof.
  intros [Hc _ _]. unfold dirname, split_basename. destruct (rindex 47 p); [by apply Forall_take|constructor].
Qed.

End Paths.

(** ** The nodes *)
Module Build.
Import Paths.

(** An entry of the archive: the address of its header block, the path its name
    stands for, and its type character. *)
Record entry := Entry { e_block : Z; e_path : list Z; e_type : Z }.

(** The header's name stands for the path; it may have lost its slash. *)
Definition named (m : mem) (e : entry) : Prop :=
  exists full, cstr m (e_block e) full /\ norm full = e_path e /\ full <> [] /\
    (length full < 100)%nat.
Definition typed (m : mem) (e : entry) : Prop := load8 m (e_block e + t_type) = e_type e.

(** A path that is not absolute, has no slash at its end and whose last part
    fits in [vn_name]. *)
Definition entry_ok (e : entry) : Prop :=
  proper (e_path e) /\ (length (basename (e_path e)) < 64)%nat.
Definition blocks_apart (es : list entry) : Prop :=
  forall i j e f, es !! i = Some e -> es !! j = Some f -> i <> j ->
    e_block e + 512 <= e_block f \/ e_block f + 512 <= e_block e.

(** The first entry of a path, and the one that is an entry's directory. *)
Definition first (es : list entry) (path : list Z) : option nat :=
  fst <$> list_find (fun e => e_path e = path) es.
Definition parent (es : list entry) (path : list Z) : option nat :=
  if decide (path = []) then None else first es (dirname path).

(** The node of an entry, where [vs] are the nodes made so far (0 for none). *)
Definition node_at (vs : list Z) (i : option nat) : Z :=
  match i with Some i => nth i vs 0 | None => 0 end.

Lemma first_Some es path i :
  first es path = Some i ->
  (exists e, es !! i = Some e /\ e_path e = path) /\
  forall j e, (j < i)%nat -> es !! j = Some e -> e_path e <> path.
Proof.
  unfold first. destruct (list_find _ es) as [[i' e]|] eqn:E; [|done]. intros [= ->].
  apply list_find_Some in E as (H1 & H2 & H3). split; [by exists e|].
  intros j f Hj Hf. by eapply H3.
Qed.

Lemma first_None es path i e : first es path = None -> es !! i = Some e -> e_path e <> path.
Proof.
  unfold first. destruct (list_find _ es) as [|] eqn:E; [done|]. intros _ He.
  apply list_find_None in E. rewrite Forall_forall in E. by eapply E, list_elem_of_lookup_2.
Qed.

Lemma first_intro es path i e :
  es !! i = Some e -> e_path e = path -> exists j, first es path = Some j.
Proof.
  intros He Hp. destruct (first es path) as [j|] eqn:E; [by exists j|].
  by destruct (first_None _ _ _ _ E He).
Qed.

(** *** Names in memory *)

Lemma c_string_run fuel p str s :
  cstr (kmem s) p str -> (length str < fuel)%nat -> c_string fuel p s = Ok (str, s).
Proof.
  revert p fuel. induction str as [|c str IH]; intros p [|fuel] Hs Hf; try (cbn in Hf; lia);
    cbn [c_string]; mstep (ldb_run p s).
  - apply CString.Facts.cstr_nil in Hs. by rewrite Hs.
  - apply CString.Facts.cstr_cons in Hs as (H1 & H2 & H3). rewrite H1, if_app.
    rewrite (proj2 (Z.eqb_neq c 0)) by lia. mstep (IH (p + 1) fuel H3 ltac:(cbn in Hf; lia)). done.
Qed.

(** The bytes of the names. *)
Definition off_names (es : list entry) (a : Z) : Prop :=
  Forall (fun e => ~ e_block e <= a < e_block e + 100) es.

(** [kiwi[last_char] = 0] in [lookup_vnode]. *)
Definition trim_mem (m : mem) (p : Z) (full : list Z) : mem :=
  if ends_slash (drop (skip_front full) full)
  then store8 m (p + Z.of_nat (length full) - 1) 0 else m.

Lemma trim_run p full s :
  mwhen (ends_slash (drop (skip_front full) full)) (stb (p + Z.of_nat (length full) - 1) 0) s
  = Ok (tt, set_kmem (trim_mem (kmem s) p full) s).
Proof.
  unfold mwhen, trim_mem. rewrite if_app. destruct (ends_slash _); [done|]. by rewrite set_kmem_id.
Qed.

Lemma trim_mem_cstr m p full : cstr m p full -> cstr (trim_mem m p full) p (trimmed full).
Proof.
  intros Hs. unfold trim_mem. destruct (trimmed_spec full) as [E|(q & E & -> & _ & _ & -> & _)].
  - rewrite E. unfold trimmed in E. destruct (ends_slash _) eqn:Hl; [|done].
    destruct full as [|c full]; [by cbn in Hl|]. apply (f_equal length) in E. rewrite length_take in E. cbn in E. lia.
  - rewrite E in Hs |- *. rewrite length_app. cbn [length].
    replace (p + Z.of_nat (length q + 1) - 1) with (p + Z.of_nat (length q)) by lia.
    by apply CString.Facts.cstr_cut with (s2 := [47]).
Qed.

Lemma trim_mem_agree es m e full :
  e ∈ es -> full <> [] -> (length full < 100)%nat -> agree (off_names es) m (trim_mem m (e_block e) full).
Proof.
  intros He Hne Hl. unfold trim_mem. destruct (ends_slash _); [|apply agree_refl].
  apply agree_store8. unfold off_names. rewrite Forall_forall. intros H. apply (H e He).
  destruct full; [done|]. cbn [length] in *. lia.
Qed.

Lemma trim_named es m i e full :
  blocks_apart es -> Forall entry_ok es -> Forall (named m) es -> Forall (typed m) es ->
  es !! i = Some e -> cstr m (e_block e) full -> norm full = e_path e -> full <> [] ->
  (length full < 100)%nat ->
  Forall (named (trim_mem m (e_block e) full)) es /\ Forall (typed (trim_mem m (e_block e) full)) es.
Proof.
  intros Hap Hok Hnm Hty He Hs Hn Hne Hl.
  assert (forall j f a, es !! j = Some f -> i <> j -> e_block f <= a < e_block f + 512 ->
    load8 m a = load8 (trim_mem m (e_block e) full) a) as Hoff.
  { intros j f a Hj Hij Ha. unfold trim_mem. destruct (ends_slash _); [|done].
    rewrite load8_store8_ne; [done|]. destruct (Hap _ _ _ _ He Hj Hij);
      destruct full; try done; cbn [length] in *; lia. }
  split; apply Forall_lookup; intros j f Hj; destruct (decide (i = j)) as [<-|Hij].
  - rewrite He in Hj. injection Hj as <-. exists (trimmed full).
    rewrite Forall_lookup in Hok. destruct (Hok _ _ He) as [[_ _ Hls] _]. split_and!.
    + by apply trim_mem_cstr.
    + rewrite norm_trimmed; [done|]. by rewrite Hn.
    + by destruct (trimmed_spec full) as [->|(q & _ & -> & H & _)].
    + destruct (trimmed_spec full) as [->|(q & E & -> & _)]; [done|].
      rewrite E, length_app in Hl. cbn in Hl. lia.
  - rewrite Forall_lookup in Hnm. destruct (Hnm _ _ Hj) as (g & H1 & H2 & H3 & H4).
    exists g. split_and!; [|done..]. eapply CString.Facts.cstr_agree; [exact H1|].
    intros a Ha. apply (Hoff j f); [done|done|lia].
  - rewrite He in Hj. injection Hj as <-. rewrite Forall_lookup in Hty. unfold typed.
    rewrite <- (Hty _ _ He). unfold typed, trim_mem, t_type. destruct (ends_slash _); [|done].
    apply load8_store8_ne. lia.
  - rewrite Forall_lookup in Hty. unfold typed. rewrite <- (Hty _ _ Hj). symmetry.
    apply (Hoff j f); [done|done|unfold t_type; lia].
Qed.

(** *** The invariant *)

Section build.
Context (fuel : nat) (tar luna buf l : Z) (ps : list Z) (es : list entry).
Context (Hnodup : NoDup ps) (Hlen : length ps = length es) (Hok : Forall entry_ok es).
Context (Hap : blocks_apart es) (Hfuel : (100 <= fuel)%nat).

(** The node [v] made for the entry [e], whose [tarfs_node] is [p]. *)
Definition placed (s : ker) (vs : list Z) (p v : Z) (e : entry) : Prop :=
  exists name, view as_node (o_objs s) v
      = Some (Node name (type_flags (e_type e)) (node_at vs (parent es (e_path e))) luna p) /\
    (e_path e <> [] -> name = basename (e_path e)) /\
    forall j, parent es (e_path e) = Some j -> nth j vs 0 <> 0.

Record building (s : ker) (vs : list Z) : Prop := Building {
  b_length : length vs = length es;
  b_tar : tar <> 0 /\
    view as_payload (o_objs s) tar = Some (TarPayload buf l luna (node_at vs (first es [])));
  b_list : l <> 0 /\ view as_list (o_objs s) l = Some ps;
  b_node i p e : ps !! i = Some p -> es !! i = Some e ->
    p <> 0 /\ view as_tarnode (o_objs s) p = Some (TarNode (nth i vs 0) (e_block e));
  b_placed i p e : ps !! i = Some p -> es !! i = Some e -> nth i vs 0 <> 0 ->
    placed s vs p (nth i vs 0) e;
  b_named : Forall (named (kmem s)) es;
  b_typed : Forall (typed (kmem s)) es;
  b_fresh q : is_Some (o_objs s !! q) -> q < o_next s;
  b_next : 0 < o_next s;
  b_rich : rich s
}.

(** What making the nodes of paths of at most [bound] characters changes. *)
Record grows (bound : nat) (s s' : ker) (vs vs' : list Z) : Prop := Grows {
  g_quiet : quiet s s';
  g_next : o_next s <= o_next s';
  g_mem : agree (off_names es) (kmem s) (kmem s');
  g_objs q : q < o_next s -> q ∉ ps -> q <> tar -> o_objs s' !! q = o_objs s !! q;
  g_keep i : nth i vs 0 <> 0 -> nth i vs' 0 = nth i vs 0;
  g_long i e : es !! i = Some e -> (bound < length (e_path e))%nat -> nth i vs' 0 = nth i vs 0
}.

Lemma grows_refl bound s vs : grows bound s s vs vs.
Proof. split; try done. apply quiet_refl. Qed.

Lemma grows_trans b1 b2 b s1 s2 s3 vs1 vs2 vs3 :
  grows b1 s1 s2 vs1 vs2 -> grows b2 s2 s3 vs2 vs3 -> (b1 <= b)%nat -> (b2 <= b)%nat ->
  grows b s1 s3 vs1 vs3.
Proof.
  intros [A1 A2 A3 A4 A5 A6] [B1 B2 B3 B4 B5 B6] H1 H2. split.
  - by eapply quiet_trans.
  - lia.
  - by eapply agree_trans.
  - intros q Hq Hp Ht. rewrite B4, A4 by (done || lia). done.
  - intros i Hi. rewrite B5, A5 by (rewrite ?A5; done). done.
  - intros i e He Hl. rewrite (B6 i e), (A6 i e) by (done || lia). done.
Qed.

(** An entry's [tarfs_node] and its header. *)
Lemma entry_at i e : es !! i = Some e -> exists p, ps !! i = Some p.
Proof.
  intros He. apply lookup_lt_is_Some. rewrite Hlen. by eapply lookup_lt_Some.
Qed.

Lemma node_apart {A B} (k1 : obj -> option A) (k2 : obj -> option B) m p q a b :
  (forall o, is_Some (k1 o) -> is_Some (k2 o) -> False) ->
  view k1 m p = Some a -> view k2 m q = Some b -> p <> q.
Proof.
  intros Hk (o & Ho & Ha)%view_Some (o' & Ho' & Hb)%view_Some ->.
  rewrite Ho in Ho'. injection Ho' as <-. apply (Hk o); eauto.
Qed.

(** Trimming a name. *)
Lemma building_trim s vs i e full :
  building s vs -> es !! i = Some e -> cstr (kmem s) (e_block e) full -> norm full = e_path e ->
  full <> [] -> (length full < 100)%nat ->
  let s' := set_kmem (trim_mem (kmem s) (e_block e) full) s in
  building s' vs /\ grows 0 s s' vs vs.
Proof.
  intros [B1 B2 B3 B4 B5 B6 B7 B8 B9 B10] He Hs Hn Hne Hl s'.
  destruct (trim_named es (kmem s) i e full) as [N1 N2]; try done.
  split; split; try done. apply trim_mem_agree; [by eapply list_elem_of_lookup_2|done|done].
Qed.

Lemma cmp_paths p q : chars p -> chars q -> (length p < 100)%nat -> (length q < 100)%nat ->
  cmpn 256 p q = 0 <-> p = q.
Proof.
  intros Hp Hq Hlp Hlq. unfold cmpn. rewrite !take_ge by lia. by apply cmp_eq.
Qed.

Lemma norm_length full : (length (norm full) <= length full)%nat.
Proof.
  unfold norm, cut_slash. destruct (ends_slash _); rewrite ?length_take, length_drop; lia.
Qed.

(** *** [lookup_vnode] *)

(** [R] makes the node of an entry whose path has fewer than [bound]
    characters, and those of its directories. *)
Definition makes (R : Z -> M ker unit) (bound : nat) : Prop :=
  forall s vs i p e, building s vs -> ps !! i = Some p -> es !! i = Some e ->
    (length (e_path e) < bound)%nat ->
    (e_path e = [] -> exists j, first es [] = Some j /\ (j = i \/ nth j vs 0 <> 0)) ->
    exists s' vs', R p s = Ok (tt, s') /\ building s' vs' /\
      grows (length (e_path e)) s s' vs vs' /\ nth i vs' 0 <> 0.

Lemma first_here path k e :
  es !! k = Some e -> e_path e = path ->
  (forall j f, (j < k)%nat -> es !! j = Some f -> e_path f <> path) -> first es path = Some k.
Proof.
  intros He Hp Hj. unfold first. apply fmap_Some. exists (k, e). split; [|done].
  apply list_find_Some. split_and!; [done|done|]. intros j f Hf Hlt. by apply (Hj j).
Qed.

Lemma lookup_loop_run R bound path :
  makes R bound -> chars path -> (length path < bound)%nat -> (length path < 100)%nat ->
  forall nodes k s vs, nodes = drop k ps -> building s vs ->
  (forall j f, (j < k)%nat -> es !! j = Some f -> e_path f <> path) ->
  exists s' vs', lookup_loop fuel R nodes path s = Ok (node_at vs' (first es path), s') /\
    building s' vs' /\ grows (length path) s s' vs vs' /\
    forall j, first es path = Some j -> nth j vs' 0 <> 0.
Proof.
  intros HR Hc Hlb Hl nodes. induction nodes as [|p nodes IH]; intros k s vs Hnodes HB Hno.
  - assert (first es path = None) as Hf.
    { destruct (first es path) as [j|] eqn:E; [|done].
      destruct (first_Some _ _ _ E) as ((e & He & Hp) & _). destruct (Hno j e); [|done..].
      apply drop_end in Hnodes. apply lookup_lt_Some in He. lia. }
    exists s, vs. rewrite Hf. split_and!; [done|done|apply grows_refl|done].
  - destruct (drop_step _ _ _ _ Hnodes) as [Hp Hnodes'].
    destruct (lookup_lt_is_Some_2 es k) as [e He]; [rewrite <- Hlen; by eapply lookup_lt_Some|].
    destruct (b_node _ _ HB k p e Hp He) as [Hp0 Hn]. cbn [lookup_loop].
    mstep (deref_run as_tarnode p s _ Hp0 Hn). cbn [tn_block]. unfold t_name. rewrite !Z.add_0_r.
    pose proof (b_named _ _ HB) as Hnm. rewrite Forall_lookup in Hnm.
    destruct (Hnm k e He) as (full & N1 & N2 & N3 & N4).
    mstep (c_string_run fuel (e_block e) full s N1 ltac:(lia)).
    mstep (trim_run (e_block e) full s).
    destruct (building_trim s vs k e full HB He N1 N2 N3 N4) as [HB1 HG1].
    set (s1 := set_kmem _ s) in *. change (cut_slash _) with (norm full). rewrite N2.
    destruct (proj1 (Forall_lookup _ _) Hok k e He) as [[Hce _ _] _].
    pose proof (norm_length full) as Hnl. rewrite N2 in Hnl.
    pose proof (cmp_paths (e_path e) path Hce Hc ltac:(lia) Hl) as Hcmp.
    rewrite if_app. destruct (Z.eqb_spec (cmpn 256 (e_path e) path) 0) as [E|E].
    + apply Hcmp in E. pose proof (first_here path k e He E Hno) as Hf.
      destruct (HR s1 vs k p e HB1 Hp He) as (s2 & vs2 & R2 & HB2 & HG2 & Hk);
        [by rewrite E|intros Ee; exists k; rewrite <- Ee, E; by split; [|left]|].
      mstep R2. destruct (b_node _ _ HB2 k p e Hp He) as [_ Hn2].
      mstep (deref_run as_tarnode p s2 _ Hp0 Hn2). exists s2, vs2. rewrite Hf. split_and!.
      * done.
      * done.
      * rewrite E in HG2. eapply grows_trans; [exact HG1|exact HG2|lia|lia].
      * by intros j [= <-].
    + assert (e_path e <> path) as Hne by (intros Ep; by apply Hcmp in Ep).
      destruct (IH (S k) s1 vs Hnodes' HB1) as (s2 & vs2 & R2 & HB2 & HG2 & Hj).
      { intros j f Hjk Hf. destruct (decide (j = k)) as [->|]; [|apply (Hno j); [lia|done]].
        rewrite He in Hf. by injection Hf as <-. }
      exists s2, vs2. split_and!; [exact R2|done| |done].
      eapply grows_trans; [exact HG1|exact HG2|lia|lia].
Qed.

(** *** [reassemble_nodes] *)

Lemma nth_insert (vs : list Z) i j v :
  (i < length vs)%nat -> nth j (<[i := v]> vs) 0 = if decide (j = i) then v else nth j vs 0.
Proof.
  intros Hi. rewrite !nth_lookup. case_decide as Hj.
  - subst. by rewrite list_lookup_insert_eq.
  - by rewrite list_lookup_insert_ne.
Qed.

(** The objects that are there, and the new node, are apart. *)
Lemma building_apart s vs v :
  building s vs -> v <> 0 -> view as_node (o_objs s) v = Some (Node [] 0 0 0 0) ->
  v <> tar /\ v <> l /\ (v ∉ ps) /\ (tar ∉ ps) /\ (l ∉ ps) /\ l <> tar /\
  forall i p e, ps !! i = Some p -> es !! i = Some e -> nth i vs 0 <> v.
Proof.
  intros HB Hv0 Hv. destruct (b_tar _ _ HB) as [_ Ht]. destruct (b_list _ _ HB) as [_ Hl].
  assert (forall p, p ∈ ps -> exists t, view as_tarnode (o_objs s) p = Some t) as Hp.
  { intros p [i Hi]%list_elem_of_lookup_1.
    destruct (lookup_lt_is_Some_2 es i) as [e He]; [rewrite <- Hlen; by eapply lookup_lt_Some|].
    eexists. by apply (b_node _ _ HB i p e). }
  assert (forall o, is_Some (as_node o) -> is_Some (as_tarnode o) -> False) as K1
    by (intros [] [] []; done).
  assert (forall o, is_Some (as_payload o) -> is_Some (as_tarnode o) -> False) as K2
    by (intros [] [] []; done).
  assert (forall o, is_Some (as_list o) -> is_Some (as_tarnode o) -> False) as K3
    by (intros [] [] []; done).
  split_and!.
  - eapply node_apart; [|exact Hv|exact Ht]. intros [] [] []; done.
  - eapply node_apart; [|exact Hv|exact Hl]. intros [] [] []; done.
  - intros [t H]%Hp. by eapply (node_apart _ _ _ _ _ _ _ K1 Hv H).
  - intros [t H]%Hp. by eapply (node_apart _ _ _ _ _ _ _ K2 Ht H).
  - intros [t H]%Hp. by eapply (node_apart _ _ _ _ _ _ _ K3 Hl H).
  - eapply node_apart; [|exact Hl|exact Ht]. intros [] [] []; done.
  - intros i p e Hi He E. destruct (b_node _ _ HB i p e Hi He) as [Hp0 _].
    destruct (b_placed _ _ HB i p e Hi He) as (nm & H & _); [by rewrite E|].
    rewrite E, Hv in H. injection H as _ _ _ _ H. done.
Qed.

(** The state when the entry [i] has got its node [v]. *)
Definition place (s : ker) (vs : list Z) (i : nat) (p v : Z) (e : entry) (name : list Z) : ker :=
  set_obj p (OTarNode (TarNode v (e_block e)))
    (set_obj v (ONode (Node name (type_flags (e_type e)) (node_at vs (parent es (e_path e))) luna p))
      (set_obj tar (OTarPayload (TarPayload buf l luna (node_at (<[i := v]> vs) (first es [])))) s)).

Lemma node_at_ne vs i v o :
  (i < length vs)%nat -> o <> Some i -> node_at (<[i := v]> vs) o = node_at vs o.
Proof.
  intros Hi Ho. destruct o as [j|]; [|done]. cbn [node_at]. rewrite nth_insert by done.
  case_decide as E; [by subst|done].
Qed.

Lemma node_at_insert vs i v o :
  (i < length vs)%nat -> nth i vs 0 = 0 -> (forall j, o = Some j -> nth j vs 0 <> 0) ->
  node_at (<[i := v]> vs) o = node_at vs o.
Proof. intros Hi H0 Ho. apply node_at_ne; [done|]. intros E. by destruct (Ho i E). Qed.

(** Nodes made before stay as they are. *)
Lemma placed_kept s vs i p v e name j q f :
  building s vs -> ps !! i = Some p -> es !! i = Some e -> nth i vs 0 = 0 ->
  v <> 0 -> view as_node (o_objs s) v = Some (Node [] 0 0 0 0) ->
  ps !! j = Some q -> es !! j = Some f -> nth j vs 0 <> 0 ->
  placed (place s vs i p v e name) (<[i := v]> vs) q (nth j vs 0) f.
Proof.
  intros HB Hp He Hi Hv0 Hv Hq Hf Hj.
  destruct (building_apart s vs v HB Hv0 Hv) as (_ & _ & _ & _ & _ & _ & A7).
  assert (i < length vs)%nat as Hil by (rewrite (b_length _ _ HB); by eapply lookup_lt_Some).
  destruct (b_placed _ _ HB j q f Hq Hf Hj) as (nm & N1 & N2 & N3). exists nm.
  assert (nth j vs 0 <> v) as Hjv by by eapply A7.
  assert (nth j vs 0 <> p) as Hjp.
  { eapply node_apart; [|exact N1|exact (proj2 (b_node _ _ HB i p e Hp He))]. intros [] [] []; done. }
  assert (nth j vs 0 <> tar) as Hjt.
  { eapply node_apart; [|exact N1|exact (proj2 (b_tar _ _ HB))]. intros [] [] []; done. }
  unfold place. cbn [o_objs set_obj set_objs]. rewrite !view_insert_ne by done. split_and!; [|done|].
  - by rewrite N1, node_at_insert.
  - intros k Hk. rewrite nth_insert by done. case_decide; [done|by apply N3].
Qed.

Lemma place_building s vs i p v e name :
  building s vs -> ps !! i = Some p -> es !! i = Some e -> nth i vs 0 = 0 ->
  v <> 0 -> view as_node (o_objs s) v = Some (Node [] 0 0 0 0) ->
  (e_path e <> [] -> name = basename (e_path e)) ->
  (forall j, parent es (e_path e) = Some j -> nth j vs 0 <> 0) ->
  building (place s vs i p v e name) (<[i := v]> vs).
Proof.
  intros HB Hp He Hi Hv0 Hv Hname Hpar.
  destruct (building_apart s vs v HB Hv0 Hv) as (A1 & A2 & A3 & A4 & A5 & A6 & A7).
  pose proof HB as [B1 [B2 B2'] [B3 B3'] B4 B5 B6 B7 B8 B9 B10].
  assert (i < length vs)%nat as Hil by (rewrite B1; by eapply lookup_lt_Some).
  assert (p ∈ ps) as Hpin by by eapply list_elem_of_lookup_2.
  assert (p <> tar /\ p <> l /\ p <> v) as (P1 & P2 & P3) by (split_and!; intros ->; done).
  unfold place. split; cbn [o_objs set_obj set_objs o_next].
  - by rewrite length_insert.
  - split; [done|]. by rewrite !view_insert_ne, view_insert by done.
  - split; [done|]. by rewrite !view_insert_ne by done.
  - intros j q f Hq Hf. destruct (B4 j q f Hq Hf) as [Q1 Q2]. split; [done|].
    rewrite nth_insert by done. case_decide as Hji.
    + subst j. rewrite Hp in Hq. rewrite He in Hf. injection Hq as <-. injection Hf as <-.
      by rewrite view_insert.
    + assert (q <> p) by (intros ->; apply Hji; by eapply NoDup_lookup).
      assert (q ∈ ps) by by eapply list_elem_of_lookup_2.
      by rewrite !view_insert_ne by (intros ->; done).
  - intros j q f Hq Hf. rewrite nth_insert by done. case_decide as Hji.
    + subst j. rewrite Hp in Hq. rewrite He in Hf. injection Hq as <-. injection Hf as <-.
      intros _. exists name. cbn [o_objs set_obj set_objs].
      rewrite view_insert_ne by done. rewrite view_insert. split_and!; [|done|].
      * by rewrite node_at_insert.
      * intros j Hj. rewrite nth_insert by done. case_decide; [done|by apply Hpar].
    + intros Hj. by apply (placed_kept s vs i p v e name j).
  - done.
  - done.
  - intros q. rewrite !lookup_insert_is_Some'.
    pose proof (view_fresh as_node s v _ B8 Hv). pose proof (view_fresh as_payload s tar _ B8 B2').
    pose proof (view_fresh as_tarnode s p _ B8 (proj2 (B4 i p e Hp He))).
    intros [|[|[|Hq]]]; try lia. by apply B8.
  - done.
  - done.
Qed.

(** The archive's object with another root. *)
Definition set_root (vs : list Z) (s : ker) : ker :=
  set_obj tar (OTarPayload (TarPayload buf l luna (node_at vs (first es [])))) s.

Lemma set_root_id s vs : building s vs -> set_root vs s = s.
Proof.
  intros HB. destruct (b_tar _ _ HB) as [_ (o & Ho & Hk)%view_Some]. destruct o; try done.
  injection Hk as ->. unfold set_root, set_obj. rewrite insert_id by done. by destruct s.
Qed.

Lemma place_node_run R depth s vs i v e :
  makes R depth -> building s vs -> es !! i = Some e -> nth i vs 0 = 0 ->
  (length (e_path e) <= depth)%nat -> (length (e_path e) < 100)%nat ->
  (e_path e = [] -> exists j, first es [] = Some j /\ (j = i \/ nth j vs 0 <> 0)) ->
  exists name s' vs', place_node fuel R tar v (e_path e) s
      = Ok ((name, node_at vs' (parent es (e_path e))), set_root (<[i := v]> vs') s') /\
    building s' vs' /\ grows (length (e_path e)) s s' vs vs' /\ nth i vs' 0 = 0 /\
    (e_path e <> [] -> name = basename (e_path e)) /\
    forall j, parent es (e_path e) = Some j -> nth j vs' 0 <> 0.
Proof.
  intros HR HB He Hi Hd Hl Hfirst. unfold place_node. rewrite gets_bind.
  assert (i < length vs)%nat as Hil by (rewrite (b_length _ _ HB); by eapply lookup_lt_Some).
  destruct (b_tar _ _ HB) as [Ht0 Ht]. unfold parent. case_decide as Hp.
  - mstep (deref_run as_payload tar s _ Ht0 Ht). cbn [tp_root tp_buf tp_nodes tp_volume].
    destruct (Hfirst Hp) as (j & Hj & Hji). rewrite Hj in *. cbn [node_at].
    exists (o_junk_name s v), s, vs. split_and!; [|done|apply grows_refl|done..].
    unfold set_root. rewrite Hj. cbn [node_at]. rewrite nth_insert by done.
    destruct (decide (j = i)) as [->|Hne].
    + rewrite Hi. cbn [Z.eqb mwhen]. by rewrite put_bind.
    + destruct Hji as [|Hj0]; [done|]. rewrite (proj2 (Z.eqb_neq _ 0) Hj0). cbn [mwhen].
      pose proof (set_root_id s vs HB) as E. unfold set_root in E. rewrite Hj in E. cbn [node_at] in E.
      by rewrite ret_bind, E.
  - destruct (proj1 (Forall_lookup _ _) Hok i e He) as [Hprop Hbase].
    destruct (under_split _ Hprop) as (_ & _ & Hb). specialize (Hb Hp).
    pose proof (dirname_shorter _ Hprop Hp) as Hshort.
    rewrite (surjective_pairing (split_basename _)).
    change ((split_basename (e_path e)).1) with (dirname (e_path e)).
    change ((split_basename (e_path e)).2) with (basename (e_path e)).
    rewrite (bind_Ok _ _ s (basename (e_path e)) s).
    2:{ unfold Mounts.copy_name. destruct (basename (e_path e)) eqn:E; [done|].
        by rewrite (proj2 (Nat.ltb_lt _ 64)). }
    mstep (deref_run as_payload tar s _ Ht0 Ht). cbn [tp_nodes].
    destruct (b_list _ _ HB) as [Hl0 Hlist]. mstep (deref_run as_list l s _ Hl0 Hlist).
    destruct (lookup_loop_run R depth (dirname (e_path e)) HR (dirname_proper _ Hprop) ltac:(lia)
      ltac:(lia) ps 0 s vs eq_refl HB ltac:(lia)) as (s' & vs' & R1 & HB' & HG & Hpar).
    mstep R1. assert (nth i vs' 0 = 0) as Hi' by (by rewrite (g_long _ _ _ _ _ HG i e)).
    exists (basename (e_path e)), s', vs'. split_and!; try done.
    + unfold set_root. rewrite node_at_ne; [|by rewrite (b_length _ _ HB'), <- (b_length _ _ HB)|].
      * fold (set_root vs' s'). by rewrite set_root_id.
      * intros (( f & Hf & Hfp) & _)%first_Some. rewrite He in Hf. by injection Hf as <-.
    + eapply grows_trans; [exact HG|apply (grows_refl 0)|lia|lia].
Qed.

(** The copy of the name and the new node are allocated. *)
Definition alloc (s : ker) : ker :=
  let s1 := set_next (o_next s + 1) (tick s) in
  set_next (o_next s1 + 1) (set_obj (o_next s1) (ONode (Node [] 0 0 0 0)) (tick s1)).

Lemma building_alloc s vs :
  building s vs ->
  building (alloc s) vs /\ grows 0 s (alloc s) vs vs /\
  view as_node (o_objs (alloc s)) (o_next s + 1) = Some (Node [] 0 0 0 0).
Proof.
  intros [B1 [B2 B2'] [B3 B3'] B4 B5 B6 B7 B8 B9 B10].
  assert (forall {A} (kind : obj -> option A) q a, view kind (o_objs s) q = Some a ->
    view kind (o_objs (alloc s)) q = Some a) as Hv.
  { intros A kind q a Ha. pose proof (view_fresh kind s q a B8 Ha). unfold alloc. cbn.
    by rewrite view_insert_ne by lia. }
  split_and!.
  - split; try done; try auto.
    + intros i p e Hp He. destruct (B4 i p e Hp He) as [H1 H2]. split; [done|by apply Hv].
    + intros i p e Hp He Hi. destruct (B5 i p e Hp He Hi) as (nm & H1 & H2 & H3).
      exists nm. split_and!; [by apply Hv|done|done].
    + intros q. unfold alloc. cbn. rewrite lookup_insert_is_Some'. intros [|Hq]; [lia|].
      apply B8 in Hq. lia.
    + unfold alloc. cbn. lia.
  - split; try done.
    + exact (quiet_objs s (o_objs (alloc s)) (o_next (alloc s)) (o_count (alloc s))).
    + unfold alloc. cbn. lia.
    + intros q Hq _ _. unfold alloc. cbn. by rewrite lookup_insert_ne by lia.
  - unfold alloc. cbn. by rewrite view_insert.
Qed.

(** What follows the search for the parent. *)
Lemma finish_run s vs i p v e name :
  building s vs -> ps !! i = Some p -> es !! i = Some e ->
  (type ← ldb (e_block e + t_type);
   t ← deref as_payload tar;
   _ ← put v (ONode (Node name (type_flags type) (node_at vs (parent es (e_path e))) (tp_volume t) p));
   put p (OTarNode (TarNode v (e_block e)))) (set_root (<[i := v]> vs) s)
  = Ok (tt, place s vs i p v e name).
Proof.
  intros HB Hp He. set (s1 := set_root _ s). mstep (ldb_run (e_block e + t_type) s1).
  change (kmem s1) with (kmem s).
  rewrite (proj1 (Forall_lookup _ _) (b_typed _ _ HB) i e He).
  assert (view as_payload (o_objs s1) tar
    = Some (TarPayload buf l luna (node_at (<[i := v]> vs) (first es [])))) as Ht.
  { unfold s1, set_root. cbn. by rewrite view_insert. }
  mstep (deref_run as_payload tar s1 _ (proj1 (b_tar _ _ HB)) Ht). done.
Qed.

Lemma place_grows s0 s vs0 vs i p v e name :
  ps !! i = Some p -> es !! i = Some e -> (i < length vs)%nat -> nth i vs0 0 = 0 ->
  o_next s0 <= v -> grows (length (e_path e)) s0 s vs0 vs ->
  grows (length (e_path e)) s0 (place s vs i p v e name) vs0 (<[i := v]> vs).
Proof.
  intros Hp He Hil Hi Hv [G1 G2 G3 G4 G5 G6]. split.
  - eapply quiet_trans; [exact G1|]. set (s' := place s vs i p v e name).
    exact (quiet_objs s (o_objs s') (o_next s') (o_count s')).
  - done.
  - done.
  - intros q Hq Hqp Hqt. unfold place. cbn.
    rewrite !lookup_insert_ne; [by apply G4|done|lia|].
    intros <-. apply Hqp. by eapply list_elem_of_lookup_2.
  - intros j Hj. rewrite nth_insert by done. case_decide; [by subst|by apply G5].
  - intros j f Hf Hlt. rewrite nth_insert by done. case_decide; [|by eapply G6]. subst.
    rewrite He in Hf. injection Hf as <-. lia.
Qed.

Lemma reassemble_makes depth : makes (reassemble_nodes depth fuel tar) depth.
Proof.
  induction depth as [|depth IH]; intros s vs i p e HB Hp He Hd Hfirst; [lia|].
  cbn [reassemble_nodes]. destruct (b_node _ _ HB i p e Hp He) as [Hp0 Hn].
  mstep (deref_run as_tarnode p s _ Hp0 Hn). cbn [tn_node tn_block]. rewrite if_app.
  destruct (Z.eqb_spec (nth i vs 0) 0) as [Hi|Hi]; cbn [negb].
  2:{ exists s, vs. split_and!; [done|done|apply grows_refl|done]. }
  unfold t_name. rewrite Z.add_0_r.
  destruct (proj1 (Forall_lookup _ _) (b_named _ _ HB) i e He) as (full & N1 & N2 & N3 & N4).
  mstep (c_string_run fuel (e_block e) full s N1 ltac:(lia)).
  mstep (dup_run s full (b_rich _ _ HB) N3). change (cut_slash _) with (norm full). rewrite N2.
  set (s1 := set_next (o_next s + 1) (tick s)).
  mstep (new_run s1 (fun _ => ONode (Node [] 0 0 0 0)) (b_rich _ _ HB)).
  destruct (building_alloc s vs HB) as (HB1 & HG1 & Hv). pose proof (b_next _ _ HB) as Hnext.
  change (set_next (o_next s1 + 1) _) with (alloc s). change (o_next s1) with (o_next s + 1).
  set (v := o_next s + 1) in *. rewrite if_app, (proj2 (Z.eqb_neq v 0)) by lia.
  pose proof (norm_length full) as Hnl. rewrite N2 in Hnl.
  destruct (place_node_run (reassemble_nodes depth fuel tar) depth (alloc s) vs i v e IH HB1 He Hi
    ltac:(lia) ltac:(lia) Hfirst) as (name & s2 & vs2 & R2 & HB2 & HG2 & Hi2 & Hname & Hpar).
  mstep R2. cbn [fst snd]. rewrite (finish_run s2 vs2 i p v e name HB2 Hp He).
  destruct (building_apart (alloc s) vs v HB1 ltac:(lia) Hv) as (A1 & _ & A3 & _).
  assert (view as_node (o_objs s2) v = Some (Node [] 0 0 0 0)) as Hv2.
  { rewrite <- Hv. unfold view. rewrite (g_objs _ _ _ _ _ HG2); [done|unfold alloc; cbn; lia|done|done]. }
  assert (i < length vs2)%nat by (rewrite (b_length _ _ HB2); by eapply lookup_lt_Some).
  exists (place s2 vs2 i p v e name), (<[i := v]> vs2). split_and!; [done|..].
  - apply place_building; try done. lia.
  - apply place_grows; try done; [lia|]. eapply grows_trans; [exact HG1|exact HG2|lia|lia].
  - rewrite nth_insert, decide_True by done. lia.
Qed.

(** *** The second loop of [init_nodes] *)

(** Paths before [k] have their nodes. *)
Definition made (vs : list Z) (k : nat) : Prop := forall i, (i < k)%nat -> nth i vs 0 <> 0.

Lemma reassemble_all_run depth nodes : forall k s vs,
  (100 <= depth)%nat -> nodes = drop k ps -> building s vs -> made vs k ->
  exists s' vs', reassemble_all depth fuel tar nodes s = Ok (tt, s') /\ building s' vs' /\
    grows 100 s s' vs vs' /\ made vs' (length es).
Proof.
  induction nodes as [|p nodes IH]; intros k s vs Hd Hnodes HB Hm.
  - exists s, vs. split_and!; [done|done|apply grows_refl|].
    apply drop_end in Hnodes. intros i Hi. apply Hm. lia.
  - destruct (drop_step _ _ _ _ Hnodes) as [Hp Hnodes'].
    destruct (lookup_lt_is_Some_2 es k) as [e He]; [rewrite <- Hlen; by eapply lookup_lt_Some|].
    destruct (proj1 (Forall_lookup _ _) (b_named _ _ HB) k e He) as (full & _ & N2 & _ & N4).
    pose proof (norm_length full) as Hnl. rewrite N2 in Hnl.
    destruct (reassemble_makes depth s vs k p e HB Hp He ltac:(lia)) as (s1 & vs1 & R1 & HB1 & HG1 & Hk).
    { intros Ee. destruct (first_intro es [] k e He Ee) as [j Hj]. exists j. split; [done|].
      destruct (first_Some _ _ _ Hj) as [_ Hbefore].
      destruct (Nat.lt_trichotomy j k) as [Hlt|[->|Hgt]]; [right; by apply Hm|by left|].
      by destruct (Hbefore k e Hgt He). }
    destruct (IH (S k) s1 vs1 Hd Hnodes' HB1) as (s2 & vs2 & R2 & HB2 & HG2 & Hm2).
    { intros i Hi. destruct (decide (i = k)) as [->|]; [done|].
      rewrite (g_keep _ _ _ _ _ HG1 i) by (apply Hm; lia). apply Hm. lia. }
    exists s2, vs2. cbn [reassemble_all]. mstep R1. split_and!; [exact R2|done| |done].
    eapply grows_trans; [exact HG1|exact HG2|lia|lia].
Qed.


End build.

(** *** [tarfs_mount] *)

(** An archive at [buf]: the headers lie as in [archive], each with a name for
    its path and its type. *)
Record tarball (m : mem) (buf : Z) (es : list entry) (sizes : list Z) : Prop := Tarball {
  tb_archive : archive m buf 0 sizes;
  tb_blocks : e_block <$> es = headers buf 0 sizes;
  tb_named : Forall (named m) es;
  tb_typed : Forall (typed m) es;
  tb_ok : Forall entry_ok es
}.

Lemma blocks_pos sz : 0 <= sz -> 1 <= blocks_of sz /\ 512 + sz <= 512 * blocks_of sz.
Proof. unfold blocks_of. Z.to_euclidean_division_equations. lia. Qed.

Lemma archive_sizes sizes : forall m buf bx k sz,
  archive m buf bx sizes -> sizes !! k = Some sz -> 0 <= sz < W32.
Proof.
  induction sizes as [|y ys IH]; intros m buf bx [|k] sz Har Hk; try done;
    destruct Har as (_ & _ & _ & Hy & _ & Har); [by injection Hk as <-|by eapply IH].
Qed.

(** The block behind the last file. *)
Definition end_block (bx : Z) (sizes : list Z) : Z := foldl (fun b sz => b + blocks_of sz) bx sizes.

Lemma headers_within sizes m buf : forall bx blk,
  archive m buf bx sizes -> blk ∈ headers buf bx sizes ->
  buf + 512 * bx <= blk /\ blk + 512 <= buf + 512 * end_block bx sizes.
Proof.
  assert (forall bx l, Forall (fun sz => 0 <= sz) l -> bx <= end_block bx l) as Hle.
  { intros bx l Hl. revert bx. induction Hl as [|sz l Hsz Hl IH]; intros bx; [done|].
    specialize (IH (bx + blocks_of sz)). pose proof (blocks_pos sz Hsz).
    change (end_block bx (sz :: l)) with (end_block (bx + blocks_of sz) l). lia. }
  induction sizes as [|sz sizes IH]; intros bx blk Har Hin; [by apply not_elem_of_nil in Hin|].
  pose proof Har as (Hb & Hlt & _ & Hsz & _ & Har'). pose proof (blocks_pos sz ltac:(lia)).
  assert (bx + blocks_of sz <= end_block (bx + blocks_of sz) sizes) as Hend.
  { apply Hle, Forall_lookup. intros i x Hi. apply (archive_sizes sizes _ _ _ i x Har' Hi). }
  change (end_block bx (sz :: sizes)) with (end_block (bx + blocks_of sz) sizes).
  cbn [headers] in Hin. unfold sizeof_block in *. apply elem_of_cons in Hin as [->|Hin]; [lia|].
  destruct (IH _ blk Har' Hin) as [H1 H2]. lia.
Qed.

Lemma archive_agree sizes m m' buf : forall bx,
  archive m buf bx sizes ->
  agree (fun a => buf + 512 * bx <= a <= buf + 512 * end_block bx sizes) m m' ->
  archive m' buf bx sizes.
Proof.
  induction sizes as [|sz sizes IH]; intros bx Har Ha.
  - destruct Har as (H1 & H2 & H3). split_and!; [done|done|]. unfold sizeof_block in *.
    rewrite <- (Ha (buf + 512 * bx)); [done|]. change (end_block bx []) with bx. lia.
  - assert (buf + sizeof_block * bx ∈ headers buf bx (sz :: sizes)) as Hin by left.
    pose proof (headers_within _ _ _ _ _ Har Hin) as [_ Hend].
    destruct Har as (H1 & H2 & H3 & H4 & H5 & H6). pose proof (blocks_pos sz ltac:(lia)).
    cbn [archive]. unfold sizeof_block in *. split_and!; try done; try lia.
    + rewrite <- (Ha (buf + 512 * bx)); [done|]. lia.
    + eapply CString.Facts.cstr_agree; [exact H5|]. eapply agree_weaken; [|exact Ha].
      intros a Hin'. rewrite TarfsProps.Bytes.length_octal in Hin'. unfold t_size in *. cbv beta in *. lia.
    + apply IH; [exact H6|]. eapply agree_weaken; [|exact Ha].
      change (end_block bx (sz :: sizes)) with (end_block (bx + blocks_of sz) sizes).
      intros a Hin'. cbv beta in *. lia.
Qed.

Lemma tarball_agree m m' buf es sizes :
  tarball m buf es sizes -> agree (fun a => buf <= a <= buf + 512 * end_block 0 sizes) m m' ->
  tarball m' buf es sizes.
Proof.
  intros [H1 H2 H3 H4 H5] Ha.
  assert (forall i e, es !! i = Some e -> buf <= e_block e /\ e_block e + 512 <= buf + 512 * end_block 0 sizes) as Hin.
  { intros i e He. destruct (headers_within _ _ _ _ (e_block e) H1) as [A1 A2]; [|lia].
    rewrite <- H2. apply list_elem_of_fmap. exists e. split; [done|by eapply list_elem_of_lookup_2]. }
  split; try done.
  - apply (archive_agree _ m); [exact H1|]. eapply agree_weaken; [|exact Ha]. cbv beta. lia.
  - apply Forall_lookup. intros i e He. destruct (proj1 (Forall_lookup _ _) H3 i e He) as (full & N1 & N2 & N3 & N4).
    exists full. split_and!; try done. eapply CString.Facts.cstr_agree; [exact N1|].
    eapply agree_weaken; [|exact Ha]. intros a Hr. destruct (Hin i e He). lia.
  - apply Forall_lookup. intros i e He. pose proof (proj1 (Forall_lookup _ _) H4 i e He) as Ht.
    unfold typed in *. rewrite <- (Ha (e_block e + t_type)); [done|]. destruct (Hin i e He). unfold t_type. lia.
Qed.

Lemma headers_range sizes : forall m buf bx i b,
  archive m buf bx sizes -> headers buf bx sizes !! i = Some b -> buf + 512 * bx <= b.
Proof.
  induction sizes as [|sz sizes IH]; intros m buf bx i b Har Hi; [done|].
  destruct Har as (Hbx & _ & _ & Hsz & _ & Har). unfold sizeof_block in *.
  destruct i as [|i]; [injection Hi as <-; unfold sizeof_block; lia|].
  pose proof (IH m buf _ i b Har Hi).
  pose proof (blocks_pos sz ltac:(lia)). lia.
Qed.

(** Behind a header come the blocks of its file, then the other headers. *)
Lemma headers_apart sizes : forall m buf bx i j b c sz,
  archive m buf bx sizes -> (i < j)%nat -> headers buf bx sizes !! i = Some b ->
  headers buf bx sizes !! j = Some c -> sizes !! i = Some sz -> b + 512 * blocks_of sz <= c.
Proof.
  induction sizes as [|sz0 sizes IH]; intros m buf bx i j b c sz Har Hij Hi Hj Hs; [done|].
  destruct Har as (Hbx & _ & _ & Hsz & _ & Har). destruct j as [|j]; [lia|].
  destruct i as [|i]; [|by eapply (IH m buf _ i j); [done|lia|..]].
  injection Hi as <-. injection Hs as <-. cbn [headers lookup list_lookup] in Hj.
  pose proof (headers_range sizes m buf _ j c Har Hj). unfold sizeof_block. lia.
Qed.

Lemma length_headers sizes : forall buf bx, length (headers buf bx sizes) = length sizes.
Proof. induction sizes as [|sz sizes IH]; intros buf bx; [done|]. cbn. by rewrite IH. Qed.

Section tarballs.
Context (m : mem) (buf : Z) (es : list entry) (sizes : list Z) (Htb : tarball m buf es sizes).

Lemma tarball_header i e :
  es !! i = Some e -> headers buf 0 sizes !! i = Some (e_block e) /\ exists sz, sizes !! i = Some sz.
Proof.
  intros He. assert (headers buf 0 sizes !! i = Some (e_block e)) as Hh
    by (by rewrite <- (tb_blocks _ _ _ _ Htb), list_lookup_fmap, He).
  split; [done|]. apply lookup_lt_is_Some. rewrite <- (length_headers sizes buf 0).
  by eapply lookup_lt_Some.
Qed.

Lemma tarball_apart : blocks_apart es.
Proof.
  intros i j e f He Hf Hij.
  destruct (tarball_header i e He) as [Hi [sz Hsz]], (tarball_header j f Hf) as [Hj [sz' Hsz']].
  pose proof (blocks_pos sz ltac:(by eapply archive_sizes, Hsz; apply (tb_archive _ _ _ _ Htb))).
  pose proof (blocks_pos sz' ltac:(by eapply archive_sizes, Hsz'; apply (tb_archive _ _ _ _ Htb))).
  destruct (Nat.lt_ge_cases i j).
  - left. pose proof (headers_apart sizes m buf 0 i j _ _ sz (tb_archive _ _ _ _ Htb) ltac:(lia) Hi Hj Hsz). lia.
  - right. pose proof (headers_apart sizes m buf 0 j i _ _ sz' (tb_archive _ _ _ _ Htb) ltac:(lia) Hj Hi Hsz'). lia.
Qed.

End tarballs.

(** *** Names that lose their slash *)

Lemma archive_names sizes m m' buf : forall bx,
  archive m buf bx sizes ->
  (forall b, b ∈ headers buf bx sizes ->
    load8 m' b <> 0 /\ agree (fun a => b + 100 <= a < b + 512) m m') ->
  load8 m' (buf + 512 * end_block bx sizes) = load8 m (buf + 512 * end_block bx sizes) ->
  archive m' buf bx sizes.
Proof.
  induction sizes as [|sz sizes IH]; intros bx (H1 & H2 & H) Hb Hend; cbn [archive headers] in *;
    unfold sizeof_block in *.
  - split_and!; [done|done|]. change (end_block bx []) with bx in Hend. by rewrite Hend.
  - destruct H as (H3 & H4 & H5 & H6). destruct (Hb (buf + 512 * bx)) as [B1 B2]; [by left|].
    split_and!; try done; try lia.
    + eapply CString.Facts.cstr_agree; [exact H5|]. eapply agree_weaken; [|exact B2].
      intros a Ha. rewrite TarfsProps.Bytes.length_octal in Ha. unfold t_size in *. cbv beta. lia.
    + apply IH; [exact H6| |exact Hend]. intros b Hin. apply Hb. by right.
Qed.

(** An archive whose names change only as [named] allows is still that archive. *)
Lemma tarball_renamed m m' buf es sizes :
  tarball m buf es sizes -> agree (off_names es) m m' -> Forall (named m') es ->
  tarball m' buf es sizes.
Proof.
  intros Htb Ha Hn. pose proof (tarball_apart _ _ _ _ Htb) as Hap.
  assert (forall e a, e ∈ es -> e_block e + 100 <= a < e_block e + 512 -> off_names es a) as Hoff.
  { intros e a [i He]%list_elem_of_lookup Hr. apply Forall_lookup. intros j f Hf.
    destruct (decide (i = j)) as [<-|Hij]; [rewrite He in Hf; injection Hf as <-; lia|].
    destruct (Hap _ _ _ _ He Hf Hij); lia. }
  destruct Htb as [H1 H2 H3 H4 H5]. split; try done.
  - apply (archive_names _ m); [exact H1|..].
    + intros b Hb. rewrite <- H2 in Hb. apply list_elem_of_fmap in Hb as (e & -> & He). split.
      * rewrite Forall_forall in Hn. destruct (Hn e He) as ([|c full] & N1 & _ & N3 & _); [done|].
        apply CString.Facts.cstr_cons in N1 as (-> & N1 & _). lia.
      * eapply agree_weaken; [|exact Ha]. intros a. by apply Hoff.
    + symmetry. apply Ha. apply Forall_forall. intros e He.
      destruct (headers_within _ _ _ _ (e_block e) H1) as [_ A2]; [|lia].
      rewrite <- H2. apply list_elem_of_fmap. by exists e.
  - apply Forall_forall. intros e He. rewrite Forall_forall in H4. unfold typed.
    rewrite <- (H4 e He). symmetry. apply Ha, (Hoff e); [done|]. unfold t_type. lia.
Qed.

(** The state when the headers are read. *)
Definition mounting (luna : Z) (v : vfs_volume) (s : ker) : ker :=
  let s1 := set_next (o_next s + 1) (set_obj (o_next s)
    (OTarPayload (TarPayload (vv_payload v) 0 luna 0)) (tick s)) in
  let s2 := set_next (o_next s1 + 1) (set_obj (o_next s1) (OList []) (tick s1)) in
  set_obj (o_next s) (OTarPayload (TarPayload (vv_payload v) (o_next s + 1) luna 0)) s2.

Lemma mounting_views luna v s :
  (forall q, is_Some (o_objs s !! q) -> q < o_next s) ->
  view as_payload (o_objs (mounting luna v s)) (o_next s)
    = Some (TarPayload (vv_payload v) (o_next s + 1) luna 0) /\
  view as_list (o_objs (mounting luna v s)) (o_next s + 1) = Some [] /\
  (forall q, q < o_next s -> o_objs (mounting luna v s) !! q = o_objs s !! q) /\
  (forall q, is_Some (o_objs (mounting luna v s) !! q) -> q < o_next (mounting luna v s)).
Proof.
  intros Hf. unfold mounting. cbn [o_objs set_obj set_objs set_next tick o_next]. split_and!.
  - by rewrite view_insert.
  - by rewrite view_insert_ne, view_insert by lia.
  - intros q Hq. by rewrite !lookup_insert_ne by lia.
  - intros q. rewrite !lookup_insert_is_Some'. intros [|[|[|Hq]]]; try lia. apply Hf in Hq. lia.
Qed.

Lemma nth_replicate i n : nth i (replicate n 0) 0 = 0.
Proof. revert i. induction n; intros []; cbn; auto. Qed.

(** After the walk over the headers no node is made. *)
Lemma scanned_building tar luna buf l ps es sizes s s' :
  tarball (kmem s) buf es sizes -> rich s -> 0 < o_next s -> 0 < tar -> 0 < l -> tar <> l ->
  tar < o_next s -> view as_payload (o_objs s) tar = Some (TarPayload buf l luna 0) ->
  scanned s s' l [] (headers buf 0 sizes) -> view as_list (o_objs s') l = Some ps ->
  Forall2 (fun p b => view as_tarnode (o_objs s') p = Some (TarNode 0 b)) ps (headers buf 0 sizes) ->
  Forall (fun p => o_next s <= p) ps ->
  building tar luna buf l ps es s' (replicate (length es) 0).
Proof.
  intros Htb Hr Hn Ht Hl Htl Htn Hv [_ S2 S3 S4 S5 S6] Hlist Hall Hnew.
  assert (kmem s' = kmem s) as Hk by (unfold kmem; by rewrite S5).
  split.
  - apply length_replicate.
  - split; [lia|]. unfold view in *. rewrite S4, Hv by lia. do 2 f_equal.
    destruct (first es []); cbn; [by rewrite nth_replicate|done].
  - split; [lia|done].
  - intros i p e Hp He. rewrite nth_replicate.
    destruct (tarball_header _ _ _ _ Htb i e He) as [Hh _].
    rewrite Forall_lookup in Hnew. specialize (Hnew i p Hp). split; [lia|].
    exact (Forall2_lookup_lr _ _ _ _ _ _ Hall Hp Hh).
  - intros i p e _ _ []. apply nth_replicate.
  - rewrite Hk. apply (tb_named _ _ _ _ Htb).
  - rewrite Hk. apply (tb_typed _ _ _ _ Htb).
  - done.
  - lia.
  - intros i. unfold quiet in S6. rewrite S6. cbn. apply Hr.
Qed.

Lemma scanned_nodup s' (ps : list Z) m buf es sizes :
  tarball m buf es sizes ->
  Forall2 (fun p b => view as_tarnode (o_objs s') p = Some (TarNode 0 b)) ps (headers buf 0 sizes) ->
  NoDup ps /\ length ps = length es.
Proof.
  intros Htb Hall. split.
  - apply NoDup_alt. intros i j p Hi Hj. destruct (decide (i = j)) as [|Hij]; [done|].
    destruct (Forall2_lookup_l _ _ _ _ _ Hall Hi) as (b & Hb & E1).
    destruct (Forall2_lookup_l _ _ _ _ _ Hall Hj) as (c & Hc & E2).
    rewrite E1 in E2. injection E2 as ->.
    rewrite <- (tb_blocks _ _ _ _ Htb), list_lookup_fmap in Hb, Hc.
    destruct (es !! i) as [e|] eqn:He; [|done]. destruct (es !! j) as [f|] eqn:Hf; [|done].
    injection Hb as Eb. injection Hc as Ec.
    destruct (tarball_apart _ _ _ _ Htb i j e f He Hf Hij); lia.
  - apply Forall2_length in Hall. by rewrite Hall, <- (tb_blocks _ _ _ _ Htb), length_fmap.
Qed.

(** Volumes are no part of the tree. *)
Lemma building_set_volume tar luna buf l ps es s vs p v w :
  length ps = length es -> building tar luna buf l ps es s vs ->
  view as_volume (o_objs s) p = Some v ->
  building tar luna buf l ps es (set_obj p (OVolume w) s) vs.
Proof.
  intros Hlen [B1 [B2 B2'] [B3 B3'] B4 B5 B6 B7 B8 B9 B10] Hv.
  assert (forall {A} (kind : obj -> option A) q a, (forall u, kind (OVolume u) = None) ->
    view kind (o_objs s) q = Some a -> view kind (o_objs (set_obj p (OVolume w) s)) q = Some a) as Hk.
  { intros A kind q a Hkind Ha. cbn. rewrite view_insert_ne; [done|]. intros <-.
    apply view_Some in Hv as (o & Ho & Hv). destruct o; try done.
    unfold view in Ha. rewrite Ho in Ha. cbn in Ha. by rewrite Hkind in Ha. }
  split; try done; try (split; [done|by apply Hk]).
  - intros i q e Hq He. destruct (B4 i q e Hq He) as [H1 H2]. split; [done|by apply Hk].
  - intros i q e Hq He Hi. destruct (B5 i q e Hq He Hi) as (nm & H1 & H2). exists nm.
    split; [by apply Hk|done].
  - intros q. cbn. rewrite lookup_insert_is_Some'. intros [->|Hq]; [|by apply B8].
    by eapply (view_fresh as_volume s).
Qed.

(** What mounting an archive on the volume [luna] makes of the state. *)
Record mounted (luna : Z) (v : vfs_volume) (es : list entry) (s s' : ker) (ps vs : list Z) : Prop := Mounted {
  mt_tree : building (o_next s) luna (vv_payload v) (o_next s + 1) ps es s' vs;
  mt_made : made vs (length es);
  mt_ps : NoDup ps /\ length ps = length es;
  mt_volume : view as_volume (o_objs s') luna
    = Some (Volume (vv_name v) (vv_family v) (node_at vs (first es [])) (o_next s));
  mt_quiet : quiet s s';
  mt_mem : agree (off_names es) (kmem s) (kmem s');
  mt_next : o_next s + 2 <= o_next s';
  mt_objs q : q < o_next s -> q <> luna -> o_objs s' !! q = o_objs s !! q
}.

Lemma init_nodes_run depth fuel tar luna buf l es sizes s :
  rich s -> (forall q, is_Some (o_objs s !! q) -> q < o_next s) ->
  0 < tar -> 0 < l -> tar <> l -> tar < o_next s -> 0 <= buf -> tarball (kmem s) buf es sizes ->
  view as_payload (o_objs s) tar = Some (TarPayload buf l luna 0) ->
  view as_list (o_objs s) l = Some [] ->
  (100 <= fuel)%nat -> (length sizes + 12 <= fuel)%nat -> (100 <= depth)%nat ->
  exists s' ps vs, init_nodes depth fuel tar s = Ok (tt, s') /\
    building tar luna buf l ps es s' vs /\ made vs (length es) /\
    (NoDup ps /\ length ps = length es) /\ quiet s s' /\ agree (off_names es) (kmem s) (kmem s') /\
    o_next s <= o_next s' /\
    forall q, q < o_next s -> q <> tar -> q <> l -> o_objs s' !! q = o_objs s !! q.
Proof.
  intros Hr Hf Ht Hl Htl Htn Hb Htb Hv Hxs Hfu1 Hfu2 Hd. unfold init_nodes.
  mstep (deref_run as_payload tar s _ ltac:(lia) Hv). cbn [tp_buf tp_nodes].
  destruct (scan_run sizes fuel s tar (TarPayload buf l luna 0) [] buf 0 Hr Hf Hb Ht Hl Hv Hxs (tb_archive _ _ _ _ Htb) Hfu2)
    as (s1 & R1 & Hsc). cbn [tp_nodes] in Hsc.
  mstep R1. destruct (sc_list _ _ _ _ _ Hsc) as (ps & Hps & Hall & Hnew). cbn [app] in Hps.
  mstep (deref_run as_list l s1 ps ltac:(lia) Hps).
  destruct (scanned_nodup s1 ps (kmem s) buf es sizes Htb Hall) as [Hnd Hlen].
  pose proof (scanned_building tar luna buf l ps es sizes s s1 Htb Hr ltac:(lia) Ht Hl Htl Htn Hv Hsc
    Hps Hall Hnew) as HB.
  destruct (reassemble_all_run fuel tar luna buf l ps es Hnd Hlen (tb_ok _ _ _ _ Htb)
    (tarball_apart _ _ _ _ Htb) Hfu1 depth ps 0 s1 _ Hd eq_refl HB ltac:(intros i Hi; lia))
    as (s2 & vs & R2 & HB2 & HG & Hm).
  pose proof (sc_next _ _ _ _ _ Hsc). pose proof (g_next _ _ _ _ _ _ _ _ HG).
  exists s2, ps, vs. split_and!; try done.
  - eapply quiet_trans; [apply (sc_quiet _ _ _ _ _ Hsc)|apply (g_quiet _ _ _ _ _ _ _ _ HG)].
  - pose proof (g_mem _ _ _ _ _ _ _ _ HG) as Hg. unfold kmem in Hg at 1.
    by rewrite (sc_dst _ _ _ _ _ Hsc) in Hg.
  - lia.
  - intros q Hq Hqt Hql. rewrite (g_objs _ _ _ _ _ _ _ _ HG) by
      (lia || done || (intros Hin; rewrite Forall_forall in Hnew; specialize (Hnew q Hin); lia)).
    by apply (sc_keep _ _ _ _ _ Hsc).
Qed.

Lemma tarfs_mount_run depth fuel luna v es sizes s :
  rich s -> (forall q, is_Some (o_objs s !! q) -> q < o_next s) -> 0 < o_next s ->
  luna <> 0 -> view as_volume (o_objs s) luna = Some v -> o_junk_word s (o_next s) = 0 ->
  0 <= vv_payload v -> tarball (kmem s) (vv_payload v) es sizes ->
  (100 <= fuel)%nat -> (length sizes + 12 <= fuel)%nat -> (100 <= depth)%nat ->
  exists s' ps vs, tarfs_mount depth fuel luna s = Ok (0, s') /\ mounted luna v es s s' ps vs.
Proof.
  intros Hr Hf Hn Hl0 Hv Hjunk Hb Htb Hfu1 Hfu2 Hd. unfold tarfs_mount.
  mstep (deref_run as_volume luna s v Hl0 Hv).
  mstep (new_run s (fun p => OTarPayload (TarPayload (vv_payload v) 0 luna 0)) Hr).
  rewrite if_app, (proj2 (Z.eqb_neq (o_next s) 0)) by lia. rewrite gets_bind.
  set (s1 := set_next _ _). change (o_junk_word s1 (o_next s)) with (o_junk_word s (o_next s)).
  rewrite Hjunk. unfold Lists.list_alloc. mstep (new_run s1 (fun _ => OList []) Hr).
  rewrite put_bind. change (set_obj (o_next s) _ _) with (mounting luna v s).
  pose proof (view_fresh as_volume s luna v Hf Hv) as Hln.
  destruct (mounting_views luna v s Hf) as (M1 & M2 & M3 & M4). set (s2 := mounting luna v s) in *.
  assert (o_next s2 = o_next s + 2) as Hn2 by (unfold s2, mounting; cbn; lia).
  destruct (init_nodes_run depth fuel (o_next s) luna (vv_payload v) (o_next s + 1) es sizes s2)
    as (s3 & ps & vs & R3 & HB & Hm & Hps & Hq & Hmem & Hnext & Hobjs); try done; try lia.
  mstep R3. destruct (b_tar _ _ _ _ _ _ _ _ HB) as [_ Ht].
  mstep (deref_run as_payload (o_next s) s3 _ ltac:(lia) Ht). cbn [tp_root].
  assert (view as_volume (o_objs s3) luna = Some v) as Hv3.
  { unfold view in *. by rewrite Hobjs, M3 by lia. }
  mstep (deref_run as_volume luna s3 v Hl0 Hv3). rewrite put_bind.
  eexists _, ps, vs. split; [reflexivity|]. split.
  - by apply (building_set_volume _ _ _ _ _ _ _ _ luna v); [apply Hps|..].
  - done.
  - done.
  - cbn. by rewrite view_insert.
  - eapply quiet_trans; [|exact (quiet_objs s3 _ (o_next s3) (o_count s3))].
    eapply quiet_trans; [|exact Hq]. exact (quiet_objs s (o_objs s2) (o_next s2) (o_count s2)).
  - done.
  - cbn. lia.
  - intros q Hq1 Hq2. cbn. rewrite lookup_insert_ne by done. by rewrite Hobjs, M3 by lia.
Qed.

End Build.
