(* ===== verification/TarPaths.v ===== *)
(** * Files of an archive by their paths

    The lookups of tar.c in the tree of TarTree.v ([Module Query]), path
    resolution through it, and the theorems: mounting an archive builds the
    tree, and a file opened by its path reads as the archive's data. *)
From S2P Require Import Prelude Mem Alloc Idt Device Objects Vfs Tarfs KernMain VfsProps TarfsProps TarTree.
From S2P Require CString.
From stdpp Require Import strings.
Local Open Scope Z_scope.
Import Idt.Impl CString.Pure VfsProps.Walk VfsProps.Nodes VfsProps.Table Tarfs.Impl TarfsProps.Bytes
  TarfsProps.Scan TarTree.Paths TarTree.Build.

(** ** Lookups *)
Module Query.

(** The volume [luna] holds the archive [es], whose nodes are [vs]. *)
Record archived (luna : Z) (es : list entry) (s : ker) (ps vs : list Z) : Prop := Archived {
  a_volume : luna <> 0 /\ exists v t, view as_volume (o_objs s) luna = Some v /\
    vv_family v = fsys_ptr tarfs_driver /\ vv_root v = node_at vs (first es []) /\
    vv_payload v <> 0 /\ view as_payload (o_objs s) (vv_payload v) = Some t /\
    tp_nodes t <> 0 /\ view as_list (o_objs s) (tp_nodes t) = Some ps;
  a_ps : NoDup ps /\ length ps = length es;
  a_ok : Forall entry_ok es;
  a_node i p e : ps !! i = Some p -> es !! i = Some e ->
    p <> 0 /\ nth i vs 0 <> 0 /\
    view as_tarnode (o_objs s) p = Some (TarNode (nth i vs 0) (e_block e)) /\
    exists name, view as_node (o_objs s) (nth i vs 0)
        = Some (Node name (type_flags (e_type e)) (node_at vs (parent es (e_path e))) luna p) /\
      (e_path e <> [] -> name = basename (e_path e))
}.

(** Changes that keep every object but lists, and the archive's own list. *)
Lemma archived_keep luna es s s' ps vs :
  archived luna es s ps vs ->
  (forall A (kind : obj -> option A) q a, (forall ys, kind (OList ys) = None) ->
    view kind (o_objs s) q = Some a -> view kind (o_objs s') q = Some a) ->
  (forall v t, view as_volume (o_objs s) luna = Some v ->
    view as_payload (o_objs s) (vv_payload v) = Some t ->
    view as_list (o_objs s') (tp_nodes t) = view as_list (o_objs s) (tp_nodes t)) ->
  archived luna es s' ps vs.
Proof.
  intros [[H1 (v & t & V1 & V2 & V3 & V4 & V5 & V6 & V7)] H2 H3 H4] Hk Hl. split; [|done|done|].
  - split; [done|]. exists v, t. split_and!; try done; [by apply Hk|by apply Hk|by rewrite (Hl v t)].
  - intros i p e Hp He. destruct (H4 i p e Hp He) as (A1 & A2 & A3 & nm & A4 & A5).
    split_and!; [done|done|by apply Hk|]. exists nm. split; [by apply Hk|done].
Qed.

(** *** The specification of path lookup *)

(** A directory of the archive, a component of a path, a path. *)
Definition directory (es : list entry) (d : list Z) : Prop :=
  exists j e, first es d = Some j /\ es !! j = Some e /\ e_type e = 53.
Definition valid_component (n : list Z) : Prop := chars n /\ component n /\ n <> [].
Definition path_of (d : list Z) (comps : list (list Z)) : list Z := foldl under d comps.

(** The same as a test, and what is in the directory under a name. *)
Definition is_directory (es : list entry) (d : list Z) : bool :=
  match first es d ≫= (es !!.) with Some e => e_type e =? 53 | None => false end.
Definition child (es : list entry) (d n : list Z) : option nat :=
  if is_directory es d then first es (under d n) else None.

(** The walk from the entry of the path [d]: an entry that is missing on the way
    is dereferenced, one that is no directory ends the walk. *)
Fixpoint find_in (es : list entry) (d : list Z) (comps : list (list Z)) : res (option nat) :=
  match comps with
  | [] => Ok (first es d)
  | [n] => Ok (child es d n)
  | n :: ns =>
      match child es d n with
      | None => Err NullDeref
      | Some _ => if is_directory es (under d n) then find_in es (under d n) ns else Ok None
      end
  end.

(** From the volume's root: without an entry for it nothing is found. *)
Definition locate (es : list entry) (comps : list (list Z)) : res (option nat) :=
  match first es [] with Some _ => find_in es [] comps | None => Ok None end.

Lemma is_directory_spec es d : is_directory es d = true <-> directory es d.
Proof.
  unfold is_directory, directory. destruct (first es d) as [j|]; cbn [mbind option_bind].
  - destruct (es !! j) as [e|] eqn:E.
    + rewrite Z.eqb_eq. split; [by exists j, e|]. intros (? & ? & [= <-] & He & ?).
      rewrite E in He. by injection He as <-.
    + split; [done|]. intros (? & ? & [= <-] & He & ?). by rewrite E in He.
  - split; [done|]. by intros (? & ? & ? & _).
Qed.

(** What is found has the path; and where the directories are, it is found. *)
Lemma find_in_first es comps : forall d i,
  find_in es d comps = Ok (Some i) -> first es (path_of d comps) = Some i.
Proof.
  induction comps as [|n comps IH]; intros d i; [by intros [= H]|]. cbn [find_in].
  destruct comps as [|n' comps].
  - unfold child. by destruct (is_directory es d); intros [= H].
  - destruct (child es d n); [|done]. destruct (is_directory es (under d n)); [|done]. apply IH.
Qed.

Lemma find_in_dirs es comps : forall d,
  comps <> [] -> (forall k, (k < length comps)%nat -> directory es (path_of d (take k comps))) ->
  find_in es d comps = Ok (first es (path_of d comps)).
Proof.
  induction comps as [|n comps IH]; intros d Hne Hd; [done|]. cbn [find_in].
  pose proof (Hd 0%nat ltac:(cbn; lia)) as Hd0. change (path_of d (take 0 _)) with d in Hd0.
  apply is_directory_spec in Hd0. unfold child. rewrite Hd0. destruct comps as [|n' comps]; [done|].
  pose proof (Hd 1%nat ltac:(cbn; lia)) as Hd1.
  change (path_of d (take 1 (n :: n' :: comps))) with (under d n) in Hd1.
  rewrite (proj2 (is_directory_spec _ _) Hd1). destruct Hd1 as (j & _ & -> & _).
  apply IH; [done|]. intros k Hk. apply (Hd (S k)). cbn [length] in *. lia.
Qed.

Section query.
Context (luna : Z) (es : list entry) (s : ker) (ps vs : list Z) (HA : archived luna es s ps vs).

(** Different entries have different nodes. *)
Lemma node_inj i j e f :
  es !! i = Some e -> es !! j = Some f -> nth i vs 0 = nth j vs 0 -> i = j.
Proof.
  intros He Hf E. destruct (a_ps _ _ _ _ _ HA) as [Hnd Hlen].
  destruct (entry_at ps es Hlen i e He) as [p Hp], (entry_at ps es Hlen j f Hf) as [q Hq].
  destruct (a_node _ _ _ _ _ HA i p e Hp He) as (_ & _ & _ & nm & H1 & _).
  destruct (a_node _ _ _ _ _ HA j q f Hq Hf) as (_ & _ & _ & nm' & H2 & _).
  rewrite E, H2 in H1. injection H1 as _ _ _ <-. by eapply NoDup_lookup.
Qed.

(** An entry lies in the directory [j] under the name [n] iff its path says so. *)
Lemma in_dir j d n k e :
  first es d = Some j -> chars n -> component n -> n <> [] -> es !! k = Some e ->
  parent es (e_path e) = Some j /\ basename (e_path e) = n <-> e_path e = under d n.
Proof.
  intros Hj Hc Hn Hne He. destruct (proj1 (Forall_lookup _ _) (a_ok _ _ _ _ _ HA) k e He) as [Hp _].
  destruct (under_split _ Hp) as (Eu & _ & _). unfold parent. split.
  - case_decide as E; [by intros [? _]|]. intros [Hf Hb].
    destruct (first_Some _ _ _ Hf) as ((f & Hf1 & Hf2) & _).
    destruct (first_Some _ _ _ Hj) as ((g & Hg1 & Hg2) & _).
    rewrite Hf1 in Hg1. injection Hg1 as <-. by rewrite Eu, Hb, <- Hf2, Hg2.
  - intros E. destruct (dirname_under d n Hc Hn) as [Hd Hb]. rewrite E, Hb, Hd. split; [|done].
    rewrite decide_False; [done|]. unfold under. case_decide; [done|by destruct d].
Qed.

(** What the loops test. *)
Definition lies_in (j i : nat) : bool :=
  match es !! i with Some e => bool_decide (parent es (e_path e) = Some j) | None => false end.

Lemma parent_test j k p e :
  (exists f, es !! j = Some f) -> ps !! k = Some p -> es !! k = Some e ->
  (node_at vs (parent es (e_path e)) =? nth j vs 0) = lies_in j k.
Proof.
  intros [f Hf] Hp He. unfold lies_in. rewrite He. destruct (a_ps _ _ _ _ _ HA) as [Hnd Hlen].
  destruct (entry_at ps es Hlen j f Hf) as [q Hq].
  destruct (a_node _ _ _ _ _ HA j q f Hq Hf) as (_ & Hj0 & _).
  case_bool_decide as E; [rewrite E; apply Z.eqb_refl|]. apply Z.eqb_neq. intros Ep.
  destruct (parent es (e_path e)) as [i|] eqn:Epar; [|by destruct Hj0].
  assert (exists g, es !! i = Some g) as [g Hg].
  { unfold parent in Epar. case_decide; [done|].
    destruct (first_Some _ _ _ Epar) as ((g & Hg & _) & _). by exists g. }
  apply E. f_equal. exact (node_inj i j g f Hg Hf Ep).
Qed.

Lemma dir_test j d n k p e name :
  first es d = Some j -> chars n -> component n -> n <> [] -> ps !! k = Some p ->
  es !! k = Some e -> (e_path e <> [] -> name = basename (e_path e)) ->
  (node_at vs (parent es (e_path e)) =? nth j vs 0) && (cmp n name =? 0)
  = bool_decide (e_path e = under d n).
Proof.
  intros Hj Hc Hn Hne Hp He Hname. destruct (first_Some _ _ _ Hj) as ((f & Hf & _) & _).
  rewrite (parent_test j k p e) by (done || by exists f). unfold lies_in. rewrite He.
  rewrite <- (bool_decide_ext _ _ (in_dir j d n k e Hj Hc Hn Hne He)).
  case_bool_decide as Hpar; cbn [andb]; [|by rewrite bool_decide_false by by intros [? _]].
  rewrite Hname by (intros E; unfold parent in Hpar; by rewrite decide_True in Hpar).
  destruct (proj1 (Forall_lookup _ _) (a_ok _ _ _ _ _ HA) k e He) as [[Hce _ _] _].
  pose proof (cmp_eq n (basename (e_path e)) Hc (basename_chars _ Hce)) as Hcmp.
  destruct (Z.eqb_spec (cmp n (basename (e_path e))) 0) as [E|E].
  - rewrite bool_decide_true; [done|]. split; [done|]. symmetry. by apply Hcmp.
  - rewrite bool_decide_false; [done|]. intros [_ Hb]. by apply E, Hcmp.
Qed.

Lemma finddir_loop_run j d n :
  first es d = Some j -> chars n -> component n -> n <> [] ->
  forall nodes k, nodes = drop k ps ->
  (forall i e, (i < k)%nat -> es !! i = Some e -> e_path e <> under d n) ->
  finddir_loop nodes (nth j vs 0) n s = Ok (node_at vs (first es (under d n)), s).
Proof.
  intros Hj Hc Hn Hne nodes. destruct (a_ps _ _ _ _ _ HA) as [Hnd Hlen].
  induction nodes as [|p nodes IH]; intros k Hnodes Hno.
  - destruct (first es (under d n)) as [i|] eqn:E; [|done].
    destruct (first_Some _ _ _ E) as ((e & He & Hp) & _). destruct (Hno i e); [|done..].
    apply drop_end in Hnodes. apply lookup_lt_Some in He. lia.
  - destruct (drop_step _ _ _ _ Hnodes) as [Hp Hnodes'].
    destruct (lookup_lt_is_Some_2 es k) as [e He]; [rewrite <- Hlen; by eapply lookup_lt_Some|].
    destruct (a_node _ _ _ _ _ HA k p e Hp He) as (Hp0 & Hv0 & Ht & nm & Hv & Hnm).
    cbn [finddir_loop]. mstep (deref_run as_tarnode p s _ Hp0 Ht). cbn [tn_node].
    mstep (deref_run as_node _ s _ Hv0 Hv). cbn [vn_parent vn_name].
    rewrite (dir_test j d n k p e nm Hj Hc Hn Hne Hp He Hnm), if_app. case_bool_decide as E.
    + by rewrite (first_here es (under d n) k e He E Hno).
    + apply (IH (S k) Hnodes'). intros i f Hi Hf. destruct (decide (i = k)) as [->|].
      * rewrite He in Hf. by injection Hf as <-.
      * apply (Hno i); [lia|done].
Qed.

(** *** Listing a directory *)

Lemma readdir_loop_run j : (exists f, es !! j = Some f) ->
  forall nodes k index, nodes = drop k ps ->
  readdir_loop nodes (nth j vs 0) index s
  = Ok (node_at vs (List.filter (lies_in j) (seq k (length nodes)) !! index), s).
Proof.
  intros Hj nodes. destruct (a_ps _ _ _ _ _ HA) as [Hnd Hlen].
  induction nodes as [|p nodes IH]; intros k index Hnodes; [done|].
  destruct (drop_step _ _ _ _ Hnodes) as [Hp Hnodes'].
  destruct (lookup_lt_is_Some_2 es k) as [e He]; [rewrite <- Hlen; by eapply lookup_lt_Some|].
  destruct (a_node _ _ _ _ _ HA k p e Hp He) as (Hp0 & Hv0 & Ht & nm & Hv & Hnm).
  cbn [readdir_loop]. mstep (deref_run as_tarnode p s _ Hp0 Ht). cbn [tn_node].
  mstep (deref_run as_node _ s _ Hv0 Hv). cbn [vn_parent length seq List.filter].
  rewrite (parent_test j k p e Hj Hp He), if_app.
  destruct (lies_in j k); [|by apply IH]. destruct index as [|index]; [done|]. by apply IH.
Qed.

Lemma nodes_of_run j e : es !! j = Some e -> nodes_of (nth j vs 0) s = Ok (ps, s).
Proof.
  intros He. destruct (a_ps _ _ _ _ _ HA) as [Hnd Hlen].
  destruct (entry_at ps es Hlen j e He) as [q Hq].
  destruct (a_node _ _ _ _ _ HA j q e Hq He) as (_ & Hj0 & _ & nm & Hv & _).
  destruct (a_volume _ _ _ _ _ HA) as (Hl0 & v & t & V1 & V2 & V3 & V4 & V5 & V6 & V7).
  unfold nodes_of. mstep (deref_run as_node _ s _ Hj0 Hv). cbn [vn_volume].
  mstep (deref_run as_volume luna s v Hl0 V1). mstep (deref_run as_payload _ s t V4 V5).
  exact (deref_run as_list _ s ps V6 V7).
Qed.

(** [tarfs_readdir] counts the entries that lie in the directory. *)
Lemma tarfs_readdir_run j e index :
  es !! j = Some e ->
  tarfs_readdir (nth j vs 0) index s
  = Ok (node_at vs (List.filter (lies_in j) (seq 0 (length es)) !! Z.to_nat index), s).
Proof.
  intros He. unfold tarfs_readdir. mstep (nodes_of_run j e He).
  destruct (a_ps _ _ _ _ _ HA) as [_ <-]. apply (readdir_loop_run j); [by exists e|done].
Qed.

(** [tarfs_finddir] finds the entry of the directory's path and the name. *)
Lemma tarfs_finddir_run j d n :
  first es d = Some j -> chars n -> component n -> n <> [] ->
  tarfs_finddir (nth j vs 0) n s = Ok (node_at vs (first es (under d n)), s).
Proof.
  intros Hj Hc Hn Hne. destruct (first_Some _ _ _ Hj) as ((f & Hf & _) & _).
  unfold tarfs_finddir. mstep (nodes_of_run j f Hf).
  apply (finddir_loop_run j d n Hj Hc Hn Hne ps 0); [done|lia].
Qed.

(** *** Paths *)

Section walk.
Context `{FsDrivers} (depth fuel : nat) (Hfs : filesys tarfs_driver = tarfs depth fuel).
Context (Hdrv : view as_fsys (o_objs s) (fsys_ptr tarfs_driver) = Some tarfs_driver).

Lemma archive_mounted j e :
  es !! j = Some e -> exists n, mounted_node s (nth j vs 0) tarfs_driver n /\
    vn_flags n = type_flags (e_type e) /\ vn_payload n <> 0 /\
    view as_tarnode (o_objs s) (vn_payload n) = Some (TarNode (nth j vs 0) (e_block e)).
Proof.
  intros He. destruct (a_ps _ _ _ _ _ HA) as [Hnd Hlen].
  destruct (entry_at ps es Hlen j e He) as [q Hq].
  destruct (a_node _ _ _ _ _ HA j q e Hq He) as (Hq0 & Hj0 & Ht & nm & Hv & _).
  destruct (a_volume _ _ _ _ _ HA) as (Hl0 & v & t & V1 & V2 & _).
  exists (Node nm (type_flags (e_type e)) (node_at vs (parent es (e_path e))) luna q).
  split_and!; [|done|exact Hq0|exact Ht]. exists v. by split_and!.
Qed.

(** [fs_finddir] in any entry of the archive: only directories have entries. *)
Lemma fs_finddir_run j d n :
  first es d = Some j -> valid_component n ->
  Ops.fs_finddir (nth j vs 0) n s = Ok (node_at vs (child es d n), s).
Proof.
  intros Hj (Hc & Hn & Hne). destruct (first_Some _ _ _ Hj) as ((e & He & _) & _).
  destruct (archive_mounted j e He) as (nd & Hm & Hfl & _).
  unfold Ops.fs_finddir, child, is_directory. rewrite Hj. cbn [mbind option_bind]. rewrite He.
  destruct (Z.eqb_spec (e_type e) 53) as [Hty|Hty].
  - rewrite (mounted_dispatch_run vfs_finddir Ops.is_dir _ _ s _ tarfs_driver nd tarfs_finddir Hm).
    + by apply tarfs_finddir_run.
    + by rewrite Hfs.
    + by rewrite Hfl, Hty.
  - rewrite (mounted_dispatch_skips vfs_finddir Ops.is_dir _ _ s _ tarfs_driver nd Hm); [done|].
    rewrite Hfl. unfold type_flags. by repeat case_match; try lia.
Qed.

(** The walk over the nodes is the walk over the entries. *)
Definition found (r : res (option nat)) : res Z :=
  match r with Ok o => Ok (node_at vs o) | Err x => Err x end.

Lemma follow_run comps : forall j d,
  first es d = Some j -> comps <> [] -> Forall valid_component comps ->
  follow (entry_of s) (flags_in s) (nth j vs 0) comps = found (find_in es d comps).
Proof.
  induction comps as [|c comps IH]; intros j d Hj Hne Hv; [done|].
  apply Forall_cons in Hv as [Hc Hv].
  assert (entry_of s (nth j vs 0) c = Ok (node_at vs (child es d c))) as He
    by by unfold entry_of; rewrite (fs_finddir_run j d c Hj Hc).
  destruct comps as [|c' comps]; [exact He|]. cbn [follow find_in]. rewrite He.
  destruct (child es d c) as [j1|] eqn:Hch; [|done]. cbn [node_at].
  assert (first es (under d c) = Some j1) as Hj1 by (unfold child in Hch; by case_match).
  destruct (first_Some _ _ _ Hj1) as ((e1 & He1 & _) & _).
  destruct (archive_mounted j1 e1 He1) as (nd & (v & Hn0 & Hn & _) & Hfl & _).
  rewrite (proj2 (Z.eqb_neq _ 0) Hn0). unfold flags_in. rewrite Hn. cbn [fmap option_fmap option_map].
  unfold is_directory. rewrite Hj1. cbn [mbind option_bind]. rewrite He1, Hfl.
  destruct (Z.eqb_spec (e_type e1) 53) as [->|Hty].
  - change (Z.land (type_flags 53) VN_FDIR =? 0) with false. by apply IH.
  - unfold type_flags. rewrite (proj2 (Z.eqb_neq _ 53)) by done. by destruct (e_type e1 =? 48).
Qed.

End walk.
End query.
End Query.
Import Query.

(** ** From the mount to the lookups *)
Module Mounted.

Lemma mounted_archived luna v es s s' ps vs :
  mounted luna v es s s' ps vs -> luna <> 0 -> vv_family v = fsys_ptr tarfs_driver ->
  0 < o_next s -> Forall entry_ok es -> archived luna es s' ps vs.
Proof.
  intros [HB Hm Hps Hv _ _ _ _] Hl Hf Hn Hok. split; [|done|done|].
  - split; [done|]. destruct (b_tar _ _ _ _ _ _ _ _ HB) as [_ Ht].
    destruct (b_list _ _ _ _ _ _ _ _ HB) as [Hl0 Hlist].
    eexists _, _. split_and!; [exact Hv|done|done|cbn; lia|exact Ht|exact Hl0|exact Hlist].
  - intros i p e Hp He. destruct (b_node _ _ _ _ _ _ _ _ HB i p e Hp He) as [Hp0 Ht].
    assert (nth i vs 0 <> 0) as Hi by (apply Hm; by eapply lookup_lt_Some).
    destruct (b_placed _ _ _ _ _ _ _ _ HB i p e Hp He Hi) as (nm & H1 & H2 & _).
    split_and!; [done|done|done|]. by exists nm.
Qed.

Lemma mounted_hooked luna v es s s' ps vs n :
  mounted luna v es s s' ps vs -> 256 <= luna -> view as_volume (o_objs s) luna = Some v ->
  view as_node (o_objs s) rootfs_root = Some n -> 256 <= o_next s ->
  hooked luna (node_at vs (first es [])) (o_next s) s s'.
Proof.
  intros [HB _ _ Hv Hq _ Hn Ho] Hl Hv0 Hroot Hnx. unfold quiet in Hq. split.
  - split.
    + by rewrite Hq.
    + lia.
    + apply (b_fresh _ _ _ _ _ _ _ _ HB).
    + intros q Hq1 Hq2. apply Ho; [lia|done].
  - by rewrite Hq.
  - exists n. unfold view in *. by rewrite Ho by (unfold rootfs_root in *; lia).
  - intros w Hw. rewrite Hv0 in Hw. by injection Hw as <-.
Qed.

(** The registration of the volume leaves the archive alone. *)
Lemma archived_registered luna es s ps vs ws rs p e t v :
  archived luna es s ps vs -> mounts s ws rs -> e.1 = o_next s ->
  view as_volume (o_objs s) luna = Some v -> view as_payload (o_objs s) (vv_payload v) = Some t ->
  tp_nodes t <> vfs_volumes s -> tp_nodes t <> rootfs_nodes s ->
  archived luna es (registered s (vfs_volumes s) p ws rs e) ps vs.
Proof.
  intros HA Hm He Hv Ht H1 H2. eapply archived_keep; [exact HA|..].
  - intros A kind q a Hk Ha. by apply (registered_view kind s ws rs).
  - intros w u Hw Hu. rewrite Hv in Hw. injection Hw as <-. rewrite Ht in Hu. injection Hu as <-.
    destruct (a_volume _ _ _ _ _ HA) as (_ & w & u & V1 & _ & _ & _ & V5 & _ & V7).
    rewrite Hv in V1. injection V1 as <-. rewrite Ht in V5. injection V5 as <-.
    pose proof (view_fresh as_list s _ _ (m_fresh _ _ _ Hm) V7).
    unfold registered. cbn [o_objs set_obj set_objs set_next tick]. by rewrite !view_insert_ne by lia.
Qed.

(** The size in a header, and the bytes that no name takes up. *)
Lemma tarball_file m buf es sizes i e sz :
  tarball m buf es sizes -> es !! i = Some e -> sizes !! i = Some sz ->
  0 <= sz < W32 /\ cstr m (e_block e + t_size) (octal 11 sz) /\
  forall a, e_block e + 100 <= a < e_block e + 512 + sz -> off_names es a.
Proof.
  intros Htb He Hsz. pose proof (tb_archive _ _ _ _ Htb) as Har.
  pose proof (archive_sizes _ _ _ _ _ _ Har Hsz) as Hr. split; [done|split].
  - destruct (tarball_header _ _ _ _ Htb i e He) as [Hh _]. clear -Har Hh Hsz.
    revert Har Hh Hsz. generalize 0 at 1 2 as bx. revert i.
    induction sizes as [|y ys IH]; intros [|i] bx Har Hh Hk; try done;
      destruct Har as (_ & _ & _ & _ & Hs & Har); [|by apply (IH i _ Har)].
    injection Hh as <-. by injection Hk as ->.
  - intros a Ha. unfold off_names. apply Forall_lookup. intros j f Hf Hin.
    destruct (tarball_header _ _ _ _ Htb i e He) as [Hi _].
    destruct (tarball_header _ _ _ _ Htb j f Hf) as [Hj [sz' Hsz']].
    pose proof (blocks_pos sz ltac:(lia)).
    pose proof (blocks_pos sz' ltac:(by eapply archive_sizes, Hsz')).
    destruct (Nat.lt_trichotomy i j) as [Hlt|[->|Hlt]].
    + pose proof (headers_apart _ _ _ _ i j _ _ sz Har Hlt Hi Hj Hsz). lia.
    + rewrite He in Hf. injection Hf as <-. lia.
    + pose proof (headers_apart _ _ _ _ j i _ _ sz' Har Hlt Hj Hi Hsz'). lia.
Qed.

(** Paths, joined. *)
Lemma path_of_join comps : forall d,
  d <> [] -> path_of d comps = match comps with [] => d | _ => d ++ 47 :: join comps end.
Proof.
  induction comps as [|c comps IH]; intros d Hd; [done|]. cbn [path_of foldl].
  unfold under at 2. rewrite decide_False by done. fold (path_of (d ++ 47 :: c) comps).
  rewrite IH by by destruct d. destruct comps as [|c' comps]; [done|].
  change (join (c :: c' :: comps)) with (c ++ 47 :: join (c' :: comps)).
  by rewrite <- app_assoc.
Qed.

Lemma path_of_root comps : Forall valid_component comps -> path_of [] comps = join comps.
Proof.
  intros Hv. destruct comps as [|c comps]; [done|]. apply Forall_cons in Hv as [(_ & _ & Hc) _].
  cbn [path_of foldl]. change (under [] c) with c. fold (path_of c comps).
  rewrite path_of_join by done. by destruct comps.
Qed.

Lemma locate_first es comps i :
  Forall valid_component comps -> locate es comps = Ok (Some i) -> first es (join comps) = Some i.
Proof.
  intros Hv. unfold locate. destruct (first es []); [|done]. rewrite <- (path_of_root comps Hv).
  apply find_in_first.
Qed.

Lemma locate_dirs es comps :
  comps <> [] -> Forall valid_component comps ->
  (forall k, (k < length comps)%nat -> directory es (path_of [] (take k comps))) ->
  locate es comps = Ok (first es (join comps)).
Proof.
  intros Hne Hv Hd. rewrite <- (path_of_root comps Hv), <- (find_in_dirs es comps []) by done.
  destruct (Hd 0%nat) as (j & _ & Hj & _); [destruct comps; [done|cbn; lia]|].
  change (path_of [] (take 0 comps)) with (@nil Z) in Hj. unfold locate. by rewrite Hj.
Qed.

(** *** [vfs_mount] of an archive *)

Section mount.
Context `{Alloc.Allocator} (c : KernMain.Impl.config) (s : ker) (ds : list fsys) (ws : list vol) (rs : list VfsProps.Table.entry).
Context (name : list Z) (addr : Z) (es : list entry) (sizes : list Z).
#[local] Instance kernel_fs : FsDrivers := KernMain.Impl.kernel_filesystems c.
Context (Hr : rich s) (Hm : mounts s ws rs) (Hds : drivers_ok s ds).
Context (Htarfs : lookup_driver ds (chars_of "tarfs") = Some tarfs_driver).
Context (Hname : valid_name name) (Hfree : lookup_vol ws name = None).
Context (Hroot : exists n, view as_node (o_objs s) rootfs_root = Some n).
Context (Haddr : 0 <= addr) (Htb : tarball (kmem s) addr es sizes).
Context (Hjunk : o_junk_word s (o_next s + 2) = 0).
Context (Hfuel : (100 <= KernMain.Impl.c_fuel c)%nat)
  (Hfuel2 : (length sizes + 12 <= KernMain.Impl.c_fuel c)%nat) (Hdepth : (100 <= KernMain.Impl.c_depth c)%nat).

(** What mounting leaves. *)
Record archive_in (s1 : ker) (ps vs : list Z) : Prop := ArchiveIn {
  ai_archived : archived (o_next s) es s1 ps vs;
  ai_mounts : exists rs', mounts s1 (ws ++ [(o_next s, Volume (Some name) (fsys_ptr tarfs_driver)
    (node_at vs (first es [])) (o_next s + 2))]) rs';
  ai_driver : view as_fsys (o_objs s1) (fsys_ptr tarfs_driver) = Some tarfs_driver;
  ai_rich : rich s1
}.
Record archive_mounted_in (s1 : ker) (ps vs : list Z) : Prop := InState {
  am_in : archive_in s1 ps vs;
  am_quiet : quiet s s1;
  am_keeps A (kind : obj -> option A) q a : view kind (o_objs s) q = Some a ->
    (forall ys, kind (OList ys) = None) \/ (q <> vfs_volumes s /\ q <> rootfs_nodes s) ->
    view kind (o_objs s1) q = Some a;
  am_mem : agree (off_names es) (kmem s) (kmem s1);
  am_named : Forall (named (kmem s1)) es
}.

(** The new volume, before the hook of tarfs runs on it. *)
Local Abbreviation s0 := (volume_made name (fsys_ptr tarfs_driver) addr s).

Lemma volume_views A (kind : obj -> option A) q a :
  view kind (o_objs s) q = Some a -> view kind (o_objs s0) q = Some a /\ q < o_next s.
Proof.
  intros Ha. pose proof (view_fresh kind s q a (m_fresh _ _ _ Hm) Ha). split; [|done].
  unfold volume_made. cbn [o_objs set_obj set_objs set_next tick].
  by rewrite !view_insert_ne by lia.
Qed.

(** What the hook and the registration keep. *)
Lemma mount_keeps v0 s2 ps vs rs' e p A (kind : obj -> option A) q a :
  mounted (o_next s) v0 es s0 s2 ps vs -> mounts s2 ws rs' -> e.1 = o_next s2 ->
  view kind (o_objs s) q = Some a ->
  (forall ys, kind (OList ys) = None) \/ (q <> vfs_volumes s /\ q <> rootfs_nodes s) ->
  view kind (o_objs (registered s2 (vfs_volumes s) p ws rs' e)) q = Some a.
Proof.
  intros HM Hm2 He Ha Hq. destruct (volume_views A kind q a Ha) as [Ha0 Hlt].
  assert (o_next s0 = o_next s + 2) as Hn0 by (unfold volume_made; cbn; lia).
  pose proof (mt_next _ _ _ _ _ _ _ HM) as Hn2.
  assert (view kind (o_objs s2) q = Some a) as Ha2.
  { unfold view in *. by rewrite (mt_objs _ _ _ _ _ _ _ HM) by lia. }
  pose proof (mt_quiet _ _ _ _ _ _ _ HM) as Hqt. unfold quiet in Hqt.
  assert (vfs_volumes s2 = vfs_volumes s /\ rootfs_nodes s2 = rootfs_nodes s) as [E1 E2]
    by by rewrite Hqt.
  destruct Hq as [Hk|[Q1 Q2]].
  - rewrite <- E1. by apply (registered_view kind s2 ws rs').
  - unfold registered. rewrite E2. cbn [o_objs set_obj set_objs set_next tick].
    by rewrite !view_insert_ne by lia.
Qed.

(** tarfs's hook, on the new volume. *)
Lemma mount_hook_run n :
  view as_node (o_objs s) rootfs_root = Some n ->
  exists s2 ps vs,
    tarfs_mount (KernMain.Impl.c_depth c) (KernMain.Impl.c_fuel c) (o_next s) s0 = Ok (0, s2) /\
    mounted (o_next s) (Volume (Some name) (fsys_ptr tarfs_driver) 0 addr) es s0 s2 ps vs /\
    hooked (o_next s) (node_at vs (first es [])) (o_next s + 2) s0 s2.
Proof.
  intros Hn. pose proof (m_next _ _ _ Hm) as Hnx. pose proof (m_fresh _ _ _ Hm) as Hf.
  set (v0 := Volume (Some name) (fsys_ptr tarfs_driver) 0 addr).
  assert (view as_volume (o_objs s0) (o_next s) = Some v0) as Hv0 by (unfold volume_made; by views).
  assert (o_next s0 = o_next s + 2) as Hn0 by (unfold volume_made; cbn; lia).
  destruct (tarfs_mount_run (KernMain.Impl.c_depth c) (KernMain.Impl.c_fuel c) (o_next s) v0 es sizes s0)
    as (s2 & ps & vs & R & HM); try done; try lia.
  { apply (k_fresh _ _ _ (volume_made_kept name (fsys_ptr tarfs_driver) addr s Hf)). }
  { by rewrite Hn0. }
  exists s2, ps, vs. split_and!; [done|done|]. rewrite <- Hn0.
  eapply mounted_hooked; [exact HM|lia|exact Hv0|apply (volume_views _ _ _ _ Hn)|lia].
Qed.

Lemma mount_archive_run :
  exists s1 ps vs, Mounts.vfs_mount (chars_of "tarfs") name addr s = Ok (0, s1) /\
    archive_mounted_in s1 ps vs.
Proof.
  pose proof (m_next _ _ _ Hm) as Hnx. pose proof (m_fresh _ _ _ Hm) as Hf.
  assert (o_next s0 = o_next s + 2) as Hn0 by (unfold volume_made; cbn; lia).
  destruct Hroot as [n Hn]. destruct (mount_hook_run n Hn) as (s2 & ps & vs & R & HM & Hh).
  destruct (vfs_mount_run s ds ws rs (chars_of "tarfs") name addr tarfs_driver s2 _ _ Hr Hm Hds
    ltac:(decided) Hname Hfree Htarfs R Hh) as (e & R1 & Hm2 & He & Hm1 & _).
  pose proof (mounted_archived _ _ _ _ _ _ _ HM ltac:(lia) eq_refl ltac:(lia) (tb_ok _ _ _ _ Htb)) as HA.
  destruct (b_tar _ _ _ _ _ _ _ _ (mt_tree _ _ _ _ _ _ _ HM)) as [_ Ht].
  destruct (m_static _ _ _ Hm) as (S1 & S2 & _).
  pose proof (view_fresh as_list s _ _ Hf (m_vols _ _ _ Hm)).
  pose proof (view_fresh as_list s _ _ Hf (m_root _ _ _ Hm)).
  pose proof (mt_quiet _ _ _ _ _ _ _ HM) as Hq.
  assert (vfs_volumes s2 = vfs_volumes s /\ rootfs_nodes s2 = rootfs_nodes s /\
    o_grants s2 = o_grants s) as (E1 & E2 & E3) by (unfold quiet in Hq; by rewrite Hq).
  eexists _, ps, vs. split; [exact R1|]. split; [split|..].
  - eapply archived_registered; [exact HA|exact Hm2|exact He|apply (mt_volume _ _ _ _ _ _ _ HM)|exact Ht|..];
      cbn; lia.
  - eexists. exact Hm1.
  - rewrite E1. eapply (mount_keeps _ s2); [exact HM|exact Hm2|exact He| |by left].
    exact (lookup_driver_view ds _ _ _ Hds Htarfs).
  - intros i. cbn. by rewrite E3.
  - set (s1 := registered _ _ _ _ _ _).
    eapply quiet_trans; [exact (quiet_objs s (o_objs s0) (o_next s0) (o_count s0))|].
    eapply quiet_trans; [exact Hq|]. exact (quiet_objs s2 (o_objs s1) (o_next s1) (o_count s1)).
  - intros A kind q a Ha Hk. rewrite E1. by eapply (mount_keeps _ s2).
  - exact (mt_mem _ _ _ _ _ _ _ HM).
  - apply (b_named _ _ _ _ _ _ _ _ (mt_tree _ _ _ _ _ _ _ HM)).
Qed.

(** Nothing but the tree matters for what follows. *)
Lemma archive_in_same s1 s2 ps vs : archive_in s1 ps vs -> same_tree s1 s2 -> archive_in s2 ps vs.
Proof using Type.
  intros [H1 [rs' H2] H3 H4] T. pose proof T as (Eo & _ & Eg & _). split.
  - by eapply archived_keep; [exact H1|rewrite Eo..].
  - exists rs'. by apply (mounts_same s1).
  - by rewrite Eo.
  - intros i. by rewrite Eg.
Qed.

(** *** Opening and reading *)

Context (s1 : ker) (ps vs : list Z) (HI : archive_in s1 ps vs).

(** The state after the copy of the path. *)
Definition resolved : ker := set_next (o_next s1 + 1) (tick s1).

Lemma resolved_in : archive_in resolved ps vs.
Proof using HI. eapply archive_in_same; [exact HI|]. split_and!; [done|apply Z.le_succ_diag_r|done|done]. Qed.

Lemma join_nil comps : Forall valid_component comps -> comps <> [] -> join comps <> [].
Proof.
  intros Hv Hne. destruct comps as [|c0 [|c1 cs]]; [done|..];
    apply Forall_cons in Hv as [(_ & _ & Hc) _]; [done|]. by destruct c0.
Qed.

(** Every path into the archive. *)
Lemma archive_locate_run comps :
  58 ∉ name -> comps <> [] -> Forall valid_component comps ->
  Path.fs_resolve (name ++ 58 :: 47 :: join comps) s1
  = with_state (found vs (locate es comps)) resolved.
Proof.
  intros Hcolon Hne Hv. destruct (ai_mounts _ _ _ HI) as [rs' Hm1]. destruct (Hname) as (Hc & _ & _).
  set (V := (o_next s, Volume (Some name) (fsys_ptr tarfs_driver) (node_at vs (first es []))
    (o_next s + 2))) in *.
  assert (lookup_vol (ws ++ [V]) name = Some V) as HV by (by apply lookup_vol_snoc).
  unfold locate. destruct (first es []) as [j|] eqn:Hj.
  2:{ rewrite (fs_resolve_volume s1 (ws ++ [V]) rs' name V); try done;
        [apply (ai_rich _ _ _ HI)|by apply join_nil]. }
  destruct (first_Some _ _ _ Hj) as ((e & He & _) & _).
  pose proof (ai_archived _ _ _ resolved_in) as HA. pose proof (a_ps _ _ _ _ _ HA) as [_ Hlen].
  destruct (entry_at ps es Hlen j e He) as [q Hq].
  destruct (a_node _ _ _ _ _ HA j q e Hq He) as (_ & Hj0 & _).
  rewrite (fs_resolve_run s1 (ws ++ [V]) rs' name V comps); try done.
  - cbn [V snd vv_root node_at]. fold resolved.
    by rewrite (follow_run (o_next s) es resolved ps vs HA (KernMain.Impl.c_depth c)
      (KernMain.Impl.c_fuel c) eq_refl (ai_driver _ _ _ HI) comps j [] Hj Hne Hv).
  - apply (ai_rich _ _ _ HI).
  - eapply Forall_impl; [exact Hv|]. by intros n (_ & ? & _).
  - by apply join_nil.
  - intros d n r s' Hrun. exact (VfsProps.Start.finddir_reads_only c _ d n _ _ _ Hrun).
Qed.

Lemma archive_read_run s2 i e sz offt buf len :
  archived (o_next s) es s2 ps vs ->
  view as_fsys (o_objs s2) (fsys_ptr tarfs_driver) = Some tarfs_driver ->
  agree (off_names es) (kmem s) (kmem s2) ->
  es !! i = Some e -> sizes !! i = Some sz -> e_type e = 48 -> 0 <= offt -> 0 <= len < W32 ->
  buf + len <= e_block e + 512 \/ e_block e + 512 + sz <= buf ->
  let k := Nat.min (Z.to_nat len) (Z.to_nat (sz - offt)) in
  Ops.fs_read (nth i vs 0) offt buf len s2
  = Ok (Z.of_nat k, set_kmem (store_bytes (kmem s2) buf
          (load_bytes (kmem s) (e_block e + 512 + offt) k)) s2).
Proof.
  intros HA Hdrv Hmem He Hsz Hty Ho Hl Hap k.
  destruct (archive_mounted (o_next s) es s2 ps vs HA Hdrv i e He) as (nd & Hmn & Hfl & Hpl & Ht).
  destruct (tarball_file _ _ _ _ i e sz Htb He Hsz) as (Hsz0 & Hsize & Hoff).
  unfold Ops.fs_read.
  rewrite (mounted_dispatch_run (H := kernel_fs) vfs_read Ops.is_file _ _ s2 _ tarfs_driver nd
    (tarfs_read (KernMain.Impl.c_fuel c)) Hmn eq_refl) by by rewrite Hfl, Hty.
  destruct Hmn as (v & Hp & Hn & _).
  rewrite (tarfs_read_run (KernMain.Impl.c_fuel c) s2 _ nd _ sz offt buf len Hp Hn Hpl Ht Hsz0);
    try done; try lia.
  - cbn [tn_block]. fold k. do 4 f_equal. symmetry. apply (load_bytes_agree _ _ _ _ _ Hmem).
    intros a Ha. apply Hoff. lia.
  - cbn [tn_block]. eapply CString.Facts.cstr_agree; [exact Hsize|].
    eapply agree_weaken; [|exact Hmem]. intros a Ha. apply Hoff. rewrite length_octal in Ha.
    unfold t_size in Ha. lia.
Qed.

End mount.
End Mounted.
Import Mounted.

(** ** Properties *)

(** C7: Mounting an archive rebuilds its directories.  On fresh memory whose word
    for the payload's root is zero, whatever the headers' order and nesting, and
    whether their names are written "./a/b", "/a/b" or "a/b/", as long as no last
    part has 64 characters or more: [tarfs_mount] ends and every entry has a node
    of its own, of its type, whose name is the last part of the entry's path and
    whose parent is the node of the entry's directory (none if the archive has
    no such entry); the volume's root is the entry without a path, and no byte
    outside the names changes. *)
Theorem tarfs_mount_builds_tree depth fuel luna v es sizes s
    (Hr : rich s) (Hf : forall q, is_Some (o_objs s !! q) -> q < o_next s) (Hn : 0 < o_next s)
    (Hl : luna <> 0) (Hv : view as_volume (o_objs s) luna = Some v)
    (Hfam : vv_family v = fsys_ptr tarfs_driver)
    (Hjunk : o_junk_word s (o_next s) = 0) (Hb : 0 <= vv_payload v)
    (Htb : tarball (kmem s) (vv_payload v) es sizes)
    (Hfuel : (100 <= fuel)%nat) (Hfuel2 : (length sizes + 12 <= fuel)%nat)
    (Hdepth : (100 <= depth)%nat) :
  exists s' vs, tarfs_mount depth fuel luna s = Ok (0, s') /\
    length vs = length es /\ NoDup vs /\
    (forall i e, es !! i = Some e -> exists p name,
      nth i vs 0 <> 0 /\
      view as_tarnode (o_objs s') p = Some (TarNode (nth i vs 0) (e_block e)) /\
      view as_node (o_objs s') (nth i vs 0)
        = Some (Node name (type_flags (e_type e)) (node_at vs (parent es (e_path e))) luna p) /\
      (e_path e <> [] -> name = basename (e_path e))) /\
    view as_volume (o_objs s') luna
      = Some (Volume (vv_name v) (vv_family v) (node_at vs (first es [])) (o_next s)) /\
    agree (off_names es) (kmem s) (kmem s').
Proof.
  destruct (tarfs_mount_run depth fuel luna v es sizes s) as (s' & ps & vs & R & HM); try done.
  pose proof (mounted_archived _ _ _ _ _ _ _ HM Hl Hfam Hn (tb_ok _ _ _ _ Htb)) as HA.
  pose proof (b_length _ _ _ _ _ _ _ _ (mt_tree _ _ _ _ _ _ _ HM)) as Hlen.
  exists s', vs. split_and!; [done|done| | |apply (mt_volume _ _ _ _ _ _ _ HM)|apply (mt_mem _ _ _ _ _ _ _ HM)].
  - apply NoDup_alt. intros i j x Hi Hj.
    destruct (lookup_lt_is_Some_2 es i) as [e He]; [rewrite <- Hlen; by eapply lookup_lt_Some|].
    destruct (lookup_lt_is_Some_2 es j) as [f Hf']; [rewrite <- Hlen; by eapply lookup_lt_Some|].
    apply (node_inj luna es s' ps vs HA i j e f He Hf').
    by rewrite (nth_lookup_Some _ _ _ _ Hi), (nth_lookup_Some _ _ _ _ Hj).
  - intros i e He. destruct (entry_at ps es (proj2 (a_ps _ _ _ _ _ HA)) i e He) as [p Hp].
    destruct (a_node _ _ _ _ _ HA i p e Hp He) as (_ & H1 & H2 & nm & H3 & H4).
    exists p, nm. by split_and!.
Qed.

(** C6: A file of the archive is found by its path and reads as its data.  After
    [vfs_mount], "VOLUME:/a/b/c" resolves as the walk over the archive's entries
    says: to the entry of that path when every directory on the way, from the
    root on, has an entry (NULL if there is none of that path); to NULL when the
    archive has no root or a component on the way is no directory; and to the
    dereference of NULL when one is missing.  Reading a regular file that was
    found copies the bytes that the archive had there before it was mounted.
    The word of fresh memory that becomes the payload's root is zero. *)
Theorem archive_files_by_path `{Alloc.Allocator} c s ds ws rs name addr es sizes comps
    (Hr : rich s) (Hm : mounts s ws rs)
    (Hds : drivers_ok (H := KernMain.Impl.kernel_filesystems c) s ds)
    (Htarfs : lookup_driver (H := KernMain.Impl.kernel_filesystems c) ds (chars_of "tarfs")
      = Some tarfs_driver)
    (Hname : valid_name name) (Hcolon : 58 ∉ name) (Hfree : lookup_vol ws name = None)
    (Hroot : exists n, view as_node (o_objs s) rootfs_root = Some n)
    (Haddr : 0 <= addr) (Htb : tarball (kmem s) addr es sizes)
    (Hjunk : o_junk_word s (o_next s + 2) = 0)
    (Hfuel : (100 <= KernMain.Impl.c_fuel c)%nat)
    (Hfuel2 : (length sizes + 12 <= KernMain.Impl.c_fuel c)%nat)
    (Hdepth : (100 <= KernMain.Impl.c_depth c)%nat)
    (Hne : comps <> []) (Hcomps : Forall valid_component comps) :
  exists s1,
    Mounts.vfs_mount (H := KernMain.Impl.kernel_filesystems c) (chars_of "tarfs") name addr s
      = Ok (0, s1) /\
    ((forall k, (k < length comps)%nat -> directory es (path_of [] (take k comps))) ->
      locate es comps = Ok (first es (join comps))) /\
    match locate es comps with
    | Err x =>
        Path.fs_resolve (H := KernMain.Impl.kernel_filesystems c) (name ++ 58 :: 47 :: join comps) s1 = Err x
    | Ok o => exists s2 v,
        Path.fs_resolve (H := KernMain.Impl.kernel_filesystems c) (name ++ 58 :: 47 :: join comps) s1
          = Ok (v, s2) /\
        match o with
        | None => v = 0
        | Some i => exists e sz, first es (join comps) = Some i /\
            es !! i = Some e /\ sizes !! i = Some sz /\ v <> 0 /\
            (e_type e = 48 -> forall offt buf len, 0 <= offt -> 0 <= len < W32 ->
              buf + len <= e_block e + 512 \/ e_block e + 512 + sz <= buf ->
              let k := Nat.min (Z.to_nat len) (Z.to_nat (sz - offt)) in
              exists s3, Ops.fs_read (H := KernMain.Impl.kernel_filesystems c) v offt buf len s2
                = Ok (Z.of_nat k, s3) /\
                load_bytes (kmem s3) buf k = load_bytes (kmem s) (e_block e + 512 + offt) k)
        end
    end.
Proof.
  set (fs := KernMain.Impl.kernel_filesystems c) in *.
  destruct (mount_archive_run c s ds ws rs name addr es sizes) as (s1 & ps & vs & R1 & HI); try done.
  pose proof (archive_locate_run c s ws name es Hname Hfree s1 ps vs (am_in _ _ _ _ _ _ _ HI) comps
    Hcolon Hne Hcomps) as R2.
  exists s1. split; [exact R1|]. split; [by apply locate_dirs|].
  destruct (locate es comps) as [o|x] eqn:Hloc; [|exact R2].
  exists (resolved s1), (node_at vs o). split; [exact R2|].
  destruct o as [i|]; [|done]. cbn [node_at]. pose proof (locate_first es comps i Hcomps Hloc) as Hi.
  destruct (first_Some _ _ _ Hi) as ((e & He & _) & _).
  destruct (tarball_header _ _ _ _ Htb i e He) as [_ [sz Hsz]].
  pose proof (resolved_in s ws name es s1 ps vs (am_in _ _ _ _ _ _ _ HI)) as [HA _ Hdrv _].
  destruct (entry_at ps es (proj2 (a_ps _ _ _ _ _ HA)) i e He) as [p Hp].
  destruct (a_node _ _ _ _ _ HA i p e Hp He) as (_ & Hi0 & _).
  exists e, sz. split; [exact Hi|]. split; [done|]. split; [done|]. split; [done|].
  intros Hty offt buf len Ho Hl Hap.
  pose proof (archive_read_run c s addr es sizes Htb Hfuel Hfuel2 Hdepth ps vs (resolved s1)
    i e sz offt buf len HA Hdrv (am_mem _ _ _ _ _ _ _ HI) He Hsz Hty Ho Hl Hap) as R3.
  eexists. split; [exact R3|]. apply load_bytes_copy.
Qed.

(** *** On the machine of KernMain.v *)
Module Sample.
Import VfsProps.Start.

Definition sample_entries : list entry :=
  [Entry 0x400000 [] 53; Entry 0x400200 (chars_of "SYSTEM") 53;
   Entry 0x400400 (chars_of "SYSTEM/MOTD.TXT") 48].

Definition sample_sizes : list Z := [0; 0; 596].

(** The archive as the boot loader leaves it, and where its bytes still are. *)
Lemma loaded_tarball : tarball KernMain.Sample.loaded 0x400000 sample_entries sample_sizes.
Proof.
  assert (forall m p full, load_bytes m p (S (length full)) = full ++ [0] -> chars full -> cstr m p full)
    as Hc by done.
  split.
  - repeat split; try decided; vm_compute; (reflexivity || discriminate).
  - reflexivity.
  - repeat constructor.
    + exists (chars_of "./"). split_and!; [apply Hc; [by vm_compute|decided]|done|done|cbn; lia].
    + exists (chars_of "./SYSTEM/"). split_and!; [apply Hc; [by vm_compute|decided]|done|done|cbn; lia].
    + exists (chars_of "./SYSTEM/MOTD.TXT").
      split_and!; [apply Hc; [by vm_compute|decided]|done|done|cbn; lia].
  - repeat constructor; by vm_compute.
  - repeat constructor; (decided || done || (cbn; lia)).
Qed.

Fixpoint same_bytes (n : nat) (m m' : mem) (a : Z) : bool :=
  match n with
  | O => true
  | S n' => (load8 m a =? load8 m' a) && same_bytes n' m m' (a + 1)
  end.

Lemma same_bytes_agree n m m' a :
  same_bytes n m m' a = true -> agree (fun x => a <= x < a + Z.of_nat n) m m'.
Proof.
  revert a. induction n as [|n IH]; intros a H x Hx; [lia|].
  cbn [same_bytes] in H. apply andb_true_iff in H as [H1%Z.eqb_eq H2].
  destruct (decide (x = a)) as [->|]; [done|]. apply (IH (a + 1) H2). lia.
Qed.

Lemma sample_tarball_of m :
  same_bytes 0xA01 KernMain.Sample.loaded m 0x400000 = true ->
  tarball m 0x400000 sample_entries sample_sizes.
Proof.
  intros H. apply (tarball_agree KernMain.Sample.loaded); [apply loaded_tarball|].
  eapply agree_weaken; [|apply (same_bytes_agree _ _ _ _ H)].
  change (end_block 0 sample_sizes) with 5. change (Z.of_nat 0xA01) with 2561. intros a Ha. cbv beta. lia.
Qed.

Lemma sample_tarball : tarball (kmem sample_state) 0x400000 sample_entries sample_sizes.
Proof. apply sample_tarball_of. vm_compute. reflexivity. Qed.

Definition archive_volume : ker := volume_made (chars_of "INITRD") 5 0x400000 sample_state.

Lemma volume_made_same name f a s :
  (rich s -> rich (volume_made name f a s)) /\ kmem (volume_made name f a s) = kmem s.
Proof. done. Qed.

End Sample.
Import VfsProps.Start Sample.

Lemma tarfs_mount_builds_tree_witness :
  exists s' vs, tarfs_mount 100 200 262 archive_volume = Ok (0, s') /\ length vs = 3%nat /\
    view as_volume (o_objs s') 262
      = Some (Volume (Some (chars_of "INITRD")) 5 (nth 0 vs 0) 264).
Proof.
  destruct (tarfs_mount_builds_tree 100 200 262
    (Volume (Some (chars_of "INITRD")) 5 0 0x400000) sample_entries [0; 0; 596] archive_volume)
    as (s' & vs & R & Hl & _ & _ & Hv & _).
  - apply volume_made_same, sample_rich.
  - apply (k_fresh _ _ _ (volume_made_kept (chars_of "INITRD") 5 0x400000 sample_state
      (m_fresh _ _ _ sample_mounts))).
  - by vm_compute.
  - lia.
  - by vm_compute.
  - done.
  - by vm_compute.
  - done.
  - unfold archive_volume. rewrite (proj2 (volume_made_same _ _ _ _)). exact sample_tarball.
  - lia.
  - cbn. lia.
  - lia.
  - exists s', vs. split; [exact R|]. split; [exact Hl|exact Hv].
Defined.

(** Three bytes of the message of the day, from the fourth on. *)
Lemma archive_files_by_path_witness :
  exists s1 s2 s3 v,
    Mounts.vfs_mount (H := sample_fs) (chars_of "tarfs") (chars_of "INITRD") 0x400000 sample_state
      = Ok (0, s1) /\
    Path.fs_resolve (H := sample_fs) (chars_of "INITRD:/SYSTEM/MOTD.TXT") s1 = Ok (v, s2) /\
    Ops.fs_read (H := sample_fs) v 3 0x8000 3 s2 = Ok (3, s3) /\
    load_bytes (kmem s3) 0x8000 3 = chars_of "com".
Proof.
  destruct (archive_files_by_path KernMain.Sample.sample_config sample_state
    [rootfs_fs; rootfs_fs; devfs_fs; tarfs_driver] sample_vols VfsProps.Start.sample_entries
    (chars_of "INITRD") 0x400000 sample_entries [0; 0; 596] [chars_of "SYSTEM"; chars_of "MOTD.TXT"]
    sample_rich sample_mounts sample_drivers_ok) as (s1 & R1 & H).
  - by vm_compute.
  - split; [decided|]. split; [done|cbn; lia].
  - decided.
  - by vm_compute.
  - eexists. by vm_compute.
  - lia.
  - exact sample_tarball.
  - done.
  - cbn. lia.
  - cbn. lia.
  - cbn. lia.
  - done.
  - repeat constructor; decided.
  - destruct H as (_ & H). change (locate sample_entries _) with (Ok (Some 2%nat)) in H.
    cbv beta iota in H. destruct H as (s2 & v & R2 & e & sz & _ & [= <-] & [= <-] & _ & Hread).
    destruct (Hread eq_refl 3 0x8000 3 ltac:(lia) ltac:(lia) ltac:(cbn; lia)) as (s3 & R3 & L).
    exists s1, s2, s3, v. split; [exact R1|]. split; [exact R2|]. split; [exact R3|].
    change (Z.to_nat 3 `min` Z.to_nat (596 - 3))%nat with 3%nat in L. rewrite L. by vm_compute.
Defined.
