(* ===== verification/MountTable.v ===== *)
(** * The mount table along every history

    [vfs_mount] and [vfs_umount] (kernel/kern/fs_vfs.c) with the drivers of the
    kernel, against a table of names and drivers.  [Module Spec]: the table, and
    what a request answers.  [Module Refine]: every request does to the two lists
    of fs_vfs.c and to the drivers what the table says.  The theorem is about
    requests in any number and order. *)
From S2P Require Import Prelude Mem Alloc Device Objects Vfs Devfs Tarfs KernMain VfsProps TarfsProps TarTree TarPaths.
From S2P Require CString.
From stdpp Require Import strings.
Local Open Scope Z_scope.
Import CString.Pure VfsProps.Table Vfs.Mounts TarTree.Build TarPaths.Mounted.

(** ** The abstract table *)
Module Spec.

Inductive request :=
  | Mount (driver name : list Z) (argp : Z)
  | Umount (name : list Z).

(** The volumes in the order of their mounts, and whether devfs was ever
    mounted: its root directory remembers its volume for good. *)
Record table := Tab { volumes : list (list Z * fsys); devfs_used : bool }.

(** Names are compared by [strncmp] with 16, which looks at 17 characters. *)
Definition named (n : list Z) (x : list Z * fsys) : bool := bool_decide (take 17 x.1 = take 17 n).
Definition taken (T : table) (n : list Z) : bool := existsb (named n) (volumes T).
Definition add (T : table) (n : list Z) (f : fsys) (used : bool) : table :=
  Tab (volumes T ++ [(n, f)]) used.

Section spec.
Context (driver_of : list Z -> option fsys).

Definition answer (T : table) (r : request) : Z * table :=
  match r with
  | Mount d n _ =>
      if taken T n then (-1, T) else
      match driver_of d with
      | None | Some rootfs_fs => (-1, T)
      | Some devfs_fs => if devfs_used T then (-1, T) else (0, add T n devfs_fs true)
      | Some tarfs_driver => (0, add T n tarfs_driver (devfs_used T))
      end
  | Umount n =>
      if taken T n
      then (0, Tab (List.filter (fun x => negb (named n x)) (volumes T)) (devfs_used T))
      else (-1, T)
  end.

Fixpoint history (T : table) (rs : list request) : list Z * table :=
  match rs with
  | [] => ([], T)
  | r :: rs' =>
      let '(a, T1) := answer T r in
      let '(l, T2) := history T1 rs' in
      (a :: l, T2)
  end.

End spec.
End Spec.
Import Spec.

(** ** The code *)
Module Refine.
Section refine.
Context `{Allocator} (c : KernMain.Impl.config) (ds : list fsys).
#[local] Instance kernel_fs : FsDrivers := KernMain.Impl.kernel_filesystems c.

Definition request_run (r : request) : M ker Z :=
  match r with
  | Mount d n argp => vfs_mount d n argp
  | Umount n => vfs_umount n
  end.
Fixpoint history_run (rs : list request) : M ker (list Z) :=
  match rs with
  | [] => mret []
  | r :: rs' => a ← request_run r; l ← history_run rs'; mret (a :: l)
  end.

(** The archives in memory that may be mounted: apart from each other, and
    small enough for the fuel. *)
Record image := Image { im_addr : Z; im_entries : list TarTree.Build.entry; im_sizes : list Z }.
Definition image_at (m : mem) (x : image) : Prop :=
  tarball m (im_addr x) (im_entries x) (im_sizes x).
Definition image_bytes (x : image) (a : Z) : Prop :=
  im_addr x <= a <= im_addr x + 512 * end_block 0 (im_sizes x).
Definition images_ok (xs : list image) : Prop :=
  Forall (fun x => 0 <= im_addr x < W32 /\
    (length (im_sizes x) + 12 <= KernMain.Impl.c_fuel c)%nat) xs /\
  forall x y, x ∈ xs -> y ∈ xs -> x = y \/
    im_addr x <> im_addr y /\ forall a, image_bytes y a -> off_names (im_entries x) a.

Context (xs : list image) (Hxs : images_ok xs).
Context (Hfuel : (100 <= KernMain.Impl.c_fuel c)%nat) (Hdepth : (100 <= KernMain.Impl.c_depth c)%nat).

(** Names that fit, and archives that are there. *)
Definition valid (r : request) : Prop :=
  match r with
  | Mount d n argp => chars d /\ valid_name n /\
      (d = chars_of "tarfs" -> argp ∈ (im_addr <$> xs))
  | Umount n => chars n
  end.

(** What the requests need besides the table. *)
Record ready (s : ker) (used : bool) : Prop := Ready {
  rd_rich : rich s;
  rd_drivers : drivers_ok s ds;
  rd_apart : vfs_drivers s <> vfs_volumes s /\ vfs_drivers s <> rootfs_nodes s;
  rd_root : exists n, view as_node (o_objs s) rootfs_root = Some n;
  rd_devfs : exists n, view as_node (o_objs s) devfs_rootdir = Some n /\
    (vn_volume n =? 0) = negb used;
  rd_junk a : o_junk_word s a = 0;
  rd_images : Forall (image_at (kmem s)) xs
}.

(** A volume is a line of the table. *)
Definition is_line (v : vol) (x : list Z * fsys) : Prop :=
  vv_name v.2 = Some x.1 /\ vv_family v.2 = fsys_ptr x.2.

(** The kernel's tables are [T]: the volumes, and in the same order the entries
    of the root directory with their names. *)
Record implements (s : ker) (T : table) : Prop := Implements {
  im_ready : ready s (devfs_used T);
  im_table : exists vs es, mounts s vs es /\ Forall2 is_line vs (volumes T)
}.

(** *** Facts about the table *)

Lemma taken_lookup vs T n :
  Forall2 is_line vs (volumes T) ->
  taken T n = match lookup_vol vs n with Some _ => true | None => false end.
Proof.
  unfold taken, lookup_vol. induction 1 as [|v x vs l [H1 _] _ IH]; [done|]. cbn [existsb List.find].
  unfold named at 1, answers at 1, key, name_of. rewrite H1. cbn [default].
  destruct (bool_decide _); [done|exact IH].
Qed.

(** Of distinct names, taking out those that answer takes out one. *)
Lemma filter_line vs l n va v vb :
  Forall2 is_line vs l -> vs = va ++ v :: vb -> key v = take 17 n -> key v ∉ (key <$> (va ++ vb)) ->
  Forall2 is_line (va ++ vb) (List.filter (fun x => negb (named n x)) l).
Proof.
  intros HF -> Hk Hno. apply Forall2_app_inv_l in HF as (la & lr & Ha & Hr & ->).
  apply Forall2_cons_inv_l in Hr as (x & lb & [Hx _] & Hb & ->).
  assert (forall us l, Forall2 is_line us l -> (forall u, u ∈ us -> key u <> key v) ->
    List.filter (fun x => negb (named n x)) l = l) as Hall.
  { intros us l'. induction 1 as [|u y us l' [Hy _] _ IH]; intros Hu; [done|]. cbn [List.filter].
    assert (named n y = false) as ->.
    { unfold named. apply bool_decide_false. rewrite <- Hk. intros E. apply (Hu u); [left|].
      unfold key at 1, name_of. by rewrite Hy. }
    cbn [negb]. rewrite IH; [done|]. intros w Hw. apply Hu. by right. }
  assert (forall u, u ∈ va ++ vb -> key u <> key v) as Hd.
  { intros u Hu E. apply Hno. rewrite <- E. by apply list_elem_of_fmap_2. }
  rewrite List.filter_app. cbn [List.filter].
  assert (named n x = true) as ->.
  { unfold named. apply bool_decide_true. rewrite <- Hk. unfold key, name_of. by rewrite Hx. }
  cbn [negb]. rewrite (Hall va la Ha), (Hall vb lb Hb); [by apply Forall2_app|..];
    intros u Hu; apply Hd, elem_of_app; [by right|by left].
Qed.

Lemma driver_ident d f : lookup_driver ds d = Some f -> d = ident f.
Proof.
  intros Hl. apply List.find_some in Hl as [_ E]. by apply bool_decide_eq_true in E.
Qed.

(** *** The frame *)

(** Where a step leaves the static objects and the list of drivers alone. *)
Lemma ready_moves s s' used used' :
  ready s used -> rich s' -> (forall a, o_junk_word s' a = o_junk_word s a) -> tables s' = tables s ->
  (forall A (kind : obj -> option A) q a, (forall ys, kind (OList ys) = None) -> q < 256 ->
    q <> devfs_rootdir -> view kind (o_objs s) q = Some a -> view kind (o_objs s') q = Some a) ->
  view as_list (o_objs s') (vfs_drivers s) = view as_list (o_objs s) (vfs_drivers s) ->
  (exists n, view as_node (o_objs s') devfs_rootdir = Some n /\ (vn_volume n =? 0) = negb used') ->
  Forall (image_at (kmem s')) xs -> ready s' used'.
Proof.
  intros [R1 (D1 & D2 & D3) R3 [n R4] R5 R6 R7] Hr Hj Ht Hk Hl Hd Hx. injection Ht as E1 E2 E3 E4.
  split; try done.
  - unfold drivers_ok. rewrite E2, Hl. split_and!; [done|done|]. eapply Forall_impl; [exact D3|].
    intros f [F1 F2]. split; [|done]. apply Hk; try done; by destruct f.
  - by rewrite E1, E2, E3.
  - exists n. by apply Hk.
  - intros a. by rewrite Hj.
Qed.

(** *** Mounting *)

Lemma rootfs_refuses p s : rootfs_nodes s <> 0 -> rootfs_mount p s = Ok (-1, s).
Proof.
  intros H0. unfold rootfs_mount. rewrite gets_bind, if_app.
  by rewrite (proj2 (Z.eqb_neq _ _) H0).
Qed.

Lemma devfs_refuses p s n :
  view as_node (o_objs s) devfs_rootdir = Some n -> vn_volume n <> 0 ->
  Devfs.Impl.devfs_mount p s = Ok (-1, s).
Proof.
  intros Hn H0. unfold Devfs.Impl.devfs_mount.
  mstep (deref_run as_node devfs_rootdir s n ltac:(done) Hn). rewrite if_app.
  by rewrite (proj2 (Z.eqb_neq _ _) H0).
Qed.

(** The hook refuses: the new volume is freed, nothing else has changed. *)
Lemma refused_run s T vs es d n argp f :
  ready s (devfs_used T) -> mounts s vs es -> Forall2 is_line vs (volumes T) ->
  chars d -> valid_name n -> lookup_vol vs n = None -> lookup_driver ds d = Some f ->
  fsd_mount (filesys f) (o_next s) (volume_made n (fsys_ptr f) argp s)
    = Ok (-1, volume_made n (fsys_ptr f) argp s) ->
  exists s', vfs_mount d n argp s = Ok (-1, s') /\ implements s' T.
Proof.
  intros HR Hm HF Hd Hn Hfree Hdrv Hhook.
  pose proof (m_next _ _ _ Hm) as Hnx. pose proof (m_fresh _ _ _ Hm) as Hf.
  pose proof (mount_prefix_run ds s vs es d n argp f _ _ (rd_rich _ _ HR) Hm (rd_drivers _ _ HR)
    Hd Hn Hfree Hdrv Hhook) as R.
  change (-1 <? 0) with true in R. cbn iota in R.
  unfold free_obj in R. rewrite (proj2 (Z.eqb_neq (o_next s) 0)), modify_bind in R by lia.
  eexists. split; [exact R|]. set (s' := set_objs _ _).
  assert (forall A (kind : obj -> option A) q, q < o_next s ->
    view kind (o_objs s') q = view kind (o_objs s) q) as Hv.
  { intros A kind q Hq. subst s'. unfold volume_made. cbn [o_objs set_objs].
    rewrite view_delete_ne by lia. by views. }
  split.
  - pose proof HR as [_ (D1 & D2 & _) _ _ [rn [Hrn Hz]] _ Hx].
    apply (ready_moves s s' (devfs_used T)); try done; try apply HR.
    + intros A kind q a _ Hq _ Ha. by rewrite Hv by lia.
    + rewrite Hv; [done|]. by eapply view_fresh.
    + exists rn. split; [|done]. rewrite Hv by (unfold devfs_rootdir; lia). done.
  - exists vs, es. split; [|exact HF].
    apply (mounts_kept (o_next s) s); [done| |lia]. split; [done|cbn; lia|..].
    + intros q Hq. subst s'. cbn [o_objs set_objs] in Hq. destruct Hq as [o Ho].
      apply lookup_delete_Some in Ho as [Hne Ho].
      apply (k_fresh _ _ _ (volume_made_kept n (fsys_ptr f) argp s Hf)). by exists o.
    + intros q Hq Hne. subst s'. cbn [o_objs set_objs]. rewrite lookup_delete_ne by done.
      by apply (k_objs _ _ _ (volume_made_kept n (fsys_ptr f) argp s Hf)).
Qed.

(** One more line. *)
Lemma line_added vs l n f root payload p :
  Forall2 is_line vs l ->
  Forall2 is_line (vs ++ [(p, Volume (Some n) (fsys_ptr f) root payload)]) (l ++ [(n, f)]).
Proof. intros H0. apply Forall2_app; [done|]. repeat constructor. Qed.

Lemma devfs_run s T vs es d n argp :
  ready s false -> devfs_used T = false -> mounts s vs es -> Forall2 is_line vs (volumes T) ->
  chars d -> valid_name n -> lookup_vol vs n = None -> lookup_driver ds d = Some devfs_fs ->
  exists s', vfs_mount d n argp s = Ok (0, s') /\ implements s' (add T n devfs_fs true).
Proof.
  intros HR HT Hm HF Hd Hn Hfree Hdrv. pose proof HR as [R1 R2 [R3a R3b] [rn Hrn] [dn [Hdn Hz]] R6 R7].
  apply Z.eqb_eq in Hz. pose proof (m_next _ _ _ Hm) as Hnx. pose proof (m_fresh _ _ _ Hm) as Hf.
  set (s0 := volume_made n (fsys_ptr devfs_fs) argp s).
  assert (forall A (kind : obj -> option A) q, q < o_next s ->
    view kind (o_objs s0) q = view kind (o_objs s) q) as Hv by (intros; subst s0; unfold volume_made; by views).
  set (v0 := Volume (Some n) (fsys_ptr devfs_fs) 0 argp).
  assert (view as_volume (o_objs s0) (o_next s) = Some v0) as Hv0 by (subst s0; unfold volume_made; by views).
  destruct (devfs_mount_hooked (o_next s) s0 v0 dn) as [Rh Hh]; try done.
  { apply (k_fresh _ _ _ (volume_made_kept n _ argp s Hf)). }
  { rewrite Hv by (unfold devfs_rootdir; lia). done. }
  { exists rn. rewrite Hv by (unfold rootfs_root; lia). done. }
  set (s2 := devfs_mounted _ _ _ _) in *.
  destruct (vfs_mount_run s ds vs es d n argp devfs_fs s2 _ _ R1 Hm R2 Hd Hn Hfree Hdrv Rh Hh)
    as (e & R & Hm2 & He & Hm1 & _).
  eexists. split; [exact R|]. set (s1 := registered _ _ _ _ _ _) in *.
  assert (forall A (kind : obj -> option A) q a, (forall ys, kind (OList ys) = None) -> q < 256 ->
    view kind (o_objs s2) q = Some a -> view kind (o_objs s1) q = Some a) as Hv1
    by (intros A kind q a Hk _ Ha; by apply (registered_view kind s2 vs es)).
  split.
  - apply (ready_moves s s1 false); try done.
    + intros A kind q a Hk Hq Hne Ha. apply Hv1; [done|done|]. unfold s2, devfs_mounted. views.
      by rewrite Hv by lia.
    + destruct R2 as (D1 & D2 & _). pose proof (view_fresh as_list s _ _ Hf D2).
      assert (e.1 = o_next s + 1 + 1) as He' by (by rewrite He).
      unfold s1, registered. change (vfs_volumes s2) with (vfs_volumes s).
      change (rootfs_nodes s2) with (rootfs_nodes s). views.
      unfold s2, devfs_mounted. cbn [o_objs set_obj set_objs].
      rewrite view_insert_ne by lia. rewrite view_insert_ne; [|unfold devfs_rootdir; lia].
      by rewrite Hv by lia.
    + exists (Node (vn_name dn) (vn_flags dn) (vn_parent dn) (o_next s) (vn_payload dn)).
      split; [|apply Z.eqb_neq; cbn [vn_volume]; lia].
      apply Hv1; [done|done|]. unfold s2, devfs_mounted.
      cbn [o_objs set_obj set_objs]. rewrite view_insert_ne by (unfold devfs_rootdir; lia).
      by rewrite view_insert.
  - eexists _, _. split; [exact Hm1|]. by apply line_added.
Qed.

(** An archive. *)
Lemma tarfs_run s T vs es d n argp :
  ready s (devfs_used T) -> mounts s vs es -> Forall2 is_line vs (volumes T) ->
  valid_name n -> lookup_vol vs n = None -> d = chars_of "tarfs" ->
  lookup_driver ds d = Some tarfs_driver -> argp ∈ (im_addr <$> xs) ->
  exists s', vfs_mount d n argp s = Ok (0, s') /\
    implements s' (add T n tarfs_driver (devfs_used T)).
Proof.
  intros HR Hm HF Hn Hfree -> Hdrv ([addr ims sizes] & -> & Hx)%list_elem_of_fmap.
  cbn [im_addr] in *. pose proof HR as [R1 R2 [R3a R3b] R4 [dn [Hdn Hz]] R6 R7].
  destruct Hxs as [Hsz Hap]. rewrite Forall_forall in R7, Hsz.
  destruct (Hsz _ Hx) as [Haddr Hfuel2]. cbn [im_addr im_sizes] in Haddr, Hfuel2.
  pose proof (R7 _ Hx) as Htb. unfold image_at in Htb. cbn [im_addr im_entries im_sizes] in Htb.
  destruct (mount_archive_run c s ds vs es n addr ims sizes) as (s1 & ps & ns & R & HI);
    try done; try lia.
  pose proof (am_in _ _ _ _ _ _ _ HI) as [A1 (rs & A2) A3 A4].
  pose proof (am_quiet _ _ _ _ _ _ _ HI) as Hq. unfold TarfsProps.Scan.quiet in Hq.
  pose proof (am_keeps _ _ _ _ _ _ _ HI) as Hk.
  exists s1. split; [exact R|]. split.
  - apply (ready_moves s s1 (devfs_used T)); [exact HR|exact A4|by rewrite Hq|by rewrite Hq|..].
    + intros A kind q a Hko _ _ Ha. apply Hk; [exact Ha|by left].
    + destruct R2 as (_ & D2 & _). rewrite D2. apply Hk; [exact D2|by right].
    + exists dn. split; [|exact Hz]. apply Hk; [exact Hdn|by left].
    + apply Forall_forall. intros y Hy. pose proof (R7 y Hy) as Hty.
      destruct (Hap _ y Hx Hy) as [<-|[_ Hoff]].
      * eapply tarball_renamed; [exact Hty|apply (am_mem _ _ _ _ _ _ _ HI)|
          apply (am_named _ _ _ _ _ _ _ HI)].
      * eapply tarball_agree; [exact Hty|]. eapply agree_weaken; [|apply (am_mem _ _ _ _ _ _ _ HI)].
        intros a Ha. by apply Hoff.
  - eexists _, _. split; [exact A2|]. by apply line_added.
Qed.

(** *** Unmounting *)

Lemma umount_table_run s T vs es n v :
  ready s (devfs_used T) -> mounts s vs es -> Forall2 is_line vs (volumes T) -> chars n ->
  lookup_vol vs n = Some v ->
  exists s', vfs_umount n s = Ok (0, s') /\
    implements s' (Tab (List.filter (fun x => negb (named n x)) (volumes T)) (devfs_used T)).
Proof.
  intros HR Hm HF Hn Hv. destruct (lookup_vol_Some vs n v Hv) as [Hin Hkey].
  pose proof HR as [R1 (D1 & D2 & D3) [R3a R3b] R4 [dn [Hdn Hz]] R6 R7].
  pose proof (m_vol_at _ _ _ Hm) as HV. rewrite Forall_forall in HV.
  destruct (HV v Hin) as (V1 & V2 & _).
  destruct (table_split s vs es v Hm Hin)
    as (va & vb & ea & e & eb & -> & -> & H1 & Hl & H2 & Hkv & Hva & Hea).
  exists (unmounted s v (va ++ vb) (ea ++ eb)). split; [by apply (umount_run s va v vb ea e eb n)|].
  assert (v.1 ∉ (va ++ vb).*1) as Hnv.
  { intros (w & E & Hw)%list_elem_of_fmap. apply Hkv, list_elem_of_fmap. exists w. split; [|done].
    destruct (HV w) as (_ & Ew & _);
      [apply elem_of_app in Hw as [|]; apply elem_of_app; [by left|by right; right]|].
    unfold key, name_of. rewrite <- E in Ew. congruence. }
  split; cbn [volumes devfs_used].
  - apply (ready_moves s _ (devfs_used T)); [exact HR|exact R1|done|done|..|exact R7].
    + intros A kind q a Hko Hq _ Ha. eapply unmounted_view; [exact Hm|done|lia|done].
    + unfold unmounted. cbn [o_objs set_objs]. rewrite view_delete_ne.
      * by views.
      * intros E. rewrite E in V2. unfold view in D2, V2.
        destruct (o_objs s !! vfs_drivers s) as [[]|]; done.
    + exists dn. split; [|exact Hz].
      eapply unmounted_view; [exact Hm|done|unfold devfs_rootdir; lia|done].
  - exists (va ++ vb), (ea ++ eb). split; [by apply (unmounted_mounts s va v vb ea e eb)|].
    by apply (filter_line (va ++ v :: vb) (volumes T) n va v vb).
Qed.

(** *** A request, and a history *)

Lemma request_refines s T r :
  implements s T -> valid r ->
  exists s', request_run r s = Ok ((answer (lookup_driver ds) T r).1, s') /\
    implements s' (answer (lookup_driver ds) T r).2.
Proof.
  intros HI Hr. pose proof HI as [HR (vs & es & Hm & HF)]. destruct r as [d n argp|n]; cbn [answer request_run].
  - destruct Hr as (Hd & Hn & Hx). rewrite (taken_lookup vs T n HF).
    destruct (lookup_vol vs n) as [v|] eqn:Hfree.
    { exists s. split; [|exact HI].
      apply (vfs_mount_refuses s ds vs es); [done|apply HR|done|apply Hn|left; by rewrite Hfree]. }
    destruct (lookup_driver ds d) as [f|] eqn:Hdrv.
    2:{ exists s. split; [|exact HI].
        apply (vfs_mount_refuses s ds vs es); [done|apply HR|done|apply Hn|by right]. }
    pose proof (m_next _ _ _ Hm) as Hnx.
    destruct f.
    + apply (refused_run s T vs es d n argp rootfs_fs); try done. apply rootfs_refuses.
      destruct (m_static _ _ _ Hm) as (_ & S2 & _). cbn. lia.
    + destruct (devfs_used T) eqn:HT.
      * apply (refused_run s T vs es d n argp devfs_fs); try done; [by rewrite HT|].
        rewrite <- HT in HR. destruct HR as [_ _ _ _ [dn [Hdn Hz]] _ _].
        apply (devfs_refuses _ _ dn); [|rewrite HT in Hz; by apply Z.eqb_neq].
        unfold volume_made. assert (devfs_rootdir < o_next s) by (unfold devfs_rootdir; lia).
        cbn [o_objs set_obj set_objs set_next tick]. by rewrite !view_insert_ne by lia.
      * by apply (devfs_run s T vs es).
    + apply (tarfs_run s T vs es); try done; [by apply (driver_ident _ tarfs_driver)|].
      apply Hx. by apply (driver_ident _ tarfs_driver).
  - rewrite (taken_lookup vs T n HF). destruct (lookup_vol vs n) as [v|] eqn:Hv.
    + by apply (umount_table_run s T vs es n v).
    + exists s. split; [|exact HI]. unfold vfs_umount.
      mstep (find_by_name_run vs es n s Hm Hr). by rewrite Hv.
Qed.

Lemma history_refines s T rs :
  implements s T -> Forall valid rs ->
  exists s', history_run rs s = Ok ((history (lookup_driver ds) T rs).1, s') /\
    implements s' (history (lookup_driver ds) T rs).2.
Proof.
  intros HI HV. revert s T HI. induction HV as [|r rs Hr _ IH]; intros s T HI; [by exists s|].
  cbn [history_run history]. destruct (request_refines s T r HI Hr) as (s1 & R1 & H1).
  destruct (IH s1 _ H1) as (s2 & R2 & H2). mstep R1. mstep R2.
  destruct (answer (lookup_driver ds) T r) as [a T1]. cbn [fst snd] in *.
  exists s2. by destruct (history (lookup_driver ds) T1 rs).
Qed.

(** What a reader of the root directory and a resolver of paths see. *)
Definition seen_as (s : ker) (T : table) : Prop :=
  (forall i x, volumes T !! i = Some x -> exists p nd,
    rootfs_readdir rootfs_root (Z.of_nat i) s = Ok (p, s) /\
    view as_node (o_objs s) p = Some nd /\ vn_name nd = x.1) /\
  (forall i, (length (volumes T) <= i)%nat -> rootfs_readdir rootfs_root (Z.of_nat i) s = Ok (0, s)) /\
  (forall n, chars n -> exists p, find_mountpoint_by_name n s = Ok (p, s) /\
    negb (p =? 0) = taken T n).

Lemma implements_seen s T : implements s T -> seen_as s T.
Proof.
  intros [_ (vs & es & Hm & HF)]. destruct (m_static _ _ _ Hm) as (_ & S2 & _).
  pose proof (Forall2_length _ _ _ (m_lists _ _ _ Hm)) as L1. pose proof (Forall2_length _ _ _ HF) as L2.
  assert (forall i, rootfs_readdir rootfs_root (Z.of_nat i) s
    = Ok (if (length (volumes T) <=? i)%nat then 0 else nth i es.*1 0, s)) as HR.
  { intros i. unfold rootfs_readdir. rewrite gets_bind.
    mstep (deref_run as_list (rootfs_nodes s) s _ ltac:(lia) (m_root _ _ _ Hm)).
    rewrite length_fmap, L1, L2, Nat2Z.id.
    destruct (Nat.leb_spec (length (volumes T)) i), (Z.leb_spec (Z.of_nat (length (volumes T))) (Z.of_nat i));
      (done || lia). }
  split_and!.
  - intros i x Hi. destruct (Forall2_lookup_r _ _ _ _ _ HF Hi) as (v & Hv & Hx & _).
    destruct (Forall2_lookup_r _ _ _ _ _ (m_lists _ _ _ Hm) Hv) as (e & He & Hn & _).
    exists e.1, e.2. rewrite HR. pose proof (lookup_lt_Some _ _ _ Hi).
    rewrite (proj2 (Nat.leb_gt _ _)) by done. split_and!.
    + do 2 f_equal. apply nth_lookup_Some. by rewrite list_lookup_fmap, He.
    + pose proof (m_entry_at _ _ _ Hm) as HE. rewrite Forall_lookup in HE. by apply (HE i e He).
    + rewrite Hn. unfold name_of. by rewrite Hx.
  - intros i Hi. rewrite HR. by rewrite (proj2 (Nat.leb_le _ _)).
  - intros n Hn. eexists. split; [by apply (find_by_name_run vs es)|].
    rewrite (taken_lookup vs T n HF). destruct (lookup_vol vs n) as [v|] eqn:Hv; [|done].
    destruct (lookup_vol_Some vs n v Hv) as [Hin _]. pose proof (m_vol_at _ _ _ Hm) as HV.
    rewrite Forall_forall in HV. destruct (HV v Hin) as [Hge _].
    by rewrite (proj2 (Z.eqb_neq v.1 0)) by lia.
Qed.

End refine.
End Refine.
Import Refine KernMain.Sample VfsProps.Start TarPaths.Sample.

(** ** Properties *)

(** C11: The mount table, along every history.  Whatever mounts and unmounts are
    requested, of volumes of any name, by any driver (devfs, the root file
    system, archives, unknown ones), the answers are those of a table of names
    and drivers: a taken name and an unknown driver are refused, the root file
    system is mounted once, devfs once and never again even after it was
    unmounted, archives as often as there are names.  Then the mounted volumes
    are the table's lines in their order, the root directory lists exactly their
    names, and a volume is found under a name exactly when the name is taken. *)
Theorem mount_table_refines `{Allocator} c ds xs s T rs
    (Hxs : images_ok c xs)
    (Hfuel : (100 <= KernMain.Impl.c_fuel c)%nat) (Hdepth : (100 <= KernMain.Impl.c_depth c)%nat)
    (HI : implements c ds xs s T) (HV : Forall (valid xs) rs) :
  exists s', history_run c rs s = Ok ((history (lookup_driver (H := kernel_fs c) ds) T rs).1, s') /\
    implements c ds xs s' (history (lookup_driver (H := kernel_fs c) ds) T rs).2 /\
    seen_as s' (history (lookup_driver (H := kernel_fs c) ds) T rs).2.
Proof.
  destruct (history_refines c ds xs Hxs Hfuel Hdepth s T rs HI HV) as (s' & R & H').
  exists s'. split; [exact R|]. split; [exact H'|]. by apply (implements_seen c ds xs).
Qed.

(** After [vfs_init], with the archive of KernMain.v's machine. *)
Definition sample_images : list image := [Image 0x400000 TarPaths.Sample.sample_entries sample_sizes].
Definition sample_ds : list fsys := [rootfs_fs; rootfs_fs; devfs_fs; tarfs_driver].
Definition sample_table : table := Tab [(chars_of "ROOT", rootfs_fs)] false.

Lemma sample_implements :
  implements KernMain.Sample.sample_config sample_ds sample_images VfsProps.Start.sample_state sample_table.
Proof.
  split.
  - split.
    + exact sample_rich.
    + exact sample_drivers_ok.
    + split; by vm_compute.
    + eexists. by vm_compute.
    + eexists. split; [by vm_compute|reflexivity].
    + done.
    + apply Forall_singleton. exact sample_tarball.
  - exists sample_vols, VfsProps.Start.sample_entries. split; [exact sample_mounts|].
    repeat constructor.
Qed.

Definition sample_requests : list request :=
  [Mount (chars_of "devfs") (chars_of "DEV") 0; Mount (chars_of "devfs") (chars_of "DEV2") 0;
   Mount (chars_of "tarfs") (chars_of "INITRD") 0x400000;
   Mount (chars_of "tarfs") (chars_of "INITRD") 0x400000;
   Umount (chars_of "DEV"); Umount (chars_of "DEV"); Mount (chars_of "devfs") (chars_of "DEV") 0;
   Mount (chars_of "tarfs") (chars_of "AGAIN") 0x400000; Mount (chars_of "ext2") (chars_of "DISK") 0;
   Mount (chars_of "rootfs") (chars_of "ROOT2") 0].

Lemma mount_table_refines_witness :
  exists s', history_run KernMain.Sample.sample_config sample_requests VfsProps.Start.sample_state
      = Ok ([0; -1; 0; -1; 0; -1; -1; 0; -1; -1], s') /\
    seen_as s' (Tab [(chars_of "ROOT", rootfs_fs); (chars_of "INITRD", tarfs_driver);
                     (chars_of "AGAIN", tarfs_driver)] true).
Proof.
  destruct (mount_table_refines KernMain.Sample.sample_config sample_ds sample_images
    VfsProps.Start.sample_state sample_table sample_requests) as (s' & R & _ & S).
  - split; [apply Forall_singleton; cbn; lia|]. intros x y ->%list_elem_of_singleton ->%list_elem_of_singleton.
    by left.
  - cbn. lia.
  - cbn. lia.
  - exact sample_implements.
  - unfold sample_requests. repeat (apply Forall_cons; split); try apply Forall_nil;
      lazymatch goal with
      | |- valid _ (Mount _ _ _) =>
          split; [decided|]; split; [split; [decided|split; [done|cbn; lia]]|];
          intros E; first [by left|vm_compute in E; discriminate E]
      | |- _ => decided
      end.
  - exists s'. split; [exact R|exact S].
Defined.
