(* ===== verification/VtconProps.v ===== *)
(** * Properties of the console's screen

    What the console promises is an abstract screen: 24 rows of 80 entries, a
    cursor and the colours ([screen]), on which a character has an effect that
    is a function ([type_char]).  [Module Bus] runs the console's calls to the
    framebuffer and to the clock through the VFS and the device manager,
    [Module Draw] the console's own functions; the theorems say that the
    console refines the abstract screen. *)
From S2P Require Import Prelude Mem Alloc Ports Idt Device Objects Vfs Devfs Vtcon KernMain VfsProps DevfsProps.
From S2P Require CString Rtclock Vgafb.
From stdpp Require Import strings.
Local Open Scope Z_scope.
Import Idt.Impl DevfsProps.Route Vtcon.Impl.

(** ** The abstract screen *)
Module Screen.

(** [s_cell p] is the entry at place [p] = 80 * row + column. *)
Record screen := Scr { s_cell : Z -> Z; s_x : Z; s_y : Z; s_fg : Z; s_bg : Z }.

Definition on_screen (A : screen) : Prop :=
  0 <= s_x A < 80 /\ 0 <= s_y A < 24 /\ 0 <= s_fg A < 16 /\ 0 <= s_bg A < 16.

(** An entry: the character in the low byte, the colours in the high one. *)
Definition entry (ch fg bg : Z) : Z := ch + 256 * fg + 4096 * bg.

(** Everything moves up a row; the last row keeps only its colour. *)
Definition scrolled (fg : Z) (f : Z -> Z) (p : Z) : Z :=
  if p <? 23 * 80 then f (p + 80) else 256 * fg.

Definition line_feed (A : screen) : screen :=
  if s_y A =? 23 then Scr (scrolled (s_fg A) (s_cell A)) (s_x A) 23 (s_fg A) (s_bg A)
  else Scr (s_cell A) (s_x A) (s_y A + 1) (s_fg A) (s_bg A).
Definition go_to (x : Z) (A : screen) : screen :=
  Scr (s_cell A) x (s_y A) (s_fg A) (s_bg A).
Definition put (ch : Z) (A : screen) : screen :=
  Scr (fun p => if p =? 80 * s_y A + s_x A then entry ch (s_fg A) (s_bg A) else s_cell A p)
    (s_x A) (s_y A) (s_fg A) (s_bg A).

(** The column after [x], or the start of the next line. *)
Definition advance_to (x : Z) (A : screen) : screen :=
  if x <? 80 then go_to x A else line_feed (go_to 0 A).

Definition type_char (A : screen) (ch : Z) : screen :=
  if ch =? 8 then go_to (Z.max 0 (s_x A - 1)) A
  else if ch =? 9 then advance_to (7 * (s_x A / 7) + 7) A
  else if ch =? 10 then go_to 0 (line_feed A)
  else if ch =? 13 then go_to 0 A
  else advance_to (s_x A + 1) (put ch A).

Lemma line_feed_on_screen A : on_screen A -> on_screen (line_feed A).
Proof.
  intros (Hx & Hy & Hf & Hb). unfold line_feed, on_screen.
  destruct (Z.eqb_spec (s_y A) 23); cbn; lia.
Qed.
Lemma go_to_on_screen x A : 0 <= x < 80 -> on_screen A -> on_screen (go_to x A).
Proof. unfold on_screen, go_to. cbn. tauto. Qed.
Lemma advance_on_screen x A : 0 <= x -> on_screen A -> on_screen (advance_to x A).
Proof.
  intros Hx HA. unfold advance_to. destruct (Z.ltb_spec x 80).
  - by apply go_to_on_screen.
  - by apply line_feed_on_screen, go_to_on_screen.
Qed.
Lemma type_char_on_screen A ch : on_screen A -> on_screen (type_char A ch).
Proof.
  intros HA. pose proof HA as (Hx & Hy & _). unfold type_char.
  destruct (ch =? 8); [apply go_to_on_screen; [lia|done]|].
  destruct (ch =? 9); [apply advance_on_screen; [Z.to_euclidean_division_equations; lia|done]|].
  destruct (ch =? 10); [by apply go_to_on_screen, line_feed_on_screen|].
  destruct (ch =? 13); [by apply go_to_on_screen|].
  apply advance_on_screen; [lia|exact HA].
Qed.

End Screen.
Import Screen.

(** ** Half words *)

Definition load16 (m : mem) (a : Z) : Z := load8 m a + 256 * load8 m (a + 1).

(** The framebuffer's entry at place [p]. *)
Definition cell (m : mem) (p : Z) : Z := load16 m (0xB8000 + 2 * p).

Lemma load16_range m a : 0 <= load16 m a < 65536.
Proof. unfold load16. pose proof (load8_range m a). pose proof (load8_range m (a + 1)). lia. Qed.

Lemma load16_agree P m m' a : agree P m m' -> P a -> P (a + 1) -> load16 m a = load16 m' a.
Proof. intros H H1 H2. unfold load16. by rewrite (H _ H1), (H _ H2). Qed.

Lemma load16_copy m m' a b n k :
  0 <= k -> 2 * k + 1 < Z.of_nat n ->
  load16 (store_bytes m a (load_bytes m' b n)) (a + 2 * k) = load16 m' (b + 2 * k).
Proof.
  intros Hk Hn. unfold load16.
  assert (forall i, 0 <= i < Z.of_nat n ->
    load8 (store_bytes m a (load_bytes m' b n)) (a + i) = load8 m' (b + i)) as H.
  { intros i Hi. replace i with (Z.of_nat (Z.to_nat i)) by lia.
    rewrite (load8_store_bytes _ _ _ _ (load8 m' (b + Z.of_nat (Z.to_nat i)))).
    - apply u8_small, load8_range.
    - rewrite load_bytes_lookup by lia. done. }
  rewrite <- !Z.add_assoc, !H by lia. done.
Qed.

Lemma load16_store_bytes_ne m a bs b :
  b + 1 < a \/ a + Z.of_nat (length bs) <= b -> load16 (store_bytes m a bs) b = load16 m b.
Proof. intros H. unfold load16. rewrite !load8_store_bytes_ne by lia. done. Qed.

(** [stw] *)
Definition store16 (m : mem) (a v : Z) : mem := store8 (store8 m a v) (a + 1) (v / 256).

Lemma stw_run a v s : stw a v s = Ok (tt, set_kmem (store16 (kmem s) a v) s).
Proof.
  unfold stw. rewrite (bind_Ok _ _ s tt _ (stb_run a v s)), stb_run.
  by rewrite kmem_set_kmem, set_kmem_kmem.
Qed.

Lemma load16_store16 m a v : load16 (store16 m a v) a = u16 v.
Proof.
  unfold load16, store16. rewrite load8_store8_ne, !load8_store8_eq by lia.
  unfold u8, u16. Z.to_euclidean_division_equations. lia.
Qed.

Lemma load16_store16_ne m a v b : b + 1 < a \/ a + 1 < b -> load16 (store16 m a v) b = load16 m b.
Proof. intros H. unfold load16, store16. rewrite !load8_store8_ne by lia. done. Qed.

Lemma agree_store16 (P : Z -> Prop) m a v : ~ P a -> ~ P (a + 1) -> agree P m (store16 m a v).
Proof. intros H1 H2. eapply agree_trans; by apply agree_store8. Qed.

Lemma agree_store_outside (P : Z -> Prop) m a bs :
  (forall b, a <= b < a + Z.of_nat (length bs) -> ~ P b) -> agree P m (store_bytes m a bs).
Proof.
  intros H. apply agree_store_bytes. intros b Hb.
  destruct (decide (a <= b < a + Z.of_nat (length bs))) as [Hin|]; [by apply H in Hin|lia].
Qed.

(** ** The files the console works on *)
Module Bus.

(** What the console is promised: the framebuffer's and the clock's files are
    the devices. *)
Class ConsoleFiles (fs : FsDrivers) := {
  clock_fuel : nat;
  clock_uninit : rtclock;
  clock_stray : nat -> Z;
  fb_reads s p offt buf len : device_node s p vgafb_device ->
    Ops.fs_read p offt buf len s = low (Vgafb.Impl.vgafb_read buf offt len) s;
  fb_writes s p offt buf len : device_node s p vgafb_device ->
    Ops.fs_write p offt buf len s = low (Vgafb.Impl.vgafb_write buf offt len) s;
  fb_ioctls s p iorq arg : device_node s p vgafb_device ->
    Ops.fs_ioctl p iorq arg s = low (Vgafb.Impl.vgafb_ioctl iorq arg) s;
  clock_reads s p offt buf len : device_node s p clock_device ->
    Ops.fs_read p offt buf len s
    = low (Rtclock.Impl.clock_read (S clock_fuel) clock_uninit clock_stray buf len) s
}.

(** The kernel keeps the promise, whatever the console's own functions are. *)
#[export] Instance kernel_console_files `{Allocator} (c : KernMain.Impl.config)
    (console : Devfs.Impl.device) n (Hn : KernMain.Impl.c_fuel c = S n) :
  ConsoleFiles (KernMain.Impl.filesystems_with c console).
Proof.
  refine {| clock_fuel := n; clock_uninit := KernMain.Impl.c_uninit c;
    clock_stray := KernMain.Impl.c_stray c |}; intros s p **.
  - by rewrite (fs_read_run (H := KernMain.Impl.devices_with c console) eq_refl s p vgafb_device).
  - by rewrite (fs_write_run (H := KernMain.Impl.devices_with c console) eq_refl s p vgafb_device).
  - by rewrite (fs_ioctl_run (H := KernMain.Impl.devices_with c console) eq_refl s p vgafb_device).
  - rewrite (fs_read_run (H := KernMain.Impl.devices_with c console) eq_refl s p clock_device) by done.
    cbn. by rewrite Hn.
Defined.

(** The arrays the console hands out are not on the screen. *)
Definition off_screen (a n : Z) : Prop := a + n <= 0xB8000 \/ 0xB8000 + 4000 <= a.
Record frame_ok (F : frame) : Prop := FrameOk {
  fo_date : off_screen (f_date F) 15;
  fo_row : off_screen (f_row F) 160;
  fo_entry : off_screen (f_entry F) 2;
  fo_abspos : off_screen (f_abspos F) 2;
  fo_copy : off_screen (f_copy F) 160
}.

(** The bytes the console's drawing may change. *)
Definition scratch (F : frame) (a : Z) : Prop :=
  0xB8000 <= a < 0xB8000 + 4000 \/ f_date F <= a < f_date F + 15 \/
  f_row F <= a < f_row F + 160 \/ f_entry F <= a < f_entry F + 2 \/
  f_abspos F <= a < f_abspos F + 2 \/ f_copy F <= a < f_copy F + 160.
Definition untouched (F : frame) : mem -> mem -> Prop := agree (fun a => ~ scratch F a).

(** The bytes of the contexts' array. *)
Definition in_contexts (F : frame) (a : Z) : Prop := f_contexts F <= a < f_contexts F + 8 * 4016.

(** The contexts' array is apart from everything the drawing changes. *)
Definition contexts_apart (F : frame) : Prop :=
  forall a, f_contexts F <= a < f_contexts F + 8 * 4016 -> ~ scratch F a.

(** An open console, on a machine whose clock shows [c]. *)
Definition clock_shows (s : ker) (c : rtclock) : Prop :=
  exists regs, Rtclock.Facts.cmos (k_hw (i_k (o_dst s))) regs /\
    Rtclock.Facts.holds (is_binary (rtc_clock (i_ext (o_dst s)))) regs c.
Record wired (s : ker) (c : rtclock) : Prop := Wired {
  w_fb : device_node s (con_fb (o_vt s)) vgafb_device;
  w_clock : device_node s (vt_clock (o_vt s)) clock_device;
  w_shows : clock_shows s c;
  w_print : Rtclock.Facts.printable c;
  w_contexts : length (contexts (o_vt s)) = 8%nat;
  w_current : (current_context (o_vt s) < 8)%nat
}.

(** The parts of the machine the console does not change. *)
Definition kept (s s' : ker) : Prop :=
  o_objs s' = o_objs s /\ k_hw (i_k (o_dst s')) = k_hw (i_k (o_dst s)) /\
  is_binary (rtc_clock (i_ext (o_dst s'))) = is_binary (rtc_clock (i_ext (o_dst s))) /\
  con_fb (o_vt s') = con_fb (o_vt s) /\ vt_clock (o_vt s') = vt_clock (o_vt s) /\
  con_kbd (o_vt s') = con_kbd (o_vt s) /\
  keyboard_rbuf (i_ext (o_dst s')) = keyboard_rbuf (i_ext (o_dst s)) /\
  idt_handlers (o_dst s') = idt_handlers (o_dst s) /\ same_tree s s'.

Lemma kept_refl s : kept s s.
Proof. done. Qed.
Lemma wired_kept_trans s1 s2 s3 : kept s1 s2 -> kept s2 s3 -> kept s1 s3.
Proof.
  intros (? & ? & ? & ? & ? & ? & ? & ? & T1) (? & ? & ? & ? & ? & ? & ? & ? & T2).
  split_and!; try congruence. by eapply same_tree_trans.
Qed.

Lemma wired_kept s s' c :
  wired s c -> kept s s' -> length (contexts (o_vt s')) = 8%nat ->
  (current_context (o_vt s') < 8)%nat -> wired s' c.
Proof.
  intros [H1 H2 H3 H4 _ _] (E1 & E2 & E3 & E4 & E5 & _) Hl Hc. split; [..|done|done|done].
  - rewrite E4. unfold device_node in *. by rewrite E1.
  - rewrite E5. unfold device_node in *. by rewrite E1.
  - unfold clock_shows in *. by rewrite E2, E3.
Qed.

Lemma wired_kmem s c m : wired s c -> wired (set_kmem m s) c.
Proof. intros H. apply (wired_kept s); [done|done|apply H|apply H]. Qed.

End Bus.
Import Bus.

(** ** Drawing *)
Module Draw.

(** *** The framebuffer's file *)

Lemma low_run {A} (m : M dst A) s a d :
  m (o_dst s) = Ok (a, d) -> low m s = Ok (a, set_dst d s).
Proof. intros H. unfold low, zoom. by rewrite H. Qed.

Section bus.
Context {fs : FsDrivers} {CF : ConsoleFiles fs}.

(** [n] entries are copied from a buffer to place [p] of the screen. *)
Lemma write_cells s con p n buf :
  device_node s con vgafb_device -> 0 <= p -> 0 < n -> p + n <= 2000 -> off_screen buf (2 * n) ->
  exists m, Ops.fs_write con (2 * p) buf (2 * n) s = Ok (2 * n, set_kmem m s) /\
    (forall q, 0 <= q < 2000 -> cell m q =
       if decide (p <= q < p + n) then load16 (kmem s) (buf + 2 * (q - p)) else cell (kmem s) q) /\
    agree (fun a => ~ 0xB8000 <= a < 0xB8000 + 4000) (kmem s) m.
Proof.
  intros Hd Hp Hn Hpn Hoff. unfold off_screen in Hoff. rewrite (fb_writes s con) by done.
  exists (store_bytes (kmem s) (0xB8000 + 2 * p) (load_bytes (kmem s) buf (Z.to_nat (2 * n)))).
  split_and!.
  - unfold Vgafb.Impl.VGA_LIMIT. apply low_run.
    rewrite Vgafb.Facts.vgafb_write_run; [done|..];
      unfold Vgafb.Impl.VGA_LIMIT, Vgafb.Impl.VGA_SIZE, Vgafb.Impl.VGA_CHARS, Vgafb.Impl.VGA_COLS,
        Vgafb.Impl.VGA_ROWS, Vgafb.Impl.VGA_BASE; lia.
  - intros q Hq. unfold cell. case_decide.
    + replace (0xB8000 + 2 * q) with (0xB8000 + 2 * p + 2 * (q - p)) by lia.
      apply load16_copy; lia.
    + apply load16_store_bytes_ne. rewrite length_load_bytes. lia.
  - apply agree_store_outside. rewrite length_load_bytes. lia.
Qed.

(** [n] entries are copied from place [p] of the screen to a buffer. *)
Lemma read_cells s con p n buf :
  device_node s con vgafb_device -> 0 <= p -> 0 < n -> p + n <= 2000 -> off_screen buf (2 * n) ->
  exists m, Ops.fs_read con (2 * p) buf (2 * n) s = Ok (2 * n, set_kmem m s) /\
    (forall k, 0 <= k < n -> load16 m (buf + 2 * k) = cell (kmem s) (p + k)) /\
    agree (fun a => ~ buf <= a < buf + 2 * n) (kmem s) m.
Proof.
  intros Hd Hp Hn Hpn Hoff. unfold off_screen in Hoff. rewrite (fb_reads s con) by done.
  exists (store_bytes (kmem s) buf (load_bytes (kmem s) (0xB8000 + 2 * p) (Z.to_nat (2 * n)))).
  split_and!.
  - apply low_run.
    rewrite Vgafb.Facts.vgafb_read_run; [done|..];
      unfold Vgafb.Impl.VGA_LIMIT, Vgafb.Impl.VGA_SIZE, Vgafb.Impl.VGA_CHARS, Vgafb.Impl.VGA_COLS,
        Vgafb.Impl.VGA_ROWS, Vgafb.Impl.VGA_BASE; lia.
  - intros k Hk. unfold cell. rewrite load16_copy by lia. f_equal. lia.
  - apply agree_store_outside. rewrite length_load_bytes. lia.
Qed.

(** Memory that agrees off a range of bytes shows the same entries. *)
Lemma cell_agree (P : Z -> Prop) m m' q :
  agree P m m' -> P (0xB8000 + 2 * q) -> P (0xB8000 + 2 * q + 1) -> cell m' q = cell m q.
Proof. intros H H1 H2. symmetry. by apply (load16_agree P). Qed.

(** *** Arrays of entries *)

Fixpoint store16s (m : mem) (a : Z) (es : list Z) : mem :=
  match es with
  | [] => m
  | e :: es' => store16s (store16 m a e) (a + 2) es'
  end.

Lemma store_entries_run a es s : store_entries a es s = Ok (tt, set_kmem (store16s (kmem s) a es) s).
Proof.
  revert a s. induction es as [|e es IH]; intros a s; cbn [store_entries store16s].
  - by rewrite set_kmem_id.
  - mstep (stw_run a e s). by rewrite IH, kmem_set_kmem, set_kmem_kmem.
Qed.

Lemma agree_store16s (P : Z -> Prop) m a es :
  (forall b, a <= b < a + 2 * Z.of_nat (length es) -> ~ P b) -> agree P m (store16s m a es).
Proof.
  revert m a. induction es as [|e es IH]; intros m a H; cbn [store16s length] in *; [done|].
  eapply agree_trans; [apply (agree_store16 P m a e); apply H; lia|].
  apply IH. intros b Hb. apply H. lia.
Qed.

Lemma load16_store16s m a es k :
  0 <= k < Z.of_nat (length es) ->
  load16 (store16s m a es) (a + 2 * k) = u16 (nth (Z.to_nat k) es 0).
Proof.
  revert m a k. induction es as [|e es IH]; intros m a k Hk; cbn [store16s length] in *; [lia|].
  destruct (decide (k = 0)) as [->|Hk0].
  - rewrite Z.add_0_r. change (nth _ _ 0) with e. rewrite <- (load16_store16 m a e). symmetry.
    apply (load16_agree (fun b => b < a + 2)); [|lia|lia]. apply agree_store16s. lia.
  - replace (a + 2 * k) with (a + 2 + 2 * (k - 1)) by lia. rewrite IH by lia.
    by replace (Z.to_nat k) with (S (Z.to_nat (k - 1))) by lia.
Qed.

Lemma load_chars_run a n s : load_chars a n s = Ok (load_bytes (kmem s) a n, s).
Proof.
  revert a. induction n as [|n IH]; intros a; cbn [load_chars]; [done|].
  mstep (ldb_run a s). mstep (IH (a + 1)). by rewrite load_bytes_S.
Qed.

(** *** The status bar and the cursor *)

Lemma u8_date_text c : u8 <$> Rtclock.Facts.date_text c = Rtclock.Facts.date_text c.
Proof.
  assert (forall k n, u8 <$> Rtclock.Facts.dec k n = Rtclock.Facts.dec k n) as H.
  { induction k as [|k IH]; intros n; [done|]. cbn [Rtclock.Facts.dec].
    rewrite fmap_app, IH. cbn. by rewrite u8_small by cint. }
  unfold Rtclock.Facts.date_text. by rewrite !fmap_app, !H.
Qed.

Lemma length_date_text c : length (Rtclock.Facts.date_text c) = 15%nat.
Proof. unfold Rtclock.Facts.date_text. by rewrite !length_app, !Rtclock.Facts.length_dec. Qed.

Section status.
Context (F : frame) (V : list Z).

Lemma length_status_row current date : length (status_row V current date) = 80%nat.
Proof.
  assert (length (CString.Pure.strncpy_bytes 70 V) <= 71)%nat as Hl.
  { unfold CString.Pure.strncpy_bytes. case_decide as Hd; rewrite ?length_app, ?length_take,
      ?length_replicate; cbn [length]; lia. }
  unfold status_row, text_entries, status_text.
  rewrite length_app, length_take, length_imap, !length_app, length_replicate.
  change (length (date_entries date)) with 21%nat. cbn [length]. lia.
Qed.

Lemma u16_idem x : u16 (u16 x) = u16 x.
Proof. apply u16_small, u16_range. Qed.

Lemma status_row_u16 current date k :
  u16 (nth k (status_row V current date) 0) = nth k (status_row V current date) 0.
Proof.
  assert (Forall (fun e => u16 e = e) (status_row V current date)) as HF.
  { unfold status_row. apply Forall_app. split.
    - apply Forall_take, Forall_lookup_2. intros i x. unfold text_entries.
      rewrite list_lookup_imap. intros (y & _ & ->)%fmap_Some. apply u16_idem.
    - unfold date_entries. apply Forall_fmap, Forall_true. intros x. apply u16_idem. }
  destruct (nth_in_or_default k (status_row V current date) 0) as [Hin| ->]; [|done].
  rewrite Forall_forall in HF. apply HF. by apply list_elem_of_In.
Qed.

(** What drawing the status bar and moving the cursor does. *)
Record refreshed (c : rtclock) (s s' : ker) : Prop := Refreshed {
  rf_vt : o_vt s' = o_vt s;
  rf_kept : kept s s';
  rf_rows p : 0 <= p < 1920 -> cell (kmem s') p = cell (kmem s) p;
  rf_status k : 0 <= k < 80 -> cell (kmem s') (1920 + k)
    = nth (Z.to_nat k) (status_row V (current_context (o_vt s)) (Rtclock.Facts.date_text c)) 0;
  rf_cursor : Vgafb.Facts.cursor (k_io (i_k (o_dst s')))
    = u16 (cy (ctx_of (o_vt s)) * 80 + cx (ctx_of (o_vt s)));
  rf_mem : untouched F (kmem s) (kmem s')
}.

Context (FO : frame_ok F).

(** Agreement on a set of bytes is agreement on the untouched ones. *)
Lemma untouched_weaken (P : Z -> Prop) m m' :
  agree P m m' -> (forall a, ~ scratch F a -> P a) -> untouched F m m'.
Proof. intros H HP. eapply agree_weaken; [|exact H]. exact HP. Qed.

(** The clock's ports are not the cursor's. *)
Lemma cursor_clock_ios io regs :
  Vgafb.Facts.cursor (io ++ Rtclock.Facts.clock_ios regs ++ Rtclock.Facts.clock_ios regs)
  = Vgafb.Facts.cursor io.
Proof. unfold Vgafb.Facts.cursor, Vgafb.Facts.crtc_of. by rewrite foldl_app. Qed.

Lemma drawstatus_run s c :
  wired s c ->
  exists s', drawstatus F V s = Ok (tt, s') /\ o_vt s' = o_vt s /\ kept s s' /\
    (forall p, 0 <= p < 1920 -> cell (kmem s') p = cell (kmem s) p) /\
    (forall k, 0 <= k < 80 -> cell (kmem s') (1920 + k)
      = nth (Z.to_nat k) (status_row V (current_context (o_vt s)) (Rtclock.Facts.date_text c)) 0) /\
    untouched F (kmem s) (kmem s') /\
    Vgafb.Facts.cursor (k_io (i_k (o_dst s'))) = Vgafb.Facts.cursor (k_io (i_k (o_dst s))).
Proof.
  intros W. destruct FO as [Hfd Hfr _ _ _]. unfold off_screen in *.
  unfold drawstatus. rewrite gets_bind.
  destruct (w_shows _ _ W) as (regs & Hcm & Hh).
  rewrite (bind_Ok _ _ s 15 _ (eq_trans (clock_reads s _ _ _ _ (w_clock _ _ W))
    (low_run _ s _ _ (Rtclock.Facts.clock_read_run clock_fuel clock_uninit clock_stray (f_date F)
      15 (o_dst s) regs c Hcm Hh (w_print _ _ W) ltac:(lia))))).
  set (s1 := set_dst _ s).
  assert (kmem s1 = store_bytes (kmem s) (f_date F) (Rtclock.Facts.date_text c)) as Hm1 by done.
  assert (kept s s1) as K1 by (unfold kept; done).
  assert (wired s1 c) as W1 by (apply (wired_kept s); [done|done|apply W|apply W]).
  mstep (load_chars_run (f_date F) 15 s1).
  replace (load_bytes (kmem s1) (f_date F) 15) with (Rtclock.Facts.date_text c).
  2:{ rewrite Hm1, <- (length_date_text c), load_store_bytes. by rewrite u8_date_text. }
  rewrite gets_bind. change (o_vt s1) with (o_vt s).
  set (row := status_row V (current_context (o_vt s)) (Rtclock.Facts.date_text c)).
  mstep (store_entries_run (f_row F) row s1). unfold fb. rewrite gets_bind.
  set (s2 := set_kmem _ s1).
  destruct (write_cells s2 (con_fb (o_vt s2)) 1920 80 (f_row F)) as (m & Hw & Hq & Ha);
    [apply (wired_kmem s1 c _ W1)|lia|lia|lia|unfold off_screen; lia|].
  change (2 * VGA_COLS * (VGA_ROWS - 1)) with (2 * 1920). change (2 * VGA_COLS) with (2 * 80).
  mstep Hw. exists (set_kmem m s2). split_and!; [done|done|exact K1|..].
  - intros p Hp. rewrite kmem_set_kmem, Hq, decide_False by lia.
    unfold s2. rewrite kmem_set_kmem. rewrite Hm1.
    rewrite (cell_agree (fun a => 0xB8000 <= a < 0xB8000 + 4000)
      (store_bytes (kmem s) (f_date F) (Rtclock.Facts.date_text c))); [|apply agree_store16s|lia|lia].
    + apply load16_store_bytes_ne. rewrite length_date_text. lia.
    + unfold row. rewrite length_status_row. lia.
  - intros k Hk. rewrite kmem_set_kmem, Hq, decide_True by lia.
    unfold s2. rewrite kmem_set_kmem. replace (1920 + k - 1920) with k by lia.
    rewrite load16_store16s by (unfold row; rewrite length_status_row; lia).
    apply status_row_u16.
  - rewrite kmem_set_kmem. apply (agree_trans _ _ (kmem s1)); [|apply (agree_trans _ _ (kmem s2))].
    + rewrite Hm1. apply (agree_store_outside _ _ (f_date F) (Rtclock.Facts.date_text c)).
      rewrite length_date_text. intros b Hb Hs. apply Hs. unfold scratch. lia.
    + apply (agree_store16s _ _ (f_row F) row).
      unfold row. rewrite length_status_row. intros b Hb Hs. apply Hs. unfold scratch. lia.
    + eapply agree_weaken; [|exact Ha]. intros a Hs Hin. apply Hs. unfold scratch. lia.
  - apply cursor_clock_ios.
Qed.

Lemma syncfbcursor_run s c :
  wired s c ->
  exists s', syncfbcursor F s = Ok (tt, s') /\ o_vt s' = o_vt s /\ kept s s' /\
    (forall p, 0 <= p < 2000 -> cell (kmem s') p = cell (kmem s) p) /\
    Vgafb.Facts.cursor (k_io (i_k (o_dst s')))
      = u16 (cy (ctx_of (o_vt s)) * 80 + cx (ctx_of (o_vt s))) /\
    untouched F (kmem s) (kmem s').
Proof.
  intros W. destruct FO as [_ _ _ Hab _]. unfold off_screen in *.
  unfold syncfbcursor, context. rewrite gets_bind.
  set (pos := u16 (u32 _)). mstep (stw_run (f_abspos F) pos s). unfold fb. rewrite gets_bind.
  set (s1 := set_kmem _ s).
  assert (wired s1 c) as W1 by (apply (wired_kmem s c _ W)).
  assert (load16 (kmem s1) (f_abspos F) = pos) as Hpos.
  { unfold s1. rewrite kmem_set_kmem, load16_store16. apply u16_idem. }
  rewrite (bind_Ok _ _ s1 0 _ (eq_trans (fb_ioctls s1 (con_fb (o_vt s1)) _ (f_abspos F) (w_fb _ _ W1))
    (low_run _ s1 _ _ (Vgafb.Facts.vgafb_movecur_run (f_abspos F) (o_dst s1))))).
  eexists. split; [reflexivity|]. split_and!; [done|done|..].
  - intros p Hp. match goal with |- cell ?m _ = _ =>
      change m with (store16 (kmem s) (f_abspos F) pos) end.
    apply load16_store16_ne. lia.
  - cbn [o_dst set_dst i_k set_ik k_io add_ios]. rewrite Vgafb.Facts.cursor_movecursor.
    change (k_mem (i_k (o_dst s1))) with (kmem s1). unfold load16 in Hpos. rewrite Hpos.
    subst pos. unfold u16, u32, VGA_COLS. Z.to_euclidean_division_equations. lia.
  - match goal with |- untouched _ _ ?m =>
      change m with (store16 (kmem s) (f_abspos F) pos) end.
    apply agree_store16; intros Hs; apply Hs; unfold scratch; lia.
Qed.

Lemma refresh_run s c :
  wired s c ->
  exists s', (drawstatus F V;; syncfbcursor F) s = Ok (tt, s') /\ refreshed c s s'.
Proof.
  intros W. destruct (drawstatus_run s c W) as (s1 & R1 & V1 & K1 & C1 & S1 & U1 & _).
  destruct (syncfbcursor_run s1 c) as (s2 & R2 & V2 & K2 & C2 & X2 & U2).
  { apply (wired_kept s); [done|done|rewrite V1; apply W|rewrite V1; apply W]. }
  exists s2. mstep R1. split; [done|]. split.
  - by rewrite V2.
  - by eapply wired_kept_trans.
  - intros p Hp. rewrite C2 by lia. by apply C1.
  - intros k Hk. rewrite C2 by lia. by apply S1.
  - by rewrite X2, V1.
  - by eapply agree_trans.
Qed.

(** *** Scrolling *)

Lemma copyrow_run s c dst src :
  wired s c -> 0 <= dst < 25 -> 0 <= src < 25 ->
  exists m, copyrow F dst src s = Ok (tt, set_kmem m s) /\
    (forall q, 0 <= q < 2000 -> cell m q =
       if decide (80 * dst <= q < 80 * dst + 80) then cell (kmem s) (q - 80 * dst + 80 * src)
       else cell (kmem s) q) /\
    untouched F (kmem s) m.
Proof.
  intros W Hdst Hsrc. destruct FO as [_ _ _ _ Hcp]. unfold copyrow.
  rewrite if_app, !(proj2 (Z.ltb_lt _ _)) by (unfold VGA_ROWS; lia). cbn [andb negb].
  unfold fb. rewrite gets_bind.
  replace (VGA_COLS * src * 2) with (2 * (80 * src)) by (unfold VGA_COLS; lia).
  replace (VGA_COLS * dst * 2) with (2 * (80 * dst)) by (unfold VGA_COLS; lia).
  replace (VGA_COLS * 2) with (2 * 80) by done.
  destruct (read_cells s (con_fb (o_vt s)) (80 * src) 80 (f_copy F)) as (m1 & R1 & C1 & U1);
    [apply W|lia|lia|lia|done|].
  mstep R1. rewrite gets_bind. set (s1 := set_kmem m1 s).
  destruct (write_cells s1 (con_fb (o_vt s1)) (80 * dst) 80 (f_copy F)) as (m & R2 & C2 & U2);
    [apply (wired_kmem s c _ W)|lia|lia|lia|done|].
  mstep R2. exists m. split_and!; [done|..].
  - intros q Hq. rewrite C2 by done. unfold s1. rewrite kmem_set_kmem. case_decide.
    + rewrite C1 by lia. f_equal. lia.
    + unfold off_screen in Hcp. symmetry. apply (load16_agree _ _ _ _ U1); lia.
  - apply (agree_trans _ _ m1); (eapply untouched_weaken; [eassumption|]);
      intros a Ha Hin; apply Ha; unfold scratch; lia.
Qed.

Lemma scroll_rows_run n row s c :
  wired s c -> 1 <= row -> row + Z.of_nat n <= 25 ->
  exists m, scroll_rows F n row s = Ok (tt, set_kmem m s) /\
    (forall q, 0 <= q < 2000 -> cell m q =
       if decide (80 * (row - 1) <= q < 80 * (row - 1 + Z.of_nat n)) then cell (kmem s) (q + 80)
       else cell (kmem s) q) /\
    untouched F (kmem s) m.
Proof.
  revert row s. induction n as [|n IH]; intros row s W Hr Hn; cbn [scroll_rows].
  - exists (kmem s). rewrite set_kmem_id. split_and!; [done| |done].
    intros q Hq. by rewrite decide_False by lia.
  - destruct (copyrow_run s c (row - 1) row W) as (m1 & R1 & C1 & U1); [lia|lia|].
    mstep R1. destruct (IH (row + 1) (set_kmem m1 s)) as (m & R & C & U);
      [by apply wired_kmem|lia|lia|].
    exists m. rewrite R, set_kmem_kmem. rewrite kmem_set_kmem in C, U. split_and!; [done| |].
    + intros q Hq. rewrite C by done. repeat case_decide; try lia; rewrite C1 by lia;
        case_decide; try lia; f_equal; lia.
    + by apply (agree_trans _ _ m1).
Qed.

Lemma clearrow_loop_run n p s c :
  wired s c -> 0 <= p -> p + Z.of_nat n <= 2000 ->
  exists m, clearrow_loop F n (2 * p) s = Ok (tt, set_kmem m s) /\
    (forall q, 0 <= q < 2000 -> cell m q =
       if decide (p <= q < p + Z.of_nat n) then load16 (kmem s) (f_entry F) else cell (kmem s) q) /\
    agree (fun a => ~ 0xB8000 <= a < 0xB8000 + 4000) (kmem s) m.
Proof.
  destruct FO as [_ _ He _ _]. revert p s.
  induction n as [|n IH]; intros p s W Hp Hn; cbn [clearrow_loop].
  - exists (kmem s). rewrite set_kmem_id. split_and!; [done| |done].
    intros q Hq. by rewrite decide_False by lia.
  - unfold fb. rewrite gets_bind.
    destruct (write_cells s (con_fb (o_vt s)) p 1 (f_entry F)) as (m1 & R1 & C1 & U1);
      [apply W|lia|lia|lia|exact He|].
    change (2 * 1) with 2 in R1. mstep R1.
    destruct (IH (p + 1) (set_kmem m1 s)) as (m & R & C & U); [by apply wired_kmem|lia|lia|].
    replace (2 * p + 2) with (2 * (p + 1)) by lia.
    exists m. rewrite R, set_kmem_kmem. rewrite kmem_set_kmem in C, U.
    split_and!; [done| |by apply (agree_trans _ _ m1)].
    intros q Hq. unfold off_screen in He.
    rewrite C, C1, <- (load16_agree _ _ _ (f_entry F) U1) by lia.
    repeat case_decide; try lia. f_equal. lia.
Qed.

(** *** The console shows an abstract screen *)

Definition ctx_shows (k : vtcontext) (A : screen) : Prop :=
  cx k = s_x A /\ cy k = s_y A /\ fg k = s_fg A /\ bg k = s_bg A.
Record shows (s : ker) (A : screen) : Prop := Shows {
  sh_ctx : ctx_shows (ctx_of (o_vt s)) A;
  sh_cells p : 0 <= p < 1920 -> cell (kmem s) p = s_cell A p
}.

(** A piece of drawing, from [s] to [s'], that ends with [A]. *)
Record drawn (c : rtclock) (s s' : ker) (A : screen) : Prop := Drawn {
  dr_wired : wired s' c;
  dr_kept : kept s s';
  dr_current : current_context (o_vt s') = current_context (o_vt s);
  dr_others i : i <> current_context (o_vt s) ->
    contexts (o_vt s') !! i = contexts (o_vt s) !! i;
  dr_status : kbd_status <$> contexts (o_vt s') = kbd_status <$> contexts (o_vt s);
  dr_shows : shows s' A;
  dr_mem : untouched F (kmem s) (kmem s')
}.

Lemma drawn_refl c s A : wired s c -> shows s A -> drawn c s s A.
Proof. intros. by split. Qed.
Lemma drawn_trans c s1 s2 s3 A A' : drawn c s1 s2 A -> drawn c s2 s3 A' -> drawn c s1 s3 A'.
Proof.
  intros [W1 K1 E1 O1 T1 S1 U1] [W2 K2 E2 O2 T2 S2 U2].
  split; [done|by eapply wired_kept_trans|congruence| |congruence|done|by eapply agree_trans].
  intros i Hi. rewrite O2, O1 by congruence. done.
Qed.

Lemma ctx_alter f v :
  (current_context v < length (contexts v))%nat ->
  nth (current_context v) (alter f (current_context v) (contexts v)) ctx0 = f (ctx_of v).
Proof.
  intros H. unfold ctx_of.
  destruct (lookup_lt_is_Some_2 (contexts v) (current_context v) H) as [k Hk].
  rewrite (nth_lookup_Some _ _ ctx0 k Hk). apply nth_lookup_Some.
  by rewrite list_lookup_alter_eq, Hk.
Qed.

Lemma mod_context_run f s c A A' :
  wired s c -> shows s A -> (forall k, kbd_status (f k) = kbd_status k) ->
  s_cell A' = s_cell A -> ctx_shows (f (ctx_of (o_vt s))) A' ->
  exists s', mod_context f s = Ok (tt, s') /\ drawn c s s' A'.
Proof.
  intros W Hs Hk Hc Hf. eexists. split; [reflexivity|].
  pose proof (w_contexts _ _ W) as HL. pose proof (w_current _ _ W) as Hcur. split.
  - apply (wired_kept s); [done|done| |done]. cbn. by rewrite length_alter.
  - done.
  - done.
  - intros i Hi. cbn [o_vt set_vt contexts]. by rewrite list_lookup_alter_ne by done.
  - apply list_eq. intros i. cbn [o_vt set_vt contexts]. rewrite !list_lookup_fmap.
    destruct (decide (i = current_context (o_vt s))) as [->|].
    + rewrite list_lookup_alter_eq. destruct (contexts (o_vt s) !! _); cbn; by rewrite ?Hk.
    + by rewrite list_lookup_alter_ne.
  - split.
    + unfold ctx_of. cbn [o_vt set_vt contexts current_context].
      rewrite ctx_alter by lia. done.
    + intros p Hp. rewrite Hc. by apply Hs.
  - done.
Qed.

(** The context's view of the screen is unique. *)
Lemma context_run s : context s = Ok (ctx_of (o_vt s), s).
Proof. done. Qed.

(** Drawing that only changes the memory. *)
Lemma drawn_kmem c s m A :
  wired s c -> ctx_shows (ctx_of (o_vt s)) A ->
  (forall p, 0 <= p < 1920 -> cell m p = s_cell A p) -> untouched F (kmem s) m ->
  drawn c s (set_kmem m s) A.
Proof.
  intros W Hs Hc Hu. split; [by apply wired_kmem|done|done|done|done|by split|].
  by rewrite kmem_set_kmem.
Qed.

(** *** The console's own functions *)

Lemma lor_disjoint a b n : 0 <= n -> 0 <= a < 2 ^ n -> Z.lor a (Z.shiftl b n) = a + 2 ^ n * b.
Proof.
  intros Hn Ha. rewrite Z.shiftl_mul_pow2 by done. pose proof (Z.add_lor_land a (b * 2 ^ n)).
  assert (Z.land a (b * 2 ^ n) = 0); [|lia].
  apply Z.bits_inj_0. intros i. rewrite Z.land_spec.
  destruct (Z.ltb_spec i 0); [by rewrite Z.testbit_neg_r|].
  destruct (Z.ltb_spec i n).
  - by rewrite Z.mul_pow2_bits_low, andb_false_r.
  - rewrite <- (Z.mod_small a (2 ^ n)) by done. by rewrite Z.mod_pow2_bits_high.
Qed.

Lemma VGA_ENTRY_entry ch fg bg :
  0 <= ch < 256 -> 0 <= fg < 16 -> 0 <= bg < 16 ->
  u16 (VGA_ENTRY ch fg bg) = entry ch fg bg.
Proof.
  intros Hc Hf Hb. unfold VGA_ENTRY, entry.
  rewrite (lor_disjoint ch fg 8), (lor_disjoint _ bg 12) by lia.
  apply u16_small. lia.
Qed.

Lemma scroll_run s c :
  wired s c -> 0 <= fg (ctx_of (o_vt s)) < 16 ->
  exists m, (_ ← scroll_rows F 23 1; clearrow F (VGA_ROWS - 2)) s = Ok (tt, set_kmem m s) /\
    (forall q, 0 <= q < 1920 -> cell m q = scrolled (fg (ctx_of (o_vt s))) (cell (kmem s)) q) /\
    untouched F (kmem s) m.
Proof.
  intros W Hfg. destruct FO as [_ _ He _ _]. unfold off_screen in He.
  destruct (scroll_rows_run 23 1 s c W) as (m1 & R1 & C1 & U1); [lia|lia|]. mstep R1.
  unfold clearrow. mstep (context_run (set_kmem m1 s)).
  change (o_vt (set_kmem m1 s)) with (o_vt s). set (k := fg (ctx_of (o_vt s))) in *.
  mstep (stw_run (f_entry F) (u16 (Z.shiftl k 8)) (set_kmem m1 s)).
  rewrite kmem_set_kmem, set_kmem_kmem. set (m2 := store16 _ _ _).
  assert (load16 m2 (f_entry F) = 256 * k) as Hk.
  { unfold m2. rewrite load16_store16, u16_idem, Z.shiftl_mul_pow2 by done.
    rewrite u16_small by lia. lia. }
  destruct (clearrow_loop_run (Z.to_nat VGA_COLS) 1840 (set_kmem m2 s) c) as (m & R & C & U);
    [by apply wired_kmem|lia|done|].
  change (VGA_COLS * (VGA_ROWS - 2) * 2) with (2 * 1840). rewrite R, set_kmem_kmem.
  change (Z.of_nat (Z.to_nat VGA_COLS)) with 80 in C. rewrite kmem_set_kmem in C, U.
  exists m. split_and!; [done|..].
  - intros q Hq. rewrite C by lia. unfold scrolled. case_decide.
    + by rewrite (proj2 (Z.ltb_ge _ _)) by lia.
    + rewrite (proj2 (Z.ltb_lt _ _)) by lia.
      transitivity (cell m1 q); [|rewrite C1, decide_True by lia; done].
      unfold m2, cell. apply load16_store16_ne. lia.
  - apply (agree_trans _ _ m1); [done|]. apply (agree_trans _ _ m2).
    + apply agree_store16; intros Hs; apply Hs; unfold scratch; lia.
    + eapply untouched_weaken; [exact U|]. intros a Ha Hin. apply Ha. unfold scratch. lia.
Qed.

Lemma moveline_run s c A :
  wired s c -> shows s A -> on_screen A ->
  exists s', moveline F s = Ok (tt, s') /\ drawn c s s' (line_feed A).
Proof.
  intros W HA Hon. pose proof Hon as (Hx & Hy & Hf & Hb).
  pose proof HA as [(Ex & Ey & Ef & Eb) _]. unfold moveline.
  destruct (mod_context_run (fun k => set_cy (cy k +w 1) k) s c A
    (Scr (s_cell A) (s_x A) (s_y A + 1) (s_fg A) (s_bg A)) W HA) as (s1 & R1 & D1); [done|done|..].
  { split_and!; try done. cbn. rewrite Ey, u32_small by lia. done. }
  mstep R1. mstep (context_run s1). pose proof D1 as [W1 K1 C1 O1 T1 S1 U1].
  pose proof S1 as [(Ex1 & Ey1 & Ef1 & Eb1) Hc1]. cbn in Ex1, Ey1, Ef1, Eb1, Hc1.
  rewrite if_app, Ey1. unfold line_feed.
  change (VGA_ROWS - 1) with 24. destruct (Z.eqb_spec (s_y A) 23) as [E|E].
  - rewrite (proj2 (Z.eqb_eq _ _)) by lia. rewrite <- bind_assoc.
    destruct (scroll_run s1 c W1) as (m & R2 & C2 & U2); [lia|]. mstep R2.
    set (A2 := Scr (scrolled (s_fg A) (s_cell A)) (s_x A) (s_y A + 1) (s_fg A) (s_bg A)).
    assert (drawn c s1 (set_kmem m s1) A2) as D2.
    { apply drawn_kmem; [done|done| |done]. intros p Hp. rewrite C2, Ef1 by lia.
      cbn. unfold scrolled. destruct (Z.ltb_spec p (23 * 80)); [apply Hc1; lia|done]. }
    destruct (mod_context_run (set_cy (VGA_ROWS - 2)) (set_kmem m s1) c A2
      (Scr (scrolled (s_fg A) (s_cell A)) (s_x A) 23 (s_fg A) (s_bg A)))
      as (s3 & R3 & D3); [by apply D2|by apply D2|done|done|by split_and!|].
    exists s3. split; [exact R3|]. eapply drawn_trans; [exact D1|eapply drawn_trans; [exact D2|exact D3]].
  - rewrite (proj2 (Z.eqb_neq _ _)) by lia. by exists s1.
Qed.

Lemma go_to_run x s c A :
  wired s c -> shows s A ->
  exists s', mod_context (set_cx x) s = Ok (tt, s') /\ drawn c s s' (go_to x A).
Proof.
  intros W HA. pose proof (sh_ctx _ _ HA) as (Ex & Ey & Ef & Eb).
  apply (mod_context_run _ s c A); [done|done|done|done|]. by split_and!.
Qed.

(** Going to a column that a step of the cursor computes. *)
Lemma step_run f x s c A :
  wired s c -> shows s A -> f (cx (ctx_of (o_vt s))) = x ->
  exists s', mod_context (fun k => set_cx (f (cx k)) k) s = Ok (tt, s') /\
    drawn c s s' (go_to x A).
Proof.
  intros W HA Hf. pose proof (sh_ctx _ _ HA) as (Ex & Ey & Ef & Eb).
  apply (mod_context_run _ s c A); [done|done|done|done|]. by split_and!.
Qed.

Lemma go_to_line_feed_run s c A :
  wired s c -> shows s A -> on_screen (go_to 0 A) ->
  exists s', (_ ← mod_context (set_cx 0); moveline F) s = Ok (tt, s') /\
    drawn c s s' (line_feed (go_to 0 A)).
Proof.
  intros W HA Hon. destruct (go_to_run 0 s c A W HA) as (s1 & R1 & D1). mstep R1.
  destruct (moveline_run s1 c (go_to 0 A)) as (s2 & R2 & D2); [apply D1|apply D1|done|].
  exists s2. split; [exact R2|by eapply drawn_trans].
Qed.

Lemma cursor_step_run s c A :
  wired s c -> shows s A -> on_screen A ->
  exists s', movecursor F s = Ok (tt, s') /\ drawn c s s' (advance_to (s_x A + 1) A).
Proof.
  intros W HA Hon. pose proof Hon as (Hx & Hy & Hf & Hb).
  pose proof (sh_ctx _ _ HA) as (Ex & _). unfold movecursor.
  destruct (step_run (fun x => x +w 1) (s_x A + 1) s c A W HA) as (s1 & R1 & D1).
  { rewrite Ex, u32_small by lia. done. }
  mstep R1. mstep (context_run s1). destruct (sh_ctx _ _ (dr_shows _ _ _ _ D1)) as (Ex1 & _).
  rewrite if_app, Ex1. cbn [go_to s_x]. unfold advance_to, VGA_COLS.
  destruct (Z.eqb_spec (s_x A + 1) 80) as [E|E].
  - rewrite (proj2 (Z.ltb_ge _ _)) by lia.
    destruct (go_to_line_feed_run s1 c (go_to (s_x A + 1) A)) as (s2 & R2 & D2);
      [apply D1|apply D1|apply (go_to_on_screen 0 A); [lia|exact Hon]|].
    exists s2. split; [exact R2|by eapply drawn_trans].
  - rewrite (proj2 (Z.ltb_lt _ _)) by lia. by exists s1.
Qed.

(** The loop of the tab stops: it ends at the next multiple of 7. *)
Lemma tab_loop_run fuel s c A :
  wired s c -> shows s A -> 0 <= s_x A < 80 ->
  7 * (s_x A / 7) + 7 - s_x A <= Z.of_nat fuel ->
  exists s', tab_loop fuel s = Ok (tt, s') /\ drawn c s s' (go_to (7 * (s_x A / 7) + 7) A).
Proof.
  intros W HA Hx Hf. set (stop := 7 * (s_x A / 7) + 7) in *.
  assert (forall n s1 x, wired s1 c -> shows s1 (go_to x A) -> s_x A <= x < stop ->
    stop - x <= Z.of_nat n ->
    exists s', tab_loop n s1 = Ok (tt, s') /\ drawn c s1 s' (go_to stop A)) as H.
  2:{ apply (H fuel s (s_x A)); [done|by destruct A|subst stop; split; [lia|];
        Z.to_euclidean_division_equations; lia|done]. }
  clear s W HA. induction n as [|n IH]; intros s x W HA Hlt Hn; [lia|]. cbn [tab_loop].
  pose proof (sh_ctx _ _ HA) as (Ex & _). cbn in Ex.
  destruct (step_run (fun x => x +w 1) (x + 1) s c (go_to x A) W HA) as (s1 & R1 & D1).
  { rewrite Ex, u32_small; [done|]. subst stop. Z.to_euclidean_division_equations. lia. }
  mstep R1. mstep (context_run s1). destruct (sh_ctx _ _ (dr_shows _ _ _ _ D1)) as (Ex1 & _).
  rewrite if_app, Ex1. cbn [go_to s_x].
  destruct (Z.eqb_spec ((x + 1) mod 7) 0) as [E|E].
  - exists s1. split; [done|]. replace stop with (x + 1); [exact D1|].
    subst stop. Z.to_euclidean_division_equations. lia.
  - destruct (IH s1 (x + 1)) as (s2 & R2 & D2); [apply D1|apply D1| |lia|].
    + split; [lia|]. subst stop. Z.to_euclidean_division_equations. lia.
    + exists s2. split; [exact R2|by eapply drawn_trans].
Qed.

Lemma put_glyph_run ch s c A :
  wired s c -> shows s A -> on_screen A -> 0 <= ch < 256 ->
  exists s', put_glyph F ch s = Ok (tt, s') /\ drawn c s s' (advance_to (s_x A + 1) (put ch A)).
Proof.
  intros W HA Hon Hch. pose proof Hon as (Hx & Hy & Hf & Hb).
  pose proof (sh_ctx _ _ HA) as (Ex & Ey & Ef & Eb). destruct FO as [_ _ He _ _].
  unfold put_glyph. mstep (context_run s). rewrite Ex, Ey, Ef, Eb. unfold VGA_COLS.
  assert (s32 (s_y A * 80 + s_x A) = 80 * s_y A + s_x A) as ->.
  { unfold s32. rewrite u32_small by lia. rewrite (proj2 (Z.ltb_lt _ _)) by lia. lia. }
  rewrite VGA_ENTRY_entry by lia. set (e := entry ch (s_fg A) (s_bg A)).
  mstep (stw_run (f_entry F) e s). set (s1 := set_kmem _ s).
  unfold fb. rewrite gets_bind. rewrite u32_small by lia.
  destruct (write_cells s1 (con_fb (o_vt s1)) (80 * s_y A + s_x A) 1 (f_entry F))
    as (m & R & C & U); [apply (wired_kmem s c _ W)|lia|lia|lia|exact He|].
  change (2 * 1) with 2 in R. mstep R. unfold off_screen in He.
  assert (drawn c s (set_kmem m s1) (put ch A)) as D1.
  { unfold s1 in *. rewrite kmem_set_kmem in C, U. rewrite set_kmem_kmem.
    apply drawn_kmem; [done|by split_and!|..].
    - intros p Hp. rewrite C by lia. cbn [put s_cell].
      case_decide; destruct (Z.eqb_spec p (80 * s_y A + s_x A)); try lia.
      + replace (f_entry F + _) with (f_entry F) by lia. rewrite load16_store16.
        fold e. apply u16_small. subst e. unfold entry. lia.
      + rewrite <- (sh_cells _ _ HA p Hp). apply load16_store16_ne. lia.
    - apply (agree_trans _ _ (store16 (kmem s) (f_entry F) e)).
      + apply agree_store16; intros Hs; apply Hs; unfold scratch; lia.
      + eapply untouched_weaken; [exact U|]. intros a Ha Hin. apply Ha. unfold scratch. lia. }
  destruct (cursor_step_run (set_kmem m s1) c (put ch A)) as (s2 & R2 & D2);
    [apply D1|apply D1|exact Hon|].
  exists s2. split; [exact R2|by eapply drawn_trans].
Qed.

(** *** A character on the console *)

(** The console shows [A], below it the status bar, and the hardware cursor is
    at [A]'s. *)
Record displayed (c : rtclock) (s s' : ker) (A : screen) : Prop := Displayed {
  ds_drawn : drawn c s s' A;
  ds_status k : 0 <= k < 80 -> cell (kmem s') (1920 + k)
    = nth (Z.to_nat k) (status_row V (current_context (o_vt s)) (Rtclock.Facts.date_text c)) 0;
  ds_cursor : Vgafb.Facts.cursor (k_io (i_k (o_dst s'))) = 80 * s_y A + s_x A
}.

Lemma display_run c s s1 A :
  drawn c s s1 A -> on_screen A ->
  exists s', (drawstatus F V;; syncfbcursor F) s1 = Ok (tt, s') /\ displayed c s s' A.
Proof.
  intros [W1 K1 C1 O1 T1 S1 U1] (Hx & Hy & Hf & Hb).
  destruct (refresh_run s1 c W1) as (s' & R & [V2 K2 C2 T2 X2 U2]).
  pose proof (sh_ctx _ _ S1) as (Ex & Ey & Ef & Eb).
  exists s'. split; [done|]. split.
  - split.
    + apply (wired_kept s1); [done|done|rewrite V2; apply W1|rewrite V2; apply W1].
    + by eapply wired_kept_trans.
    + by rewrite V2.
    + intros i Hi. rewrite V2. by apply O1.
    + by rewrite V2.
    + split; [by rewrite V2; split_and!|]. intros p Hp. rewrite C2 by done. by apply S1.
    + by eapply agree_trans.
  - intros k Hk. by rewrite T2, C1.
  - rewrite X2, Ex, Ey. rewrite u16_small by lia. lia.
Qed.

Lemma putchar_run ch s c A :
  wired s c -> shows s A -> on_screen A -> 0 <= ch < 256 ->
  exists s', putchar F V ch s = Ok (tt, s') /\ displayed c s s' (type_char A ch).
Proof.
  intros W HA Hon Hch. pose proof Hon as (Hx & Hy & Hf & Hb).
  pose proof (sh_ctx _ _ HA) as (Ex & Ey & Ef & Eb).
  unfold putchar. mstep (context_run s). rewrite Ex.
  match goal with |- exists s', (?step ≫= _) s = _ /\ _ =>
    assert (exists s1, step s = Ok (tt, s1) /\ drawn c s s1 (type_char A ch)) as (s1 & R1 & D1) end.
  2:{ mstep R1. apply (display_run c s s1); [done|by apply type_char_on_screen]. }
  unfold type_char. rewrite !if_app.
  destruct (ch =? 8); [|destruct (ch =? 9); [|destruct (ch =? 10); [|destruct (ch =? 13)]]].
  - unfold mwhen. destruct (Z.ltb_spec 0 (s_x A)).
    + apply (step_run (fun x => x -w 1)); [done|done|]. rewrite Ex, u32_small by lia. lia.
    + exists s. split; [done|]. replace (go_to _ A) with A; [by apply drawn_refl|].
      destruct A. cbn in *. unfold go_to. f_equal. lia.
  - assert (7 * (s_x A / 7) + 7 - s_x A <= Z.of_nat 14) as Ht
      by (Z.to_euclidean_division_equations; lia).
    destruct (tab_loop_run 14 s c A W HA Hx Ht) as (s1 & R1 & D1). set (x := 7 * (s_x A / 7) + 7) in *.
    mstep R1. mstep (context_run s1). destruct (sh_ctx _ _ (dr_shows _ _ _ _ D1)) as (Ex1 & _).
    rewrite Ex1. cbn [go_to s_x]. unfold advance_to, mwhen, VGA_COLS.
    destruct (Z.ltb_spec x 80).
    + rewrite (proj2 (Z.leb_gt _ _)) by lia. by exists s1.
    + rewrite (proj2 (Z.leb_le _ _)) by lia.
      destruct (go_to_line_feed_run s1 c (go_to x A)) as (s2 & R2 & D2);
        [apply D1|apply D1|apply (go_to_on_screen 0 A); [lia|exact Hon]|].
      exists s2. split; [exact R2|by eapply drawn_trans].
  - destruct (moveline_run s c A W HA Hon) as (s1 & R1 & D1). mstep R1.
    destruct (go_to_run 0 s1 c (line_feed A)) as (s2 & R2 & D2); [apply D1|apply D1|].
    exists s2. split; [exact R2|by eapply drawn_trans].
  - by apply go_to_run.
  - by apply put_glyph_run.
Qed.

Lemma displayed_trans c s1 s2 s3 A A' :
  displayed c s1 s2 A -> displayed c s2 s3 A' -> displayed c s1 s3 A'.
Proof.
  intros [D1 _ _] [D2 T2 X2]. split; [by eapply drawn_trans| |done].
  intros k Hk. by rewrite T2, (dr_current _ _ _ _ D1).
Qed.

(** *** Writing *)

Lemma vtcon_write_loop_run n buf s c A :
  wired s c -> shows s A -> on_screen A ->
  (forall i, 0 <= i <= Z.of_nat n -> ~ scratch F (buf + i)) ->
  exists s', vtcon_write_loop F V (S n) buf s = Ok (tt, s') /\
    displayed c s s' (foldl type_char A (load_bytes (kmem s) buf (S n))) /\
    on_screen (foldl type_char A (load_bytes (kmem s) buf (S n))).
Proof.
  revert buf s A. induction n as [|n IH]; intros buf s A W HA Hon Hbuf.
  all: destruct (putchar_run (load8 (kmem s) buf) s c A W HA Hon (load8_range _ _)) as (s1 & R1 & D1).
  all: pose proof (type_char_on_screen A (load8 (kmem s) buf) Hon) as Hon1.
  all: cbn [vtcon_write_loop]; mstep (ldb_run buf s); mstep R1; rewrite load_bytes_S; cbn [foldl].
  - by exists s1.
  - destruct (IH (buf + 1) s1 (type_char A (load8 (kmem s) buf))) as (s2 & R2 & D2 & Hon2);
      [apply D1|apply D1|done| |].
    { intros i Hi. rewrite <- Z.add_assoc. apply Hbuf. lia. }
    assert (load_bytes (kmem s1) (buf + 1) (S n) = load_bytes (kmem s) (buf + 1) (S n)) as E.
    { symmetry. apply (load_bytes_agree _ _ _ _ _ (dr_mem _ _ _ _ (ds_drawn _ _ _ _ D1))).
      intros i Hi. rewrite <- Z.add_assoc. apply Hbuf. lia. }
    rewrite E in D2, Hon2. exists s2. split; [exact R2|].
    split; [by eapply displayed_trans|done].
Qed.

(** *** Clearing *)

Definition blank (A : screen) : screen :=
  Scr (fun _ => entry 32 (s_fg A) (s_bg A)) 0 0 (s_fg A) (s_bg A).

Lemma clear_loop_run n p s c fg' bg' :
  wired s c -> 0 <= p -> p + Z.of_nat n <= 2000 -> 0 <= fg' < 16 -> 0 <= bg' < 16 ->
  fg (ctx_of (o_vt s)) = fg' -> bg (ctx_of (o_vt s)) = bg' ->
  exists m, clear_loop F n p s = Ok (tt, set_kmem m s) /\
    (forall q, p <= q < p + Z.of_nat n -> cell m q = entry 32 fg' bg') /\
    (forall q, 0 <= q < p -> cell m q = cell (kmem s) q) /\
    untouched F (kmem s) m.
Proof.
  intros W Hp Hn Hf Hb Ef Eb. pose proof FO as [_ _ He _ _].
  revert p s W Hp Hn Ef Eb. induction n as [|n IH]; intros p s W Hp Hn Ef Eb; cbn [clear_loop].
  - exists (kmem s). rewrite set_kmem_id. split_and!; [done|lia|done|done].
  - mstep (context_run s). rewrite Ef, Eb, VGA_ENTRY_entry by lia. set (e := entry 32 fg' bg').
    mstep (stw_run (f_entry F) e s). unfold fb. rewrite gets_bind. set (s1 := set_kmem _ s).
    destruct (write_cells s1 (con_fb (o_vt s1)) p 1 (f_entry F)) as (m1 & R1 & C1 & U1);
      [apply (wired_kmem s c _ W)|lia|lia|lia|exact He|].
    change (2 * 1) with 2 in R1. mstep R1. unfold off_screen in He.
    assert (load16 (kmem s1) (f_entry F) = e) as Hent.
    { unfold s1. rewrite kmem_set_kmem, load16_store16. apply u16_small. subst e. unfold entry. lia. }
    destruct (IH (p + 1) (set_kmem m1 s1)) as (m & R & C & C' & U);
      [by apply wired_kmem, wired_kmem|lia|lia|done|done|].
    rewrite kmem_set_kmem in C', U. unfold s1 in R. rewrite !set_kmem_kmem in R.
    exists m. split_and!; [exact R|..].
    + intros q Hq. destruct (decide (q = p)) as [->|]; [|apply C; lia].
      rewrite C', C1, decide_True by lia. by replace (f_entry F + 2 * (p - p)) with (f_entry F) by lia.
    + intros q Hq. rewrite C', C1, decide_False by lia. unfold s1. rewrite kmem_set_kmem.
      apply load16_store16_ne. lia.
    + apply (agree_trans _ _ (kmem s1)); [|apply (agree_trans _ _ m1); [|done]].
      * apply agree_store16; intros Hs; apply Hs; unfold scratch; lia.
      * eapply untouched_weaken; [exact U1|]. intros a Ha Hin. apply Ha. unfold scratch. lia.
Qed.

Lemma clearscreen_run s c A :
  wired s c -> shows s A -> on_screen A ->
  exists s', clearscreen F V s = Ok (tt, s') /\ displayed c s s' (blank A).
Proof.
  intros W HA (Hx & Hy & Hf & Hb). pose proof (sh_ctx _ _ HA) as (Ex & Ey & Ef & Eb).
  unfold clearscreen.
  destruct (clear_loop_run (Z.to_nat (VGA_ROWS * VGA_COLS)) 0 s c (s_fg A) (s_bg A) W)
    as (m & R & C & _ & U); [done|done|done|done|done|done|].
  mstep R. change (Z.of_nat (Z.to_nat (VGA_ROWS * VGA_COLS))) with 2000 in C.
  set (A1 := Scr (fun _ => entry 32 (s_fg A) (s_bg A)) (s_x A) (s_y A) (s_fg A) (s_bg A)).
  assert (drawn c s (set_kmem m s) A1) as D1.
  { apply drawn_kmem; [done|by split_and!| |done]. intros p Hp. apply C. lia. }
  destruct (mod_context_run (fun k => set_cy 0 (set_cx 0 k)) (set_kmem m s) c A1 (blank A))
    as (s1 & R1 & D2); [apply D1|apply D1|done|done|by split_and!|].
  mstep R1. apply (display_run c s s1); [by eapply drawn_trans|]. unfold on_screen. cbn. lia.
Qed.

End status.
End bus.
End Draw.
Import Draw.

(** ** The eight screens *)
Module Contexts.

Section contexts.
Context {fs : FsDrivers} {CF : ConsoleFiles fs} (F : frame) (V : list Z).
Context (FO : frame_ok F) (FA : contexts_apart F).

(** The entry at place [p] of the context [i]: on the screen for the current
    one, in its buffer for the others. *)
Definition place (s : ker) (i : nat) (p : Z) : Z :=
  if decide (i = current_context (o_vt s)) then cell (kmem s) p
  else load16 (kmem s) (buffer_of F i + 2 * p).

Record screens (s : ker) (As : list screen) : Prop := Screens {
  sc_length : length As = 8%nat;
  sc_on : Forall on_screen As;
  sc_ctx i A : As !! i = Some A -> ctx_shows (nth i (contexts (o_vt s)) ctx0) A;
  sc_cells i A p : As !! i = Some A -> 0 <= p < 1920 -> place s i p = s_cell A p
}.

Lemma screens_shows s As A :
  screens s As -> As !! current_context (o_vt s) = Some A -> shows s A /\ on_screen A.
Proof.
  intros [_ Ho Hc Hp] HA. split; [split|].
  - by apply Hc.
  - intros p Hpp. rewrite <- (Hp _ A p HA Hpp). unfold place. by rewrite decide_True.
  - rewrite Forall_forall in Ho. apply Ho. by eapply list_elem_of_lookup_2.
Qed.

Lemma buffer_in i p : (i < 8)%nat -> 0 <= p < 2000 ->
  f_contexts F <= buffer_of F i + 2 * p /\ buffer_of F i + 2 * p + 1 < f_contexts F + 8 * 4016.
Proof. intros Hi Hp. unfold buffer_of, sizeof_vtcontext. lia. Qed.

Lemma buffer_off i : (i < 8)%nat -> off_screen (buffer_of F i) (2 * 2000).
Proof.
  intros Hi. unfold off_screen.
  destruct (Z.le_gt_cases (buffer_of F i + 4000) 0xB8000); [by left|right].
  destruct (Z.le_gt_cases (0xB8000 + 4000) (buffer_of F i)); [done|exfalso].
  apply (FA (Z.max (buffer_of F i) 0xB8000)); [|left; lia].
  unfold buffer_of, sizeof_vtcontext in *. lia.
Qed.

(** A buffer's entries survive whatever leaves its bytes alone. *)
Lemma buffer_agree (P : Z -> Prop) m m' i p :
  agree P m m' -> (i < 8)%nat -> 0 <= p < 2000 ->
  (forall a, buffer_of F i <= a < buffer_of F i + 4000 -> P a) ->
  load16 m' (buffer_of F i + 2 * p) = load16 m (buffer_of F i + 2 * p).
Proof. intros H Hi Hp HP. symmetry. apply (load16_agree P); [done|apply HP; lia|apply HP; lia]. Qed.

Lemma untouched_buffer m m' i p :
  untouched F m m' -> (i < 8)%nat -> 0 <= p < 2000 ->
  load16 m' (buffer_of F i + 2 * p) = load16 m (buffer_of F i + 2 * p).
Proof.
  intros H Hi Hp. apply (buffer_agree _ _ _ _ _ H Hi Hp). intros a Ha. apply FA.
  unfold buffer_of, sizeof_vtcontext in Ha. lia.
Qed.

(** Drawing on the current context leaves the others alone. *)
Lemma screens_drawn c s s' As A :
  screens s As -> (current_context (o_vt s) < 8)%nat -> drawn F c s s' A -> on_screen A ->
  screens s' (<[current_context (o_vt s) := A]> As).
Proof.
  intros [Hl Ho Hc Hp] Hcur [W K E Hother _ S U] Hon. split.
  - by rewrite length_insert.
  - by apply Forall_insert.
  - intros i B [(<- & <- & _)|[Hne HB]]%list_lookup_insert_Some.
    + rewrite <- E. apply (sh_ctx _ _ S).
    + rewrite !nth_lookup, Hother by done. rewrite <- nth_lookup. by apply Hc.
  - intros i B p [(<- & <- & _)|[Hne HB]]%list_lookup_insert_Some Hpp; unfold place; rewrite E.
    + rewrite decide_True by done. by apply (sh_cells _ _ S).
    + rewrite decide_False by done. rewrite (untouched_buffer _ _ i p U); [| |lia].
      * rewrite <- (Hp i B p HB Hpp). unfold place. by rewrite decide_False by done.
      * apply lookup_lt_Some in HB. lia.
Qed.

(** What the place a context is kept at looks like after a switch. *)
Definition set_current (to : nat) (v : vtstate) : vtstate :=
  VtState (con_fb v) (con_kbd v) (vt_clock v) (contexts v) to.

Lemma wired_switch s c to : wired s c -> (to < 8)%nat -> wired (set_vt (set_current to (o_vt s)) s) c.
Proof. intros W Hto. apply (wired_kept s); [done|done|apply W|done]. Qed.

(** Saving the screen in one buffer and showing another. *)
Definition swap (to : nat) : M ker Z :=
  con ← fb;
  current ← gets (fun s => current_context (o_vt s));
  _ ← Ops.fs_read con 0 (buffer_of F current) 4000;
  _ ← mod_vt (set_current to);
  con' ← fb;
  Ops.fs_write con' 0 (buffer_of F to) 4000.

Lemma switchcontext_swap to s :
  (to < 8)%nat ->
  switchcontext F V to s = (_ ← swap to; drawstatus F V;; syncfbcursor F) s.
Proof.
  intros Hto. unfold switchcontext. rewrite (proj2 (Nat.ltb_lt _ _)) by done. cbn [negb].
  unfold swap, mod_vt, set_current. unfold mbind, M_bind, fb, gets, modify.
  destruct (Ops.fs_read _ _ _ _ s) as [[? ?]|]; [|done].
  by destruct (Ops.fs_write _ _ _ _ _) as [[? ?]|].
Qed.

Lemma swap_run s c to :
  wired s c -> (to < 8)%nat ->
  exists m, swap to s
    = Ok (4000, set_kmem m (set_vt (set_current to (o_vt s)) s)) /\
    (forall i p, (i < 8)%nat -> 0 <= p < 2000 ->
      (if decide (i = to) then cell m p else load16 m (buffer_of F i + 2 * p)) = place s i p) /\
    agree (fun a => ~ scratch F a /\ ~ in_contexts F a) (kmem s) m.
Proof.
  intros W Hto. pose proof (w_current _ _ W) as Hcur. set (cur := current_context (o_vt s)) in *.
  unfold swap, fb. rewrite !gets_bind.
  change 0 with (2 * 0). change 4000 with (2 * 2000).
  destruct (read_cells s (con_fb (o_vt s)) 0 2000 (buffer_of F cur)) as (m1 & R1 & C1 & U1);
    [apply W|lia|lia|lia|by apply buffer_off|].
  mstep R1. unfold mod_vt. rewrite modify_bind, gets_bind.
  set (s2 := set_vt _ _). assert (kmem s2 = m1) as Hm2 by done.
  assert (wired s2 c) as W2 by (apply (wired_switch (set_kmem m1 s)); [by apply wired_kmem|done]).
  destruct (write_cells s2 (con_fb (o_vt s2)) 0 2000 (buffer_of F to)) as (m & R2 & C2 & U2);
    [apply W2|lia|lia|lia|by apply buffer_off|].
  rewrite Hm2 in *.
  exists m. split_and!; [exact R2| |].
  2:{ apply (agree_trans _ _ m1); (eapply agree_weaken; [|eassumption]); intros a [Hs Hc].
      - intros Ha. apply Hc. unfold in_contexts, buffer_of, sizeof_vtcontext in *. lia.
      - intros Ha. apply Hs. unfold scratch. lia. }
  assert (forall i p, (i < 8)%nat -> 0 <= p < 2000 ->
    load16 m1 (buffer_of F i + 2 * p) = place s i p) as Hsaved.
  { intros i p Hi Hp. unfold place. fold cur. case_decide as E; [subst i; by apply C1|].
    apply (buffer_agree _ _ _ _ _ U1 Hi Hp). intros a Ha.
    unfold buffer_of, sizeof_vtcontext in *. lia. }
  intros i p Hi Hp. rewrite <- Hsaved by done. case_decide as E.
  - subst i. rewrite C2, decide_True by lia. f_equal. lia.
  - apply (buffer_agree _ _ _ _ _ U2 Hi Hp). intros a Ha Hin.
    apply (FA a); [|by left]. unfold buffer_of, sizeof_vtcontext in Ha. lia.
Qed.

Lemma switchcontext_run s c to As A :
  wired s c -> screens s As -> As !! to = Some A ->
  exists s', switchcontext F V to s = Ok (tt, s') /\ wired s' c /\ screens s' As /\
    current_context (o_vt s') = to /\
    Vgafb.Facts.cursor (k_io (i_k (o_dst s'))) = 80 * s_y A + s_x A /\
    kept s s' /\ contexts (o_vt s') = contexts (o_vt s) /\
    agree (fun a => ~ scratch F a /\ ~ in_contexts F a) (kmem s) (kmem s').
Proof.
  intros W HS HA. pose proof (sc_length _ _ HS) as HL.
  assert (to < 8)%nat as Hto by (apply lookup_lt_Some in HA; lia).
  destruct (swap_run s c to W Hto) as (m & R & C & U).
  set (s1 := set_kmem m (set_vt (set_current to (o_vt s)) s)) in *.
  assert (wired s1 c) as W1 by (apply wired_kmem; by apply wired_switch).
  destruct (refresh_run F V FO s1 c W1) as (s' & R' & [V' K' C' T' X' U']).
  assert (screens s' As) as HS'.
  { split; [done|apply HS|..].
    - intros i B HB. rewrite V'. apply (sc_ctx _ _ HS i B HB).
    - intros i B p HB Hp. assert (i < 8)%nat as Hi by (apply lookup_lt_Some in HB; lia).
      rewrite <- (sc_cells _ _ HS i B p HB Hp), <- C by lia. unfold place. rewrite V'.
      change (current_context (o_vt s1)) with to. case_decide; [by rewrite C'|].
      apply (untouched_buffer (kmem s1)); [exact U'|done|lia]. }
  exists s'. split_and!; [|apply (wired_kept s1); [exact W1|exact K'|rewrite V'; apply W1|rewrite V'; apply W1]
    |exact HS'|by rewrite V'| |by apply (wired_kept_trans s s1 s')|by rewrite V'|].
  - rewrite switchcontext_swap by done. mstep R. exact R'.
  - rewrite X'. change (o_vt s1) with (set_current to (o_vt s)).
    destruct (sc_ctx _ _ HS to A HA) as (Ex & Ey & _).
    change (ctx_of (set_current to (o_vt s))) with (nth to (contexts (o_vt s)) ctx0).
    rewrite Ex, Ey. pose proof (sc_on _ _ HS) as Ho. rewrite Forall_forall in Ho.
    destruct (Ho A) as (Hx & Hy & _); [by eapply list_elem_of_lookup_2|].
    rewrite u16_small by lia. lia.
  - apply (agree_trans _ _ (kmem s1)); [done|]. eapply agree_weaken; [|exact U']. by intros a [Ha _].
Qed.

(** The screens are the contexts, the current one, the screen's bytes and the
    buffers. *)
Lemma screens_agree s s' As :
  screens s As -> current_context (o_vt s') = current_context (o_vt s) ->
  (forall i, (i < 8)%nat -> forall A, ctx_shows (nth i (contexts (o_vt s)) ctx0) A ->
     ctx_shows (nth i (contexts (o_vt s')) ctx0) A) ->
  agree (fun a => 0xB8000 <= a < 0xB8000 + 4000 \/ in_contexts F a) (kmem s) (kmem s') ->
  screens s' As.
Proof.
  intros [Hl Ho Hc Hp] E Hk Ha. split; [done|done|..].
  - intros i A HA. apply Hk; [apply lookup_lt_Some in HA; lia|by apply Hc].
  - intros i A p HA Hpp. rewrite <- (Hp i A p HA Hpp). unfold place. rewrite E. case_decide.
    + apply (cell_agree _ _ _ _ Ha); left; lia.
    + apply (buffer_agree _ _ _ _ _ Ha); [apply lookup_lt_Some in HA; lia|lia|].
      intros a Hin. right. apply lookup_lt_Some in HA.
      unfold in_contexts, buffer_of, sizeof_vtcontext in *. lia.
Qed.

End contexts.
End Contexts.
Import Contexts.

(** ** A sample: an open console *)
Module Start.
Import KernMain.Impl KernMain.Sample.

(** An open console: the framebuffer's file is 272, the clock's 270, the
    keyboard's 268; the memory holds "Hi" at 0x5000. *)
Definition dev_file (d : dev_name) (name : list Z) : obj :=
  ONode (Node name (Devfs.Impl.class_flags d) devfs_rootdir 263 (Devfs.Impl.dev_ptr d)).
Definition opened : ker :=
  Ker (Idt (KSt (store_bytes ∅ 0x5000 (chars_of "Hi")) 0 0 [] (fun _ _ => 0)) (IdtTable 0 0) []
         [] None (Drivers 0 0 (RtClock 0 0 0 0 0 0 0) 0 0))
    (<[263 := OVolume (Volume (Some (chars_of "DEV")) (fsys_ptr devfs_fs) devfs_rootdir 0)]>
      (<[268 := dev_file keyboard_device (chars_of "kbd")]>
        (<[270 := dev_file clock_device (chars_of "clock")]>
          (<[272 := dev_file vgafb_device (chars_of "fb")]> static_objs))))
    288 0 (fun _ => true) (fun _ => []) (fun _ => 0) 0 0 0 0
    (VtState 272 268 270 (replicate 8 (VtContext 3 1 7 0 0)) 0).

(** The sample machine's clock chip answers 0. *)
Definition midnight : rtclock := RtClock 0 0 0 0 0 0 0.

(** The screens a state's contexts show. *)
Definition screen_of (s : ker) (i : nat) : Screen.screen :=
  let k := nth i (contexts (o_vt s)) ctx0 in
  Scr (place sample_frame s i) (cx k) (cy k) (fg k) (bg k).
Definition screens_of (s : ker) : list Screen.screen := screen_of s <$> seq 0 8.

#[export] Instance on_screen_dec A : Decision (on_screen A).
Proof. unfold on_screen. apply _. Defined.

Lemma screens_of_ok s : Forall on_screen (screens_of s) -> screens sample_frame s (screens_of s).
Proof.
  intros H. split; [done|done|..].
  - intros i A HA. apply list_lookup_fmap_Some in HA as (j & -> & Hj).
    apply lookup_seq in Hj as [-> _]. by split_and!.
  - intros i A p HA Hp. apply list_lookup_fmap_Some in HA as (j & -> & Hj).
    by apply lookup_seq in Hj as [-> _].
Qed.

Lemma sample_frame_ok : frame_ok sample_frame.
Proof. split; unfold off_screen; cbn; lia. Qed.
Lemma sample_contexts_apart : contexts_apart sample_frame.
Proof. intros a Ha Hs. unfold scratch in Hs. cbn in *. lia. Qed.

Definition sample_fs : FsDrivers := kernel_filesystems sample_config.
#[export] Instance sample_files : ConsoleFiles sample_fs :=
  kernel_console_files sample_config _ 199 eq_refl.

Ltac by_evaluation := vm_compute; (reflexivity || discriminate).

Lemma opened_wired : wired opened midnight.
Proof.
  split.
  - exists (Node (chars_of "fb") VN_FBLOCKDEV devfs_rootdir 263 16),
      (Volume (Some (chars_of "DEV")) 4 devfs_rootdir 0). repeat split; by_evaluation.
  - exists (Node (chars_of "clock") VN_FCHARDEV devfs_rootdir 263 14),
      (Volume (Some (chars_of "DEV")) 4 devfs_rootdir 0). repeat split; by_evaluation.
  - exists (fun _ => 0). repeat split.
  - repeat split; by_evaluation.
  - reflexivity.
  - apply Nat.ltb_lt. reflexivity.
Qed.

Lemma opened_screens : screens sample_frame opened (screens_of opened).
Proof. apply screens_of_ok. decided. Qed.

(** Of an outcome, whether it is [n]. *)
Lemma ran {A} (r : res (A * ker)) a (P : ker -> Prop) :
  (exists s, r = Ok (a, s) /\ P s) -> outcome r = Some a.
Proof. by intros (s & -> & _). Qed.

End Start.
Import Start.

(** ** Properties *)

(** C8: The console refines the eight abstract screens: what is written to it
    is typed on the current screen, a character at a time (line feeds,
    carriage returns, tab stops, backspaces, wrapping and scrolling included),
    the other screens stay as they are, the status bar is drawn below and the
    hardware cursor follows. *)
Theorem vtcon_write_types {fs : FsDrivers} {CF : ConsoleFiles fs} F V s c As A buf len
    (FO : frame_ok F) (FA : contexts_apart F) (W : wired s c) (HS : screens F s As)
    (HA : As !! current_context (o_vt s) = Some A) (Hlen : 0 < len)
    (Hbuf : forall i, 0 <= i < len -> ~ scratch F (buf + i)) :
  let A' := foldl type_char A (load_bytes (kmem s) buf (Z.to_nat len)) in
  exists s', vtcon_write F V buf len s = Ok (len, s') /\ displayed F V c s s' A' /\
    screens F s' (<[current_context (o_vt s) := A']> As).
Proof.
  intros A'. destruct (screens_shows F s As A HS HA) as [HsA Hon].
  destruct (vtcon_write_loop_run F V FO (Z.to_nat (len - 1)) buf s c A W HsA Hon)
    as (s' & R & D & Hon'); [intros i Hi; apply Hbuf; lia|].
  replace (S (Z.to_nat (len - 1))) with (Z.to_nat len) in * by lia.
  exists s'. split_and!; [|exact D|].
  - unfold vtcon_write. by mstep R.
  - eapply screens_drawn; [done|done|apply W|apply D|done].
Qed.

Lemma vtcon_write_types_witness :
  outcome (vtcon_write (H := sample_fs)
    KernMain.Sample.sample_frame (chars_of "NativeOS") 0x5000 2 opened) = Some 2.
Proof.
  eapply ran. apply (vtcon_write_types KernMain.Sample.sample_frame (chars_of "NativeOS") opened
    midnight (screens_of opened) (screen_of opened 0) 0x5000 2 sample_frame_ok
    sample_contexts_apart opened_wired opened_screens).
  - reflexivity.
  - reflexivity.
  - intros i Hi Hs. unfold scratch in Hs. cbn in Hs. lia.
Defined.

(** C35: Selecting a context keeps all eight screens: the one that was shown is
    saved, the selected one appears with its own cursor, and so switching away
    and back gives the same screen. *)
Theorem switchcontext_keeps_screens {fs : FsDrivers} {CF : ConsoleFiles fs} F V s c As A to
    (FO : frame_ok F) (FA : contexts_apart F) (W : wired s c) (HS : screens F s As)
    (HA : As !! to = Some A) :
  exists s', switchcontext F V to s = Ok (tt, s') /\ wired s' c /\ screens F s' As /\
    current_context (o_vt s') = to /\ shows s' A /\
    Vgafb.Facts.cursor (k_io (i_k (o_dst s'))) = 80 * s_y A + s_x A.
Proof.
  destruct (switchcontext_run F V FO FA s c to As A W HS HA) as (s' & R & W' & HS' & E & X & _).
  exists s'. split_and!; try done. rewrite <- E in HA. apply (screens_shows F s' As A HS' HA).
Qed.

Lemma switchcontext_keeps_screens_witness :
  outcome (switchcontext (H := sample_fs)
    KernMain.Sample.sample_frame (chars_of "NativeOS") 5 opened) = Some tt.
Proof.
  eapply ran. apply (switchcontext_keeps_screens KernMain.Sample.sample_frame
    (chars_of "NativeOS") opened midnight (screens_of opened) (screen_of opened 5) 5 sample_frame_ok
    sample_contexts_apart opened_wired opened_screens). reflexivity.
Defined.

(** The console's only ioctl clears the screen: every place becomes a blank
    of the context's colours, the cursor goes to the corner, and the status bar
    is drawn again; other requests are refused. *)
Theorem vtcon_ioctl_clears {fs : FsDrivers} {CF : ConsoleFiles fs} F V s c A op argp
    (FO : frame_ok F) (W : wired s c) (HA : shows s A) (Hon : on_screen A) :
  if op =? 0 then exists s', vtcon_ioctl F V op argp s = Ok (0, s') /\ displayed F V c s s' (blank A)
  else vtcon_ioctl F V op argp s = Ok (-1, s).
Proof.
  unfold vtcon_ioctl. rewrite if_app. destruct (op =? 0); [|done].
  destruct (clearscreen_run F V FO s c A W HA Hon) as (s' & R & D).
  exists s'. by mstep R.
Qed.

Lemma vtcon_ioctl_clears_witness :
  outcome (vtcon_ioctl (H := sample_fs)
    KernMain.Sample.sample_frame (chars_of "NativeOS") 0 0 opened) = Some 0.
Proof.
  destruct (screens_shows KernMain.Sample.sample_frame opened (screens_of opened)
    (screen_of opened 0) opened_screens) as [Hs Ho]; [reflexivity|].
  eapply ran. exact (vtcon_ioctl_clears KernMain.Sample.sample_frame
    (chars_of "NativeOS") opened midnight (screen_of opened 0) 0 0 sample_frame_ok opened_wired
    Hs Ho).
Defined.
