(* ===== verification/VtconType.v ===== *)
(** * The console's statics keep their types

    [Module Quiet]: the file systems and the drivers below the console leave
    the console's statics alone.  [Module Typed]: with such files, every
    function of the console keeps each of the eight contexts within its bounds
    (cursor on the screen, four-bit colours, known keyboard bits); a history of
    calls is a path of the step relation [console_step]. *)
From S2P Require Import Prelude Mem Alloc Idt Device Objects Vfs Devfs Tarfs Scancodes Vtcon KernMain.
From S2P Require CString Vgafb.
From stdpp Require Import strings relations.
Local Open Scope Z_scope.
Import Vtcon.Impl.

(** ** Commands that leave the console's statics alone *)
Module Quiet.

Create HintDb quiet discriminated.

Definition quiet {A} (m : M ker A) : Prop :=
  forall s a s', m s = Ok (a, s') -> o_vt s' = o_vt s.

Section rules.
Context {A B : Type}.

Lemma quiet_ret (a : A) : quiet (mret a).
Proof. by intros s b s' [= _ <-]. Qed.
Lemma quiet_fail e : quiet (fail (A := A) e).
Proof. done. Qed.
Lemma quiet_gets (f : ker -> A) : quiet (gets f).
Proof. by intros s b s' [= _ <-]. Qed.
Lemma quiet_bind (m : M ker A) (f : A -> M ker B) :
  quiet m -> (forall a, quiet (f a)) -> quiet (m ≫= f).
Proof.
  intros Hm Hf s b s' (a & s1 & H1 & H2)%bind_Ok_inv.
  rewrite (Hf a s1 b s' H2). by apply (Hm s a).
Qed.
Lemma quiet_if (b : bool) (m n : M ker A) : quiet m -> quiet n -> quiet (if b then m else n).
Proof. by destruct b. Qed.
Lemma quiet_low (m : M dst A) : quiet (low m).
Proof.
  intros s a s'. unfold low, zoom. destruct (m (o_dst s)) as [[x d]|]; [|done].
  by intros [= _ <-].
Qed.

End rules.

Lemma quiet_deref {A} (kind : obj -> option A) p : quiet (deref kind p).
Proof.
  intros s a s'. unfold deref. destruct (p =? 0); [done|].
  destruct (view kind (o_objs s) p); [|done]. by intros [= _ <-].
Qed.
Lemma quiet_put p o : quiet (put p o).
Proof. by intros s a s' [= _ <-]. Qed.
Lemma quiet_new o : quiet (new o).
Proof. intros s a s'. unfold new. by destruct (o_grants _ _); intros [= _ <-]. Qed.
Lemma quiet_dup str : quiet (dup str).
Proof. intros s a s'. unfold dup. by destruct (o_grants _ _); intros [= _ <-]. Qed.
Lemma quiet_list_append l x : quiet (Lists.list_append l x).
Proof.
  apply quiet_bind; [apply quiet_deref|]. intros xs s a s'. unfold Lists.append_node.
  by destruct (o_grants _ _); intros [= _ <-].
Qed.
Lemma quiet_ldb a : quiet (ldb a).
Proof. apply quiet_low. Qed.
Lemma quiet_stb a v : quiet (stb a v).
Proof. apply quiet_low. Qed.
Lemma quiet_when b (m : M ker unit) : quiet m -> quiet (mwhen b m).
Proof. destruct b; [done|]. intros _. apply quiet_ret. Qed.

#[export] Hint Resolve quiet_ret quiet_fail quiet_gets quiet_bind quiet_if quiet_low quiet_deref
  quiet_put quiet_new quiet_dup quiet_list_append quiet_ldb quiet_stb quiet_when : quiet.

(** [quietly] decomposes a program down to its commands. *)
Ltac quietly :=
  repeat match goal with
    | |- forall _, _ => intros ?
    | |- quiet (match ?x with _ => _ end) => destruct x
    | |- quiet (let '_ := ?x in _) => destruct x
    | |- quiet _ => first [solve [auto 2 with quiet] | apply quiet_bind]
    end.

(** The hooks of a file system driver. *)
Record quiet_ops (o : vfs_ops) : Prop := QuietOps {
  q_open f : vfs_open o = Some f -> forall n fl, quiet (f n fl);
  q_read f : vfs_read o = Some f -> forall n a b l, quiet (f n a b l);
  q_write f : vfs_write o = Some f -> forall n a b l, quiet (f n a b l);
  q_ioctl f : vfs_ioctl o = Some f -> forall n q a, quiet (f n q a);
  q_close f : vfs_close o = Some f -> forall n, quiet (f n);
  q_readdir f : vfs_readdir o = Some f -> forall n i, quiet (f n i);
  q_finddir f : vfs_finddir o = Some f -> forall n name, quiet (f n name)
}.

(** What the console's files promise: no file operation changes the console's
    statics. *)
Class QuietFiles (fs : FsDrivers) : Prop :=
  quiet_files : forall f, quiet_ops (fsd_ops (fs f)).

Section files.
Context {fs : FsDrivers} {Q : QuietFiles fs}.

Lemma quiet_dispatch {A B} (hook : vfs_ops -> option B) applies (call : B -> M ker A) other node :
  (forall f h, hook (fsd_ops (fs f)) = Some h -> quiet (call h)) ->
  quiet (Ops.dispatch hook applies call other node).
Proof.
  intros H s a s'. unfold Ops.dispatch.
  intros (ops & s1 & H1 & H2)%bind_Ok_inv.
  assert (quiet (Ops.NODE_OPS node)) as HN by (unfold Ops.NODE_OPS; quietly).
  rewrite <- (HN _ _ _ H1).
  assert (match ops with Some o => exists f, o = fsd_ops (fs f) | None => True end) as Ho.
  { revert H1. unfold Ops.NODE_OPS. destruct (node =? 0); [by intros [= <- _]|].
    intros (n & s2 & _ & H1)%bind_Ok_inv. destruct (vn_volume n =? 0); [by injection H1 as <- _|].
    apply bind_Ok_inv in H1 as (v & s3 & _ & H1).
    destruct (vv_family v =? 0); [by injection H1 as <- _|].
    apply bind_Ok_inv in H1 as (f & s4 & _ & H1). injection H1 as <- _. by exists f. }
  revert H2. destruct (ops ≫= hook) as [h|] eqn:E; [|by intros [= _ <-]].
  apply bind_Some in E as (o & -> & E). destruct Ho as [f ->].
  assert (quiet (n ← deref as_node node;
    (if applies (vn_flags n) then call h else mret other))) as HQ.
  { apply quiet_bind; [apply quiet_deref|]. intros n. apply quiet_if; [|apply quiet_ret].
    by apply (H f). }
  apply HQ.
Qed.

Lemma quiet_fs_open n fl : quiet (Ops.fs_open n fl).
Proof. apply quiet_dispatch. intros f h E. by apply (q_open _ (quiet_files f)). Qed.
Lemma quiet_fs_close n : quiet (Ops.fs_close n).
Proof. apply quiet_dispatch. intros f h E. by apply (q_close _ (quiet_files f)). Qed.
Lemma quiet_fs_read n a b l : quiet (Ops.fs_read n a b l).
Proof. apply quiet_dispatch. intros f h E. by apply (q_read _ (quiet_files f)). Qed.
Lemma quiet_fs_write n a b l : quiet (Ops.fs_write n a b l).
Proof. apply quiet_dispatch. intros f h E. by apply (q_write _ (quiet_files f)). Qed.
Lemma quiet_fs_ioctl n q a : quiet (Ops.fs_ioctl n q a).
Proof. apply quiet_dispatch. intros f h E. by apply (q_ioctl _ (quiet_files f)). Qed.
Lemma quiet_fs_finddir n name : quiet (Ops.fs_finddir n name).
Proof. apply quiet_dispatch. intros f h E. by apply (q_finddir _ (quiet_files f)). Qed.

End files.

#[export] Hint Resolve quiet_fs_open quiet_fs_close quiet_fs_read quiet_fs_write quiet_fs_ioctl
  quiet_fs_finddir : quiet.

(** Resolving a path, and installing a device. *)
Lemma quiet_find_mountpoint vols name : quiet (Mounts.find_mountpoint vols name).
Proof.
  induction vols as [|p vols IH]; cbn [Mounts.find_mountpoint]; quietly.
  unfold Mounts.str. quietly.
Qed.
#[local] Hint Resolve quiet_find_mountpoint : quiet.
Lemma quiet_get_volume name : quiet (Mounts.vfs_get_volume name).
Proof.
  unfold Mounts.vfs_get_volume, Mounts.find_mountpoint_by_name. quietly.
Qed.
Lemma quiet_find_device nodes name : quiet (Devfs.Impl.find_device nodes name).
Proof. induction nodes; cbn [Devfs.Impl.find_device]; quietly. Qed.
#[local] Hint Resolve quiet_get_volume quiet_find_device : quiet.
Lemma quiet_devfs_finddir n name : quiet (Devfs.Impl.devfs_finddir n name).
Proof. unfold Devfs.Impl.devfs_finddir. quietly. Qed.
#[local] Hint Resolve quiet_devfs_finddir : quiet.
Lemma quiet_device_install d name : quiet (Devfs.Impl.device_install d name).
Proof.
  unfold Devfs.Impl.device_install, Devfs.Impl.copy_64. quietly.
Qed.

Lemma quiet_fs_resolve {fs : FsDrivers} {Q : QuietFiles fs} path : quiet (Path.fs_resolve path).
Proof.
  assert (forall fuel root p, quiet (Path.fs_follow_path fuel root p)) as Hf.
  { induction fuel as [|fuel IH]; intros root p; cbn [Path.fs_follow_path]; quietly. }
  unfold Path.fs_resolve. quietly.
Qed.
#[export] Hint Resolve quiet_fs_resolve quiet_device_install : quiet.

(** *** The kernel's file systems *)

Lemma quiet_rootfs : quiet_ops Mounts.rootfs_ops.
Proof.
  assert (forall nodes name, quiet (Mounts.find_node nodes name)) as Hf.
  { induction nodes; intros name; cbn [Mounts.find_node]; quietly. }
  split; intros f [= <-]; intros; cbn;
    unfold Mounts.rootfs_open, Mounts.rootfs_read, Mounts.rootfs_close, Mounts.rootfs_readdir,
      Mounts.rootfs_finddir; quietly.
Qed.

Lemma quiet_octal fuel p n : quiet (Tarfs.Impl.octal2int fuel p n).
Proof. revert p n. induction fuel; intros p n; cbn [Tarfs.Impl.octal2int]; quietly. Qed.
#[local] Hint Resolve quiet_octal : quiet.

Lemma quiet_tarfs fuel : quiet_ops (Tarfs.Impl.tarfs_ops fuel).
Proof.
  assert (forall nodes d i, quiet (Tarfs.Impl.readdir_loop nodes d i)) as Hr.
  { induction nodes; intros d i; cbn [Tarfs.Impl.readdir_loop]; quietly. }
  assert (forall nodes d n, quiet (Tarfs.Impl.finddir_loop nodes d n)) as Hd.
  { induction nodes; intros d n; cbn [Tarfs.Impl.finddir_loop]; quietly. }
  assert (forall l a b c d e, quiet (Tarfs.Impl.read_loop l a b c d e)) as Hl.
  { induction l; intros a b c d e; cbn [Tarfs.Impl.read_loop]; quietly. }
  split; intros f [= <-]; intros;
    unfold Tarfs.Impl.tarfs_open, Tarfs.Impl.tarfs_read, Tarfs.Impl.tarfs_close,
      Tarfs.Impl.tarfs_readdir, Tarfs.Impl.tarfs_finddir, Tarfs.Impl.nodes_of; quietly.
Qed.

(** The functions of a device. *)
Record quiet_device (d : Devfs.Impl.device) : Prop := QuietDevice {
  qd_open f : Devfs.Impl.dev_open d = Some f -> forall fl, quiet (f fl);
  qd_rb f : Devfs.Impl.dev_read_blk d = Some f -> forall a b l, quiet (f a b l);
  qd_wb f : Devfs.Impl.dev_write_blk d = Some f -> forall a b l, quiet (f a b l);
  qd_rc f : Devfs.Impl.dev_read_chr d = Some f -> forall b l, quiet (f b l);
  qd_wc f : Devfs.Impl.dev_write_chr d = Some f -> forall b l, quiet (f b l);
  qd_ioctl f : Devfs.Impl.dev_ioctl d = Some f -> forall q a, quiet (f q a);
  qd_close f : Devfs.Impl.dev_close d = Some f -> quiet f
}.

Lemma quiet_devfs {D : Devfs.Impl.Devices} :
  (forall d, quiet_device (Devfs.Impl.device_of d)) -> quiet_ops Devfs.Impl.devfs_ops.
Proof.
  intros HD.
  assert (forall n, quiet (Devfs.Impl.payload_dev n)) as Hp
    by (intros n; unfold Devfs.Impl.payload_dev; quietly).
  split; intros f [= <-]; intros n; intros.
  all: try (unfold Devfs.Impl.devfs_open, Devfs.Impl.devfs_read, Devfs.Impl.devfs_write,
      Devfs.Impl.devfs_ioctl, Devfs.Impl.devfs_close; apply quiet_bind; [apply Hp|]; intros [d|];
    [pose proof (HD d) as []|apply quiet_ret]; cbn [mbind option_bind];
    repeat match goal with |- quiet (match ?x with _ => _ end) => destruct x eqn:? end;
    repeat match goal with
      | H : fmap _ _ = Some _ |- _ => apply fmap_Some in H as (? & ? & ->)
      | H : (if ?b then _ else _) = Some _ |- _ => destruct b; [|done]
      end; eauto with quiet).
  - unfold Devfs.Impl.devfs_readdir. quietly.
  - apply quiet_devfs_finddir.
Qed.

#[export] Instance quiet_kernel `{Allocator} (c : KernMain.Impl.config) :
  QuietFiles (KernMain.Impl.filesystems_with c KernMain.Impl.endless_console).
Proof.
  intros []; cbn; [apply quiet_rootfs| |apply quiet_tarfs].
  apply quiet_devfs. intros []; split; intros f [= <-]; intros; cbn; auto with quiet.
Qed.

End Quiet.
Import Quiet.

(** ** The type of the console's statics *)
Module Typed.

(** A context whose cursor is on the screen, above the status bar. *)
Definition x_ok (x : Z) : Prop := 0 <= x < 80.
Definition y_ok (y : Z) : Prop := 0 <= y < 24.
Definition within (X Y : Z -> Prop) (k : vtcontext) : Prop :=
  X (cx k) /\ Y (cy k) /\ 0 <= fg k < 16 /\ 0 <= bg k < 16 /\ 0 <= kbd_status k < 512.
Definition ctx_ok : vtcontext -> Prop := within x_ok y_ok.

(** Eight contexts, the current one satisfies [R] and the others their type. *)
Definition typed_but (R : vtcontext -> Prop) (v : vtstate) : Prop :=
  length (contexts v) = 8%nat /\
  exists k, contexts v !! current_context v = Some k /\ R k /\
    forall i k', i <> current_context v -> contexts v !! i = Some k' -> ctx_ok k'.
Definition vt_ok : vtstate -> Prop := typed_but ctx_ok.

(** [ht P m Q]: from statics with [P], [m] ends (if it does) with [Q]. *)
Definition ht {A} (P : vtstate -> Prop) (m : M ker A) (Q : vtstate -> Prop) : Prop :=
  forall s a s', P (o_vt s) -> m s = Ok (a, s') -> Q (o_vt s').

Section rules.
Context {A B : Type}.
Implicit Types P Q : vtstate -> Prop.

Lemma ht_quiet P (m : M ker A) : quiet m -> ht P m P.
Proof. intros Hm s a s' HP H. by rewrite (Hm s a s' H). Qed.
Lemma ht_bind P Q R (m : M ker A) (f : A -> M ker B) :
  ht P m Q -> (forall a, ht Q (f a) R) -> ht P (m ≫= f) R.
Proof.
  intros Hm Hf s b s' HP (a & s1 & H1 & H2)%bind_Ok_inv.
  exact (Hf a s1 b s' (Hm s a s1 HP H1) H2).
Qed.
Lemma ht_if P Q (b : bool) (m n : M ker A) : ht P m Q -> ht P n Q -> ht P (if b then m else n) Q.
Proof. by destruct b. Qed.
Lemma ht_weaken P P' Q (m : M ker A) : (forall v, P v -> P' v) -> ht P' m Q -> ht P m Q.
Proof. intros HP Hm s a s' H. apply Hm. by apply HP. Qed.
Lemma ht_post P Q Q' (m : M ker A) : (forall v, Q' v -> Q v) -> ht P m Q' -> ht P m Q.
Proof. intros HQ Hm s a s' H E. eapply HQ, Hm; done. Qed.

(** Reading the current context. *)
Lemma ht_context (R : vtcontext -> Prop) Q (f : vtcontext -> M ker A) :
  (forall k, R k -> ht (typed_but (eq k)) (f k) Q) -> ht (typed_but R) (context ≫= f) Q.
Proof.
  intros Hf s a s' (HL & k & Hk & HR & Ho) H.
  change (f (ctx_of (o_vt s)) s = Ok (a, s')) in H.
  assert (ctx_of (o_vt s) = k) as E by (by apply nth_lookup_Some).
  rewrite E in H. apply (Hf k HR s a s'); [|done]. split; [done|]. by exists k.
Qed.

End rules.

(** The current context is written. *)
Lemma ht_mod_context (R R' : vtcontext -> Prop) f :
  (forall k, R k -> R' (f k)) -> ht (typed_but R) (mod_context f) (typed_but R').
Proof.
  intros Hf s a s' (HL & k & Hk & HR & Ho) [= _ <-]. cbn. split; cbn [contexts current_context].
  - by rewrite length_alter.
  - exists (f k). rewrite list_lookup_alter_eq, Hk. split_and!; [done|by apply Hf|].
    intros i k' Hi. rewrite list_lookup_alter_ne by done. by apply Ho.
Qed.

Lemma typed_but_mono (R R' : vtcontext -> Prop) v :
  (forall k, R k -> R' k) -> typed_but R v -> typed_but R' v.
Proof. intros H (HL & k & Hk & HR & Ho). split; [done|]. exists k. auto. Qed.

(** A context that has been read and satisfies [R]. *)
Lemma ht_read {A} (R : vtcontext -> Prop) k (m : M ker A) Q :
  R k -> ht (typed_but R) m Q -> ht (typed_but (eq k)) m Q.
Proof. intros HR. apply ht_weaken. intros v. apply typed_but_mono. by intros ? <-. Qed.

(** *** Drawing *)

Section draw.
Context {fs : FsDrivers} {QF : QuietFiles fs} (F : frame) (V : list Z).
Implicit Types R : vtcontext -> Prop.

Lemma quiet_stw a v : quiet (stw a v).
Proof. unfold stw. quietly. Qed.
#[local] Hint Resolve quiet_stw : quiet.
Lemma quiet_store_entries a es : quiet (store_entries a es).
Proof. revert a. induction es; intros a'; cbn [store_entries]; quietly. Qed.
Lemma quiet_load_chars a n : quiet (load_chars a n).
Proof. revert a. induction n; intros a; cbn [load_chars]; quietly. Qed.
#[local] Hint Resolve quiet_store_entries quiet_load_chars : quiet.
Lemma quiet_fb : quiet fb.
Proof. apply quiet_gets. Qed.
Lemma quiet_context : quiet context.
Proof. apply quiet_gets. Qed.
#[local] Hint Resolve quiet_fb quiet_context : quiet.
Lemma quiet_drawstatus : quiet (drawstatus F V).
Proof. unfold drawstatus. quietly. Qed.
Lemma quiet_syncfbcursor : quiet (syncfbcursor F).
Proof. unfold syncfbcursor. quietly. Qed.
Lemma quiet_copyrow d s : quiet (copyrow F d s).
Proof. unfold copyrow. quietly. Qed.
#[local] Hint Resolve quiet_drawstatus quiet_syncfbcursor quiet_copyrow : quiet.
Lemma quiet_clearrow_loop n p : quiet (clearrow_loop F n p).
Proof. revert p. induction n; intros p; cbn [clearrow_loop]; quietly. Qed.
#[local] Hint Resolve quiet_clearrow_loop : quiet.
Lemma quiet_clearrow r : quiet (clearrow F r).
Proof. unfold clearrow. quietly. Qed.
Lemma quiet_scroll_rows n r : quiet (scroll_rows F n r).
Proof. revert r. induction n; intros r; cbn [scroll_rows]; quietly. Qed.
Lemma quiet_clear_loop n p : quiet (clear_loop F n p).
Proof. revert p. induction n; intros p; cbn [clear_loop]; quietly. Qed.

Lemma refresh_typed R : ht (typed_but R) (drawstatus F V;; syncfbcursor F) (typed_but R).
Proof. apply ht_quiet. quietly. Qed.

(** [moveline] keeps the row in range, whatever the column is. *)
Lemma moveline_typed X : ht (typed_but (within X y_ok)) (moveline F) (typed_but (within X y_ok)).
Proof.
  unfold moveline. eapply ht_bind.
  { apply (ht_mod_context _ (within X (fun y => 0 <= y <= 24))).
    intros k (H1 & H2 & H3). unfold y_ok in H2. split; [done|]. cbn. rewrite u32_small by lia.
    split; [lia|done]. }
  intros _. apply ht_context. intros k (H1 & H2 & H3). destruct (Z.eqb_spec (cy k) (VGA_ROWS - 1)) as [E|E].
  - eapply ht_bind; [apply ht_quiet, quiet_scroll_rows|]. intros _.
    eapply ht_bind; [apply ht_quiet, quiet_clearrow|]. intros _.
    apply ht_mod_context. intros k' <-. split; [done|]. split; [done|exact H3].
  - intros s a s' HP [= _ <-]. revert HP. apply typed_but_mono. intros k' <-.
    split; [done|]. split; [unfold y_ok, VGA_ROWS in *; cbn in H2; lia|exact H3].
Qed.

Lemma carriage_typed (X : Z -> Prop) x :
  x_ok x -> ht (typed_but (within X y_ok)) (mod_context (set_cx x)) vt_ok.
Proof. intros Hx. apply ht_mod_context. intros k (_ & H). by split. Qed.

Lemma movecursor_typed : ht vt_ok (movecursor F) vt_ok.
Proof.
  unfold movecursor. eapply ht_bind.
  { apply (ht_mod_context _ (within (fun x => 0 <= x <= 80) y_ok)).
    intros k (H1 & H2). unfold x_ok in H1. split; [cbn; rewrite u32_small by lia; lia|done]. }
  intros _. apply ht_context. intros k (H1 & H2). destruct (Z.eqb_spec (cx k) VGA_COLS) as [E|E].
  - apply (ht_read (within (fun _ => True) y_ok)); [by split|].
    eapply ht_bind; [by apply (carriage_typed _ 0)|]. intros _. apply moveline_typed.
  - intros s a s' HP [= _ <-]. revert HP. apply typed_but_mono. intros k' <-.
    split; [unfold x_ok, VGA_COLS in *; lia|done].
Qed.

(** The tab stops: the column may leave the screen in the loop. *)
Lemma tab_loop_typed fuel :
  ht (typed_but (within (fun x => 0 <= x) y_ok)) (tab_loop fuel)
     (typed_but (within (fun x => 0 <= x) y_ok)).
Proof.
  induction fuel as [|fuel IH]; [done|]. cbn [tab_loop]. eapply ht_bind.
  { apply (ht_mod_context _ (within (fun x => 0 <= x) y_ok)).
    intros k (H1 & H2). split; [|done]. cbn. apply u32_range. }
  intros _. apply ht_context. intros k Hk. apply (ht_read (within (fun x => 0 <= x) y_ok)); [done|].
  apply ht_if; [apply ht_quiet; quietly|exact IH].
Qed.

Lemma put_glyph_typed ch : ht vt_ok (put_glyph F ch) vt_ok.
Proof.
  unfold put_glyph. apply ht_context. intros k Hk. apply (ht_read ctx_ok); [done|].
  eapply ht_bind; [apply ht_quiet; quietly|]. intros _.
  eapply ht_bind; [apply ht_quiet; quietly|]. intros con.
  eapply ht_bind; [apply ht_quiet; quietly|]. intros _. apply movecursor_typed.
Qed.

Lemma putchar_typed ch : ht vt_ok (putchar F V ch) vt_ok.
Proof.
  unfold putchar. apply ht_context. intros k (Hx & Hk).
  apply ht_bind with vt_ok; [|intros _; apply refresh_typed].
  assert (ctx_ok k) as Hok by by split.
  apply ht_if; [|apply ht_if; [|apply ht_if; [|apply ht_if]]].
  - unfold mwhen. destruct (Z.ltb_spec 0 (cx k)).
    + apply ht_mod_context. intros k' <-. split; [|done]. cbn. unfold x_ok in *.
      rewrite u32_small by lia. lia.
    + apply (ht_read ctx_ok); [done|]. by apply ht_quiet, quiet_ret.
  - apply (ht_read (within (fun x => 0 <= x) y_ok)); [split; [apply Hx|done]|].
    eapply ht_bind; [apply tab_loop_typed|]. intros _. apply ht_context. intros k' (H1 & H2).
    unfold mwhen. destruct (Z.leb_spec VGA_COLS (cx k')).
    + apply (ht_read (within (fun _ => True) y_ok)); [by split|].
      eapply ht_bind; [by apply (carriage_typed _ 0)|]. intros _. apply moveline_typed.
    + apply (ht_read ctx_ok); [|by apply ht_quiet, quiet_ret]. split; [|done].
      unfold x_ok, VGA_COLS in *. lia.
  - apply (ht_read ctx_ok); [done|]. eapply ht_bind; [apply moveline_typed|]. intros _.
    by apply carriage_typed.
  - apply (ht_read ctx_ok); [done|]. by apply carriage_typed.
  - apply (ht_read ctx_ok); [done|]. apply put_glyph_typed.
Qed.

Lemma putstr_typed str : ht vt_ok (putstr F V str) vt_ok.
Proof.
  induction str as [|ch str IH]; cbn [putstr]; [apply ht_quiet, quiet_ret|].
  eapply ht_bind; [apply putchar_typed|]. intros _. exact IH.
Qed.

Lemma clearscreen_typed : ht vt_ok (clearscreen F V) vt_ok.
Proof.
  unfold clearscreen. eapply ht_bind; [apply ht_quiet, quiet_clear_loop|]. intros _.
  eapply ht_bind; [|intros _; apply refresh_typed].
  apply ht_mod_context. intros k (_ & _ & H). split; [done|]. split; [done|exact H].
Qed.

Lemma switchcontext_typed to : ht vt_ok (switchcontext F V to) vt_ok.
Proof.
  unfold switchcontext. destruct (Nat.ltb_spec to 8); cbn [negb]; [|apply ht_quiet, quiet_ret].
  eapply ht_bind; [apply ht_quiet; quietly|]. intros con.
  eapply ht_bind; [apply ht_quiet; quietly|]. intros cur.
  eapply ht_bind; [apply ht_quiet; quietly|]. intros _.
  apply ht_bind with vt_ok; [|intros _; apply ht_quiet; quietly].
  intros s a s' (HL & k & Hk & HR & Ho) [= _ <-]. split; [done|]. cbn [o_vt set_vt contexts current_context].
  destruct (lookup_lt_is_Some_2 (contexts (o_vt s)) to ltac:(lia)) as [k' Hk'].
  assert (forall i k', contexts (o_vt s) !! i = Some k' -> ctx_ok k') as Hall.
  { intros i k1 H1. destruct (decide (i = current_context (o_vt s))) as [->|]; [congruence|].
    by apply (Ho i). }
  exists k'. split_and!; [done|by apply (Hall to)|]. intros i k1 _. apply Hall.
Qed.

(** *** The keyboard *)

Lemma bits_512 x : 0 <= x < 512 <-> 0 <= x /\ Z.shiftr x 9 = 0.
Proof.
  rewrite Z.shiftr_div_pow2 by lia. change (2 ^ 9) with 512.
  split; intros [H1 H2]; Z.to_euclidean_division_equations; lia.
Qed.
Lemma lor_512 a b : 0 <= a < 512 -> 0 <= b < 512 -> 0 <= Z.lor a b < 512.
Proof.
  rewrite !bits_512. intros [? Ha] [? Hb]. rewrite Z.lor_nonneg, Z.shiftr_lor, Ha, Hb. done.
Qed.
Lemma ldiff_512 a b : 0 <= a < 512 -> 0 <= Z.ldiff a b < 512.
Proof.
  rewrite !bits_512. intros [? Ha]. rewrite Z.ldiff_nonneg, Z.shiftr_ldiff, Ha, Z.ldiff_0_l. tauto.
Qed.
Lemma lxor_512 a b : 0 <= a < 512 -> 0 <= b < 512 -> 0 <= Z.lxor a b < 512.
Proof.
  rewrite !bits_512. intros [? Ha] [? Hb]. rewrite Z.lxor_nonneg, Z.shiftr_lxor, Ha, Hb. tauto.
Qed.

Lemma set_status_ok k n : ctx_ok k -> 0 <= n < 512 -> ctx_ok (set_status n k).
Proof. intros (Hx & Hy & Hf & Hb & _) Hn. exact (conj Hx (conj Hy (conj Hf (conj Hb Hn)))). Qed.

Lemma releasebit_typed bit rel : 0 <= bit < 512 -> ht vt_ok (releasebit bit rel) vt_ok.
Proof.
  intros Hb. apply ht_mod_context. intros k Hk. apply set_status_ok; [done|].
  destruct Hk as (_ & _ & _ & _ & Hs). destruct rel; [by apply ldiff_512|by apply lor_512].
Qed.
Lemma togglekbdbit_typed : ht vt_ok (togglekbdbit KBD_LOCK_CAPS) vt_ok.
Proof.
  apply ht_mod_context. intros k Hk. apply set_status_ok; [done|].
  destruct Hk as (_ & _ & _ & _ & Hs). by apply lxor_512.
Qed.

Lemma quiet_get_single_scancode k : quiet (get_single_scancode k).
Proof. unfold get_single_scancode. quietly. Qed.
Lemma quiet_key_event vk rel : quiet (key_event vk rel).
Proof. unfold key_event. quietly. Qed.

Ltac typed := repeat first
  [ by apply releasebit_typed | apply togglekbdbit_typed
  | by apply ht_quiet, quiet_ret | by apply ht_quiet, quiet_fail
  | by apply ht_quiet, quiet_ldb | by apply ht_quiet, quiet_key_event
  | by apply ht_quiet, quiet_get_single_scancode
  | apply ht_if | eapply ht_bind; [|intros ?] ].

Lemma decode_scancode_typed vk0 kb buf len : ht vt_ok (decode_scancode vk0 kb buf len) vt_ok.
Proof. unfold decode_scancode, mwhen. typed. Qed.

Lemma echo_scancode_typed kb : ht vt_ok (echo_scancode F V kb) vt_ok.
Proof.
  unfold echo_scancode, mwhen. apply ht_if; [apply ht_quiet, quiet_ret|].
  destruct (assoc (kd_vk kb) echo_strings); [apply putstr_typed|].
  destruct (assoc (kd_vk kb) echo_switches); [apply switchcontext_typed|].
  repeat apply ht_if; first [apply putchar_typed | apply clearscreen_typed | apply ht_quiet, quiet_ret].
Qed.

(** *** The device's functions *)

Lemma vtcon_read_typed fuel vk0 buf len : ht vt_ok (vtcon_read F V fuel vk0 buf len) vt_ok.
Proof.
  unfold vtcon_read. eapply ht_bind; [apply ht_quiet, quiet_drawstatus|]. intros _.
  generalize (Kbdev 0 0) as kb. generalize 0 as n. revert len.
  induction fuel as [|fuel IH]; intros len n kb; [done|]. cbn [vtcon_read_loop].
  apply ht_if; [apply ht_quiet, quiet_ret|].
  eapply ht_bind; [apply ht_quiet, quiet_gets|]. intros con.
  eapply ht_bind; [apply ht_quiet; quietly|]. intros l. apply ht_if; [apply ht_quiet, quiet_ret|].
  eapply ht_bind; [apply decode_scancode_typed|]. intros [r ev]. apply ht_if; [|apply IH].
  eapply ht_bind; [apply echo_scancode_typed|]. intros _.
  eapply ht_bind; [apply ht_quiet, quiet_stw|]. intros _.
  eapply ht_bind; [apply ht_quiet, quiet_stw|]. intros _. apply IH.
Qed.

Lemma vtcon_write_typed buf len : ht vt_ok (vtcon_write F V buf len) vt_ok.
Proof.
  unfold vtcon_write. eapply ht_bind; [|intros _; apply ht_quiet, quiet_ret].
  revert buf. induction (Z.to_nat len) as [|n IH]; intros buf; cbn [vtcon_write_loop];
    [apply ht_quiet, quiet_ret|].
  eapply ht_bind; [apply ht_quiet, quiet_ldb|]. intros ch.
  eapply ht_bind; [apply putchar_typed|]. intros _. apply IH.
Qed.

(** The pointers to the files are not part of the type. *)
Lemma mod_vt_typed (f : vtstate -> vtstate) :
  (forall v, contexts (f v) = contexts v /\ current_context (f v) = current_context v) ->
  ht vt_ok (mod_vt f) vt_ok.
Proof.
  intros Hf s a s' HP [= _ <-]. cbn. destruct (Hf (o_vt s)) as [E1 E2].
  unfold vt_ok, typed_but in *. by rewrite E1, E2.
Qed.

Lemma try_open_typed set path fl :
  (forall p v, contexts (set p v) = contexts v /\ current_context (set p v) = current_context v) ->
  ht vt_ok (try_open set path fl) vt_ok.
Proof.
  intros Hs. unfold try_open. eapply ht_bind; [apply ht_quiet, quiet_fs_resolve|]. intros p.
  eapply ht_bind; [apply mod_vt_typed; intros v; apply Hs|]. intros _.
  apply ht_quiet. quietly.
Qed.

Lemma quiet_closes : quiet try_close_kbd /\ quiet try_close_clock /\ quiet try_close_fb.
Proof.
  unfold try_close_kbd, try_close_clock, try_close_fb. split_and!; quietly.
Qed.

Lemma vtcon_open_typed fl : ht vt_ok (vtcon_open F V fl) vt_ok.
Proof.
  destruct quiet_closes as (Q1 & Q2 & Q3).
  unfold vtcon_open. repeat first
    [ by apply ht_quiet, quiet_ret | by apply ht_quiet
    | by apply ht_quiet, quiet_fb | by apply ht_quiet, quiet_drawstatus
    | by apply ht_quiet, quiet_syncfbcursor | by apply try_open_typed
    | apply ht_if | eapply ht_bind; [|intros ?] ].
Qed.

Lemma vtcon_ioctl_typed op argp : ht vt_ok (vtcon_ioctl F V op argp) vt_ok.
Proof.
  unfold vtcon_ioctl. apply ht_if; [|apply ht_quiet, quiet_ret].
  eapply ht_bind; [apply clearscreen_typed|]. intros _. apply ht_quiet, quiet_ret.
Qed.

(** Eight contexts with known keyboard bits, as the statics start. *)
Definition raw_ok (v : vtstate) : Prop :=
  length (contexts v) = 8%nat /\ (current_context v < 8)%nat /\
  Forall (fun k => 0 <= kbd_status k < 512) (contexts v).

(** [resetcontexts] gives them the rest of their type, one after the other. *)
Lemma resetcontexts_typed : ht raw_ok (resetcontexts F) vt_ok.
Proof.
  unfold resetcontexts.
  set (P i v := raw_ok v /\ forall j k, (j < i)%nat -> contexts v !! j = Some k -> ctx_ok k).
  apply (ht_weaken _ (P 0%nat)); [intros v Hv; split; [done|lia]|].
  assert (forall n i, ht (P i) (resetcontexts_from F n i) (P (n + i)%nat)) as H.
  { induction n as [|n IH]; intros i; cbn [resetcontexts_from Nat.add]; [apply ht_quiet, quiet_ret|].
    rewrite plus_n_Sm. apply ht_bind with (P (S i)); [|intros _; apply IH].
    unfold resetcontext. eapply ht_bind; [|intros _; apply ht_quiet, quiet_store_entries].
    intros s a s' [(HL & Hc & HF) Hi] [= _ <-]. cbn. split; [split_and!|]; cbn.
    - by rewrite length_alter.
    - done.
    - apply Forall_alter; [done|]. done.
    - intros j k Hj. destruct (decide (j = i)) as [->|Hne].
      + rewrite list_lookup_alter_eq. intros (k' & Hk' & ->)%fmap_Some.
        rewrite Forall_lookup in HF. split; [done|]. split; [done|]. split; [done|]. split; [done|].
        apply (HF i k' Hk').
      + rewrite list_lookup_alter_ne by done. apply Hi. lia. }
  eapply ht_post; [|apply (H 8%nat 0%nat)]. intros v ((HL & Hc & HF) & Hall).
  split; [done|]. destruct (lookup_lt_is_Some_2 (contexts v) (current_context v)) as [k Hk]; [lia|].
  exists k. split_and!; [done|apply (Hall (current_context v) k); [lia|done]|].
  intros i k' _ Hk'. apply (Hall i); [|done]. apply lookup_lt_Some in Hk'. lia.
Qed.

Lemma vt_ok_raw v : vt_ok v -> raw_ok v.
Proof.
  intros (HL & k & Hk & HR & Ho). split_and!; [done| |].
  - apply lookup_lt_Some in Hk. lia.
  - apply Forall_lookup_2. intros i k' Hk'. destruct (decide (i = current_context v)) as [->|Hi].
    + assert (k' = k) as -> by congruence. apply HR.
    + apply (Ho i k' Hi Hk').
Qed.

Lemma vtcon_close_typed : ht vt_ok (vtcon_close F) vt_ok.
Proof.
  destruct quiet_closes as (Q1 & Q2 & Q3). unfold vtcon_close.
  eapply ht_bind; [by apply ht_quiet|]. intros _. eapply ht_bind; [by apply ht_quiet|]. intros _.
  eapply ht_bind; [by apply ht_quiet|]. intros _.
  eapply ht_bind; [|intros _; apply ht_quiet, quiet_ret].
  eapply ht_weaken; [apply vt_ok_raw|apply resetcontexts_typed].
Qed.

Lemma vtcon_init_typed : ht raw_ok (vtcon_init F) vt_ok.
Proof.
  unfold vtcon_init. eapply ht_bind; [apply resetcontexts_typed|]. intros _.
  apply ht_quiet, quiet_bind; [apply quiet_device_install|]. intros _. apply quiet_ret.
Qed.

End draw.

(** *** Histories of the console *)

Section history.
Context {fs : FsDrivers} (F : frame) (V : list Z) (fuel : nat) (vk0 : Z).

(** A call of a device function that returns, or anything else the kernel
    does that leaves the console's statics alone. *)
Inductive console_step (s s' : ker) : Prop :=
  | step_open fl r : vtcon_open F V fl s = Ok (r, s') -> console_step s s'
  | step_read buf len r : vtcon_read F V fuel vk0 buf len s = Ok (r, s') -> console_step s s'
  | step_write buf len r : vtcon_write F V buf len s = Ok (r, s') -> console_step s s'
  | step_ioctl op argp r : vtcon_ioctl F V op argp s = Ok (r, s') -> console_step s s'
  | step_close r : vtcon_close F s = Ok (r, s') -> console_step s s'
  | step_other : o_vt s' = o_vt s -> console_step s s'.

Lemma step_typed {QF : QuietFiles fs} s s' :
  console_step s s' -> vt_ok (o_vt s) -> vt_ok (o_vt s').
Proof.
  intros [fl r H|buf len r H|buf len r H|op argp r H|r H|E] Hv;
    [by eapply vtcon_open_typed|by eapply vtcon_read_typed|by eapply vtcon_write_typed|
     by eapply vtcon_ioctl_typed|by eapply vtcon_close_typed|by rewrite E].
Qed.

End history.
End Typed.
Import Typed.

(** ** Properties *)

(** C17: Whatever is done with the console after its initialisation, in any
    order, each of its eight contexts stays well-typed: the cursor is on the
    screen and above the status bar, the colours have four bits, and the
    keyboard status has no unknown bit. *)
Theorem console_stays_typed {fs : FsDrivers} {QF : QuietFiles fs} F V fuel vk0 s0 r s1 s
    (Hraw : raw_ok (o_vt s0)) (Hinit : vtcon_init F s0 = Ok (r, s1))
    (Hrun : rtc (console_step F V fuel vk0) s1 s) :
  vt_ok (o_vt s).
Proof.
  assert (vt_ok (o_vt s1)) as H1 by (by eapply vtcon_init_typed).
  clear Hraw Hinit. induction Hrun as [|x y z Hxy _ IH]; [done|].
  apply IH. by eapply step_typed.
Qed.

(** A device manager without devices, and a history: the console is
    initialised, then three bytes are written to it. *)
Definition start_ker : ker :=
  set_devmgr_list 300 (set_obj 300 (OList []) (KernMain.Sample.boot_ker (fun _ => 0))).
#[local] Instance start_files : FsDrivers :=
  KernMain.Impl.filesystems_with (H := KernMain.Sample.sample_heap) KernMain.Sample.sample_config
    KernMain.Impl.endless_console.

Lemma start_raw : raw_ok (o_vt start_ker).
Proof. split; [reflexivity|]. split; [cbn; lia|]. repeat constructor; discriminate. Qed.
Lemma history_ends :
  outcome ((_ ← vtcon_init KernMain.Sample.sample_frame;
    vtcon_write KernMain.Sample.sample_frame (chars_of "NativeOS") 0x9200 3) start_ker) = Some 3.
Proof. vm_compute. reflexivity. Qed.

(** A run of two commands that ends, taken apart. *)
Lemma ran_both {A B} (m : M ker A) (f : M ker B) s b :
  outcome ((_ ← m; f) s) = Some b ->
  exists r s1 n s2, m s = Ok (r, s1) /\ f s1 = Ok (n, s2).
Proof.
  unfold mbind, M_bind. destruct (m s) as [[r s1]|]; [|done].
  destruct (f s1) as [[n s2]|] eqn:E; [|done]. by exists r, s1, n, s2.
Qed.

Lemma console_stays_typed_witness :
  exists r s1 n s, vtcon_init KernMain.Sample.sample_frame start_ker = Ok (r, s1) /\
    vtcon_write KernMain.Sample.sample_frame (chars_of "NativeOS") 0x9200 3 s1 = Ok (n, s) /\
    vt_ok (o_vt s).
Proof.
  destruct (ran_both _ _ _ _ history_ends) as (r & s1 & n & s & E1 & E2).
  exists r, s1, n, s. split; [exact E1|]. split; [exact E2|].
  exact (console_stays_typed KernMain.Sample.sample_frame (chars_of "NativeOS") 0 0 start_ker
    r s1 s start_raw E1 (rtc_once _ _ (step_write _ _ _ _ _ _ 0x9200 3 n E2))).
Defined.
