(* ===== verification/VtconKeys.v ===== *)
(** * Properties of the console's keyboard

    [Module Keymap] relates [decode_scancode] to the scancode it reads: which
    key it is and which modifiers are down depend on the keycodes alone.
    [Module Reader] is the console at a keyboard's ring buffer: what it takes
    from it, and what becomes of codes that are pending together.  Session.v goes
    on from here. *)
From S2P Require Import Prelude Mem Alloc Ringbuf Idt Device Objects Vfs Devfs Scancodes Vtcon KernMain VfsProps DevfsProps VtconProps.
From S2P Require CString Chardev Rtclock Vgafb.
From stdpp Require Import strings.
Local Open Scope Z_scope.
Import Idt.Impl DevfsProps.Route Vtcon.Impl VtconProps.Screen VtconProps.Bus VtconProps.Draw
  VtconProps.Contexts.

(** ** Scancodes of one byte *)
Module Keymap.

(** The keycode and whether the key was released. *)
Definition keycode (b : Z) : Z := Z.land b 0x7F.
Definition released (b : Z) : bool := negb (Z.land b 0x80 =? 0).

(** The virtual key of a keycode while the modifiers are [st]. *)
Definition key_of (st code : Z) : Z :=
  if 0x58 <? code then VK_NUL
  else nth (Z.to_nat (Z.land st KBD_MODS)) (nth (Z.to_nat code) us_scancodes_1 []) 0.

(** The keys that have an effect on the status, by keycode. *)
Definition is_ctrl (b : Z) : bool := keycode b =? 0x1D.
Definition is_shift (b : Z) : bool := (keycode b =? 0x2A) || (keycode b =? 0x36).
Definition is_alt (b : Z) : bool := keycode b =? 0x38.
Definition is_caps (b : Z) : bool := keycode b =? 0x3A.

Definition press (st bit : Z) (rel : bool) : Z := if rel then Z.ldiff st bit else Z.lor st bit.
Definition next_status (st b : Z) : Z :=
  if is_ctrl b then press st KBD_MOD_CTRL (released b)
  else if is_shift b then press st KBD_MOD_SHIFT (released b)
  else if is_alt b then press st KBD_MOD_ALT (released b)
  else if is_caps b then (if released b then st else Z.lxor st KBD_LOCK_CAPS)
  else st.

Definition event (st b : Z) : kbdev :=
  let flags := u16 (next_status st b) in
  Kbdev (key_of st (keycode b)) (if released b then Z.lor flags KBD_CAP_UP else flags).

(** The same for the second byte of an extended scancode: another right-hand
    key for Control and Alt, and the Meta keys; [vk0] is what a key that the
    switch does not know is reported as. *)
Definition is_meta (b : Z) : bool := (keycode b =? 0x5B) || (keycode b =? 0x59).
Definition extended_status (st b : Z) : Z :=
  if is_ctrl b then press st KBD_MOD_CTRL (released b)
  else if is_alt b then press st KBD_MOD_ALT (released b)
  else if is_meta b then press st KBD_MOD_META (released b)
  else st.
Definition extended_event (vk0 st b : Z) : kbdev :=
  let flags := u16 (extended_status st b) in
  Kbdev (default vk0 (extended_key (keycode b)))
    (if released b then Z.lor flags KBD_CAP_UP else flags).

(** What the bytes of one read of the keyboard stand for: the event and the
    status after it. *)
Definition decoded (vk0 st : Z) (q : list Z) : option (kbdev * Z) :=
  match q with
  | [b] => Some (event st b, next_status st b)
  | [b0; b] => if b0 =? 0xE0 then Some (extended_event vk0 st b, extended_status st b) else None
  | _ => None
  end.

(** The table has the modifiers in the same places in every column. *)
Definition table_entry_ok (code : nat) (vk : Z) : bool :=
  let c := Z.of_nat code in
  (0 <=? vk) && (vk <? 256) && Bool.eqb (vk =? VK_LCTL) (c =? 0x1D) &&
  Bool.eqb ((vk =? VK_LSHF) || (vk =? VK_RSHF)) ((c =? 0x2A) || (c =? 0x36)) &&
  Bool.eqb (vk =? VK_LALT) (c =? 0x38) && Bool.eqb (vk =? VK_CAPL) (c =? 0x3A).
Definition table_ok : bool :=
  forallb (fun code =>
    match us_scancodes_1 !! code with
    | Some row => (length row =? 8)%nat && forallb (table_entry_ok code) row
    | None => false
    end) (seq 0 89).

Lemma table_is_ok : table_ok = true.
Proof. vm_compute. reflexivity. Qed.

Lemma table_entry code col :
  (code < 89)%nat -> (col < 8)%nat ->
  exists row, us_scancodes_1 !! code = Some row /\
    row !! col = Some (nth col (nth code us_scancodes_1 []) 0) /\
    table_entry_ok code (nth col (nth code us_scancodes_1 []) 0) = true.
Proof.
  intros Hcode Hcol. pose proof table_is_ok as H. unfold table_ok in H.
  rewrite forallb_forall in H. specialize (H code (proj2 (in_seq 89 0 code) ltac:(lia))).
  destruct (us_scancodes_1 !! code) as [row|] eqn:E; [|done].
  apply andb_prop in H as [Hl Hf]. apply Nat.eqb_eq in Hl. rewrite forallb_forall in Hf.
  destruct (lookup_lt_is_Some_2 row col ltac:(lia)) as [vk Hvk].
  rewrite (nth_lookup_Some _ _ [] row E), (nth_lookup_Some _ _ 0 vk Hvk).
  exists row. split_and!; [done|done|].
  apply Hf. apply list_elem_of_In. by eapply list_elem_of_lookup_2.
Qed.

Lemma keycode_range b : 0 <= keycode b < 128.
Proof.
  unfold keycode. change 0x7F with (Z.ones 7). rewrite Z.land_ones by lia.
  apply Z.mod_pos_bound. lia.
Qed.

Lemma mods_range st : 0 <= Z.land st KBD_MODS < 8.
Proof.
  unfold KBD_MODS, KBD_MOD_SHIFT, KBD_MOD_CTRL, KBD_MOD_ALT. change (Z.lor _ _) with (Z.ones 3).
  rewrite Z.land_ones by lia. apply Z.mod_pos_bound. lia.
Qed.

(** The key's byte, and which modifier it is. *)
Lemma key_of_spec st b :
  let vk := key_of st (keycode b) in
  0 <= vk < 256 /\ (vk =? VK_LCTL) = is_ctrl b /\
  ((vk =? VK_LSHF) || (vk =? VK_RSHF)) = is_shift b /\
  (vk =? VK_LALT) = is_alt b /\ (vk =? VK_CAPL) = is_caps b.
Proof.
  pose proof (keycode_range b) as Hk. pose proof (mods_range st) as Hm.
  unfold key_of, is_ctrl, is_shift, is_alt, is_caps.
  destruct (Z.ltb_spec 0x58 (keycode b)).
  - rewrite !(proj2 (Z.eqb_neq (keycode b) _)) by lia. by split_and!.
  - destruct (table_entry (Z.to_nat (keycode b)) (Z.to_nat (Z.land st KBD_MODS)))
      as (row & _ & _ & Hok); [lia|lia|].
    unfold table_entry_ok in Hok. rewrite Z2Nat.id in Hok by lia.
    rewrite !andb_true_iff, !Bool.eqb_true_iff, Z.leb_le, Z.ltb_lt in Hok.
    tauto.
Qed.

(** *** Decoding *)

Definition with_status (st : Z) (v : vtstate) : vtstate :=
  VtState (con_fb v) (con_kbd v) (vt_clock v)
    (alter (set_status st) (current_context v) (contexts v)) (current_context v).
Definition status (s : ker) : Z := kbd_status (ctx_of (o_vt s)).

Section decode.
Context (s : ker) (Hcur : (current_context (o_vt s) < length (contexts (o_vt s)))%nat).

Lemma current_lookup :
  contexts (o_vt s) !! current_context (o_vt s) = Some (ctx_of (o_vt s)).
Proof.
  destruct (lookup_lt_is_Some_2 _ _ Hcur) as [k Hk]. rewrite Hk. f_equal.
  symmetry. by apply nth_lookup_Some.
Qed.

(** A change of the current context that only sets the status. *)
Lemma mod_context_status f st :
  f (ctx_of (o_vt s)) = set_status st (ctx_of (o_vt s)) ->
  mod_context f s = Ok (tt, set_vt (with_status st (o_vt s)) s).
Proof.
  intros Hf. unfold mod_context, mod_vt, modify, with_status. do 4 f_equal.
  apply list_alter_ext; [|done]. intros k Hk. rewrite current_lookup in Hk. by injection Hk as <-.
Qed.

Lemma with_status_same : set_vt (with_status (status s) (o_vt s)) s = s.
Proof.
  transitivity (set_vt (o_vt s) s); [|by destruct s]. f_equal. unfold with_status.
  rewrite (list_alter_ext (set_status (status s)) id
    (contexts (o_vt s)) (contexts (o_vt s)) (current_context (o_vt s))); [|..].
  - rewrite list_alter_id by done. by destruct (o_vt s).
  - intros k Hk. rewrite current_lookup in Hk. injection Hk as <-. unfold status.
    by destruct (ctx_of (o_vt s)).
  - done.
Qed.

Lemma status_with st : status (set_vt (with_status st (o_vt s)) s) = st.
Proof.
  unfold status, ctx_of. cbn [o_vt set_vt with_status contexts current_context].
  rewrite (nth_lookup_Some _ _ ctx0 (set_status st (ctx_of (o_vt s)))); [done|].
  by rewrite list_lookup_alter_eq, current_lookup.
Qed.

Lemma get_single_scancode_run b :
  get_single_scancode (keycode b) s = Ok (s8 (key_of (status s) (keycode b)), s).
Proof.
  pose proof (keycode_range b). pose proof (mods_range (status s)).
  unfold get_single_scancode, key_of. rewrite if_app.
  destruct (Z.ltb_spec 0x58 (keycode b)); [done|]. mstep (context_run s).
  change (kbd_status (ctx_of (o_vt s))) with (status s).
  destruct (table_entry (Z.to_nat (keycode b)) (Z.to_nat (Z.land (status s) KBD_MODS)))
    as (row & Hrow & Hvk & _); [lia|lia|]. by rewrite Hrow, Hvk.
Qed.

Lemma key_event_run vk rel s1 :
  let flags := u16 (status s1) in
  key_event vk rel s1 = Ok (Kbdev vk (if rel then Z.lor flags KBD_CAP_UP else flags), s1).
Proof. done. Qed.

Lemma releasebit_run bit rel :
  releasebit bit rel s = Ok (tt, set_vt (with_status (press (status s) bit rel) (o_vt s)) s).
Proof. by apply mod_context_status. Qed.

(** A scancode of one byte, whatever it is. *)
Lemma decode_single_run vk0 kb buf :
  let b := load8 (kmem s) buf in
  decode_scancode vk0 kb buf 1 s
  = Ok ((0, event (status s) b), set_vt (with_status (next_status (status s) b) (o_vt s)) s).
Proof.
  intros b. unfold decode_scancode. rewrite if_app. change (1 =? 1) with true. cbn iota.
  mstep (ldb_run buf s). fold b. fold (keycode b). fold (released b).
  mstep (get_single_scancode_run b).
  destruct (key_of_spec (status s) b) as (Hvk & Ec & Es & Ea & El).
  set (vk := key_of (status s) (keycode b)) in *.
  rewrite u8_s8, u8_small, Ec, Es, Ea, El by done.
  match goal with |- (?m ≫= _) s = _ =>
    assert (m s = Ok (tt, set_vt (with_status (next_status (status s) b) (o_vt s)) s)) as R end.
  { rewrite !if_app. unfold next_status.
    destruct (is_ctrl b); [apply releasebit_run|]. destruct (is_shift b); [apply releasebit_run|].
    destruct (is_alt b); [apply releasebit_run|]. destruct (is_caps b).
    - unfold mwhen. destruct (released b); cbn [negb]; [by rewrite with_status_same|].
      by apply mod_context_status.
    - by rewrite with_status_same. }
  mstep R. set (s1 := set_vt _ s). mstep (key_event_run vk (released b) s1).
  subst s1. rewrite status_with. done.
Qed.

(** An extended scancode, 0xE0 and a byte. *)
Lemma decode_extended_run vk0 kb buf :
  let b := load8 (kmem s) (buf + 1) in
  load8 (kmem s) buf = 0xE0 ->
  decode_scancode vk0 kb buf 2 s
  = Ok ((0, extended_event vk0 (status s) b),
        set_vt (with_status (extended_status (status s) b) (o_vt s)) s).
Proof.
  intros b H0. unfold decode_scancode. rewrite !if_app. change (2 =? 1) with false.
  change (2 =? 2) with true. cbn iota. mstep (ldb_run buf s). rewrite H0, if_app.
  change (negb (0xE0 =? 0xE0)) with false. cbn iota. mstep (ldb_run (buf + 1) s).
  fold b. fold (keycode b). fold (released b).
  match goal with |- (?m ≫= _) s = _ =>
    assert (m s = Ok (tt, set_vt (with_status (extended_status (status s) b) (o_vt s)) s)) as R end.
  { rewrite !if_app. unfold extended_status, is_ctrl, is_alt, is_meta.
    destruct (keycode b =? 0x1D); [apply releasebit_run|].
    destruct (keycode b =? 0x38); [apply releasebit_run|].
    destruct (_ || _); [apply releasebit_run|by rewrite with_status_same]. }
  mstep R. set (s1 := set_vt _ s).
  mstep (key_event_run (default vk0 (extended_key (keycode b))) (released b) s1).
  subst s1. rewrite status_with. done.
Qed.

End decode.

(** Of the lengths the keyboard may deliver, those that are no scancode. *)
Lemma decode_other_run vk0 kb buf len s :
  len <> 1 -> (len <> 2 \/ load8 (kmem s) buf <> 0xE0) ->
  decode_scancode vk0 kb buf len s = Ok ((-1, kb), s).
Proof.
  intros H1 H2. unfold decode_scancode. rewrite !if_app, (proj2 (Z.eqb_neq len 1)) by done.
  destruct (Z.eqb_spec len 2); [|done]. destruct H2 as [|H2]; [done|].
  mstep (ldb_run buf s). by rewrite (proj2 (Z.eqb_neq _ _)).
Qed.

(** The bytes [q] of a read, whatever they are. *)
Lemma decode_run vk0 kb buf q s :
  (current_context (o_vt s) < length (contexts (o_vt s)))%nat ->
  load_bytes (kmem s) buf (length q) = q -> q <> [] ->
  decode_scancode vk0 kb buf (Z.of_nat (length q)) s
  = match decoded vk0 (status s) q with
    | Some (ev, st) => Ok ((0, ev), set_vt (with_status st (o_vt s)) s)
    | None => Ok ((-1, kb), s)
    end.
Proof.
  intros Hcur L Hq. destruct q as [|b0 [|b [|b2 q]]]; [done|..]; cbn [length decoded] in *;
    rewrite !load_bytes_S in L.
  - injection L as <-. by apply decode_single_run.
  - injection L as H0 H1. destruct (Z.eqb_spec b0 0xE0) as [E|E].
    + rewrite <- H1. apply decode_extended_run; [done|by rewrite H0].
    + apply decode_other_run; [done|right; by rewrite H0].
  - apply decode_other_run; [lia|left; lia].
Qed.

(** *** Sequences of scancodes *)

(** The scancodes [bs] arrive one after the other. *)
Fixpoint feed (vk0 buf : Z) (bs : list Z) : M ker (list kbdev) :=
  match bs with
  | [] => mret []
  | b :: bs' =>
      _ ← stb buf b;
      d ← decode_scancode vk0 (Kbdev 0 0) buf 1;
      evs ← feed vk0 buf bs';
      mret (d.2 :: evs)
  end.

Fixpoint events (st : Z) (bs : list Z) : list kbdev :=
  match bs with
  | [] => []
  | b :: bs' => event st b :: events (next_status st b) bs'
  end.

Lemma feed_run vk0 buf bs s :
  (current_context (o_vt s) < length (contexts (o_vt s)))%nat ->
  Forall (fun b => 0 <= b < 256) bs ->
  exists s', feed vk0 buf bs s = Ok (events (status s) bs, s') /\
    status s' = foldl next_status (status s) bs.
Proof.
  intros Hcur HF. revert s Hcur. induction HF as [|b bs Hb _ IH]; intros s Hcur; cbn [feed].
  - by exists s.
  - mstep (stb_run buf b s). set (s1 := set_kmem _ s).
    mstep (decode_single_run s1 Hcur vk0 (Kbdev 0 0) buf).
    assert (load8 (kmem s1) buf = b) as ->
      by (unfold s1; rewrite kmem_set_kmem, load8_store8_eq; by apply u8_small).
    set (s2 := set_vt _ s1).
    assert (status s2 = next_status (status s) b) as E2 by (by apply status_with).
    destruct (IH s2) as (s' & R & E); [cbn; by rewrite length_alter|].
    mstep R. exists s'. rewrite E, E2. done.
Qed.

(** The last byte of a sequence that satisfies [P]. *)
Definition last_of (P : Z -> bool) (bs : list Z) : option Z := last (filter (fun b => P b = true) bs).

Lemma last_of_snoc P bs b :
  last_of P (bs ++ [b]) = if P b then Some b else last_of P bs.
Proof.
  unfold last_of. rewrite filter_app, filter_cons, filter_nil. destruct (P b) eqn:E.
  - rewrite decide_True by done. apply last_snoc.
  - rewrite decide_False by done. by rewrite app_nil_r.
Qed.

(** A modifier's bit is what its last key event made it. *)
Lemma modifier_bit (P : Z -> bool) i st bs :
  (forall st b, Z.testbit (next_status st b) i
     = if P b then negb (released b) else Z.testbit st i) ->
  Z.testbit (foldl next_status st bs) i
  = match last_of P bs with Some b => negb (released b) | None => Z.testbit st i end.
Proof.
  intros H. induction bs as [|b bs IH] using rev_ind; [done|].
  rewrite foldl_app, last_of_snoc. cbn [foldl]. rewrite H. by destruct (P b).
Qed.

Lemma next_status_bits st b :
  Z.testbit (next_status st b) 0 = (if is_shift b then negb (released b) else Z.testbit st 0) /\
  Z.testbit (next_status st b) 1 = (if is_ctrl b then negb (released b) else Z.testbit st 1) /\
  Z.testbit (next_status st b) 2 = (if is_alt b then negb (released b) else Z.testbit st 2) /\
  Z.testbit (next_status st b) 8
  = (if is_caps b && negb (released b) then negb (Z.testbit st 8) else Z.testbit st 8).
Proof.
  assert (is_ctrl b = true -> is_shift b = false /\ is_alt b = false /\ is_caps b = false) as Hc
    by (unfold is_ctrl, is_shift, is_alt, is_caps; intros ->%Z.eqb_eq; done).
  assert (is_shift b = true -> is_alt b = false /\ is_caps b = false) as Hs
    by (unfold is_shift, is_alt, is_caps; intros [->%Z.eqb_eq| ->%Z.eqb_eq]%orb_prop; done).
  assert (is_alt b = true -> is_caps b = false) as Ha
    by (unfold is_alt, is_caps; intros ->%Z.eqb_eq; done).
  unfold next_status, press.
  destruct (is_ctrl b); [destruct Hc as (-> & -> & ->); [done|]|destruct (is_shift b);
    [destruct Hs as [-> ->]; [done|]|destruct (is_alt b); [rewrite Ha by done|destruct (is_caps b)]]];
  destruct (released b); cbn [andb negb];
    rewrite ?Z.ldiff_spec, ?Z.lor_spec, ?Z.lxor_spec;
    unfold KBD_MOD_CTRL, KBD_MOD_SHIFT, KBD_MOD_ALT, KBD_LOCK_CAPS;
    repeat match goal with |- context [Z.testbit (Zpos ?n) (?i)] =>
      let v := eval vm_compute in (Z.testbit (Zpos n) i) in change (Z.testbit (Zpos n) i) with v end;
    rewrite ?Z.bits_0, ?andb_true_r, ?andb_false_r, ?orb_true_r, ?orb_false_r, ?xorb_false_r, ?xorb_true_r;
    split_and!; try done.
Qed.

End Keymap.
Import Keymap.

(** ** Reading keys *)
Module Reader.
Import Ringbuf.Rep Ringbuf.Queue.

(** What the console is promised of the keyboard's file. *)
Class KeyboardFile (fs : FsDrivers) := {
  kbd_fuel : nat;
  kbd_fuel_ok : (17 < kbd_fuel)%nat;
  kbd_reads s p offt buf len : device_node s p keyboard_device ->
    Ops.fs_read p offt buf len s = low (Chardev.Kbd.keyboard_read kbd_fuel buf len) s
}.

#[export] Instance kernel_keyboard_file `{Allocator} (c : KernMain.Impl.config)
    (console : Devfs.Impl.device) (Hn : (17 < KernMain.Impl.c_fuel c)%nat) :
  KeyboardFile (KernMain.Impl.filesystems_with c console).
Proof.
  refine {| kbd_fuel := KernMain.Impl.c_fuel c; kbd_fuel_ok := Hn |}. intros s p **.
  by rewrite (fs_read_run (H := KernMain.Impl.devices_with c console) eq_refl s p keyboard_device).
Defined.

(** The open keyboard: its ring buffer at [p] holds the bytes [q], and is apart
    from what the console and the reader write to. *)
Record keyboard (F : frame) (buf : Z) (s : ker) (p n : Z) (q : list Z) : Prop := Keyboard {
  kb_file : device_node s (con_kbd (o_vt s)) keyboard_device;
  kb_rbuf : keyboard_rbuf (i_ext (o_dst s)) = p;
  kb_repr : exists ovf, repr (kmem s) p n q ovf;
  kb_kbd : buf_apart (kmem s) p n (f_kbd F) 17;
  kb_apart a : rb_cells (kmem s) p n a -> ~ scratch F a /\ ~ (buf <= a < buf + 64);
  kb_screen a : rb_cells (kmem s) p n a -> ~ 0xB8000 <= a < 0xB8000 + 4000 /\ ~ in_contexts F a
}.

Lemma same_buffer (P : Z -> Prop) m m' p n q ovf :
  repr m p n q ovf -> agree P m m' -> (forall a, rb_cells m p n a -> P a) ->
  repr m' p n q ovf /\
  load32 m' (p + Ringbuf.Impl.o_buffer) = load32 m (p + Ringbuf.Impl.o_buffer).
Proof.
  intros H Ha HP. split.
  - eapply repr_buffer; [exact H|..].
    + intros a Hin. apply Ha, HP. by left.
    + intros i Hi. apply Ha, HP. right. lia.
  - symmetry. apply (load32_agree P); [done|]. intros i Hi. apply HP. left.
    unfold Ringbuf.Impl.o_buffer, Ringbuf.Impl.sizeof_ringbuf. lia.
Qed.

(** The keyboard stays as it is when its bytes do. *)
Lemma keyboard_agree (P : Z -> Prop) F buf s s' p n q :
  keyboard F buf s p n q -> kept s s' -> agree P (kmem s) (kmem s') ->
  (forall a, rb_cells (kmem s) p n a -> P a) -> keyboard F buf s' p n q.
Proof.
  intros [H1 H2 [ovf H3] H4 H5 H6] (E1 & _ & _ & _ & _ & E2 & E3 & _) Ha HP.
  destruct (same_buffer P _ _ _ _ _ _ H3 Ha HP) as [H3' Eb].
  assert (forall a, rb_cells (kmem s') p n a <-> rb_cells (kmem s) p n a) as Hc
    by (intros a; unfold rb_cells; by rewrite Eb).
  split.
  - rewrite E2. unfold device_node in *. by rewrite E1.
  - by rewrite E3.
  - by exists ovf.
  - unfold buf_apart in *. by rewrite Eb.
  - intros a Hin. apply H5. by apply Hc.
  - intros a Hin. apply H6. by apply Hc.
Qed.

Section reader.
Context {fs : FsDrivers} {CF : ConsoleFiles fs} {KF : KeyboardFile fs} (F : frame) (V : list Z).
Context (FO : frame_ok F) (FK : off_screen (f_kbd F) 17).
Context (c : rtclock) (buf p n : Z).

Lemma keyboard_untouched s s' q :
  keyboard F buf s p n q -> kept s s' -> untouched F (kmem s) (kmem s') -> keyboard F buf s' p n q.
Proof.
  intros K Hk Hu. eapply keyboard_agree; [done|done|exact Hu|]. intros a Ha.
  by apply (kb_apart _ _ _ _ _ _ K).
Qed.

(** A read of the keyboard's file takes what is pending, up to 17 bytes. *)
Lemma read_keyboard s q :
  keyboard F buf s p n q ->
  exists m, Ops.fs_read (con_kbd (o_vt s)) 0 (f_kbd F) 16 s
      = Ok (Z.of_nat (length (take 17 q)), set_kmem m s) /\
    keyboard F buf (set_kmem m s) p n (drop 17 q) /\
    load_bytes m (f_kbd F) (length (take 17 q)) = take 17 q /\
    (forall pos, 0 <= pos < 2000 -> cell m pos = cell (kmem s) pos) /\
    agree (fun a => ~ rb_cells (kmem s) p n a /\
        ~ f_kbd F <= a < f_kbd F + Z.of_nat (length (take 17 q)))
      (kmem s) m.
Proof.
  intros K. pose proof K as [K1 K2 [ovf K3] K4 K5 K6]. rewrite length_take.
  rewrite (kbd_reads s _ 0 (f_kbd F) 16 K1). pose proof kbd_fuel_ok.
  destruct (drain_run kbd_fuel (i_k (o_dst s)) p n q ovf (f_kbd F) 0 16 K3
    (repr_bytes _ _ _ _ _ K3)) as (m & R & ((ovf' & D1) & D2 & D3 & D4));
    [lia|lia|lia|exact K4|].
  change (Nat.min (Z.to_nat (16 + 1 - 0)) (length q)) with (Nat.min 17 (length q)) in *.
  change (k_mem (i_k (o_dst s))) with (kmem s) in *.
  assert (take (Nat.min 17 (length q)) q = take 17 q /\ drop (Nat.min 17 (length q)) q = drop 17 q)
    as [Et Ed].
  { destruct (decide (length q <= 17)%nat).
    - rewrite !firstn_all2, !drop_ge by lia. done.
    - by replace (Nat.min 17 (length q)) with 17%nat by lia. }
  rewrite Et in D2. rewrite Ed in D1.
  exists m. split_and!.
  - apply low_run. unfold Chardev.Kbd.keyboard_read, dget. rewrite gets_bind, K2.
    by rewrite (kern_run _ _ _ _ R).
  - assert (forall a, rb_cells m p n a <-> rb_cells (kmem s) p n a) as Hc
      by (intros a; unfold rb_cells; by rewrite D3).
    split; [exact K1|exact K2|by exists ovf'|..]; rewrite ?kmem_set_kmem.
    + unfold buf_apart in *. by rewrite D3.
    + intros a Ha. apply K5. by apply Hc.
    + intros a Ha. apply K6. by apply Hc.
  - exact D2.
  - intros pos Hpos. unfold off_screen in FK. apply (cell_agree _ _ _ _ D4).
    + split; [intros Ha; apply K6 in Ha as [Ha _]; lia|lia].
    + split; [intros Ha; apply K6 in Ha as [Ha _]; lia|lia].
  - eapply agree_weaken; [|exact D4]. intros a [H1 H2]. split; [done|lia].
Qed.

(** *** The reader's loop *)

Lemma loop_empty fuel vk0 kb len r s :
  keyboard F buf s p n [] -> 4 <= len ->
  exists m, vtcon_read_loop F V (S fuel) vk0 kb buf len r s = Ok (r, set_kmem m s) /\
    keyboard F buf (set_kmem m s) p n [] /\
    forall pos, 0 <= pos < 2000 -> cell m pos = cell (kmem s) pos.
Proof.
  intros K Hlen. destruct (read_keyboard s [] K) as (m & R & K' & _ & C & _).
  exists m. split_and!; [|done|done]. cbn [vtcon_read_loop].
  rewrite (proj2 (Z.leb_le 4 len)) by done. cbn [negb]. rewrite gets_bind. by mstep R.
Qed.

(** Drawing the status bar before the loop. *)
Lemma read_start s A q :
  wired s c -> shows s A -> keyboard F buf s p n q ->
  exists s1, drawstatus F V s = Ok (tt, s1) /\ o_vt s1 = o_vt s /\ wired s1 c /\ shows s1 A /\
    keyboard F buf s1 p n q.
Proof.
  intros W HA K. destruct (drawstatus_run F V FO s c W) as (s1 & R & V1 & K1 & C1 & _ & U1 & _).
  exists s1. split_and!; [done|done|..].
  - apply (wired_kept s); [done|done|rewrite V1; apply W|rewrite V1; apply W].
  - split; [rewrite V1; apply HA|]. intros pos Hp. rewrite C1 by done. by apply HA.
  - by eapply keyboard_untouched.
Qed.

(** The screen does not depend on other memory. *)
Lemma shows_kmem s m A :
  shows s A -> (forall pos, 0 <= pos < 2000 -> cell m pos = cell (kmem s) pos) ->
  shows (set_kmem m s) A.
Proof.
  intros [H1 H2] Hm. split; [done|]. intros pos Hp. rewrite kmem_set_kmem, Hm by lia. by apply H2.
Qed.

(** Bytes that are no scancode together are read and dropped. *)
Lemma loop_drops fuel vk0 len s A q :
  wired s c -> shows s A -> keyboard F buf s p n q -> 4 <= len ->
  (1 < length q <= 17)%nat -> (length q <> 2)%nat \/ head q <> Some 0xE0 ->
  exists s', vtcon_read_loop F V (S (S fuel)) vk0 (Kbdev 0 0) buf len 0 s = Ok (0, s') /\
    o_vt s' = o_vt s /\ wired s' c /\ shows s' A /\ keyboard F buf s' p n [].
Proof.
  intros W HA K Hlen Hq Hno.
  destruct (read_keyboard s q K) as (m & R & K1 & L & C & _).
  rewrite firstn_all2 in R, L by lia. rewrite drop_ge in K1 by lia.
  destruct (loop_empty fuel vk0 (Kbdev 0 0) len 0 (set_kmem m s) K1 Hlen) as (m' & R' & K2 & C').
  exists (set_kmem m' (set_kmem m s)). split_and!; [|done|by apply wired_kmem, wired_kmem
    |by apply shows_kmem; [apply shows_kmem|]|exact K2].
  remember (S fuel) as fuel1 eqn:E1.
  cbn [vtcon_read_loop]. rewrite (proj2 (Z.leb_le 4 len)) by done. cbn [negb]. rewrite gets_bind.
  mstep R. rewrite if_app, (proj2 (Z.eqb_neq (Z.of_nat (length q)) 0)) by lia.
  mstep (decode_other_run vk0 (Kbdev 0 0) (f_kbd F) (Z.of_nat (length q)) (set_kmem m s) ltac:(lia)
    ltac:(idtac; destruct Hno as [Hn|Hn]; [left; lia|right; rewrite kmem_set_kmem;
      intros E; apply Hn; rewrite <- L; destruct (length q); [lia|];
      rewrite load_bytes_S, E; done])).
  exact R'.
Qed.

End reader.
End Reader.
Import Reader.

(** ** A sample: the open console with a key pending *)
Module Typing.
Import KernMain.Impl KernMain.Sample VtconProps.Start.

(** The ring buffer's object is at 0x1000, its 1024 bytes at 0x2000. *)
Definition ring_mem (q : list Z) : mem :=
  store_bytes
    (store32 (store32 (store32 (store32 (store32 ∅ 0x1000 0x2000) 0x1004 1024)
      0x1008 (Z.of_nat (length q))) 0x100C 0) 0x1010 0) 0x2000 q.
Definition pending_key (q : list Z) : ker :=
  set_kmem (ring_mem q)
    (set_dst (set_ext (set_rbuf 0x1000 (i_ext (o_dst opened))) (o_dst opened)) opened).

#[export] Instance sample_keyboard : KeyboardFile sample_fs :=
  kernel_keyboard_file sample_config _ ltac:(apply Nat.ltb_lt; reflexivity).

Lemma pending_wired q : wired (pending_key q) midnight.
Proof. split; apply opened_wired. Qed.

(** A is pressed and released. *)
Definition down_up : list Z := [0x1E; 0x9E].

Lemma ring_repr : Ringbuf.Rep.repr (ring_mem down_up) 0x1000 1024 down_up false.
Proof.
  split; try by_evaluation; try (split; by_evaluation).
  - left; vm_compute; discriminate.
  - intros [|[|i]] x H; [injection H as <-; vm_compute; reflexivity..|by destruct i].
Qed.

Lemma pending_keyboard :
  keyboard sample_frame 0x5000 (pending_key down_up) 0x1000 1024 down_up.
Proof.
  assert (load32 (ring_mem down_up) (0x1000 + Ringbuf.Impl.o_buffer) = 0x2000) as Hb
    by (vm_compute; reflexivity).
  split.
  - exists (Node (chars_of "kbd") VN_FCHARDEV devfs_rootdir 263 12),
      (Volume (Some (chars_of "DEV")) 4 devfs_rootdir 0). repeat split; by_evaluation.
  - reflexivity.
  - exists false. apply ring_repr.
  - unfold buf_apart. change (kmem (pending_key down_up)) with (ring_mem down_up). rewrite Hb. cbn. lia.
  - intros a. unfold Ringbuf.Rep.rb_cells. change (kmem (pending_key down_up)) with (ring_mem down_up).
    rewrite Hb. unfold Ringbuf.Impl.sizeof_ringbuf, scratch. cbn. lia.
  - intros a. unfold Ringbuf.Rep.rb_cells. change (kmem (pending_key down_up)) with (ring_mem down_up).
    rewrite Hb. unfold Ringbuf.Impl.sizeof_ringbuf, in_contexts. cbn. lia.
Qed.

Lemma pending_shows q : shows (pending_key q) (screen_of (pending_key q) 0).
Proof. split; [by split_and!|done]. Qed.

End Typing.
Import VtconProps.Start Typing.

(** ** Properties *)

(** C36: The modifiers follow the keys: after any sequence of one-byte scancodes,
    each is reported as the table's key under the modifiers at its time, Shift,
    Control and Alt are down iff their last key event was a press (either Shift
    key's release counts), and the status is a function of the keycodes
    alone. *)
Theorem modifiers_follow_keys vk0 buf bs s
    (Hcur : (current_context (o_vt s) < length (contexts (o_vt s)))%nat)
    (HF : Forall (fun b => 0 <= b < 256) bs) :
  exists s', feed vk0 buf bs s = Ok (events (status s) bs, s') /\
    let down P i := match last_of P bs with
                    | Some b => negb (released b)
                    | None => Z.testbit (status s) i
                    end in
    Z.testbit (status s') 0 = down is_shift 0 /\
    Z.testbit (status s') 1 = down is_ctrl 1 /\
    Z.testbit (status s') 2 = down is_alt 2.
Proof.
  destruct (feed_run vk0 buf bs s Hcur HF) as (s' & R & E).
  exists s'. split; [done|]. rewrite E.
  split_and!; apply modifier_bit; intros st b; apply next_status_bits.
Qed.

(** Shift is pressed, A, Shift is released, A. *)
Lemma modifiers_follow_keys_witness :
  exists s', feed 0 0x5000 [0x2A; 0x1E; 0xAA; 0x1E] VtconProps.Start.opened
    = Ok ([Kbdev VK_LSHF 1; Kbdev 65 1; Kbdev VK_LSHF 16; Kbdev 97 0], s') /\
    Z.testbit (status s') 0 = false.
Proof.
  destruct (modifiers_follow_keys 0 0x5000 [0x2A; 0x1E; 0xAA; 0x1E] VtconProps.Start.opened)
    as (s' & R & H & _); [apply Nat.ltb_lt; reflexivity|repeat constructor; lia|].
  exists s'. split; [rewrite R; vm_compute; reflexivity|exact H].
Defined.

(** Codes that are pending together are taken for one extended scancode:
    unless it is one, all of them are dropped, and the read ends without a key
    and without a trace on the screen. *)
Theorem keys_pending_together_are_lost {fs : FsDrivers} {CF : ConsoleFiles fs}
    {KF : KeyboardFile fs} F V c buf p n fuel vk0 len s A q
    (FO : frame_ok F) (FK : off_screen (f_kbd F) 17)
    (W : wired s c) (HA : shows s A) (K : keyboard F buf s p n q) (Hlen : 4 <= len)
    (Hq : (1 < length q <= 17)%nat) (Hno : (length q <> 2)%nat \/ head q <> Some 0xE0) :
  exists s', vtcon_read F V (S (S fuel)) vk0 buf len s = Ok (0, s') /\
    o_vt s' = o_vt s /\ shows s' A /\ keyboard F buf s' p n [].
Proof.
  destruct (read_start F V FO c buf p n s A q W HA K) as (s1 & R & V1 & W1 & S1 & K1).
  destruct (loop_drops F V FK c buf p n fuel vk0 len s1 A q W1 S1 K1 Hlen Hq Hno)
    as (s' & R' & V' & W' & S' & K').
  exists s'. split_and!; [|by rewrite V'|done|done]. unfold vtcon_read. by mstep R.
Qed.

(** A is pressed and released before the console reads. *)
Lemma keys_pending_together_are_lost_witness :
  outcome (vtcon_read (H := VtconProps.Start.sample_fs) KernMain.Sample.sample_frame
    (chars_of "NativeOS") 2 0 0x5000 4 (pending_key [0x1E; 0x9E])) = Some 0.
Proof.
  eapply VtconProps.Start.ran.
  apply (keys_pending_together_are_lost KernMain.Sample.sample_frame (chars_of "NativeOS")
    VtconProps.Start.midnight 0x5000 0x1000 1024 0 0 4 (pending_key [0x1E; 0x9E])
    (VtconProps.Start.screen_of (pending_key [0x1E; 0x9E]) 0) [0x1E; 0x9E]
    VtconProps.Start.sample_frame_ok).
  - left. cbn. lia.
  - apply pending_wired.
  - apply pending_shows.
  - apply pending_keyboard.
  - lia.
  - cbn. lia.
  - right. discriminate.
Defined.
