(* ===== verification/Session.v ===== *)
(** * Typing at the console

    The parts together: keys are pressed, the keyboard's interrupts go through
    the dispatcher of idt.c to the driver's ring buffer, and a program reads
    the console.  [Machine] is the abstract console that all of them implement,
    with what becomes of bytes that are pending together; [Stroke] is the way of
    the bytes through the code, [Refine] the simulation.  The theorem about
    sessions is in Boot.v, where a machine boots that they can start from. *)
From S2P Require Import Prelude Mem Alloc Ringbuf Ports Idt Device Objects Vfs Devfs Scancodes Vtcon KernMain VfsProps DevfsProps VtconProps VtconKeys.
From S2P Require CString Chardev Rtclock Vgafb.
From stdpp Require Import strings.
Local Open Scope Z_scope.
Import Idt.Impl DevfsProps.Route Vtcon.Impl VtconProps.Screen VtconProps.Bus VtconProps.Draw
  VtconProps.Contexts VtconKeys.Keymap VtconKeys.Reader.

(** ** The abstract console *)
Module Machine.
Import Ringbuf.Queue.

(** Eight screens, the keyboard's status in each context, and which of them is
    shown. *)
Record console := Console { scrs : list screen; mods : list Z; shown : nat }.

Definition on_shown (f : screen -> screen) (C : console) : console :=
  match scrs C !! shown C with
  | Some A => Console (<[shown C := f A]> (scrs C)) (mods C) (shown C)
  | None => C
  end.
Definition type_text (text : list Z) : console -> console :=
  on_shown (fun A => foldl type_char A text).
Lemma type_text_app t1 t2 C : type_text (t1 ++ t2) C = type_text t2 (type_text t1 C).
Proof.
  unfold type_text, on_shown. destruct (scrs C !! shown C) as [A|] eqn:HA; [|by rewrite HA].
  cbn [scrs mods shown]. rewrite list_lookup_insert_eq by (by eapply lookup_lt_Some).
  by rewrite list_insert_insert_eq, foldl_app.
Qed.
Lemma type_text_nil C : type_text [] C = C.
Proof.
  unfold type_text, on_shown. destruct (scrs C !! shown C) as [A|] eqn:HA; [|done].
  cbn [foldl]. rewrite list_insert_id by done. by destruct C.
Qed.
Definition select (to : nat) (C : console) : console := Console (scrs C) (mods C) to.
Definition set_mods (st : Z) (C : console) : console :=
  Console (scrs C) (<[shown C := st]> (mods C)) (shown C).

(** What a key event makes of the screens: text for the keys that have one, a
    caret sequence for control and cursor keys, another context for F1 to F8,
    and nothing for a release. *)
Definition echo (ev : kbdev) : console -> console :=
  if negb (Z.land (kd_flags ev) KBD_CAP_UP =? 0) then id else
  match assoc (kd_vk ev) echo_strings, assoc (kd_vk ev) echo_switches with
  | Some str, _ => type_text (chars_of str)
  | None, Some to => select to
  | None, None =>
      if decide (kd_vk ev ∈ [VK_BS; VK_HT; VK_LF; VK_CR]) then type_text [kd_vk ev]
      else if kd_vk ev =? VK_FF then on_shown blank
      else if (27 <=? kd_vk ev) && (kd_vk ev <? 127) then type_text [kd_vk ev]
      else id
  end.

(** One delivery of the keyboard's file: the bytes [q] are a scancode, which is
    reported and shown, or nothing. *)
Definition status_in (C : console) : Z := nth (shown C) (mods C) 0.
Definition strike (vk0 : Z) (C : console) (q : list Z) : option kbdev * console :=
  match decoded vk0 (status_in C) q with
  | Some (ev, st) => (Some ev, echo ev (set_mods st C))
  | None => (None, C)
  end.

(** A read of the console while [q] is pending.  The file delivers up to 17 bytes
    at a time, and more than two are no scancode: what counts is behind the
    last full delivery. *)
Definition reads (vk0 : Z) (C : console) (q : list Z) : option kbdev * console :=
  strike vk0 C (drop (17 * (length q / 17)) q).

(** The bytes [bs] arrive at a ring of [n] bytes, and then the console is read;
    and this again and again. *)
Definition turn (n vk0 : Z) (C : console) (bs : list Z) : option kbdev * console :=
  reads vk0 C (foldl (push n) [] bs).
Fixpoint turns (n vk0 : Z) (C : console) (bss : list (list Z)) : list (option kbdev) * console :=
  match bss with
  | [] => ([], C)
  | bs :: bss' =>
      let '(ev, C1) := turn n vk0 C bs in
      let '(evs, C2) := turns n vk0 C1 bss' in
      (ev :: evs, C2)
  end.

(** With a read after each byte every key is reported. *)
Definition key (C : console) (b : Z) : kbdev * console :=
  let ev := event (status_in C) b in
  (ev, echo ev (set_mods (next_status (status_in C) b) C)).
Fixpoint keys (C : console) (bs : list Z) : list kbdev * console :=
  match bs with
  | [] => ([], C)
  | b :: bs' =>
      let '(ev, C1) := key C b in
      let '(evs, C2) := keys C1 bs' in
      (ev :: evs, C2)
  end.

Lemma turns_one_by_one n vk0 C bs :
  0 < n -> Forall (fun b => 0 <= b < 256) bs ->
  turns n vk0 C ((fun b => [b]) <$> bs) = (Some <$> (keys C bs).1, (keys C bs).2).
Proof.
  intros Hn HF. revert C. induction HF as [|b bs Hb _ IH]; intros C; [done|].
  cbn [fmap list_fmap turns keys]. unfold turn, reads. cbn [foldl].
  rewrite push_room by (cbn; lia). rewrite u8_small by done. cbn [app length].
  change (drop (17 * (1 / 17)) [b]) with [b]. unfold strike. cbn [decoded].
  fold (key C b). destruct (key C b) as [ev C1] eqn:E. unfold key in E. injection E as <- <-.
  rewrite IH. by destruct (keys _ bs).
Qed.

End Machine.
Import Machine.

(** ** The keyboard, the interrupt and the reader *)
Module Stroke.

(** The keyboard's controller has a scancode ready: port 0x60 answers with it
    from now on, every other port as before. *)
Definition set_hw (hw : list io_event -> Z -> Z) (k : kst) : kst :=
  KSt (k_mem k) (k_heap_root k) (k_heap_lock k) (k_io k) hw.
Definition controller (b : Z) : M ker unit :=
  modify (fun s => set_dst (set_ik (set_hw (fun io port =>
    if port =? 0x60 then b else k_hw (i_k (o_dst s)) io port) (i_k (o_dst s))) (o_dst s)) s).

Section stroke.
Context `{FsDrivers} (F : frame) (V : list Z) (fuel : nat) (vk0 e buf : Z).

(** Scancodes, each with its interrupt. *)
Fixpoint arrive (bs : list Z) : M ker unit :=
  match bs with
  | [] => mret tt
  | b :: bs' =>
      _ ← controller b;
      _ ← low (idt_handler (Chardev.run_isr fuel) (IdtData 0x21 e));
      arrive bs'
  end.

(** Some arrive, and then a read as in the last loop of [kernel_main]; the answer
    is what [vtcon_read] returns and, unless it is 0, the two words in the
    reader's buffer. *)
Definition stroke (bs : list Z) : M ker (Z * option kbdev) :=
  _ ← arrive bs;
  r ← vtcon_read F V fuel vk0 buf 64;
  vk ← gets (fun s => load16 (kmem s) buf);
  flags ← gets (fun s => load16 (kmem s) (buf + 2));
  mret (r, if r =? 0 then None else Some (Kbdev vk flags)).

Fixpoint session (bss : list (list Z)) : M ker (list (Z * option kbdev)) :=
  match bss with
  | [] => mret []
  | bs :: bss' =>
      ev ← stroke bs;
      evs ← session bss';
      mret (ev :: evs)
  end.

End stroke.
End Stroke.
Import Stroke.

(** ** The simulation *)
Module Refine.
Import Ringbuf.Rep Ringbuf.Queue.

(** An array that is apart from the contexts. *)
Definition off_contexts (F : frame) (a n : Z) : Prop :=
  a + n <= f_contexts F \/ f_contexts F + 8 * 4016 <= a.

Section refine.
Context {fs : FsDrivers} {CF : ConsoleFiles fs} {KF : KeyboardFile fs} (F : frame) (V : list Z).
Context (FO : frame_ok F) (FA : contexts_apart F).
Context (FK : off_screen (f_kbd F) 17) (FKC : off_contexts F (f_kbd F) 17).
Context (c : rtclock) (buf p n : Z) (FB : off_screen buf 64) (FBC : off_contexts F buf 64).

(** The hardware cursor is where the screen's is. *)
Definition cursor_at (s : ker) (A : screen) : Prop :=
  Vgafb.Facts.cursor (k_io (i_k (o_dst s))) = 80 * s_y A + s_x A.

(** The machine is in the state that the abstract console describes, with the
    codes [q] pending. *)
Record runs (s : ker) (C : console) (q : list Z) : Prop := Runs {
  rn_wired : wired s c;
  rn_screens : screens F s (scrs C);
  rn_shown : current_context (o_vt s) = shown C;
  rn_mods : kbd_status <$> contexts (o_vt s) = mods C;
  rn_keyboard : keyboard F buf s p n q;
  rn_cursor A : scrs C !! shown C = Some A -> cursor_at s A;
  rn_isr : idt_handlers (o_dst s) !! 0x21%nat = Some (Some keyboard_key_handler_ptr)
}.

Lemma runs_shown s C q :
  runs s C q -> exists A, scrs C !! shown C = Some A /\ shows s A /\ on_screen A.
Proof.
  intros [W HS E _ _ _ _]. pose proof (w_current _ _ W) as Hcur.
  destruct (lookup_lt_is_Some_2 (scrs C) (shown C)) as [A HA].
  { rewrite (sc_length _ _ _ HS). lia. }
  exists A. split; [done|]. rewrite <- E in HA. exact (screens_shows F s _ A HS HA).
Qed.

Lemma runs_status s C q : runs s C q -> status s = status_in C.
Proof.
  intros [W _ E M _ _ _]. pose proof (w_current _ _ W). pose proof (w_contexts _ _ W).
  unfold status, status_in, ctx_of. rewrite <- M, E in *.
  destruct (lookup_lt_is_Some_2 (contexts (o_vt s)) (shown C)) as [k Hk]; [lia|].
  rewrite (nth_lookup_Some _ _ _ _ Hk). symmetry. apply nth_lookup_Some.
  by rewrite list_lookup_fmap, Hk.
Qed.

Lemma isr_kept s s' h :
  kept s s' -> idt_handlers (o_dst s) !! 0x21%nat = h -> idt_handlers (o_dst s') !! 0x21%nat = h.
Proof. intros (_ & _ & _ & _ & _ & _ & _ & -> & _). done. Qed.

(** Drawing on the screen that is shown. *)
Lemma runs_drawn s s' C q A f :
  runs s C q -> scrs C !! shown C = Some A -> drawn F c s s' (f A) -> on_screen (f A) ->
  cursor_at s' (f A) -> runs s' (on_shown f C) q.
Proof.
  intros [W HS E M K Q I] HA D Hon Hcur. unfold on_shown. rewrite HA.
  pose proof D as [W' Kp Ec _ Est _ U]. split; cbn [scrs mods shown].
  - done.
  - rewrite <- E. apply (screens_drawn F FA c s); [done|apply W|done|done].
  - by rewrite Ec.
  - by rewrite Est.
  - by apply (keyboard_untouched F buf p n s).
  - intros B HB. rewrite list_lookup_insert_eq in HB by (by eapply lookup_lt_Some).
    by injection HB as <-.
  - by apply (isr_kept s).
Qed.

Lemma on_shown_id C A : scrs C !! shown C = Some A -> on_shown id C = C.
Proof. intros HA. unfold on_shown. rewrite HA. rewrite list_insert_id by done. by destruct C. Qed.

(** A change of memory that leaves screen, contexts and ring alone. *)
Lemma screens_mem s m As :
  screens F s As -> agree (fun a => 0xB8000 <= a < 0xB8000 + 4000 \/ in_contexts F a) (kmem s) m ->
  screens F (set_kmem m s) As.
Proof. intros HS Ha. by apply (screens_agree F s). Qed.

(** *** The echo *)

Lemma putstr_run str s A :
  wired s c -> shows s A -> on_screen A -> Forall (fun ch => 0 <= ch < 256) str ->
  cursor_at s A ->
  exists s', putstr F V str s = Ok (tt, s') /\ drawn F c s s' (foldl type_char A str) /\
    on_screen (foldl type_char A str) /\ cursor_at s' (foldl type_char A str).
Proof.
  intros W HA Hon HF. revert s A W HA Hon.
  induction HF as [|ch str Hch _ IH]; intros s A W HA Hon Hcur.
  - exists s. split_and!; [done|by apply drawn_refl|done|done].
  - destruct (putchar_run F V FO ch s c A W HA Hon Hch) as (s1 & R1 & [D1 _ X1]).
    destruct (IH s1 (type_char A ch)) as (s2 & R2 & D2 & Hon2 & X2);
      [apply D1|apply D1|by apply type_char_on_screen|done|].
    exists s2. split_and!; [|by eapply drawn_trans|done|done]. cbn [putstr]. mstep R1. exact R2.
Qed.

Lemma runs_types s C q text m :
  runs s C q -> Forall (fun ch => 0 <= ch < 256) text ->
  m s = putstr F V text s ->
  exists s', m s = Ok (tt, s') /\ runs s' (type_text text C) q.
Proof.
  intros H HF Hm. destruct (runs_shown s C q H) as (A & HA & Hs & Hon).
  destruct (putstr_run text s A (rn_wired _ _ _ H) Hs Hon HF (rn_cursor _ _ _ H A HA))
    as (s' & R & D & Hon' & X).
  exists s'. split; [by rewrite Hm|]. by apply (runs_drawn s s' C q A).
Qed.

Lemma runs_selects s C q to :
  runs s C q -> (to < 8)%nat ->
  exists s', switchcontext F V to s = Ok (tt, s') /\ runs s' (select to C) q.
Proof.
  intros [W HS E M K Q I] Hto. pose proof (sc_length _ _ _ HS).
  destruct (lookup_lt_is_Some_2 (scrs C) to) as [A HA]; [lia|].
  destruct (switchcontext_run F V FO FA s c to _ A W HS HA)
    as (s' & R & W' & HS' & E' & X & Kp & Ec & Ha).
  exists s'. split; [exact R|]. split; cbn [scrs mods shown select].
  - done.
  - done.
  - done.
  - by rewrite Ec.
  - apply (keyboard_agree _ _ _ _ _ _ _ _ K Kp Ha). intros a Hin.
    destruct (kb_apart _ _ _ _ _ _ K a Hin), (kb_screen _ _ _ _ _ _ K a Hin). done.
  - intros B HB. rewrite HA in HB. by injection HB as <-.
  - by apply (isr_kept s).
Qed.

Lemma blank_on_screen A : on_screen A -> on_screen (blank A).
Proof. unfold on_screen. cbn. lia. Qed.

Lemma echo_tables :
  Forall (fun e => Forall (fun ch => 0 <= ch < 256) (chars_of e.2)) echo_strings /\
  Forall (fun e => (e.2 < 8)%nat) echo_switches.
Proof. split; decided. Qed.

Lemma assoc_In {B} (k : Z) (table : list (Z * B)) x : assoc k table = Some x -> (k, x) ∈ table.
Proof.
  induction table as [|[k' y] table IH]; [done|]. cbn [assoc].
  destruct (Z.eqb_spec k k') as [->|]; [intros [= ->]; left|right; auto].
Qed.

Lemma putchar_putstr ch s : putchar F V ch s = putstr F V [ch] s.
Proof. cbn [putstr]. unfold mbind, M_bind. by destruct (putchar F V ch s) as [[[] ?]|]. Qed.

Lemma echo_run ev s C q :
  runs s C q -> 0 <= kd_vk ev < 256 ->
  exists s', echo_scancode F V ev s = Ok (tt, s') /\ runs s' (echo ev C) q.
Proof.
  intros H Hvk. unfold echo_scancode, echo. rewrite if_app.
  destruct (negb _); [by exists s|]. revert Hvk. generalize (kd_vk ev) as vk. intros vk Hvk.
  destruct echo_tables as [TS TW].
  destruct (assoc vk echo_strings) as [str|] eqn:E1.
  { eapply runs_types; [done| |done]. exact (proj1 (Forall_forall _ _) TS _ (assoc_In _ _ _ E1)). }
  destruct (assoc vk echo_switches) as [to|] eqn:E2.
  { apply runs_selects; [done|]. exact (proj1 (Forall_forall _ _) TW _ (assoc_In _ _ _ E2)). }
  case_decide as E3.
  - apply (runs_types s C q [vk]); [done|by constructor|]. rewrite <- putchar_putstr. clear Hvk.
    repeat (apply elem_of_cons in E3 as [-> |E3]; [done|]). by apply not_elem_of_nil in E3.
  - assert (vk <> VK_BS /\ vk <> VK_HT /\ vk <> VK_LF /\ vk <> VK_CR) as (N1 & N2 & N3 & N4)
      by (rewrite !not_elem_of_cons in E3; tauto).
    rewrite !if_app, (proj2 (Z.eqb_neq vk _) N1), (proj2 (Z.eqb_neq vk _) N2),
      (proj2 (Z.eqb_neq vk _) N3), (proj2 (Z.eqb_neq vk _) N4).
    destruct (vk =? VK_FF).
    + destruct (runs_shown s C q H) as (A & HA & Hs & Hon).
      destruct (clearscreen_run F V FO s c A (rn_wired _ _ _ H) Hs Hon) as (s' & R & [D _ X]).
      exists s'. split; [done|]. apply (runs_drawn s s' C q A); [done..|by apply blank_on_screen|done].
    + destruct (_ && _); cbn [mwhen]; [|by exists s].
      apply (runs_types s C q [vk]); [done|by constructor|]. apply putchar_putstr.
Qed.

(** *** Decoding *)

Lemma runs_set_status s C q st :
  runs s C q -> runs (set_vt (with_status st (o_vt s)) s) (set_mods st C) q.
Proof.
  intros [W HS E M K Q I]. split; cbn [scrs mods shown set_mods].
  - apply (wired_kept s); [done|done| |apply W]. cbn. rewrite length_alter. apply W.
  - apply (screens_agree F s); [done|done| |done]. intros i _ A. cbn [o_vt set_vt with_status contexts].
    rewrite !nth_lookup. destruct (decide (i = current_context (o_vt s))) as [->|].
    + rewrite list_lookup_alter_eq. by destruct (contexts (o_vt s) !! _).
    + by rewrite list_lookup_alter_ne.
  - done.
  - rewrite <- M. cbn. apply list_eq. intros i. rewrite list_lookup_fmap.
    destruct (decide (i = shown C)) as [->|].
    + rewrite E, list_lookup_alter_eq. destruct (contexts (o_vt s) !! shown C) eqn:Ek; cbn.
      * rewrite list_lookup_insert_eq; [done|]. rewrite length_fmap. by eapply lookup_lt_Some.
      * symmetry. apply lookup_ge_None. rewrite length_insert, length_fmap. by apply lookup_ge_None.
    + rewrite E, list_lookup_alter_ne, list_lookup_insert_ne, list_lookup_fmap by done. done.
  - apply (keyboard_agree (fun _ => True) _ _ s); [done|done|done|done].
  - exact Q.
  - done.
Qed.

(** No more is pending than the ring holds. *)
Lemma runs_pending s C q : runs s C q -> (length q <= Z.to_nat n)%nat.
Proof.
  intros H. destruct (kb_repr _ _ _ _ _ _ (rn_keyboard _ _ _ H)) as [ovf Hr].
  pose proof (r_len _ _ _ _ _ Hr). lia.
Qed.

(** *** Memory *)

(** A change of memory apart from screen, contexts and ring. *)
Lemma runs_kmem s m C q (P : Z -> Prop) :
  runs s C q -> agree P (kmem s) m ->
  (forall a, 0xB8000 <= a < 0xB8000 + 4000 \/ in_contexts F a -> P a) ->
  keyboard F buf (set_kmem m s) p n q -> runs (set_kmem m s) C q.
Proof.
  intros [W HS E M K Q I] Ha HP K'. split; [by apply wired_kmem| |done|done|done|exact Q|done].
  apply screens_mem; [done|]. by eapply agree_weaken.
Qed.

Lemma runs_buffer s m C q :
  runs s C q -> agree (fun a => ~ buf <= a < buf + 64) (kmem s) m -> runs (set_kmem m s) C q.
Proof.
  intros H Ha. pose proof (rn_keyboard _ _ _ H) as K.
  apply (runs_kmem s m C q _ H Ha); [unfold off_screen, off_contexts, in_contexts in *; lia|].
  apply (keyboard_agree (fun a => ~ buf <= a < buf + 64) F buf s); [done|done|exact Ha|]. intros a Hin.
  by apply (kb_apart _ _ _ _ _ _ K).
Qed.

(** The event is stored for the reader. *)
Lemma runs_stores s C q vk flags :
  let m := store16 (store16 (kmem s) buf vk) (buf + 2) flags in
  runs s C q -> runs (set_kmem m s) C q /\ load16 m buf = u16 vk /\ load16 m (buf + 2) = u16 flags.
Proof.
  intros m H. split_and!.
  - apply runs_buffer; [done|]. intros a Ha. unfold m, store16. by rewrite !load8_store8_ne by lia.
  - unfold m. by rewrite load16_store16_ne, load16_store16 by lia.
  - unfold m. by rewrite load16_store16.
Qed.

(** The console takes what is pending, up to 17 bytes. *)
Lemma runs_takes s C q :
  runs s C q ->
  exists m, Ops.fs_read (con_kbd (o_vt s)) 0 (f_kbd F) 16 s
      = Ok (Z.of_nat (length (take 17 q)), set_kmem m s) /\
    runs (set_kmem m s) C (drop 17 q) /\ load_bytes m (f_kbd F) (length (take 17 q)) = take 17 q /\
    agree (fun a => ~ rb_cells (kmem s) p n a /\
        ~ f_kbd F <= a < f_kbd F + Z.of_nat (length (take 17 q)))
      (kmem s) m.
Proof.
  intros H. pose proof (rn_keyboard _ _ _ H) as K.
  destruct (read_keyboard F FK buf p n s q K) as (m & R & K' & L & _ & Ha).
  exists m. split_and!; [exact R| |exact L|exact Ha]. destruct H as [W HS E M _ Q I].
  assert (length (take 17 q) <= 17)%nat as Hq by (rewrite length_take; lia).
  split; [by apply wired_kmem| |done|done|done|exact Q|done].
  apply screens_mem; [done|]. eapply agree_weaken; [|exact Ha]. cbv beta.
  intros a Hin. unfold off_screen, off_contexts, in_contexts in *.
  split; [intros Hr; destruct (kb_screen _ _ _ _ _ _ K a Hr); unfold in_contexts in *; lia|lia].
Qed.

(** Drawing the status bar changes nothing of this. *)
Lemma runs_status_bar s C q :
  runs s C q ->
  exists s', drawstatus F V s = Ok (tt, s') /\ runs s' C q /\ o_objs s' = o_objs s.
Proof.
  intros H. destruct (runs_shown s C q H) as (A & HA & Hs & Hon).
  pose proof (rn_wired _ _ _ H) as W.
  destruct (drawstatus_run F V FO s c W) as (s1 & R & V1 & K1 & C1 & _ & U1 & X1).
  exists s1. split_and!; [done| |apply K1]. rewrite <- (on_shown_id C A HA).
  apply (runs_drawn s s1 C q A); [done|done| |done|].
  2:{ unfold cursor_at. rewrite X1. exact (rn_cursor _ _ _ H A HA). }
  split; try (by rewrite V1); try done.
  - apply (wired_kept s); [done|done|rewrite V1; apply W|rewrite V1; apply W].
  - split; [rewrite V1; apply Hs|]. intros pos Hp. rewrite C1 by done. by apply Hs.
Qed.

(** *** One key *)

Lemma flags_range (rel : bool) st :
  let flags := if rel then Z.lor (u16 st) KBD_CAP_UP else u16 st in u16 flags = flags.
Proof.
  intros flags. subst flags. destruct rel; [|apply u16_idem]. unfold u16, KBD_CAP_UP.
  rewrite <- !(Z.land_ones _ 16), Z.land_lor_distr_l, <- Z.land_assoc by done. done.
Qed.
Lemma event_ranges st b :
  0 <= kd_vk (event st b) < 256 /\ u16 (kd_flags (event st b)) = kd_flags (event st b).
Proof. split; [apply (key_of_spec st b)|apply flags_range]. Qed.

Lemma extended_key_range k vk : extended_key k = Some vk -> 0 <= vk < 256.
Proof.
  unfold extended_key. intros H. repeat case_match; try discriminate H; injection H as <-;
    vm_compute; split; easy.
Qed.

Lemma decoded_ranges vk0 st q ev st' :
  0 <= vk0 < 256 -> decoded vk0 st q = Some (ev, st') ->
  0 <= kd_vk ev < 256 /\ u16 (kd_flags ev) = kd_flags ev.
Proof.
  intros Hvk H. destruct q as [|b0 [|b [|? ?]]]; try discriminate H; cbn [decoded] in H.
  - injection H as <- _. apply event_ranges.
  - destruct (b0 =? 0xE0); [|discriminate H]. injection H as <- _. split.
    + cbn [kd_vk extended_event]. destruct (extended_key (keycode b)) eqn:E; [|done].
      by eapply extended_key_range.
    + apply flags_range.
Qed.

(** Nothing is pending. *)
Lemma loop_idle fuel vk0 kb s C len r :
  runs s C [] -> 4 <= len ->
  exists m, vtcon_read_loop F V (S fuel) vk0 kb buf len r s = Ok (r, set_kmem m s) /\
    runs (set_kmem m s) C [] /\ agree (fun a => ~ rb_cells (kmem s) p n a) (kmem s) m.
Proof.
  intros H Hlen. destruct (runs_takes s C [] H) as (m & R & H' & _ & Ha).
  exists m. split_and!; [|exact H'|].
  - cbn [vtcon_read_loop]. rewrite (proj2 (Z.leb_le 4 len)) by done. cbn [negb]. rewrite gets_bind.
    by mstep R.
  - eapply agree_weaken; [|exact Ha]. cbn. intros a Hin. split; [done|lia].
Qed.

(** What the answer is, and where. *)
Definition told (o : option kbdev) (r : Z) (m : mem) : Prop :=
  match o with
  | Some ev => r = 4 /\ Kbdev (load16 m buf) (load16 m (buf + 2)) = ev
  | None => r = 0
  end.

(** The event is shown and stored. *)
Lemma event_told fuel vk0 s C ev :
  runs s C [] -> 0 <= kd_vk ev < 256 -> u16 (kd_flags ev) = kd_flags ev ->
  exists s', (_ ← echo_scancode F V ev; _ ← stw buf (kd_vk ev); _ ← stw (buf + 2) (kd_flags ev);
      vtcon_read_loop F V (S fuel) vk0 ev buf (64 -w 4) (0 +w 4)) s = Ok (4, s') /\
    runs s' (echo ev C) [] /\ told (Some ev) 4 (kmem s').
Proof.
  intros H Hvk Hfl. destruct (echo_run ev s C [] H Hvk) as (s4 & R4 & H4).
  destruct (runs_stores s4 _ [] (kd_vk ev) (kd_flags ev) H4) as (H5 & L1 & L2).
  set (s5 := set_kmem _ s4) in *.
  destruct (loop_idle fuel vk0 ev s5 _ (64 -w 4) (0 +w 4) H5) as (m6 & R6 & H6 & A6); [done|].
  assert (forall i, 0 <= i < 64 -> ~ rb_cells (kmem s5) p n (buf + i)) as Hr.
  { intros i Hi Hr. destruct (kb_apart _ _ _ _ _ _ (rn_keyboard _ _ _ H5) _ Hr). lia. }
  eexists. split; [|split; [exact H6|]].
  - mstep R4. mstep (stw_run buf (kd_vk ev) s4).
    mstep (stw_run (buf + 2) (kd_flags ev) (set_kmem (store16 (kmem s4) buf (kd_vk ev)) s4)).
    rewrite kmem_set_kmem, set_kmem_kmem. fold s5. exact R6.
  - split; [done|]. rewrite kmem_set_kmem.
    rewrite <- (load16_agree _ _ _ buf A6), <- (load16_agree _ _ _ (buf + 2) A6).
    + subst s5. rewrite kmem_set_kmem, L1, L2, Hfl, u16_small by lia. by destruct ev.
    + apply Hr. lia.
    + rewrite <- Z.add_assoc. apply Hr. lia.
    + rewrite <- (Z.add_0_r buf). apply Hr. lia.
    + apply Hr. lia.
Qed.

(** A delivery of fewer than 17 bytes is the last one. *)
Lemma loop_strikes fuel vk0 kb s C q :
  runs s C q -> (length q < 17)%nat -> 0 <= vk0 < 256 ->
  exists r s', vtcon_read_loop F V (S (S fuel)) vk0 kb buf 64 0 s = Ok (r, s') /\
    runs s' (strike vk0 C q).2 [] /\ told (strike vk0 C q).1 r (kmem s').
Proof.
  intros H Hq Hvk. destruct (decide (q = [])) as [->|Hne].
  { destruct (loop_idle (S fuel) vk0 kb s C 64 0 H) as (m & R & H' & _); [done|].
    by exists 0, (set_kmem m s). }
  destruct (runs_takes s C q H) as (m & R2 & H2 & L & _).
  rewrite firstn_all2 in R2, L by lia. rewrite drop_ge in H2 by lia.
  set (s2 := set_kmem m s) in *. change m with (kmem s2) in L.
  pose proof (w_current _ _ (rn_wired _ _ _ H2)) as Hcur.
  rewrite <- (w_contexts _ _ (rn_wired _ _ _ H2)) in Hcur.
  pose proof (decode_run vk0 kb (f_kbd F) q s2 Hcur L Hne) as R3.
  rewrite (runs_status _ _ _ H2) in R3. remember (S fuel) as fuel1 eqn:E1.
  cbn [vtcon_read_loop]. change (negb (4 <=? 64)) with false. cbn iota. rewrite gets_bind. mstep R2.
  assert (length q <> 0%nat) as Hl by (by destruct q).
  rewrite if_app, (proj2 (Z.eqb_neq (Z.of_nat (length q)) 0)) by lia. unfold strike.
  destruct (decoded vk0 (status_in C) q) as [[ev st]|] eqn:Ed; mstep R3.
  - change (0 =? 0) with true. cbn iota. subst fuel1.
    destruct (decoded_ranges _ _ _ _ _ Hvk Ed) as [Hr1 Hr2].
    destruct (event_told fuel vk0 _ _ ev (runs_set_status s2 C [] st H2) Hr1 Hr2)
      as (s' & R & H' & T).
    exists 4, s'. split_and!; [exact R|exact H'|exact T].
  - change (-1 =? 0) with false. cbn iota. subst fuel1.
    destruct (loop_idle fuel vk0 kb s2 C 64 0 H2) as (m' & R & H' & _); [done|].
    exists 0, (set_kmem m' s2). split_and!; [exact R|exact H'|done].
Qed.

(** All deliveries of a read. *)
Lemma loop_reads k fuel vk0 kb s C q :
  runs s C q -> (length q / 17)%nat = k -> (k + 2 <= fuel)%nat -> 0 <= vk0 < 256 ->
  exists r s', vtcon_read_loop F V fuel vk0 kb buf 64 0 s = Ok (r, s') /\
    runs s' (reads vk0 C q).2 [] /\ told (reads vk0 C q).1 r (kmem s').
Proof.
  revert fuel kb s q. induction k as [|k IH]; intros fuel kb s q H Hk Hf Hvk; unfold reads; rewrite Hk.
  - destruct fuel as [|[|fuel]]; [lia..|]. rewrite Nat.mul_0_r, drop_0. apply loop_strikes; [done| |done].
    apply Nat.div_small_iff in Hk; [lia|done].
  - assert (17 <= length q)%nat as Hl.
    { destruct (decide (length q < 17)%nat) as [Hlt|]; [|lia].
      rewrite Nat.div_small in Hk by done. done. }
    assert (length (drop 17 q) / 17 = k)%nat as Hk'.
    { rewrite length_drop. replace (length q) with (length q - 17 + 1 * 17)%nat in Hk by lia.
      rewrite Nat.div_add in Hk by done. lia. }
    destruct fuel as [|fuel]; [lia|].
    destruct (runs_takes s C q H) as (m & R & H' & _ & _). rewrite length_take_le in R by lia.
    destruct (IH fuel kb (set_kmem m s) (drop 17 q) H' Hk' ltac:(lia) Hvk) as (r & s' & R' & H2 & T).
    unfold reads in H2, T. rewrite Hk', drop_drop in H2, T.
    replace (17 * S k)%nat with (17 + 17 * k)%nat by lia.
    exists r, s'. split_and!; [|exact H2|exact T]. cbn [vtcon_read_loop].
    change (negb (4 <=? 64)) with false. cbn iota. rewrite gets_bind. mstep R.
    change (Z.of_nat 17) with 17. change (17 =? 0) with false. cbn iota.
    mstep (decode_other_run vk0 kb (f_kbd F) 17 (set_kmem m s) ltac:(done) ltac:(by left)). exact R'.
Qed.

Lemma runs_reads fuel vk0 s C q :
  runs s C q -> (length q / 17 + 2 <= fuel)%nat -> 0 <= vk0 < 256 ->
  exists r s', vtcon_read F V fuel vk0 buf 64 s = Ok (r, s') /\
    runs s' (reads vk0 C q).2 [] /\ told (reads vk0 C q).1 r (kmem s').
Proof.
  intros H Hf Hvk. destruct (runs_status_bar s C q H) as (s1 & R1 & H1 & _).
  destruct (loop_reads _ fuel vk0 (Kbdev 0 0) s1 C q H1 eq_refl Hf Hvk) as (r & s2 & R2 & H2 & T).
  exists r, s2. split_and!; [|exact H2|exact T]. unfold vtcon_read. by mstep R1.
Qed.

(** A read when nothing is pending. *)
Lemma runs_idle fuel vk0 s C :
  runs s C [] ->
  exists s', vtcon_read F V (S fuel) vk0 buf 64 s = Ok (0, s') /\ runs s' C [] /\
    o_objs s' = o_objs s.
Proof.
  intros H. destruct (runs_status_bar s C [] H) as (s1 & R1 & H1 & E1).
  destruct (loop_idle fuel vk0 (Kbdev 0 0) s1 C 64 0 H1) as (m & R2 & H2 & _); [done|].
  exists (set_kmem m s1). split_and!; [|done|done]. unfold vtcon_read. by mstep R1.
Qed.

(** A write. *)
Lemma runs_writes s C q a len :
  runs s C q -> 0 < len -> (forall i, 0 <= i < len -> ~ scratch F (a + i)) ->
  exists s', vtcon_write F V a len s = Ok (len, s') /\
    runs s' (type_text (load_bytes (kmem s) a (Z.to_nat len)) C) q /\
    untouched F (kmem s) (kmem s') /\ o_objs s' = o_objs s.
Proof.
  intros H Hlen Ha. destruct (runs_shown s C q H) as (A & HA & Hs & Hon).
  destruct (vtcon_write_loop_run F V FO (Z.to_nat (len - 1)) a s c A (rn_wired _ _ _ H) Hs Hon)
    as (s' & R & [D _ X] & Hon'); [intros i Hi; apply Ha; lia|].
  replace (S (Z.to_nat (len - 1))) with (Z.to_nat len) in * by lia.
  exists s'. split_and!; [|by apply (runs_drawn s s' C q A)|apply D|apply D].
  unfold vtcon_write. by mstep R.
Qed.

(** The controller gets a scancode: nothing else changes. *)
Lemma runs_controller s C q b :
  runs s C q -> exists s', controller b s = Ok (tt, s') /\ runs s' C q /\
    forall io, k_hw (i_k (o_dst s')) io 0x60 = b.
Proof.
  intros [W HS E M K Q I]. eexists. split; [reflexivity|]. split; [|done]. split.
  - destruct W as [H1 H2 (regs & Hc & Hh) H4 H5 H6]. split; try done.
    exists regs. split; [|done]. intros io r. exact (Hc io r).
  - by destruct HS.
  - done.
  - done.
  - by destruct K.
  - exact Q.
  - done.
Qed.

(** The interrupt puts the code into the ring. *)
Lemma runs_interrupt fuel e s C q b :
  runs s C q -> k_hw (i_k (o_dst s)) (k_io (i_k (o_dst s))) 0x60 = b ->
  exists s', low (idt_handler (Chardev.run_isr fuel) (IdtData 0x21 e)) s = Ok (tt, s') /\
    runs s' C (push n q b).
Proof.
  intros [W HS E M K Q I] Hhw. pose proof (kb_rbuf _ _ _ _ _ _ K) as Hp.
  destruct (kb_repr _ _ _ _ _ _ K) as [ovf Hr].
  destruct (Chardev.Facts.keyboard_interrupt_run fuel (o_dst s) e n q ovf I) as (m & R & Hr' & Ho & Ha).
  { by rewrite Hp. }
  rewrite Hp, Hhw in *.
  assert (push n q (u8 b) = push n q b) as Epush by (unfold push; by rewrite u8_idem).
  rewrite Epush in Hr'.
  eexists. split; [by apply low_run|]. set (s' := set_dst _ s).
  assert (kept s s') as Kp by done. change (k_mem (i_k (o_dst s))) with (kmem s) in *.
  change m with (kmem s') in Ha, Ho, Hr'.
  assert (forall a, rb_cells (kmem s') p n a <-> rb_cells (kmem s) p n a) as Hc
    by (intros a; unfold rb_cells; by rewrite Ho).
  split; [apply (wired_kept s); [done|done|apply W|apply W]| |done|done| | |by apply (isr_kept s)].
  - apply (screens_agree F s); [done|done|done|]. eapply agree_weaken; [|exact Ha]. cbv beta.
    intros a Hin Hr1. destruct (kb_screen _ _ _ _ _ _ K a Hr1). tauto.
  - destruct K as [K1 K2 K3 K4 K5 K6]. split.
    + exact K1.
    + exact K2.
    + by eexists.
    + unfold buf_apart in *. by rewrite Ho.
    + intros a Hin. apply K5. by apply Hc.
    + intros a Hin. apply K6. by apply Hc.
  - intros A HA. unfold cursor_at. rewrite <- (Q A HA). unfold Vgafb.Facts.cursor, Vgafb.Facts.crtc_of.
    cbn. by rewrite foldl_app.
Qed.

Lemma runs_arrive fuel e s C q bs :
  runs s C q -> exists s', arrive fuel e bs s = Ok (tt, s') /\ runs s' C (foldl (push n) q bs).
Proof.
  revert s q. induction bs as [|b bs IH]; intros s q H; [by exists s|]. cbn [arrive foldl].
  destruct (runs_controller s C q b H) as (s1 & R1 & H1 & Hhw).
  destruct (runs_interrupt fuel e s1 C q b H1 (Hhw _)) as (s2 & R2 & H2).
  destruct (IH s2 _ H2) as (s3 & R3 & H3). exists s3. split; [|exact H3]. mstep R1. by mstep R2.
Qed.

(** What the reader is told. *)
Definition answer (o : option kbdev) : Z * option kbdev :=
  match o with Some ev => (4, Some ev) | None => (0, None) end.

Lemma runs_stroke fuel vk0 e s C bs :
  runs s C [] -> (Z.to_nat n / 17 + 2 <= fuel)%nat -> 0 <= vk0 < 256 ->
  exists s', stroke F V fuel vk0 e buf bs s = Ok (answer (turn n vk0 C bs).1, s') /\
    runs s' (turn n vk0 C bs).2 [].
Proof.
  intros H Hf Hvk. destruct (runs_arrive fuel e s C [] bs H) as (s2 & R2 & H2).
  fold (turn n vk0 C bs). set (q := foldl (push n) [] bs) in *.
  destruct (runs_reads fuel vk0 s2 C q H2) as (r & s3 & R3 & H3 & T); [|done|].
  { pose proof (Nat.Div0.div_le_mono _ _ 17 (runs_pending s2 C q H2)). lia. }
  exists s3. split; [|exact H3]. unfold stroke. mstep R2. mstep R3. rewrite !gets_bind.
  unfold turn. fold q. destruct (reads vk0 C q).1 as [ev|]; [destruct T as [-> <-]|cbn in T; subst r]; done.
Qed.

Lemma runs_session fuel vk0 e s C bss :
  runs s C [] -> (Z.to_nat n / 17 + 2 <= fuel)%nat -> 0 <= vk0 < 256 ->
  exists s', session F V fuel vk0 e buf bss s = Ok (answer <$> (turns n vk0 C bss).1, s') /\
    runs s' (turns n vk0 C bss).2 [].
Proof.
  intros H Hf Hvk. revert s C H. induction bss as [|bs bss IH]; intros s C H; [by exists s|].
  cbn [session turns].
  destruct (runs_stroke fuel vk0 e s C bs H Hf Hvk) as (s1 & R1 & H1).
  destruct (IH s1 _ H1) as (s2 & R2 & H2). mstep R1. mstep R2.
  destruct (turn n vk0 C bs) as [ev C1]. cbn [snd fst] in *.
  exists s2. by destruct (turns n vk0 C1 bss).
Qed.

End refine.
End Refine.
Import Refine.

