(* ===== verification/Opening.v ===== *)
(** * Opening the console

    [Module Devices]: the device files of the kernel are found under their
    names.  [Module Console]: [vtcon_open] (kernel/device/vtcon/vtcon.c) from
    a machine whose console is closed to the machine of Session.v. *)
From S2P Require Import Prelude Mem Alloc Ringbuf Ports Idt Device Objects Vfs Devfs Vtcon KernMain VfsProps DevfsProps VtconProps VtconKeys Session.
From S2P Require CString Chardev Rtclock Vgafb.
From stdpp Require Import strings.
Local Open Scope Z_scope.
Import Idt.Impl CString.Pure VfsProps.Walk VfsProps.Nodes VfsProps.Table DevfsProps.Dir DevfsProps.Route
  KernMain.Impl.

(** ** The files of the devices *)
Module Devices.

(** What the console's and the kernel's own files are called. *)
Definition file_name (d : dev_name) : list Z :=
  match d with
  | vgafb_device => chars_of "fb"
  | keyboard_device => chars_of "kbd"
  | clock_device => chars_of "clock"
  | _ => chars_of "vtcon"
  end.
Definition own_devices : list dev_name := [vgafb_device; keyboard_device; clock_device; vtcon_device].

(** The VFS with devfs mounted as DEV, and the files in it. *)
Record device_tree (s : ker) (ws : list vol) (rs es : list entry) : Prop := DeviceTree {
  dt_rich : rich s;
  dt_mounts : mounts s ws rs;
  dt_installed : installed s es;
  dt_volume : exists v, lookup_vol ws (chars_of "DEV") = Some v /\ vv_root v.2 = devfs_rootdir;
  dt_apart : devmgr_list s <> vfs_volumes s /\ devmgr_list s <> rootfs_nodes s;
  dt_root : exists n, mounted_node s devfs_rootdir devfs_fs n /\ vn_flags n = VN_FDIR;
  dt_file d : d ∈ own_devices -> exists e, find_entry es (file_name d) = Some e /\ device_node s e.1 d
}.

Lemma installed_same s s' es : installed s es -> same_tree s s' -> installed s' es.
Proof.
  intros [H1 H2 H3 H4 H5 H6 H7] (Eo & Hn & _ & Et). injection Et as _ _ _ Ed.
  split; rewrite ?Eo, ?Ed; try done; [|lia]. intros p Hp. apply H1 in Hp. lia.
Qed.

Lemma device_tree_same s s' ws rs es :
  device_tree s ws rs es -> same_tree s s' -> device_tree s' ws rs es.
Proof.
  intros [H1 H2 H3 H4 H5 H6 H7] T. pose proof T as (Eo & _ & Eg & Et). split.
  - intros i. by rewrite Eg.
  - by apply (mounts_same s).
  - by apply (installed_same s).
  - done.
  - injection Et as -> _ -> ->. done.
  - unfold mounted_node in *. by rewrite Eo.
  - unfold device_node in *. by rewrite Eo.
Qed.

(** Resolving a path takes memory for a copy of it. *)
Definition resolved (s : ker) : ker := set_next (o_next s + 1) (tick s).
Lemma resolved_tree s : same_tree s (resolved s).
Proof. split_and!; try done. cbn. lia. Qed.

Section kernel.
Context `{Allocator} (c : config) (console : Devfs.Impl.device).
Local Abbreviation fs := (filesystems_with c console).

Lemma resolve_device s ws rs es d :
  device_tree s ws rs es -> d ∈ own_devices ->
  exists p, Path.fs_resolve (H := fs) (chars_of "DEV" ++ 58 :: 47 :: file_name d) s = Ok (p, resolved s) /\
    device_node s p d.
Proof.
  intros T Hd. destruct (dt_file _ _ _ _ T d Hd) as (e & He & Hn). exists e.1. split; [|done].
  destruct (dt_volume _ _ _ _ T) as (v & Hv & Hroot).
  assert (Forall component [file_name d] /\ chars (file_name d) /\ file_name d <> []) as (C1 & C2 & C3).
  { repeat (apply elem_of_cons in Hd as [-> |Hd]; [split_and!; decided|]).
    by apply not_elem_of_nil in Hd. }
  pose proof (fs_resolve_run (H := fs) s ws rs (chars_of "DEV") v [file_name d] (dt_rich _ _ _ _ T)
    (dt_mounts _ _ _ _ T) Hv ltac:(decided) ltac:(decided)) as R. cbn [join] in R.
  rewrite R; [|by rewrite Hroot|done|done|].
  2:{ intros q n r s' Hrun. exact (VfsProps.Start.finddir_reads_only c console q n _ _ _ Hrun). }
  rewrite Hroot. cbn [follow]. unfold entry_of, Ops.fs_finddir. fold (resolved s).
  destruct (dt_root _ _ _ _ T) as (nd & Hnd & Hfl).
  rewrite (mounted_dispatch_run (H := fs) vfs_finddir Ops.is_dir _ _ (resolved s) devfs_rootdir devfs_fs nd
    Devfs.Impl.devfs_finddir Hnd eq_refl) by by rewrite Hfl.
  pose proof (installed_same _ _ _ (dt_installed _ _ _ _ T) (resolved_tree s)) as HI.
  rewrite (devfs_finddir_run es devfs_rootdir (file_name d) (resolved s) HI C2), He. done.
Qed.

End kernel.
End Devices.
Import Devices.

(** ** From a closed console to an open one *)
Module Console.
Import Vtcon.Impl VtconProps.Screen VtconProps.Bus VtconProps.Draw VtconProps.Contexts
  VtconKeys.Keymap VtconKeys.Reader Session.Machine Session.Refine Ringbuf.Rep.

Section console.
Context `{Allocator} (c : config) (con : Devfs.Impl.device) (fuel : nat).
Context (Hfuel : c_fuel c = S fuel) (F : frame) (V : list Z).
Context (FO : frame_ok F) (FA : contexts_apart F).
Context (clock : rtclock) (buf p n : Z).
Local Abbreviation fs := (filesystems_with c con).
#[local] Instance files : ConsoleFiles fs := kernel_console_files c con fuel Hfuel.

(** The screens, the clock and the keyboard as in [runs], but no file is open;
    the hardware cursor may be anywhere. *)
Record standby (s : ker) (C : console) : Prop := Standby {
  sb_fb : con_fb (o_vt s) = 0;
  sb_shows : clock_shows s clock;
  sb_print : Rtclock.Facts.printable clock;
  sb_contexts : length (contexts (o_vt s)) = 8%nat;
  sb_current : (current_context (o_vt s) < 8)%nat;
  sb_screens : screens F s (scrs C);
  sb_shown : current_context (o_vt s) = shown C;
  sb_mods : kbd_status <$> contexts (o_vt s) = mods C;
  sb_rbuf : keyboard_rbuf (i_ext (o_dst s)) = p;
  sb_repr : exists ovf, repr (kmem s) p n [] ovf;
  sb_kbd : buf_apart (kmem s) p n (f_kbd F) 17;
  sb_apart a : rb_cells (kmem s) p n a -> ~ scratch F a /\ ~ (buf <= a < buf + 64);
  sb_screen a : rb_cells (kmem s) p n a -> ~ 0xB8000 <= a < 0xB8000 + 4000 /\ ~ in_contexts F a;
  sb_isr : idt_handlers (o_dst s) !! 0x21%nat = Some (Some keyboard_key_handler_ptr)
}.

Lemma opens_at_once d :
  d ∈ [vgafb_device; keyboard_device; clock_device] ->
  exists f, Devfs.Impl.dev_open (devices_with c con d) = Some f /\
    forall flags s, f flags s = Ok (0, s).
Proof.
  intros Hd. repeat (apply elem_of_cons in Hd as [-> |Hd];
    [eexists; split; [done|]; by intros flags [[] ? ? ? ? ? ? ? ? ? ? ?]|]).
  by apply not_elem_of_nil in Hd.
Qed.

Lemma try_open_run s ws rs es d (set : Z -> vtstate -> vtstate) flags :
  device_tree s ws rs es -> d ∈ [vgafb_device; keyboard_device; clock_device] ->
  exists q, try_open (H := fs) set (chars_of "DEV" ++ 58 :: 47 :: file_name d) flags s
      = Ok (0, set_vt (set q (o_vt s)) (resolved s)) /\ device_node s q d.
Proof.
  intros T Hd. destruct (resolve_device c con s ws rs es d T) as (q & R & Hn).
  { change own_devices with ([vgafb_device; keyboard_device; clock_device] ++ [vtcon_device]).
    apply elem_of_app. by left. }
  exists q. split; [|done]. unfold try_open. mstep R. unfold mod_vt. rewrite modify_bind.
  set (s1 := set_vt _ _). assert (device_node s1 q d) as Hn1 by exact Hn.
  assert (q <> 0) as Hq by (by destruct Hn as (? & ? & ? & _)).
  rewrite if_app, (proj2 (Z.eqb_neq q 0)) by done.
  pose proof (fs_open_run (H := devices_with c con) (H0 := fs) eq_refl s1 q d flags Hn1) as Ro.
  destruct (opens_at_once d Hd) as (f & Hf & Hrun).
  assert (Ops.fs_open (H := fs) q flags s1 = Ok (0, s1)) as Ro1.
  { rewrite Ro. change (Devfs.Impl.device_of d) with (devices_with c con d). by rewrite Hf. }
  by mstep Ro1.
Qed.

(** The three files. *)
Definition with_files (q1 q2 q3 : Z) (s : ker) : ker :=
  set_vt (VtState q1 q2 q3 (contexts (o_vt s)) (current_context (o_vt s)))
    (resolved (resolved (resolved s))).

Lemma with_files_tree q1 q2 q3 s : same_tree s (with_files q1 q2 q3 s).
Proof. split_and!; try done. cbn. lia. Qed.

Lemma with_files_wired q1 q2 q3 s C :
  standby s C -> device_node s q1 vgafb_device -> device_node s q2 keyboard_device ->
  device_node s q3 clock_device ->
  wired (with_files q1 q2 q3 s) clock /\ screens F (with_files q1 q2 q3 s) (scrs C) /\
  keyboard F buf (with_files q1 q2 q3 s) p n [].
Proof.
  intros [H1 H2 H3 H4 H5 [S1 S2 S3 S4] H7 H8 H9 H10 H11 H12 H13 H14] N1 N2 N3.
  split_and!; split; done.
Qed.

(** Status bar and cursor. *)
Lemma refreshed s C :
  wired s clock -> screens F s (scrs C) -> keyboard F buf s p n [] ->
  current_context (o_vt s) = shown C -> kbd_status <$> contexts (o_vt s) = mods C ->
  idt_handlers (o_dst s) !! 0x21%nat = Some (Some keyboard_key_handler_ptr) ->
  exists s1 s2, drawstatus (H := fs) F V s = Ok (tt, s1) /\ syncfbcursor (H := fs) F s1 = Ok (tt, s2) /\
    same_tree s s2 /\ runs F clock buf p n s2 C [] /\ untouched F (kmem s) (kmem s2).
Proof.
  intros W HS K E M I.
  destruct (drawstatus_run (fs := fs) F V FO s clock W) as (s1 & R1 & V1 & K1 & C1 & _ & U1 & _).
  assert (wired s1 clock) as W1
    by (apply (wired_kept s); [done|done|rewrite V1; apply W|rewrite V1; apply W]).
  destruct (syncfbcursor_run (fs := fs) F FO s1 clock W1) as (s2 & R2 & V2 & K2 & C2 & X2 & U2).
  assert (kept s s2) as K12 by by eapply wired_kept_trans.
  assert (untouched F (kmem s) (kmem s2)) as U12 by by eapply agree_trans.
  assert (o_vt s2 = o_vt s) as V12 by congruence.
  assert (exists A, scrs C !! shown C = Some A) as [A HA].
  { apply lookup_lt_is_Some_2. rewrite (sc_length _ _ _ HS), <- E. apply W. }
  destruct (screens_shows F s (scrs C) A HS) as [Sh On]; [by rewrite E|].
  assert (drawn F clock s s2 A) as D.
  { split; try by rewrite V12.
    - apply (wired_kept s); [done|done|rewrite V12; apply W|rewrite V12; apply W].
    - done.
    - split; [rewrite V12; apply Sh|]. intros pos Hp. rewrite C2, C1 by lia. by apply Sh.
    - done. }
  exists s1, s2. split_and!; [done|done|apply K12| |done]. split.
  - apply D.
  - pose proof (screens_drawn F FA clock s s2 (scrs C) A HS (w_current _ _ W) D On) as HS'.
    by rewrite E, list_insert_id in HS'.
  - by rewrite V12.
  - by rewrite V12.
  - by apply (keyboard_untouched F buf p n s).
  - intros B HB. rewrite HA in HB. injection HB as <-. unfold cursor_at. rewrite X2, V1.
    destruct (sh_ctx _ _ Sh) as (Ex & Ey & _). unfold on_screen in On. rewrite Ex, Ey.
    unfold u16. rewrite Z.mod_small; lia.
  - by apply (isr_kept s).
Qed.

(** [vtcon_open] finds its three files and draws the status bar. *)
Lemma vtcon_open_run s ws rs es C :
  device_tree s ws rs es -> standby s C ->
  exists s', vtcon_open (H := fs) F V VO_FWRITE s = Ok (0, s') /\ same_tree s s' /\
    runs F clock buf p n s' C [] /\ untouched F (kmem s) (kmem s').
Proof.
  intros T HS. unfold vtcon_open. change (Z.land VO_FWRITE VO_FREAD) with 0. cbn [negb Z.eqb].
  unfold fb. rewrite gets_bind, (sb_fb _ _ HS). cbn [negb Z.eqb].
  destruct (try_open_run s ws rs es vgafb_device set_con_fb VO_FWRITE T ltac:(set_solver))
    as (q1 & R1 & N1).
  set (s1 := set_vt _ _) in R1. assert (same_tree s s1) as T1 by apply resolved_tree.
  destruct (try_open_run s1 ws rs es keyboard_device set_con_kbd VO_FREAD
    (device_tree_same _ _ _ _ _ T T1) ltac:(set_solver)) as (q2 & R2 & N2).
  set (s2 := set_vt _ _) in R2.
  assert (same_tree s s2) as T2 by (eapply same_tree_trans; [exact T1|apply resolved_tree]).
  destruct (try_open_run s2 ws rs es clock_device set_vt_clock VO_FREAD
    (device_tree_same _ _ _ _ _ T T2) ltac:(set_solver)) as (q3 & R3 & N3).
  change (set_vt (set_vt_clock q3 (o_vt s2)) (resolved s2)) with (with_files q1 q2 q3 s) in R3.
  destruct (with_files_wired q1 q2 q3 s C HS N1 N2 N3) as (W & S3 & K).
  destruct (refreshed (with_files q1 q2 q3 s) C W S3 K (sb_shown _ _ HS) (sb_mods _ _ HS) (sb_isr _ _ HS))
    as (s4 & s5 & R4 & R5 & T5 & HR & U).
  exists s5. split_and!; [|by eapply same_tree_trans; [apply with_files_tree|]|done|exact U].
  unfold try_open_fb, try_open_kbd, try_open_clock.
  change (chars_of "DEV:/fb") with (chars_of "DEV" ++ 58 :: 47 :: file_name vgafb_device).
  change (chars_of "DEV:/kbd") with (chars_of "DEV" ++ 58 :: 47 :: file_name keyboard_device).
  change (chars_of "DEV:/clock") with (chars_of "DEV" ++ 58 :: 47 :: file_name clock_device).
  mstep R1. change (0 <? 0) with false. cbn iota. mstep R2. change (0 <? 0) with false. cbn iota.
  mstep R3. change (0 <? 0) with false. cbn iota. mstep R4. by mstep R5.
Qed.

End console.
End Console.
