(* ===== verification/Welcome.v ===== *)
(** * The end of [kernel_main]

    [kernel_welcome] (kernel/kern/kern_main.c) copies a file of the archive to
    the console, block by block, through both file systems, and then reads the
    console for ever. *)
From S2P Require Import Prelude Mem Alloc Ringbuf Ports Idt Device Objects Vfs Devfs Tarfs Scancodes Vtcon KernMain VfsProps DevfsProps TarfsProps VtconProps VtconKeys Session.
From S2P Require CString Chardev Rtclock Vgafb.
From stdpp Require Import strings.
Local Open Scope Z_scope.
Import Idt.Impl CString.Pure VfsProps.Nodes DevfsProps.Route Vtcon.Impl KernMain.Impl VtconProps.Screen VtconProps.Bus
  VtconProps.Draw VtconProps.Contexts VtconKeys.Keymap VtconKeys.Reader Session.Machine
  Session.Stroke Session.Refine.

(** ** The message of the day *)
Module Welcome.
Import Tarfs.Impl TarfsProps.Bytes TarfsProps.Scan.

(** [p] is the node of a file on the mounted archive; its header block is
    [t]'s. *)
Definition archive_node (s : ker) (p : Z) (t : tarfs_node) : Prop :=
  exists n, mounted_node s p tarfs_driver n /\ vn_flags n = VN_FREGFILE /\ vn_payload n <> 0 /\
    view as_tarnode (o_objs s) (vn_payload n) = Some t.
(** The header's size and the data. *)
Definition archive_cells (t : tarfs_node) (sz a : Z) : Prop :=
  tn_block t + t_size <= a < tn_block t + 512 + sz.

Section welcome.
Context `{Allocator} (c : config) (levels fuel : nat).
Context (Hlevels : c_levels c = S levels) (Hfuel : c_fuel c = S fuel) (Hf : (17 < c_fuel c)%nat).

(** The files the console itself works on, and those of the kernel. *)
#[local] Instance below_console : FsDrivers := filesystems_with c (KernMain.Impl.console c levels).
#[local] Instance console_files : ConsoleFiles below_console :=
  kernel_console_files c (KernMain.Impl.console c levels) fuel Hfuel.
#[local] Instance console_keyboard : KeyboardFile below_console :=
  kernel_keyboard_file c (KernMain.Impl.console c levels) Hf.

Context (FO : frame_ok (c_frame c)) (FA : contexts_apart (c_frame c)).
Context (FK : off_screen (f_kbd (c_frame c)) 17) (FKC : off_contexts (c_frame c) (f_kbd (c_frame c)) 17).
Context (clock : rtclock) (buffer p n : Z).
Context (FB : off_screen buffer 64) (FBC : off_contexts (c_frame c) buffer 64).
Context (FBS : forall i, 0 <= i < 64 -> ~ scratch (c_frame c) (buffer + i)).
Context (vtcon motd : Z) (t : tarfs_node) (sz : Z) (Hsz : 0 <= sz < 2147483648).
Context (Hcells : forall a, archive_cells t sz a ->
  ~ scratch (c_frame c) a /\ ~ buffer <= a < buffer + 64).

(** What the loop keeps: the memory apart from the console's arrays and the
    buffer, and all objects. *)
Definition same_but_screen (s s' : ker) : Prop :=
  o_objs s' = o_objs s /\
  agree (fun a => ~ scratch (c_frame c) a /\ ~ buffer <= a < buffer + 64) (kmem s) (kmem s').

Lemma same_but_screen_trans s1 s2 s3 :
  same_but_screen s1 s2 -> same_but_screen s2 s3 -> same_but_screen s1 s3.
Proof. intros [E1 A1] [E2 A2]. split; [congruence|by eapply agree_trans]. Qed.

(** The two files. *)
Definition files (s : ker) : Prop :=
  device_node s vtcon vtcon_device /\ archive_node s motd t /\
  cstr (kmem s) (tn_block t + t_size) (octal 11 sz).

Lemma files_same s s' : files s -> same_but_screen s s' -> files s'.
Proof.
  intros (H1 & H2 & H3) [Eo Ha]. unfold files, device_node, archive_node, mounted_node in *.
  rewrite Eo. split_and!; [done|done|]. eapply CString.Facts.cstr_agree; [exact H3|].
  eapply agree_weaken; [|exact Ha]. intros a Hin. apply Hcells. rewrite length_octal in Hin.
  unfold archive_cells, t_size in *. lia.
Qed.


(** *** The operations of the loop *)

#[local] Instance kernel_files : FsDrivers := kernel_filesystems c.

Lemma file_read_run s offt :
  files s -> 0 <= offt ->
  let k := Nat.min 64 (Z.to_nat (sz - offt)) in
  Ops.fs_read (H := kernel_files) motd offt buffer 64 s
  = Ok (Z.of_nat k, set_kmem (store_bytes (kmem s) buffer
          (load_bytes (kmem s) (tn_block t + 512 + offt) k)) s).
Proof.
  intros (_ & (nd & Hm & Hfl & Hpl & Ht) & Hsize) Ho k. unfold Ops.fs_read.
  rewrite (mounted_dispatch_run (H := kernel_files) vfs_read Ops.is_file _ _ s motd tarfs_driver nd (tarfs_read (c_fuel c)) Hm
    eq_refl) by by rewrite Hfl.
  destruct Hm as (v & Hp & Hn & _).
  apply (tarfs_read_run (c_fuel c) s motd nd t sz offt buffer 64); try done; try lia.
  destruct (Z.le_gt_cases (tn_block t + 512 + sz) buffer); [by right|left].
  destruct (Z.le_gt_cases (buffer + 64) (tn_block t + 512)); [done|exfalso].
  destruct (Hcells (Z.max buffer (tn_block t + t_size))) as [_ Hb]; unfold archive_cells, t_size in *; lia.
Qed.

Lemma console_device_of :
  Devfs.Impl.device_of (Devices := devices_with c (KernMain.Impl.console c (c_levels c))) vtcon_device
  = Vtcon.Impl.vtcon_dev (H := below_console) (c_frame c) (c_version c) (c_fuel c) (c_vk0 c).
Proof. rewrite Hlevels. reflexivity. Qed.

Lemma console_write_run s offt a len :
  device_node s vtcon vtcon_device ->
  Ops.fs_write (H := kernel_files) vtcon offt a len s
  = Vtcon.Impl.vtcon_write (H := below_console) (c_frame c) (c_version c) a len s.
Proof.
  intros Hd. rewrite (fs_write_run (H := devices_with c (KernMain.Impl.console c (c_levels c))) eq_refl
    s vtcon vtcon_device) by done.
  rewrite console_device_of. done.
Qed.

Lemma console_read_run s offt a len :
  device_node s vtcon vtcon_device ->
  Ops.fs_read (H := kernel_files) vtcon offt a len s
  = Vtcon.Impl.vtcon_read (H := below_console) (c_frame c) (c_version c) (c_fuel c) (c_vk0 c) a len s.
Proof.
  intros Hd. rewrite (fs_read_run (H := devices_with c (KernMain.Impl.console c (c_levels c))) eq_refl
    s vtcon vtcon_device) by done.
  rewrite console_device_of. done.
Qed.


(** *** The loop *)

(** The machine runs the abstract console [C], both files are open. *)
Definition ready (s : ker) (C : console) : Prop :=
  runs (c_frame c) clock buffer p n s C [] /\ files s.

(** What the file holds. *)
Definition content (s : ker) : list Z := load_bytes (kmem s) (tn_block t + 512) (Z.to_nat sz).

Lemma content_same s s' : same_but_screen s s' -> content s' = content s.
Proof.
  intros [_ Ha]. symmetry. apply (load_bytes_agree _ _ _ _ _ Ha). intros i Hi. apply Hcells.
  unfold archive_cells, t_size. lia.
Qed.

Lemma content_drop s offt k :
  0 <= offt -> Z.of_nat k <= sz - offt ->
  load_bytes (kmem s) (tn_block t + 512 + offt) k = take k (drop (Z.to_nat offt) (content s)).
Proof.
  intros Ho Hk. apply list_eq. intros i. unfold content.
  destruct (decide (i < k)%nat) as [Hi|Hi].
  - rewrite lookup_take_lt, lookup_drop, !load_bytes_lookup by lia.
    do 2 f_equal. lia.
  - rewrite !lookup_ge_None_2; [done| |by rewrite length_load_bytes; lia].
    rewrite length_take. lia.
Qed.

Lemma ready_same s s' C : ready s C -> same_but_screen s s' ->
  runs (c_frame c) clock buffer p n s' C [] -> ready s' C.
Proof. intros [_ Hfs] Hs Hr. split; [done|by eapply files_same]. Qed.

(** A block is read into the buffer ... *)
Lemma block_read s C offt :
  ready s C -> 0 <= offt <= sz ->
  let k := Nat.min 64 (Z.to_nat (sz - offt)) in
  exists s', Ops.fs_read (H := kernel_files) motd offt buffer 64 s = Ok (Z.of_nat k, s') /\
    ready s' C /\ same_but_screen s s' /\
    load_bytes (kmem s') buffer k = take k (drop (Z.to_nat offt) (content s)).
Proof.
  intros [Hr Hfs] Ho k. rewrite (file_read_run s offt Hfs ltac:(lia)). fold k.
  set (m := store_bytes _ _ _).
  assert (agree (fun a => ~ buffer <= a < buffer + 64) (kmem s) m) as Ha.
  { eapply agree_weaken; [|apply agree_copied]. cbv beta. lia. }
  assert (same_but_screen s (set_kmem m s)) as Hsame.
  { split; [done|]. eapply agree_weaken; [|exact Ha]. tauto. }
  exists (set_kmem m s). split_and!; [done| |done|].
  - split; [by apply runs_buffer|by eapply files_same].
  - rewrite kmem_set_kmem. unfold m. rewrite load_bytes_copy. apply content_drop; lia.
Qed.

(** ... and written to the console. *)
Lemma console_writes s C a len :
  ready s C -> 0 < len -> (forall i, 0 <= i < len -> ~ scratch (c_frame c) (a + i)) ->
  exists s', Ops.fs_write (H := kernel_files) vtcon 0 a len s = Ok (len, s') /\
    ready s' (type_text (load_bytes (kmem s) a (Z.to_nat len)) C) /\ same_but_screen s s'.
Proof.
  intros [Hr Hfs] Hlen Ha. rewrite console_write_run by apply Hfs.
  destruct (runs_writes (c_frame c) (c_version c) FO FA clock buffer p n s C [] a len Hr Hlen Ha)
    as (s' & R & Hr' & Hu & Ho).
  assert (same_but_screen s s') as Hsame.
  { split; [done|]. eapply agree_weaken; [|exact Hu]. tauto. }
  exists s'. split_and!; [done| |done]. split; [done|by eapply files_same].
Qed.

Lemma motd_loop_run rounds s C offt :
  ready s C -> 0 <= offt <= sz -> sz - offt + 64 <= 64 * Z.of_nat rounds ->
  exists s', motd_loop c rounds vtcon motd buffer offt s = Ok (tt, s') /\
    ready s' (type_text (drop (Z.to_nat offt) (content s)) C) /\ same_but_screen s s'.
Proof.
  revert s C offt. induction rounds as [|rounds IH]; intros s C offt HR Ho Hr; [lia|].
  cbn [motd_loop]. destruct (block_read s C offt HR Ho) as (s1 & R1 & H1 & S1 & L1).
  set (k := Nat.min 64 (Z.to_nat (sz - offt))) in *. mstep R1.
  assert (s32 (Z.of_nat k) = Z.of_nat k) as ->.
  { unfold s32. rewrite u32_small by lia. by rewrite (proj2 (Z.ltb_lt _ _)) by lia. }
  assert (length (content s) = Z.to_nat sz) as Hl by apply length_load_bytes.
  rewrite if_app. destruct (Z.ltb_spec 0 (Z.of_nat k)) as [Hk|Hk].
  - destruct (console_writes s1 C buffer (Z.of_nat k) H1 Hk) as (s2 & R2 & H2 & S2).
    { intros i Hi. apply FBS. lia. }
    rewrite Nat2Z.id, L1 in H2. mstep R2.
    destruct (IH s2 _ (offt + Z.of_nat k) H2) as (s3 & R3 & H3 & S3); [lia|lia|].
    assert (same_but_screen s s2) as S12 by by eapply same_but_screen_trans.
    exists s3. split_and!; [exact R3| |by eapply same_but_screen_trans].
    rewrite (content_same s s2 S12), <- type_text_app, Z2Nat.inj_add, Nat2Z.id, <- drop_drop,
      take_drop in H3 by lia. exact H3.
  - exists s1. split_and!; [done| |done]. rewrite drop_ge, type_text_nil by lia. exact H1.
Qed.

(** *** The end of [kernel_main] *)

Context (newline : Z) (Hnl : forall a, newline <= a <= newline + 1 ->
  ~ scratch (c_frame c) a /\ ~ buffer <= a < buffer + 64).

Lemma newline_run s C :
  ready s C -> cstr (kmem s) newline [10] ->
  exists s', fs_write_string c vtcon 0 newline s = Ok (1, s') /\ ready s' (type_text [10] C) /\
    same_but_screen s s'.
Proof.
  intros HR Hs. unfold fs_write_string.
  mstep (low_run _ s _ _ (kern_run _ (o_dst s) _ _
    (CString.Facts.strlen_run (c_fuel c) newline [10] (i_k (o_dst s)) Hs ltac:(cbn; lia) ltac:(cbn; lia)))).
  replace (set_dst (set_ik (i_k (o_dst s)) (o_dst s)) s) with s by (by destruct s as [[] ? ?]).
  destruct (console_writes s C newline 1 HR ltac:(lia)) as (s' & R & HR' & Hsame).
  { intros k Hk. apply Hnl. lia. }
  exists s'. split_and!; [exact R| |done]. destruct Hs as [Hs _].
  change (Z.to_nat 1) with 1%nat in HR'. rewrite load_bytes_S in Hs, HR'.
  injection Hs as E _. by rewrite E in HR'.
Qed.

Lemma close_run s : files s -> Ops.fs_close (H := kernel_files) motd s = Ok (0, s).
Proof.
  intros (_ & (nd & Hm & Hfl & _) & _). unfold Ops.fs_close.
  by rewrite (mounted_dispatch_run (H := kernel_files) vfs_close Ops.is_file _ _ s motd tarfs_driver
    nd tarfs_close Hm eq_refl) by by rewrite Hfl.
Qed.

Lemma idle_run rounds s C :
  runs (c_frame c) clock buffer p n s C [] -> device_node s vtcon vtcon_device ->
  exists s', idle c rounds vtcon buffer s = Ok (tt, s') /\
    runs (c_frame c) clock buffer p n s' C [].
Proof.
  revert s. induction rounds as [|rounds IH]; intros s HR Hd; [by exists s|].
  cbn [idle].
  destruct (runs_idle (c_frame c) (c_version c) FO FA FK FKC clock buffer p n FB FBC fuel (c_vk0 c) s C HR)
    as (s1 & R1 & H1 & E1).
  destruct (IH s1 H1) as (s2 & R2 & H2).
  { unfold device_node in *. by rewrite E1. }
  exists s2. split; [|done]. rewrite <- Hfuel in R1.
  by rewrite (bind_Ok _ _ s 0 s1) by (by rewrite console_read_run).
Qed.

Lemma kernel_welcome_run rounds s s1 s2 C :
  fs_resolve_and_open c (chars_of "DEV:/vtcon") VO_FWRITE s = Ok (vtcon, s1) ->
  fs_resolve_and_open c (chars_of "INITRD:/SYSTEM/MOTD.TXT") VO_FREAD s1 = Ok (motd, s2) ->
  ready s2 C -> cstr (kmem s2) newline [10] -> sz + 64 <= 64 * Z.of_nat (c_fuel c) ->
  exists s', kernel_welcome c rounds buffer newline s = Ok (tt, s') /\
    runs (c_frame c) clock buffer p n s' (type_text (content s2 ++ [10]) C) [].
Proof.
  intros R1 R2 HR Hc Hrounds. unfold kernel_welcome. mstep R1. mstep R2.
  assert (motd <> 0) as H0 by by destruct HR as (_ & _ & (nd & (v & ? & _) & _) & _).
  rewrite (proj2 (Z.eqb_neq motd 0) H0).
  destruct (motd_loop_run (c_fuel c) s2 C 0 HR) as (s3 & R3 & H3 & S3); [lia|lia|].
  assert (cstr (kmem s3) newline [10]) as Hc3.
  { eapply CString.Facts.cstr_agree; [exact Hc|]. eapply agree_weaken; [|apply S3].
    intros a Ha. apply Hnl. cbn in Ha. lia. }
  destruct (newline_run s3 _ H3 Hc3) as (s4 & R4 & H4 & S4).
  pose proof (close_run s4 (proj2 H4)) as R5.
  destruct (idle_run rounds s4 _ (proj1 H4) (proj1 (proj2 H4))) as (s5 & R6 & H5).
  rewrite drop_0, <- type_text_app in H5. exists s5. split; [|exact H5].
  rewrite (bind_Ok _ _ s2 tt s4); [exact R6|]. mstep R3. mstep R4. by mstep R5.
Qed.
End welcome.
End Welcome.
