(* ===== verification/Startup.v ===== *)
(** * [kernel_main] for every ramdisk

    From a machine whose file systems and devices are initialised, the rest of
    [kernel_main] (kernel/kern/kern_main.c): it mounts the archive that the boot
    loader left, opens the console and the message of the day, and prints it.
    [Module Mounting] carries the console and the device files over the mount;
    [Module Files] opens the two files; the theorem puts this and the loop of
    Welcome.v together. *)
From S2P Require Import Prelude Mem Alloc Ringbuf Ports Idt Device Objects Vfs Devfs Tarfs Vtcon KernMain VfsProps DevfsProps TarfsProps TarTree TarPaths VtconProps VtconKeys Session Opening Welcome.
From S2P Require CString Chardev Rtclock Vgafb.
From stdpp Require Import strings.
Local Open Scope Z_scope.
Import Idt.Impl CString.Pure VfsProps.Walk VfsProps.Nodes VfsProps.Table DevfsProps.Dir DevfsProps.Route
  Vtcon.Impl KernMain.Impl VtconProps.Screen VtconProps.Bus VtconProps.Draw VtconProps.Contexts
  VtconKeys.Reader Session.Machine Session.Refine Opening.Devices Opening.Console Welcome.Welcome
  Tarfs.Impl TarfsProps.Scan TarTree.Paths TarTree.Build TarPaths.Query TarPaths.Mounted
  Ringbuf.Rep.

(** ** Over the mount *)
Module Mounting.

(** The new volume is behind the others. *)
Lemma lookup_vol_old ws mt v w : lookup_vol ws mt = Some v -> lookup_vol (ws ++ [w]) mt = Some v.
Proof.
  unfold lookup_vol. induction ws as [|u ws IH]; [done|]. cbn. by destruct (answers mt u).
Qed.

Section mounting.
Context (s s1 : ker) (ws : list vol) (name : list Z) (es : list TarTree.Build.entry) (ps vs : list Z).
Context (HI : archive_mounted_in s ws name es s1 ps vs).

Lemma quiet_parts :
  o_vt s1 = o_vt s /\ i_ext (o_dst s1) = i_ext (o_dst s) /\
  k_hw (i_k (o_dst s1)) = k_hw (i_k (o_dst s)) /\ idt_handlers (o_dst s1) = idt_handlers (o_dst s) /\
  o_grants s1 = o_grants s /\ tables s1 = tables s.
Proof. pose proof (am_quiet _ _ _ _ _ _ _ HI) as Hq. unfold quiet in Hq. by rewrite Hq. Qed.

Lemma keeps_kind A (kind : obj -> option A) q a :
  (forall ys, kind (OList ys) = None) -> view kind (o_objs s) q = Some a ->
  view kind (o_objs s1) q = Some a.
Proof. intros Hk Ha. apply (am_keeps _ _ _ _ _ _ _ HI); [done|by left]. Qed.

Lemma mounted_node_kept q f n : mounted_node s q f n -> mounted_node s1 q f n.
Proof.
  intros (v & H1 & H2 & H3 & H4 & H5 & H6). exists v.
  split_and!; try done; by apply keeps_kind.
Qed.

Lemma device_node_kept q d : device_node s q d -> device_node s1 q d.
Proof.
  intros (n & v & H1 & H2 & H3 & H4 & H5 & H6 & H7 & H8 & H9). exists n, v.
  split_and!; try done; by apply keeps_kind.
Qed.

Lemma device_tree_kept rs dv :
  device_tree s ws rs dv ->
  exists ws' rs', device_tree s1 ws' rs' dv.
Proof.
  intros [H1 H2 H3 H4 [A1 A2] [n [H6 H6']] H7]. destruct (am_in _ _ _ _ _ _ _ HI) as [_ [rs' M1] _ M4].
  destruct quiet_parts as (_ & _ & _ & _ & _ & Et). injection Et as E1 _ E2 E3.
  eexists _, rs'. split.
  - done.
  - exact M1.
  - destruct H3 as [I1 I2 I3 I4 I5 I6 I7]. split; rewrite ?E3; try done.
    + apply (m_fresh _ _ _ M1).
    + apply (m_next _ _ _ M1).
    + apply (am_keeps _ _ _ _ _ _ _ HI); [done|by right].
    + eapply Forall_impl; [exact I5|]. intros w [W1 W2]. split; [done|by apply keeps_kind].
  - destruct H4 as (v & V1 & V2). exists v. split; [by apply lookup_vol_old|done].
  - by rewrite E1, E2, E3.
  - exists n. split; [by apply mounted_node_kept|done].
  - intros d Hd. destruct (H7 d Hd) as (e & He & Hn). exists e. split; [done|by apply device_node_kept].
Qed.

(** The screens and the keyboard's ring are apart from the archive's names. *)
Lemma standby_kept F clock buf p n C :
  standby F clock buf p n s C ->
  (forall a, 0xB8000 <= a < 0xB8000 + 4000 \/ in_contexts F a \/ rb_cells (kmem s) p n a ->
    off_names es a) ->
  standby F clock buf p n s1 C.
Proof.
  intros [H1 H2 H3 H4 H5 H6 H7 H8 H9 [ovf H10] H11 H12 H13 H14] Hoff.
  destruct quiet_parts as (Ev & Ex & Eh & Ei & _). pose proof (am_mem _ _ _ _ _ _ _ HI) as Ha.
  destruct (same_buffer _ _ _ _ _ _ _ H10 Ha) as [H10' Eb]; [intros a Hc; apply Hoff; auto|].
  assert (forall a, rb_cells (kmem s1) p n a <-> rb_cells (kmem s) p n a) as Hc
    by (intros a; unfold rb_cells; by rewrite Eb).
  split; rewrite ?Ev, ?Ex, ?Ei; try done.
  - unfold clock_shows in *. by rewrite Ex, Eh.
  - apply (screens_agree F s); [done|by rewrite Ev|by rewrite Ev|].
    eapply agree_weaken; [|exact Ha]. intros a Hin. apply Hoff. tauto.
  - by exists ovf.
  - unfold buf_apart in *. by rewrite Eb.
  - intros a Hin. by apply H12, Hc.
  - intros a Hin. by apply H13, Hc.
Qed.

End mounting.
End Mounting.
Import Mounting.

(** ** The two files *)
Module Files.

Lemma resolved_runs F clock buf p n s C :
  runs F clock buf p n s C [] -> runs F clock buf p n (resolved s) C [].
Proof.
  intros [[W1 W2 W3 W4 W5 W6] [S1 S2 S3 S4] H3 H4 [K1 K2 K3 K4 K5 K6] H6 H7].
  split; try done; by split.
Qed.

Lemma resolved_standby F clock buf p n s C :
  standby F clock buf p n s C -> standby F clock buf p n (resolved s) C.
Proof. intros [H1 H2 H3 H4 H5 [S1 S2 S3 S4] H7 H8 H9 H10 H11 H12 H13 H14]. by split. Qed.

(** The message's place in the archive. *)
Definition motd_path : list (list Z) := [chars_of "SYSTEM"; chars_of "MOTD.TXT"].

Section files.
Context `{Allocator} (c : config) (levels fuel : nat).
Context (Hlevels : c_levels c = S levels) (Hfuel : c_fuel c = S fuel) (Hf : (100 <= c_fuel c)%nat).
Context (Hdepth : (100 <= c_depth c)%nat).
Context (FO : frame_ok (c_frame c)) (FA : contexts_apart (c_frame c)).
Context (clock : rtclock) (buf p n : Z).

(** The console. *)
Lemma open_console s ws rs dv C :
  device_tree s ws rs dv -> standby (c_frame c) clock buf p n s C ->
  exists q s1, fs_resolve_and_open c (chars_of "DEV:/vtcon") VO_FWRITE s = Ok (q, s1) /\
    same_tree s s1 /\ runs (c_frame c) clock buf p n s1 C [] /\
    untouched (c_frame c) (kmem s) (kmem s1) /\ device_node s1 q vtcon_device.
Proof.
  intros T HS.
  destruct (resolve_device c (KernMain.Impl.console c (c_levels c)) s ws rs dv vtcon_device T
    ltac:(decided)) as (q & R & Hn).
  pose proof (device_tree_same _ _ _ _ _ T (resolved_tree s)) as T1.
  destruct (vtcon_open_run c (KernMain.Impl.console c levels) fuel Hfuel (c_frame c) (c_version c) FO FA
    clock buf p n (resolved s) ws rs dv C T1 (resolved_standby _ _ _ _ _ _ _ HS))
    as (s1 & R1 & T2 & HR & U).
  assert (same_tree s s1) as T12 by (eapply same_tree_trans; [apply resolved_tree|exact T2]).
  exists q, s1. split_and!; [|done|done|exact U|].
  2:{ pose proof T12 as (Eo & _). unfold device_node in *. by rewrite Eo. }
  unfold fs_resolve_and_open. change (chars_of "DEV:/vtcon")
    with (chars_of "DEV" ++ 58 :: 47 :: file_name vtcon_device). mstep R.
  assert (q <> 0) as Hq by (by destruct Hn as (? & ? & ? & _)).
  rewrite if_app, (proj2 (Z.eqb_neq q 0)) by done.
  assert (Ops.fs_open (H := kernel_filesystems c) q VO_FWRITE (resolved s) = Ok (0, s1)) as Ro.
  { rewrite (fs_open_run (H := devices_with c (KernMain.Impl.console c (c_levels c))) eq_refl
      (resolved s) q vtcon_device VO_FWRITE Hn). rewrite Hlevels. exact R1. }
  by mstep Ro.
Qed.

(** The file on the archive, where the walk over the entries finds it. *)
Lemma open_motd luna_s ws es ps vs s :
  archive_in luna_s ws (chars_of "INITRD") es s ps vs ->
  lookup_vol ws (chars_of "INITRD") = None ->
  (forall i e, first es (join motd_path) = Some i -> es !! i = Some e -> e_type e = 48) ->
  fs_resolve_and_open c (chars_of "INITRD:/SYSTEM/MOTD.TXT") VO_FREAD s
  = with_state (found vs (locate es motd_path)) (resolved s).
Proof using Type.
  clear Hdepth Hf Hfuel fuel Hlevels levels. intros HI Hfree Hreg.
  pose proof (archive_locate_run c luna_s ws (chars_of "INITRD") es
    ltac:(split_and!; [decided|done|cbn; lia]) Hfree s ps vs HI motd_path ltac:(decided) ltac:(done)
    ltac:(repeat constructor; decided)) as R.
  unfold fs_resolve_and_open.
  change (chars_of "INITRD:/SYSTEM/MOTD.TXT") with (chars_of "INITRD" ++ 58 :: 47 :: join motd_path).
  destruct (locate es motd_path) as [o|x] eqn:Hloc; cbn [found with_state] in *.
  2:{ by rewrite (bind_Err _ _ _ _ R). }
  rewrite (bind_Ok _ _ _ _ _ R).
  fold (resolved s). destruct o as [i|]; cbn [node_at]; [|done].
  pose proof (locate_first es motd_path i ltac:(repeat constructor; decided) Hloc) as Hi.
  destruct (first_Some _ _ _ Hi) as ((e & He & _) & _).
  assert (archive_in luna_s ws (chars_of "INITRD") es (resolved s) ps vs) as HI'
    by (eapply archive_in_same; [exact HI|apply resolved_tree]).
  destruct (archive_mounted _ es (resolved s) ps vs (ai_archived _ _ _ _ _ _ _ HI')
    (ai_driver _ _ _ _ _ _ _ HI') i e He) as (nd & Hm & Hfl & _).
  assert (nth i vs 0 <> 0) as H0 by (by destruct Hm as (? & ? & _)).
  rewrite if_app, (proj2 (Z.eqb_neq _ 0)) by done.
  assert (Ops.fs_open (H := kernel_filesystems c) (nth i vs 0) VO_FREAD (resolved s)
    = Ok (0, resolved s)) as Ro.
  { unfold Ops.fs_open. by rewrite (mounted_dispatch_run (H := kernel_filesystems c) vfs_open Ops.is_file
      _ _ (resolved s) _ tarfs_driver nd tarfs_open Hm eq_refl) by by rewrite Hfl, (Hreg i e). }
  by mstep Ro.
Qed.

End files.
End Files.
Import Files.

(** ** The ramdisk *)
Module Ramdisk.

(** The boot loader's information at [mbi] names one module, or more, of which
    the first is called ramdisk: it is the archive of the entries [es]. *)
Definition module_at (m : mem) (mbi addr : Z) : Prop :=
  let mods := load32 m (mbi + mb_mods_addr) in
  0 < load32 m (mbi + mb_mods_count) /\
  cstr m (load32 m (mods + mod_string)) (chars_of "ramdisk") /\
  load32 m (mods + mod_start) = addr.

(** Only the bytes of the information matter. *)

Lemma module_at_agree (P : Z -> Prop) m m' mbi addr :
  let mods := load32 m (mbi + mb_mods_addr) in
  module_at m mbi addr -> agree P m m' ->
  (forall a, mbi + 20 <= a < mbi + 28 \/ mods <= a < mods + 12 \/
    load32 m (mods + mod_string) <= a < load32 m (mods + mod_string) + 8 -> P a) ->
  module_at m' mbi addr.
Proof.
  intros mods (H1 & H2 & H3) Ha HP. unfold module_at, mb_mods_addr, mb_mods_count, mod_string, mod_start in *.
  assert (load32 m' (mbi + 24) = mods) as E
    by (symmetry; apply (load32_agree P); [done|intros i Hi; apply HP; lia]).
  rewrite E. fold mods in H2, H3.
  assert (forall a, (forall i, 0 <= i < 4 -> P (a + i)) -> load32 m' a = load32 m a) as El
    by (intros a Hin; symmetry; by apply (load32_agree P)).
  rewrite !El by (intros i Hi; apply HP; fold mods; lia). split_and!; [done| |done].
  eapply CString.Facts.cstr_agree; [exact H2|]. eapply agree_weaken; [|exact Ha].
  intros a Hin. apply HP. cbn in Hin. lia.
Qed.

Lemma ldw_run a s : ldw a s = Ok (load32 (kmem s) a, s).
Proof. by destruct s as [[[] ? ? ? ? ?] ? ? ? ? ? ? ? ? ? ? ?]. Qed.

Section ramdisk.
Context `{Allocator} (c : config).

(** The first module is mounted, and no other is looked at. *)
Lemma ramdisk_init_run s mbi addr r s1 :
  module_at (kmem s) mbi addr -> (8 <= c_fuel c)%nat ->
  Mounts.vfs_mount (H := kernel_filesystems c) (chars_of "tarfs") (chars_of "INITRD") addr s = Ok (r, s1) ->
  ramdisk_init c mbi s = Ok (tt, s1).
Proof.
  intros (Hcount & Hstr & Haddr) Hf R. unfold ramdisk_init.
  mstep (ldw_run (mbi + mb_mods_addr) s). set (mods := load32 (kmem s) (mbi + mb_mods_addr)) in *.
  mstep (ldw_run (mbi + mb_mods_count) s).
  destruct (Z.to_nat (load32 (kmem s) (mbi + mb_mods_count))) as [|k] eqn:E; [lia|].
  cbn [ramdisk_loop]. mstep (ldw_run (mods + mod_string) s).
  mstep (c_string_run (c_fuel c) (load32 (kmem s) (mods + mod_string))
    (chars_of "ramdisk") s Hstr ltac:(cbn; lia)).
  change (cmp (chars_of "ramdisk") (chars_of "ramdisk") =? 0) with true. cbn iota.
  rewrite Z.mul_0_r, Z.add_0_r. mstep (ldw_run (mods + mod_start) s). rewrite Haddr. by mstep R.
Qed.

End ramdisk.
End Ramdisk.
Import Ramdisk.

(** ** Before and after the mount *)
Module Before.
Section before.
Context `{Allocator} (c : config) (clock : rtclock) (buf p n : Z).

(** File systems and devices are initialised, the console is closed, and no
    volume is called INITRD. *)
Record started (s : ker) (C : console) : Prop := Started {
  sd_standby : standby (c_frame c) clock buf p n s C;
  sd_tree : exists ws rs dv, device_tree s ws rs dv /\ lookup_vol ws (chars_of "INITRD") = None;
  sd_drivers : exists ds, drivers_ok (H := kernel_filesystems c) s ds /\
    lookup_driver (H := kernel_filesystems c) ds (chars_of "tarfs") = Some tarfs_driver;
  sd_root : exists nd, view as_node (o_objs s) rootfs_root = Some nd;
  sd_junk : o_junk_word s (o_next s + 2) = 0
}.

(** The archive in memory: its names are
    apart from the screen, the console's contexts, the keyboard's ring and the
    literal at [newline], and the message of the day, if there is one, is a file
    apart from the arrays of console and reader. *)
Record ramdisk_at (m : mem) (mbi newline : Z) (es : list TarTree.Build.entry) (sizes : list Z) : Prop := RamdiskAt {
  rd_module : exists addr, module_at m mbi addr /\ tarball m addr es sizes;
  rd_names a : 0xB8000 <= a < 0xB8000 + 4000 \/ in_contexts (c_frame c) a \/ rb_cells m p n a \/
    newline <= a <= newline + 1 -> off_names es a;
  rd_message i e sz : first es (join motd_path) = Some i -> es !! i = Some e -> sizes !! i = Some sz ->
    e_type e = 48 /\ sz < 2147483648 /\ sz + 64 <= 64 * Z.of_nat (c_fuel c) /\
    forall a, e_block e + t_size <= a < e_block e + 512 + sz ->
      ~ scratch (c_frame c) a /\ ~ buf <= a < buf + 64
}.

(** What is printed: the file that the walk to SYSTEM/MOTD.TXT finds, and a
    newline; nothing if it ends without one; and the walk may fail. *)
Definition message (m : mem) (es : list TarTree.Build.entry) (sizes : list Z) : res (list Z) :=
  match locate es motd_path with
  | Ok (Some i) =>
      match es !! i, sizes !! i with
      | Some e, Some sz => Ok (load_bytes m (e_block e + 512) (Z.to_nat sz) ++ [10])
      | _, _ => Ok []
      end
  | Ok None => Ok []
  | Err x => Err x
  end.

(** The archive's file, when the names of the archive are cut and the screen is
    drawn on. *)
Lemma message_kept s s2 mbi newline es sizes i e sz addr :
  ramdisk_at (kmem s) mbi newline es sizes -> tarball (kmem s) addr es sizes ->
  agree (fun a => off_names es a /\ ~ scratch (c_frame c) a) (kmem s) (kmem s2) ->
  locate es motd_path = Ok (Some i) -> es !! i = Some e -> sizes !! i = Some sz ->
  cstr (kmem s2) (e_block e + t_size) (TarfsProps.Bytes.octal 11 sz) /\
  message (kmem s) es sizes
    = Ok (load_bytes (kmem s2) (e_block e + 512) (Z.to_nat sz) ++ [10]) /\
  0 <= sz.
Proof.
  intros HR Htb Ha Hloc He Hsz.
  pose proof (locate_first es motd_path i ltac:(repeat constructor; decided) Hloc) as Hi.
  destruct (rd_message _ _ _ _ _ HR i e sz Hi He Hsz) as (_ & _ & _ & Hc).
  destruct (tarball_file _ _ _ _ i e sz Htb He Hsz) as (H1 & H2 & H3). split_and!; [| |lia].
  - eapply CString.Facts.cstr_agree; [exact H2|]. eapply agree_weaken; [|exact Ha]. intros a Hin.
    rewrite TarfsProps.Bytes.length_octal in Hin. unfold t_size in *.
    split; [apply H3; lia|apply Hc; lia].
  - unfold message. rewrite Hloc, He, Hsz. do 2 f_equal.
    apply (load_bytes_agree _ _ _ _ _ Ha). intros k Hk. unfold t_size in *.
    split; [apply H3; lia|apply Hc; lia].
Qed.

(** The way to the file, in an archive that has the directories, and in one
    without the second. *)
Lemma motd_located es :
  directory es [] -> directory es (chars_of "SYSTEM") ->
  locate es motd_path = Ok (first es (chars_of "SYSTEM/MOTD.TXT")).
Proof.
  intros D1 D2. change (chars_of "SYSTEM/MOTD.TXT") with (join motd_path).
  apply locate_dirs; [done|repeat constructor; decided|].
  intros [|[|k]] Hk; [exact D1|exact D2|cbn in Hk; lia].
Qed.

Lemma system_missing es :
  directory es [] -> first es (chars_of "SYSTEM") = None -> locate es motd_path = Err NullDeref.
Proof.
  intros D1 Hn. pose proof (proj2 (is_directory_spec es []) D1) as Hd. destruct D1 as (j & _ & Hj & _).
  unfold locate, motd_path. rewrite Hj. cbn [find_in]. unfold child. rewrite Hd.
  change (under [] (chars_of "SYSTEM")) with (chars_of "SYSTEM"). by rewrite Hn.
Qed.

End before.
End Before.
Import Before.

(** ** The end of [kernel_main] after the mount *)
Module After.
Section after.
Context `{Allocator} (c : config) (levels fuel : nat).
Context (Hlevels : c_levels c = S levels) (Hfuel : c_fuel c = S fuel) (Hf : (100 <= c_fuel c)%nat).
Context (Hdepth : (100 <= c_depth c)%nat).
Context (FO : frame_ok (c_frame c)) (FA : contexts_apart (c_frame c)).
Context (FK : off_screen (f_kbd (c_frame c)) 17) (FKC : off_contexts (c_frame c) (f_kbd (c_frame c)) 17).
Context (clock : rtclock) (buf p n : Z).
Context (FB : off_screen buf 64) (FBC : off_contexts (c_frame c) buf 64).
Context (FBS : forall i, 0 <= i < 64 -> ~ scratch (c_frame c) (buf + i)).
Context (newline : Z) (Hnl : forall a, newline <= a <= newline + 1 ->
  ~ scratch (c_frame c) a /\ ~ buf <= a < buf + 64).
Context (s s1 : ker) (ws : list vol) (es : list TarTree.Build.entry) (sizes ps vs : list Z) (C : console).
Context (mbi addr : Z) (HR : ramdisk_at c buf p n (kmem s) mbi newline es sizes).
Context (Htb : tarball (kmem s) addr es sizes) (Hf2 : (length sizes + 12 <= c_fuel c)%nat).
Context (Hfree : lookup_vol ws (chars_of "INITRD") = None).
Context (HI : archive_mounted_in s ws (chars_of "INITRD") es s1 ps vs).
Context (ws1 : list vol) (rs1 dv : list VfsProps.Table.entry) (HT : device_tree s1 ws1 rs1 dv).
Context (HS : standby (c_frame c) clock buf p n s1 C) (Hlit : cstr (kmem s) newline [10]).

(** No file to print. *)
Lemma welcome_silent q s2 rounds :
  fs_resolve_and_open c (chars_of "DEV:/vtcon") VO_FWRITE s1 = Ok (q, s2) ->
  fs_resolve_and_open c (chars_of "INITRD:/SYSTEM/MOTD.TXT") VO_FREAD s2 = Ok (0, resolved s2) ->
  runs (c_frame c) clock buf p n s2 C [] -> device_node s2 q vtcon_device ->
  exists s', kernel_welcome c rounds buf newline s1 = Ok (tt, s') /\
    runs (c_frame c) clock buf p n s' C [].
Proof.
  intros R1 R2 Hr Hq. unfold kernel_welcome. mstep R1. mstep R2. change (0 =? 0) with true. cbn iota.
  rewrite ret_bind.
  apply (idle_run c levels fuel Hlevels Hfuel ltac:(lia) FO FA FK FKC clock buf p n FB FBC q rounds
    (resolved s2)); [by apply resolved_runs|exact Hq].
Qed.

(** The bytes that neither the mount nor the console changes. *)
Lemma quiet_cells s2 :
  untouched (c_frame c) (kmem s1) (kmem s2) ->
  agree (fun a => off_names es a /\ ~ scratch (c_frame c) a) (kmem s) (kmem s2).
Proof.
  intros U. eapply agree_trans; [eapply agree_weaken; [|apply (am_mem _ _ _ _ _ _ _ HI)]; tauto|].
  eapply agree_weaken; [|exact U]. tauto.
Qed.

(** The two open files, as the loop of Welcome.v wants them. *)
Lemma files_ready q s2 i e sz :
  archive_in s ws (chars_of "INITRD") es s2 ps vs -> es !! i = Some e -> e_type e = 48 ->
  runs (c_frame c) clock buf p n s2 C [] -> device_node s2 q vtcon_device ->
  cstr (kmem s2) (e_block e + t_size) (TarfsProps.Bytes.octal 11 sz) ->
  ready c clock buf p n q (nth i vs 0) (TarNode (nth i vs 0) (e_block e)) sz (resolved s2) C.
Proof.
  intros HI2 He Hty Hr Hq Hsize.
  destruct (archive_mounted _ es s2 ps vs (ai_archived _ _ _ _ _ _ _ HI2)
    (ai_driver _ _ _ _ _ _ _ HI2) i e He) as (nd & Hnd & Hfl & Hpl & Htn).
  split; [by apply resolved_runs|]. split; [exact Hq|]. split; [|exact Hsize].
  exists nd. split; [exact Hnd|]. split; [by rewrite Hfl, Hty|done].
Qed.

Lemma welcome_prints rounds :
  match message (kmem s) es sizes with
  | Ok text => exists s', kernel_welcome c rounds buf newline s1 = Ok (tt, s') /\
      runs (c_frame c) clock buf p n s' (type_text text C) []
  | Err x => kernel_welcome c rounds buf newline s1 = Err x
  end.
Proof.
  destruct (open_console c levels fuel Hlevels Hfuel FO FA clock buf p n s1 ws1 rs1 dv C HT HS)
    as (q & s2 & R1 & T & Hr & U & Hq). pose proof (quiet_cells s2 U) as Ha.
  pose proof (archive_in_same _ _ _ _ _ _ _ _ (am_in _ _ _ _ _ _ _ HI) T) as HI2.
  pose proof (open_motd c s ws es ps vs s2 HI2 Hfree) as R2.
  assert (forall i e, first es (join motd_path) = Some i -> es !! i = Some e -> e_type e = 48) as Hreg.
  { intros i e Hi He. destruct (tarball_header _ _ _ _ Htb i e He) as [_ [sz Hsz]].
    exact (proj1 (rd_message _ _ _ _ _ _ _ _ _ HR i e sz Hi He Hsz)). }
  specialize (R2 Hreg).
  destruct (locate es motd_path) as [[i|]|x] eqn:Hloc; cbn [found with_state node_at] in R2.
  - pose proof (locate_first es motd_path i ltac:(repeat constructor; decided) Hloc) as Hi.
    destruct (first_Some _ _ _ Hi) as ((e & He & _) & _).
    destruct (tarball_header _ _ _ _ Htb i e He) as [_ [sz Hsz]].
    destruct (rd_message _ _ _ _ _ _ _ _ _ HR i e sz Hi He Hsz) as (Hty & Hsz1 & Hsz2 & Hc).
    destruct (message_kept c buf p n s s2 mbi newline es sizes i e sz addr HR Htb Ha Hloc He Hsz)
      as (Hsize & -> & Hsz0).
    assert (cstr (kmem s2) newline [10]) as Hlit2.
    { eapply CString.Facts.cstr_agree; [exact Hlit|]. eapply agree_weaken; [|exact Ha]. intros a Hin.
      cbn in Hin. split; [apply (rd_names _ _ _ _ _ _ _ _ _ HR); lia|apply Hnl; lia]. }
    apply (kernel_welcome_run c levels fuel Hlevels Hfuel ltac:(lia) FO FA FK FKC clock buf p n FB FBC FBS
      q (nth i vs 0) (TarNode (nth i vs 0) (e_block e)) sz ltac:(lia) Hc newline Hnl rounds s1 s2
      (resolved s2) C R1 R2); [by apply files_ready|exact Hlit2|lia].
  - unfold message. rewrite Hloc, type_text_nil. exact (welcome_silent q s2 rounds R1 R2 Hr Hq).
  - unfold message. rewrite Hloc. unfold kernel_welcome. mstep R1. by rewrite (bind_Err _ _ _ _ R2).
Qed.

End after.
End After.
Import After.

(** ** [kernel_main] *)

(** Its first half: the initialisation of file systems and devices. *)
Definition setup `{Allocator} (c : config) (descriptors : list fsys)
    (drivers : list Devfs.Impl.driver_name) : M ker unit :=
  Mounts.vfs_init (H := kernel_filesystems c) descriptors;;
  Devfs.Impl.device_init (H := kernel_filesystems c) (H0 := kernel_drivers c) drivers.

Lemma kernel_main_run `{Allocator} c levels clock buf p n descriptors drivers paging mbi
    rounds newline s0 s C es sizes
    (Hlevels : c_levels c = S levels) (Hf : (100 <= c_fuel c)%nat) (Hdepth : (100 <= c_depth c)%nat)
    (Hf2 : (length sizes + 12 <= c_fuel c)%nat)
    (FO : frame_ok (c_frame c)) (FA : contexts_apart (c_frame c))
    (FK : off_screen (f_kbd (c_frame c)) 17) (FKC : off_contexts (c_frame c) (f_kbd (c_frame c)) 17)
    (FB : off_screen buf 64) (FBC : off_contexts (c_frame c) buf 64)
    (FBS : forall i, 0 <= i < 64 -> ~ scratch (c_frame c) (buf + i))
    (Hpaging : forall t, paging t = Ok (tt, t))
    (Hnl : forall a, newline <= a <= newline + 1 -> ~ scratch (c_frame c) a /\ ~ buf <= a < buf + 64)
    (Hs : setup c descriptors drivers s0 = Ok (tt, s))
    (HS : started c clock buf p n s C) (HR : ramdisk_at c buf p n (kmem s) mbi newline es sizes)
    (Hlit : cstr (kmem s) newline [10]) :
  match message (kmem s) es sizes with
  | Ok text => exists s', kernel_main c descriptors drivers paging mbi rounds buf newline s0 = Ok (tt, s') /\
      runs (c_frame c) clock buf p n s' (type_text text C) []
  | Err x => kernel_main c descriptors drivers paging mbi rounds buf newline s0 = Err x
  end.
Proof.
  destruct (c_fuel c) as [|fuel] eqn:Hfuel; [lia|]. rewrite <- Hfuel in Hf, Hf2.
  destruct HS as [S1 (ws & rs & dv & T & Hfree) (ds & Hds & Hdrv) Hroot Hjunk].
  destruct (rd_module _ _ _ _ _ _ _ _ _ HR) as (addr & Hmod & Htb).
  destruct (mount_archive_run c s ds ws rs (chars_of "INITRD") addr es sizes) as (s1 & ps & vs & R & HI);
    try done; [apply T|apply T|by split_and!; [decided|..|cbn; lia]|
      destruct Hmod as (_ & _ & <-); apply load32_range|].
  destruct (device_tree_kept s s1 ws (chars_of "INITRD") es ps vs HI rs dv T) as (ws1 & rs1 & T1).
  assert (standby (c_frame c) clock buf p n s1 C) as S2.
  { eapply standby_kept; [exact HI|exact S1|]. intros a Ha. apply (rd_names _ _ _ _ _ _ _ _ _ HR). tauto. }
  pose proof (ramdisk_init_run c s mbi addr 0 s1 Hmod ltac:(lia) R) as R1.
  pose proof (welcome_prints c levels fuel Hlevels Hfuel Hf Hdepth FO FA FK FKC clock buf p n FB FBC FBS newline
    Hnl s s1 ws es sizes ps vs C mbi addr HR Htb Hf2 Hfree HI ws1 rs1 dv T1 S2 Hlit rounds) as R2.
  unfold setup in Hs. unfold kernel_main.
  apply bind_Ok_inv in Hs as ([] & t & E1 & E2).
  destruct (message (kmem s) es sizes) as [text|x].
  - destruct R2 as (s' & R2 & HR2). exists s'. split; [|exact HR2].
    mstep E1. mstep E2. mstep R1. by mstep (Hpaging s1).
  - mstep E1. mstep E2. mstep R1. by mstep (Hpaging s1).
Qed.
