(* ===== verification/Boot.v ===== *)
(** * The kernel from its start to the keyboard

    [Module Booted]: the machine of KernMain.v, with the repository's message of
    the day, up to the end of the devices' initialisation.  The theorems put this,
    the end of [kernel_main] (Startup.v) and the sessions of Session.v
    together. *)
From S2P Require Import Prelude Mem Alloc Ringbuf Ports Idt Device Objects Vfs Devfs Tarfs Scancodes Vtcon KernMain VfsProps DevfsProps TarfsProps TarTree TarPaths VtconProps VtconKeys Session Opening Welcome Startup.
From S2P Require CString Chardev Rtclock Vgafb Heap.
From stdpp Require Import strings.
Local Open Scope Z_scope.
Import TarTree.Build TarPaths.Query Idt.Impl CString.Pure VfsProps.Nodes VfsProps.Table DevfsProps.Dir DevfsProps.Route Vtcon.Impl
  KernMain.Impl VtconProps.Screen VtconProps.Bus VtconProps.Draw VtconProps.Contexts VtconKeys.Keymap
  VtconKeys.Reader Session.Machine Session.Stroke Session.Refine Opening.Devices Opening.Console
  Startup.Files Startup.Ramdisk Startup.Before
  TarPaths.Sample.

(** ** The machine with the repository's ramdisk *)
Module Booted.
Import KernMain.Sample VtconProps.Start.

(** The volumes, the entries of the root directory and of devfs after it. *)
Definition boot_volumes : list vol :=
  [(258, Volume (Some (chars_of "ROOT")) (fsys_ptr rootfs_fs) rootfs_root 0);
   (263, Volume (Some (chars_of "DEV")) (fsys_ptr devfs_fs) devfs_rootdir 0)].
Definition boot_root : list VfsProps.Table.entry :=
  [(261, Node (chars_of "ROOT") VN_FREGFILE rootfs_root 258 258);
   (265, Node (chars_of "DEV") VN_FREGFILE rootfs_root 258 263)].
Definition device_file (p : Z) (name : string) (d : dev_name) : VfsProps.Table.entry :=
  (p, Node (chars_of name) (Devfs.Impl.class_flags d) devfs_rootdir 263 (Devfs.Impl.dev_ptr d)).
Definition boot_devices : list VfsProps.Table.entry :=
  [device_file 266 "null" null_device; device_file 267 "zero" zero_device;
   device_file 268 "kbd" keyboard_device; device_file 269 "pit" pctimer_device;
   device_file 270 "clock" clock_device; device_file 271 "uart" uart8250_device;
   device_file 272 "fb" vgafb_device; device_file 273 "vtcon" vtcon_device].

(** All objects. *)
Definition boot_objs : gmap Z obj :=
  list_to_map
    ([(256, OList boot_volumes.*1); (257, OList (fsys_ptr <$> [rootfs_fs; rootfs_fs; devfs_fs; tarfs_driver]));
      (260, OList boot_root.*1); (262, OList boot_devices.*1)]
     ++ ((fun v : vol => (v.1, OVolume v.2)) <$> boot_volumes)
     ++ ((fun e : VfsProps.Table.entry => (e.1, ONode e.2)) <$> boot_root ++ boot_devices)
     ++ [(rootfs_root, ONode (Node [] VN_FDIR 0 258 0)); (devfs_rootdir, ONode (Node [] VN_FDIR 0 263 0))])
  ∪ static_objs.

(** The screens then: seven as [resetcontexts] leaves them, and the one that is
    shown cleared to NULs. *)
Definition empty_screen (e : Z) : screen := Scr (fun _ => e) 0 0 7 0.
Definition start_screens : list screen := empty_screen 0x700 :: replicate 7 (empty_screen 0x720).
Fixpoint all_cells (n : nat) (m : mem) (a v : Z) : bool :=
  match n with
  | O => true
  | S n' => (load16 m a =? v) && all_cells n' m (a + 2) v
  end.
Definition shows_start (m : mem) : bool :=
  all_cells 1920 m 0xB8000 0x700 &&
  forallb (fun i => all_cells 1920 m (buffer_of sample_frame i) 0x720) (seq 1 7).

(** What the theorems need to know of the state, observed at once. *)
Definition observe (s : ker) :=
  ((o_objs s, o_next s, tables s), (o_grants s, o_junk_word s),
   (con_fb (o_vt s), current_context (o_vt s), contexts (o_vt s), shows_start (kmem s)),
   (keyboard_rbuf (i_ext (o_dst s)), is_binary (rtc_clock (i_ext (o_dst s))),
    idt_handlers (o_dst s) !! 0x21%nat, k_hw (i_k (o_dst s))),
   (fun i => load32 (kmem s) (keyboard_rbuf (i_ext (o_dst s)) + 4 * i)) <$> [0; 1; 2; 3; 4],
   (same_bytes 0x302 loaded (kmem s) 0x9000, same_bytes 0xA01 loaded (kmem s) 0x400000)).
Definition at_start :=
  ((boot_objs, 274, (256, 257, 260, 262)), (fun _ : nat => true, fun _ : Z => 0),
   (0, 0%nat, replicate 8 (VtContext 0 0 7 0 0), true),
   (0x200014, 0, Some (Some keyboard_key_handler_ptr), fun (_ : list io_event) (_ : Z) => 0),
   [0x20003C; 1024; 0; 0; 0], (true, true)).

Lemma start_observed :
  match setup sample_config descriptors sample_drivers (boot_ker (fun _ => 0)) with
  | Ok (r, s) => Some (r, observe s)
  | Err _ => None
  end
  = Some (tt, at_start).
Proof. vm_compute. reflexivity. Qed.

(** *** From the observation to the hypotheses of [kernel_main_run] *)

Lemma all_cells_spec n m a v :
  all_cells n m a v = true -> forall p, 0 <= p < Z.of_nat n -> load16 m (a + 2 * p) = v.
Proof.
  revert a. induction n as [|n IH]; intros a H p Hp; [lia|].
  cbn [all_cells] in H. apply andb_true_iff in H as [H1%Z.eqb_eq H2].
  destruct (decide (p = 0)) as [->|]; [by rewrite Z.add_0_r|].
  rewrite <- (IH (a + 2) H2 (p - 1)) by lia. f_equal. lia.
Qed.

(** The components of [observe s = at_start], by name. *)
Ltac open_observation O :=
  unfold observe, at_start in O;
  apply pair_equal_spec in O as [O [Sb1 Sb2]%pair_equal_spec];
  apply pair_equal_spec in O as [O L];
  apply pair_equal_spec in O as
    [O [[[Hp Hbin]%pair_equal_spec Hisr]%pair_equal_spec Hhw]%pair_equal_spec];
  apply pair_equal_spec in O as
    [O [[[Hfb Hcur]%pair_equal_spec Hctx]%pair_equal_spec Hb]%pair_equal_spec];
  apply pair_equal_spec in O as
    [[[Eo En]%pair_equal_spec Et]%pair_equal_spec [Eg Ej]%pair_equal_spec];
  unfold tables in Et; injection Et as Ev Ed Er Em;
  cbn [fmap list_fmap] in L; rewrite Hp in L.

Lemma boot_mounted :
  map_Forall (fun p _ => p < 274) boot_objs /\
  view as_list boot_objs 256 = Some boot_volumes.*1 /\ Forall (vol_at boot_objs) boot_volumes /\
  NoDup (VfsProps.Table.key <$> boot_volumes) /\ view as_list boot_objs 260 = Some boot_root.*1 /\
  Forall (entry_at boot_objs) boot_root /\ Forall2 lists boot_root boot_volumes.
Proof.
  split; [decided|]. split; [by vm_compute|]. split.
  { constructor; [|constructor; [|done]]; (split_and!; [done|by vm_compute|]; eexists;
      split; [done|]; split; [decided|]; split; [done|cbn; lia]). }
  split; [decided|]. split; [by vm_compute|]. split; repeat constructor; by vm_compute.
Qed.

Lemma observed_mounts s : observe s = at_start -> mounts s boot_volumes boot_root.
Proof.
  intros O. open_observation O. destruct boot_mounted as (H1 & H2 & H3 & H4 & H5 & H6 & H7).
  split; rewrite ?Eo, ?En, ?Ev, ?Er; try assumption; try lia.
  intros p [o Ho]. exact (H1 p o Ho).
Qed.

Lemma boot_installed :
  view as_list boot_objs 262 = Some boot_devices.*1 /\ Forall (entry_at boot_objs) boot_devices /\
  Forall (fun e => chars (vn_name e.2)) boot_devices /\ NoDup (dkey <$> boot_devices).
Proof.
  split; [by vm_compute|]. split; [repeat constructor; by vm_compute|]. split; decided.
Qed.

(** A device's file, in the objects. *)
Lemma boot_file d :
  d ∈ own_devices -> exists p name, find_entry boot_devices (file_name d) = Some (device_file p name d) /\
    p <> 0 /\ view as_node boot_objs p = Some (device_file p name d).2 /\
    view as_device boot_objs (Devfs.Impl.dev_ptr d) = Some d.
Proof.
  intros Hd. repeat (apply elem_of_cons in Hd as [-> |Hd]);
    [exists 272, "fb"|exists 268, "kbd"|exists 270, "clock"|exists 273, "vtcon"|by apply not_elem_of_nil in Hd];
    (split; [by vm_compute|]; split; [lia|]; split; by vm_compute).
Qed.

Lemma boot_devfs :
  view as_node boot_objs devfs_rootdir = Some (Node [] VN_FDIR 0 263 0) /\
  view as_volume boot_objs 263
    = Some (Volume (Some (chars_of "DEV")) (fsys_ptr devfs_fs) devfs_rootdir 0) /\
  view as_fsys boot_objs (fsys_ptr devfs_fs) = Some devfs_fs.
Proof. split; [|split]; by vm_compute. Qed.

Lemma observed_tree s :
  observe s = at_start -> device_tree s boot_volumes boot_root boot_devices.
Proof.
  intros O. pose proof (observed_mounts s O) as HM. open_observation O.
  destruct boot_installed as (I1 & I2 & I3 & I4). destruct boot_devfs as (D1 & D2 & D3). split.
  - intros i. by rewrite Eg.
  - exact HM.
  - split; rewrite ?Eo, ?En, ?Em; try assumption; try lia. intros p Hin.
    rewrite <- Eo in Hin. apply (m_fresh _ _ _ HM) in Hin. lia.
  - eexists. split; [by vm_compute|reflexivity].
  - rewrite Em, Ev, Er. split; lia.
  - exists (Node [] VN_FDIR 0 263 0). split; [|reflexivity]. eexists. rewrite Eo. split; [discriminate|].
    split; [exact D1|]. split; [discriminate|]. split; [exact D2|]. split; [reflexivity|exact D3].
  - intros d Hd. destruct (boot_file d Hd) as (p & name & F1 & F2 & F3 & F4). eexists. split; [exact F1|].
    eexists _, _. rewrite Eo. split; [exact F2|]. split; [exact F3|]. split; [reflexivity|].
    split; [reflexivity|]. split; [exact F4|]. split; [discriminate|]. split; [exact D2|].
    split; [reflexivity|exact D3].
Qed.

Lemma observed_ring m :
  (fun i => load32 m (0x200014 + 4 * i)) <$> [0; 1; 2; 3; 4] = [0x20003C; 1024; 0; 0; 0] ->
  Ringbuf.Rep.repr m 0x200014 1024 [] false.
Proof.
  intros H. injection H as H0 H1 H2 H3 H4.
  change (0x200014 + 4 * 0) with (0x200014 + 0) in *. change (0x200014 + 4 * 1) with (0x200014 + 4) in *.
  change (0x200014 + 4 * 2) with (0x200014 + 8) in *. change (0x200014 + 4 * 3) with (0x200014 + 12) in *.
  change (0x200014 + 4 * 4) with (0x200014 + 16) in *.
  split; Ringbuf.Rep.offs; rewrite ?H0, ?H1, ?H2, ?H3, ?H4; try done; lia.
Qed.

Lemma observed_screens s :
  contexts (o_vt s) = replicate 8 (VtContext 0 0 7 0 0) -> current_context (o_vt s) = 0%nat ->
  shows_start (kmem s) = true -> screens sample_frame s start_screens.
Proof.
  intros Hc Hcur Hb. unfold shows_start in Hb. apply andb_true_iff in Hb as [Hb0 Hb].
  rewrite forallb_forall in Hb. split.
  - done.
  - repeat constructor; by_evaluation.
  - intros i A HA. rewrite Hc. do 8 (destruct i as [|i]; [by injection HA as <-|]). done.
  - intros i A p HA Hp. assert (i < 8)%nat as Hi by exact (lookup_lt_Some _ _ _ HA).
    unfold VtconProps.Contexts.place. rewrite Hcur. case_decide as E0.
    + subst i. injection HA as <-. apply (all_cells_spec _ _ _ _ Hb0 p Hp).
    + specialize (Hb i (proj2 (in_seq 7 1 i) ltac:(lia))).
      rewrite (all_cells_spec _ _ _ _ Hb p Hp).
      destruct i as [|i]; [done|]. do 7 (destruct i as [|i]; [by injection HA as <-|]). lia.
Qed.

(** The console at the start. *)
Definition start_console : console := Console start_screens (replicate 8 0) 0.

Lemma observed_standby s :
  observe s = at_start -> standby sample_frame midnight 0x8000 0x200014 1024 s start_console.
Proof.
  intros O. open_observation O. pose proof (observed_ring (kmem s) L) as Hr. injection L as L0 _ _ _ _.
  change (0x200014 + 4 * 0) with (0x200014 + Ringbuf.Impl.o_buffer) in L0.
  split; rewrite ?Hctx, ?Hcur; try assumption.
  - exists (fun _ => 0). rewrite Hhw, Hbin. repeat split.
  - repeat split; by_evaluation.
  - reflexivity.
  - lia.
  - by apply observed_screens.
  - reflexivity.
  - reflexivity.
  - by exists false.
  - unfold buf_apart. rewrite L0. cbn. lia.
  - intros a. unfold Ringbuf.Rep.rb_cells. rewrite L0.
    unfold Ringbuf.Impl.sizeof_ringbuf, scratch. cbn. lia.
  - intros a. unfold Ringbuf.Rep.rb_cells. rewrite L0.
    unfold Ringbuf.Impl.sizeof_ringbuf, in_contexts. cbn. lia.
Qed.

Lemma boot_drivers :
  view as_list boot_objs 257 = Some (fsys_ptr <$> [rootfs_fs; rootfs_fs; devfs_fs; tarfs_driver]) /\
  Forall (fun f => view as_fsys boot_objs (fsys_ptr f) = Some f /\
      chars (ident (H := kernel_filesystems sample_config) f))
    [rootfs_fs; rootfs_fs; devfs_fs; tarfs_driver] /\
  view as_node boot_objs rootfs_root = Some (Node [] VN_FDIR 0 258 0) /\
  lookup_vol boot_volumes (chars_of "INITRD") = None.
Proof. split_and!; [by vm_compute|repeat constructor; by vm_compute|by vm_compute|by vm_compute]. Qed.

Lemma observed_started s :
  observe s = at_start -> started sample_config midnight 0x8000 0x200014 1024 s start_console.
Proof.
  intros O. pose proof (observed_standby s O) as HS. pose proof (observed_tree s O) as HT.
  open_observation O. destruct boot_drivers as (D1 & D2 & D3 & D4). split.
  - exact HS.
  - exists boot_volumes, boot_root, boot_devices. split; [exact HT|exact D4].
  - exists [rootfs_fs; rootfs_fs; devfs_fs; tarfs_driver]. split; [|reflexivity].
    unfold drivers_ok. rewrite Ed, Eo. split; [lia|]. split; [exact D1|exact D2].
  - eexists. rewrite Eo. exact D3.
  - by rewrite Ej.
Qed.

Lemma loaded_module : module_at loaded 0x9000 0x400000.
Proof. split; [by vm_compute|]. split; [split; [by vm_compute|decided]|by vm_compute]. Qed.

Lemma loaded_words :
  load32 loaded (0x9000 + mb_mods_addr) = 0x9100 /\ load32 loaded (0x9100 + mod_string) = 0x9200.
Proof. split; by vm_compute. Qed.

Lemma loaded_newline : cstr loaded 0x9300 [10].
Proof. split; [by vm_compute|decided]. Qed.

(** The message in the archive: the third entry, a regular file of 596 bytes. *)
Lemma boot_message :
  first sample_entries (VfsProps.Walk.join motd_path) = Some 2%nat /\
  (fun e => (e_type e, e_block e)) <$> sample_entries !! 2%nat = Some (48, 0x400400) /\
  sample_sizes !! 2%nat = Some 596 /\ load_bytes loaded 0x400600 596 = motd_text.
Proof. split; [by vm_compute|]. split; [by vm_compute|]. split; by vm_compute. Qed.

Lemma boot_located : locate sample_entries motd_path = Ok (Some 2%nat).
Proof. by vm_compute. Qed.

(** Its bytes are outside what the console and the reads write. *)
Lemma boot_message_place i e sz a :
  first sample_entries (VfsProps.Walk.join motd_path) = Some i -> sample_entries !! i = Some e ->
  sample_sizes !! i = Some sz ->
  e_type e = 48 /\ sz < 2147483648 /\ sz + 64 <= 64 * Z.of_nat (c_fuel sample_config) /\
  (e_block e + Tarfs.Impl.t_size <= a < e_block e + 512 + sz ->
   ~ scratch sample_frame a /\ ~ 0x8000 <= a < 0x8000 + 64).
Proof.
  destruct boot_message as (Hi & He & Hsz & _). rewrite Hi. intros [= <-] E S.
  rewrite E in He. rewrite S in Hsz. injection He as Hty Hb. injection Hsz as ->.
  split; [exact Hty|]. split; [lia|]. split; [cbn; lia|]. rewrite Hb.
  unfold scratch, Tarfs.Impl.t_size. cbn. lia.
Qed.

(** The names of the archive are outside what has to stay. *)
Lemma boot_names a :
  0xB8000 <= a < 0xB8000 + 4000 \/ in_contexts sample_frame a \/
    (0x200014 <= a < 0x200014 + Ringbuf.Impl.sizeof_ringbuf \/ 0x20003C <= a < 0x20003C + 1024) \/
    0x9300 <= a <= 0x9300 + 1 ->
  off_names sample_entries a.
Proof.
  unfold in_contexts, Ringbuf.Impl.sizeof_ringbuf, off_names. cbn [f_contexts sample_frame].
  intros Ha. repeat constructor; cbn [e_block]; lia.
Qed.

Lemma observed_ramdisk s :
  observe s = at_start ->
  ramdisk_at sample_config 0x8000 0x200014 1024 (kmem s) 0x9000 0x9300 sample_entries sample_sizes /\
  cstr (kmem s) 0x9300 [10] /\
  message (kmem s) sample_entries sample_sizes = Ok (motd_text ++ [10]).
Proof.
  intros O. open_observation O. injection L as L0 _ _ _ _.
  change (0x200014 + 4 * 0) with (0x200014 + Ringbuf.Impl.o_buffer) in L0.
  pose proof (same_bytes_agree _ _ _ _ Sb1) as A1. pose proof (same_bytes_agree _ _ _ _ Sb2) as A2.
  change (Z.of_nat 0x302) with 0x302 in A1. change (Z.of_nat 0xA01) with 0xA01 in A2.
  split; [split|split].
  - exists 0x400000. split; [|by apply sample_tarball_of].
    apply (module_at_agree _ loaded (kmem s) _ _ loaded_module A1).
    destruct loaded_words as [-> ->]. intros a Ha. lia.
  - intros a Ha. apply boot_names. unfold Ringbuf.Rep.rb_cells in Ha. rewrite L0 in Ha. exact Ha.
  - intros i e sz Hi He Hsz.
    destruct (boot_message_place i e sz 0 Hi He Hsz) as (H1 & H2 & H3 & _).
    split; [exact H1|]. split; [exact H2|]. split; [exact H3|].
    intros a. exact (proj2 (proj2 (proj2 (boot_message_place i e sz a Hi He Hsz)))).
  - apply (CString.Facts.cstr_agree loaded _ _ _ loaded_newline). eapply agree_weaken; [|exact A1].
    intros a Ha. change (Z.of_nat (length [10])) with 1 in Ha. cbv beta. lia.
  - destruct boot_message as (_ & He & Hsz & Hm). unfold message. rewrite boot_located.
    destruct (sample_entries !! 2%nat) as [e|]; [|discriminate He]. injection He as _ Hbl.
    rewrite Hsz, Hbl, <- Hm. do 2 f_equal. symmetry. apply (load_bytes_agree _ _ _ _ _ A2).
    intros i Hi'. lia.
Qed.

(** The bounds, and the places apart from each other. *)
Lemma boot_fuel : (100 <= c_fuel sample_config)%nat.
Proof. cbn. lia. Qed.
Lemma boot_depth : (100 <= c_depth sample_config)%nat.
Proof. cbn. lia. Qed.
Lemma boot_sizes : (length sample_sizes + 12 <= c_fuel sample_config)%nat.
Proof. cbn. lia. Qed.
Lemma boot_kbd : off_screen (f_kbd (c_frame sample_config)) 17.
Proof. left. cbn. lia. Qed.
Lemma boot_kbd_contexts : off_contexts (c_frame sample_config) (f_kbd (c_frame sample_config)) 17.
Proof. left. cbn. lia. Qed.
Lemma boot_buf : off_screen 0x8000 64.
Proof. left. lia. Qed.
Lemma boot_buf_contexts : off_contexts (c_frame sample_config) 0x8000 64.
Proof. left. cbn. lia. Qed.
Lemma boot_buf_scratch i : 0 <= i < 64 -> ~ scratch (c_frame sample_config) (0x8000 + i).
Proof. unfold scratch. cbn. lia. Qed.
Lemma boot_paging (t : ker) : (mret tt : M ker unit) t = Ok (tt, t).
Proof. reflexivity. Qed.
Lemma boot_newline_apart a :
  0x9300 <= a <= 0x9300 + 1 -> ~ scratch (c_frame sample_config) a /\ ~ 0x8000 <= a < 0x8000 + 64.
Proof. unfold scratch. cbn. lia. Qed.

(** The machine after [kernel_main], with one round of the last loop. *)
Lemma booted_runs :
  exists s, boot (fun _ => 0) = Ok (tt, s) /\
    runs sample_frame midnight 0x8000 0x200014 1024 s
      (type_text (motd_text ++ [10]) start_console) [].
Proof.
  destruct (run_observed (setup (H := sample_heap) sample_config descriptors sample_drivers
    (boot_ker (fun _ => 0))) observe tt at_start start_observed) as (s & R & O).
  destruct (observed_ramdisk s O) as (HR & Hnl & Hmsg).
  pose proof (@kernel_main_run sample_heap sample_config 0 midnight 0x8000 0x200014 1024 descriptors sample_drivers
    (mret tt) 0x9000 1 0x9300 (boot_ker (fun _ => 0)) s start_console sample_entries sample_sizes
    eq_refl boot_fuel boot_depth boot_sizes sample_frame_ok sample_contexts_apart boot_kbd boot_kbd_contexts
    boot_buf boot_buf_contexts boot_buf_scratch boot_paging boot_newline_apart R
    (observed_started s O) HR Hnl) as K.
  rewrite Hmsg in K. exact K.
Qed.

(** The screen with the message, as a page of text. *)
Definition motd_screen : screen := foldl type_char (empty_screen 0x700) (motd_text ++ [10]).

Lemma motd_screen_cells :
  (fun k => s_cell motd_screen (Z.of_nat k)) <$> seq 0 1920
  = Z.add 0x700 <$> (page motd_text ++ replicate 480 0).
Proof. vm_compute. reflexivity. Qed.

Lemma screen_of_list (f : Z -> Z) a (l : list Z) n p :
  (fun k => f (Z.of_nat k)) <$> seq 0 (length l + n) = Z.add a <$> (l ++ replicate n 0) ->
  0 <= p < Z.of_nat (length l + n) -> f p = a + nth (Z.to_nat p) l 0.
Proof.
  intros E Hp. apply (f_equal (fun l => l !! Z.to_nat p)) in E. revert E.
  rewrite !list_lookup_fmap, lookup_seq_lt by lia. cbn [fmap option_fmap option_map].
  change (0 + Z.to_nat p)%nat with (Z.to_nat p). rewrite Z2Nat.id by lia.
  rewrite nth_lookup. destruct (decide (Z.to_nat p < length l)%nat) as [Hlt|Hge].
  - rewrite lookup_app_l by done. destruct (l !! Z.to_nat p) as [ch|]; [by intros [= ->]|done].
  - rewrite lookup_app_r, lookup_replicate_2, (lookup_ge_None_2 l) by lia. by intros [= ->].
Qed.

Lemma motd_screen_shows p :
  0 <= p < 1920 -> s_cell motd_screen p = 0x700 + nth (Z.to_nat p) (page motd_text) 0.
Proof.
  assert (length (page motd_text) = 1440%nat) as Hl by by vm_compute.
  intros Hp. apply (screen_of_list _ _ _ 480); rewrite Hl; [exact motd_screen_cells|exact Hp].
Qed.

Lemma motd_typed :
  type_text (motd_text ++ [10]) start_console
  = Console (motd_screen :: replicate 7 (empty_screen 0x720)) (replicate 8 0) 0.
Proof. reflexivity. Qed.

(** Shift is pressed, A, Shift is released, B; the right arrow, whose two bytes
    arrive together; A is pressed and released before the next read, which
    loses both; a read without a key. *)
Definition some_keys : list (list Z) :=
  [[0x2A]; [0x1E]; [0xAA]; [0x30]; [0xE0; 0x4D]; [0x1E; 0x9E]; []].
Lemma keys_typed A As :
  turns 1024 0 (Console (A :: As) (replicate 8 0) 0) some_keys
  = ([Some (Kbdev VK_LSHF 1); Some (Kbdev 65 1); Some (Kbdev VK_LSHF 16); Some (Kbdev 98 0);
      Some (Kbdev VK_CRGT 0); None; None],
     Console (foldl type_char A (chars_of "Ab^[[C") :: As) (replicate 8 0) 0).
Proof. reflexivity. Qed.

End Booted.
Import KernMain.Sample VtconProps.Start Booted.

(** ** Properties *)

(** C5: The kernel shows the ramdisk's message of the day.  [kernel_main], from
    the state that the initialisation of file systems and devices leaves, with
    a zero in the word of fresh memory that becomes the archive's root, mounts
    the archive and opens the console.  If the archive has entries for its root,
    for the directory SYSTEM and for the file SYSTEM/MOTD.TXT (a regular file
    whose bytes are apart from the screen and the buffers), it finds the file
    by its path and types its bytes and a newline on the screen that is shown,
    through both file systems; then it is in its last loop with nothing pending.
    If the file is missing, SYSTEM is no directory or the root has no entry, the
    screens stay as they are.  If there is no SYSTEM in the root, it
    dereferences NULL. *)
Theorem kernel_main_shows_motd `{Allocator} c levels clock buf p n descriptors drivers paging mbi
    rounds newline s0 s C es sizes
    (Hlevels : c_levels c = S levels) (Hf : (100 <= c_fuel c)%nat) (Hdepth : (100 <= c_depth c)%nat)
    (Hf2 : (length sizes + 12 <= c_fuel c)%nat)
    (FO : frame_ok (c_frame c)) (FA : contexts_apart (c_frame c))
    (FK : off_screen (f_kbd (c_frame c)) 17) (FKC : off_contexts (c_frame c) (f_kbd (c_frame c)) 17)
    (FB : off_screen buf 64) (FBC : off_contexts (c_frame c) buf 64)
    (FBS : forall i, 0 <= i < 64 -> ~ scratch (c_frame c) (buf + i))
    (Hpaging : forall t, paging t = Ok (tt, t))
    (Hnl : forall a, newline <= a <= newline + 1 -> ~ scratch (c_frame c) a /\ ~ buf <= a < buf + 64)
    (Hs : setup c descriptors drivers s0 = Ok (tt, s))
    (HS : started c clock buf p n s C) (HR : ramdisk_at c buf p n (kmem s) mbi newline es sizes)
    (Hlit : cstr (kmem s) newline [10]) :
  (directory es [] -> directory es (chars_of "SYSTEM") ->
    locate es motd_path = Ok (first es (chars_of "SYSTEM/MOTD.TXT"))) /\
  (directory es [] -> first es (chars_of "SYSTEM") = None -> message (kmem s) es sizes = Err NullDeref) /\
  match message (kmem s) es sizes with
  | Ok text => exists s', kernel_main c descriptors drivers paging mbi rounds buf newline s0 = Ok (tt, s') /\
      runs (c_frame c) clock buf p n s' (type_text text C) []
  | Err x => kernel_main c descriptors drivers paging mbi rounds buf newline s0 = Err x
  end.
Proof.
  split; [|split].
  - by apply motd_located.
  - intros D1 D2. unfold message. by rewrite (system_missing es D1 D2).
  - by apply (kernel_main_run c levels clock buf p n descriptors drivers paging mbi rounds newline s0 s C
      es sizes).
Qed.

(** On the sample machine: the archive has the repository's message. *)
Lemma kernel_main_shows_motd_witness :
  exists s', kernel_main sample_config descriptors sample_drivers (mret tt) 0x9000 1 0x8000 0x9300
      (boot_ker (fun _ => 0)) = Ok (tt, s') /\
    runs sample_frame midnight 0x8000 0x200014 1024 s'
      (type_text (motd_text ++ [10]) start_console) [].
Proof.
  destruct (run_observed (setup (H := sample_heap) sample_config descriptors sample_drivers
    (boot_ker (fun _ => 0))) observe tt at_start start_observed) as (s & R & O).
  destruct (observed_ramdisk s O) as (HR & Hnl & Hmsg).
  pose proof (@kernel_main_shows_motd sample_heap sample_config 0 midnight 0x8000 0x200014 1024 descriptors
    sample_drivers (mret tt) 0x9000 1 0x9300 (boot_ker (fun _ => 0)) s start_console sample_entries
    sample_sizes eq_refl boot_fuel boot_depth boot_sizes sample_frame_ok sample_contexts_apart boot_kbd
    boot_kbd_contexts boot_buf boot_buf_contexts boot_buf_scratch boot_paging boot_newline_apart R
    (observed_started s O) HR Hnl) as (_ & _ & K).
  rewrite Hmsg in K. exact K.
Defined.

(** The sample machine boots to its message: fresh memory is zero, every port
    reads as 0, and the ramdisk has the repository's message of the day.  After
    [kernel_main] the rows of the screen are the lines of the message in the
    default colours, the seven other contexts are blank, and the hardware
    cursor is at the start of the line below. *)
Lemma boot_prints_motd :
  exists s, boot (fun _ => 0) = Ok (tt, s) /\
    (forall p, 0 <= p < 1920 ->
      place sample_frame s 0 p = 0x700 + nth (Z.to_nat p) (page motd_text) 0) /\
    (forall i p, (0 < i < 8)%nat -> 0 <= p < 1920 -> place sample_frame s i p = 0x720) /\
    current_context (o_vt s) = 0%nat /\ Vgafb.Facts.cursor (k_io (i_k (o_dst s))) = 80 * 18.
Proof.
  destruct booted_runs as (s & R & H). rewrite motd_typed in H. exists s.
  pose proof (rn_screens _ _ _ _ _ _ _ _ H) as HS. cbn [scrs] in HS. split_and!.
  - exact R.
  - intros p Hp. rewrite (sc_cells _ _ _ HS 0 motd_screen p eq_refl Hp). by apply motd_screen_shows.
  - intros i p Hi Hp. apply (sc_cells _ _ _ HS i (empty_screen 0x720)); [|done].
    destruct i as [|i]; [lia|]. cbn [lookup list_lookup]. apply lookup_replicate_2. lia.
  - exact (rn_shown _ _ _ _ _ _ _ _ H).
  - rewrite (rn_cursor _ _ _ _ _ _ _ _ H motd_screen eq_refl). by vm_compute.
Qed.

(** C4: Keys drive the console from the interrupt to the screen.  Whatever
    scancodes arrive, each through the keyboard's interrupt, and however many of
    them before each read, the reads answer with the events of the abstract
    console and the machine goes through its states.  A key that is read before
    the next one arrives is reported under the modifiers of its time, and so is
    an extended scancode whose two bytes arrive together; text, control keys, tabs
    and backspaces are typed on the screen that is shown, F1 to F8 select another
    one.  Of more bytes, only what is behind the last delivery of 17 and stands
    for one scancode is reported, of more than the ring holds only the last
    ones; the rest is lost, and nothing is left pending. *)
Theorem keystrokes_drive_console {fs : FsDrivers} {CF : ConsoleFiles fs} {KF : KeyboardFile fs}
    F V c buf p n fuel vk0 e bss s C
    (FO : frame_ok F) (FA : contexts_apart F)
    (FK : off_screen (f_kbd F) 17) (FKC : off_contexts F (f_kbd F) 17)
    (FB : off_screen buf 64) (FBC : off_contexts F buf 64)
    (Hfuel : (Z.to_nat n / 17 + 2 <= fuel)%nat) (Hvk : 0 <= vk0 < 256)
    (H : runs F c buf p n s C []) :
  exists s', session F V fuel vk0 e buf bss s = Ok (answer <$> (turns n vk0 C bss).1, s') /\
    runs F c buf p n s' (turns n vk0 C bss).2 [].
Proof. by apply runs_session. Qed.

(** On the machine that has booted: "Ab" and the arrow's "^[[C" are behind the
    message of the day. *)
Lemma keystrokes_drive_console_witness :
  exists s s', boot (fun _ => 0) = Ok (tt, s) /\
    session (H := VtconProps.Start.sample_fs) sample_frame (chars_of "NativeOS Preview") 100 0 0 0x8000
      some_keys s
    = Ok ([(4, Some (Kbdev VK_LSHF 1)); (4, Some (Kbdev 65 1)); (4, Some (Kbdev VK_LSHF 16));
           (4, Some (Kbdev 98 0)); (4, Some (Kbdev VK_CRGT 0)); (0, None); (0, None)], s') /\
    screens sample_frame s'
      (foldl type_char motd_screen (chars_of "Ab^[[C") :: replicate 7 (empty_screen 0x720)).
Proof.
  destruct booted_runs as (s & R & H). rewrite motd_typed in H. exists s.
  destruct (keystrokes_drive_console (fs := VtconProps.Start.sample_fs)
    (CF := VtconProps.Start.sample_files) (KF := VtconKeys.Typing.sample_keyboard) sample_frame
    (chars_of "NativeOS Preview") midnight 0x8000 0x200014 1024 100 0 0 some_keys s
    (Console (motd_screen :: replicate 7 (empty_screen 0x720)) (replicate 8 0) 0)
    sample_frame_ok sample_contexts_apart) as (s' & R' & H'); [..|exact H|].
  - left. cbn. lia.
  - left. cbn. lia.
  - left. lia.
  - left. cbn. lia.
  - apply Nat.leb_le. by vm_compute.
  - lia.
  - rewrite keys_typed in R', H'. exists s'.
    exact (conj R (conj R' (rn_screens _ _ _ _ _ _ _ _ H'))).
Defined.
